(* ===== verification/_CoqProject ===== *)
-Q . S2P
Prelude.v
GoRuntime.v
Depgraph.v
DepgraphImpact.v
Validation.v
Identity.v
Lifecycle.v
ControlClient.v
Registry.v
Plugin.v
Broker.v
Handshake.v
Router.v
CircuitBreaker.v
GoFloat.v
GoRound.v
Retry.v
Backoff.v
RateLimit.v
RateBound.v
RateInvariant.v
Health.v
Discovery.v
Client.v
Server.v
Platform.v
Auth.v
Streaming.v
KVStore.v
Launcher.v
MemTransport.v
Strategies.v
Generator.v
NetURL.v
JSON.v
PluginApp.v
StoragePlugin.v
ApiPlugin.v
ExamplePlugins.v
PluginServers.v
Host.v
URLShortener.v
PluginStartup.v
KVLogging.v
KVPrograms.v
FxModule.v
HostInvariant.v
InMemoryPrograms.v
FxManaged.v
Managed.v
KVIntegration.v
KVWatch.v
Connect.v
Stubs.v
Wire.v
WirePlatform.v
LoggerPlugin.v
Harness.v
