(* ===== verification/Prelude.v ===== *)
(** * connect-plugin: a verification library for connect-plugin-go

    connect-plugin-go is a Go plugin system over Connect RPC: a host serves plugins
    and mediates between them, plugins register services, discover those of others
    and call them through the host.  This library models the host side and the
    client of the repository as executable definitions, and proves what makes each
    part correct; and, from the example programs, whole deployments of plugins
    and host, proved correct together.

    ** The parts, and where they are modelled

    Every file has a module for each part; a definition carries the name of the Go function,
    method or type it translates (a prefix is added where two types of the package
    have a method of the same name).

    - [Prelude]: maps read with default, Go's [range], machine integers, sorting,
      counting, cycles; the automation of the library.
    - [GoRuntime]: error values, package strings, headers, time.  [GoFloat]:
      binary64 numbers, executable, and exact on integers below 2^53.  [GoRound]:
      what rounding does to non-negative numbers.
    - [Depgraph], [DepgraphImpact]: internal/depgraph/depgraph.go, the dependency
      graph of plugins: Add, Remove, StartupOrder (Kahn's algorithm), GetImpact.
    - [Validation]: validation.go, with both regular expressions and a matcher.
    - [Identity]: the random ids and tokens of handshake.go, registry.go, broker.go.
    - [Lifecycle]: lifecycle.go, health reports and the routing decision;
      [ControlClient]: its control client.
    - [Registry]: registry.go, registration, selection, discovery, watchers.
    - [Plugin]: plugin.go and errors.go.  [Broker]: broker.go, capability grants.
    - [Handshake]: handshake.go and ServeConfig of server.go.
    - [Router]: router.go, authentication and proxying of plugin-to-plugin calls.
    - [CircuitBreaker], [Retry], [RateLimit]: the interceptors of circuitbreaker.go,
      retry.go, ratelimit.go.  [Backoff], [RateBound], [RateInvariant]: what their
      floating-point arithmetic guarantees.  [Health]: health.go.
    - [Discovery]: discovery.go.  [Client]: client.go.  [Server]: server.go and the
      mux of broker.go.  [Platform]: platform.go.
    - [Auth]: auth.go, auth_token.go, auth_mtls.go.  [Streaming]: streaming.go.
      [KVStore]: examples/kv/impl/store.go.
    - [Launcher]: launcher.go and launch_strategy.go.  [MemTransport]:
      internal/memtransport/listener.go.  [Strategies]: launch_inmemory.go and
      launch_process.go.  [Generator]: cmd/protoc-gen-connect-plugin/main.go.
    - [NetURL], [JSON]: what the examples use of net/url and encoding/json.
      [FxModule]: connectpluginfx/module.go.
    - [PluginApp]: what the five programs examples/*-plugin/main.go share;
      [StoragePlugin], [ApiPlugin] (with examples/url-client/main.go) and
      [ExamplePlugins] (logger, cache, app): the programs.  [Host]:
      examples/docker-compose/host/main.go and the network of its plugins.
    - [HostInvariant]: the states of the host that any requests lead to.
      [URLShortener]: client, API plugin, host, storage plugin and the rest, put
      together.  [PluginStartup]: a plugin's start against a host, and under a
      platform.
    - [Managed]: a platform and its router as one deployment, and the traces of
      everything that can happen to it.
    - [KVLogging]: examples/capabilities/logger, examples/kv/impl-with-logger and
      server-with-logger.  [KVPrograms]: examples/kv/server and host.  [KVWatch]:
      examples/kv/host-watch.  [KVIntegration]: examples/kv/integ-fx.
    - [PluginServers]: how the five example plugins listen and stop.
    - [InMemoryPrograms]: examples/direct-dispatch and fx-direct, a launcher, the
      in-memory strategy, its listeners and the store put together.  [FxManaged]:
      examples/fx-managed, with both strategies.
    - [Connect]: the Connect library, as classes with laws.  [Stubs]: the generated
      clients and handlers of gen/plugin/v1/connectpluginv1connect, loggerv1connect
      and kvv1connect.  [Wire]: the example host and the key-value programs with
      every RPC made through them.  [WirePlatform]: pluginidentity.go, and a platform
      that adds an example plugin on the wire.  [LoggerPlugin]: gen/loggerv1plugin and
      gen/loggerv1delegate, served and dispensed.
    - [Harness]: internal/testharness.

    The router asks the handshake server, the registry and the health reports
    ([Router] requires [Handshake], [Registry], [Lifecycle]); the platform drives the
    graph, the registry, the reports and the router's table ([Platform]); the client
    speaks to the handshake server ([Client]); the server mounts everything
    ([Server]); the launcher runs strategies against the registry ([Launcher],
    [Strategies]).  Interfaces of the program are classes or records of operations
    with laws: the discovery service, the rate limiter, the authentication provider
    ([Authenticates]), the launch strategy, the parts of the world it acts on
    ([Lens], [Independent]).  An example program is written against the class of the
    calls it makes ([World], [Peer], [Host]); the compositions give the instances,
    made of the library's own servers ([net_world], [served_peer], [log_host]).  Codec
    and transport of an RPC are the classes [Message] and [ConnectGo]; [wire_world] and
    [wire_peer] are the instances of [World] and [Peer] whose calls travel through
    generated client, URL, mux and generated handler.

    ** How the program is modelled

    - A struct under a mutex is a record, and every critical section a function from
      state to state and result.  A method that takes its lock more than once, or
      releases it around a callback, is several steps, and what others do in between
      is an argument or an event (the circuit breaker's callbacks, the rate limiter's
      bucket creation, DiscoverService, WatchService, waitForHealthy).
    - A select statement over channels takes any ready case; an event or an argument
      names the case ([Streaming], [MemTransport], [Health], [KVStore]).  Watchers
      and buckets, which are shared objects, have addresses.
    - The iteration order of a map is unspecified in Go: [GoRange] gives any
      permutation, a different one for every loop, and the theorems hold for all.
    - An (value, error) pair is [res]; a run-time panic or an endless wait is [None],
      except where the state a panic leaves matters ([ControlClient], [Platform],
      [Server]): there it is a result like any other.
    - Integers are [Z], wrapped to 64 or 32 bits where the code can leave the range;
      strings are byte strings; time is a number of nanoseconds; floating-point
      numbers are binary64 ([GoFloat]).
    - crypto/rand, math/rand, the clock, the network, processes, user callbacks and
      the RPC stubs are arguments.  No axiom is declared.

    ** What the theorems show

    - Refinement of an abstract specification: StartupOrder returns the unique
      sequence that always starts the least startable plugin; the registry is the log
      of live registrations; the circuit breaker is the Closed/Open/HalfOpen
      machine; lazily expired tokens are the latest issued, unexpired ones; the five
      processes of the URL shortener are a map from codes to URLs, for texts that
      need no encoding and whatever else acts on the host.
    - Invariants under every interleaving: the example host under any requests from
      anybody, the circuit breaker with its callbacks, the in-memory listener, the
      channel pump, the health watchers, the platform's tables, the counts of the
      token buckets.
    - Safety: discovery on the host answers in every reachable state, with the oldest
      acceptable registration.  Safety of access: the router forwards exactly
      authenticated requests and never the credentials, in any trace of a managed
      deployment only for tokens that a handshake issued before; capability requests
      need a live grant and its token; a composed authentication server calls its
      handler for accepted requests only.
    - Functional behaviour on every branch: selection strategies and their fairness,
      impact analysis, the handshake and its two halves, adding a plugin as a
      transaction, serving, launching, retrying, rate limits;
      what starting an example plugin leaves behind, the key-value clients run against
      their server, alone and in company, and the test harness, which stops what it
      starts whatever happens.
    - Bounds: for whole rates, over schedules of whole seconds, with cleanups where a
      bucket fills up in five minutes, the rate limiter answers as a bucket of
      integers, and lets through no more than burst and rate allow in any window;
      for policies in the range of exact float64 integers backoffs stay within their
      cap and their jitter; selection by turns with its wrap-around.
    - Error behaviour: a plugin that waits for its platform can neither register nor
      report, and adding it fails and is undone.  Removing a plugin, and replacing one
      by a healthy version, panic half-way on every platform there is (unless the
      endpoint is no URL), because its control clients are made without an HTTP client
      ([reachable_platform_inv]); the state they leave is stated in full
      ([RemovePlugin_outcomes], [ReplacePlugin_outcomes]).
    - Round trips: a generated plugin that is served and dispensed is its
      implementation; discovered endpoints, grants, tokens, random encodings, adding
      and removing graph nodes.
    - Equivalence: the code generator prints interface and delegate with the same
      signatures; the logging store is the plain one; a store launched in memory is
      the store, until the launcher is shut down; the regular expressions are
      decided by their matcher.
    - Transparency of the wire: a remote call through the generated code is the call of
      the method it names, with the header fields the servers read and with the code
      of its error; hence the host's RPCs, and the key-value programs as a whole,
      behave on the wire as the direct calls do.
    - Termination: Kahn's loop, the impact analysis, the retry loop, the pump, the
      wait for a plugin's health.
    - Lemmas named after the behaviour they exhibit record where the code and its
      documentation part (for example [error_may_be_lost], [broker_rpc_unreachable],
      [replace_times_out], [affected_services_lists_available], [failing_handler_runs_twice], [managed_logger_unused]).

    ** Fuel and bounds

    [kahn_loop] takes one unit of fuel for each plugin started and gets as many as
    there are plugins; [findDependents] takes one for each plugin on its path and
    gets one more than there are; both are proved not to run out.  The retry loop
    recurses on the attempts that are left.  The JSON parser takes
    one unit for each value and member, and gets one more than twice the length of its
    text.  Waits recurse on the list of the events that wake them.  Buffers have the
    capacities of the code: ten events for a registry watcher, one status for a
    health watcher, thirty-two changes for a store watcher, sixteen connections for
    the in-memory listener.

    ** What is not modelled

    Generated protobuf code (messages are records of the fields that are read, their
    codec a class), the inside of connect-go, log lines, the HTTP transport,
    TLS beyond the configuration that is chosen, and the fx container (its hooks are
    run in the documented order, and none when a constructor fails).  Of
    [http.ServeMux] the matching of plain patterns is modelled, without methods, hosts, wildcards, path
    cleaning and redirects; of net/url the URLs with an authority, of encoding/json
    the decoding of an object of strings.  In the deployments a request is one step of
    the host it reaches, and other parties act between steps.  Of binary64 the laws for
    negative numbers and the size of rounding errors are left out. *)

From stdpp Require Import prelude gmap strings list fin_maps sorting.
From Stdlib Require Import ZArith.

(** ** Notation scope of the development *)

Declare Scope go_scope.
Delimit Scope go_scope with go.

(** Reading a Go map: an absent key reads as the zero value [d] of the value type. *)
Definition get_or {A} (d : A) (m : gmap string A) (k : string) : A := default d (m !! k).

#[global] Open Scope go_scope.

Lemma get_or_insert_eq {A} (d : A) m k v : get_or d (<[k:=v]> m) k = v.
Proof. unfold get_or. by rewrite lookup_insert_eq. Qed.

Lemma get_or_insert_ne {A} (d : A) m k k' v : k ≠ k' → get_or d (<[k:=v]> m) k' = get_or d m k'.
Proof. intros. unfold get_or. by rewrite lookup_insert_ne. Qed.

Lemma get_or_insert {A} (d : A) m k k' v :
  get_or d (<[k:=v]> m) k' = if decide (k = k') then v else get_or d m k'.
Proof.
  case_decide; subst; [apply get_or_insert_eq | by apply get_or_insert_ne].
Qed.

Lemma get_or_delete {A} (d : A) m k k' :
  get_or d (delete k m) k' = if decide (k = k') then d else get_or d m k'.
Proof. unfold get_or. rewrite lookup_delete. by case_decide. Qed.

Lemma get_or_empty {A} (d : A) k : get_or d ∅ k = d.
Proof. unfold get_or. by rewrite lookup_empty. Qed.

Lemma get_or_Some {A} (d : A) (m : gmap string A) k v : m !! k = Some v → get_or d m k = v.
Proof. unfold get_or. by intros ->. Qed.

Lemma get_or_None {A} (d : A) (m : gmap string A) k : m !! k = None → get_or d m k = d.
Proof. unfold get_or. by intros ->. Qed.

(** ** Go's [range] over a map

    The iteration order of a map is unspecified and may differ from one loop to
    the next: the [n]-th execution of a range statement enumerates the entries in
    some order, of which only the multiset of entries is known. *)
Class GoRange := {
  go_range : ∀ {A : Type}, nat → gmap string A → list (string * A);
  go_range_perm : ∀ {A : Type} n (m : gmap string A), go_range n m ≡ₚ map_to_list m;
}.

Section go_range.
Context `{GR : GoRange}.

Lemma elem_of_go_range {A} n (m : gmap string A) k v : (k, v) ∈ go_range n m ↔ m !! k = Some v.
Proof. by rewrite go_range_perm, elem_of_map_to_list. Qed.

Lemma NoDup_fst_go_range {A} n (m : gmap string A) : NoDup (go_range n m).*1.
Proof. rewrite go_range_perm. apply NoDup_fst_map_to_list. Qed.

Lemma elem_of_fst_go_range {A} n (m : gmap string A) k :
  k ∈ (go_range n m).*1 ↔ is_Some (m !! k).
Proof.
  rewrite list_elem_of_fmap. split.
  - intros ([k' v] & -> & H%elem_of_go_range). by eexists.
  - intros [v H]. exists (k, v). by rewrite elem_of_go_range.
Qed.

Lemma go_range_empty {A} n : go_range n (∅ : gmap string A) = [].
Proof. apply Permutation_nil_r. by rewrite go_range_perm, map_to_list_empty. Qed.

Lemma go_range_singleton {A} n k (v : A) : go_range n {[k := v]} = [(k, v)].
Proof. apply Permutation_singleton_r. by rewrite go_range_perm, map_to_list_singleton. Qed.
End go_range.

(** Two orders used by the witnesses: ascending insertion order of the map's own
    enumeration, and its reverse. *)
#[export] Instance range_fwd : GoRange | 10 := {
  go_range A n m := map_to_list m;
  go_range_perm A n m := Permutation_refl _;
}.

Definition range_bwd : GoRange := {|
  go_range A n m := reverse (map_to_list m);
  go_range_perm A n m := reverse_Permutation _;
|}.

(** ** Machine integers: Go's [int] and [time.Duration] are 64-bit two's complement *)
Definition min64 : Z := (- 2 ^ 63)%Z.
Definition max64 : Z := (2 ^ 63 - 1)%Z.
Definition wrap64 (z : Z) : Z := ((z + 2 ^ 63) mod 2 ^ 64 - 2 ^ 63)%Z.
Definition in64 (z : Z) : Prop := (min64 ≤ z ≤ max64)%Z.

Lemma wrap64_id z : in64 z → wrap64 z = z.
Proof. unfold in64, min64, max64, wrap64. intros. rewrite Z.mod_small; lia. Qed.

Lemma wrap64_in64 z : in64 (wrap64 z).
Proof.
  unfold in64, min64, max64, wrap64.
  pose proof (Z.mod_pos_bound (z + 2 ^ 63) (2 ^ 64) ltac:(lia)). lia.
Qed.

(** Conversion of an [int] to [int32]. *)
Definition wrap32 (z : Z) : Z := ((z + 2 ^ 31) mod 2 ^ 32 - 2 ^ 31)%Z.

Lemma wrap32_id z : (- 2 ^ 31 ≤ z < 2 ^ 31)%Z → wrap32 z = z.
Proof. unfold wrap32. intros. rewrite Z.mod_small; lia. Qed.

(** ** The delete-first idiom
    [for i, p := range l { if f(p) { l = append(l[:i], l[i+1:]...); break } }] *)
Fixpoint remove_first {A} (f : A → bool) (l : list A) : list A :=
  match l with
  | [] => []
  | x :: l' => if f x then l' else x :: remove_first f l'
  end.

(** Filtering with a predicate every element satisfies. *)
Lemma filter_id {A} (P : A → Prop) `{∀ x, Decision (P x)} (l : list A) :
  (∀ x, x ∈ l → P x) → filter P l = l.
Proof.
  induction l as [|x l IH]; intros Hl; [done|].
  rewrite filter_cons, decide_True by (apply Hl; left). f_equal.
  apply IH. intros. apply Hl. by right.
Qed.

(** Filters that agree on the elements of a list. *)
Lemma filter_ext_in {A} (P Q : A → Prop) `{∀ x, Decision (P x)} `{∀ x, Decision (Q x)} (l : list A) :
  (∀ x, x ∈ l → P x ↔ Q x) → filter P l = filter Q l.
Proof.
  induction l as [|x l IH]; intros Hl; [done|]. rewrite !filter_cons, IH.
  - destruct (Hl x ltac:(left)) as [H1 H2]. do 2 case_decide; try done; tauto.
  - intros y Hy. apply Hl. by right.
Qed.

(** The element of a list with a given key is unique when keys are distinct. *)
Lemma NoDup_fmap_inj_in {A B} (f : A → B) (l : list A) x y :
  NoDup (f <$> l) → x ∈ l → y ∈ l → f x = f y → x = y.
Proof.
  intros Hnd Hx Hy E. apply list_elem_of_lookup in Hx as [i Hi], Hy as [j Hj].
  assert (i = j) as ->; [|congruence].
  eapply NoDup_lookup; [exact Hnd|..]; rewrite list_lookup_fmap.
  - by rewrite Hi.
  - rewrite Hj. simpl. by rewrite E.
Qed.

Section remove_first.
Context {A : Type} (f : A → bool).
Implicit Types l : list A.

Lemma remove_first_none l : (∀ x, x ∈ l → f x = false) → remove_first f l = l.
Proof.
  induction l as [|x l IH]; intros H; simpl; [done|].
  rewrite (H x) by left. f_equal. apply IH. intros. apply H. by right.
Qed.

Lemma remove_first_sublist l : remove_first f l `sublist_of` l.
Proof.
  induction l as [|x l IH]; simpl; [done|].
  destruct (f x); by repeat constructor.
Qed.

Lemma remove_first_app_here l1 x l2 :
  (∀ y, y ∈ l1 → f y = false) → f x = true → remove_first f (l1 ++ x :: l2) = l1 ++ l2.
Proof.
  induction l1 as [|y l1 IH]; intros H Hx; simpl; [by rewrite Hx|].
  rewrite (H y) by left. f_equal. apply IH; [|done]. intros. apply H. by right.
Qed.

(** When at most one element satisfies [f], deleting the first is filtering. *)
Lemma remove_first_filter l :
  (∀ l1 x l2, l = l1 ++ x :: l2 → f x = true → ∀ y, y ∈ l2 → f y = false) →
  remove_first f l = filter (λ x, f x = false) l.
Proof.
  induction l as [|x l IH]; intros H; simpl; [done|].
  rewrite filter_cons. destruct (f x) eqn:E.
  - rewrite decide_False by done. symmetry. apply filter_id.
    exact (H [] x l eq_refl E).
  - rewrite decide_True by done. f_equal. apply IH.
    intros l1 y l2 ->. exact (H (x :: l1) y l2 eq_refl).
Qed.

Lemma remove_first_filter_key {K} `{EqDecision K} (key : A → K) (k : K) l :
  (∀ x, f x = bool_decide (key x = k)) → NoDup (key <$> l) →
  remove_first f l = filter (λ x, f x = false) l.
Proof.
  intros Hf Hnd. apply remove_first_filter.
  intros l1 x l2 -> Hx y Hy. rewrite Hf in *. apply bool_decide_eq_true in Hx.
  apply bool_decide_eq_false. intros Hk.
  rewrite fmap_app, fmap_cons in Hnd.
  apply NoDup_app in Hnd as (_ & _ & Hnd). apply NoDup_cons in Hnd as [Hn _].
  apply Hn. rewrite Hx, <- Hk. by apply list_elem_of_fmap_2.
Qed.
End remove_first.

(** ** Folds that can fail *)
Fixpoint foldM {S A} (f : S → A → option S) (l : list A) (s : S) : option S :=
  match l with
  | [] => Some s
  | x :: l' => match f s x with Some s' => foldM f l' s' | None => None end
  end.

Lemma foldM_app {S A} (f : S → A → option S) l1 l2 s :
  foldM f (l1 ++ l2) s = match foldM f l1 s with Some s' => foldM f l2 s' | None => None end.
Proof.
  revert s. induction l1 as [|x l1 IH]; intros s; simpl; [done|].
  destruct (f s x); [apply IH|done].
Qed.

(** ** Sorting strings: [sort.Strings] *)
Definition sort_strings (l : list string) : list string := merge_sort String.le l.

Lemma sort_strings_perm l : sort_strings l ≡ₚ l.
Proof. apply merge_sort_Permutation. Qed.

Lemma sort_strings_sorted l : Sorted String.le (sort_strings l).
Proof. apply Sorted_merge_sort. apply _. Qed.

Lemma sorted_perm_eq l1 l2 :
  Sorted String.le l1 → Sorted String.le l2 → l1 ≡ₚ l2 → l1 = l2.
Proof. apply Sorted_unique; apply _. Qed.

(** The sorted arrangement of a multiset of strings is unique. *)
Lemma sort_strings_eq l1 l2 : l1 ≡ₚ l2 → sort_strings l1 = sort_strings l2.
Proof.
  intros H. apply sorted_perm_eq; [apply sort_strings_sorted..|].
  by rewrite !sort_strings_perm.
Qed.

Lemma elem_of_sort_strings x l : x ∈ sort_strings l ↔ x ∈ l.
Proof. by rewrite sort_strings_perm. Qed.

Lemma NoDup_sort_strings l : NoDup (sort_strings l) ↔ NoDup l.
Proof. by rewrite sort_strings_perm. Qed.

#[export] Instance sort_strings_Proper : Proper ((≡ₚ) ==> (=)) sort_strings.
Proof. intros l1 l2 H. by apply sort_strings_eq. Qed.

(** ** Counting occurrences *)
Definition occ (x : string) (l : list string) : nat := length (filter (λ y, y = x) l).

Lemma occ_nil x : occ x [] = 0.
Proof. done. Qed.

Lemma occ_cons x y l : occ x (y :: l) = (if decide (y = x) then 1 else 0) + occ x l.
Proof. unfold occ. rewrite filter_cons. by case_decide. Qed.

Lemma occ_app x l1 l2 : occ x (l1 ++ l2) = occ x l1 + occ x l2.
Proof. unfold occ. by rewrite filter_app, length_app. Qed.

Lemma occ_perm x l1 l2 : l1 ≡ₚ l2 → occ x l1 = occ x l2.
Proof. unfold occ. by intros ->. Qed.

Lemma occ_zero x l : occ x l = 0 ↔ x ∉ l.
Proof.
  induction l as [|y l IH]; [split; [intros _; apply not_elem_of_nil|done]|].
  rewrite occ_cons, not_elem_of_cons. case_decide as Hy; subst.
  - split; [lia|]. by intros [? _].
  - rewrite Nat.add_0_l, IH. split; [intros; by split|by intros [_ ?]].
Qed.

Lemma occ_pos x l : 0 < occ x l ↔ x ∈ l.
Proof.
  destruct (decide (x ∈ l)) as [E|E].
  - split; [done|]. intros _. destruct (occ x l) eqn:Ho; [|lia]. by apply occ_zero in Ho.
  - split; [|done]. apply occ_zero in E. lia.
Qed.

Lemma occ_remove_first x y l :
  occ x (remove_first (λ z, bool_decide (z = y)) l) = occ x l - (if decide (x = y) then 1 else 0).
Proof.
  induction l as [|z l IH]; [by case_decide|].
  simpl. rewrite occ_cons. case_bool_decide; subst.
  - destruct (decide (x = y)), (decide (y = x)); subst; try done; lia.
  - rewrite occ_cons, IH. destruct (decide (x = y)), (decide (z = x)); subst; try done; lia.
Qed.

Lemma occ_replicate x y n : occ x (replicate n y) = if decide (y = x) then n else 0.
Proof.
  induction n as [|n IH]; simpl; [by case_decide|].
  rewrite occ_cons, IH. by case_decide.
Qed.

Lemma occ_ext_perm l1 l2 : (∀ x, occ x l1 = occ x l2) → l1 ≡ₚ l2.
Proof.
  revert l2. induction l1 as [|x l1 IH]; intros l2 H.
  - destruct l2 as [|y l2]; [done|]. specialize (H y).
    rewrite occ_nil, occ_cons, decide_True in H by done. lia.
  - assert (x ∈ l2) as (k1 & k2 & ->)%list_elem_of_split.
    { apply occ_pos. rewrite <- H, occ_cons, decide_True by done. lia. }
    rewrite <- Permutation_middle. constructor. apply IH. intros y.
    specialize (H y). rewrite occ_app, !occ_cons in H. rewrite occ_app. lia.
Qed.

(** ** Cycles in finite sets: a nonempty finite set in which every element has a
    predecessor inside the set contains a cycle. *)
Section cycles.
Context {A : Type} `{Countable A} (R : relation A).

Fixpoint chain (x : A) (l : list A) : Prop :=
  match l with [] => True | y :: l' => R y x ∧ chain y l' end.

Lemma chain_tc x l y : chain x l → y ∈ l → tc R y x.
Proof.
  revert x. induction l as [|z l IH]; intros x Hc Hy; [by apply elem_of_nil in Hy|].
  destruct Hc as [Hzx Hc]. apply elem_of_cons in Hy as [->|Hy]; [by constructor|].
  eapply tc_r; eauto.
Qed.

Lemma chain_dup_cycle x l : chain x l → ¬ NoDup (x :: l) → ∃ y, tc R y y.
Proof.
  revert x. induction l as [|z l IH]; intros x Hc Hd.
  - destruct Hd. by apply NoDup_singleton.
  - destruct (decide (x ∈ z :: l)) as [Hx|Hx].
    + exists x. by eapply chain_tc.
    + destruct Hc as [_ Hc]. apply (IH z Hc). intros Hnd. apply Hd. by apply NoDup_cons.
Qed.

Lemma chain_exists (X : gset A) n x :
  x ∈ X → (∀ y, y ∈ X → ∃ z, z ∈ X ∧ R z y) →
  ∃ l, length l = n ∧ chain x l ∧ (∀ y, y ∈ l → y ∈ X).
Proof.
  intros Hx Hp. revert x Hx. induction n as [|n IH]; intros x Hx.
  - exists []. split_and!; [done|done|]. intros y Hy. by apply elem_of_nil in Hy.
  - destruct (Hp x Hx) as (z & Hz & HR). destruct (IH z Hz) as (l & <- & Hc & Hin).
    exists (z :: l). split_and!; [done|done|].
    intros y [->|Hy]%elem_of_cons; auto.
Qed.

Lemma finite_pred_cycle (X : gset A) x :
  x ∈ X → (∀ y, y ∈ X → ∃ z, z ∈ X ∧ R z y) → ∃ y, tc R y y.
Proof.
  intros Hx Hp. destruct (chain_exists X (size X) x Hx Hp) as (l & Hl & Hc & Hin).
  apply (chain_dup_cycle x l Hc). intros Hnd.
  assert (size (list_to_set (x :: l) : gset A) ≤ size X).
  { apply subseteq_size. intros y. rewrite elem_of_list_to_set.
    intros [->|Hy]%elem_of_cons; auto. }
  rewrite size_list_to_set in H0 by done. simpl in H0. lia.
Qed.
End cycles.

(** ** Automation *)
Create HintDb go.
Create Rewrite HintDb go.
#[export] Hint Resolve sort_strings_sorted wrap64_in64 : go.
#[export] Hint Rewrite @get_or_insert_eq @get_or_empty elem_of_sort_strings NoDup_sort_strings : go.

(** Case analysis on every boolean or option scrutinee of the goal. *)
Ltac go_cases := repeat (case_match; simplify_eq/=; try done).

(** Linear arithmetic with division and modulo by constants. *)
Ltac div_lia := Z.div_mod_to_equations; lia.
