(* ===== verification/GoRuntime.v ===== *)
(** * The Go runtime the program uses

    Error values and Connect codes, byte strings and the functions of package
    [strings], HTTP headers, clocks, and the two text encodings (hexadecimal and
    URL-safe base64) of random identifiers.  A Go string is its sequence of bytes. *)

From stdpp Require Import prelude gmap strings list fin_maps.
From Stdlib Require Import ZArith NArith Ascii.
From S2P Require Import Prelude.

(** ** Errors *)

(** [connect.Code]; a code outside the sixteen named ones is [CodeOther]. *)
Inductive Code :=
| CodeCanceled | CodeUnknown | CodeInvalidArgument | CodeDeadlineExceeded | CodeNotFound
| CodeAlreadyExists | CodePermissionDenied | CodeResourceExhausted | CodeFailedPrecondition
| CodeAborted | CodeOutOfRange | CodeUnimplemented | CodeInternal | CodeUnavailable
| CodeDataLoss | CodeUnauthenticated | CodeOther (n : Z).

#[export] Instance Code_eq_dec : EqDecision Code.
Proof. solve_decision. Defined.

(** Error values.  [Errorf f args] is [fmt.Errorf(f, args...)] (or [errors.New f]),
    kept as its format and operands rather than rendered; [NewError c e] is
    [connect.NewError(c, e)]; [ErrForeign] stands for an error value made by code
    outside the repository, [ErrContext] for [ctx.Err()]. *)
Inductive error :=
| Errorf (format : string) (args : list errarg)
| NewError (code : Code) (err : error)
| ErrContext (deadline : bool)
| ErrForeign (tag : Z)
with errarg :=
| AStr (s : string)
| AInt (z : Z)
| AErr (e : error)
| AList (l : list string).

(** [connect.CodeOf] belongs to the connect library: it is a parameter, of which
    its documentation says that it returns the code of a [*connect.Error]. *)
Class ConnectLib := {
  CodeOf : error → Code;
  CodeOf_NewError : ∀ c e, CodeOf (NewError c e) = c;
}.

#[export] Instance connect_plain : ConnectLib | 10 := {
  CodeOf e := match e with NewError c _ => c | _ => CodeUnknown end;
  CodeOf_NewError c e := eq_refl;
}.

(** Result of a Go function returning [(T, error)]. *)
Inductive res (A : Type) := Ok (a : A) | Err (e : error).
Arguments Ok {A} a.
Arguments Err {A} e.

Definition is_ok {A} (r : res A) : bool := match r with Ok _ => true | Err _ => false end.

Definition res_bind {A B} (r : res A) (k : A → res B) : res B :=
  match r with Ok a => k a | Err e => Err e end.

(** [x, err := r; if err != nil { return ..., err }] *)
Notation "'let?' x := r 'in' k" := (res_bind r (λ x, k))
  (at level 10, x name, r at level 200, k at level 200) : go_scope.

Lemma res_bind_ok {A B} (r : res A) (k : A → res B) b :
  res_bind r k = Ok b ↔ ∃ a, r = Ok a ∧ k a = Ok b.
Proof. destruct r; simpl; split; [eauto|by intros (? & [= <-] & ?)|done|by intros (? & ? & _)]. Qed.

(** ** Package [strings] *)

Fixpoint strip_prefix (p s : string) : option string :=
  match p, s with
  | "", _ => Some s
  | String a p', String b s' => if decide (a = b) then strip_prefix p' s' else None
  | _, "" => None
  end.

Definition HasPrefix (s p : string) : bool := bool_decide (is_Some (strip_prefix p s)).
Definition TrimPrefix (s p : string) : string := default s (strip_prefix p s).

Fixpoint Contains (s sub : string) : bool :=
  HasPrefix s sub || match s with "" => false | String _ s' => Contains s' sub end.

(** The first occurrence of byte [c]: the text before and after it. *)
Fixpoint cut (c : ascii) (s : string) : option (string * string) :=
  match s with
  | "" => None
  | String a s' =>
      if decide (a = c) then Some ("", s')
      else match cut c s' with Some (x, y) => Some (String a x, y) | None => None end
  end.

(** [strings.SplitN(s, sep, n)] for a one-byte separator and [n > 0]. *)
Fixpoint SplitN (c : ascii) (s : string) (n : nat) : list string :=
  match n with
  | 0 => []
  | 1 => [s]
  | S n' => match cut c s with Some (x, y) => x :: SplitN c y n' | None => [s] end
  end.

(** [strings.Split(s, sep)] for a one-byte separator. *)
Fixpoint Split (c : ascii) (s : string) : list string :=
  match s with
  | "" => [""]
  | String a s' =>
      if decide (a = c) then "" :: Split c s'
      else match Split c s' with
           | h :: t => String a h :: t
           | [] => [String a ""]
           end
  end.

Definition Join (l : list string) (sep : string) : string := String.concat sep l.

Fixpoint str_map (f : ascii → ascii) (s : string) : string :=
  match s with "" => "" | String a s' => String (f a) (str_map f s') end.

Fixpoint str_all (f : ascii → bool) (s : string) : bool :=
  match s with "" => true | String a s' => f a && str_all f s' end.

Definition byte_in (lo hi c : ascii) : bool :=
  (N_of_ascii lo <=? N_of_ascii c)%N && (N_of_ascii c <=? N_of_ascii hi)%N.
Definition is_upper : ascii → bool := byte_in "A" "Z".
Definition is_lower : ascii → bool := byte_in "a" "z".
Definition is_digit : ascii → bool := byte_in "0" "9".
Definition is_alpha (c : ascii) : bool := is_lower c || is_upper c.
Definition is_alnum (c : ascii) : bool := is_alpha c || is_digit c.

Definition lower (c : ascii) : ascii :=
  if is_upper c then ascii_of_N (N_of_ascii c + 32) else c.
Definition upper (c : ascii) : ascii :=
  if is_lower c then ascii_of_N (N_of_ascii c - 32) else c.

(** [strings.ToLower] on ASCII text (bytes at or above 0x80 are left alone). *)
Definition ToLower : string → string := str_map lower.

(** [strings.ReplaceAll(s, old, new)] for one-byte [old] and [new]. *)
Definition ReplaceAll1 (s : string) (old new : ascii) : string :=
  str_map (λ a, if decide (a = old) then new else a) s.

Definition len (s : string) : Z := Z.of_nat (String.length s).

(** Go's [<=] on strings is the bytewise lexicographic order. *)
Definition str_le (s t : string) : bool := String.leb s t.

(** *** Their characterisations *)

Lemma str_app_cons a s t : String a s +:+ t = String a (s +:+ t).
Proof. done. Qed.

Lemma str_app_nil s : "" +:+ s = s.
Proof. done. Qed.

Lemma str_app_assoc s t u : (s +:+ t) +:+ u = s +:+ (t +:+ u).
Proof.
  induction s as [|a s IH]; [done|]. rewrite !str_app_cons. by f_equal.
Qed.

Lemma str_app_nil_r s : s +:+ "" = s.
Proof. induction s as [|a s IH]; [done|]. rewrite str_app_cons. by f_equal. Qed.

Lemma str_app_inj_l s t u : s +:+ t = s +:+ u → t = u.
Proof. induction s as [|a s IH]; [done|]. rewrite !str_app_cons. naive_solver. Qed.

Lemma str_length_app s t : String.length (s +:+ t) = String.length s + String.length t.
Proof. induction s as [|a s IH]; [done|]. rewrite str_app_cons. simpl. by f_equal. Qed.

Lemma strip_prefix_Some p s r : strip_prefix p s = Some r ↔ s = p +:+ r.
Proof.
  revert s. induction p as [|a p IH]; intros s; simpl; [naive_solver|].
  destruct s as [|b s]; [by split|]. rewrite str_app_cons. case_decide; [|naive_solver].
  subst. rewrite IH. naive_solver.
Qed.

Lemma strip_prefix_app p s : strip_prefix p (p +:+ s) = Some s.
Proof. by apply strip_prefix_Some. Qed.

Lemma HasPrefix_true s p : HasPrefix s p = true ↔ ∃ r, s = p +:+ r.
Proof.
  unfold HasPrefix. rewrite bool_decide_eq_true. unfold is_Some.
  by setoid_rewrite strip_prefix_Some.
Qed.

Lemma HasPrefix_app p s : HasPrefix (p +:+ s) p = true.
Proof. apply HasPrefix_true. by eexists. Qed.

Lemma TrimPrefix_app p s : TrimPrefix (p +:+ s) p = s.
Proof. unfold TrimPrefix. by rewrite strip_prefix_app. Qed.

Lemma Contains_true s sub : Contains s sub = true ↔ ∃ a b, s = a +:+ sub +:+ b.
Proof.
  induction s as [|c s IH]; simpl; rewrite orb_true_iff, HasPrefix_true.
  - split; [|intros (a & b & H)].
    + intros [[r ->]|[=]]. by exists "", r.
    + left. destruct a; [|done]. by exists b.
  - rewrite IH. split.
    + intros [[r ->]|(a & b & ->)]; [by exists "", r|]. by exists (String c a), b.
    + intros (a & b & H). destruct a as [|c' a]; [left; by exists b|].
      right. rewrite str_app_cons in H. simplify_eq. by exists a, b.
Qed.

Lemma str_all_app f s t : str_all f (s +:+ t) = str_all f s && str_all f t.
Proof. induction s as [|a s IH]; [done|]. rewrite str_app_cons. simpl. by rewrite IH, andb_assoc. Qed.

Lemma str_all_impl (f g : ascii → bool) s :
  (∀ c, f c = true → g c = true) → str_all f s = true → str_all g s = true.
Proof.
  intros Hfg. induction s as [|a s IH]; simpl; [done|]. rewrite !andb_true_iff. naive_solver.
Qed.

Lemma str_all_map f g s : str_all f (str_map g s) = str_all (λ c, f (g c)) s.
Proof. induction s as [|a s IH]; simpl; [done|]. by rewrite IH. Qed.

Lemma str_map_length g s : String.length (str_map g s) = String.length s.
Proof. induction s as [|a s IH]; simpl; [done|]. by rewrite IH. Qed.

(** The byte [c] does not occur in [s]. *)
Definition free_of (c : ascii) (s : string) : bool := str_all (λ a, bool_decide (a ≠ c)) s.

Lemma free_of_not_contains c s : free_of c s = true → Contains s (String c "") = false.
Proof.
  intros H. destruct (Contains s (String c "")) eqn:E; [|done].
  apply Contains_true in E as (a & b & ->). unfold free_of in H.
  rewrite !str_all_app in H. rewrite !andb_true_iff in H. destruct H as (_ & H & _).
  simpl in H. rewrite andb_true_r in H. by apply bool_decide_eq_true in H.
Qed.

Lemma free_of_app c s t : free_of c (s +:+ t) = free_of c s && free_of c t.
Proof. apply str_all_app. Qed.

Lemma cut_free c s : free_of c s = true → cut c s = None.
Proof.
  unfold free_of. induction s as [|a s IH]; simpl; [done|].
  rewrite andb_true_iff, bool_decide_eq_true. intros [Ha Hs].
  by rewrite decide_False, IH.
Qed.

Lemma cut_app c s t : free_of c s = true → cut c (s +:+ String c t) = Some (s, t).
Proof.
  unfold free_of. induction s as [|a s IH]; simpl.
  - intros _. by rewrite decide_True.
  - rewrite andb_true_iff, bool_decide_eq_true. intros [Ha Hs].
    by rewrite decide_False, IH.
Qed.

Lemma cut_Some c s x y : cut c s = Some (x, y) → s = x +:+ String c y ∧ free_of c x = true.
Proof.
  revert x. induction s as [|a s IH]; intros x; simpl; [done|].
  case_decide as Ha; [intros [= <- <-]; by subst|].
  destruct (cut c s) as [[x' y']|] eqn:E; [|done]. intros [= <- <-].
  destruct (IH _ eq_refl) as [-> Hf]. split; [done|].
  unfold free_of in *. simpl. rewrite Hf, andb_true_r. by apply bool_decide_eq_true.
Qed.

Lemma Split_free c s : free_of c s = true → Split c s = [s].
Proof.
  unfold free_of. induction s as [|a s IH]; simpl; [done|].
  rewrite andb_true_iff, bool_decide_eq_true. intros [Ha Hs].
  by rewrite decide_False, IH.
Qed.

Lemma Split_app c s t : free_of c s = true → Split c (s +:+ String c t) = s :: Split c t.
Proof.
  unfold free_of. induction s as [|a s IH]; simpl.
  - intros _. by rewrite decide_True.
  - rewrite andb_true_iff, bool_decide_eq_true. intros [Ha Hs].
    by rewrite decide_False, IH.
Qed.

Lemma Split_nonempty c s : Split c s ≠ [].
Proof. destruct s as [|a s]; simpl; [done|]. case_decide; [done|]. by destruct (Split c s). Qed.

Lemma Join_Split c s : Join (Split c s) (String c "") = s.
Proof.
  unfold Join. induction s as [|a s IH]; [done|]. simpl. case_decide as Ha.
  - subst. destruct (Split c s) as [|h t] eqn:E; [by apply Split_nonempty in E|].
    change (String.concat (String c "") ("" :: h :: t)) with (String c (String.concat (String c "") (h :: t))).
    by rewrite IH.
  - destruct (Split c s) as [|h t] eqn:E; [by apply Split_nonempty in E|].
    destruct t as [|h' t]; simpl in *; by rewrite <- IH.
Qed.

(** [SplitN] with three parts, on a text that has them. *)
Lemma SplitN_3 c x y z : free_of c x = true → free_of c y = true →
  SplitN c (x +:+ String c (y +:+ String c z)) 3 = [x; y; z].
Proof. intros Hx Hy. unfold SplitN. by rewrite !cut_app. Qed.

#[export] Hint Rewrite str_app_cons str_app_nil str_all_app HasPrefix_app TrimPrefix_app : go.

(** ** HTTP headers *)

(** Bytes allowed in a header field name (RFC 7230 tokens). *)
Definition validHeaderFieldByte (c : ascii) : bool :=
  is_alnum c || existsb (λ d, bool_decide (d = c))
    ["!"; "#"; "$"; "%"; "&"; "'"; "*"; "+"; "-"; "."; "^"; "_"; "`"; "|"; "~"]%char.

Fixpoint canonical_from (up : bool) (s : string) : string :=
  match s with
  | "" => ""
  | String a s' =>
      String (if up then upper a else lower a) (canonical_from (bool_decide (a = "-"%char)) s')
  end.

(** [http.CanonicalHeaderKey] *)
Definition CanonicalHeaderKey (s : string) : string :=
  if str_all validHeaderFieldByte s then canonical_from true s else s.

(** [http.Header]: values in order under each canonical key. *)
Abbreviation Header := (gmap string (list string)).

Definition Header_Get (h : Header) (key : string) : string :=
  match h !! CanonicalHeaderKey key with Some (v :: _) => v | _ => "" end.

Definition Header_Set (h : Header) (key value : string) : Header :=
  <[CanonicalHeaderKey key := [value]]> h.

Definition Header_Add (h : Header) (key value : string) : Header :=
  <[CanonicalHeaderKey key := get_or [] h (CanonicalHeaderKey key) ++ [value]]> h.

Lemma Header_Get_Set_eq h k v : Header_Get (Header_Set h k v) k = v.
Proof. unfold Header_Get, Header_Set. by rewrite lookup_insert_eq. Qed.

Lemma Header_Get_Set_ne h k k' v :
  CanonicalHeaderKey k ≠ CanonicalHeaderKey k' → Header_Get (Header_Set h k v) k' = Header_Get h k'.
Proof. intros. unfold Header_Get, Header_Set. by rewrite lookup_insert_ne. Qed.

(** Status codes of [net/http]. *)
Definition StatusOK : Z := 200.
Definition StatusBadRequest : Z := 400.
Definition StatusUnauthorized : Z := 401.
Definition StatusNotFound : Z := 404.
Definition StatusMethodNotAllowed : Z := 405.
Definition StatusInternalServerError : Z := 500.
Definition StatusBadGateway : Z := 502.
Definition StatusServiceUnavailable : Z := 503.

(** ** Time

    Instants and durations are counted in nanoseconds; [Sub] saturates at the
    ends of the 64-bit range, as package [time] documents. *)
Definition Time := Z.
Definition Duration := Z.
Bind Scope Z_scope with Time Duration.
Definition Millisecond : Duration := 1000000%Z.
Definition Second : Duration := 1000000000%Z.
Definition Minute : Duration := (60 * Second)%Z.
Definition Hour : Duration := (60 * Minute)%Z.

Definition Time_Add (t : Time) (d : Duration) : Time := (t + d)%Z.
Definition Time_After (t u : Time) : bool := (u <? t)%Z.
Definition Time_Before (t u : Time) : bool := (t <? u)%Z.
Definition Time_Sub (t u : Time) : Duration := Z.max min64 (Z.min max64 (t - u)).

Lemma Time_Sub_exact t u : in64 (t - u) → Time_Sub t u = (t - u)%Z.
Proof. unfold in64, Time_Sub. lia. Qed.
