(* ===== verification/Depgraph.v ===== *)
(** * Dependency graph of plugins (internal/depgraph/depgraph.go)

    [Graph] with its three maps, [Add]/[Remove], Kahn's algorithm [StartupOrder]
    and the impact analysis [GetImpact].  Loops over maps take their order from
    the interface [GoRange]. *)

From stdpp Require Import prelude gmap strings list fin_maps sorting relations.
From Stdlib Require Import ZArith.
From S2P Require Import Prelude GoRuntime.

Module depgraph.

(** ** Data *)

Record ServiceDeclaration := mkDecl { decl_Type : string; decl_Version : string }.

Record ServiceDependency := mkDep {
  dep_Type : string;
  dep_MinVersion : string;
  dep_RequiredForStartup : bool;
  dep_WatchForChanges : bool;
}.

Record Node := mkNode {
  RuntimeID : string;
  SelfID : string;
  Provides : list ServiceDeclaration;
  Requires : list ServiceDependency;
}.

Record Graph := mkGraph {
  nodes : gmap string Node;
  edges : gmap string (list string);
  byType : gmap string (list string);
}.

Definition New : Graph := mkGraph ∅ ∅ ∅.

(** ** Add and Remove *)

(** The service types [node] requires for startup. *)
Fixpoint required_types (deps : list ServiceDependency) : list string :=
  match deps with
  | [] => []
  | dep :: deps' =>
      if dep_RequiredForStartup dep then dep_Type dep :: required_types deps'
      else required_types deps'
  end.

Definition index_service (id : string) (bt : gmap string (list string)) (svc : ServiceDeclaration)
    : gmap string (list string) :=
  <[decl_Type svc := get_or [] bt (decl_Type svc) ++ [id]]> bt.

Definition Add (g : Graph) (node : Node) : Graph :=
  {| nodes := <[RuntimeID node := node]> (nodes g);
     edges := <[RuntimeID node := required_types (Requires node)]> (edges g);
     byType := fold_left (index_service (RuntimeID node)) (Provides node) (byType g) |}.

(** One iteration of the index loop of [Remove]: delete the first occurrence of
    the id, and the entry itself once it is empty. *)
Definition unindex_service (id : string) (bt : gmap string (list string)) (svc : ServiceDeclaration)
    : gmap string (list string) :=
  let providers := get_or [] bt (decl_Type svc) in
  let bt' := if bool_decide (id ∈ providers)
             then <[decl_Type svc := remove_first (λ pid, bool_decide (pid = id)) providers]> bt
             else bt in
  if bool_decide (get_or [] bt' (decl_Type svc) = [])
  then delete (decl_Type svc) bt' else bt'.

Definition Remove (g : Graph) (runtimeID : string) : Graph :=
  match nodes g !! runtimeID with
  | None => g
  | Some node =>
      {| nodes := delete runtimeID (nodes g);
         edges := delete runtimeID (edges g);
         byType := fold_left (unindex_service runtimeID) (Provides node) (byType g) |}
  end.

(** ** Lookups *)

Definition GetNode (g : Graph) (runtimeID : string) : option Node := nodes g !! runtimeID.
Definition GetProviders (g : Graph) (serviceType : string) : list string :=
  get_or [] (byType g) serviceType.
Definition HasService (g : Graph) (serviceType : string) : bool :=
  (0 <? Z.of_nat (length (get_or [] (byType g) serviceType)))%Z.

(** ** StartupOrder: Kahn's algorithm *)

Section StartupOrder.
Context `{GR : GoRange}.

(** The working maps: [adjList] (provider → dependents) and [inDegree]. *)
Record kahn_maps := mkMaps { adjList : gmap string (list string); inDegree : gmap string Z }.

(** [for _, providerID := range providers] *)
Definition link_provider (runtimeID : string) (s : kahn_maps) (providerID : string) : kahn_maps :=
  {| adjList := <[providerID := get_or [] (adjList s) providerID ++ [runtimeID]]> (adjList s);
     inDegree := <[runtimeID := (get_or 0 (inDegree s) runtimeID + 1)%Z]> (inDegree s) |}.

(** [for _, serviceType := range requiredServices] *)
Fixpoint link_services (g : Graph) (runtimeID : string) (services : list string) (s : kahn_maps)
    : res kahn_maps :=
  match services with
  | [] => Ok s
  | serviceType :: services' =>
      match get_or [] (byType g) serviceType with
      | [] => Err (Errorf "plugin %s requires service %q but no provider exists"
                     [AStr runtimeID; AStr serviceType])
      | providers => link_services g runtimeID services' (fold_left (link_provider runtimeID) providers s)
      end
  end.

(** [for runtimeID, requiredServices := range g.edges] *)
Fixpoint link_edges (g : Graph) (es : list (string * list string)) (s : kahn_maps) : res kahn_maps :=
  match es with
  | [] => Ok s
  | (runtimeID, services) :: es' =>
      let? s' := link_services g runtimeID services s in link_edges g es' s'
  end.

Definition init_degrees (ns : list (string * Node)) : gmap string Z :=
  fold_left (λ m e, <[e.1 := 0%Z]> m) ns ∅.

(** [for _, dependent := range adjList[current]] *)
Definition relax (s : gmap string Z * list string) (dependent : string) : gmap string Z * list string :=
  let inDegree := <[dependent := (get_or 0 s.1 dependent - 1)%Z]> s.1 in
  if bool_decide (get_or 0%Z inDegree dependent = 0%Z)
  then (inDegree, sort_strings (s.2 ++ [dependent]))
  else (inDegree, s.2).

(** [for len(queue) > 0]; [None] only when the fuel runs out. *)
Fixpoint kahn_loop (fuel : nat) (adj : gmap string (list string)) (deg : gmap string Z)
    (queue result : list string) : option (list string) :=
  match queue with
  | [] => Some result
  | current :: queue' =>
      match fuel with
      | 0 => None
      | S fuel' =>
          let s := fold_left relax (get_or [] adj current) (deg, queue') in
          kahn_loop fuel' adj s.1 s.2 (result ++ [current])
      end
  end.

Definition zero_entries (l : list (string * Z)) : list string :=
  fold_left (λ q e, if bool_decide (e.2 = 0%Z) then q ++ [e.1] else q) l [].

Definition StartupOrder (g : Graph) : option (res (list string)) :=
  let deg0 := init_degrees (go_range 0 (nodes g)) in
  match link_edges g (go_range 1 (edges g)) (mkMaps ∅ deg0) with
  | Err e => Some (Err e)
  | Ok s =>
      let queue := sort_strings (zero_entries (go_range 2 (inDegree s))) in
      match kahn_loop (size (nodes g)) (adjList s) (inDegree s) queue [] with
      | None => None
      | Some result =>
          if bool_decide (length result = size (nodes g)) then Some (Ok result)
          else Some (Err (Errorf "dependency cycle detected (processed %d of %d plugins)"
                            [AInt (Z.of_nat (length result)); AInt (Z.of_nat (size (nodes g)))]))
      end
  end.
End StartupOrder.

(** ** GetImpact *)

Record ImpactAnalysis := mkImpact {
  TargetPlugin : string;
  AffectedServices : list string;
  AffectedPlugins : list string;
  OptionalImpact : list string;
}.

Fixpoint appendUnique (slice : list string) (item : string) : list string :=
  match slice with
  | [] => [item]
  | existing :: rest =>
      if bool_decide (existing = item) then slice else existing :: appendUnique rest item
  end.

Definition getOtherProviders (g : Graph) (serviceType excludeRuntimeID : string) : list string :=
  filter (λ providerID, providerID ≠ excludeRuntimeID) (get_or [] (byType g) serviceType).

Definition with_affected (i : ImpactAnalysis) (id : string) : ImpactAnalysis :=
  mkImpact (TargetPlugin i) (AffectedServices i) (appendUnique (AffectedPlugins i) id) (OptionalImpact i).
Definition with_optional (i : ImpactAnalysis) (id : string) : ImpactAnalysis :=
  mkImpact (TargetPlugin i) (AffectedServices i) (AffectedPlugins i) (appendUnique (OptionalImpact i) id).

Section GetImpact.
Context `{GR : GoRange}.

(** The state threaded through [findDependents]: the analysis, the visited set,
    and the number of range statements over [g.nodes] executed so far. *)
Record walk := mkWalk { impact : ImpactAnalysis; visited : gset string; ticks : nat }.

Definition mark (w : walk) (id : string) : walk :=
  mkWalk (impact w) ({[id]} ∪ visited w) (ticks w).
Definition tick (w : walk) : walk := mkWalk (impact w) (visited w) (S (ticks w)).
Definition set_impact (w : walk) (i : ImpactAnalysis) : walk := mkWalk i (visited w) (ticks w).

(** One dependency of one other node, for service [ty] of [runtimeID];
    [rec] is the recursive call. *)
Definition visit_dep (g : Graph) (rec : string → walk → option walk)
    (runtimeID ty otherID : string) (w : walk) (dep : ServiceDependency) : option walk :=
  if bool_decide (dep_Type dep = ty) then
    match getOtherProviders g ty runtimeID with
    | _ :: _ => Some (set_impact w (with_optional (impact w) otherID))
    | [] =>
        if dep_RequiredForStartup dep
        then rec otherID (set_impact w (with_affected (impact w) otherID))
        else Some (set_impact w (with_optional (impact w) otherID))
    end
  else Some w.

Definition visit_other (g : Graph) (rec : string → walk → option walk)
    (runtimeID ty : string) (w : walk) (other : string * Node) : option walk :=
  if bool_decide (other.1 = runtimeID) then Some w
  else foldM (visit_dep g rec runtimeID ty other.1) (Requires other.2) w.

Definition visit_service (g : Graph) (rec : string → walk → option walk)
    (runtimeID : string) (w : walk) (svc : ServiceDeclaration) : option walk :=
  foldM (visit_other g rec runtimeID (decl_Type svc)) (go_range (ticks w) (nodes g)) (tick w).

(** [None] only when the fuel runs out. *)
Fixpoint findDependents (fuel : nat) (g : Graph) (runtimeID : string) (w : walk) : option walk :=
  match fuel with
  | 0 => None
  | S fuel' =>
      if bool_decide (runtimeID ∈ visited w) then Some w
      else
        let w' := mark w runtimeID in
        match nodes g !! runtimeID with
        | None => Some w'
        | Some node => foldM (visit_service g (findDependents fuel' g) runtimeID) (Provides node) w'
        end
  end.

Definition GetImpact (g : Graph) (runtimeID : string) : option ImpactAnalysis :=
  match nodes g !! runtimeID with
  | None => Some (mkImpact runtimeID [] [] [])
  | Some node =>
      let i0 := mkImpact runtimeID (decl_Type <$> Provides node) [] [] in
      match findDependents (S (size (nodes g))) g runtimeID (mkWalk i0 ∅ 0) with
      | None => None
      | Some w =>
          let i := impact w in
          Some (mkImpact (TargetPlugin i) (sort_strings (AffectedServices i))
                  (sort_strings (AffectedPlugins i)) (sort_strings (OptionalImpact i)))
      end
  end.
End GetImpact.

(** ** Specification vocabulary *)

(** All providers of the listed services, with multiplicity. *)
Definition provs (g : Graph) (services : list string) : list string :=
  concat ((λ t, get_or [] (byType g) t) <$> services).

(** The plugins [b] waits for at startup. *)
Definition preds (g : Graph) (b : string) : list string := provs g (get_or [] (edges g) b).

Definition depends (g : Graph) (a b : string) : Prop := a ∈ preds g b.

(** Every service required for startup has a provider. *)
Definition resolvable (g : Graph) : Prop :=
  ∀ b ts t, edges g !! b = Some ts → t ∈ ts → get_or [] (byType g) t ≠ [].

(** [b] can start once exactly the plugins of [l] have been started. *)
Definition ready (g : Graph) (l : list string) (b : string) : Prop :=
  is_Some (nodes g !! b) ∧ b ∉ l ∧ ∀ a, depends g a b → a ∈ l.

(** [r] starts, at every point, the least startable plugin. *)
Definition greedy (g : Graph) (r : list string) : Prop :=
  ∀ l1 b l2, r = l1 ++ b :: l2 → ready g l1 b ∧ ∀ b', ready g l1 b' → String.le b b'.

(** Edges mirror the nodes: holds of every graph built by [Add] and [Remove]. *)
Definition edges_wf (g : Graph) : Prop :=
  ∀ id, edges g !! id = (λ n, required_types (Requires n)) <$> nodes g !! id.

(** The service index is exact: holds when ids are added once. *)
Record index_wf (g : Graph) : Prop := {
  index_ids : ∀ id n, nodes g !! id = Some n → RuntimeID n = id;
  index_occ : ∀ t id, occ id (get_or [] (byType g) t) =
                match nodes g !! id with Some n => occ t (decl_Type <$> Provides n) | None => 0 end;
  index_nonempty : ∀ t, byType g !! t ≠ Some [];
}.

Definition graph_wf (g : Graph) : Prop := edges_wf g ∧ index_wf g.

(** ** Invariants of Add and Remove *)

Lemma New_wf : graph_wf New.
Proof.
  split; [by intros id|]. split; simpl.
  - by intros id n.
  - intros t id. by rewrite get_or_empty.
  - by intros t.
Qed.

Lemma Add_edges_wf g n : edges_wf g → edges_wf (Add g n).
Proof.
  intros H id. simpl. rewrite !lookup_insert. by case_decide.
Qed.

Lemma Remove_edges_wf g id : edges_wf g → edges_wf (Remove g id).
Proof.
  intros H id'. unfold Remove. destruct (nodes g !! id) as [n|]; [|apply H].
  simpl. rewrite !lookup_delete. by case_decide.
Qed.

(** Indexing the services of one node appends its id once per declaration. *)
Lemma index_services_lookup id svcs bt t :
  get_or [] (fold_left (index_service id) svcs bt) t =
    get_or [] bt t ++ replicate (occ t (decl_Type <$> svcs)) id.
Proof.
  revert bt. induction svcs as [|svc svcs IH]; intros bt; simpl.
  - by rewrite app_nil_r.
  - rewrite IH. unfold index_service. rewrite get_or_insert, occ_cons.
    case_decide; subst; simpl; [|done]. by rewrite <- app_assoc.
Qed.

Lemma index_services_nonempty id svcs bt t :
  bt !! t ≠ Some [] → fold_left (index_service id) svcs bt !! t ≠ Some [].
Proof.
  revert bt. induction svcs as [|svc svcs IH]; intros bt Hbt; simpl; [done|].
  apply IH. unfold index_service. rewrite lookup_insert. case_decide; [|done].
  intros [= E]. by apply app_nil in E as [_ ?].
Qed.

Lemma Add_index_wf g n : index_wf g → nodes g !! RuntimeID n = None → index_wf (Add g n).
Proof.
  intros [Hid Hocc Hne] Hfresh. split; simpl.
  - intros id n'. rewrite lookup_insert. case_decide; [naive_solver|]. apply Hid.
  - intros t id. rewrite index_services_lookup, occ_app, occ_replicate, Hocc, lookup_insert.
    case_decide; subst; [by rewrite Hfresh|]. lia.
  - intros t. by apply index_services_nonempty.
Qed.

Lemma Add_wf g n : graph_wf g → nodes g !! RuntimeID n = None → graph_wf (Add g n).
Proof. intros [? ?] ?. split; [by apply Add_edges_wf|by apply Add_index_wf]. Qed.

(** Unindexing one service. *)
Lemma unindex_service_occ id bt svc t id' :
  occ id' (get_or [] (unindex_service id bt svc) t) =
    occ id' (get_or [] bt t) -
      (if decide (decl_Type svc = t ∧ id' = id) then 1 else 0).
Proof.
  destruct svc as [ty v]. unfold unindex_service. simpl.
  set (bt' := if bool_decide (id ∈ _) then _ else bt).
  assert (Hbt' : ∀ t, occ id' (get_or [] bt' t) =
      occ id' (get_or [] bt t) - (if decide (ty = t ∧ id' = id) then 1 else 0)).
  { intros t'. unfold bt'. case_bool_decide as Hin.
    - rewrite get_or_insert. destruct (decide (ty = t')) as [->|].
      + rewrite occ_remove_first. repeat case_decide; naive_solver.
      + rewrite decide_False by naive_solver. lia.
    - case_decide as Hd; [|lia]. destruct Hd as [<- ->]. apply occ_zero in Hin. lia. }
  case_bool_decide as He; [|apply Hbt'].
  rewrite get_or_delete. destruct (decide (ty = t)) as [->|]; [|apply Hbt'].
  by rewrite <- Hbt', He.
Qed.

Lemma unindex_services_occ id svcs bt t id' :
  occ id' (get_or [] (fold_left (unindex_service id) svcs bt) t) =
    occ id' (get_or [] bt t) - (if decide (id' = id) then occ t (decl_Type <$> svcs) else 0).
Proof.
  revert bt. induction svcs as [|svc svcs IH]; intros bt; simpl.
  - rewrite occ_nil. case_decide; lia.
  - rewrite IH, unindex_service_occ, occ_cons.
    destruct (decide (id' = id)), (decide (decl_Type svc = t)); repeat case_decide; naive_solver lia.
Qed.

Lemma unindex_service_nonempty id bt svc t :
  bt !! t ≠ Some [] → unindex_service id bt svc !! t ≠ Some [].
Proof.
  intros Hbt. unfold unindex_service.
  set (bt' := if bool_decide (id ∈ _) then _ else bt).
  case_bool_decide as He.
  - rewrite lookup_delete. case_decide; [done|].
    unfold bt'. case_bool_decide; [by rewrite lookup_insert_ne|done].
  - intros E. destruct (decide (decl_Type svc = t)) as [<-|Hne].
    + apply He. unfold get_or. by rewrite E.
    + revert E. unfold bt'. case_bool_decide; [by rewrite lookup_insert_ne|done].
Qed.

Lemma unindex_services_nonempty id svcs bt t :
  bt !! t ≠ Some [] → fold_left (unindex_service id) svcs bt !! t ≠ Some [].
Proof.
  revert bt. induction svcs as [|svc svcs IH]; intros bt Hbt; simpl; [done|].
  by apply IH, unindex_service_nonempty.
Qed.

Lemma Remove_index_wf g id : index_wf g → index_wf (Remove g id).
Proof.
  intros Hwf. unfold Remove. destruct (nodes g !! id) as [n|] eqn:En; [|done].
  destruct Hwf as [Hid Hocc Hne]. split; simpl.
  - intros id' n'. rewrite lookup_delete. case_decide; [done|]. apply Hid.
  - intros t id'. rewrite unindex_services_occ, Hocc, lookup_delete.
    destruct (decide (id' = id)) as [->|].
    + rewrite En, decide_True by done. lia.
    + rewrite decide_False by done. lia.
  - intros t. by apply unindex_services_nonempty.
Qed.

Lemma Remove_wf g id : graph_wf g → graph_wf (Remove g id).
Proof. intros [? ?]. split; [by apply Remove_edges_wf|by apply Remove_index_wf]. Qed.

(** In an exact index a listed provider is a node offering the type. *)
Lemma index_wf_provider g t id :
  index_wf g → id ∈ get_or [] (byType g) t ↔
    ∃ n, nodes g !! id = Some n ∧ t ∈ decl_Type <$> Provides n.
Proof.
  intros [_ Hocc _]. rewrite <- occ_pos, Hocc. destruct (nodes g !! id) as [n|].
  - rewrite occ_pos. naive_solver.
  - split; [lia|]. by intros (? & ? & _).
Qed.

(** Two indexes without empty entries are equal when they read alike. *)
Lemma index_ext (m1 m2 : gmap string (list string)) :
  (∀ t, m1 !! t ≠ Some []) → (∀ t, m2 !! t ≠ Some []) →
  (∀ t, get_or [] m1 t = get_or [] m2 t) → m1 = m2.
Proof.
  intros H1 H2 H. apply map_eq. intros t. specialize (H t). unfold get_or in H.
  destruct (m1 !! t) as [l1|] eqn:E1, (m2 !! t) as [l2|] eqn:E2; simpl in H; subst; naive_solver.
Qed.

Lemma unindex_service_app id bt svc t l k :
  id ∉ l → get_or [] bt (decl_Type svc) = l ++ replicate (S k) id →
  get_or [] (unindex_service id bt svc) t =
    if decide (decl_Type svc = t) then l ++ replicate k id else get_or [] bt t.
Proof.
  intros Hl Hbt. unfold unindex_service.
  assert (Hin : id ∈ get_or [] bt (decl_Type svc)) by (rewrite Hbt; apply elem_of_app; right; left).
  rewrite (bool_decide_eq_true_2 _ Hin), get_or_insert_eq, Hbt. simpl.
  rewrite remove_first_app_here; [|intros y Hy; apply bool_decide_eq_false; naive_solver
                                  |by apply bool_decide_eq_true].
  case_bool_decide as He.
  - rewrite get_or_delete, get_or_insert. by repeat case_decide.
  - rewrite get_or_insert. by repeat case_decide.
Qed.

Lemma unindex_services_app id svcs bt (l : string → list string) :
  (∀ t, id ∉ l t) → (∀ t, get_or [] bt t = l t ++ replicate (occ t (decl_Type <$> svcs)) id) →
  ∀ t, get_or [] (fold_left (unindex_service id) svcs bt) t = l t.
Proof.
  intros Hl. revert bt. induction svcs as [|svc svcs IH]; intros bt Hbt t; simpl.
  - by rewrite Hbt, app_nil_r.
  - apply IH. intros t'. pose proof (Hbt (decl_Type svc)) as Ht. simpl in Ht.
    rewrite occ_cons, decide_True in Ht by done.
    erewrite unindex_service_app by done. case_decide; [by subst|].
    rewrite Hbt. simpl. by rewrite occ_cons, decide_False.
Qed.

(** Removing a plugin that was just added under a fresh id restores the graph. *)
Lemma Remove_Add_aux g n :
  graph_wf g → nodes g !! RuntimeID n = None → Remove (Add g n) (RuntimeID n) = g.
Proof.
  intros [He Hi] Hfresh. unfold Remove. simpl. rewrite lookup_insert_eq.
  assert (Hef : edges g !! RuntimeID n = None) by (by rewrite He, Hfresh).
  assert (Hno : ∀ t, RuntimeID n ∉ get_or [] (byType g) t).
  { intros t. rewrite (index_wf_provider g) by done. naive_solver. }
  destruct g as [ns es bt]; simpl in *. f_equal.
  - by apply delete_insert_id.
  - by apply delete_insert_id.
  - apply index_ext.
    + intros t. by apply unindex_services_nonempty, index_services_nonempty, (index_nonempty _ Hi).
    + apply (index_nonempty _ Hi).
    + intros t. apply unindex_services_app; [done|]. intros t'. apply index_services_lookup.
Qed.

(** ** Correctness of StartupOrder *)

Section kahn.
Context `{GR : GoRange} (g : Graph).

Lemma link_provider_fold b P s :
  let s' := fold_left (link_provider b) P s in
  (∀ a b', occ b' (get_or [] (adjList s') a) =
     occ b' (get_or [] (adjList s) a) + if decide (b = b') then occ a P else 0) ∧
  (∀ b', is_Some (inDegree s !! b) → inDegree s' !! b' =
     if decide (b = b') then (λ d, (d + Z.of_nat (length P))%Z) <$> inDegree s !! b'
     else inDegree s !! b').
Proof.
  revert s. induction P as [|p P IH]; intros s; simpl.
  - split.
    + intros a b'. rewrite occ_nil. case_decide; lia.
    + intros b' _. case_decide; [|done].
      destruct (inDegree s !! b'); simpl; [|done]. f_equal. lia.
  - destruct (IH (link_provider b s p)) as [IH1 IH2]. split.
    + intros a b'. rewrite IH1. simpl. rewrite get_or_insert, occ_cons.
      destruct (decide (p = a)) as [->|]; [|case_decide; lia].
      rewrite occ_app, occ_cons, occ_nil. repeat case_decide; lia.
    + intros b' [d Hd]. rewrite IH2 by (simpl; rewrite lookup_insert_eq; by eexists). simpl.
      case_decide; [subst|by rewrite lookup_insert_ne].
      rewrite lookup_insert_eq, (get_or_Some _ _ _ _ Hd), Hd. simpl. f_equal. lia.
Qed.

Lemma link_services_cons b t ts s :
  get_or [] (byType g) t ≠ [] →
  link_services g b (t :: ts) s =
    link_services g b ts (fold_left (link_provider b) (get_or [] (byType g) t) s).
Proof. intros H. simpl. by destruct (get_or [] (byType g) t). Qed.

(** What linking the edges of [b] to the providers [P] adds to the maps. *)
Definition linked (s s' : kahn_maps) (P : string → list string) : Prop :=
  (∀ a b, occ b (get_or [] (adjList s') a) = occ b (get_or [] (adjList s) a) + occ a (P b)) ∧
  (∀ b, inDegree s' !! b = (λ d, (d + Z.of_nat (length (P b)))%Z) <$> inDegree s !! b).

Lemma link_services_Ok b ts s s' :
  is_Some (inDegree s !! b) → link_services g b ts s = Ok s' →
  (∀ t, t ∈ ts → get_or [] (byType g) t ≠ []) ∧
  linked s s' (λ b', if decide (b = b') then provs g ts else []).
Proof.
  revert s. induction ts as [|t ts IH]; intros s Hs.
  - intros [= <-]. split; [intros t Ht; by apply elem_of_nil in Ht|]. split.
    + intros a b'. case_decide; rewrite occ_nil; lia.
    + intros b'. destruct (inDegree s !! b') as [d|]; simpl; [|done].
      case_decide; simpl; f_equal; lia.
  - destruct (decide (get_or [] (byType g) t = [])) as [Et|Hne]; [simpl; by rewrite Et|].
    rewrite link_services_cons by done. set (P := get_or [] (byType g) t) in *.
    destruct (link_provider_fold b P s) as [H1 H2]. intros Hok.
    apply IH in Hok as (Hts & H3 & H4).
    2:{ rewrite H2 by done. case_decide; [|done]. destruct Hs as [d ->]. by eexists. }
    split; [|split].
    + intros t' [->|Ht']%elem_of_cons; [done|by apply Hts].
    + intros a b'. rewrite H3, H1. unfold provs. rewrite fmap_cons. cbn [concat].
      case_decide; [|rewrite !occ_nil; lia]. rewrite occ_app. fold P. lia.
    + intros b'. rewrite H4, H2 by done. case_decide.
      * destruct (inDegree s !! b'); simpl; [|done]. f_equal.
        unfold provs. rewrite fmap_cons. cbn [concat]. rewrite length_app. fold P. lia.
      * done.
Qed.

Lemma link_services_Err b ts s e :
  link_services g b ts s = Err e → ∃ t, t ∈ ts ∧ get_or [] (byType g) t = [].
Proof.
  revert s. induction ts as [|t ts IH]; intros s; simpl; [done|].
  destruct (get_or [] (byType g) t) eqn:Et.
  - intros _. exists t. split; [by left|done].
  - intros H. apply IH in H as (t' & ? & ?). exists t'. split; [by right|done].
Qed.

Definition provs_of (es : list (string * list string)) (b : string) : list string :=
  provs g (default [] ((list_to_map es : gmap string _) !! b)).

Lemma link_edges_Ok es s s' :
  NoDup es.*1 → (∀ e, e ∈ es → is_Some (inDegree s !! e.1)) → link_edges g es s = Ok s' →
  (∀ e t, e ∈ es → t ∈ e.2 → get_or [] (byType g) t ≠ []) ∧ linked s s' (provs_of es).
Proof.
  revert s. induction es as [|[b ts] es IH]; intros s Hnd Hs; simpl.
  - intros [= <-]. split; [intros e t He; by apply elem_of_nil in He|]. split.
    + intros a b. unfold provs_of. simpl. rewrite lookup_empty, occ_nil. lia.
    + intros b. unfold provs_of. simpl. rewrite lookup_empty.
      destruct (inDegree s !! b); simpl; [|done]. f_equal. lia.
  - apply NoDup_cons in Hnd as [Hb Hnd]. simpl in Hb.
    rewrite res_bind_ok. intros (s1 & H1 & Hok).
    apply link_services_Ok in H1 as (Ht1 & Ho1 & Hd1); [|apply (Hs (b, ts)); by left].
    apply IH in Hok as (Ht2 & Ho2 & Hd2); [|done|].
    2:{ intros e He. rewrite Hd1. destruct (Hs e) as [d ->]; [by right|]. by eexists. }
    assert (Hnone : (list_to_map es : gmap string (list string)) !! b = None)
      by by apply not_elem_of_list_to_map_1.
    split; [|split].
    + intros e t [->|He]%elem_of_cons Ht; [by apply Ht1|by eapply Ht2].
    + intros a b'. rewrite Ho2, Ho1. unfold provs_of. simpl. rewrite lookup_insert.
      case_decide; subst; simpl; [rewrite Hnone; simpl; rewrite occ_nil; lia|].
      rewrite occ_nil. lia.
    + intros b'. rewrite Hd2, Hd1. unfold provs_of. simpl. rewrite lookup_insert.
      destruct (inDegree s !! b'); simpl; [|done].
      case_decide; subst; simpl; [rewrite Hnone; simpl|]; f_equal; lia.
Qed.

Lemma link_edges_Err es s e :
  link_edges g es s = Err e → ∃ b ts t, (b, ts) ∈ es ∧ t ∈ ts ∧ get_or [] (byType g) t = [].
Proof.
  revert s. induction es as [|[b ts] es IH]; intros s; simpl; [done|].
  unfold res_bind. destruct (link_services g b ts s) as [s1|e1] eqn:E1.
  - intros H. apply IH in H as (b' & ts' & t & ? & ? & ?). exists b', ts', t. set_solver.
  - intros _. apply link_services_Err in E1 as (t & ? & ?). exists b, ts, t. set_solver.
Qed.

Lemma init_degrees_lookup ns b :
  init_degrees ns !! b = if decide (b ∈ ns.*1) then Some 0%Z else None.
Proof.
  unfold init_degrees.
  assert (H : ∀ m : gmap string Z, fold_left (λ m e, <[e.1 := 0%Z]> m) ns m !! b =
                if decide (b ∈ ns.*1) then Some 0%Z else m !! b); [|apply H].
  induction ns as [|[b' n] ns IH]; intros m.
  - rewrite decide_False; [done|]. apply not_elem_of_nil.
  - cbn [fold_left]. rewrite IH, lookup_insert, fmap_cons. simpl.
    repeat case_decide; set_solver.
Qed.

Lemma zero_entries_elem l b : b ∈ zero_entries l ↔ (b, 0%Z) ∈ l.
Proof.
  unfold zero_entries.
  assert (H : ∀ q, b ∈ fold_left (λ q (e : string * Z),
               if bool_decide (e.2 = 0%Z) then q ++ [e.1] else q) l q ↔ b ∈ q ∨ (b, 0%Z) ∈ l).
  { induction l as [|[b' d] l IH]; intros q; simpl; [set_solver|].
    rewrite IH. case_bool_decide; set_solver. }
  rewrite H. set_solver.
Qed.

Lemma zero_entries_NoDup l : NoDup l.*1 → NoDup (zero_entries l).
Proof.
  unfold zero_entries.
  assert (H : ∀ q, NoDup (q ++ l.*1) → NoDup (fold_left (λ q (e : string * Z),
               if bool_decide (e.2 = 0%Z) then q ++ [e.1] else q) l q)).
  { induction l as [|[b' d] l IH]; intros q; simpl; [by rewrite app_nil_r|].
    intros Hnd. apply IH. case_bool_decide; [by rewrite <- app_assoc|].
    rewrite <- Permutation_middle in Hnd. by apply NoDup_cons in Hnd as [_ ?]. }
  intros. by apply H.
Qed.

(** *** The relaxation loop over the dependents of one plugin *)

Lemma relax_fold L deg q :
  (∀ b, b ∈ L → ∃ d, deg !! b = Some d ∧ (Z.of_nat (occ b L) ≤ d)%Z) →
  (∀ b, b ∈ L → b ∉ q) → NoDup q → Sorted String.le q →
  let s := fold_left relax L (deg, q) in
  (∀ b, s.1 !! b = (λ d, (d - Z.of_nat (occ b L))%Z) <$> deg !! b) ∧
  NoDup s.2 ∧ Sorted String.le s.2 ∧
  (∀ b, b ∈ s.2 ↔ b ∈ q ∨ (b ∈ L ∧ s.1 !! b = Some 0%Z)).
Proof.
  revert deg q. induction L as [|x L IH]; intros deg q Hdeg Hq Hnd Hs; cbn [fold_left].
  - split_and!; [|done|done|set_solver].
    intros b. rewrite occ_nil. simpl. destruct (deg !! b); simpl; [|done]. f_equal. lia.
  - destruct (Hdeg x) as (dx & Hdx & Hle); [by left|].
    rewrite occ_cons, decide_True in Hle by done.
    set (deg' := <[x := (dx - 1)%Z]> deg). set (q' := if bool_decide (dx - 1 = 0)%Z then sort_strings (q ++ [x]) else q).
    assert (Hr : relax (deg, q) x = (deg', q')).
    { unfold relax. simpl. rewrite (get_or_Some _ _ _ _ Hdx), get_or_insert_eq.
      unfold q'. by case_bool_decide. }
    rewrite Hr.
    assert (Hx0 : (dx - 1 = 0)%Z → x ∉ L) by (intros; apply occ_zero; lia).
    destruct (IH deg' q') as (H1 & H2 & H3 & H4).
    + intros b Hb. unfold deg'. destruct (decide (x = b)) as [->|Hxb].
      * rewrite lookup_insert_eq. eexists; split; [done|]. lia.
      * rewrite lookup_insert_ne by done. destruct (Hdeg b) as (d & Hd & Hd'); [by right|].
        rewrite occ_cons, decide_False in Hd' by done. by eexists.
    + intros b Hb. unfold q'. case_bool_decide; [|apply Hq; by right].
      rewrite elem_of_sort_strings. pose proof (Hq b). set_solver.
    + unfold q'. case_bool_decide; [|done]. rewrite NoDup_sort_strings.
      apply NoDup_app. split_and!; [done| |apply NoDup_singleton].
      intros y Hy ->%list_elem_of_singleton. apply (Hq x); [by left|done].
    + unfold q'. case_bool_decide; [apply sort_strings_sorted|done].
    + split_and!; [|done|done|].
      * intros b. rewrite H1. unfold deg'. rewrite occ_cons, lookup_insert. case_decide as Hxb.
        -- subst b. rewrite Hdx. simpl. f_equal. lia.
        -- by destruct (deg !! b).
      * intros b. rewrite H4, H1. unfold q', deg'. rewrite lookup_insert.
        case_bool_decide as Hz.
        -- rewrite elem_of_sort_strings, elem_of_app, list_elem_of_singleton, elem_of_cons.
           case_decide as Hxb; [subst b|assert (b ≠ x) by done; tauto].
           specialize (Hx0 Hz). apply occ_zero in Hx0. simpl. rewrite Hx0.
           split; [|by left; right]. intros _. right. split; [by left|]. f_equal. lia.
        -- rewrite elem_of_cons. case_decide as Hxb; [subst b|assert (b ≠ x) by done; tauto].
           split; [tauto|]. intros [?|[_ E]]; [by left|].
           right. split; [|done]. apply occ_pos. simpl in E. simplify_eq. lia.
Qed.

(** *** The loop invariant *)

Definition unmet (r : list string) (b : string) : list string :=
  filter (λ a, a ∉ r) (preds g b).

Record kahn_inv (deg : gmap string Z) (queue result : list string) : Prop := {
  ki_deg : ∀ b, deg !! b = (λ _, Z.of_nat (length (unmet result b))) <$> nodes g !! b;
  ki_nodup : NoDup (result ++ queue);
  ki_mem : ∀ b, b ∈ result ++ queue ↔
             is_Some (nodes g !! b) ∧ ∀ a, depends g a b → a ∈ result;
  ki_sorted : Sorted String.le queue;
  ki_greedy : greedy g result;
}.

Lemma length_filter_split (P : string → Prop) `{∀ x, Decision (P x)} c l :
  P c → length (filter P l) = length (filter (λ a, P a ∧ a ≠ c) l) + occ c l.
Proof.
  intros Hc. induction l as [|x l IH]; [done|]. rewrite !filter_cons, occ_cons.
  destruct (decide (P x)), (decide (P x ∧ x ≠ c)), (decide (x = c)); subst; simpl; naive_solver lia.
Qed.

Lemma unmet_snoc r c b :
  c ∉ r → length (unmet r b) = length (unmet (r ++ [c]) b) + occ c (preds g b).
Proof.
  intros Hc. unfold unmet. rewrite (length_filter_split (λ a, a ∉ r) c) by done.
  f_equal. f_equal. apply list_filter_iff. intros a. set_solver.
Qed.

Lemma unmet_nil r b : length (unmet r b) = 0 ↔ ∀ a, depends g a b → a ∈ r.
Proof.
  unfold unmet, depends. induction (preds g b) as [|x l IH]; [set_solver|].
  rewrite filter_cons. case_decide; simpl.
  - split; [lia|]. intros Ha. destruct H. apply Ha. by left.
  - rewrite IH. set_solver.
Qed.

Lemma preds_node b a : edges_wf g → depends g a b → is_Some (nodes g !! b).
Proof.
  intros He. unfold depends, preds, get_or. rewrite He.
  destruct (nodes g !! b); [by eexists|]. intros H. by apply elem_of_nil in H.
Qed.

Lemma greedy_snoc r b :
  greedy g r → ready g r b → (∀ b', ready g r b' → String.le b b') → greedy g (r ++ [b]).
Proof.
  intros Hg Hr Hl l1 c l2 E.
  destruct l2 as [|y l2 _] using rev_ind.
  - apply app_inj_tail in E as [-> ->]. done.
  - rewrite app_comm_cons, app_assoc in E. apply app_inj_tail in E as [-> _]. by eapply Hg.
Qed.

Lemma kahn_inv_ready deg queue result b :
  kahn_inv deg queue result → ready g result b ↔ b ∈ queue.
Proof.
  intros [_ Hnd Hm _ _]. specialize (Hm b). apply NoDup_app in Hnd as (_ & Hd & _).
  unfold ready. split.
  - intros (Hn & Hr & Hp). destruct Hm as [_ Hm]. specialize (Hm (conj Hn Hp)). set_solver.
  - intros Hb. destruct Hm as [Hm _]. destruct Hm as [Hn Hp]; [set_solver|].
    split_and!; [done| |done]. intros Hr. by apply (Hd b).
Qed.

(** Starting [c]: who is started or ready afterwards. *)
Lemma kahn_step_members (d' : gmap string Z) q' c q result :
  edges_wf g → c ∉ result → c ∉ q →
  (∀ b, b ∈ result ++ c :: q ↔ is_Some (nodes g !! b) ∧ ∀ a, depends g a b → a ∈ result) →
  (∀ b, d' !! b = (λ _, Z.of_nat (length (unmet (result ++ [c]) b))) <$> nodes g !! b) →
  (∀ b, b ∈ q' ↔ b ∈ q ∨ (depends g c b ∧ d' !! b = Some 0%Z)) →
  ∀ b, b ∈ (result ++ [c]) ++ q' ↔ is_Some (nodes g !! b) ∧ ∀ a, depends g a b → a ∈ result ++ [c].
Proof.
  intros He Hcr Hcq Hm Hd' H4 b. rewrite !elem_of_app, list_elem_of_singleton, H4. split.
  - intros [[Hb| ->]|[Hb|[Hb Hb0]]].
    + destruct (Hm b) as [[? Hp] _]; [set_solver|]. split; [done|]. set_solver.
    + destruct (Hm c) as [[? Hp] _]; [set_solver|]. split; [done|]. set_solver.
    + destruct (Hm b) as [[? Hp] _]; [set_solver|]. split; [done|]. set_solver.
    + destruct (preds_node b c He Hb) as [n Hn]. split; [by eexists|].
      rewrite Hd', Hn in Hb0. apply unmet_nil. simpl in Hb0. simplify_eq. lia.
  - intros [[n Hn] Hp]. destruct (decide (c ∈ preds g b)) as [Hcb|Hcb].
    + right. right. split; [done|]. rewrite Hd', Hn. simpl. do 2 f_equal.
      apply unmet_nil in Hp. by rewrite Hp.
    + assert (b ∈ result ++ c :: q); [|set_solver]. apply Hm. split; [by eexists|].
      intros a Ha. specialize (Hp a Ha). apply elem_of_app in Hp as [?|E]; [done|].
      apply list_elem_of_singleton in E as ->. done.
Qed.

Lemma kahn_inv_step adj deg c q result :
  edges_wf g → (∀ a b, occ b (get_or [] adj a) = occ a (preds g b)) →
  kahn_inv deg (c :: q) result →
  let s := fold_left relax (get_or [] adj c) (deg, q) in
  kahn_inv s.1 s.2 (result ++ [c]).
Proof.
  intros He Hadj Hinv. pose proof (λ b, kahn_inv_ready _ _ _ b Hinv) as Hready.
  destruct Hinv as [Hdeg Hnd Hm Hs Hg].
  assert (Hc : c ∉ result ∧ c ∉ q) by (apply NoDup_app in Hnd as (_ & Hd & [? _]%NoDup_cons); set_solver).
  destruct Hc as [Hcr Hcq].
  set (L := get_or [] adj c).
  assert (HL : ∀ b, b ∈ L ↔ depends g c b).
  { intros b. unfold L, depends. by rewrite <- !occ_pos, Hadj. }
  destruct (relax_fold L deg q) as (H1 & H2 & H3 & H4).
  - intros b Hb%HL. destruct (preds_node b c He Hb) as [n Hn].
    rewrite Hdeg, Hn. eexists. split; [done|]. unfold L.
    rewrite Hadj, (unmet_snoc result c b Hcr). lia.
  - intros b Hb%HL Hbq. destruct (Hm b) as [Hm' _].
    destruct Hm' as [_ Hp]; [set_solver|]. by apply Hcr, Hp.
  - apply NoDup_app in Hnd as (_ & _ & [_ ?]%NoDup_cons). done.
  - by inversion Hs.
  - assert (Hd' : ∀ b, (fold_left relax L (deg, q)).1 !! b =
              (λ _, Z.of_nat (length (unmet (result ++ [c]) b))) <$> nodes g !! b).
    { intros b. rewrite H1, Hdeg. destruct (nodes g !! b); simpl; [|done]. f_equal.
      unfold L. rewrite Hadj, (unmet_snoc result c b Hcr). lia. }
    split.
    + done.
    + apply NoDup_app. apply NoDup_app in Hnd as (Hr & Hd & Hq). split_and!.
      * apply NoDup_app. split_and!; [done| |apply NoDup_singleton]. set_solver.
      * intros b Hb Hb2. apply H4 in Hb2 as [Hbq|[Hbl Hb0]]; [set_solver|].
        apply elem_of_app in Hb as [Hb| ->%list_elem_of_singleton].
        -- destruct (Hm b) as [[_ Hp] _]; [set_solver|]. by apply Hcr, Hp, HL.
        -- destruct (Hm c) as [[_ Hp] _]; [set_solver|]. by apply Hcr, Hp, HL.
      * done.
    + apply (kahn_step_members (fold_left relax L (deg, q)).1 _ c q); try done. intros b. by rewrite H4, HL.
    + done.
    + apply greedy_snoc; [done|apply Hready; by left|].
      intros b' Hb'%Hready. apply Sorted_StronglySorted in Hs; [|apply _].
      inversion Hs as [|? ? _ Hall]; subst. rewrite Forall_forall in Hall.
      apply elem_of_cons in Hb' as [->|Hb']; [done|by apply Hall].
Qed.

Lemma kahn_loop_inv fuel adj deg queue result :
  edges_wf g → (∀ a b, occ b (get_or [] adj a) = occ a (preds g b)) →
  kahn_inv deg queue result → size (nodes g) ≤ fuel + length result →
  ∃ r deg', kahn_loop fuel adj deg queue result = Some r ∧ kahn_inv deg' [] r.
Proof.
  intros He Hadj. revert deg queue result.
  induction fuel as [|fuel IH]; intros deg [|c q] result Hinv Hf; simpl; [by eauto| |by eauto|].
  - exfalso. enough (length (result ++ c :: q) ≤ size (nodes g)) by (rewrite length_app in *; simpl in *; lia).
    destruct Hinv as [_ Hnd Hm _ _]. rewrite <- size_dom, <- (size_list_to_set (C:=gset string)) by done.
    apply subseteq_size. intros b. rewrite elem_of_list_to_set, elem_of_dom. by intros [? _]%Hm.
  - apply IH; [by apply kahn_inv_step|]. rewrite length_app. simpl. lia.
Qed.

Lemma kahn_init s :
  edges_wf g →
  link_edges g (go_range 1 (edges g)) (mkMaps ∅ (init_degrees (go_range 0 (nodes g)))) = Ok s →
  resolvable g ∧ (∀ a b, occ b (get_or [] (adjList s) a) = occ a (preds g b)) ∧
  kahn_inv (inDegree s) (sort_strings (zero_entries (go_range 2 (inDegree s)))) [].
Proof.
  intros He Hok. apply link_edges_Ok in Hok as (Hres & Hocc & Hdeg).
  2: apply NoDup_fst_go_range.
  2:{ intros [b ts] Hb%elem_of_go_range. simpl. rewrite init_degrees_lookup, decide_True; [by eexists|].
      apply elem_of_fst_go_range. rewrite He in Hb. destruct (nodes g !! b); [by eexists|done]. }
  assert (Hpo : ∀ b, provs_of (go_range 1 (edges g)) b = preds g b).
  { intros b. unfold provs_of, preds, get_or. do 2 f_equal.
    rewrite (list_to_map_proper _ (map_to_list (edges g))), list_to_map_to_list;
      [done|apply NoDup_fst_go_range|apply go_range_perm]. }
  assert (Hd : ∀ b, inDegree s !! b = (λ _, Z.of_nat (length (unmet [] b))) <$> nodes g !! b).
  { intros b. rewrite Hdeg, Hpo. simpl. rewrite init_degrees_lookup.
    assert (Hu : unmet [] b = preds g b) by (unfold unmet; apply filter_id; set_solver).
    rewrite Hu. case_decide as Hb; rewrite elem_of_fst_go_range in Hb.
    - destruct Hb as [n ->]. done.
    - apply eq_None_not_Some in Hb. by rewrite Hb. }
  split_and!.
  - intros b ts t Hb Ht. by eapply (Hres (b, ts)); [apply elem_of_go_range|].
  - intros a b. rewrite Hocc, Hpo. simpl. rewrite get_or_empty, occ_nil. lia.
  - split.
    + done.
    + simpl. apply NoDup_sort_strings, zero_entries_NoDup, NoDup_fst_go_range.
    + intros b. simpl. rewrite elem_of_sort_strings, zero_entries_elem, elem_of_go_range, Hd.
      rewrite <- unmet_nil. destruct (nodes g !! b); simpl; split.
      * intros [= E]. split; [by eexists|]. lia.
      * intros [_ ->]. done.
      * done.
      * intros [[? ?] _]. done.
    + apply sort_strings_sorted.
    + intros l1 b l2 E. by destruct l1.
Qed.

(** The outcomes of [StartupOrder]. *)
Lemma StartupOrder_cases :
  edges_wf g →
  (∃ e b ts t, StartupOrder g = Some (Err e) ∧
      edges g !! b = Some ts ∧ t ∈ ts ∧ get_or [] (byType g) t = []) ∨
  (resolvable g ∧ ∃ r deg, kahn_inv deg [] r ∧
      ((length r = size (nodes g) ∧ StartupOrder g = Some (Ok r)) ∨
       (length r ≠ size (nodes g) ∧ ∃ e, StartupOrder g = Some (Err e)))).
Proof.
  intros He. unfold StartupOrder.
  destruct (link_edges _ _ _) as [s|e] eqn:E.
  - right. apply kahn_init in E as (Hres & Hadj & Hinv); [|done]. split; [done|].
    destruct (kahn_loop_inv (size (nodes g)) (adjList s) _ _ _ He Hadj Hinv)
      as (r & deg & -> & Hr); [simpl; lia|].
    exists r, deg. split; [done|]. case_bool_decide; [by left|]. right. by eauto.
  - left. apply link_edges_Err in E as (b & ts & t & Hb%elem_of_go_range & ? & ?).
    by exists e, b, ts, t.
Qed.

(** A finished run covers exactly the plugins when it has the right length. *)
Lemma kahn_inv_complete deg r :
  kahn_inv deg [] r → length r = size (nodes g) ↔ ∀ b, is_Some (nodes g !! b) → b ∈ r.
Proof.
  intros [_ Hnd Hm _ _]. rewrite app_nil_r in *.
  rewrite <- size_dom, <- (size_list_to_set (C:=gset string) r) by done.
  assert (Hsub : (list_to_set r : gset string) ⊆ dom (nodes g)).
  { intros b. rewrite elem_of_list_to_set, elem_of_dom. by intros [? _]%Hm. }
  split.
  - intros E b Hb%elem_of_dom. apply (elem_of_list_to_set (C:=gset string)).
    rewrite (set_subseteq_size_eq _ _ Hsub) by lia. done.
  - intros Hall. f_equal. apply set_eq. intros b. split; [apply Hsub|].
    rewrite elem_of_dom, elem_of_list_to_set. apply Hall.
Qed.

(** A plugin left out waits for another one. *)
Lemma kahn_inv_stuck deg r b :
  kahn_inv deg [] r → is_Some (nodes g !! b) → b ∉ r → ∃ a, depends g a b ∧ a ∉ r.
Proof.
  intros [_ _ Hm _ _] Hn Hb. rewrite app_nil_r in *.
  assert (Hu : unmet r b ≠ []).
  { intros E. apply Hb, Hm. split; [done|]. apply unmet_nil. by rewrite E. }
  destruct (unmet r b) as [|a l] eqn:E; [done|]. exists a.
  assert (Ha : a ∈ unmet r b) by (rewrite E; left).
  unfold unmet in Ha. apply list_elem_of_filter in Ha as [? ?]. done.
Qed.

Lemma depends_tc_cycle deg r b :
  index_wf g → edges_wf g → kahn_inv deg [] r → is_Some (nodes g !! b) → b ∉ r →
  ∃ x, tc (depends g) x x.
Proof.
  intros Hi He Hinv Hn Hb.
  apply (finite_pred_cycle (depends g) (dom (nodes g) ∖ list_to_set r) b).
  - apply elem_of_difference. rewrite elem_of_dom, elem_of_list_to_set. done.
  - intros y [Hy Hyr]%elem_of_difference. rewrite elem_of_dom, elem_of_list_to_set in *.
    destruct (kahn_inv_stuck deg r y Hinv Hy Hyr) as (a & Ha & Har). exists a.
    split; [|done]. apply elem_of_difference. rewrite elem_of_dom, elem_of_list_to_set.
    split; [|done]. unfold depends, preds, provs in Ha.
    apply list_elem_of_In, in_concat in Ha as (l & Hl & Ha).
    apply list_elem_of_In, list_elem_of_fmap in Hl as (t & -> & _).
    apply list_elem_of_In, index_wf_provider in Ha as (n & -> & _); [by eexists|done].
Qed.
End kahn.

(** Abstract specification: the startup sequence is the greedy one, and complete. *)
Definition startup_spec (g : Graph) (r : list string) : Prop :=
  resolvable g ∧ greedy g r ∧ ∀ b, is_Some (nodes g !! b) → b ∈ r.

Lemma greedy_prefix_unique g l s1 s2 :
  greedy g (l ++ s1) → greedy g (l ++ s2) →
  (∀ b, ¬ ready g (l ++ s1) b) → (∀ b, ¬ ready g (l ++ s2) b) → s1 = s2.
Proof.
  revert l s2. induction s1 as [|b s1 IH]; intros l s2 G1 G2 M1 M2; destruct s2 as [|c s2]; [done| | |].
  - destruct (G2 l c s2 eq_refl) as [Hc _]. rewrite app_nil_r in M1. by destruct (M1 c).
  - destruct (G1 l b s1 eq_refl) as [Hb _]. rewrite app_nil_r in M2. by destruct (M2 b).
  - destruct (G1 l b s1 eq_refl) as [Hb Hbl], (G2 l c s2 eq_refl) as [Hc Hcl].
    assert (b = c) as <-.
    { apply (anti_symm String.le); [by apply Hbl|by apply Hcl]. }
    f_equal. apply (IH (l ++ [b])); rewrite <- !app_assoc; done.
Qed.

Lemma complete_maximal g r : (∀ b, is_Some (nodes g !! b) → b ∈ r) → ∀ b, ¬ ready g r b.
Proof. intros Hc b (Hn & Hb & _). by apply Hb, Hc. Qed.

Lemma startup_spec_unique g r1 r2 : startup_spec g r1 → startup_spec g r2 → r1 = r2.
Proof.
  intros (_ & ? & ?) (_ & ? & ?).
  apply (greedy_prefix_unique g []); [done..| |]; by apply complete_maximal.
Qed.

Lemma greedy_NoDup g r : greedy g r → NoDup r.
Proof.
  intros Hg. induction r as [|b r IH] using rev_ind; [constructor|].
  apply NoDup_app. split_and!.
  - apply IH. intros l1 c l2 ->. apply (Hg l1 c (l2 ++ [b])). by rewrite <- app_assoc.
  - intros x Hx ->%list_elem_of_singleton. destruct (Hg r b [] eq_refl) as [(_ & ? & _) _]. done.
  - apply NoDup_singleton.
Qed.

Lemma greedy_before g r a b :
  greedy g r → b ∈ r → depends g a b → ∃ l1 l2 l3, r = l1 ++ a :: l2 ++ b :: l3.
Proof.
  intros Hg (k & l3 & ->)%list_elem_of_split Hab.
  destruct (Hg k b l3 eq_refl) as [(_ & _ & Hp) _].
  apply Hp, list_elem_of_split in Hab as (l1 & l2 & ->).
  exists l1, l2, l3. by rewrite <- app_assoc.
Qed.

Section startup_spec.
Context `{GR : GoRange} (g : Graph).

Lemma StartupOrder_spec_aux r :
  edges_wf g → StartupOrder g = Some (Ok r) ↔ startup_spec g r.
Proof.
  intros He. destruct (StartupOrder_cases g He)
    as [(e & b & ts & t & -> & Hb & Ht & Hno)|(Hres & r' & deg & Hinv & [[Hl ->]|[Hl [e ->]]])].
  - split; [done|]. intros [Hr _]. by destruct (Hr b ts t Hb Ht).
  - pose proof (proj1 (kahn_inv_complete g deg r' Hinv) Hl) as Hc. pose proof (ki_greedy _ _ _ _ Hinv) as Hg. split.
    + by intros [= <-].
    + intros Hr. do 2 f_equal. by apply (startup_spec_unique g).
  - split; [done|]. intros (_ & Hg & Hc). destruct Hl.
    apply (kahn_inv_complete g deg r' Hinv). pose proof (ki_greedy _ _ _ _ Hinv) as Hg'.
    rewrite (greedy_prefix_unique g [] r' r); [done..| |by apply complete_maximal].
    intros b Hb%(kahn_inv_ready _ _ _ _ _ Hinv). by apply elem_of_nil in Hb.
Qed.

Lemma StartupOrder_not_None : edges_wf g → StartupOrder g ≠ None.
Proof.
  intros He. by destruct (StartupOrder_cases g He)
    as [(e & b & ts & t & -> & _)|(_ & r & deg & _ & [[_ ->]|[_ [e ->]]])].
Qed.

Lemma StartupOrder_Err_aux e :
  graph_wf g → StartupOrder g = Some (Err e) → ¬ resolvable g ∨ ∃ x, tc (depends g) x x.
Proof.
  intros [He Hi]. destruct (StartupOrder_cases g He)
    as [(e' & b & ts & t & -> & Hb & Ht & Hno)|(Hres & r & deg & Hinv & [[Hl ->]|[Hl _]])].
  - intros _. left. intros Hr. by destruct (Hr b ts t Hb Ht).
  - done.
  - intros _. right.
    destruct (decide (set_Forall (λ b, b ∈ r) (dom (nodes g)))) as [Hall|Hn].
    + destruct Hl. apply (kahn_inv_complete g deg r Hinv). intros b Hb%elem_of_dom. by apply Hall.
    + apply not_set_Forall_Exists in Hn; [|apply _]. destruct Hn as (b & Hb%elem_of_dom & Hbr).
      by eapply depends_tc_cycle.
Qed.

(** A startup sequence rules cycles out. *)
Lemma greedy_depends_before r a b l1 l2 :
  greedy g r → r = l1 ++ b :: l2 → tc (depends g) a b → a ∈ l1.
Proof.
  intros Hg. revert l1 l2. intros l1 l2 E Htc. revert l1 l2 E.
  induction Htc as [a b Hab|a c b Hac Hcb IH]; intros l1 l2 E.
  - destruct (Hg l1 b l2 E) as [(_ & _ & Hp) _]. by apply Hp.
  - specialize (IH l1 l2 E). apply list_elem_of_split in IH as (k1 & k2 & ->).
    rewrite <- app_assoc in E. destruct (Hg k1 c _ E) as [(_ & _ & Hp) _].
    apply elem_of_app. left. by apply Hp.
Qed.

Lemma startup_spec_acyclic r x : edges_wf g → startup_spec g r → ¬ tc (depends g) x x.
Proof.
  intros He (_ & Hg & Hc) Hx.
  assert (Hn : is_Some (nodes g !! x)).
  { revert Hx. generalize x at 1. intros y Hyx. clear -Hyx He.
    induction Hyx as [a b Hab|a c b _ _ IH]; [by eapply preds_node|done]. }
  apply Hc, list_elem_of_split in Hn as (l1 & l2 & E).
  pose proof (greedy_depends_before r x x l1 l2 Hg E Hx) as Hin.
  destruct (Hg l1 x l2 E) as [(_ & ? & _) _]. done.
Qed.
End startup_spec.

(** *** Properties *)

(** C1: [StartupOrder] always returns (its loop runs at most once per plugin), and it
    returns [r] exactly when every startup requirement has a provider and [r] is the
    complete sequence that starts, at every point, the least startable plugin. *)
Theorem StartupOrder_refines_spec `{GoRange} g :
  edges_wf g →
  StartupOrder g ≠ None ∧ ∀ r, StartupOrder g = Some (Ok r) ↔ startup_spec g r.
Proof. intros He. split; [by apply StartupOrder_not_None|]. intros r. by apply StartupOrder_spec_aux. Qed.

(** A returned order lists every plugin exactly once, each provider of a required
    service before the plugin that requires it. *)
Theorem StartupOrder_topological `{GoRange} g r :
  edges_wf g → StartupOrder g = Some (Ok r) →
  r ≡ₚ (map_to_list (nodes g)).*1 ∧
  ∀ b ts t a, edges g !! b = Some ts → t ∈ ts → a ∈ GetProviders g t →
    ∃ l1 l2 l3, r = l1 ++ a :: l2 ++ b :: l3.
Proof.
  intros He Hr%StartupOrder_spec_aux; [|done]. destruct Hr as (_ & Hg & Hc). split.
  - apply NoDup_Permutation; [by eapply greedy_NoDup|apply NoDup_fst_map_to_list|].
    intros b. rewrite <- (go_range_perm 0), elem_of_fst_go_range. split; [|apply Hc].
    intros (k1 & k2 & E)%list_elem_of_split. by destruct (Hg k1 b k2 E) as [[? _] _].
  - intros b ts t a Hb Ht Ha. apply (greedy_before g); [done| |].
    + apply Hc. rewrite He in Hb. destruct (nodes g !! b); [by eexists|done].
    + unfold depends, preds, provs. rewrite (get_or_Some _ _ _ _ Hb).
      apply list_elem_of_In, in_concat. exists (get_or [] (byType g) t).
      split; apply list_elem_of_In; [|done].
      apply list_elem_of_fmap. by exists t.
Qed.

(** C14: on a graph whose index is exact, [StartupOrder] succeeds if and only if every
    startup requirement has a provider and no plugin transitively waits for itself. *)
Theorem StartupOrder_succeeds_iff `{GoRange} g :
  graph_wf g →
  (∃ r, StartupOrder g = Some (Ok r)) ↔ resolvable g ∧ ∀ x, ¬ tc (depends g) x x.
Proof.
  intros Hwf. pose proof Hwf as [He Hi]. split.
  - intros [r Hr%StartupOrder_spec_aux]; [|done]. split; [apply Hr|].
    intros x. by apply (startup_spec_acyclic g r).
  - intros [Hres Hac]. destruct (StartupOrder g) as [[r|e]|] eqn:E; [by exists r| |].
    + destruct (StartupOrder_Err_aux g e Hwf E) as [?|[x Hx]]; [done|]. by destruct (Hac x).
    + by destruct (StartupOrder_not_None g He).
Qed.

(** The outcome does not depend on the iteration order of Go maps: two runs under
    different orders return the same sequence, or both fail. *)
Theorem StartupOrder_deterministic (R1 R2 : GoRange) g :
  edges_wf g →
  match StartupOrder (GR := R1) g, StartupOrder (GR := R2) g with
  | Some (Ok r1), Some (Ok r2) => r1 = r2
  | Some (Err _), Some (Err _) => True
  | _, _ => False
  end.
Proof.
  intros He.
  pose proof (StartupOrder_not_None (GR := R1) g He). pose proof (StartupOrder_not_None (GR := R2) g He).
  destruct (StartupOrder (GR := R1) g) as [[r1|e1]|] eqn:E1; [| |done];
    (destruct (StartupOrder (GR := R2) g) as [[r2|e2]|] eqn:E2; [| |done]); try done.
  - apply StartupOrder_spec_aux in E1; [|done]. apply StartupOrder_spec_aux in E2; [|done].
    by eapply startup_spec_unique.
  - apply StartupOrder_spec_aux in E1; [|done].
    apply (StartupOrder_spec_aux (GR := R2)) in E1; [|done]. by rewrite E2 in E1.
  - apply StartupOrder_spec_aux in E2; [|done].
    apply (StartupOrder_spec_aux (GR := R1)) in E2; [|done]. by rewrite E1 in E2.
Qed.

(** A plugin added under a fresh id and then removed leaves the graph as it was,
    and both operations keep the index exact. *)
Theorem Add_Remove_roundtrip g n id :
  graph_wf g → nodes g !! RuntimeID n = None →
  graph_wf (Add g n) ∧ graph_wf (Remove g id) ∧ Remove (Add g n) (RuntimeID n) = g.
Proof.
  intros Hwf Hn. split_and!; [by apply Add_wf|by apply Remove_wf|by apply Remove_Add_aux].
Qed.

(** *** A concrete platform: app needs cache and logger, cache needs logger *)

Definition ex_logger : Node := mkNode "logger-a1" "logger" [mkDecl "logger" "1.0.0"] [].
Definition ex_cache : Node :=
  mkNode "cache-b2" "cache" [mkDecl "cache" "1.0.0"] [mkDep "logger" "1.0.0" true true].
Definition ex_app : Node :=
  mkNode "app-c3" "app" [] [mkDep "cache" "1.0.0" true false; mkDep "logger" "" true false].
Definition ex_graph : Graph := Add (Add (Add New ex_app) ex_cache) ex_logger.

Lemma ex_graph_wf : graph_wf ex_graph.
Proof. unfold ex_graph. repeat (apply Add_wf; [|reflexivity]). apply New_wf. Qed.

Definition ex_order : list string := ["logger-a1"; "cache-b2"; "app-c3"].

Lemma StartupOrder_refines_spec_witness :
  edges_wf ex_graph ∧ startup_spec ex_graph ex_order.
Proof.
  split; [apply ex_graph_wf|].
  apply (proj2 (StartupOrder_refines_spec ex_graph (proj1 ex_graph_wf)) ex_order).
  vm_compute. reflexivity.
Defined.

Lemma StartupOrder_topological_witness : ex_order ≡ₚ (map_to_list (nodes ex_graph)).*1.
Proof.
  apply (StartupOrder_topological ex_graph ex_order (proj1 ex_graph_wf)).
  vm_compute. reflexivity.
Defined.

Lemma StartupOrder_succeeds_iff_witness : resolvable ex_graph ∧ ∀ x, ¬ tc (depends ex_graph) x x.
Proof.
  apply (StartupOrder_succeeds_iff ex_graph ex_graph_wf). exists ex_order.
  vm_compute. reflexivity.
Defined.

Lemma StartupOrder_deterministic_witness :
  StartupOrder (GR := range_fwd) ex_graph = Some (Ok ex_order) ∧
  match StartupOrder (GR := range_fwd) ex_graph, StartupOrder (GR := range_bwd) ex_graph with
  | Some (Ok r1), Some (Ok r2) => r1 = r2
  | Some (Err _), Some (Err _) => True
  | _, _ => False
  end.
Proof.
  split; [vm_compute; reflexivity|].
  apply (StartupOrder_deterministic range_fwd range_bwd ex_graph (proj1 ex_graph_wf)).
Defined.

Definition ex_extra : Node := mkNode "cache-d4" "cache" [mkDecl "cache" "2.0.0"] [].

Lemma Add_Remove_roundtrip_witness :
  nodes ex_graph !! RuntimeID ex_extra = None ∧
  Remove (Add ex_graph ex_extra) (RuntimeID ex_extra) = ex_graph.
Proof.
  split; [reflexivity|].
  apply (Add_Remove_roundtrip ex_graph ex_extra "cache-b2" ex_graph_wf). reflexivity.
Defined.

(** A plugin added twice under one id leaves a stale index entry behind after its
    removal, and [StartupOrder] then reports a cycle that does not exist. *)
Definition ex_stale : Graph :=
  Remove (Add (Add (Add New ex_logger) ex_logger) ex_cache) "logger-a1".

Lemma readded_id_false_cycle :
  nodes ex_stale !! "logger-a1" = None ∧ HasService ex_stale "logger" = true ∧
  StartupOrder ex_stale =
    Some (Err (Errorf "dependency cycle detected (processed %d of %d plugins)" [AInt 0; AInt 1])).
Proof. vm_compute. split_and!; reflexivity. Qed.

End depgraph.
