(* ===== verification/DepgraphImpact.v ===== *)
(** * Impact analysis: what [GetImpact] computes

    The recursive search of [findDependents] is a depth-first traversal of the
    relation "removing [a] leaves [b] without a required service".  The analysis is
    characterised as reachability in that relation, for every iteration order of
    [g.nodes], and the fuel of the model is shown to be enough. *)

From stdpp Require Import prelude gmap strings list fin_maps sorting relations.
From S2P Require Import Prelude GoRuntime Depgraph.

Module depimpact.
Import depgraph.

(** ** The relations the search explores *)

(** Plugin [b] has a dependency [dep] on service [svc] of another plugin [a]. *)
Definition uses (g : Graph) (a b : string) (svc : ServiceDeclaration) (dep : ServiceDependency) : Prop :=
  a ≠ b ∧ ∃ na nb, nodes g !! a = Some na ∧ nodes g !! b = Some nb ∧
    svc ∈ Provides na ∧ dep ∈ Requires nb ∧ dep_Type dep = decl_Type svc.

(** ... required for startup, and nobody but [a] provides it: removing [a] breaks [b]. *)
Definition breaks (g : Graph) (a b : string) : Prop :=
  ∃ svc dep, uses g a b svc dep ∧ getOtherProviders g (decl_Type svc) a = [] ∧
    dep_RequiredForStartup dep = true.

(** ... optional, or still available elsewhere. *)
Definition touches (g : Graph) (a b : string) : Prop :=
  ∃ svc dep, uses g a b svc dep ∧
    (getOtherProviders g (decl_Type svc) a ≠ [] ∨ dep_RequiredForStartup dep = false).

(** ** appendUnique *)

Lemma elem_of_appendUnique l x y : y ∈ appendUnique l x ↔ y ∈ l ∨ y = x.
Proof.
  induction l as [|z l IH]; simpl; [set_solver|].
  case_bool_decide; [set_solver|]. rewrite elem_of_cons, IH. set_solver.
Qed.

Lemma NoDup_appendUnique l x : NoDup l → NoDup (appendUnique l x).
Proof.
  induction 1 as [|z l Hz Hl IH]; simpl; [apply NoDup_singleton|].
  case_bool_decide; [by constructor|]. constructor; [|done].
  rewrite elem_of_appendUnique. naive_solver.
Qed.

(** A nonempty path has a last step. *)
Lemma tc_rtc_inv {A} (R : relation A) x y : tc R x y → ∃ z, rtc R x z ∧ R z y.
Proof.
  induction 1 as [x y H|x y z H _ (u & ? & ?)].
  - exists x. split; [apply rtc_refl|done].
  - exists u. split; [by eapply rtc_l|done].
Qed.

Section search.
Context `{GR : GoRange} (g : Graph).
Implicit Types w : walk.

Definition aff w := AffectedPlugins (impact w).
Definition opt w := OptionalImpact (impact w).

(** [w'] extends [w] by findings justified from [x], with every plugin visited in
    between fully explored. *)
Record grows (x : string) (w w' : walk) : Prop := {
  gr_vis : visited w ⊆ visited w';
  gr_aff : ∀ b, b ∈ aff w → b ∈ aff w';
  gr_opt : ∀ b, b ∈ opt w → b ∈ opt w';
  gr_vis_sound : ∀ b, b ∈ visited w' → b ∈ visited w ∨ rtc (breaks g) x b;
  gr_aff_sound : ∀ b, b ∈ aff w' → b ∈ aff w ∨ tc (breaks g) x b;
  gr_opt_sound : ∀ b, b ∈ opt w' → b ∈ opt w ∨ ∃ a, rtc (breaks g) x a ∧ touches g a b;
  gr_closed : ∀ a, a ∈ visited w' → a ∉ visited w → ∀ b,
    (breaks g a b → b ∈ visited w' ∧ b ∈ aff w') ∧ (touches g a b → b ∈ opt w');
  gr_nodup : NoDup (aff w) → NoDup (opt w) → NoDup (aff w') ∧ NoDup (opt w');
  gr_frame : TargetPlugin (impact w') = TargetPlugin (impact w) ∧
             AffectedServices (impact w') = AffectedServices (impact w);
}.

Lemma grows_refl x w : grows x w w.
Proof. split; naive_solver. Qed.

Lemma grows_trans x w1 w2 w3 : grows x w1 w2 → grows x w2 w3 → grows x w1 w3.
Proof.
  intros [V A O VS AS OS C N [T S]] [V' A' O' VS' AS' OS' C' N' [T' S']]. split.
  - set_solver.
  - auto.
  - auto.
  - intros b [?|?]%VS'; auto.
  - intros b [?|?]%AS'; auto.
  - intros b [?|?]%OS'; auto.
  - intros a Ha Hn b. destruct (decide (a ∈ visited w2)) as [Hm|Hm]; [|by apply C'].
    destruct (C a Hm Hn b) as [C1 C2]. split; [intros Hb|intros Hb].
    + destruct (C1 Hb). split; [set_solver|auto].
    + auto.
  - intros Ha Ho. destruct (N Ha Ho). auto.
  - split; congruence.
Qed.

#[local] Instance grows_preorder x : PreOrder (grows x).
Proof. split; [intros w; apply grows_refl|intros w1 w2 w3; apply grows_trans]. Qed.

(** Findings of a broken plugin are findings of the plugin that breaks it. *)
Lemma grows_step x y w w' : breaks g x y → grows y w w' → grows x w w'.
Proof.
  intros Hxy [V A O VS AS OS C N F]. split; try done.
  - intros b [?|?]%VS; [by left|]. right. by eapply rtc_l.
  - intros b [?|?]%AS; [by left|]. right. by eapply tc_l.
  - intros b [?|(a & ? & ?)]%OS; [by left|]. right. exists a. split; [by eapply rtc_l|done].
Qed.

Lemma grows_affected x y w :
  breaks g x y → grows x w (set_impact w (with_affected (impact w) y)).
Proof.
  intros H. split; simpl; try done.
  - intros b Hb. apply elem_of_appendUnique. by left.
  - by left.
  - intros b [?| ->]%elem_of_appendUnique; [by left|]. right. by constructor.
  - by left.
  - intros ? Ho. split; [by apply NoDup_appendUnique|done].
Qed.

Lemma grows_optional x y w :
  touches g x y → grows x w (set_impact w (with_optional (impact w) y)).
Proof.
  intros H. split; simpl; try done.
  - intros b Hb. apply elem_of_appendUnique. by left.
  - by left.
  - by left.
  - intros b [?| ->]%elem_of_appendUnique; [by left|]. right. exists x. by split.
  - intros ? Ho. split; [done|by apply NoDup_appendUnique].
Qed.

Lemma grows_tick x w : grows x w (tick w).
Proof. split; naive_solver. Qed.

(** A loop each of whose iterations grows the findings and establishes [Q]. *)
Lemma foldM_grows {E} x (f : walk → E → option walk) (Q : E → walk → Prop) l w w' :
  (∀ e w w', grows x w w' → Q e w → Q e w') →
  (∀ e w w', e ∈ l → f w e = Some w' → grows x w w' ∧ Q e w') →
  foldM f l w = Some w' → grows x w w' ∧ ∀ e, e ∈ l → Q e w'.
Proof.
  intros HQ. revert w. induction l as [|e l IH]; intros w Hf; simpl.
  - intros [= <-]. split; [done|]. intros e He. by apply elem_of_nil in He.
  - destruct (f w e) as [w1|] eqn:E1; [|done]. intros E2.
    apply Hf in E1 as [G1 Q1]; [|by left].
    apply IH in E2 as [G2 Q2]; [|intros e' ? ? He'; apply Hf; by right].
    split; [by transitivity w1|]. intros e' [->|He']%elem_of_cons; [by eapply HQ|by apply Q2].
Qed.
(** ** One level of the search *)

Section level.
Context (rec : string → walk → option walk).
Context (Hrec : ∀ y w w', rec y w = Some w' → grows y w w' ∧ y ∈ visited w').
Context (x : string) (nx : Node) (Hx : nodes g !! x = Some nx).

(** What the findings say about [b]'s dependency [dep] on [svc] of [x]. *)
Definition dep_seen (svc : ServiceDeclaration) (b : string) (dep : ServiceDependency) (w : walk) : Prop :=
  dep_Type dep = decl_Type svc →
  (getOtherProviders g (decl_Type svc) x = [] ∧ dep_RequiredForStartup dep = true →
     b ∈ visited w ∧ b ∈ aff w) ∧
  (getOtherProviders g (decl_Type svc) x ≠ [] ∨ dep_RequiredForStartup dep = false → b ∈ opt w).

Lemma dep_seen_grows svc b dep w w' : grows x w w' → dep_seen svc b dep w → dep_seen svc b dep w'.
Proof.
  intros G Hs Ht. destruct (Hs Ht) as [H1 H2]. split.
  - intros Hb. destruct (H1 Hb). split; [by apply (gr_vis _ _ _ G)|by apply (gr_aff _ _ _ G)].
  - intros Hb. apply (gr_opt _ _ _ G). auto.
Qed.

Lemma visit_dep_grows svc b nb dep w w' :
  svc ∈ Provides nx → x ≠ b → nodes g !! b = Some nb → dep ∈ Requires nb →
  visit_dep g rec x (decl_Type svc) b w dep = Some w' →
  grows x w w' ∧ dep_seen svc b dep w'.
Proof.
  intros Hsvc Hne Hb Hdep. unfold visit_dep. case_bool_decide as Ht.
  2:{ intros [= <-]. split; [done|]. intros Ht2. by destruct Ht. }
  assert (Hu : uses g x b svc dep) by (split; [done|]; by exists nx, nb).
  destruct (getOtherProviders g (decl_Type svc) x) as [|o os] eqn:Eo.
  - destruct (dep_RequiredForStartup dep) eqn:Er.
    + assert (Hbr : breaks g x b) by by exists svc, dep.
      intros E. apply Hrec in E as [G Hv]. split.
      * etransitivity; [by apply grows_affected|]. by apply (grows_step x b).
      * intros _. split; [|intros [?|?]; congruence]. intros _. split; [done|].
        apply (gr_aff _ _ _ G). apply elem_of_appendUnique. by right.
    + assert (Hto : touches g x b) by (exists svc, dep; split; [done|by right]).
      intros [= <-]. split; [by apply grows_optional|].
      intros _. split; [intros [? ?]; congruence|]. intros _. apply elem_of_appendUnique. by right.
  - assert (Hto : touches g x b) by (exists svc, dep; split; [done|left; by rewrite Eo]).
    intros [= <-]. split; [by apply grows_optional|].
    intros _. split; [intros [? ?]; congruence|]. intros _. apply elem_of_appendUnique. by right.
Qed.

Definition other_seen (svc : ServiceDeclaration) (o : string * Node) (w : walk) : Prop :=
  o.1 ≠ x → ∀ dep, dep ∈ Requires o.2 → dep_seen svc o.1 dep w.

Lemma visit_other_grows svc o w w' :
  svc ∈ Provides nx → nodes g !! o.1 = Some o.2 →
  visit_other g rec x (decl_Type svc) w o = Some w' → grows x w w' ∧ other_seen svc o w'.
Proof.
  intros Hsvc Ho. unfold visit_other. case_bool_decide as Hne.
  { intros [= <-]. split; [done|]. intros Hne2. by destruct Hne2. }
  intros E. eapply (foldM_grows x _ (dep_seen svc o.1)) in E as [G Q].
  - split; [done|]. by intros _.
  - intros dep w1 w2. apply dep_seen_grows.
  - intros dep w1 w2 Hd. by eapply visit_dep_grows.
Qed.

Definition svc_seen (svc : ServiceDeclaration) (w : walk) : Prop :=
  ∀ b nb, nodes g !! b = Some nb → other_seen svc (b, nb) w.

Lemma svc_seen_grows svc w w' : grows x w w' → svc_seen svc w → svc_seen svc w'.
Proof. intros G Hs b nb Hb Hne dep Hd. by eapply dep_seen_grows; [|apply (Hs b nb)]. Qed.

Lemma visit_service_grows svc w w' :
  svc ∈ Provides nx → visit_service g rec x w svc = Some w' → grows x w w' ∧ svc_seen svc w'.
Proof.
  intros Hsvc E. eapply (foldM_grows x _ (other_seen svc)) in E as [G Q].
  - split; [etransitivity; [apply grows_tick|exact G]|].
    intros b nb Hb. apply Q. by apply elem_of_go_range.
  - intros o w1 w2 G Hs Hne dep Hd. by eapply dep_seen_grows; [|apply Hs].
  - intros [b nb] w1 w2 Ho. apply elem_of_go_range in Ho. by apply visit_other_grows.
Qed.

Lemma visit_services_grows w w' :
  foldM (visit_service g rec x) (Provides nx) w = Some w' →
  grows x w w' ∧ ∀ svc, svc ∈ Provides nx → svc_seen svc w'.
Proof.
  apply (foldM_grows x _ svc_seen).
  - intros svc w1 w2. apply svc_seen_grows.
  - intros svc w1 w2. apply visit_service_grows.
Qed.

(** All edges out of [x] are accounted for once its services are visited. *)
Lemma seen_edges w :
  (∀ svc, svc ∈ Provides nx → svc_seen svc w) →
  ∀ b, (breaks g x b → b ∈ visited w ∧ b ∈ aff w) ∧ (touches g x b → b ∈ opt w).
Proof.
  intros Hs b. split.
  - intros (svc & dep & (Hne & na & nb & Ha & Hb & Hsvc & Hdep & Ht) & Ho & Hr).
    rewrite Hx in Ha. simplify_eq. by apply (Hs svc Hsvc b nb Hb (not_eq_sym Hne) dep Hdep Ht).
  - intros (svc & dep & (Hne & na & nb & Ha & Hb & Hsvc & Hdep & Ht) & Ho).
    rewrite Hx in Ha. simplify_eq. by apply (Hs svc Hsvc b nb Hb (not_eq_sym Hne) dep Hdep Ht).
Qed.
End level.

Lemma findDependents_grows fuel x w w' :
  findDependents fuel g x w = Some w' → grows x w w' ∧ x ∈ visited w'.
Proof.
  revert x w w'. induction fuel as [|fuel IH]; intros x w w'; simpl; [done|].
  case_bool_decide as Hv; [intros [= <-]; by split|].
  destruct (nodes g !! x) as [nx|] eqn:Hx.
  - intros E. apply (visit_services_grows _ IH x nx Hx) in E as [G Hs].
    pose proof (seen_edges x nx Hx w' Hs) as Hedges. destruct G as [V A O VS AS OS C N F].
    split; [split; try done|apply V; set_solver].
    + set_solver.
    + intros b [Hb|?]%VS; [|by right]. apply elem_of_union in Hb as [->%elem_of_singleton|?]; [right|by left].
      apply rtc_refl.
    + intros a Ha Hn b. destruct (decide (a = x)) as [->|Hne]; [apply Hedges|].
      apply C; [done|set_solver].
  - intros [= <-]. split; [|set_solver]. split; simpl; try done.
    + set_solver.
    + intros b [->%elem_of_singleton|?]%elem_of_union; [right; apply rtc_refl|by left].
    + by left.
    + by left.
    + intros a Ha Hn b. assert (a = x) as -> by set_solver. split.
      * intros (svc & dep & (_ & na & nb & Ha' & _) & _). by rewrite Hx in Ha'.
      * intros (svc & dep & (_ & na & nb & Ha' & _) & _). by rewrite Hx in Ha'.
Qed.

(** ** The fuel is enough: each nested call visits one more plugin *)

Lemma foldM_total {E} (f : walk → E → option walk) l w (P : walk → Prop) :
  P w → (∀ e w, e ∈ l → P w → ∃ w', f w e = Some w' ∧ P w') → ∃ w', foldM f l w = Some w' ∧ P w'.
Proof.
  intros HP Hf. revert w HP. induction l as [|e l IH]; intros w HP; simpl; [by eauto|].
  destruct (Hf e w) as (w1 & -> & H1); [by left|done|]. apply IH; [|done].
  intros e' w' He'. apply Hf. by right.
Qed.

Definition unvisited (w : walk) : nat := size (dom (nodes g) ∖ visited w).

Lemma unvisited_mono w w' : visited w ⊆ visited w' → unvisited w' ≤ unvisited w.
Proof. intros. unfold unvisited. apply subseteq_size. set_solver. Qed.

Lemma unvisited_mark w x :
  is_Some (nodes g !! x) → x ∉ visited w → unvisited (mark w x) < unvisited w.
Proof.
  intros Hx%elem_of_dom Hv. unfold unvisited. simpl. apply subset_size. split; [set_solver|].
  intros Hs. specialize (Hs x). set_solver.
Qed.

Lemma findDependents_total fuel x w :
  unvisited w < fuel → ∃ w', findDependents fuel g x w = Some w' ∧ visited w ⊆ visited w'.
Proof.
  revert x w. induction fuel as [|fuel IH]; intros x w Hf; [lia|]. simpl.
  case_bool_decide as Hv; [by eauto|].
  destruct (nodes g !! x) as [nx|] eqn:Hx; [|eexists; split; [done|set_solver]].
  pose proof (unvisited_mark w x ltac:(by eexists) Hv) as Hm.
  set (P w' := visited (mark w x) ⊆ visited w').
  assert (Hrec : ∀ y w', P w' → ∃ w'', findDependents fuel g y w' = Some w'' ∧ P w'').
  { intros y w' HP. destruct (IH y w') as (w'' & -> & Hs).
    - apply unvisited_mono in HP. lia.
    - exists w''. split; [done|]. unfold P in *. set_solver. }
  destruct (foldM_total (visit_service g (findDependents fuel g) x) (Provides nx) (mark w x) P)
    as (w' & -> & HP); [by unfold P| |exists w'; split; [done|]; unfold P in HP; set_solver].
  intros svc w1 _ H1. unfold visit_service. apply foldM_total; [exact H1|]. intros [b nb] w2 _ H2.
  unfold visit_other. case_bool_decide; [by eauto|]. apply foldM_total; [done|].
  intros dep w3 _ H3. unfold visit_dep. case_bool_decide; [|by eauto].
  destruct (getOtherProviders _ _ _); [|by eauto].
  destruct (dep_RequiredForStartup dep); [by apply Hrec|by eauto].
Qed.

Lemma closed_reach (V : gset string) x b :
  x ∈ V → (∀ a, a ∈ V → ∀ b, breaks g a b → b ∈ V) → rtc (breaks g) x b → b ∈ V.
Proof. intros Hx Hc Hr. induction Hr; [done|]. apply IHHr. by eapply Hc. Qed.

Lemma GetImpact_aux t nt :
  nodes g !! t = Some nt →
  ∃ i, GetImpact g t = Some i ∧ TargetPlugin i = t ∧
    AffectedServices i = sort_strings (decl_Type <$> Provides nt) ∧
    NoDup (AffectedPlugins i) ∧ NoDup (OptionalImpact i) ∧
    Sorted String.le (AffectedPlugins i) ∧ Sorted String.le (OptionalImpact i) ∧
    (∀ b, b ∈ AffectedPlugins i ↔ tc (breaks g) t b) ∧
    (∀ b, b ∈ OptionalImpact i ↔ ∃ a, rtc (breaks g) t a ∧ touches g a b).
Proof.
  intros Ht. unfold GetImpact. rewrite Ht.
  set (w0 := mkWalk _ ∅ 0).
  destruct (findDependents_total (S (size (nodes g))) t w0) as (w & Hw & _).
  { unfold unvisited, w0. simpl. rewrite difference_empty_L, size_dom. lia. }
  rewrite Hw. apply findDependents_grows in Hw as [[V A O VS AS OS C N [F1 F2]] Hvt].
  destruct N as [N1 N2]; [constructor..|].
  assert (Hreach : ∀ a, rtc (breaks g) t a → a ∈ visited w).
  { intros a. apply closed_reach; [done|]. intros a' Ha' b Hb. apply (C a'); set_solver. }
  eexists. split; [done|]. simpl. split_and!.
  - done.
  - by rewrite F2.
  - by apply NoDup_sort_strings.
  - by apply NoDup_sort_strings.
  - apply sort_strings_sorted.
  - apply sort_strings_sorted.
  - intros b. rewrite elem_of_sort_strings. split.
    + intros Hb. apply AS in Hb as [Hb|?]; [by apply elem_of_nil in Hb|done].
    + intros (a & Ha & Hab)%tc_rtc_inv. apply (C a); [by apply Hreach|set_solver|done].
  - intros b. rewrite elem_of_sort_strings. split.
    + intros Hb. apply OS in Hb as [Hb|?]; [by apply elem_of_nil in Hb|done].
    + intros (a & Ha & Hab). apply (C a); [by apply Hreach|set_solver|done].
Qed.
End search.

(** ** Properties *)

(** A service outlives the removal of [t] exactly when somebody else provides it. *)
Lemma outlives_removal g t ty : graph_wf g → nodes g !! t ≠ None →
  HasService (Remove g t) ty = true ↔ getOtherProviders g ty t ≠ [].
Proof.
  intros Hwf Ht. pose proof (Remove_wf g t Hwf) as [_ Hidx']. destruct Hwf as [_ Hidx].
  assert (En : nodes (Remove g t) = delete t (nodes g)) by (unfold Remove; by destruct (nodes g !! t)).
  assert (Hin : ∀ k, k ∈ get_or [] (byType (Remove g t)) ty ↔ k ∈ getOtherProviders g ty t).
  { intros k. rewrite index_wf_provider, En by done. unfold getOtherProviders. rewrite list_elem_of_filter, index_wf_provider by done.
    setoid_rewrite lookup_delete_Some. naive_solver. }
  unfold HasService. rewrite Z.ltb_lt. split.
  - intros Hlen E. destruct (get_or [] (byType (Remove g t)) ty) as [|k l]; [simpl in Hlen; lia|].
    specialize (Hin k). rewrite E in Hin. by eapply elem_of_nil, Hin, list_elem_of_here.
  - intros Hne. destruct (getOtherProviders g ty t) as [|k l]; [done|].
    specialize (Hin k). destruct (get_or [] (byType (Remove g t)) ty); [|simpl; lia]. exfalso. by eapply elem_of_nil, Hin, list_elem_of_here.
Qed.

(** C24: what the analysis of a known plugin [t] returns, for every iteration order.
    [AffectedServices] lists every service type [t] declares.  Those of them that
    somebody else provides stay available when [t] is removed, so the field is not
    what its comment says ("will become unavailable (if no other providers)"): a
    listed service becomes unavailable exactly when [t] alone provides it.  Affected
    plugins are exactly those reachable from [t] by "sole provider of a service
    required for startup"; this counts providers one plugin at a time, so a plugin
    whose providers are all affected is not among them ([impact_misses_cascade]),
    against the comment of that field.  Optionally impacted are exactly those that
    use, optionally or with alternatives, a service of [t] or of an affected plugin.
    The lists are sorted, the last two free of duplicates. *)
Theorem GetImpact_spec `{GoRange} g t nt :
  nodes g !! t = Some nt →
  ∃ i, GetImpact g t = Some i ∧ TargetPlugin i = t ∧
    AffectedServices i = sort_strings (decl_Type <$> Provides nt) ∧
    NoDup (AffectedPlugins i) ∧ NoDup (OptionalImpact i) ∧
    Sorted String.le (AffectedPlugins i) ∧ Sorted String.le (OptionalImpact i) ∧
    (∀ b, b ∈ AffectedPlugins i ↔ tc (breaks g) t b) ∧
    (∀ b, b ∈ OptionalImpact i ↔ ∃ a, rtc (breaks g) t a ∧ touches g a b) ∧
    (graph_wf g → ∀ ty, ty ∈ AffectedServices i →
       (HasService (Remove g t) ty = true ↔ ∃ b nb, b ≠ t ∧ nodes g !! b = Some nb ∧ ty ∈ decl_Type <$> Provides nb)).
Proof.
  intros Ht. destruct (GetImpact_aux g t nt Ht) as (i & H1 & H2 & H3 & H4 & H5 & H6 & H7 & H8 & H9).
  exists i. split_and!; try done. intros Hwf ty _. rewrite outlives_removal by (done || congruence).
  assert (Hin : ∀ b, b ∈ getOtherProviders g ty t ↔ b ≠ t ∧ ∃ nb, nodes g !! b = Some nb ∧ ty ∈ decl_Type <$> Provides nb).
  { intros b. unfold getOtherProviders. by rewrite list_elem_of_filter, index_wf_provider by apply Hwf. }
  split.
  - intros Hne. destruct (getOtherProviders g ty t) as [|b l]; [done|].
    destruct (proj1 (Hin b) (list_elem_of_here _ _)) as (? & nb & ? & ?). by exists b, nb.
  - intros (b & nb & Hb & Hn & Hty) E. assert (Hb' : b ∈ getOtherProviders g ty t) by (apply Hin; eauto).
    rewrite E in Hb'. by apply elem_of_nil in Hb'.
Qed.

(** The analysis does not depend on the iteration order of [g.nodes]. *)
Theorem GetImpact_deterministic (R1 R2 : GoRange) g t :
  GetImpact (GR := R1) g t = GetImpact (GR := R2) g t.
Proof.
  destruct (nodes g !! t) as [nt|] eqn:Ht; [|unfold GetImpact; by rewrite Ht].
  destruct (GetImpact_aux (GR := R1) g t nt Ht) as ([T S P O] & -> & H1 & H2 & H3 & H4 & H5 & H6 & H7 & H8).
  destruct (GetImpact_aux (GR := R2) g t nt Ht) as ([T' S' P' O'] & -> & K1 & K2 & K3 & K4 & K5 & K6 & K7 & K8).
  simpl in *. subst. do 2 f_equal.
  - apply sorted_perm_eq; [done..|]. apply NoDup_Permutation; [done..|]. intros b. by rewrite H7, K7.
  - apply sorted_perm_eq; [done..|]. apply NoDup_Permutation; [done..|]. intros b. by rewrite H8, K8.
Qed.

Lemma GetImpact_spec_witness :
  nodes ex_graph !! "logger-a1" = Some ex_logger ∧
  ∃ i, GetImpact ex_graph "logger-a1" = Some i ∧ AffectedPlugins i = ["app-c3"; "cache-b2"] ∧
    tc (breaks ex_graph) "logger-a1" "app-c3".
Proof.
  split; [reflexivity|].
  destruct (GetImpact_spec ex_graph "logger-a1" ex_logger eq_refl)
    as (i & Hi & _ & _ & _ & _ & _ & _ & Ha & _).
  exists i. assert (E : AffectedPlugins i = ["app-c3"; "cache-b2"]).
  { vm_compute in Hi. injection Hi as <-. reflexivity. }
  split; [exact Hi|]. split; [exact E|]. apply Ha. rewrite E. left.
Defined.

(** ** What the analysis leaves out *)

Definition svc_node (id ty : string) (req : list ServiceDependency) : Node :=
  mkNode id id [mkDecl ty "1.0.0"] req.
Definition needs (ty : string) : ServiceDependency := mkDep ty "" true false.

(** Two providers of "s" that both break with "a"; "z" needs "s". *)
Definition ex_cascade : Graph :=
  Add (Add (Add (Add New (svc_node "a" "base" [])) (svc_node "x" "s" [needs "base"]))
        (svc_node "y" "s" [needs "base"])) (svc_node "z" "t" [needs "s"]).

(** Every provider of a service "z" requires is affected, yet "z" is only listed under
    the optional impact. *)
Lemma impact_misses_cascade :
  GetImpact ex_cascade "a" = Some (mkImpact "a" ["base"] ["x"; "y"] ["z"]) ∧
  GetProviders ex_cascade "s" = ["x"; "y"].
Proof. vm_compute. split; reflexivity. Qed.

(** A service still offered by another plugin is listed among the affected services. *)
Lemma affected_services_lists_available :
  (AffectedServices <$> GetImpact ex_cascade "x") = Some ["s"] ∧
  HasService (Remove ex_cascade "x") "s" = true.
Proof. vm_compute. split; reflexivity. Qed.

End depimpact.
