(* ===== verification/Validation.v ===== *)
(** * Input validation (validation.go)

    The two regular expressions of the file are translated as syntax, with the
    usual language semantics [matches] and an executable matcher by derivatives;
    the validators are characterised by the texts they accept. *)

From stdpp Require Import prelude gmap strings list fin_maps.
From Stdlib Require Import ZArith NArith Ascii.
From S2P Require Import Prelude GoRuntime.

Module validation.

(** ** Regular expressions *)

Inductive regex :=
| Void
| Eps
| Class (f : ascii → bool)
| Seq (r1 r2 : regex)
| Alt (r1 r2 : regex)
| Star (r : regex).

Inductive matches : regex → string → Prop :=
| match_eps : matches Eps ""
| match_class f c : f c = true → matches (Class f) (String c "")
| match_seq r1 r2 s1 s2 : matches r1 s1 → matches r2 s2 → matches (Seq r1 r2) (s1 +:+ s2)
| match_alt_l r1 r2 s : matches r1 s → matches (Alt r1 r2) s
| match_alt_r r1 r2 s : matches r2 s → matches (Alt r1 r2) s
| match_star_nil r : matches (Star r) ""
| match_star_app r s1 s2 : matches r s1 → matches (Star r) s2 → matches (Star r) (s1 +:+ s2).

Fixpoint nullable (r : regex) : bool :=
  match r with
  | Void | Class _ => false
  | Eps | Star _ => true
  | Seq r1 r2 => nullable r1 && nullable r2
  | Alt r1 r2 => nullable r1 || nullable r2
  end.

Fixpoint deriv (c : ascii) (r : regex) : regex :=
  match r with
  | Void | Eps => Void
  | Class f => if f c then Eps else Void
  | Seq r1 r2 =>
      if nullable r1 then Alt (Seq (deriv c r1) r2) (deriv c r2) else Seq (deriv c r1) r2
  | Alt r1 r2 => Alt (deriv c r1) (deriv c r2)
  | Star r1 => Seq (deriv c r1) (Star r1)
  end.

(** [MatchString] of a pattern anchored at both ends. *)
Fixpoint MatchString (r : regex) (s : string) : bool :=
  match s with "" => nullable r | String c s' => MatchString (deriv c r) s' end.

Definition Plus (r : regex) : regex := Seq r (Star r).
Definition Opt (r : regex) : regex := Alt r Eps.
Definition Lit (c : ascii) : regex := Class (λ d, bool_decide (d = c)).

(** ** Constants and patterns *)

Definition MaxMetadataEntries : Z := 100.
Definition MaxMetadataKeyLen : Z := 256.
Definition MaxMetadataValueLen : Z := 4096.
Definition MaxServiceTypeLen : Z := 128.
Definition MaxSelfIDLen : Z := 128.
Definition MaxVersionLen : Z := 64.

(** [[a-zA-Z0-9_.\-]] *)
Definition key_char (c : ascii) : bool :=
  is_alnum c || bool_decide (c = "_"%char) || bool_decide (c = "."%char) || bool_decide (c = "-"%char).
(** [[a-zA-Z0-9.-]] *)
Definition pre_char (c : ascii) : bool :=
  is_alnum c || bool_decide (c = "."%char) || bool_decide (c = "-"%char).

Definition validKeyPattern : regex := Seq (Class is_alpha) (Star (Class key_char)).
Definition validKeyPattern_String : string := "^[a-zA-Z][a-zA-Z0-9_.\-]*$".

Definition validVersionPattern : regex :=
  Seq (Plus (Class is_digit)) (Seq (Lit ".") (Seq (Plus (Class is_digit)) (Seq (Lit ".")
    (Seq (Plus (Class is_digit)) (Opt (Seq (Lit "-") (Plus (Class pre_char)))))))).

Definition NUL : string := String "000" "".

(** ** Validators: [None] is a nil error *)

Definition ValidateMetadataEntry (key value : string) : option error :=
  if bool_decide (key = "") then Some (Errorf "metadata key cannot be empty" [])
  else if (MaxMetadataKeyLen <? len key)%Z then
    Some (Errorf "metadata key too long: %d bytes (max: %d)" [AInt (len key); AInt MaxMetadataKeyLen])
  else if negb (MatchString validKeyPattern key) then
    Some (Errorf "metadata key %q contains invalid characters (must match: %s)"
            [AStr key; AStr validKeyPattern_String])
  else if (MaxMetadataValueLen <? len value)%Z then
    Some (Errorf "metadata value for key %q too long: %d bytes (max: %d)"
            [AStr key; AInt (len value); AInt MaxMetadataValueLen])
  else if Contains key NUL || Contains value NUL then
    Some (Errorf "metadata contains null bytes (potential injection)" [])
  else None.

Fixpoint ValidateMetadataEntries (l : list (string * string)) : option error :=
  match l with
  | [] => None
  | (key, value) :: l' =>
      match ValidateMetadataEntry key value with
      | Some e => Some e
      | None => ValidateMetadataEntries l'
      end
  end.

Definition ValidateMetadata `{GoRange} (metadata : gmap string string) : option error :=
  if (MaxMetadataEntries <? Z.of_nat (size metadata))%Z then
    Some (Errorf "too many metadata entries: %d (max: %d)"
            [AInt (Z.of_nat (size metadata)); AInt MaxMetadataEntries])
  else ValidateMetadataEntries (go_range 0 metadata).

Definition ValidateServiceType (serviceType : string) : option error :=
  if bool_decide (serviceType = "") then Some (Errorf "service type cannot be empty" [])
  else if (MaxServiceTypeLen <? len serviceType)%Z then
    Some (Errorf "service type too long: %d bytes (max: %d)"
            [AInt (len serviceType); AInt MaxServiceTypeLen])
  else if negb (MatchString validKeyPattern serviceType) then
    Some (Errorf "service type %q contains invalid characters (must match: %s)"
            [AStr serviceType; AStr validKeyPattern_String])
  else if Contains serviceType ".." || Contains serviceType "/" || Contains serviceType "\" then
    Some (Errorf "service type contains path traversal characters: %s" [AStr serviceType])
  else if Contains serviceType NUL then Some (Errorf "service type contains null bytes" [])
  else None.

Definition ValidateSelfID (selfID : string) : option error :=
  if bool_decide (selfID = "") then Some (Errorf "self_id cannot be empty" [])
  else if (MaxSelfIDLen <? len selfID)%Z then
    Some (Errorf "self_id too long: %d bytes (max: %d)" [AInt (len selfID); AInt MaxSelfIDLen])
  else if negb (MatchString validKeyPattern selfID) then
    Some (Errorf "self_id %q contains invalid characters (must match: %s)"
            [AStr selfID; AStr validKeyPattern_String])
  else if Contains selfID NUL then Some (Errorf "self_id contains null bytes" [])
  else None.

Definition ValidateVersion (version : string) : option error :=
  if bool_decide (version = "") then Some (Errorf "version cannot be empty" [])
  else if (MaxVersionLen <? len version)%Z then
    Some (Errorf "version too long: %d bytes (max: %d)" [AInt (len version); AInt MaxVersionLen])
  else if negb (MatchString validVersionPattern version) then
    Some (Errorf "version %q must be semantic version (e.g., 1.0.0, 2.1.3-beta)" [AStr version])
  else if Contains version NUL then Some (Errorf "version contains null bytes" [])
  else None.

Definition ValidateEndpointPath (path : string) : option error :=
  if bool_decide (path = "") then Some (Errorf "endpoint path cannot be empty" [])
  else if negb (HasPrefix path "/") then Some (Errorf "endpoint path must start with /: %s" [AStr path])
  else if (256 <? len path)%Z then
    Some (Errorf "endpoint path too long: %d bytes (max: 256)" [AInt (len path)])
  else if Contains path NUL then Some (Errorf "endpoint path contains null bytes" [])
  else None.

(** ** The matcher decides the language *)

Lemma matches_seq r1 r2 s :
  matches (Seq r1 r2) s ↔ ∃ s1 s2, s = s1 +:+ s2 ∧ matches r1 s1 ∧ matches r2 s2.
Proof.
  split; [|intros (s1 & s2 & -> & ? & ?); by constructor].
  intros H. remember (Seq r1 r2) as r eqn:Hr. destruct H; simplify_eq. eauto.
Qed.

Lemma matches_alt r1 r2 s : matches (Alt r1 r2) s ↔ matches r1 s ∨ matches r2 s.
Proof.
  split; [|intros [?|?]; by constructor].
  intros H. remember (Alt r1 r2) as r eqn:Hr. destruct H; simplify_eq; eauto.
Qed.

Lemma matches_class f s : matches (Class f) s ↔ ∃ c, s = String c "" ∧ f c = true.
Proof.
  split; [|intros (c & -> & ?); by constructor].
  intros H. remember (Class f) as r eqn:Hr. destruct H; simplify_eq. eauto.
Qed.

Lemma matches_eps s : matches Eps s ↔ s = "".
Proof.
  split; [|intros ->; constructor].
  intros H. remember Eps as r eqn:Hr. by destruct H; simplify_eq.
Qed.

Lemma matches_void s : ¬ matches Void s.
Proof. intros H. remember Void as r eqn:Hr. by destruct H. Qed.

Lemma nullable_matches r : nullable r = true ↔ matches r "".
Proof.
  induction r as [| |f|r1 IH1 r2 IH2|r1 IH1 r2 IH2|r IH]; simpl.
  - split; [done|]. intros H. by apply matches_void in H.
  - split; [constructor|done].
  - split; [done|]. rewrite matches_class. by intros (? & ? & ?).
  - rewrite andb_true_iff, IH1, IH2, matches_seq. split.
    + intros [H1 H2]. by exists "", "".
    + intros (s1 & s2 & E & H1 & H2). by destruct s1, s2.
  - by rewrite orb_true_iff, IH1, IH2, matches_alt.
  - split; [constructor|done].
Qed.

Lemma star_cons r c s :
  matches (Star r) (String c s) → ∃ s1 s2, s = s1 +:+ s2 ∧ matches r (String c s1) ∧ matches (Star r) s2.
Proof.
  intros H. remember (Star r) as r' eqn:Hr. remember (String c s) as t eqn:Ht. revert s Ht.
  induction H as [| | | | | |r0 s1 s2 H1 _ H2 IH2]; intros u Ht; simplify_eq.
  destruct s1 as [|c' s1].
  - by apply IH2.
  - rewrite str_app_cons in Ht. simplify_eq. by exists s1, s2.
Qed.

Lemma deriv_seq c r1 r2 s :
  matches (Seq r1 r2) (String c s) ↔
  (∃ s1 s2, s = s1 +:+ s2 ∧ matches r1 (String c s1) ∧ matches r2 s2) ∨
  (matches r1 "" ∧ matches r2 (String c s)).
Proof.
  rewrite matches_seq. split.
  - intros (s1 & s2 & E & H1 & H2). destruct s1 as [|c' s1].
    + right. by rewrite str_app_nil in E; subst.
    + left. rewrite str_app_cons in E. simplify_eq. by exists s1, s2.
  - intros [(s1 & s2 & -> & H1 & H2)|[H1 H2]]; [by exists (String c s1), s2|by exists "", (String c s)].
Qed.

Lemma deriv_matches c r s : matches (deriv c r) s ↔ matches r (String c s).
Proof.
  revert s. induction r as [| |f|r1 IH1 r2 IH2|r1 IH1 r2 IH2|r IH]; intros s; simpl.
  - split; intros H; by apply matches_void in H.
  - rewrite matches_eps. split; [|done]. intros H. by apply matches_void in H.
  - rewrite matches_class. destruct (f c) eqn:E.
    + rewrite matches_eps. split; [intros ->; by exists c|]. by intros (d & [= -> ->] & _).
    + split; [intros H; by apply matches_void in H|]. intros (d & [= -> ->] & ?). congruence.
  - rewrite deriv_seq. setoid_rewrite <- IH1. rewrite <- IH2, <- nullable_matches.
    destruct (nullable r1); rewrite ?matches_alt, matches_seq; naive_solver.
  - by rewrite !matches_alt, IH1, IH2.
  - rewrite matches_seq. setoid_rewrite IH. split.
    + intros (s1 & s2 & -> & H1 & H2). exact (match_star_app _ _ _ H1 H2).
    + intros H. apply star_cons in H as (s1 & s2 & -> & H1 & H2). eauto.
Qed.

Lemma MatchString_matches r s : MatchString r s = true ↔ matches r s.
Proof.
  revert r. induction s as [|c s IH]; intros r; simpl; [apply nullable_matches|].
  by rewrite IH, deriv_matches.
Qed.

(** ** The accepted texts *)

Lemma matches_star_class f s : matches (Star (Class f)) s ↔ str_all f s = true.
Proof.
  split.
  - intros H. remember (Star (Class f)) as r eqn:Hr.
    induction H as [| | | | | |r0 s1 s2 H1 _ H2 IH2]; simplify_eq; [done|].
    apply matches_class in H1 as (c & -> & Hc). rewrite str_app_cons, str_app_nil. simpl.
    rewrite Hc. by apply IH2.
  - induction s as [|c s IH]; [constructor|]. simpl. rewrite andb_true_iff. intros [Hc Hs].
    apply (match_star_app _ (String c "") s); [by constructor|by apply IH].
Qed.

Definition nonempty_all (f : ascii → bool) (s : string) : Prop := s ≠ "" ∧ str_all f s = true.

Lemma matches_plus_class f s : matches (Plus (Class f)) s ↔ nonempty_all f s.
Proof.
  unfold Plus, nonempty_all. rewrite matches_seq. setoid_rewrite matches_class.
  setoid_rewrite matches_star_class. split.
  - intros (s1 & s2 & -> & (c & -> & Hc) & Hs). split; [done|]. simpl. by rewrite Hc.
  - intros [Hne H]. destruct s as [|c s]; [done|]. simpl in H. apply andb_true_iff in H as [Hc Hs].
    exists (String c ""), s. split; [done|]. eauto.
Qed.

Lemma matches_lit c s : matches (Lit c) s ↔ s = String c "".
Proof.
  unfold Lit. rewrite matches_class. setoid_rewrite bool_decide_eq_true. naive_solver.
Qed.

(** A key, service type or self id: a letter followed by key characters. *)
Definition key_ok (s : string) : bool :=
  match s with "" => false | String c s' => is_alpha c && str_all key_char s' end.

Lemma validKeyPattern_ok s : MatchString validKeyPattern s = key_ok s.
Proof.
  apply eq_bool_prop_intro. rewrite !Is_true_true, MatchString_matches.
  unfold validKeyPattern. rewrite matches_seq. setoid_rewrite matches_class.
  setoid_rewrite matches_star_class. split.
  - intros (s1 & s2 & -> & (c & -> & Hc) & Hs). simpl. by rewrite Hc.
  - destruct s as [|c s]; [done|]. simpl. rewrite andb_true_iff. intros [Hc Hs].
    exists (String c ""), s. split; [done|]. eauto.
Qed.

Lemma key_ok_all s : key_ok s = true → str_all key_char s = true.
Proof.
  destruct s as [|c s]; [done|]. simpl. rewrite !andb_true_iff. intros [Hc ->]. split; [|done].
  unfold key_char, is_alnum. by rewrite Hc.
Qed.

Lemma str_all_free (f : ascii → bool) c s : f c = false → str_all f s = true → free_of c s = true.
Proof.
  intros Hc. apply str_all_impl. intros d Hd. apply bool_decide_eq_true. congruence.
Qed.

Lemma key_ok_no c s : key_char c = false → key_ok s = true → Contains s (String c "") = false.
Proof. intros Hc Hs. by apply free_of_not_contains, (str_all_free key_char), key_ok_all. Qed.

(** Closing a branch in which the validator answers: a refusal contradicts the
    accepted texts, an acceptance has collected them all. *)
Ltac verdict :=
  split; [first [discriminate | by intros _]
         | intros; destruct_and?; first [done | lia | congruence | by simplify_eq]].

Lemma len_pos s : s ≠ "" ↔ (0 < len s)%Z.
Proof. unfold len. destruct s; simpl; split; (done || lia). Qed.

Lemma ValidateServiceType_None s :
  ValidateServiceType s = None ↔
    (len s ≤ 128)%Z ∧ key_ok s = true ∧ Contains s ".." = false.
Proof.
  unfold ValidateServiceType, MaxServiceTypeLen. rewrite validKeyPattern_ok.
  case_bool_decide; [subst; verdict|].
  destruct (Z.ltb_spec 128 (len s)); [verdict|].
  destruct (key_ok s) eqn:E; simpl; [|verdict].
  rewrite (key_ok_no "/"), (key_ok_no "\"), (key_ok_no "000") by done.
  destruct (Contains s ".."); simpl; verdict.
Qed.

Lemma ValidateSelfID_None s :
  ValidateSelfID s = None ↔ (len s ≤ 128)%Z ∧ key_ok s = true.
Proof.
  unfold ValidateSelfID, MaxSelfIDLen. rewrite validKeyPattern_ok.
  case_bool_decide; [subst; verdict|].
  destruct (Z.ltb_spec 128 (len s)); [verdict|].
  destruct (key_ok s) eqn:E; simpl; [|verdict].
  rewrite (key_ok_no "000") by done. simpl. verdict.
Qed.

(** The texts of the version pattern. *)
Definition version_shape (s : string) : Prop :=
  ∃ major minor patch rest,
    s = major +:+ String "." (minor +:+ String "." (patch +:+ rest)) ∧
    nonempty_all is_digit major ∧ nonempty_all is_digit minor ∧ nonempty_all is_digit patch ∧
    (rest = "" ∨ ∃ pre, rest = String "-" pre ∧ nonempty_all pre_char pre).

#[local] Opaque Plus.

Lemma validVersionPattern_shape s : MatchString validVersionPattern s = true ↔ version_shape s.
Proof.
  rewrite MatchString_matches. unfold validVersionPattern, Opt.
  repeat setoid_rewrite matches_seq. setoid_rewrite matches_alt. setoid_rewrite matches_seq.
  setoid_rewrite matches_eps. setoid_rewrite matches_lit. setoid_rewrite matches_plus_class.
  split.
  - intros (a & ? & -> & Ha & ? & ? & -> & -> & b & ? & -> & Hb & ? & ? & -> & -> & c & r & -> & Hc & Hr).
    exists a, b, c, r. split_and!; [done..|]. destruct Hr as [(? & p & -> & -> & Hp)| ->]; [right|by left].
    by exists p.
  - intros (a & b & c & r & -> & Ha & Hb & Hc & Hr).
    exists a, (String "." (b +:+ String "." (c +:+ r))). split_and!; [done..|].
    exists ".", (b +:+ String "." (c +:+ r)). split_and!; [done..|].
    exists b, (String "." (c +:+ r)). split_and!; [done..|].
    exists ".", (c +:+ r). split_and!; [done..|]. exists c, r. split_and!; [done..|].
    destruct Hr as [-> |(p & -> & Hp)]; [by right|left]. by exists "-", p.
Qed.

Lemma version_shape_chars s :
  version_shape s → str_all pre_char s = true ∧ s ≠ "".
Proof.
  intros (a & b & c & r & -> & [Hna Ha] & [_ Hb] & [_ Hc] & Hr).
  assert (Hd : ∀ t, str_all is_digit t = true → str_all pre_char t = true).
  { intros t. apply str_all_impl. intros d Hd. unfold pre_char, is_alnum. by rewrite Hd, orb_true_r. }
  split; [|by destruct a].
  rewrite !str_all_app. simpl. rewrite !str_all_app. simpl. rewrite !str_all_app.
  rewrite (Hd a Ha), (Hd b Hb), (Hd c Hc). simpl.
  destruct Hr as [-> |(p & -> & [_ Hp])]; [done|]. simpl. done.
Qed.

Lemma ValidateVersion_None s :
  ValidateVersion s = None ↔ (len s ≤ 64)%Z ∧ version_shape s.
Proof.
  unfold ValidateVersion, MaxVersionLen. rewrite <- validVersionPattern_shape.
  case_bool_decide as Hne; [subst; verdict|].
  destruct (Z.ltb_spec 64 (len s)); [verdict|].
  destruct (MatchString validVersionPattern s) eqn:E; cbn [negb]; [|verdict].
  apply validVersionPattern_shape, version_shape_chars in E as [E _].
  unfold NUL. rewrite free_of_not_contains; [verdict|]. by apply (str_all_free pre_char).
Qed.

Lemma ValidateEndpointPath_None s :
  ValidateEndpointPath s = None ↔
    (∃ r, s = String "/" r) ∧ (len s ≤ 256)%Z ∧ Contains s NUL = false.
Proof.
  unfold ValidateEndpointPath.
  case_bool_decide; [subst; split; [discriminate|by intros ((? & [=]) & _)]|].
  destruct (HasPrefix s "/") eqn:Ep; simpl.
  - apply HasPrefix_true in Ep as [r ->]. destruct (Z.ltb_spec 256 (len ("/" +:+ r))); [verdict|].
    destruct (Contains _ NUL); [verdict|]. split; [intros _|done]. split_and!; [by exists r|lia|done].
  - split; [done|]. intros ((r & ->) & _). pose proof (HasPrefix_app "/" r) as Hp.
    change (String "/" r) with ("/" +:+ r) in Ep. congruence.
Qed.

Definition metadata_entry_ok (key value : string) : Prop :=
  (len key ≤ 256)%Z ∧ key_ok key = true ∧ (len value ≤ 4096)%Z ∧ Contains value NUL = false.

Lemma ValidateMetadataEntry_None k v : ValidateMetadataEntry k v = None ↔ metadata_entry_ok k v.
Proof.
  unfold ValidateMetadataEntry, metadata_entry_ok, MaxMetadataKeyLen, MaxMetadataValueLen.
  rewrite validKeyPattern_ok. case_bool_decide; [subst; verdict|].
  destruct (Z.ltb_spec 256 (len k)); [verdict|].
  destruct (key_ok k) eqn:E; simpl; [|verdict].
  destruct (Z.ltb_spec 4096 (len v)); [verdict|].
  rewrite (key_ok_no "000") by done. simpl. destruct (Contains v NUL); verdict.
Qed.

Lemma ValidateMetadataEntries_None l :
  ValidateMetadataEntries l = None ↔ ∀ k v, (k, v) ∈ l → metadata_entry_ok k v.
Proof.
  induction l as [|[k v] l IH]; simpl; [split; [intros _ k v H; by apply elem_of_nil in H|done]|].
  destruct (ValidateMetadataEntry k v) eqn:E.
  - split; [done|]. intros H. assert (Hk : metadata_entry_ok k v) by (apply H; left).
    apply ValidateMetadataEntry_None in Hk. congruence.
  - apply ValidateMetadataEntry_None in E. rewrite IH. split.
    + intros H k' v' [[= -> ->]|?]%elem_of_cons; auto.
    + intros H k' v' ?. apply H. by right.
Qed.

Lemma ValidateMetadata_None `{GoRange} md :
  ValidateMetadata md = None ↔ size md ≤ 100 ∧ map_Forall metadata_entry_ok md.
Proof.
  unfold ValidateMetadata, MaxMetadataEntries.
  destruct (Z.ltb_spec 100 (Z.of_nat (size md))); [split; [done|lia]|].
  rewrite ValidateMetadataEntries_None. setoid_rewrite elem_of_go_range.
  split; [intros Hm; split; [lia|exact Hm]|by intros [_ Hm]].
Qed.

(** ** Properties *)

(** The derivative matcher decides membership in the language of the
    pattern, for both patterns of the file. *)
Theorem patterns_decided s :
  (MatchString validKeyPattern s = true ↔ matches validKeyPattern s) ∧
  (MatchString validVersionPattern s = true ↔ matches validVersionPattern s).
Proof. split; apply MatchString_matches. Qed.

(** A service type is accepted exactly when it has at most 128 bytes, starts
    with a letter, continues with letters, digits, [_], [.], [-], and has no [..];
    an accepted one holds no slash, no backslash and no NUL, so that it is one
    segment of a router path. *)
Theorem ValidateServiceType_accepts s :
  (ValidateServiceType s = None ↔
     (len s ≤ 128)%Z ∧ key_ok s = true ∧ Contains s ".." = false) ∧
  (ValidateServiceType s = None →
     s ≠ "" ∧ free_of "/" s = true ∧ free_of "\" s = true ∧ free_of "000" s = true).
Proof.
  split; [apply ValidateServiceType_None|].
  intros (_ & Hk & _)%ValidateServiceType_None.
  split; [by destruct s|]. apply key_ok_all in Hk.
  split_and!; by apply (str_all_free key_char).
Qed.

Lemma ValidateServiceType_accepts_witness :
  ValidateServiceType "kv.v1" = None ∧ free_of "/" "kv.v1" = true.
Proof.
  split; [by vm_compute|].
  pose proof (proj2 (ValidateServiceType_accepts "kv.v1") ltac:(by vm_compute)) as (_ & H & _). exact H.
Defined.

(** A version is accepted exactly when it has at most 64 bytes and is
    [N.N.N] or [N.N.N-pre] with non-empty digit strings [N] and a non-empty [pre]
    of letters, digits, dots and dashes. *)
Theorem ValidateVersion_accepts s :
  ValidateVersion s = None ↔ (len s ≤ 64)%Z ∧ version_shape s.
Proof. apply ValidateVersion_None. Qed.

(** Metadata is accepted exactly when it has at most 100 entries and every
    entry is within its bounds; neither this verdict nor the acceptance of any
    entry depends on the iteration order of the map. *)
Theorem ValidateMetadata_accepts (G1 G2 : GoRange) md :
  (ValidateMetadata (H := G1) md = None ↔ size md ≤ 100 ∧ map_Forall metadata_entry_ok md) ∧
  (ValidateMetadata (H := G1) md = None ↔ ValidateMetadata (H := G2) md = None).
Proof. by rewrite !ValidateMetadata_None. Qed.

End validation.
