(* ===== verification/Identity.v ===== *)
(** * Random identities and tokens (handshake.go, broker.go, registry.go)

    [crypto/rand.Read] is an oracle that fills a buffer of the requested length or
    fails; hexadecimal and URL-safe base64 encoding are executable and proved
    invertible, so distinct random bytes give distinct identifiers. *)

From stdpp Require Import prelude gmap strings list fin_maps.
From Stdlib Require Import ZArith NArith Ascii.
From S2P Require Import Prelude GoRuntime Validation.

Module identity.
Import validation.

(** One execution of [rand.Read(make([]byte, n))]. *)
Definition Rand := nat → res (list Z).

Definition is_byte (b : Z) : Prop := (0 ≤ b < 256)%Z.

Definition rand_ok (rd : Rand) : Prop :=
  ∀ n l, rd n = Ok l → length l = n ∧ Forall is_byte l.

(** ** Encodings *)

Definition digit_at (alphabet : string) (i : Z) : ascii :=
  default "000"%char (String.get (Z.to_nat i) alphabet).

Fixpoint digit_index (alphabet : string) (c : ascii) : option Z :=
  match alphabet with
  | "" => None
  | String a s => if decide (a = c) then Some 0%Z else (Z.succ <$> digit_index s c)
  end.

Definition hex_alphabet : string := "0123456789abcdef".

(** [hex.EncodeToString] *)
Fixpoint hex_EncodeToString (l : list Z) : string :=
  match l with
  | [] => ""
  | b :: l' =>
      String (digit_at hex_alphabet (b / 16)) (String (digit_at hex_alphabet (b mod 16))
        (hex_EncodeToString l'))
  end.

Definition b64_alphabet : string :=
  "ABCDEFGHIJKLMNOPQRSTUVWXYZabcdefghijklmnopqrstuvwxyz0123456789-_".

Definition b64 (v : Z) : ascii := digit_at b64_alphabet (v mod 64).

(** [base64.URLEncoding.EncodeToString] *)
Fixpoint URLEncoding_EncodeToString (l : list Z) : string :=
  match l with
  | [] => ""
  | [b0] =>
      let v := (b0 * 65536)%Z in
      String (b64 (v / 262144)) (String (b64 (v / 4096)) "==")
  | [b0; b1] =>
      let v := (b0 * 65536 + b1 * 256)%Z in
      String (b64 (v / 262144)) (String (b64 (v / 4096)) (String (b64 (v / 64)) "="))
  | b0 :: b1 :: b2 :: l' =>
      let v := (b0 * 65536 + b1 * 256 + b2)%Z in
      String (b64 (v / 262144)) (String (b64 (v / 4096)) (String (b64 (v / 64))
        (String (b64 v) (URLEncoding_EncodeToString l'))))
  end.

(** [s[:n]] *)
Fixpoint str_take (n : nat) (s : string) : string :=
  match n, s with
  | 0, _ | _, "" => ""
  | S n', String a s' => String a (str_take n' s')
  end.

(** ** Generators *)

Definition generateRandomHex (rd : Rand) (length : nat) : res string :=
  match rd ((length + 1) / 2) with
  | Err e => Err (Errorf "crypto/rand.Read failed: %w" [AErr e])
  | Ok bytes => Ok (str_take length (hex_EncodeToString bytes))
  end.

Definition generateRuntimeID (rd : Rand) (selfID : string) : res string :=
  match generateRandomHex rd 4 with
  | Err e => Err (Errorf "failed to generate runtime ID: %w" [AErr e])
  | Ok suffix =>
      let normalized := ToLower (ReplaceAll1 selfID " " "-") in
      Ok (normalized +:+ "-" +:+ suffix)
  end.

Definition generateRegistrationID (rd : Rand) : res string :=
  match generateRandomHex rd 16 with
  | Err e => Err (Errorf "failed to generate registration ID: %w" [AErr e])
  | Ok hex => Ok ("reg-" +:+ hex)
  end.

Definition generateGrantID (rd : Rand) : res string :=
  match rd 16 with
  | Err e => Err (Errorf "failed to generate grant ID: %w" [AErr e])
  | Ok b => Ok (URLEncoding_EncodeToString b)
  end.

Definition generateToken (rd : Rand) : res string :=
  match rd 32 with
  | Err e => Err (Errorf "failed to generate secure token: %w" [AErr e])
  | Ok b => Ok (URLEncoding_EncodeToString b)
  end.

(** ** Decoders: the encodings lose nothing *)

Fixpoint hex_DecodeString (s : string) : option (list Z) :=
  match s with
  | "" => Some []
  | String a (String b s') =>
      x ← digit_index hex_alphabet a; y ← digit_index hex_alphabet b;
      l ← hex_DecodeString s'; Some ((16 * x + y)%Z :: l)
  | _ => None
  end.

Definition idx (c : ascii) : Z := default 0%Z (digit_index b64_alphabet c).

Fixpoint URLEncoding_DecodeString (s : string) : list Z :=
  match s with
  | String a (String b (String c (String d s'))) =>
      let v := (idx a * 262144 + idx b * 4096 + idx c * 64 + idx d)%Z in
      if decide (c = "="%char) then [(v / 65536)%Z]
      else if decide (d = "="%char) then [(v / 65536)%Z; (v / 256 mod 256)%Z]
      else (v / 65536)%Z :: (v / 256 mod 256)%Z :: (v mod 256)%Z :: URLEncoding_DecodeString s'
  | _ => []
  end.

Lemma below_case (n : nat) (P : Z → bool) i :
  forallb P (Z.of_nat <$> seq 0 n) = true → (0 ≤ i < Z.of_nat n)%Z → P i = true.
Proof.
  intros H Hi. rewrite forallb_forall in H. apply H.
  apply (proj2 (in_map_iff Z.of_nat _ _)). exists (Z.to_nat i). split; [lia|]. apply in_seq. lia.
Qed.

Lemma hex_index i : (0 ≤ i < 16)%Z → digit_index hex_alphabet (digit_at hex_alphabet i) = Some i.
Proof.
  intros Hi. pose proof (below_case 16
    (λ i, bool_decide (digit_index hex_alphabet (digit_at hex_alphabet i) = Some i)) i
    ltac:(by vm_compute) Hi) as H. by apply bool_decide_eq_true in H.
Qed.

Lemma idx_b64 v : idx (b64 v) = (v mod 64)%Z.
Proof.
  unfold idx, b64. pose proof (Z.mod_pos_bound v 64 ltac:(lia)) as Hi.
  pose proof (below_case 64
    (λ i, bool_decide (default 0%Z (digit_index b64_alphabet (digit_at b64_alphabet i)) = i)) (v mod 64)
    ltac:(by vm_compute) Hi) as H. by apply bool_decide_eq_true in H.
Qed.

(** Characters of an encoded token: letters, digits, dash, underscore. *)
Definition token_char (c : ascii) : bool :=
  is_alnum c || bool_decide (c = "-"%char) || bool_decide (c = "_"%char) || bool_decide (c = "="%char).

Lemma b64_char v : token_char (b64 v) = true ∧ b64 v ≠ "="%char.
Proof.
  unfold b64. pose proof (Z.mod_pos_bound v 64 ltac:(lia)) as Hi.
  pose proof (below_case 64
    (λ i, token_char (digit_at b64_alphabet i) && bool_decide (digit_at b64_alphabet i ≠ "="%char)) (v mod 64)
    ltac:(by vm_compute) Hi) as H.
  apply andb_true_iff in H as [H1 H2]. split; [done|]. by apply bool_decide_eq_true in H2.
Qed.

Definition hex_char (c : ascii) : bool := is_digit c || byte_in "a" "f" c.

Lemma hex_digit_char i : (0 ≤ i < 16)%Z → hex_char (digit_at hex_alphabet i) = true.
Proof. by apply (below_case 16 (λ i, hex_char (digit_at hex_alphabet i))). Qed.

Lemma hex_decode_encode l :
  Forall is_byte l → hex_DecodeString (hex_EncodeToString l) = Some l.
Proof.
  induction 1 as [|b l Hb Hl IH]; [done|]. unfold is_byte in Hb. cbn [hex_EncodeToString hex_DecodeString].
  rewrite !hex_index by div_lia. simpl. rewrite IH. simpl. do 2 f_equal. div_lia.
Qed.

Lemma hex_all l : Forall is_byte l → str_all hex_char (hex_EncodeToString l) = true.
Proof.
  induction 1 as [|b l Hb Hl IH]; [done|]. unfold is_byte in Hb. cbn [hex_EncodeToString str_all].
  rewrite !hex_digit_char by div_lia. by rewrite IH.
Qed.

Lemma hex_length l : String.length (hex_EncodeToString l) = 2 * length l.
Proof. induction l as [|b l IH]; [done|]. cbn [hex_EncodeToString String.length length]. lia. Qed.

(** Induction by blocks of three. *)
Lemma list_ind3 {A} (P : list A → Prop) :
  P [] → (∀ a, P [a]) → (∀ a b, P [a; b]) → (∀ a b c l, P l → P (a :: b :: c :: l)) → ∀ l, P l.
Proof.
  intros H0 H1 H2 H3. fix IH 1. intros [|a [|b [|c l]]]; [done|auto..|]. apply H3, IH.
Qed.

Ltac b64_pad := rewrite ?decide_False by apply b64_char.

(** The four sextets of a 24-bit group, and its three octets. *)
Lemma sextets v : (0 ≤ v < 2 ^ 24)%Z →
  (v / 262144 mod 64 * 262144 + v / 4096 mod 64 * 4096 + v / 64 mod 64 * 64 + v mod 64 = v)%Z.
Proof. intros. div_lia. Qed.

Lemma octets a b c : is_byte a → is_byte b → is_byte c →
  let v := (a * 65536 + b * 256 + c)%Z in
  (0 ≤ v < 2 ^ 24)%Z ∧ (v / 65536 = a)%Z ∧ (v / 256 mod 256 = b)%Z ∧ (v mod 256 = c)%Z.
Proof. unfold is_byte. intros Ha Hb Hc. cbv zeta. split_and!; div_lia. Qed.

Lemma b64_decode_encode l :
  Forall is_byte l → URLEncoding_DecodeString (URLEncoding_EncodeToString l) = l.
Proof.
  induction l as [|a|a b|a b c l IH] using list_ind3; intros Hl;
    repeat (apply Forall_cons in Hl as [? Hl]); [done|..];
    cbn [URLEncoding_EncodeToString URLEncoding_DecodeString].
  - rewrite decide_True by done. rewrite !idx_b64. change (idx "="%char) with 0%Z.
    destruct (octets a 0 0) as (Hv & Ha & _ & _); [done|by split..|].
    assert (E : (a * 65536 + 0 * 256 + 0 = a * 65536)%Z) by lia. rewrite E in *.
    assert (Em : ((a * 65536) mod 64 = 0)%Z) by div_lia.
    assert (En : ((a * 65536) / 64 mod 64 = 0)%Z) by div_lia.
    pose proof (sextets _ Hv) as Hs. rewrite Em, En in Hs. change (0 * 64)%Z with 0%Z in *.
    rewrite Hs, Ha. done.
  - b64_pad. rewrite decide_True by done. rewrite !idx_b64. change (idx "="%char) with 0%Z.
    destruct (octets a b 0) as (Hv & Ha & Hb & _); [done|done|by split|].
    assert (E : (a * 65536 + b * 256 + 0 = a * 65536 + b * 256)%Z) by lia. rewrite E in *.
    assert (Em : ((a * 65536 + b * 256) mod 64 = 0)%Z) by div_lia.
    pose proof (sextets _ Hv) as Hs. rewrite Em in Hs. rewrite Hs, Ha, Hb. done.
  - b64_pad. rewrite !idx_b64, IH by done.
    destruct (octets a b c) as (Hv & Ha & Hb & Hc); [done..|].
    rewrite sextets by done. by rewrite Ha, Hb, Hc.
Qed.

Lemma b64_all l : str_all token_char (URLEncoding_EncodeToString l) = true.
Proof.
  induction l as [|a|a b|a b c l IH] using list_ind3;
    cbn [URLEncoding_EncodeToString str_all]; [done|..];
    rewrite ?(proj1 (b64_char _)); simpl; done.
Qed.

Lemma b64_length l : String.length (URLEncoding_EncodeToString l) = 4 * ((length l + 2) / 3).
Proof.
  induction l as [|a|a b|a b c l IH] using list_ind3; [done..|].
  cbn [URLEncoding_EncodeToString String.length length]. rewrite IH.
  replace (S (S (S (length l))) + 2) with (1 * 3 + (length l + 2)) by lia.
  rewrite Nat.div_add_l by lia. lia.
Qed.

Lemma str_take_length n s : String.length (str_take n s) = n `min` String.length s.
Proof. revert s. induction n as [|n IH]; intros [|a s]; simpl; try done. by rewrite IH. Qed.

Lemma str_take_all n s : String.length s ≤ n → str_take n s = s.
Proof.
  revert s. induction n as [|n IH]; intros [|a s]; simpl; intros; try done; [lia|].
  f_equal. apply IH. lia.
Qed.

Lemma str_take_str_all f n s : str_all f s = true → str_all f (str_take n s) = true.
Proof.
  revert s. induction n as [|n IH]; intros [|a s]; simpl; try done.
  rewrite !andb_true_iff. intros [-> H]. auto.
Qed.

(** ** What the generators return *)

Lemma generateRandomHex_Ok rd n s :
  rand_ok rd → generateRandomHex rd n = Ok s →
  String.length s = n ∧ str_all hex_char s = true.
Proof.
  unfold generateRandomHex. intros Hrd. destruct (rd _) as [l|e] eqn:E; [|done]. intros [= <-].
  apply Hrd in E as [Hl Hb]. split; [|by apply str_take_str_all, hex_all].
  rewrite str_take_length, hex_length, Hl.
  pose proof (Nat.div_mod (n + 1) 2 ltac:(lia)). pose proof (Nat.mod_upper_bound (n + 1) 2 ltac:(lia)). lia.
Qed.

(** Even lengths keep every random byte. *)
Lemma generateRandomHex_even rd k s :
  rand_ok rd → generateRandomHex rd (2 * k) = Ok s →
  ∃ l, rd k = Ok l ∧ length l = k ∧ hex_DecodeString s = Some l.
Proof.
  unfold generateRandomHex. intros Hrd.
  replace ((2 * k + 1) / 2) with k.
  2:{ replace (2 * k + 1) with (k * 2 + 1) by lia. rewrite Nat.div_add_l by lia. by rewrite Nat.add_0_r. }
  destruct (rd k) as [l|e] eqn:E; [|done]. intros [= <-].
  apply Hrd in E as [Hl Hb]. exists l. split_and!; [done..|].
  rewrite str_take_all by (rewrite hex_length; lia). by apply hex_decode_encode.
Qed.

Lemma generateGrantID_Ok rd s :
  rand_ok rd → generateGrantID rd = Ok s →
  String.length s = 24 ∧ str_all token_char s = true ∧ rd 16 = Ok (URLEncoding_DecodeString s).
Proof.
  unfold generateGrantID. intros Hrd. destruct (rd 16) as [l|e] eqn:E; [|done]. intros [= <-].
  apply Hrd in E as [Hl Hb]. rewrite b64_length, Hl, b64_decode_encode by done.
  split_and!; [done|apply b64_all|done].
Qed.

Lemma generateToken_Ok rd s :
  rand_ok rd → generateToken rd = Ok s →
  String.length s = 44 ∧ str_all token_char s = true ∧ rd 32 = Ok (URLEncoding_DecodeString s).
Proof.
  unfold generateToken. intros Hrd. destruct (rd 32) as [l|e] eqn:E; [|done]. intros [= <-].
  apply Hrd in E as [Hl Hb]. rewrite b64_length, Hl, b64_decode_encode by done.
  split_and!; [done|apply b64_all|done].
Qed.

Lemma generateRegistrationID_Ok rd s :
  rand_ok rd → generateRegistrationID rd = Ok s →
  ∃ h, s = "reg-" +:+ h ∧ String.length h = 16 ∧ str_all hex_char h = true ∧
       rd 8 = Ok (default [] (hex_DecodeString h)).
Proof.
  unfold generateRegistrationID. intros Hrd.
  destruct (generateRandomHex rd 16) as [h|e] eqn:E; [|done]. intros [= <-].
  exists h. destruct (generateRandomHex_Ok rd 16 h Hrd E) as [Hl Ha].
  destruct (generateRandomHex_even rd 8 h Hrd E) as (l & Hr & _ & Hd). rewrite Hd. done.
Qed.

(** Characters of a runtime id made from a valid self id. *)
Definition runtime_char (c : ascii) : bool :=
  is_lower c || is_digit c || bool_decide (c = "_"%char) || bool_decide (c = "."%char)
  || bool_decide (c = "-"%char).

Lemma all_ascii (P : ascii → bool) :
  forallb (λ n, P (ascii_of_nat n)) (seq 0 256) = true → ∀ c, P c = true.
Proof.
  intros H c. rewrite forallb_forall in H. rewrite <- (ascii_nat_embedding c).
  apply H, in_seq. pose proof (nat_ascii_bounded c). lia.
Qed.

Lemma all_ascii_impl (f g : ascii → bool) :
  forallb (λ n, implb (f (ascii_of_nat n)) (g (ascii_of_nat n))) (seq 0 256) = true →
  ∀ c, f c = true → g c = true.
Proof.
  intros H c Hf. pose proof (all_ascii (λ c, implb (f c) (g c)) H c) as Hc.
  simpl in Hc. by rewrite Hf in Hc.
Qed.

(** [selfID] characters after lower-casing and replacing blanks. *)
Definition normal_char (c : ascii) : ascii := lower (if decide (c = " "%char) then "-"%char else c).

Lemma key_char_normalized c : key_char c = true → runtime_char (normal_char c) = true.
Proof. apply (all_ascii_impl key_char (λ c, runtime_char (normal_char c))). by vm_compute. Qed.

Lemma hex_char_runtime c : hex_char c = true → runtime_char c = true.
Proof. apply (all_ascii_impl hex_char runtime_char). by vm_compute. Qed.

Lemma generateRuntimeID_Ok rd selfID s :
  rand_ok rd → generateRuntimeID rd selfID = Ok s →
  ∃ h, s = ToLower (ReplaceAll1 selfID " " "-") +:+ "-" +:+ h ∧
       String.length h = 4 ∧ str_all hex_char h = true ∧
       (len s = len selfID + 5)%Z.
Proof.
  unfold generateRuntimeID. intros Hrd.
  destruct (generateRandomHex rd 4) as [h|e] eqn:E; [|done]. intros [= <-].
  destruct (generateRandomHex_Ok rd 4 h Hrd E) as [Hl Ha]. exists h. split_and!; try done.
  unfold len. rewrite !str_length_app, Hl. unfold ToLower, ReplaceAll1. rewrite !str_map_length.
  simpl. lia.
Qed.

Lemma ReplaceAll1_free s old new : free_of old s = true → ReplaceAll1 s old new = s.
Proof.
  unfold free_of, ReplaceAll1. induction s as [|c s IH]; [done|]. simpl.
  rewrite andb_true_iff, bool_decide_eq_true. intros [Hc Hs]. by rewrite IH, decide_False.
Qed.

Lemma normalized_chars selfID :
  key_ok selfID = true → str_all runtime_char (ToLower (ReplaceAll1 selfID " " "-")) = true.
Proof.
  intros Hk%key_ok_all. unfold ToLower, ReplaceAll1. rewrite !str_all_map.
  revert Hk. apply str_all_impl. exact key_char_normalized.
Qed.

Lemma generateRuntimeID_chars rd selfID s :
  rand_ok rd → ValidateSelfID selfID = None → generateRuntimeID rd selfID = Ok s →
  str_all runtime_char s = true ∧ (7 ≤ len s + 1)%Z ∧ (len s ≤ 133)%Z.
Proof.
  intros Hrd [Hlen Hk]%ValidateSelfID_None Hs.
  destruct (generateRuntimeID_Ok rd selfID s Hrd Hs) as (h & Hsh & _ & Hh & Hl).
  split_and!; [|destruct selfID; [done|]; unfold len in *; simpl in *; lia|lia].
  rewrite Hsh, !str_all_app, normalized_chars by done. simpl.
  by apply (str_all_impl hex_char); [apply hex_char_runtime|].
Qed.

Lemma runtime_char_free c s : runtime_char c = false → str_all runtime_char s = true → free_of c s = true.
Proof. apply str_all_free. Qed.

(** A deterministic source for the witnesses. *)
Definition rand_seq (seed : Z) : Rand :=
  λ n, Ok ((λ i, (seed + Z.of_nat i) mod 256)%Z <$> seq 0 n).

Lemma rand_seq_ok seed : rand_ok (rand_seq seed).
Proof.
  intros n l [= <-]. split; [by rewrite length_fmap, length_seq|].
  apply Forall_forall. intros x (i & -> & _)%list_elem_of_fmap. unfold is_byte. 
  apply Z.mod_pos_bound. lia.
Qed.

Definition rand_fail : Rand := λ _, Err (ErrForeign 1).

Lemma rand_fail_ok : rand_ok rand_fail.
Proof. by intros n l. Qed.

(** ** Properties *)

(** Identifiers and tokens lose nothing of their random bytes (grant ids
    128 bits, tokens 256, registration ids 64): two generations return the same
    text only when the random source returned the same bytes. *)
Theorem generators_injective rd1 rd2 s (H1 : rand_ok rd1) (H2 : rand_ok rd2) :
  (generateToken rd1 = Ok s → generateToken rd2 = Ok s → rd1 32 = rd2 32) ∧
  (generateGrantID rd1 = Ok s → generateGrantID rd2 = Ok s → rd1 16 = rd2 16) ∧
  (generateRegistrationID rd1 = Ok s → generateRegistrationID rd2 = Ok s → rd1 8 = rd2 8).
Proof.
  split_and!; intros E1 E2.
  - destruct (generateToken_Ok _ _ H1 E1) as (_ & _ & ->).
    by destruct (generateToken_Ok _ _ H2 E2) as (_ & _ & ->).
  - destruct (generateGrantID_Ok _ _ H1 E1) as (_ & _ & ->).
    by destruct (generateGrantID_Ok _ _ H2 E2) as (_ & _ & ->).
  - destruct (generateRegistrationID_Ok _ _ H1 E1) as (h1 & -> & _ & _ & ->).
    destruct (generateRegistrationID_Ok _ _ H2 E2) as (h2 & E & _ & _ & ->).
    apply str_app_inj_l in E. by subst.
Qed.

Lemma generators_injective_witness :
  ∃ s, generateToken (rand_seq 7) = Ok s ∧ rand_seq 7 32 = rand_seq 263 32.
Proof.
  eexists. split; [vm_compute; reflexivity|].
  exact (proj1 (generators_injective (rand_seq 7) (rand_seq 263) _ (rand_seq_ok 7) (rand_seq_ok 263))
           eq_refl eq_refl).
Defined.

(** The runtime id of an accepted self id is the lower-cased self id, a dash
    and four hexadecimal digits; it is at most 133 bytes long and one segment of a
    path (no slash, no space, no upper-case letter). *)
Theorem generateRuntimeID_shape rd selfID s
    (Hrd : rand_ok rd) (Hv : ValidateSelfID selfID = None) (Hs : generateRuntimeID rd selfID = Ok s) :
  (∃ h, s = ToLower selfID +:+ "-" +:+ h ∧ String.length h = 4 ∧ str_all hex_char h = true) ∧
  (len s ≤ 133)%Z ∧ str_all runtime_char s = true ∧ free_of "/" s = true.
Proof.
  destruct (generateRuntimeID_chars rd selfID s Hrd Hv Hs) as (Hc & _ & Hl).
  destruct (generateRuntimeID_Ok rd selfID s Hrd Hs) as (h & Hsh & Hlen & Hh & _).
  apply ValidateSelfID_None in Hv as [_ Hk%key_ok_all].
  split; [|split; [done|split; [done|]]]; cycle 1.
  { by apply (runtime_char_free "/"). }
  exists h. split; [|done]. rewrite Hsh. f_equal. unfold ToLower. f_equal.
  by apply ReplaceAll1_free, (str_all_free key_char).
Qed.

Lemma generateRuntimeID_shape_witness :
  generateRuntimeID (rand_seq 171) "Cache.Plugin" = Ok "cache.plugin-abac" ∧
  free_of "/" "cache.plugin-abac" = true.
Proof.
  split; [by vm_compute|].
  exact (proj2 (proj2 (proj2 (generateRuntimeID_shape (rand_seq 171) "Cache.Plugin" "cache.plugin-abac"
    (rand_seq_ok 171) ltac:(by vm_compute) ltac:(by vm_compute))))).
Defined.

End identity.
