(* ===== verification/Lifecycle.v ===== *)
(** * Plugin health reports (lifecycle.go)

    The health state of every plugin, as reported by the plugin itself, and the
    routing decision the registry and the router take from it. *)

From stdpp Require Import prelude gmap strings list fin_maps.
From Stdlib Require Import ZArith.
From S2P Require Import Prelude GoRuntime.

Module lifecycle.

(** [connectpluginv1.HealthState] is an open proto3 enum: any 32-bit number can
    arrive on the wire. *)
Definition HealthState := Z.
Definition HEALTH_STATE_UNSPECIFIED : HealthState := 0%Z.
Definition HEALTH_STATE_HEALTHY : HealthState := 1%Z.
Definition HEALTH_STATE_DEGRADED : HealthState := 2%Z.
Definition HEALTH_STATE_UNHEALTHY : HealthState := 3%Z.

Record PluginHealthState := mkPluginHealthState {
  State : HealthState;
  Reason : string;
  UnavailableDependencies : list string;
}.

Record LifecycleServer := mkLifecycleServer { states : gmap string PluginHealthState }.

Definition NewLifecycleServer : LifecycleServer := mkLifecycleServer ∅.

Record ReportHealthRequest := mkReportHealthRequest {
  rh_header : Header;
  rh_State : HealthState;
  rh_Reason : string;
  rh_UnavailableDependencies : list string;
}.

Definition ReportHealth (l : LifecycleServer) (req : ReportHealthRequest) : LifecycleServer * option error :=
  let runtimeID := Header_Get req.(rh_header) "X-Plugin-Runtime-ID" in
  if bool_decide (runtimeID = "") then
    (l, Some (NewError CodeInvalidArgument (Errorf "X-Plugin-Runtime-ID header required" [])))
  else
    (mkLifecycleServer
       (<[runtimeID := mkPluginHealthState req.(rh_State) req.(rh_Reason) req.(rh_UnavailableDependencies)]>
          l.(states)), None).

(** [nil] is [None]; the copy of the dependency list is a fresh slice. *)
Definition GetHealthState (l : LifecycleServer) (runtimeID : string) : option PluginHealthState :=
  match l.(states) !! runtimeID with
  | None => None
  | Some state => Some (mkPluginHealthState state.(State) state.(Reason) ([] ++ state.(UnavailableDependencies)))
  end.

Definition ShouldRouteTraffic (l : LifecycleServer) (runtimeID : string) : bool :=
  match GetHealthState l runtimeID with
  | None => true
  | Some state =>
      if bool_decide (state.(State) = HEALTH_STATE_HEALTHY) then true
      else if bool_decide (state.(State) = HEALTH_STATE_DEGRADED) then true
      else if bool_decide (state.(State) = HEALTH_STATE_UNHEALTHY) then false
      else true
  end.

Lemma ShouldRouteTraffic_false l id :
  ShouldRouteTraffic l id = false ↔
  ∃ s, l.(states) !! id = Some s ∧ s.(State) = HEALTH_STATE_UNHEALTHY.
Proof.
  unfold ShouldRouteTraffic, GetHealthState. destruct (states l !! id) as [s|]; simpl.
  - repeat case_bool_decide; split; try done; try (intros (? & [= <-] & E));
      unfold HEALTH_STATE_HEALTHY, HEALTH_STATE_DEGRADED, HEALTH_STATE_UNHEALTHY in *; try congruence.
    intros _. by exists s.
  - split; [done|]. by intros (? & ? & _).
Qed.

(** Histories of reports, oldest first. *)
Definition reports (l : LifecycleServer) (reqs : list ReportHealthRequest) : LifecycleServer :=
  fold_left (λ l req, (ReportHealth l req).1) reqs l.

(** The last report a plugin made under its own id, if any. *)
Definition last_report (id : string) (reqs : list ReportHealthRequest) : option ReportHealthRequest :=
  last (filter (λ req, Header_Get req.(rh_header) "X-Plugin-Runtime-ID" = id) reqs).

Lemma reports_app l r1 r2 : reports l (r1 ++ r2) = reports (reports l r1) r2.
Proof. unfold reports. by rewrite fold_left_app. Qed.

Lemma reports_lookup reqs id : id ≠ "" →
  (reports NewLifecycleServer reqs).(states) !! id =
  (λ req, mkPluginHealthState req.(rh_State) req.(rh_Reason) req.(rh_UnavailableDependencies))
    <$> last_report id reqs.
Proof.
  intros Hid. induction reqs as [|req reqs IH] using rev_ind.
  - unfold reports, last_report. simpl. by rewrite lookup_empty.
  - rewrite reports_app. unfold last_report. rewrite filter_app, filter_cons, filter_nil.
    unfold reports at 1. simpl. unfold ReportHealth.
    destruct (decide (Header_Get (rh_header req) "X-Plugin-Runtime-ID" = id)) as [<-|Hne].
    + rewrite last_snoc. rewrite bool_decide_eq_false_2 by done. simpl. by rewrite lookup_insert_eq.
    + rewrite app_nil_r. case_bool_decide; simpl; [apply IH|].
      rewrite lookup_insert_ne by done. apply IH.
Qed.

(** Traffic is refused to a plugin exactly when its latest report (under its own
    runtime id) said UNHEALTHY; a plugin that never reported, or reported an
    unknown state, receives traffic, and reports of other plugins do not matter. *)
Theorem routing_follows_latest_report reqs id (Hid : id ≠ "") :
  ShouldRouteTraffic (reports NewLifecycleServer reqs) id = false ↔
  ∃ req, last_report id reqs = Some req ∧ req.(rh_State) = HEALTH_STATE_UNHEALTHY.
Proof.
  rewrite ShouldRouteTraffic_false, (reports_lookup reqs id Hid).
  destruct (last_report id reqs) as [req|]; simpl.
  - split; [intros (? & [= <-] & E); by exists req|intros (? & [= <-] & E)]. by eexists.
  - by split; intros (? & ? & _).
Qed.

Lemma routing_follows_latest_report_witness :
  "p-1" ≠ "" ∧
  let r s := mkReportHealthRequest {["X-Plugin-Runtime-Id" := ["p-1"]]} s "db" ["db"] in
  ShouldRouteTraffic (reports NewLifecycleServer [r 1%Z; r 3%Z]) "p-1" = false.
Proof.
  split; [done|]. intros r.
  apply (proj2 (routing_follows_latest_report [r 1%Z; r 3%Z] "p-1" ltac:(done))).
  exists (r 3%Z). split; [by vm_compute|done].
Defined.

End lifecycle.
