(* ===== verification/ControlClient.v ===== *)
(** * Calling the control service of a plugin (PluginControlClient of lifecycle.go)

    The client is made with an HTTP client, an interface value that may be nil.  Nil
    is kept: [NewPluginIdentityClient] of pluginidentity.go puts a new [http.Client] in
    its place, this constructor does not.  A call is then a run-time panic. *)

From stdpp Require Import prelude strings.
From Stdlib Require Import ZArith.
From S2P Require Import Prelude GoRuntime Lifecycle.

Module plugincontrol.
Import lifecycle.

(** [C]: the HTTP clients there are; [None] is the nil interface. *)
Record PluginControlClient (C : Type) := mkPluginControlClient { pc_endpoint : string; pc_http : option C }.
#[global] Arguments mkPluginControlClient {C}.
#[global] Arguments pc_endpoint {C}.
#[global] Arguments pc_http {C}.

Definition NewPluginControlClient {C} (endpoint : string) (httpClient : option C) : PluginControlClient C :=
  mkPluginControlClient endpoint httpClient.

(** How a call ends. *)
Inductive call (A : Type) := Returned (a : A) | Panicked.
#[global] Arguments Returned {A}.
#[global] Arguments Panicked {A}.

(** The generated client over Connect, in a world [W].  [url_error]: Connect keeps the
    error of an endpoint whose URL it cannot parse and answers every call with it.
    The other two are calls that an HTTP client carries. *)
Record ControlRPC (C W : Type) := mkControlRPC {
  url_error : string → option error;
  rpc_GetHealth : C → string → W → W * res (HealthState * string);
  rpc_Shutdown : C → string → Z → string → W → W * res bool;
}.
#[global] Arguments mkControlRPC {C W}.
#[global] Arguments url_error {C W}.
#[global] Arguments rpc_GetHealth {C W}.
#[global] Arguments rpc_Shutdown {C W}.

Section control.
Context {C W : Type} (rpc : ControlRPC C W).

(** A call of a method of the generated client: an endpoint that is no URL is
    answered before the HTTP client is looked at; the request then calls the method
    [Do] of the interface, which panics on nil. *)
Definition through {A} (p : PluginControlClient C) (send : C → W → W * res A) (w : W) : W * call (res A) :=
  match rpc.(url_error) p.(pc_endpoint) with
  | Some err => (w, Returned (Err err))
  | None =>
      match p.(pc_http) with
      | None => (w, Panicked)
      | Some httpClient => let '(w', r) := send httpClient w in (w', Returned r)
      end
  end.

Definition GetHealth (p : PluginControlClient C) (w : W) : W * call (res (HealthState * string)) :=
  through p (λ httpClient, rpc.(rpc_GetHealth) httpClient p.(pc_endpoint)) w.

Definition Shutdown (p : PluginControlClient C) (gracePeriodSeconds : Z) (reason : string) (w : W) :
    W * call (bool * option error) :=
  let '(w', resp) := through p (λ httpClient, rpc.(rpc_Shutdown) httpClient p.(pc_endpoint) gracePeriodSeconds reason) w in
  (w', match resp with
       | Panicked => Panicked
       | Returned (Err err) => Returned (false, Some err)
       | Returned (Ok acknowledged) => Returned (acknowledged, None)
       end).

(** A client without an HTTP client sends nothing: its call returns only when the
    endpoint is no URL. *)
Lemma Shutdown_nil endpoint grace reason w :
  Shutdown (NewPluginControlClient endpoint None) grace reason w =
  (w, match rpc.(url_error) endpoint with Some err => Returned (false, Some err) | None => Panicked end).
Proof. unfold Shutdown, through. cbn. by destruct (url_error rpc endpoint). Qed.

Lemma GetHealth_nil endpoint w :
  GetHealth (NewPluginControlClient endpoint None) w =
  (w, match rpc.(url_error) endpoint with Some err => Returned (Err err) | None => Panicked end).
Proof. unfold GetHealth, through. cbn. by destruct (url_error rpc endpoint). Qed.
End control.
End plugincontrol.
