(* ===== verification/Registry.v ===== *)
(** * Service registry (registry.go)

    Providers by service type and by registration id, selection strategies,
    authorization and watchers.  Every method runs under the registry's mutex, so
    each is one state transformer; [DiscoverService], which takes the lock twice, is
    two of them.  The shared health server is an argument (its state when the lock
    is taken).  Watchers are the channels of capacity ten that [WatchService] makes,
    named by their address. *)

From stdpp Require Import prelude gmap strings list fin_maps.
From Stdlib Require Import ZArith Ascii.
From S2P Require Import Prelude GoRuntime Validation Identity Lifecycle.

Module registry.
Import validation identity lifecycle.

(** ** State *)

Definition SelectionStrategy := Z.
Definition SelectionFirst : SelectionStrategy := 0%Z.
Definition SelectionRoundRobin : SelectionStrategy := 1%Z.
Definition SelectionRandom : SelectionStrategy := 2%Z.
Definition SelectionWeighted : SelectionStrategy := 3%Z.

Record ServiceProvider := mkServiceProvider {
  RegistrationID : string;
  RuntimeID : string;
  ServiceType : string;
  Version : string;
  EndpointPath : string;
  Metadata : gmap string string;
  RegisteredAt : Time;
}.

#[export] Instance ServiceProvider_eq_dec : EqDecision ServiceProvider.
Proof. solve_decision. Defined.

Definition ServiceState := Z.
Definition SERVICE_STATE_AVAILABLE : ServiceState := 1%Z.
Definition SERVICE_STATE_UNAVAILABLE : ServiceState := 2%Z.
Definition SERVICE_STATE_DEGRADED : ServiceState := 3%Z.

Record ServiceEndpoint := mkServiceEndpoint {
  se_ProviderId : string;
  se_Version : string;
  se_EndpointUrl : string;
  se_Metadata : gmap string string;
}.

Record WatchServiceEvent := mkWatchServiceEvent {
  ev_ServiceType : string;
  ev_State : ServiceState;
  ev_Endpoint : option ServiceEndpoint;
}.

(** A watcher: its address and the events buffered in its channel, oldest first. *)
Record serviceWatcher := mkServiceWatcher { w_addr : nat; w_ch : list WatchServiceEvent }.

Definition watcher_cap : nat := 10.

Record ServiceRegistry := mkServiceRegistry {
  providers : gmap string (list ServiceProvider);
  registrations : gmap string ServiceProvider;
  selection : gmap string SelectionStrategy;
  roundRobinIndex : gmap string Z;
  allowedServices : gmap string (list string);
  watchers : gmap string (list serviceWatcher);
}.

Definition NewServiceRegistry : ServiceRegistry := mkServiceRegistry ∅ ∅ ∅ ∅ ∅ ∅.

Definition with_providers (r : ServiceRegistry) p g :=
  mkServiceRegistry p g r.(selection) r.(roundRobinIndex) r.(allowedServices) r.(watchers).
Definition with_roundRobin (r : ServiceRegistry) i :=
  mkServiceRegistry r.(providers) r.(registrations) r.(selection) i r.(allowedServices) r.(watchers).
Definition with_watchers (r : ServiceRegistry) w :=
  mkServiceRegistry r.(providers) r.(registrations) r.(selection) r.(roundRobinIndex) r.(allowedServices) w.

(** ** Configuration *)

Definition SetAllowedServices (r : ServiceRegistry) (runtimeID : string) (serviceTypes : list string) :=
  mkServiceRegistry r.(providers) r.(registrations) r.(selection) r.(roundRobinIndex)
    (<[runtimeID := serviceTypes]> r.(allowedServices)) r.(watchers).

Definition SetSelectionStrategy (r : ServiceRegistry) (serviceType : string) (strategy : SelectionStrategy) :=
  mkServiceRegistry r.(providers) r.(registrations) (<[serviceType := strategy]> r.(selection))
    r.(roundRobinIndex) r.(allowedServices) r.(watchers).

(** ** Filters and selection *)

Definition filterCompatibleVersions (ps : list ServiceProvider) (minVersion : string) : list ServiceProvider :=
  if bool_decide (minVersion = "") then ps
  else filter (λ p, str_le minVersion p.(Version) = true) ps.

(** [lc] is the registry's [lifecycleServer] field: [None] is nil. *)
Definition filterAvailable (lc : option LifecycleServer) (ps : list ServiceProvider) : list ServiceProvider :=
  match lc with
  | None => ps
  | Some l => filter (λ p, ShouldRouteTraffic l p.(RuntimeID) = true) ps
  end.

(** [l[z]]: [None] is the run-time panic of an index out of range. *)
Definition go_index {A} (l : list A) (z : Z) : option A :=
  if (z <? 0)%Z then None else l !! Z.to_nat z.

(** [rnd n] is the result of [rand.Intn(n)].  The inner option is the returned
    pointer ([None] is nil), the outer one a run-time panic. *)
Definition applyStrategy (rnd : Z → Z) (r : ServiceRegistry) (serviceType : string)
    (ps : list ServiceProvider) (strategy : SelectionStrategy) :
    ServiceRegistry * option (option ServiceProvider) :=
  let n := Z.of_nat (length ps) in
  if bool_decide (n = 0%Z) then (r, Some None)
  else if bool_decide (strategy = SelectionFirst) then (r, Some <$> go_index ps 0)
  else if bool_decide (strategy = SelectionRoundRobin) then
    let idx := get_or 0%Z r.(roundRobinIndex) serviceType in
    match go_index ps (Z.rem idx n) with
    | None => (r, None)
    | Some provider =>
        (with_roundRobin r
           (<[serviceType := Z.rem (wrap64 (idx + 1)) n]> r.(roundRobinIndex)), Some (Some provider))
    end
  else if bool_decide (strategy = SelectionRandom) then (r, Some <$> go_index ps (rnd n))
  else if bool_decide (strategy = SelectionWeighted) then (r, Some <$> go_index ps 0)
  else (r, Some <$> go_index ps 0).

(** The result is [None] on a panic. *)
Definition SelectProvider (rnd : Z → Z) (lc : option LifecycleServer) (r : ServiceRegistry)
    (serviceType minVersion : string) : ServiceRegistry * option (res (option ServiceProvider)) :=
  let allProviders := get_or [] r.(providers) serviceType in
  if bool_decide (length allProviders = 0) then
    (r, Some (Err (Errorf "no providers for service %q" [AStr serviceType])))
  else
    let compatible := filterCompatibleVersions allProviders minVersion in
    if bool_decide (length compatible = 0) then
      (r, Some (Err (Errorf "no compatible providers for service %q (min version: %s)"
                       [AStr serviceType; AStr minVersion])))
    else
      let available := filterAvailable lc compatible in
      if bool_decide (length available = 0) then
        (r, Some (Err (Errorf "no available providers for service %q (all unhealthy)" [AStr serviceType])))
      else
        let strategy := get_or SelectionFirst r.(selection) serviceType in
        let '(r', p) := applyStrategy rnd r serviceType available strategy in
        (r', Ok <$> p).

Definition HasService (rnd : Z → Z) (lc : option LifecycleServer) (r : ServiceRegistry)
    (serviceType minVersion : string) : ServiceRegistry * option bool :=
  let '(r', out) := SelectProvider rnd lc r serviceType minVersion in
  (r', is_ok <$> out).

(** ** Events *)

Definition EndpointUrl (serviceType runtimeID : string) : string :=
  "/services/" +:+ serviceType +:+ "/" +:+ runtimeID.

Definition endpoint_of (p : ServiceProvider) : ServiceEndpoint :=
  mkServiceEndpoint p.(RuntimeID) p.(Version) (EndpointUrl p.(ServiceType) p.(RuntimeID)) p.(Metadata).

Definition buildServiceEventLocked (lc : option LifecycleServer) (r : ServiceRegistry)
    (serviceType : string) : WatchServiceEvent :=
  let ps := get_or [] r.(providers) serviceType in
  if bool_decide (length ps = 0) then mkWatchServiceEvent serviceType SERVICE_STATE_UNAVAILABLE None
  else
    match filterAvailable lc ps with
    | [] => mkWatchServiceEvent serviceType SERVICE_STATE_UNAVAILABLE None
    | provider :: _ =>
        let state :=
          match lc with
          | None => SERVICE_STATE_AVAILABLE
          | Some l =>
              match GetHealthState l provider.(RuntimeID) with
              | Some h => if bool_decide (h.(State) = HEALTH_STATE_DEGRADED)
                          then SERVICE_STATE_DEGRADED else SERVICE_STATE_AVAILABLE
              | None => SERVICE_STATE_AVAILABLE
              end
          end in
        mkWatchServiceEvent serviceType state (Some (endpoint_of provider))
    end.

(** [select { case ch <- event: default: }] on a channel of capacity ten. *)
Definition try_send (event : WatchServiceEvent) (w : serviceWatcher) : serviceWatcher :=
  if bool_decide (length w.(w_ch) < watcher_cap)
  then mkServiceWatcher w.(w_addr) (w.(w_ch) ++ [event]) else w.

Definition notifyWatchersLocked (lc : option LifecycleServer) (r : ServiceRegistry)
    (serviceType : string) : ServiceRegistry :=
  let event := buildServiceEventLocked lc r serviceType in
  match r.(watchers) !! serviceType with
  | None => r
  | Some ws => with_watchers r (<[serviceType := try_send event <$> ws]> r.(watchers))
  end.

(** ** Registration *)

Record RegisterServiceRequest := mkRegisterServiceRequest {
  rs_header : Header;
  rs_ServiceType : string;
  rs_Version : string;
  rs_EndpointPath : string;
  rs_Metadata : gmap string string;
}.

(** The four validations of a registration, in order. *)
Definition validate_registration `{GoRange} (req : RegisterServiceRequest) : option error :=
  match ValidateServiceType req.(rs_ServiceType) with
  | Some e => Some e
  | None =>
      match ValidateVersion req.(rs_Version) with
      | Some e => Some e
      | None =>
          match ValidateEndpointPath req.(rs_EndpointPath) with
          | Some e => Some e
          | None => ValidateMetadata req.(rs_Metadata)
          end
      end
  end.

Definition authorized (r : ServiceRegistry) (runtimeID serviceType : string) : bool :=
  match r.(allowedServices) !! runtimeID with
  | None => true
  | Some allowed => existsb (λ a, bool_decide (a = serviceType)) allowed
  end.

Definition RegisterService `{GoRange} (rd : Rand) (now : Time) (lc : option LifecycleServer)
    (r : ServiceRegistry) (req : RegisterServiceRequest) : ServiceRegistry * res string :=
  match validate_registration req with
  | Some e => (r, Err (NewError CodeInvalidArgument e))
  | None =>
      let runtimeID := Header_Get req.(rs_header) "X-Plugin-Runtime-ID" in
      if bool_decide (runtimeID = "") then
        (r, Err (NewError CodeInvalidArgument (Errorf "X-Plugin-Runtime-ID header required" [])))
      else if negb (authorized r runtimeID req.(rs_ServiceType)) then
        (r, Err (NewError CodePermissionDenied
                   (Errorf "plugin %s not authorized to register service type %s"
                      [AStr runtimeID; AStr req.(rs_ServiceType)])))
      else
        match generateRegistrationID rd with
        | Err e => (r, Err (NewError CodeInternal e))
        | Ok registrationID =>
            let t := req.(rs_ServiceType) in
            let provider := mkServiceProvider registrationID runtimeID t req.(rs_Version)
                              req.(rs_EndpointPath) req.(rs_Metadata) now in
            let r' := with_providers r
                        (<[t := get_or [] r.(providers) t ++ [provider]]> r.(providers))
                        (<[registrationID := provider]> r.(registrations)) in
            (notifyWatchersLocked lc r' t, Ok registrationID)
        end
  end.

(** Removing one registration from both tables: the loop that
    [UnregisterService] and [UnregisterPluginServices] share. *)
Definition has_regid (id : string) (p : ServiceProvider) : bool := bool_decide (p.(RegistrationID) = id).

Definition drop_registration (r : ServiceRegistry) (serviceType id : string) : ServiceRegistry :=
  with_providers r
    (if existsb (has_regid id) (get_or [] r.(providers) serviceType)
     then <[serviceType := remove_first (has_regid id) (get_or [] r.(providers) serviceType)]> r.(providers)
     else r.(providers))
    (delete id r.(registrations)).

Definition UnregisterService (lc : option LifecycleServer) (r : ServiceRegistry) (id : string) :
    ServiceRegistry * option error :=
  match r.(registrations) !! id with
  | None => (r, Some (NewError CodeNotFound (Errorf "registration not found: %s" [AStr id])))
  | Some provider =>
      let serviceType := provider.(ServiceType) in
      (notifyWatchersLocked lc (drop_registration r serviceType id) serviceType, None)
  end.

(** [r.registrations[regID]] of a key collected under the same lock is not nil; on
    a missing key the code would dereference nil, which is [None] here. *)
Fixpoint unregister_all (r : ServiceRegistry) (toRemove : list string) : option ServiceRegistry :=
  match toRemove with
  | [] => Some r
  | regID :: rest =>
      match r.(registrations) !! regID with
      | None => None
      | Some provider => unregister_all (drop_registration r provider.(ServiceType) regID) rest
      end
  end.

Definition registered_by (runtimeID : string) (l : list (string * ServiceProvider)) : list (string * ServiceProvider) :=
  filter (λ kv, kv.2.(RuntimeID) = runtimeID) l.

Definition UnregisterPluginServices `{GoRange} (r : ServiceRegistry) (runtimeID : string) : option ServiceRegistry :=
  unregister_all r (registered_by runtimeID (go_range 0 r.(registrations))).*1.

(** ** Queries *)

Definition GetProvider (r : ServiceRegistry) (registrationID : string) : res ServiceProvider :=
  match r.(registrations) !! registrationID with
  | None => Err (Errorf "provider not found: %s" [AStr registrationID])
  | Some provider => Ok provider
  end.

Definition GetProviderByRuntimeID `{GoRange} (r : ServiceRegistry) (runtimeID : string) : res ServiceProvider :=
  match registered_by runtimeID (go_range 0 r.(registrations)) with
  | (_, provider) :: _ => Ok provider
  | [] => Err (Errorf "no provider found for runtime ID: %s" [AStr runtimeID])
  end.

Definition GetServicesBy `{GoRange} (r : ServiceRegistry) (runtimeID : string) : list ServiceProvider :=
  (registered_by runtimeID (go_range 0 r.(registrations))).*2.

(** [None] is the nil slice. *)
Definition GetAllProviders (r : ServiceRegistry) (serviceType : string) : option (list ServiceProvider) :=
  r.(providers) !! serviceType.

(** ** Discovery: two critical sections *)

Record DiscoverServiceResponse := mkDiscoverServiceResponse {
  dr_Endpoint : ServiceEndpoint;
  dr_SingleProvider : bool;
}.

Definition DiscoverService_select (rnd : Z → Z) (lc : option LifecycleServer) (r : ServiceRegistry)
    (serviceType minVersion : string) : ServiceRegistry * option (res ServiceEndpoint) :=
  let '(r', out) := SelectProvider rnd lc r serviceType minVersion in
  (r', match out with
       | None => None
       | Some (Err e) => Some (Err (NewError CodeNotFound e))
       | Some (Ok None) => None
       | Some (Ok (Some p)) => Some (Ok (endpoint_of p))
       end).

(** [r] here is the registry when the lock is taken again. *)
Definition DiscoverService_respond (r : ServiceRegistry) (serviceType : string) (endpoint : ServiceEndpoint) :
    DiscoverServiceResponse :=
  mkDiscoverServiceResponse endpoint (bool_decide (length (get_or [] r.(providers) serviceType) = 1)).

Definition DiscoverService (rnd : Z → Z) (lc : option LifecycleServer) (r : ServiceRegistry)
    (between : ServiceRegistry → ServiceRegistry) (serviceType minVersion : string) :
    ServiceRegistry * option (res DiscoverServiceResponse) :=
  let '(r1, out) := DiscoverService_select rnd lc r serviceType minVersion in
  match out with
  | None => (r1, None)
  | Some (Err e) => (r1, Some (Err e))
  | Some (Ok endpoint) =>
      let r2 := between r1 in (r2, Some (Ok (DiscoverService_respond r2 serviceType endpoint)))
  end.

(** ** Watching *)

(** The opening of [WatchService]: a new watcher at a fresh address, its channel
    holding the state of the service at that moment. *)
Definition WatchService_open (lc : option LifecycleServer) (r : ServiceRegistry) (serviceType : string)
    (addr : nat) : ServiceRegistry :=
  let watcher := mkServiceWatcher addr [buildServiceEventLocked lc r serviceType] in
  with_watchers r (<[serviceType := get_or [] r.(watchers) serviceType ++ [watcher]]> r.(watchers)).

Definition has_addr (addr : nat) (w : serviceWatcher) : bool := bool_decide (w.(w_addr) = addr).

(** [event := <-watcher.ch]: takes the oldest event of the watcher at [addr]. *)
Fixpoint take_event (addr : nat) (ws : list serviceWatcher) : option (WatchServiceEvent * list serviceWatcher) :=
  match ws with
  | [] => None
  | w :: ws' =>
      if has_addr addr w then
        match w.(w_ch) with
        | [] => None
        | e :: ch => Some (e, mkServiceWatcher addr ch :: ws')
        end
      else match take_event addr ws' with Some (e, ws'') => Some (e, w :: ws'') | None => None end
  end.

Definition WatchService_recv (r : ServiceRegistry) (serviceType : string) (addr : nat) :
    option (WatchServiceEvent * ServiceRegistry) :=
  match take_event addr (get_or [] r.(watchers) serviceType) with
  | None => None
  | Some (e, ws) => Some (e, with_watchers r (<[serviceType := ws]> r.(watchers)))
  end.

(** The deferred cleanup of [WatchService]. *)
Definition WatchService_close (r : ServiceRegistry) (serviceType : string) (addr : nat) : ServiceRegistry :=
  let ws := get_or [] r.(watchers) serviceType in
  if existsb (has_addr addr) ws
  then with_watchers r (<[serviceType := remove_first (has_addr addr) ws]> r.(watchers)) else r.

(** ** Specification: the log of live registrations

    A registry promises to behave as the list of the registrations that are live,
    oldest first.  [models r a]: the two tables of [r] are views of the log [a]. *)

Record models (r : ServiceRegistry) (a : list ServiceProvider) : Prop := {
  models_providers : ∀ t, get_or [] r.(providers) t = filter (λ p, p.(ServiceType) = t) a;
  models_registrations : ∀ id p, r.(registrations) !! id = Some p ↔ p ∈ a ∧ p.(RegistrationID) = id;
  models_nodup : NoDup (RegistrationID <$> a);
}.

Lemma models_new : models NewServiceRegistry [].
Proof.
  split; simpl.
  - intros t. apply get_or_empty.
  - intros id p. rewrite lookup_empty. split; [done|]. intros [H _]. by apply elem_of_nil in H.
  - constructor.
Qed.

Lemma models_notify lc r t a : models (notifyWatchersLocked lc r t) a ↔ models r a.
Proof.
  unfold notifyWatchersLocked. destruct (watchers r !! t); [|done].
  split; intros [H1 H2 H3]; split; done.
Qed.

Lemma models_in r a p : models r a → p ∈ a → r.(registrations) !! p.(RegistrationID) = Some p.
Proof. intros M Hp. by apply (models_registrations _ _ M). Qed.

Lemma drop_providers r t id t' :
  get_or [] (drop_registration r t id).(providers) t' =
  if decide (t = t') then remove_first (has_regid id) (get_or [] r.(providers) t)
  else get_or [] r.(providers) t'.
Proof.
  unfold drop_registration. simpl. destruct (existsb _ _) eqn:E; [apply get_or_insert|].
  case_decide; [subst|done]. symmetry. apply remove_first_none. intros p Hp.
  destruct (has_regid id p) eqn:Ep; [|done].
  assert (existsb (has_regid id) (get_or [] (providers r) t') = true); [|congruence].
  apply existsb_exists. exists p. by rewrite <- list_elem_of_In.
Qed.

Lemma models_drop r a id p :
  models r a → r.(registrations) !! id = Some p →
  models (drop_registration r p.(ServiceType) id) (filter (λ q, q.(RegistrationID) ≠ id) a).
Proof.
  intros M Hp. pose proof (models_nodup _ _ M) as Hnd.
  destruct (proj1 (models_registrations _ _ M id p) Hp) as [Hpa Hid]. split.
  - intros t. rewrite drop_providers, list_filter_filter, (models_providers _ _ M).
    case_decide as Ht; [subst t|].
    + rewrite (remove_first_filter_key _ RegistrationID id).
      * rewrite list_filter_filter. apply filter_ext_in. intros q _.
        unfold has_regid. rewrite bool_decide_eq_false. tauto.
      * intros q. done.
      * eapply sublist_NoDup; [exact Hnd|]. apply fmap_sublist, sublist_filter.
    + rewrite (models_providers _ _ M). apply filter_ext_in. intros q Hq.
      split; [|by intros [? _]]. intros Hqt. split; [done|]. intros Hqid.
      assert (q = p); [|congruence]. by eapply (NoDup_fmap_inj_in RegistrationID); [..|congruence].
  - intros id' q. unfold drop_registration. simpl.
    rewrite lookup_delete_Some, (models_registrations _ _ M), list_elem_of_filter. naive_solver.
  - eapply sublist_NoDup; [exact Hnd|]. apply fmap_sublist, sublist_filter.
Qed.

Lemma models_append r a t id p :
  models r a → p.(ServiceType) = t → p.(RegistrationID) = id → r.(registrations) !! id = None →
  models (with_providers r (<[t := get_or [] r.(providers) t ++ [p]]> r.(providers))
            (<[id := p]> r.(registrations))) (a ++ [p]).
Proof.
  intros M <- <- Hf. split; simpl.
  - intros t. rewrite get_or_insert, filter_app, filter_cons, filter_nil, !(models_providers _ _ M).
    case_decide as Ht; [by rewrite Ht|by rewrite app_nil_r].
  - intros id' q. rewrite elem_of_app, list_elem_of_singleton, lookup_insert_Some, (models_registrations _ _ M).
    split; [intros [[? ?]|[? [? ?]]]; subst; tauto|].
    intros [[Hq| ->] <-]; [|by left]. right. split; [|done]. intros E.
    apply (models_in _ _ _ M) in Hq. congruence.
  - rewrite fmap_app. apply NoDup_app. split_and!; [exact (models_nodup _ _ M)| |apply NoDup_singleton].
    intros x (q & -> & Hq)%list_elem_of_fmap. simpl. rewrite list_elem_of_singleton. intros E.
    apply (models_in _ _ _ M) in Hq. congruence.
Qed.

Lemma models_unregister_all ids r a :
  models r a → NoDup ids → (∀ id, id ∈ ids → is_Some (r.(registrations) !! id)) →
  ∃ r', unregister_all r ids = Some r' ∧ models r' (filter (λ q, q.(RegistrationID) ∉ ids) a) ∧
        r'.(watchers) = r.(watchers).
Proof.
  revert r a. induction ids as [|id ids IH]; intros r a M Hnd Hin; simpl.
  - exists r. split_and!; [done| |done]. rewrite filter_id; [done|]. intros. apply not_elem_of_nil.
  - apply NoDup_cons in Hnd as [Hid Hnd]. destruct (Hin id ltac:(left)) as [p Hp]. rewrite Hp.
    destruct (IH (drop_registration r (ServiceType p) id) _ (models_drop _ _ _ _ M Hp) Hnd) as (r' & E & M' & W).
    + intros id' Hid'. unfold drop_registration. simpl. rewrite lookup_delete_ne by (intros ->; done).
      apply Hin. by right.
    + exists r'. split_and!; [done| |done]. rewrite list_filter_filter in M'.
      erewrite filter_ext_in; [exact M'|]. intros q _. simpl. rewrite not_elem_of_cons. tauto.
Qed.

Lemma elem_of_registered_by `{GoRange} r a rid id : models r a →
  id ∈ (registered_by rid (go_range 0 r.(registrations))).*1 ↔
  ∃ p, p ∈ a ∧ p.(RegistrationID) = id ∧ p.(RuntimeID) = rid.
Proof.
  intros M. unfold registered_by. rewrite list_elem_of_fmap. split.
  - intros ([id' p] & -> & [Hr Hp]%list_elem_of_filter). apply elem_of_go_range in Hp.
    apply (models_registrations _ _ M) in Hp as [? ?]. by exists p.
  - intros (p & Hp & <- & Hr). exists (RegistrationID p, p). split; [done|].
    apply list_elem_of_filter. split; [done|]. apply elem_of_go_range. by apply (models_in _ _ _ M).
Qed.

Lemma models_unregister_plugin `{GoRange} r a rid : models r a →
  ∃ r', UnregisterPluginServices r rid = Some r' ∧
        models r' (filter (λ q, q.(RuntimeID) ≠ rid) a) ∧ r'.(watchers) = r.(watchers).
Proof.
  intros M. unfold UnregisterPluginServices.
  set (ids := (registered_by rid (go_range 0 (registrations r))).*1).
  assert (Hids : ∀ id, id ∈ ids ↔ ∃ p, p ∈ a ∧ RegistrationID p = id ∧ RuntimeID p = rid)
    by (intros id; by apply elem_of_registered_by).
  destruct (models_unregister_all ids r a M) as (r' & E & M' & W).
  - unfold ids, registered_by. eapply sublist_NoDup; [apply (NoDup_fst_go_range 0 (registrations r))|].
    apply fmap_sublist, sublist_filter.
  - intros id (p & Hp & <- & _)%Hids. exists p. by apply (models_in _ _ _ M).
  - exists r'. split_and!; [done| |done]. erewrite filter_ext_in; [exact M'|].
    intros q Hq. simpl. rewrite Hids. split; [|by intros Hn E'; apply Hn; exists q].
    intros Hn (p & Hp & Hpid & Hpr). apply Hn.
    assert (p = q) as ->; [|done]. by eapply (NoDup_fmap_inj_in RegistrationID a); [exact (models_nodup _ _ M)|..].
Qed.

(** ** Selection *)

(** The providers a selection may answer with, in registration order. *)
Definition eligible (lc : option LifecycleServer) (r : ServiceRegistry) (t v : string) : list ServiceProvider :=
  filterAvailable lc (filterCompatibleVersions (get_or [] r.(providers) t) v).

Definition routable (lc : option LifecycleServer) (p : ServiceProvider) : Prop :=
  match lc with None => True | Some l => ShouldRouteTraffic l p.(RuntimeID) = true end.

#[export] Instance routable_dec lc p : Decision (routable lc p).
Proof. unfold routable. destruct lc; apply _. Defined.

Lemma elem_of_eligible lc r t v p :
  p ∈ eligible lc r t v ↔
  p ∈ get_or [] r.(providers) t ∧ (v = "" ∨ str_le v p.(Version) = true) ∧ routable lc p.
Proof.
  unfold eligible, filterAvailable, filterCompatibleVersions, routable.
  destruct lc; case_bool_decide; subst; rewrite ?list_elem_of_filter; tauto.
Qed.

(** The round-robin position stays an index a Go slice can have. *)
Definition rr_ok (r : ServiceRegistry) : Prop :=
  ∀ t, (0 ≤ get_or 0%Z r.(roundRobinIndex) t < max64)%Z.

(** What the code relies on of [rand.Intn]. *)
Definition rnd_ok (rnd : Z → Z) : Prop := ∀ n, (0 < n)%Z → (0 ≤ rnd n < n)%Z.

Definition is_round_robin (r : ServiceRegistry) (t : string) : Prop :=
  get_or SelectionFirst r.(selection) t = SelectionRoundRobin.

#[export] Instance is_round_robin_dec r t : Decision (is_round_robin r t).
Proof. unfold is_round_robin. apply _. Defined.

(** Slices are no longer than an [int] can say. *)
Definition slice_ok {A} (l : list A) : Prop := (Z.of_nat (length l) ≤ max64)%Z.

Lemma go_index_in {A} (l : list A) z :
  (0 ≤ z < Z.of_nat (length l))%Z → ∃ x, go_index l z = Some x ∧ x ∈ l ∧ l !! Z.to_nat z = Some x.
Proof.
  intros Hz. unfold go_index. rewrite (proj2 (Z.ltb_ge z 0)) by lia.
  destruct (lookup_lt_is_Some_2 l (Z.to_nat z)) as [x Hx]; [lia|].
  exists x. split_and!; [done| |done]. by eapply list_elem_of_lookup_2.
Qed.

Lemma rr_next r t n :
  rr_ok r → (0 < n ≤ max64)%Z →
  (0 ≤ Z.rem (get_or 0%Z r.(roundRobinIndex) t) n < n)%Z ∧
  Z.rem (wrap64 (get_or 0%Z r.(roundRobinIndex) t + 1)) n = ((get_or 0%Z r.(roundRobinIndex) t + 1) mod n)%Z.
Proof.
  intros Hrr Hn. specialize (Hrr t). unfold max64 in *. split; [apply Z.rem_bound_pos; lia|].
  rewrite wrap64_id by (unfold in64, min64, max64; lia). apply Z.rem_mod_nonneg; lia.
Qed.

Lemma applyStrategy_spec rnd r t ps strat :
  rr_ok r → rnd_ok rnd → ps ≠ [] → slice_ok ps →
  ∃ p, p ∈ ps ∧ (applyStrategy rnd r t ps strat).2 = Some (Some p) ∧
    (strat ≠ SelectionRoundRobin → strat ≠ SelectionRandom → head ps = Some p) ∧
    (strat = SelectionRoundRobin →
       ps !! Z.to_nat (get_or 0%Z r.(roundRobinIndex) t mod Z.of_nat (length ps)) = Some p ∧
       (applyStrategy rnd r t ps strat).1 = with_roundRobin r
         (<[t := ((get_or 0%Z r.(roundRobinIndex) t + 1) mod Z.of_nat (length ps))%Z]> r.(roundRobinIndex))) ∧
    (strat ≠ SelectionRoundRobin → (applyStrategy rnd r t ps strat).1 = r).
Proof.
  intros Hrr Hrnd Hne Hlen. unfold slice_ok in Hlen.
  assert (Hpos : (0 < Z.of_nat (length ps))%Z) by (destruct ps; [done|simpl; lia]).
  destruct (rr_next r t (Z.of_nat (length ps)) Hrr ltac:(lia)) as [Hb Hn].
  destruct (go_index_in ps 0 ltac:(lia)) as (p0 & E0 & Hin0 & L0).
  destruct (go_index_in ps (rnd (Z.of_nat (length ps))) ltac:(by apply Hrnd)) as (p1 & E1 & Hin1 & _).
  destruct (go_index_in ps _ Hb) as (p2 & E2 & Hin2 & L2).
  assert (Hhd : head ps = Some p0) by (destruct ps; [done|by simpl in L0]).
  rewrite Z.rem_mod_nonneg in L2 by (try apply Hrr; lia).
  unfold applyStrategy. rewrite bool_decide_eq_false_2 by lia. rewrite E0, E1, E2, Hn.
  unfold SelectionFirst, SelectionRoundRobin, SelectionRandom, SelectionWeighted.
  repeat case_bool_decide; simpl;
    [exists p0|exists p2|exists p1|exists p0|exists p0];
    split_and!; intros; subst; first [done | congruence | by split].
Qed.

Lemma SelectProvider_eq rnd lc r t v :
  SelectProvider rnd lc r t v =
  match eligible lc r t v with
  | [] =>
      (r, Some (Err
        (if bool_decide (length (get_or [] r.(providers) t) = 0)
         then Errorf "no providers for service %q" [AStr t]
         else if bool_decide (length (filterCompatibleVersions (get_or [] r.(providers) t) v) = 0)
         then Errorf "no compatible providers for service %q (min version: %s)" [AStr t; AStr v]
         else Errorf "no available providers for service %q (all unhealthy)" [AStr t])))
  | ps => let '(r', p) := applyStrategy rnd r t ps (get_or SelectionFirst r.(selection) t) in (r', Ok <$> p)
  end.
Proof.
  unfold SelectProvider, eligible.
  destruct (get_or [] (providers r) t) as [|p0 l0] eqn:E0.
  - assert (Hc : filterCompatibleVersions [] v = []) by (unfold filterCompatibleVersions; by case_bool_decide).
    rewrite Hc. by destruct lc.
  - rewrite bool_decide_eq_false_2 by done.
    destruct (filterCompatibleVersions (p0 :: l0) v) as [|p1 l1] eqn:E1; [by destruct lc|].
    rewrite bool_decide_eq_false_2 by done.
    by destruct (filterAvailable lc (p1 :: l1)) as [|p2 l2] eqn:E2.
Qed.

Lemma SelectProvider_cases rnd lc r t v :
  rr_ok r → rnd_ok rnd → slice_ok (eligible lc r t v) →
  (eligible lc r t v = [] ∧ ∃ e, SelectProvider rnd lc r t v = (r, Some (Err e))) ∨
  (∃ p r', SelectProvider rnd lc r t v = (r', Some (Ok (Some p))) ∧ p ∈ eligible lc r t v ∧
     (¬ is_round_robin r t → r' = r) ∧
     (get_or SelectionFirst r.(selection) t = SelectionFirst → head (eligible lc r t v) = Some p) ∧
     (is_round_robin r t →
        let n := Z.of_nat (length (eligible lc r t v)) in
        let idx := get_or 0%Z r.(roundRobinIndex) t in
        eligible lc r t v !! Z.to_nat (idx mod n) = Some p ∧
        r' = with_roundRobin r (<[t := ((idx + 1) mod n)%Z]> r.(roundRobinIndex)))).
Proof.
  intros Hrr Hrnd Hlen. rewrite SelectProvider_eq.
  destruct (eligible lc r t v) as [|p0 l] eqn:E; [left; eauto|right].
  destruct (applyStrategy_spec rnd r t (p0 :: l) (get_or SelectionFirst r.(selection) t))
    as (p & Hp & E2 & Hf & Hr & Hn); [done..|].
  destruct (applyStrategy _ _ _ _ _) as [r' out] eqn:Ea. simpl in E2, Hr, Hn. subst out.
  exists p, r'. split_and!; [done|done|exact Hn| |exact Hr].
  intros Hs. rewrite Hs in Hf. by apply Hf.
Qed.

Lemma rr_ok_with_roundRobin r t n z :
  rr_ok r → (0 < n ≤ max64)%Z → rr_ok (with_roundRobin r (<[t := (z mod n)%Z]> r.(roundRobinIndex))).
Proof.
  intros H Hn t'. simpl. rewrite get_or_insert. case_decide; [|apply H].
  pose proof (Z.mod_pos_bound z n ltac:(lia)). lia.
Qed.

Lemma SelectProvider_rr_ok rnd lc r t v :
  rr_ok r → rnd_ok rnd → slice_ok (eligible lc r t v) → rr_ok (SelectProvider rnd lc r t v).1.
Proof.
  intros Hrr Hrnd Hs. destruct (SelectProvider_cases rnd lc r t v Hrr Hrnd Hs)
    as [[_ [e ->]]|(p & r' & -> & Hp & Hn & _ & Hr)]; [done|]. simpl.
  destruct (decide (is_round_robin r t)) as [H|H]; [|by rewrite Hn].
  destruct (Hr H) as [_ ->]. apply rr_ok_with_roundRobin; [done|]. unfold slice_ok in Hs.
  destruct (eligible lc r t v); [by apply elem_of_nil in Hp|simpl in *; lia].
Qed.

Lemma eligible_slice_ok lc r a t v : models r a → slice_ok a → slice_ok (eligible lc r t v).
Proof.
  intros M Hlen. unfold slice_ok in *. assert (length (eligible lc r t v) ≤ length a); [|lia].
  apply sublist_length. unfold eligible, filterAvailable, filterCompatibleVersions.
  rewrite (models_providers _ _ M).
  destruct lc; case_bool_decide; repeat (etrans; [apply sublist_filter|]); try done; apply sublist_filter.
Qed.

(** A provider that selection may answer with. *)
Definition acceptable (lc : option LifecycleServer) (t v : string) (p : ServiceProvider) : Prop :=
  p.(ServiceType) = t ∧ (v = "" ∨ str_le v p.(Version) = true) ∧ routable lc p.

Lemma elem_of_eligible_models lc r a t v p : models r a →
  p ∈ eligible lc r t v ↔ p ∈ a ∧ acceptable lc t v p.
Proof.
  intros M. rewrite elem_of_eligible, (models_providers _ _ M), list_elem_of_filter. unfold acceptable. tauto.
Qed.

(** Selection against the log of registrations. *)
Lemma SelectProvider_models rnd lc r a t v :
  models r a → rr_ok r → rnd_ok rnd → slice_ok a →
  (∃ p r', SelectProvider rnd lc r t v = (r', Some (Ok (Some p))) ∧ p ∈ a ∧ acceptable lc t v p ∧
     models r' a ∧ rr_ok r' ∧ (get_or SelectionFirst r.(selection) t = SelectionFirst → head (eligible lc r t v) = Some p)) ∨
  ((∀ p, p ∈ a → ¬ acceptable lc t v p) ∧ ∃ e, SelectProvider rnd lc r t v = (r, Some (Err e))).
Proof.
  intros M Hrr Hrnd Hlen. pose proof (eligible_slice_ok lc r a t v M Hlen) as Hs.
  pose proof (SelectProvider_rr_ok rnd lc r t v Hrr Hrnd Hs) as Hrr'.
  destruct (SelectProvider_cases rnd lc r t v Hrr Hrnd Hs)
    as [[E [e Ee]]|(p & r' & E & Hp & Hn & Hh & Hr)]; [right|left].
  - split; [|eauto]. intros p Hp Hok. assert (Hin : p ∈ eligible lc r t v) by by apply (elem_of_eligible_models lc r a).
    rewrite E in Hin. by apply elem_of_nil in Hin.
  - rewrite E in Hrr'. apply (elem_of_eligible_models lc r a t v p M) in Hp as [Hpa Hok].
    exists p, r'. split_and!; try done.
    destruct (decide (is_round_robin r t)) as [Hd|Hd]; [|by rewrite Hn].
    destruct (Hr Hd) as [_ ->]. destruct M as [M1 M2 M3]. by split.
Qed.

(** Discovery, nobody else taking the lock in between. *)
Lemma DiscoverService_models rnd lc r a t v :
  models r a → rr_ok r → rnd_ok rnd → slice_ok a →
  let '(r', out) := DiscoverService rnd lc r (λ r, r) t v in
  models r' a ∧ rr_ok r' ∧
  ((∃ p resp, out = Some (Ok resp) ∧ resp.(dr_Endpoint) = endpoint_of p ∧ p ∈ a ∧ acceptable lc t v p) ∨
   ((∀ p, p ∈ a → ¬ acceptable lc t v p) ∧ ∃ e, out = Some (Err (NewError CodeNotFound e)))).
Proof.
  intros M Hrr Hrnd Hlen. unfold DiscoverService, DiscoverService_select.
  destruct (SelectProvider_models rnd lc r a t v M Hrr Hrnd Hlen)
    as [(p & r' & -> & Hp & Hok & M' & Hrr' & _)|[Hno [e ->]]].
  - split_and!; [done|done|]. left. by eexists p, _.
  - split_and!; [done|done|]. right. eauto.
Qed.

(** [k] consecutive selections, and their answers. *)
Fixpoint selects (rnd : Z → Z) (lc : option LifecycleServer) (r : ServiceRegistry) (t v : string) (k : nat) :
    list (option (res (option ServiceProvider))) :=
  match k with
  | 0 => []
  | S k' => let '(r', out) := SelectProvider rnd lc r t v in out :: selects rnd lc r' t v k'
  end.

Lemma selects_lookup rnd lc t v k r i :
  rr_ok r → rnd_ok rnd → is_round_robin r t → eligible lc r t v ≠ [] →
  slice_ok (eligible lc r t v) → i < k →
  selects rnd lc r t v k !! i =
  Some (Some (Ok (eligible lc r t v !!
    Z.to_nat ((get_or 0%Z r.(roundRobinIndex) t + Z.of_nat i) mod Z.of_nat (length (eligible lc r t v)))))).
Proof.
  revert r i. induction k as [|k IH]; intros r i Hrr Hrnd Hs Hne Hlen Hi; [lia|]. simpl.
  pose proof (SelectProvider_rr_ok rnd lc r t v Hrr Hrnd Hlen) as Hrr'.
  destruct (SelectProvider_cases rnd lc r t v Hrr Hrnd Hlen)
    as [[E _]|(p & r' & E & Hp & _ & _ & Hr)]; [done|].
  rewrite E in *. simpl in Hrr'. destruct (Hr Hs) as [Hl Er].
  destruct i as [|i]; simpl; [by rewrite Z.add_0_r, Hl|].
  assert (Eel : eligible lc r' t v = eligible lc r t v) by by subst r'.
  rewrite IH; rewrite ?Eel; try done; [|by subst r'|lia].
  subst r'. simpl. rewrite get_or_insert_eq, Zplus_mod_idemp_l. do 6 f_equal. lia.
Qed.

(** ** Registration, authorization *)

Lemma RegisterService_cases `{GoRange} rd now lc r req :
  let rid := Header_Get req.(rs_header) "X-Plugin-Runtime-ID" in
  match (RegisterService rd now lc r req).2 with
  | Ok id =>
      validate_registration req = None ∧ rid ≠ "" ∧ authorized r rid req.(rs_ServiceType) = true ∧
      generateRegistrationID rd = Ok id ∧
      let p := mkServiceProvider id rid req.(rs_ServiceType) req.(rs_Version) req.(rs_EndpointPath)
                 req.(rs_Metadata) now in
      (RegisterService rd now lc r req).1 =
      notifyWatchersLocked lc
        (with_providers r (<[rs_ServiceType req := get_or [] r.(providers) (rs_ServiceType req) ++ [p]]> r.(providers))
           (<[id := p]> r.(registrations))) req.(rs_ServiceType)
  | Err e =>
      (RegisterService rd now lc r req).1 = r ∧
      (validate_registration req = None → rid ≠ "" → authorized r rid req.(rs_ServiceType) = true →
       ∃ e', generateRegistrationID rd = Err e')
  end.
Proof.
  unfold RegisterService. destruct (validate_registration req) eqn:Ev; simpl; [done|].
  case_bool_decide; simpl; [done|].
  destruct (authorized r _ _) eqn:Ea; simpl; [|done].
  destruct (generateRegistrationID rd) eqn:Eg; simpl; [done|]. split; [done|]. eauto.
Qed.

Lemma models_register `{GoRange} r a rd now lc req id p :
  models r a → (RegisterService rd now lc r req).2 = Ok id → r.(registrations) !! id = None →
  p = mkServiceProvider id (Header_Get req.(rs_header) "X-Plugin-Runtime-ID")
        req.(rs_ServiceType) req.(rs_Version) req.(rs_EndpointPath) req.(rs_Metadata) now →
  models (RegisterService rd now lc r req).1 (a ++ [p]).
Proof.
  intros M E Hf ->. pose proof (RegisterService_cases rd now lc r req) as Hc.
  simpl in Hc. rewrite E in Hc. destruct Hc as (_ & _ & _ & _ & ->).
  apply models_notify. by apply models_append.
Qed.

Lemma selects_length rnd lc t v k r : length (selects rnd lc r t v k) = k.
Proof.
  revert r. induction k as [|k IH]; intros r; [done|]. simpl.
  destruct (SelectProvider rnd lc r t v). simpl. by rewrite IH.
Qed.

Lemma validate_registration_None `{GoRange} req :
  validate_registration req = None ↔
  ValidateServiceType req.(rs_ServiceType) = None ∧ ValidateVersion req.(rs_Version) = None ∧
  ValidateEndpointPath req.(rs_EndpointPath) = None ∧ ValidateMetadata req.(rs_Metadata) = None.
Proof. unfold validate_registration. repeat case_match; split; try done; intros; destruct_and?; done. Qed.

Lemma authorized_true r rid t :
  authorized r rid t = true ↔ ∀ l, r.(allowedServices) !! rid = Some l → t ∈ l.
Proof.
  unfold authorized. destruct (allowedServices r !! rid) as [l|]; [|by split].
  rewrite existsb_exists. split.
  - intros (x & Hx & ->%bool_decide_eq_true) ? [= <-]. by apply list_elem_of_In.
  - intros Hl. exists t. split; [by apply list_elem_of_In, Hl|by apply bool_decide_eq_true].
Qed.

(** ** Histories of changes, and what watchers receive *)

Inductive change :=
| ChRegister (rd : Rand) (now : Time) (lc : option LifecycleServer) (req : RegisterServiceRequest)
| ChUnregister (lc : option LifecycleServer) (id : string)
| ChUnregisterPlugin (runtimeID : string)
| ChSelect (rnd : Z → Z) (lc : option LifecycleServer) (serviceType minVersion : string).

Definition apply_change `{GoRange} (r : ServiceRegistry) (c : change) : ServiceRegistry :=
  match c with
  | ChRegister rd now lc req => (RegisterService rd now lc r req).1
  | ChUnregister lc id => (UnregisterService lc r id).1
  | ChUnregisterPlugin rid => default r (UnregisterPluginServices r rid)
  | ChSelect rnd lc t v => (SelectProvider rnd lc r t v).1
  end.

(** The event of service [t] a change emits: the state after the change, as
    [WatchService] would report it. *)
Definition emitted1 `{GoRange} (t : string) (r : ServiceRegistry) (c : change) : list WatchServiceEvent :=
  match c with
  | ChRegister rd now lc req =>
      if is_ok (RegisterService rd now lc r req).2 && bool_decide (req.(rs_ServiceType) = t)
      then [buildServiceEventLocked lc (apply_change r c) t] else []
  | ChUnregister lc id =>
      match r.(registrations) !! id with
      | Some p => if bool_decide (p.(ServiceType) = t) then [buildServiceEventLocked lc (apply_change r c) t] else []
      | None => []
      end
  | ChUnregisterPlugin _ | ChSelect _ _ _ _ => []
  end.

Fixpoint apply_changes `{GoRange} (r : ServiceRegistry) (cs : list change) : ServiceRegistry :=
  match cs with [] => r | c :: cs' => apply_changes (apply_change r c) cs' end.

Fixpoint emitted `{GoRange} (t : string) (r : ServiceRegistry) (cs : list change) : list WatchServiceEvent :=
  match cs with [] => [] | c :: cs' => emitted1 t r c ++ emitted t (apply_change r c) cs' end.

Definition watchers_of (r : ServiceRegistry) (t : string) : list serviceWatcher := get_or [] r.(watchers) t.

(** A watcher that reads nothing while [es] are emitted. *)
Definition buffered (es : list WatchServiceEvent) (w : serviceWatcher) : serviceWatcher :=
  mkServiceWatcher w.(w_addr) (take watcher_cap (w.(w_ch) ++ es)).

Lemma notify_providers lc r t : (notifyWatchersLocked lc r t).(providers) = r.(providers).
Proof. unfold notifyWatchersLocked. by destruct (watchers r !! t). Qed.

Lemma notify_watchers lc r t t' :
  watchers_of (notifyWatchersLocked lc r t) t' =
  if decide (t = t') then try_send (buildServiceEventLocked lc r t) <$> watchers_of r t else watchers_of r t'.
Proof.
  unfold watchers_of, notifyWatchersLocked. destruct (watchers r !! t) as [ws|] eqn:E; simpl.
  - rewrite get_or_insert. case_decide; [|done]. by rewrite (get_or_Some _ _ _ _ E).
  - case_decide; [subst|done]. by rewrite (get_or_None _ _ _ E).
Qed.

Lemma build_notify lc lc' r t t' :
  buildServiceEventLocked lc (notifyWatchersLocked lc' r t) t' = buildServiceEventLocked lc r t'.
Proof. unfold buildServiceEventLocked. by rewrite notify_providers. Qed.

Lemma buffered_nil w : length w.(w_ch) ≤ watcher_cap → buffered [] w = w.
Proof.
  intros H. unfold buffered. rewrite app_nil_r, take_ge by done. by destruct w.
Qed.

Lemma try_send_buffered e w : length w.(w_ch) ≤ watcher_cap → try_send e w = buffered [e] w.
Proof.
  intros H. unfold try_send, buffered. case_bool_decide as Hl.
  - rewrite take_ge; [done|]. rewrite length_app. simpl. lia.
  - rewrite take_app_length' by (simpl in *; lia). by destruct w.
Qed.

Lemma buffered_app es1 es2 w : buffered es2 (buffered es1 w) = buffered (es1 ++ es2) w.
Proof.
  unfold buffered. simpl. f_equal. rewrite (app_assoc (w_ch w)).
  generalize (w_ch w ++ es1) as l. intros l.
  rewrite !take_app, take_take, length_take. do 2 f_equal; lia.
Qed.

Lemma buffered_cap es w : length (buffered es w).(w_ch) ≤ watcher_cap.
Proof. simpl. rewrite length_take. lia. Qed.

Definition channels_ok (ws : list serviceWatcher) : Prop := ∀ w, w ∈ ws → length w.(w_ch) ≤ watcher_cap.

Lemma notify_buffered lc r t t' : channels_ok (watchers_of r t') →
  watchers_of (notifyWatchersLocked lc r t) t' =
  buffered (if bool_decide (t = t') then [buildServiceEventLocked lc r t'] else []) <$> watchers_of r t'.
Proof.
  intros Hok. rewrite notify_watchers. case_bool_decide; [subst; rewrite decide_True by done|rewrite decide_False by done].
  - apply list_fmap_ext. intros i w Hw. apply try_send_buffered, Hok. by eapply list_elem_of_lookup_2.
  - rewrite <- (list_fmap_id (watchers_of r t')) at 1. apply list_fmap_ext.
    intros i w Hw. simpl. symmetry. apply buffered_nil, Hok. by eapply list_elem_of_lookup_2.
Qed.

Lemma buffered_nil_ws ws : channels_ok ws → buffered [] <$> ws = ws.
Proof.
  intros Hok. rewrite <- (list_fmap_id ws) at 2. apply list_fmap_ext.
  intros i w Hw. apply buffered_nil, Hok. by eapply list_elem_of_lookup_2.
Qed.

Lemma unregister_all_watchers ids r r' : unregister_all r ids = Some r' → r'.(watchers) = r.(watchers).
Proof.
  revert r. induction ids as [|id ids IH]; intros r; simpl; [by intros [= ->]|].
  destruct (registrations r !! id); [|done]. intros H. by rewrite (IH _ H).
Qed.

Lemma SelectProvider_watchers rnd lc r t v : (SelectProvider rnd lc r t v).1.(watchers) = r.(watchers).
Proof.
  rewrite SelectProvider_eq. destruct (eligible lc r t v) as [|p l]; [done|].
  unfold applyStrategy. repeat (case_bool_decide; try done). by destruct (go_index _ _).
Qed.

Lemma apply_change_watchers `{GoRange} t r c : channels_ok (watchers_of r t) →
  watchers_of (apply_change r c) t = buffered (emitted1 t r c) <$> watchers_of r t.
Proof.
  intros Hok. destruct c as [rd now lc req|lc id|rid|rnd lc t' v]; simpl.
  - pose proof (RegisterService_cases rd now lc r req) as Hc. simpl in Hc.
    destruct (RegisterService rd now lc r req) as [r' [id|e]]; simpl in *.
    + destruct Hc as (_ & _ & _ & _ & ->). rewrite notify_buffered by done.
      case_bool_decide; [|done]. by rewrite build_notify.
    + destruct Hc as [-> _]. by rewrite buffered_nil_ws.
  - unfold UnregisterService. destruct (registrations r !! id) as [p|]; simpl; [|by rewrite buffered_nil_ws].
    rewrite notify_buffered by done. case_bool_decide; [|done]. by rewrite build_notify.
  - rewrite buffered_nil_ws by done. unfold UnregisterPluginServices, watchers_of.
    destruct (unregister_all r _) as [r'|] eqn:E; simpl; [|done]. by rewrite (unregister_all_watchers _ _ _ E).
  - rewrite buffered_nil_ws by done. unfold watchers_of. by rewrite SelectProvider_watchers.
Qed.

Lemma apply_changes_watchers `{GoRange} t cs r : channels_ok (watchers_of r t) →
  watchers_of (apply_changes r cs) t = buffered (emitted t r cs) <$> watchers_of r t.
Proof.
  revert r. induction cs as [|c cs IH]; intros r Hok; simpl; [by rewrite buffered_nil_ws|].
  rewrite IH.
  - rewrite apply_change_watchers by done. rewrite <- list_fmap_compose. apply list_fmap_ext.
    intros i w _. apply buffered_app.
  - rewrite apply_change_watchers by done. intros w (w0 & -> & _)%list_elem_of_fmap. apply buffered_cap.
Qed.

(** ** Concrete registries for the witnesses *)

Definition ex_req (rid t ver : string) : RegisterServiceRequest :=
  mkRegisterServiceRequest {["X-Plugin-Runtime-Id" := [rid]]} t ver ("/" +:+ t +:+ "/") ∅.

Definition ex_kv : ServiceRegistry :=
  apply_changes (SetSelectionStrategy NewServiceRegistry "kv" SelectionRoundRobin)
    [ChRegister (rand_seq 1) 0%Z None (ex_req "a-1111" "kv" "1.0.0");
     ChRegister (rand_seq 2) 1%Z None (ex_req "b-2222" "kv" "1.1.0");
     ChRegister (rand_seq 3) 2%Z None (ex_req "c-3333" "kv" "1.2.0")].

Definition ex_log : list ServiceProvider := get_or [] ex_kv.(providers) "kv".

Lemma ex_kv_models : models ex_kv ex_log.
Proof.
  unfold ex_kv. simpl apply_changes.
  assert (M0 : models (SetSelectionStrategy NewServiceRegistry "kv" SelectionRoundRobin) []).
  { destruct models_new as [M1 M2 M3]. by split. }
  assert (E : ex_log = (([] ++ [_]) ++ [_]) ++ [_]) by (vm_compute; reflexivity).
  rewrite E.
  eapply models_register; [eapply models_register; [eapply models_register; [exact M0|..]|..]|..];
    vm_compute; reflexivity.
Qed.

Lemma ex_kv_rr_ok : rr_ok ex_kv.
Proof.
  intros t. replace (roundRobinIndex ex_kv) with (∅ : gmap string Z) by (by vm_compute).
  rewrite get_or_empty. unfold max64. lia.
Qed.

Definition rnd0 : Z → Z := λ _, 0%Z.
Lemma rnd0_ok : rnd_ok rnd0.
Proof. intros n Hn. unfold rnd0. lia. Qed.

Lemma slice_ok_short {A} (l : list A) : length l ≤ 100 → slice_ok l.
Proof. unfold slice_ok, max64. lia. Qed.

(** ** Properties *)

(** C2: the registry implements the log of live registrations. A successful
    registration under a fresh id appends one entry; unregistering an id removes
    exactly that entry or, when it is unknown, fails with NotFound and changes
    nothing; shutting a plugin down removes exactly its entries, whatever the
    order in which the registration map is walked. *)
Theorem registry_refines_log `{GoRange} r a (M : models r a) :
  (∀ rd now lc req id,
     (RegisterService rd now lc r req).2 = Ok id → r.(registrations) !! id = None →
     models (RegisterService rd now lc r req).1
       (a ++ [mkServiceProvider id (Header_Get req.(rs_header) "X-Plugin-Runtime-ID")
                req.(rs_ServiceType) req.(rs_Version) req.(rs_EndpointPath) req.(rs_Metadata) now])) ∧
  (∀ lc id, id ∈ RegistrationID <$> a →
     (UnregisterService lc r id).2 = None ∧
     models (UnregisterService lc r id).1 (filter (λ q, q.(RegistrationID) ≠ id) a)) ∧
  (∀ lc id, id ∉ RegistrationID <$> a →
     ∃ e, UnregisterService lc r id = (r, Some (NewError CodeNotFound e))) ∧
  (∀ rid, ∃ r', UnregisterPluginServices r rid = Some r' ∧
     models r' (filter (λ q, q.(RuntimeID) ≠ rid) a)).
Proof.
  split_and!.
  - intros rd now lc req id E Hf. by eapply models_register.
  - intros lc id (p & -> & Hp)%list_elem_of_fmap. unfold UnregisterService.
    rewrite (models_in _ _ _ M Hp). split; [done|]. apply models_notify.
    apply models_drop; [done|]. by apply (models_in _ _ _ M).
  - intros lc id Hid. unfold UnregisterService. destruct (registrations r !! id) as [p|] eqn:E; [|eauto].
    destruct Hid. apply (models_registrations _ _ M) in E as [Hp <-]. by apply list_elem_of_fmap_2.
  - intros rid. destruct (models_unregister_plugin r a rid M) as (r' & E & M' & _). eauto.
Qed.

Lemma registry_refines_log_witness :
  ∃ id r', (RegisterService (rand_seq 1) 0%Z None NewServiceRegistry (ex_req "a-1" "kv" "1.0.0")) = (r', Ok id) ∧
           models r' [mkServiceProvider id "a-1" "kv" "1.0.0" "/kv/" ∅ 0%Z].
Proof.
  eexists _, _. split; [reflexivity|].
  exact (proj1 (registry_refines_log NewServiceRegistry [] models_new) (rand_seq 1) 0%Z None
    (ex_req "a-1" "kv" "1.0.0") _ eq_refl eq_refl).
Defined.

(** Selection is sound and complete: it answers with a live provider of the
    requested type, at or above the minimum version in string order, whose plugin
    is not reported unhealthy, exactly when there is one; otherwise it fails and
    leaves the registry as it was. It never panics and never returns nil, and
    [SelectionFirst] answers with the oldest such registration. *)
Theorem SelectProvider_sound_complete rnd lc r a t v
    (M : models r a) (Hrr : rr_ok r) (Hrnd : rnd_ok rnd) (Hlen : slice_ok a) :
  let ok p := p.(ServiceType) = t ∧ (v = "" ∨ str_le v p.(Version) = true) ∧ routable lc p in
  (∀ p, p ∈ eligible lc r t v ↔ p ∈ a ∧ ok p) ∧
  ((∃ p r', SelectProvider rnd lc r t v = (r', Some (Ok (Some p))) ∧ p ∈ a ∧ ok p ∧
            models r' a ∧ rr_ok r' ∧
            (get_or SelectionFirst r.(selection) t = SelectionFirst → head (eligible lc r t v) = Some p)) ∨
   ((∀ p, p ∈ a → ¬ ok p) ∧ ∃ e, SelectProvider rnd lc r t v = (r, Some (Err e)))).
Proof.
  intros ok. split; [intros p; by apply elem_of_eligible_models|].
  destruct (SelectProvider_models rnd lc r a t v M Hrr Hrnd Hlen)
    as [(p & r' & E & Hp & Hok & M' & Hrr' & Hh)|[Hno He]]; [left|by right].
  exists p, r'. by split_and!.
Qed.

Lemma SelectProvider_sound_complete_witness :
  slice_ok ex_log ∧ ∃ p r', SelectProvider rnd0 None ex_kv "kv" "1.1.0" = (r', Some (Ok (Some p))) ∧ p ∈ ex_log.
Proof.
  split; [by apply slice_ok_short, (bool_decide_unpack _); vm_compute|].
  destruct (proj2 (SelectProvider_sound_complete rnd0 None ex_kv ex_log "kv" "1.1.0" ex_kv_models
    ex_kv_rr_ok rnd0_ok ltac:(by apply slice_ok_short, (bool_decide_unpack _); vm_compute)))
    as [(p & r' & E & Hp & _)|[Hno [e E]]]; [by exists p, r'|].
  exfalso. vm_compute in E. discriminate E.
Defined.

(** C33: round-robin is fair: with the set of providers unchanged, as many
    consecutive selections as there are eligible providers answer with each of them
    exactly once, wherever the position stands. *)
Theorem round_robin_fair rnd lc r t v
    (Hrr : rr_ok r) (Hrnd : rnd_ok rnd) (Hs : is_round_robin r t)
    (Hlen : slice_ok (eligible lc r t v)) :
  ∃ picks, selects rnd lc r t v (length (eligible lc r t v)) = (λ p, Some (Ok (Some p))) <$> picks ∧
           picks ≡ₚ eligible lc r t v.
Proof.
  set (l := eligible lc r t v). set (idx := get_or 0%Z (roundRobinIndex r) t).
  exists (rotate (Z.to_nat idx) l). split.
  - destruct (decide (l = [])) as [E|Hne]; [rewrite E; unfold rotate; by rewrite drop_nil, take_nil|]. apply list_eq. intros i.
    destruct (decide (i < length l)) as [Hi|Hi].
    + rewrite (selects_lookup rnd lc t v _ r i) by done. fold l idx.
      rewrite list_lookup_fmap, (lookup_rotate_r l _ i Hi). unfold rotate_nat_add.
      specialize (Hrr t). fold idx in Hrr. rewrite Z2Nat.id by lia.
      destruct (lookup_lt_is_Some_2 l (Z.to_nat ((idx + Z.of_nat i) mod Z.of_nat (length l)))) as [p ->]; [|done].
      pose proof (Z.mod_pos_bound (idx + Z.of_nat i) (Z.of_nat (length l)) ltac:(lia)). lia.
    + rewrite (lookup_ge_None_2 (selects _ _ _ _ _ _)) by (rewrite selects_length; lia).
      symmetry. apply lookup_ge_None_2. rewrite length_fmap, length_rotate. lia.
  - unfold rotate. by rewrite (Permutation_app_comm (drop _ _)), take_drop.
Qed.

Lemma round_robin_fair_witness :
  length (eligible None ex_kv "kv" "1.1.0") = 2 ∧
  ∃ picks, selects rnd0 None ex_kv "kv" "1.1.0" 2 = (λ p, Some (Ok (Some p))) <$> picks ∧
           picks ≡ₚ eligible None ex_kv "kv" "1.1.0".
Proof.
  split; [by vm_compute|].
  exact (round_robin_fair rnd0 None ex_kv "kv" "1.1.0" ex_kv_rr_ok rnd0_ok eq_refl
    (slice_ok_short (eligible None ex_kv "kv" "1.1.0") ltac:(by vm_compute; repeat constructor))).
Defined.

(** A registration is admitted exactly when the message passes the four
    validations, the caller states its runtime id, the host allows that plugin the
    service type (or does not restrict it) and a random id can be drawn; every
    refusal leaves the registry as it was. *)
Theorem RegisterService_admits `{GoRange} rd now lc r req :
  let rid := Header_Get req.(rs_header) "X-Plugin-Runtime-ID" in
  (is_ok (RegisterService rd now lc r req).2 = true ↔
     (ValidateServiceType req.(rs_ServiceType) = None ∧ ValidateVersion req.(rs_Version) = None ∧
      ValidateEndpointPath req.(rs_EndpointPath) = None ∧ ValidateMetadata req.(rs_Metadata) = None) ∧
     rid ≠ "" ∧
     (∀ l, r.(allowedServices) !! rid = Some l → req.(rs_ServiceType) ∈ l) ∧
     is_ok (generateRegistrationID rd) = true) ∧
  (is_ok (RegisterService rd now lc r req).2 = false → (RegisterService rd now lc r req).1 = r).
Proof.
  intros rid. pose proof (RegisterService_cases rd now lc r req) as Hc. simpl in Hc. fold rid in Hc.
  destruct (RegisterService rd now lc r req) as [r' [id|e]]; simpl in *.
  - split; [|done]. destruct Hc as (Hv & Hr & Ha & Hg & _). split; [intros _|done].
    rewrite validate_registration_None in Hv. rewrite authorized_true in Ha. by rewrite Hg.
  - destruct Hc as [-> Hc]. split; [split; [done|]|done]. intros (Hv & Hr & Ha & Hg).
    rewrite <- validate_registration_None in Hv. rewrite <- authorized_true in Ha.
    destruct (Hc Hv Hr Ha) as [e' E]. by rewrite E in Hg.
Qed.

(** The event sent for a service describes it: UNAVAILABLE, without an
    endpoint, exactly when no live provider is routable; otherwise the endpoint of
    the oldest routable provider, DEGRADED exactly when that plugin last reported
    DEGRADED. *)
Theorem buildServiceEvent_describes lc r a t (M : models r a) :
  let routables := filter (routable lc) (filter (λ p, p.(ServiceType) = t) a) in
  let ev := buildServiceEventLocked lc r t in
  ev.(ev_ServiceType) = t ∧
  (routables = [] → ev.(ev_State) = SERVICE_STATE_UNAVAILABLE ∧ ev.(ev_Endpoint) = None) ∧
  (∀ p l, routables = p :: l →
     ev.(ev_Endpoint) = Some (mkServiceEndpoint p.(RuntimeID) p.(Version) (EndpointUrl t p.(RuntimeID)) p.(Metadata)) ∧
     (ev.(ev_State) = SERVICE_STATE_DEGRADED ∨ ev.(ev_State) = SERVICE_STATE_AVAILABLE) ∧
     (ev.(ev_State) = SERVICE_STATE_DEGRADED ↔
        ∃ s h, lc = Some s ∧ GetHealthState s p.(RuntimeID) = Some h ∧ h.(State) = HEALTH_STATE_DEGRADED)).
Proof.
  intros routables ev.
  assert (Hr : routables = filterAvailable lc (get_or [] r.(providers) t)).
  { unfold routables. rewrite (models_providers _ _ M). unfold filterAvailable, routable.
    destruct lc; [by apply filter_ext_in|]. by apply filter_id. }
  assert (Ht : ∀ p, p ∈ routables → ServiceType p = t).
  { intros p. unfold routables. rewrite !list_elem_of_filter. tauto. }
  subst ev. unfold buildServiceEventLocked. case_bool_decide as E.
  { apply nil_length_inv in E. rewrite E in Hr. destruct lc; simpl in *; rewrite Hr; done. }
  rewrite <- Hr. destruct routables as [|p l]; [done|]. split; [done|]. split; [done|].
  intros p' l' [= <- <-]. simpl. unfold endpoint_of. rewrite (Ht p) by left. split; [done|].
  unfold SERVICE_STATE_DEGRADED, SERVICE_STATE_AVAILABLE.
  destruct lc as [s|]; simpl; [|split; [by right|split; [done|by intros (? & ? & ? & _)]]].
  destruct (GetHealthState s (RuntimeID p)) as [h|] eqn:Eh;
    [|split; [by right|split; [done|intros (? & ? & [= <-] & ? & _); congruence]]].
  case_bool_decide as Ed.
  - split; [by left|]. split; [|done]. intros _. by exists s, h.
  - split; [by right|]. split; [done|]. intros (? & ? & [= <-] & E' & ?). congruence.
Qed.

Lemma buildServiceEvent_describes_witness :
  (buildServiceEventLocked (Some (mkLifecycleServer {["a-1111" := mkPluginHealthState 3%Z "" []]})) ex_kv "kv").(ev_ServiceType) = "kv".
Proof.
  exact (proj1 (buildServiceEvent_describes (Some (mkLifecycleServer {["a-1111" := mkPluginHealthState 3%Z "" []]}))
    ex_kv ex_log "kv" ex_kv_models)).
Defined.

(** C34: what a watcher receives: the state of its service when it starts watching
    and then, in order, the state after each registration and each single
    unregistration of that service ([UnregisterService]), up to ten events that it
    has not read.  A plugin-wide unregistration ([UnregisterPluginServices], what
    [RemovePlugin] and [ReplacePlugin] use) is announced to nobody: every channel
    stays as it is, whatever happened before and however many services go.  Nothing
    ever blocks on a watcher, and no channel holds more than ten events. *)
Theorem watcher_receives_changes `{GoRange} lc r t addr cs (Hok : channels_ok (watchers_of r t)) :
  let r1 := WatchService_open lc r t addr in let r2 := apply_changes r1 cs in
  let w := mkServiceWatcher addr (take watcher_cap (buildServiceEventLocked lc r t :: emitted t r1 cs)) in
  (∃ ws, watchers_of r2 t = ws ++ [w] ∧ channels_ok (ws ++ [w]) ∧
         ws = buffered (emitted t r1 cs) <$> watchers_of r t) ∧
  (∀ rid r3, UnregisterPluginServices r2 rid = Some r3 → r3.(watchers) = r2.(watchers)).
Proof.
  intros r1 r2 w. split; [|intros rid r3; apply unregister_all_watchers].
  assert (E1 : watchers_of r1 t = watchers_of r t ++ [mkServiceWatcher addr [buildServiceEventLocked lc r t]]).
  { unfold watchers_of, r1, WatchService_open. simpl. by rewrite get_or_insert_eq. }
  assert (Hok1 : channels_ok (watchers_of r1 t)).
  { rewrite E1. intros w' [Hw| ->%list_elem_of_singleton]%elem_of_app; [by apply Hok|]. unfold watcher_cap. simpl. lia. }
  exists (buffered (emitted t r1 cs) <$> watchers_of r t).
  assert (E2 : watchers_of (apply_changes r1 cs) t = (buffered (emitted t r1 cs) <$> watchers_of r t) ++ [w]).
  { rewrite apply_changes_watchers by done. by rewrite E1, fmap_app. }
  split_and!; [done| |done]. rewrite <- E2, apply_changes_watchers by done.
  intros w' (w0 & -> & _)%list_elem_of_fmap. apply buffered_cap.
Qed.

Lemma watcher_receives_changes_witness :
  let r := apply_changes (WatchService_open None NewServiceRegistry "kv" 7)
      [ChRegister (rand_seq 1) 0%Z None (ex_req "a-1" "kv" "1.0.0")] in
  ∃ ws w r3, watchers_of r "kv" = ws ++ [w] ∧
    ev_State <$> w.(w_ch) = [SERVICE_STATE_UNAVAILABLE; SERVICE_STATE_AVAILABLE] ∧
    UnregisterPluginServices r "a-1" = Some r3 ∧ r3.(watchers) = r.(watchers).
Proof.
  intros r. destruct (watcher_receives_changes None NewServiceRegistry "kv" 7
    [ChRegister (rand_seq 1) 0%Z None (ex_req "a-1" "kv" "1.0.0")]
    ltac:(intros w Hw; by apply elem_of_nil in Hw)) as [(ws & E & _) Hu].
  fold r in E, Hu. destruct (UnregisterPluginServices r "a-1") as [r3|] eqn:Er; [|by vm_compute in Er].
  eexists ws, _, r3. split; [exact E|]. split; [by vm_compute|]. split; [done|]. by apply (Hu "a-1").
Defined.

(** Shutting a plugin down empties its services without telling their watchers. *)
Lemma plugin_shutdown_not_announced :
  ∃ r, UnregisterPluginServices (apply_changes (WatchService_open None NewServiceRegistry "kv" 7)
         [ChRegister (rand_seq 1) 0%Z None (ex_req "a-1" "kv" "1.0.0")]) "a-1" = Some r ∧
       (buildServiceEventLocked None r "kv").(ev_State) = SERVICE_STATE_UNAVAILABLE ∧
       (λ w, ev_State <$> last w.(w_ch)) <$> watchers_of r "kv" = [Some SERVICE_STATE_AVAILABLE].
Proof. eexists. split; [vm_compute; reflexivity|]. by vm_compute. Qed.

(** Versions are compared as byte strings. *)
Lemma version_order_is_bytewise : str_le "9.0.0" "10.0.0" = false.
Proof. by vm_compute. Qed.

End registry.
