(* ===== verification/Plugin.v ===== *)
(** * Plugins and plugin sets (plugin.go, errors.go)

    A plugin is an interface value: its metadata and two factories, which belong to
    plugin authors and are fields of the record.  Plugin sets are maps by name. *)

From stdpp Require Import prelude gmap strings list fin_maps sorting.
From Stdlib Require Import ZArith.
From S2P Require Import Prelude GoRuntime.

Module plugin.

(** ** Sentinel errors (errors.go) *)
Definition ErrEmptyPluginSet : error := Errorf "plugin set is empty" [].
Definition ErrPluginNotFound : error := Errorf "plugin not found" [].
Definition ErrClientClosed : error := Errorf "client is closed" [].
Definition ErrClientNotConnected : error := Errorf "client not connected" [].
Definition ErrNoEndpoints : error := Errorf "no endpoints available" [].
Definition ErrNoReadyEndpoints : error := Errorf "no ready endpoints" [].
Definition ErrInvalidConfig : error := Errorf "invalid configuration" [].
Definition ErrInvalidPluginImpl : error := Errorf "invalid plugin implementation type" [].

(** ** Metadata *)

Record ServiceDeclaration := mkServiceDeclaration { sd_Type : string; sd_Version : string; sd_Path : string }.

Record ServiceDependency := mkServiceDependency {
  dep_Type : string;
  dep_MinVersion : string;
  dep_RequiredForStartup : bool;
  dep_WatchForChanges : bool;
}.

Record PluginMetadata := mkPluginMetadata {
  Name : string;
  Path : string;
  Version : string;
  Provides : list ServiceDeclaration;
  Requires : list ServiceDependency;
}.

Section plugins.
(** Implementations, HTTP handlers and typed clients are opaque values. *)
Context {Impl Handler Client : Type}.

Record Plugin := mkPlugin {
  pl_Metadata : PluginMetadata;
  pl_ConnectServer : Impl → res (string * Handler);
  pl_ConnectClient : string → res Client;
}.

Definition PluginSet := gmap string Plugin.

Definition Get (ps : PluginSet) (name : string) : option Plugin := ps !! name.

Definition Keys `{GoRange} (ps : PluginSet) : list string := sort_strings (go_range 0 ps).*1.

(** The body of the range loop of [Validate]; [paths] maps a path to the plugin
    seen with it. *)
Fixpoint validate_entries (l : list (string * Plugin)) (paths : gmap string string) : option error :=
  match l with
  | [] => None
  | (name, p) :: l' =>
      let metadata := p.(pl_Metadata) in
      match paths !! metadata.(Path) with
      | Some existing =>
          Some (Errorf "path conflict: plugins %q and %q both use path %q"
                  [AStr name; AStr existing; AStr metadata.(Path)])
      | None =>
          let paths' := <[metadata.(Path) := name]> paths in
          if bool_decide (metadata.(Name) ≠ name) then
            Some (Errorf "plugin name mismatch: map key is %q but plugin.Metadata().Name is %q"
                    [AStr name; AStr metadata.(Name)])
          else validate_entries l' paths'
      end
  end.

Definition Validate `{GoRange} (ps : PluginSet) : option error :=
  if bool_decide (size ps = 0) then Some ErrEmptyPluginSet
  else validate_entries (go_range 0 ps) ∅.

(** ** Correctness *)

Lemma elem_of_Keys `{GoRange} ps k : k ∈ Keys ps ↔ is_Some (ps !! k).
Proof. unfold Keys. by rewrite elem_of_sort_strings, elem_of_fst_go_range. Qed.

Lemma validate_entries_None l paths :
  validate_entries l paths = None ↔
    (∀ n p, (n, p) ∈ l → p.(pl_Metadata).(Name) = n ∧ paths !! p.(pl_Metadata).(Path) = None) ∧
    NoDup ((λ kv, kv.2.(pl_Metadata).(Path)) <$> l).
Proof.
  revert paths. induction l as [|[n p] l IH]; intros paths; simpl.
  { split; [intros _|done]. split; [intros ? ? H; by apply elem_of_nil in H|constructor]. }
  rewrite NoDup_cons. destruct (paths !! Path (pl_Metadata p)) as [e|] eqn:E.
  { split; [done|]. intros [H _]. destruct (H n p ltac:(left)). congruence. }
  case_bool_decide as Hn.
  { split; [done|]. intros [H _]. by destruct (H n p ltac:(left)). }
  assert (Hn' : Name (pl_Metadata p) = n) by (destruct (decide (Name (pl_Metadata p) = n)); [done|by destruct Hn]).
  rewrite IH. split.
  - intros [H Hd]. split_and!; [| |done].
    + intros n' p' [[= -> ->]|Hin]%elem_of_cons; [done|]. destruct (H n' p' Hin) as [? Hl].
      split; [done|]. by apply lookup_insert_None in Hl as [? _].
    + intros ([n' p'] & E' & Hin)%list_elem_of_fmap. simpl in E'.
      destruct (H n' p' Hin) as [_ Hl]. rewrite E', lookup_insert_eq in Hl. done.
  - intros (H & Hnin & Hd). split; [|done]. intros n' p' Hin.
    destruct (H n' p') as [? Hl]; [by right|]. split; [done|].
    apply lookup_insert_None. split; [done|]. intros E'. apply Hnin. rewrite E'.
    by apply (list_elem_of_fmap_2 (λ kv, Path (pl_Metadata kv.2)) l (n', p')).
Qed.

(** A valid plugin set: not empty, named consistently, with distinct paths. *)
Definition valid_set (ps : PluginSet) : Prop :=
  ps ≠ ∅ ∧ (∀ n p, ps !! n = Some p → p.(pl_Metadata).(Name) = n) ∧
  (∀ n1 n2 p1 p2, ps !! n1 = Some p1 → ps !! n2 = Some p2 →
     p1.(pl_Metadata).(Path) = p2.(pl_Metadata).(Path) → n1 = n2).

Lemma NoDup_paths_iff `{GoRange} (ps : PluginSet) :
  NoDup ((λ kv, kv.2.(pl_Metadata).(Path)) <$> go_range 0 ps) ↔
  (∀ n1 n2 p1 p2, ps !! n1 = Some p1 → ps !! n2 = Some p2 →
     p1.(pl_Metadata).(Path) = p2.(pl_Metadata).(Path) → n1 = n2).
Proof.
  split.
  - intros Hnd n1 n2 p1 p2 H1 H2 E.
    assert (Hpair : (n1, p1) = (n2, p2)); [|by simplify_eq].
    by eapply (NoDup_fmap_inj_in (λ kv, Path (pl_Metadata kv.2))); [exact Hnd|apply elem_of_go_range..|].
  - intros Hinj. apply NoDup_fmap_2_strong.
    + intros [n1 p1] [n2 p2] H1%elem_of_go_range H2%elem_of_go_range E. simpl in E.
      assert (n1 = n2) as -> by by eapply Hinj. congruence.
    + apply (NoDup_fmap_1 fst), NoDup_fst_go_range.
Qed.

Lemma Validate_None `{GoRange} ps : Validate ps = None ↔ valid_set ps.
Proof.
  unfold Validate, valid_set. case_bool_decide as Hs.
  - apply map_size_empty_inv in Hs. split; [done|]. by intros [? _].
  - rewrite validate_entries_None, NoDup_paths_iff. split.
    + intros [Hm Hd]. split_and!; [by intros ->; apply Hs|  |done].
      intros n p Hp. by apply Hm, elem_of_go_range.
    + intros (_ & Hm & Hd). split; [|done]. intros n p Hp%elem_of_go_range.
      split; [by apply Hm|apply lookup_empty].
Qed.
End plugins.

Arguments Plugin : clear implicits.
Arguments PluginSet : clear implicits.

(** A plugin set is accepted exactly when it is not empty, every plugin is
    stored under the name it declares, and no two plugins share a path, whatever
    the iteration order of the map; [Keys] lists its names once each, sorted. *)
Theorem PluginSet_Validate_iff {Impl Handler Client} (G1 G2 : GoRange) (ps : PluginSet Impl Handler Client) :
  (Validate (H := G1) ps = None ↔ valid_set ps) ∧
  (Validate (H := G1) ps = None ↔ Validate (H := G2) ps = None) ∧
  Keys (H := G1) ps = Keys (H := G2) ps ∧
  Sorted String.le (Keys (H := G1) ps) ∧ NoDup (Keys (H := G1) ps) ∧
  (∀ k, k ∈ Keys (H := G1) ps ↔ is_Some (Get ps k)).
Proof.
  split_and!; [apply Validate_None|by rewrite !Validate_None| |apply sort_strings_sorted| |apply elem_of_Keys].
  - unfold Keys. apply sort_strings_eq. apply fmap_Permutation. by rewrite !go_range_perm.
  - unfold Keys. rewrite NoDup_sort_strings. apply NoDup_fst_go_range.
Qed.

End plugin.
