(* ===== verification/Broker.v ===== *)
(** * Capability broker (broker.go)

    Host capabilities, the grants issued to plugins, and the HTTP route that checks
    a grant and hands the request to the capability.  Every method runs under the
    broker's mutex.  Capability handlers are host code: opaque values with their
    type and version. *)

From stdpp Require Import prelude gmap strings list fin_maps.
From Stdlib Require Import ZArith Ascii.
From S2P Require Import Prelude GoRuntime Validation Identity.

Module broker.
Import validation identity.

Definition DefaultCapabilityGrantTTL : Duration := Hour.

(** [ServeHTTP] of a handler is known by the handler's identity. *)
Record CapabilityHandler := mkCapabilityHandler {
  CapabilityType : string;
  ch_Version : string;
  handler_id : nat;
}.

Record grantInfo := mkGrantInfo {
  grantID : string;
  capabilityType : string;
  token : string;
  handler : CapabilityHandler;
  issuedAt : Time;
  expiresAt : Time;
}.

Record CapabilityBroker := mkCapabilityBroker {
  capabilities : gmap string CapabilityHandler;
  grants : gmap string grantInfo;
  baseURL : string;
  grantTTL : Duration;
}.

Definition NewCapabilityBroker (baseURL : string) : CapabilityBroker :=
  mkCapabilityBroker ∅ ∅ baseURL DefaultCapabilityGrantTTL.

Definition with_grants (b : CapabilityBroker) g : CapabilityBroker :=
  mkCapabilityBroker b.(capabilities) g b.(baseURL) b.(grantTTL).

Definition RegisterCapability (b : CapabilityBroker) (h : CapabilityHandler) : CapabilityBroker :=
  mkCapabilityBroker (<[h.(CapabilityType) := h]> b.(capabilities)) b.(grants) b.(baseURL) b.(grantTTL).

Record Capability := mkCapability { cap_Type : string; cap_Version : string; cap_Endpoint : string }.

Definition ListCapabilities `{GoRange} (b : CapabilityBroker) : list Capability :=
  (λ kv, mkCapability kv.2.(CapabilityType) kv.2.(ch_Version) (b.(baseURL) +:+ "/broker"))
    <$> go_range 0 b.(capabilities).

(** ** Requesting a capability *)

Record CapabilityGrant := mkCapabilityGrant {
  g_GrantId : string;
  g_EndpointUrl : string;
  g_BearerToken : string;
  g_CapabilityType : string;
  g_Version : string;
}.

Definition capability_path (capType grantID : string) : string :=
  "/capabilities/" +:+ capType +:+ "/" +:+ grantID.

(** [rd1] and [rd2] are the two draws, of the grant id and of the token. *)
Definition RequestCapability (rd1 rd2 : Rand) (now : Time) (b : CapabilityBroker) (capType : string) :
    CapabilityBroker * res CapabilityGrant :=
  match b.(capabilities) !! capType with
  | None => (b, Err (NewError CodeNotFound (Errorf "capability %q not available" [AStr capType])))
  | Some h =>
      match generateGrantID rd1 with
      | Err e => (b, Err (NewError CodeInternal e))
      | Ok id =>
          match generateToken rd2 with
          | Err e => (b, Err (NewError CodeInternal e))
          | Ok tok =>
              let grant := mkGrantInfo id capType tok h now (Time_Add now b.(grantTTL)) in
              (with_grants b (<[id := grant]> b.(grants)),
               Ok (mkCapabilityGrant id (b.(baseURL) +:+ capability_path capType id) tok capType h.(ch_Version)))
          end
      end
  end.

(** ** Routing a capability request *)

Inductive http_out :=
| HttpError (msg : string) (code : Z)
| Serve (h : CapabilityHandler) (path : string).

(** [subtle.ConstantTimeCompare(x, y) == 1] *)
Definition ConstantTimeCompare (x y : string) : bool := bool_decide (x = y).

Definition handleCapabilityRequest (now : Time) (b : CapabilityBroker) (path : string) (hdr : Header) :
    CapabilityBroker * http_out :=
  let parts := Split "/" (TrimPrefix path "/capabilities/") in
  match parts with
  | _ :: gid :: rest =>
      let auth := Header_Get hdr "Authorization" in
      if negb (HasPrefix auth "Bearer ") then
        (b, HttpError "missing or invalid authorization header" StatusUnauthorized)
      else
        let tok := TrimPrefix auth "Bearer " in
        match b.(grants) !! gid with
        | None => (b, HttpError "invalid grant ID" StatusUnauthorized)
        | Some grant =>
            if Time_After now grant.(expiresAt) then
              (with_grants b (delete gid b.(grants)), HttpError "grant expired" StatusUnauthorized)
            else if negb (len grant.(token) =? len tok)%Z then
              (b, HttpError "invalid token" StatusUnauthorized)
            else if negb (ConstantTimeCompare grant.(token) tok) then
              (b, HttpError "invalid token" StatusUnauthorized)
            else
              let path' := match rest with [] => "/" | _ => "/" +:+ Join rest "/" end in
              (b, Serve grant.(handler) path')
        end
  | _ => (b, HttpError "invalid capability path" StatusBadRequest)
  end.

(** ** Invariant *)

Record wf (b : CapabilityBroker) : Prop := {
  wf_key : ∀ id g, b.(grants) !! id = Some g → g.(grantID) = id;
  wf_type : ∀ id g, b.(grants) !! id = Some g → g.(handler).(CapabilityType) = g.(capabilityType);
  wf_ttl : ∀ id g, b.(grants) !! id = Some g → g.(expiresAt) = (g.(issuedAt) + b.(grantTTL))%Z;
  wf_cap : ∀ t h, b.(capabilities) !! t = Some h → h.(CapabilityType) = t;
}.

Lemma broker_wf_new url : wf (NewCapabilityBroker url).
Proof. by split; simpl; intros ? ?; rewrite lookup_empty. Qed.

Lemma wf_RegisterCapability b h : wf b → wf (RegisterCapability b h).
Proof.
  intros [H1 H2 H3 H4]. split; simpl; try done.
  intros t h' [[<- <-]|[_ ?]]%lookup_insert_Some; [done|eauto].
Qed.

Lemma wf_RequestCapability rd1 rd2 now b t : wf b → wf (RequestCapability rd1 rd2 now b t).1.
Proof.
  intros W. unfold RequestCapability. destruct (capabilities b !! t) as [h|] eqn:Eh; [|done].
  destruct (generateGrantID rd1) as [id|]; [|done]. destruct (generateToken rd2) as [tok|]; [|done].
  destruct W as [H1 H2 H3 H4].
  split; simpl; try done; intros id' g; rewrite lookup_insert_Some;
    intros [[<- <-]|[_ Hg]]; simpl; eauto.
Qed.

Lemma wf_handle now b path hdr : wf b → wf (handleCapabilityRequest now b path hdr).1.
Proof.
  intros W. unfold handleCapabilityRequest.
  destruct (Split _ _) as [|? [|gid rest]]; [done..|]. destruct (negb (HasPrefix _ _)); [done|].
  destruct (grants b !! gid) as [g|] eqn:Eg; [|done].
  destruct (Time_After _ _); simpl; [|by repeat case_match].
  destruct W as [H1 H2 H3 H4]. split; simpl; try done;
    intros id g' [_ Hg]%lookup_delete_Some; eauto.
Qed.

(** ** Grants in use *)

(** The request presents grant [gid] and the bearer token [tok]. *)
Definition presents (path : string) (hdr : Header) (gid tok : string) (rest : list string) : Prop :=
  (∃ t, Split "/" (TrimPrefix path "/capabilities/") = t :: gid :: rest) ∧
  Header_Get hdr "Authorization" = "Bearer " +:+ tok.

Lemma handle_serve_iff now b path hdr h p' :
  (handleCapabilityRequest now b path hdr).2 = Serve h p' ↔
  ∃ gid tok rest g, presents path hdr gid tok rest ∧ b.(grants) !! gid = Some g ∧
    (now ≤ g.(expiresAt))%Z ∧ g.(token) = tok ∧ g.(handler) = h ∧
    p' = match rest with [] => "/" | _ => "/" +:+ Join rest "/" end.
Proof.
  unfold handleCapabilityRequest, presents. split.
  - destruct (Split _ _) as [|t [|gid rest]]; [done..|].
    destruct (HasPrefix _ _) eqn:Ep; simpl; [|done]. apply HasPrefix_true in Ep as [tok Et].
    rewrite Et, TrimPrefix_app. destruct (grants b !! gid) as [g|] eqn:Eg; [|done].
    unfold Time_After. destruct (Z.ltb_spec (expiresAt g) now); [done|].
    destruct (_ =? _)%Z; simpl; [|done]. unfold ConstantTimeCompare. case_bool_decide; simpl; [|done].
    intros [= <- <-]. exists gid, tok, rest, g. split_and!; eauto.
  - intros (gid & tok & rest & g & [[t ->] ->] & Hg & Hnow & <- & <- & ->).
    rewrite HasPrefix_app, TrimPrefix_app, Hg. simpl. unfold Time_After.
    rewrite (proj2 (Z.ltb_ge _ _)) by done. rewrite Z.eqb_refl. simpl.
    unfold ConstantTimeCompare. by rewrite bool_decide_eq_true_2.
Qed.

(** A request at the granted URL, for a method of the capability. *)
Lemma parse_capability_path t gid m :
  free_of "/" t = true → free_of "/" gid = true →
  Split "/" (TrimPrefix (capability_path t gid +:+ "/" +:+ m) "/capabilities/") = t :: gid :: Split "/" m.
Proof.
  intros Ht Hg. unfold capability_path. rewrite !str_app_assoc, TrimPrefix_app.
  rewrite !str_app_cons, !str_app_nil. by rewrite !Split_app.
Qed.

Lemma token_free s : str_all token_char s = true → free_of "/" s = true.
Proof. by apply str_all_free. Qed.

(** ** Properties *)

(** C9: a capability request is served exactly when it presents a live grant: its
    path names the grant, the bearer token is the grant's and the grant has not
    expired; it is then served by the handler the grant was issued for, and every
    other request is refused with 400 or 401. *)
Theorem capability_request_authorized now b path hdr (W : wf b) :
  (∀ h p', (handleCapabilityRequest now b path hdr).2 = Serve h p' ↔
     ∃ gid tok rest g, presents path hdr gid tok rest ∧ b.(grants) !! gid = Some g ∧
       (now ≤ g.(issuedAt) + b.(grantTTL))%Z ∧ g.(token) = tok ∧ g.(handler) = h ∧
       p' = match rest with [] => "/" | _ => "/" +:+ Join rest "/" end) ∧
  (∀ msg code, (handleCapabilityRequest now b path hdr).2 = HttpError msg code →
     code = StatusBadRequest ∨ code = StatusUnauthorized) ∧
  wf (handleCapabilityRequest now b path hdr).1.
Proof.
  split_and!; [| |by apply wf_handle].
  - intros h p'. rewrite handle_serve_iff.
    split; intros (gid & tok & rest & g & ? & Hg & Hn & ?); exists gid, tok, rest, g;
      pose proof (wf_ttl _ W _ _ Hg); split_and!; try done; try tauto; lia.
  - intros msg code. unfold handleCapabilityRequest. repeat case_match; simpl; intros [= <- <-]; auto.
Qed.

Definition ex_handler : CapabilityHandler := mkCapabilityHandler "logger" "1.0.0" 5.
Definition ex_broker : CapabilityBroker := RegisterCapability (NewCapabilityBroker "http://h") ex_handler.

Lemma ex_broker_wf : wf ex_broker.
Proof. apply wf_RegisterCapability, broker_wf_new. Qed.

(** A broker with one grant, issued at 0. *)
Definition ex_granted : CapabilityBroker := with_grants ex_broker {["G" := mkGrantInfo "G" "logger" "tk" ex_handler 0%Z (0 + ex_broker.(grantTTL))%Z]}.

Lemma ex_granted_wf : wf ex_granted.
Proof.
  destruct ex_broker_wf as [_ _ _ Hc]. split; [..|exact Hc]; intros id g; cbn [grants ex_granted with_grants];
    rewrite lookup_singleton_Some; by intros [<- <-].
Qed.

(** One request without a grant is refused, one that presents the grant is served. *)
Lemma capability_request_authorized_witness :
  (handleCapabilityRequest 5 ex_broker "/capabilities/logger" ∅).2 = HttpError "invalid capability path" 400 ∧
  (400 = StatusBadRequest ∨ 400 = StatusUnauthorized)%Z ∧
  (handleCapabilityRequest 5 ex_granted "/capabilities/logger/G/Log" {["Authorization" := ["Bearer tk"]]}).2 = Serve ex_handler "/Log".
Proof.
  split; [by vm_compute|]. split.
  2:{ apply (capability_request_authorized 5 ex_granted _ _ ex_granted_wf).
      eexists "G", "tk", ["Log"], _. split_and!; [split; [by exists "logger"|by vm_compute]|reflexivity|by vm_compute|done..]. }
  exact (proj1 (proj2 (capability_request_authorized 5 ex_broker "/capabilities/logger" ∅ ex_broker_wf))
    "invalid capability path" 400%Z ltac:(by vm_compute)).
Defined.

(** A granted capability can be used as granted: after [RequestCapability], a
    request for any method below the returned URL that carries the returned token
    within the time-to-live reaches the handler of that capability with the
    method's path, provided the capability type has no slash. *)
Theorem grant_usable rd1 rd2 now now' b t b' g m hdr
    (Hrd : rand_ok rd1) (Ht : free_of "/" t = true)
    (Hreq : RequestCapability rd1 rd2 now b t = (b', Ok g))
    (Hauth : Header_Get hdr "Authorization" = "Bearer " +:+ g.(g_BearerToken))
    (Hnow : (now' ≤ now + b.(grantTTL))%Z) :
  ∃ h, b.(capabilities) !! t = Some h ∧
       g.(g_EndpointUrl) = b.(baseURL) +:+ capability_path t g.(g_GrantId) ∧
       handleCapabilityRequest now' b' (capability_path t g.(g_GrantId) +:+ "/" +:+ m) hdr =
         (b', Serve h ("/" +:+ m)).
Proof.
  unfold RequestCapability in Hreq. destruct (capabilities b !! t) as [h|]; [|done].
  destruct (generateGrantID rd1) as [id|] eqn:Eid; [|done].
  destruct (generateToken rd2) as [tok|]; [|done]. simplify_eq/=.
  exists h. split_and!; [done..|]. unfold handleCapabilityRequest.
  destruct (generateGrantID_Ok rd1 id Hrd Eid) as (_ & Hid & _).
  rewrite parse_capability_path by (done || by apply token_free).
  rewrite Hauth, HasPrefix_app, TrimPrefix_app. simpl. rewrite lookup_insert_eq. simpl.
  unfold Time_After, Time_Add. rewrite (proj2 (Z.ltb_ge _ _)) by done. rewrite Z.eqb_refl. simpl.
  unfold ConstantTimeCompare. rewrite bool_decide_eq_true_2 by done. simpl.
  rewrite Join_Split. destruct (Split "/" m) eqn:Es; [by apply Split_nonempty in Es|done].
Qed.

Lemma grant_usable_witness :
  ∃ b' g h, RequestCapability (rand_seq 1) (rand_seq 2) 100 ex_broker "logger" = (b', Ok g) ∧
    handleCapabilityRequest 200 b' (capability_path "logger" g.(g_GrantId) +:+ "/" +:+ "Log")
      {["Authorization" := ["Bearer " +:+ g.(g_BearerToken)]]} = (b', Serve h "/Log").
Proof.
  destruct (RequestCapability (rand_seq 1) (rand_seq 2) 100 ex_broker "logger") as [b' [g|e]] eqn:E;
    [|vm_compute in E; discriminate E].
  destruct (grant_usable (rand_seq 1) (rand_seq 2) 100%Z 200%Z ex_broker "logger" b' g "Log"
    {["Authorization" := ["Bearer " +:+ g.(g_BearerToken)]]}
    (rand_seq_ok 1) ltac:(by vm_compute) E ltac:(reflexivity) ltac:(by vm_compute)) as (h & _ & _ & H).
  exists b', g, h. split; [reflexivity|exact H].
Defined.

(** An expired grant is dead for good: once refused for its age it is gone
    from the table, and at no later time is the same request served. *)
Theorem expired_grant_refused now now' b path hdr gid tok rest g (Hp : presents path hdr gid tok rest)
    (Hg : b.(grants) !! gid = Some g) (Hexp : (g.(expiresAt) < now)%Z) :
  let '(b', out) := handleCapabilityRequest now b path hdr in
  out = HttpError "grant expired" StatusUnauthorized ∧ b'.(grants) = delete gid b.(grants) ∧
  handleCapabilityRequest now' b' path hdr = (b', HttpError "invalid grant ID" StatusUnauthorized).
Proof.
  destruct Hp as [[t Es] Ea]. unfold handleCapabilityRequest. rewrite Es, Ea, HasPrefix_app, Hg. simpl.
  unfold Time_After. rewrite (proj2 (Z.ltb_lt _ _)) by done. simpl.
  split_and!; [done..|]. by rewrite lookup_delete_eq.
Qed.

Lemma expired_grant_refused_witness :
  let g := mkGrantInfo "G" "logger" "tk" ex_handler 0%Z 10%Z in
  let b := with_grants ex_broker {["G" := g]} in
  let '(b', out) := handleCapabilityRequest 11 b "/capabilities/logger/G" {["Authorization" := ["Bearer tk"]]} in
  out = HttpError "grant expired" StatusUnauthorized.
Proof.
  intros g b.
  pose proof (expired_grant_refused 11%Z 12%Z b "/capabilities/logger/G" {["Authorization" := ["Bearer tk"]]}
    "G" "tk" [] g ltac:(split; [by exists "logger"|by vm_compute]) ltac:(by vm_compute) ltac:(by vm_compute)) as H.
  destruct (handleCapabilityRequest 11%Z b "/capabilities/logger/G" {["Authorization" := ["Bearer tk"]]}) as [b' out].
  exact (proj1 H).
Defined.

(** The capability type in the URL is not compared with the grant's. *)
Lemma capability_type_in_url_ignored :
  let b := with_grants ex_broker {["G" := mkGrantInfo "G" "logger" "tk" ex_handler 0%Z 10%Z]} in
  (handleCapabilityRequest 1 b "/capabilities/secrets/G/Log" {["Authorization" := ["Bearer tk"]]}).2 =
  Serve ex_handler "/Log".
Proof. by vm_compute. Qed.

End broker.
