(* ===== verification/Handshake.v ===== *)
(** * Handshake and runtime tokens (handshake.go; ServeConfig of server.go)

    The handshake checks the magic cookie and the protocol versions, issues a
    runtime identity to plugins that state a self id, and describes the requested
    plugins.  [ValidateToken] is the authority for every later call; it drops
    expired tokens lazily. *)

From stdpp Require Import prelude gmap strings list fin_maps sorting.
From Stdlib Require Import ZArith Ascii.
From S2P Require Import Prelude GoRuntime Validation Identity Plugin Broker.

Module handshake.
Import validation identity plugin broker.

Definition DefaultMagicCookieKey : string := "CONNECT_PLUGIN".
Definition DefaultMagicCookieValue : string := "d3f40b3c2e1a5f8b9c4d7e6a1b2c3d4e".
Definition DefaultRuntimeTokenTTL : Duration := (24 * Hour)%Z.

Section handshake.
Context {Impl Handler Client : Type}.

(** [ServeConfig].  A nil map is [None].  The pointers to the optional services are
    kept as "is set": the objects have their own state in their own models.
    [Cleanup] is the hook, as the error it returns for a time limit. *)
Record ServeConfig := mkServeConfig {
  Plugins : option (PluginSet Impl Handler Client);
  Impls : option (gmap string Impl);
  ProtocolVersion : Z;
  MagicCookieKey : string;
  MagicCookieValue : string;
  ServerMetadata : option (gmap string string);
  Addr : string;
  GracefulShutdownTimeout : Duration;
  Cleanup : option (Duration → option error);
  StopCh : bool;
  HealthService : bool;
  HasCapabilityBroker : bool;
  RuntimeTokenTTL : Duration;
  CapabilityGrantTTL : Duration;
  HasRateLimiter : bool;
  LifecycleService : bool;
  HasServiceRegistry : bool;
  HasServiceRouter : bool;
}.

Record tokenInfo := mkTokenInfo { ti_token : string; ti_issuedAt : Time; ti_expiresAt : Time }.

Record HandshakeServer := mkHandshakeServer { cfg : ServeConfig; tokens : gmap string tokenInfo }.

Definition NewHandshakeServer (c : ServeConfig) : HandshakeServer := mkHandshakeServer c ∅.

Record HandshakeRequest := mkHandshakeRequest {
  hq_CoreProtocolVersion : Z;
  hq_AppProtocolVersion : Z;
  hq_MagicCookieKey : string;
  hq_MagicCookieValue : string;
  hq_RequestedPlugins : list string;
  hq_SelfId : string;
}.

Record PluginInfo := mkPluginInfo {
  pi_Name : string;
  pi_Version : string;
  pi_ServicePath : string;
  pi_Provides : list ServiceDeclaration;
  pi_Requires : list ServiceDependency;
}.

Record HandshakeResponse := mkHandshakeResponse {
  hp_CoreProtocolVersion : Z;
  hp_AppProtocolVersion : Z;
  hp_Plugins : list PluginInfo;
  hp_ServerMetadata : gmap string string;
  hp_HostCapabilities : list Capability;
  hp_RuntimeId : string;
  hp_RuntimeToken : string;
}.

(** ** The parts of the handler *)

Definition expected_cookie (c : ServeConfig) : string * string :=
  if bool_decide (c.(MagicCookieKey) = "") then (DefaultMagicCookieKey, DefaultMagicCookieValue)
  else (c.(MagicCookieKey), c.(MagicCookieValue)).

Definition serverVersion (c : ServeConfig) : Z :=
  if bool_decide (c.(ProtocolVersion) = 0%Z) then 1%Z else c.(ProtocolVersion).

Definition token_ttl (c : ServeConfig) : Duration :=
  if (0 <? c.(RuntimeTokenTTL))%Z then c.(RuntimeTokenTTL) else DefaultRuntimeTokenTTL.

(** The runtime identity of a plugin that states a self id: new table, id, token. *)
Definition issue_identity (rd1 rd2 : Rand) (now : Time) (h : HandshakeServer) (selfID : string) :
    HandshakeServer * res (string * string) :=
  if bool_decide (selfID = "") then (h, Ok ("", ""))
  else
    match ValidateSelfID selfID with
    | Some e => (h, Err (NewError CodeInvalidArgument e))
    | None =>
        match generateRuntimeID rd1 selfID with
        | Err e => (h, Err (NewError CodeInternal e))
        | Ok runtimeID =>
            match generateToken rd2 with
            | Err e => (h, Err (NewError CodeInternal e))
            | Ok runtimeToken =>
                (mkHandshakeServer h.(cfg)
                   (<[runtimeID := mkTokenInfo runtimeToken now (Time_Add now (token_ttl h.(cfg)))]> h.(tokens)),
                 Ok (runtimeID, runtimeToken))
            end
        end
    end.

Definition plugin_info (metadata : PluginMetadata) : PluginInfo :=
  mkPluginInfo metadata.(Name) metadata.(Version) metadata.(Path)
    ((λ svc, mkServiceDeclaration svc.(sd_Type) svc.(sd_Version) svc.(sd_Path)) <$> metadata.(Provides))
    ((λ dep, mkServiceDependency dep.(dep_Type) dep.(dep_MinVersion) dep.(dep_RequiredForStartup)
               dep.(dep_WatchForChanges)) <$> metadata.(Requires)).

(** Requested plugins that are not available are skipped. *)
Fixpoint requested_infos (c : ServeConfig) (names : list string) : list PluginInfo :=
  match names with
  | [] => []
  | n :: names' =>
      match Get (default ∅ c.(Plugins)) n with
      | None => requested_infos c names'
      | Some p => plugin_info p.(pl_Metadata) :: requested_infos c names'
      end
  end.

Definition server_metadata `{GoRange} (c : ServeConfig) : gmap string string :=
  fold_left (λ m kv, <[kv.1 := kv.2]> m) (go_range 0 (default ∅ c.(ServerMetadata)))
    {["server_version" := "0.1.0"]}.

(** [b] is the broker [cfg.CapabilityBroker] points to, when it is set. *)
Definition host_capabilities `{GoRange} (b : option CapabilityBroker) : list Capability :=
  match b with None => [] | Some b => ListCapabilities b end.

Definition Handshake `{GoRange} (rd1 rd2 : Rand) (now : Time) (b : option CapabilityBroker)
    (h : HandshakeServer) (req : HandshakeRequest) : HandshakeServer * res HandshakeResponse :=
  let '(expectedKey, expectedValue) := expected_cookie h.(cfg) in
  if bool_decide (req.(hq_MagicCookieKey) ≠ expectedKey) || bool_decide (req.(hq_MagicCookieValue) ≠ expectedValue) then
    (h, Err (NewError CodeInvalidArgument
               (Errorf "invalid magic cookie - this may not be a connect-plugin server" [])))
  else if bool_decide (req.(hq_CoreProtocolVersion) ≠ 1%Z) then
    (h, Err (NewError CodeInvalidArgument
               (Errorf "unsupported core protocol version: %d (server supports: 1)"
                  [AInt req.(hq_CoreProtocolVersion)])))
  else
    let sv := serverVersion h.(cfg) in
    if bool_decide (req.(hq_AppProtocolVersion) ≠ wrap32 sv) then
      (h, Err (NewError CodeFailedPrecondition
                 (Errorf "version mismatch: client=%d, server=%d" [AInt req.(hq_AppProtocolVersion); AInt sv])))
    else
      let '(h', id) := issue_identity rd1 rd2 now h req.(hq_SelfId) in
      match id with
      | Err e => (h', Err e)
      | Ok (runtimeID, runtimeToken) =>
          (h', Ok (mkHandshakeResponse 1 (wrap32 sv)
                     (requested_infos h'.(cfg) req.(hq_RequestedPlugins))
                     (server_metadata h'.(cfg)) (host_capabilities b)
                     (if bool_decide (runtimeID ≠ "") then runtimeID else "")
                     (if bool_decide (runtimeID ≠ "") then runtimeToken else "")))
      end.

Definition ValidateToken (now : Time) (h : HandshakeServer) (runtimeID token : string) : HandshakeServer * bool :=
  match h.(tokens) !! runtimeID with
  | None => (h, false)
  | Some info =>
      if Time_After now info.(ti_expiresAt) then
        (mkHandshakeServer h.(cfg) (delete runtimeID h.(tokens)), false)
      else if negb (len info.(ti_token) =? len token)%Z then (h, false)
      else (h, ConstantTimeCompare info.(ti_token) token)
  end.

(** ** Lemmas *)

Lemma ValidateToken_true now h rid tok :
  (ValidateToken now h rid tok).2 = true ↔
  ∃ i, h.(tokens) !! rid = Some i ∧ i.(ti_token) = tok ∧ (now ≤ i.(ti_expiresAt))%Z.
Proof.
  unfold ValidateToken, Time_After, ConstantTimeCompare.
  destruct (tokens h !! rid) as [i|]; simpl; [|split; [done|by intros (? & ? & _)]].
  destruct (Z.ltb_spec (ti_expiresAt i) now); simpl.
  { split; [done|]. intros (? & [= <-] & _ & ?). lia. }
  destruct (Z.eqb_spec (len (ti_token i)) (len tok)); simpl.
  - rewrite bool_decide_eq_true. split; [intros <-; by exists i|by intros (? & [= <-] & ? & _)].
  - split; [done|]. intros (? & [= <-] & ? & _). congruence.
Qed.

Lemma server_metadata_lookup `{GoRange} c k :
  server_metadata c !! k =
  match default ∅ c.(ServerMetadata) !! k with
  | Some v => Some v
  | None => ({["server_version" := "0.1.0"]} : gmap string string) !! k
  end.
Proof.
  unfold server_metadata. set (md := default ∅ (ServerMetadata c)).
  assert (Hf : ∀ (l : list (string * string)) (m : gmap string string), NoDup l.*1 →
    fold_left (λ m kv, <[kv.1 := kv.2]> m) l m !! k =
    match (list_to_map l : gmap string string) !! k with Some v => Some v | None => m !! k end).
  { induction l as [|[k' v] l IH]; intros m Hnd; simpl.
    - by rewrite lookup_empty.
    - apply NoDup_cons in Hnd as [Hk Hnd]. rewrite IH by done. simpl.
      destruct (decide (k' = k)) as [->|Hne].
      + rewrite lookup_insert_eq. rewrite (not_elem_of_list_to_map_1 l k Hk). by rewrite lookup_insert_eq.
      + rewrite !lookup_insert_ne by done. done. }
  rewrite Hf by apply NoDup_fst_go_range.
  replace (list_to_map (go_range 0 md) : gmap string string) with md; [done|].
  rewrite <- (list_to_map_to_list md) at 1. symmetry. apply list_to_map_proper; [apply NoDup_fst_go_range|].
  apply go_range_perm.
Qed.

Lemma issue_identity_cases rd1 rd2 now h s :
  match issue_identity rd1 rd2 now h s with
  | (h', Ok (rid, tok)) =>
      (s = "" ∧ h' = h ∧ rid = "" ∧ tok = "") ∨
      (s ≠ "" ∧ ValidateSelfID s = None ∧ generateRuntimeID rd1 s = Ok rid ∧ generateToken rd2 = Ok tok ∧
       h' = mkHandshakeServer h.(cfg) (<[rid := mkTokenInfo tok now (now + token_ttl h.(cfg))%Z]> h.(tokens)))
  | (h', Err e) =>
      h' = h ∧ s ≠ "" ∧
      (ValidateSelfID s = None → is_ok (generateRuntimeID rd1 s) && is_ok (generateToken rd2) = false)
  end.
Proof.
  unfold issue_identity. case_bool_decide; [by left|].
  destruct (ValidateSelfID s) eqn:Ev; [by split_and!|].
  destruct (generateRuntimeID rd1 s) as [rid|]; [|by split_and!].
  destruct (generateToken rd2) as [tok|]; [|by split_and!]. right. by split_and!.
Qed.

Lemma runtime_id_nonempty rd s rid : generateRuntimeID rd s = Ok rid → rid ≠ "".
Proof.
  unfold generateRuntimeID. destruct (generateRandomHex rd 4) as [x|]; [|done]. intros [= <-].
  by destruct (ToLower _).
Qed.

(** The client's half of the agreement. *)
Definition agrees (c : ServeConfig) (req : HandshakeRequest) : Prop :=
  (req.(hq_MagicCookieKey), req.(hq_MagicCookieValue)) = expected_cookie c ∧
  req.(hq_CoreProtocolVersion) = 1%Z ∧
  req.(hq_AppProtocolVersion) = wrap32 (serverVersion c).

Lemma Handshake_cases `{GoRange} rd1 rd2 now b h req :
  (agrees h.(cfg) req ∧
   Handshake rd1 rd2 now b h req =
     let '(h', id) := issue_identity rd1 rd2 now h req.(hq_SelfId) in
     (h', match id with
          | Err e => Err e
          | Ok (runtimeID, runtimeToken) =>
              Ok (mkHandshakeResponse 1 (wrap32 (serverVersion h.(cfg)))
                    (requested_infos h.(cfg) req.(hq_RequestedPlugins))
                    (server_metadata h.(cfg)) (host_capabilities b) runtimeID runtimeToken)
          end)) ∨
  (¬ agrees h.(cfg) req ∧
   ∃ c e, (c = CodeInvalidArgument ∨ c = CodeFailedPrecondition) ∧
          Handshake rd1 rd2 now b h req = (h, Err (NewError c e))).
Proof.
  unfold Handshake, agrees. destruct (expected_cookie (cfg h)) as [k v].
  destruct (decide (hq_MagicCookieKey req = k)) as [Hk|Hk].
  2:{ right. split; [intros ([= ? _] & _); done|]. rewrite (bool_decide_eq_true_2 (_ ≠ k)) by done. eauto. }
  destruct (decide (hq_MagicCookieValue req = v)) as [Hv|Hv].
  2:{ right. split; [intros ([= _ ?] & _); done|]. rewrite (bool_decide_eq_true_2 (_ ≠ v)), orb_true_r by done. eauto. }
  rewrite (bool_decide_eq_false_2 (_ ≠ k)), (bool_decide_eq_false_2 (_ ≠ v)) by (by intros []). simpl.
  case_bool_decide as Hc; [right; split; [by intros (_ & ? & _)|eauto]|].
  case_bool_decide as Ha; [right; split; [by intros (_ & _ & ?)|eauto]|].
  left. split; [split_and!; [congruence|done|done]|].
  pose proof (issue_identity_cases rd1 rd2 now h (hq_SelfId req)) as Hi.
  destruct (issue_identity _ _ _ _ _) as [h' [[rid tok]|e]]; [|done].
  destruct Hi as [(_ & -> & -> & ->)|(_ & _ & Hg & _ & ->)]; [done|].
  simpl. by rewrite bool_decide_eq_true_2 by (by eapply runtime_id_nonempty).
Qed.

(** ** Histories *)

Inductive hs_event :=
| EvHandshake (rd1 rd2 : Rand) (now : Time) (b : option CapabilityBroker) (req : HandshakeRequest)
| EvValidate (now : Time) (runtimeID token : string).

Definition ev_time (ev : hs_event) : Time :=
  match ev with EvHandshake _ _ now _ _ => now | EvValidate now _ _ => now end.

Definition hs_step `{GoRange} (h : HandshakeServer) (ev : hs_event) : HandshakeServer :=
  match ev with
  | EvHandshake rd1 rd2 now b req => (Handshake rd1 rd2 now b h req).1
  | EvValidate now rid tok => (ValidateToken now h rid tok).1
  end.

Definition hs_run `{GoRange} (h : HandshakeServer) (evs : list hs_event) : HandshakeServer :=
  fold_left hs_step evs h.

(** The specification keeps, for every runtime id, the token issued last and its
    expiry, and never forgets anything. *)
Definition issuance `{GoRange} (c : ServeConfig) (ev : hs_event) : option (string * (string * Time)) :=
  match ev with
  | EvHandshake rd1 rd2 now b req =>
      match (Handshake rd1 rd2 now b (NewHandshakeServer c) req).2 with
      | Ok r => if bool_decide (r.(hp_RuntimeId) = "") then None
                else Some (r.(hp_RuntimeId), (r.(hp_RuntimeToken), (now + token_ttl c)%Z))
      | Err _ => None
      end
  | EvValidate _ _ _ => None
  end.

Definition spec_step `{GoRange} (c : ServeConfig) (m : gmap string (string * Time)) (ev : hs_event) :=
  match issuance c ev with Some (rid, x) => <[rid := x]> m | None => m end.

Definition latest `{GoRange} (c : ServeConfig) (evs : list hs_event) : gmap string (string * Time) :=
  fold_left (spec_step c) evs ∅.

Lemma issue_identity_result rd1 rd2 now h h' s :
  (issue_identity rd1 rd2 now h s).2 = (issue_identity rd1 rd2 now h' s).2.
Proof. unfold issue_identity. by repeat case_match. Qed.

Lemma Handshake_tokens `{GoRange} rd1 rd2 now b h req :
  (Handshake rd1 rd2 now b h req).1 =
  mkHandshakeServer h.(cfg)
    (match issuance h.(cfg) (EvHandshake rd1 rd2 now b req) with
     | Some (rid, (tok, exp)) => <[rid := mkTokenInfo tok now exp]> h.(tokens)
     | None => h.(tokens)
     end).
Proof.
  unfold issuance.
  destruct (Handshake_cases rd1 rd2 now b h req) as [[Ha E]|(Hn & c & e & _ & E)];
    destruct (Handshake_cases rd1 rd2 now b (NewHandshakeServer (cfg h)) req) as [[Ha' E']|(Hn' & c' & e' & _ & E')];
    try done; rewrite E, E'; clear E E'; [|by destruct h].
  pose proof (issue_identity_result rd1 rd2 now h (NewHandshakeServer (cfg h)) (hq_SelfId req)) as Er.
  pose proof (issue_identity_cases rd1 rd2 now h (hq_SelfId req)) as Hi.
  destruct (issue_identity rd1 rd2 now h _) as [h1 r1].
  destruct (issue_identity rd1 rd2 now (NewHandshakeServer _) _) as [h2 r2]. simpl in Er. subst r2.
  destruct r1 as [[rid tok]|e]; simpl; [|by destruct Hi as [-> _], h].
  destruct Hi as [(_ & -> & -> & ->)|(_ & _ & Hg & _ & ->)]; [by destruct h|].
  by rewrite bool_decide_eq_false_2 by (by eapply runtime_id_nonempty).
Qed.

(** The lazily cleaned table against the table that forgets nothing. *)
Definition agree_at (t : Time) (h : HandshakeServer) (m : gmap string (string * Time)) : Prop :=
  ∀ rid, match h.(tokens) !! rid with
         | Some i => m !! rid = Some (i.(ti_token), i.(ti_expiresAt))
         | None => ∀ x : string * Time, m !! rid = Some x → (x.2 < t)%Z
         end.

Lemma agree_later t t' h m : (t ≤ t')%Z → agree_at t h m → agree_at t' h m.
Proof.
  intros Ht Hag rid. specialize (Hag rid). destruct (tokens h !! rid); [done|].
  intros x Hx. specialize (Hag x Hx). lia.
Qed.

Lemma agree_step `{GoRange} h m ev :
  agree_at (ev_time ev) h m → agree_at (ev_time ev) (hs_step h ev) (spec_step h.(cfg) m ev) ∧
  (hs_step h ev).(cfg) = h.(cfg).
Proof.
  intros Hag. destruct ev as [rd1 rd2 now b req|now rid tok]; simpl in *.
  - rewrite Handshake_tokens. split; [|done]. unfold spec_step.
    destruct (issuance _ _) as [[rid [tok exp]]|]; [|done].
    intros rid'. simpl. destruct (decide (rid = rid')) as [->|Hne].
    + by rewrite !lookup_insert_eq.
    + rewrite !lookup_insert_ne by done. apply Hag.
  - unfold spec_step, ValidateToken. simpl. destruct (tokens h !! rid) as [i|] eqn:Ei; [|done].
    unfold Time_After. destruct (Z.ltb_spec (ti_expiresAt i) now); [|by case_match].
    split; [|done]. intros rid'. simpl. destruct (decide (rid = rid')) as [->|Hne].
    + rewrite lookup_delete_eq. intros x Hx. specialize (Hag rid'). rewrite Ei in Hag.
      pose proof (eq_trans (eq_sym Hag) Hx) as [= <-]. done.
    + rewrite lookup_delete_ne by done. apply Hag.
Qed.

Lemma hs_run_agrees `{GoRange} evs h m t :
  agree_at t h m → StronglySorted Z.le (t :: (ev_time <$> evs)) →
  (∀ t', Forall (λ u, u ≤ t')%Z (t :: (ev_time <$> evs)) →
     agree_at t' (hs_run h evs) (fold_left (spec_step h.(cfg)) evs m)) ∧
  (hs_run h evs).(cfg) = h.(cfg).
Proof.
  revert h m t. induction evs as [|ev evs IH]; intros h m t Hag Hs; simpl in *.
  - split; [|done]. intros t' Ht. apply Forall_cons in Ht as [Ht _]. by eapply agree_later.
  - apply StronglySorted_inv in Hs as [Hs Hall]. apply Forall_cons in Hall as [Hle _].
    destruct (agree_step h m ev) as [Hst Hc]; [by eapply agree_later|].
    destruct (IH (hs_step h ev) (spec_step (cfg h) m ev) (ev_time ev) Hst Hs) as [H1 H2].
    rewrite Hc in H1, H2. split; [|done]. intros t' Ht. apply H1. by apply Forall_cons in Ht as [_ ?].
Qed.

End handshake.

Arguments ServeConfig : clear implicits.
Arguments HandshakeServer : clear implicits.
Arguments hs_event : clear implicits.

(** ** Properties *)

(** C7: lazy expiry is invisible. Over any history of handshakes and validations
    with a clock that does not run backwards, a token is accepted for a runtime id
    exactly when it is the one issued last for that id and its time-to-live has not
    passed. *)
Theorem ValidateToken_refines_latest `{GoRange} {Impl Handler Client}
    (c : ServeConfig Impl Handler Client) evs t rid tok
    (Hmono : StronglySorted Z.le (ev_time <$> evs)) (Ht : Forall (λ u, u ≤ t)%Z (ev_time <$> evs)) :
  (ValidateToken t (hs_run (NewHandshakeServer c) evs) rid tok).2 = true ↔
  ∃ exp : Time, latest c evs !! rid = Some (tok, exp) ∧ (t ≤ exp)%Z.
Proof.
  assert (Hag : agree_at t (hs_run (NewHandshakeServer c) evs) (latest c evs)).
  { destruct evs as [|ev evs].
    - intros rid'. unfold hs_run, latest. simpl. rewrite lookup_empty. intros x. by rewrite lookup_empty.
    - apply (hs_run_agrees (ev :: evs) (NewHandshakeServer c) ∅ (ev_time ev)).
      + intros rid'. simpl. rewrite lookup_empty. intros x. by rewrite lookup_empty.
      + simpl. constructor; [done|]. apply Forall_cons. split; [lia|]. by apply StronglySorted_inv in Hmono as [_ ?].
      + constructor; [|done]. by apply Forall_cons in Ht as [? _]. }
  specialize (Hag rid). rewrite ValidateToken_true.
  destruct (tokens _ !! rid) as [i|] eqn:Ei.
  - rewrite Hag. split.
    + intros (j & [= <-] & <- & Hle). by exists (ti_expiresAt i).
    + intros (exp & [= <- <-] & Hle). by exists i.
  - split; [by intros (? & ? & _)|]. intros (exp & Hl & Hle). specialize (Hag _ Hl). simpl in Hag. lia.
Qed.

Definition ex_plugins : gmap string (Plugin unit unit unit) :=
  {["kv" := mkPlugin (mkPluginMetadata "kv" "/kv.v1/" "1.0.0" [] []) (λ _, Ok ("/kv.v1/", tt)) (λ _, Ok tt)]}.

Definition ex_cfg : ServeConfig unit unit unit :=
  mkServeConfig (Some ex_plugins)
    (Some {["kv" := tt]}) 0 "" "" None "" 0 None false false false 0 0 false false false false.

Definition ex_hello (self : string) : HandshakeRequest :=
  mkHandshakeRequest 1 1 DefaultMagicCookieKey DefaultMagicCookieValue ["kv"; "missing"] self.

Definition ex_history : list hs_event :=
  [EvHandshake (rand_seq 1) (rand_seq 2) 100 None (ex_hello "cache")].

Lemma ValidateToken_refines_latest_witness :
  ∃ tok exp, latest ex_cfg ex_history !! "cache-0102" = Some (tok, exp) ∧
    (ValidateToken 200 (hs_run (NewHandshakeServer ex_cfg) ex_history) "cache-0102" tok).2 = true.
Proof.
  eexists _, _. split; [vm_compute; reflexivity|].
  apply (proj2 (ValidateToken_refines_latest ex_cfg ex_history 200 "cache-0102" _
    ltac:(repeat constructor) ltac:(repeat constructor; vm_compute; discriminate))).
  eexists. split; [vm_compute; reflexivity|]. vm_compute. discriminate.
Defined.

(** A handshake is accepted exactly when the client presents the configured
    (or default) cookie, core version 1 and the server's application version as a
    32-bit number, and, if it states a self id, that id is valid and random bytes
    could be drawn; a refusal issues nothing, and the answer describes the
    available requested plugins in order. *)
Theorem Handshake_accepts `{GoRange} {Impl Handler Client} rd1 rd2 now b
    (h : HandshakeServer Impl Handler Client) req :
  (is_ok (Handshake rd1 rd2 now b h req).2 = true ↔
     agrees h.(cfg) req ∧
     (req.(hq_SelfId) ≠ "" → ValidateSelfID req.(hq_SelfId) = None ∧
        is_ok (generateRuntimeID rd1 req.(hq_SelfId)) = true ∧ is_ok (generateToken rd2) = true)) ∧
  (is_ok (Handshake rd1 rd2 now b h req).2 = false → (Handshake rd1 rd2 now b h req).1 = h) ∧
  (∀ r, (Handshake rd1 rd2 now b h req).2 = Ok r →
     r.(hp_Plugins) = requested_infos h.(cfg) req.(hq_RequestedPlugins) ∧
     (r.(hp_RuntimeId) = "" ↔ req.(hq_SelfId) = "")).
Proof.
  destruct (Handshake_cases rd1 rd2 now b h req) as [[Ha E]|(Hn & c & e & _ & E)]; rewrite E; clear E.
  2:{ split; [split; [done|by intros [? _]]|by split]. }
  pose proof (issue_identity_cases rd1 rd2 now h (hq_SelfId req)) as Hi.
  destruct (issue_identity _ _ _ _ _) as [h' [[rid tok]|e]]; simpl.
  - split; [|split; [done|]].
    + split; [intros _|done]. split; [done|]. intros Hne.
      destruct Hi as [(? & _)|(_ & Hv & Hg & Ht & _)]; [done|]. by rewrite Hg, Ht.
    + intros r [= <-]. split; [done|]. simpl.
      destruct Hi as [(-> & _ & -> & _)|(Hne & _ & Hg & _)]; [done|].
      apply runtime_id_nonempty in Hg. tauto.
  - destruct Hi as (-> & Hne & Hf). split; [|by split]. split; [done|]. intros [_ Hs].
    destruct (Hs Hne) as (Hv & Hg & Ht). specialize (Hf Hv). by rewrite Hg, Ht in Hf.
Qed.

(** Two plugins with one self id whose four-digit suffixes collide share a runtime
    id: the second handshake revokes the first plugin's token. *)
Lemma runtime_id_collision_revokes :
  let hs := hs_run (NewHandshakeServer ex_cfg)
    [EvHandshake (rand_seq 1) (rand_seq 2) 100 None (ex_hello "cache");
     EvHandshake (rand_seq 1) (rand_seq 9) 101 None (ex_hello "cache")] in
  ∀ tok, generateToken (rand_seq 2) = Ok tok → (ValidateToken 102 hs "cache-0102" tok).2 = false.
Proof. intros hs tok [= <-]. by vm_compute. Qed.

(** The application version is compared modulo 2^32. *)
Lemma app_version_wraps : wrap32 (2 ^ 32 + 1) = 1%Z.
Proof. by vm_compute. Qed.

End handshake.
