(* ===== verification/Router.v ===== *)
(** * Service router (router.go)

    The HTTP route [/services/{type}/{provider-id}/{method...}]: authentication of
    the caller, lookup of the provider, health gate, and the proxied request.  The
    handshake server, the registry and the health server are shared with other
    components, so their states are arguments.  The network is a parameter: what
    [http.NewRequestWithContext] says of a URL and what the provider answers. *)

From stdpp Require Import prelude gmap strings list fin_maps.
From Stdlib Require Import ZArith Ascii.
From S2P Require Import Prelude GoRuntime Validation Identity Lifecycle Plugin Broker Handshake.
From S2P Require Registry.

Module router.
Import validation identity lifecycle handshake.
Import Registry.registry.

Section router.
Context {Impl Handler Client Body : Type} `{GoRange}.

Definition Endpoints := gmap string string.

(** The objects a [ServiceRouter] points to, and its own table. *)
Record ServiceRouter := mkServiceRouter {
  handshakeServer : HandshakeServer Impl Handler Client;
  registry : ServiceRegistry;
  lifecycleServer : LifecycleServer;
  pluginEndpoints : Endpoints;
}.

Definition NewServiceRouter h r l : ServiceRouter := mkServiceRouter h r l ∅.

Definition RegisterPluginEndpoint (s : ServiceRouter) (runtimeID endpoint : string) : ServiceRouter :=
  mkServiceRouter s.(handshakeServer) s.(registry) s.(lifecycleServer) (<[runtimeID := endpoint]> s.(pluginEndpoints)).

Record Request := mkRequest {
  rq_Method : string;
  rq_Path : string;
  rq_RawQuery : string;
  rq_Header : Header;
  rq_Body : Body;
}.

Record Response := mkResponse { rp_StatusCode : Z; rp_Header : Header; rp_Body : Body }.

(** What is written to the client: an error text with its status, or the copied
    response of the provider. *)
Inductive written :=
| WError (msg : string) (code : Z)
| WNotFound
| WResponse (status : Z) (header : Header) (body : Body).

(** ** Proxying *)

Record ProxyRequest := mkProxyRequest {
  px_Method : string;
  px_URL : string;
  px_Header : Header;
  px_Body : Body;
}.

Definition add_values (h : Header) (key : string) (values : list string) : Header :=
  fold_left (λ h v, Header_Add h key v) values h.

Definition withheld (key : string) : bool :=
  bool_decide (CanonicalHeaderKey key = "Authorization") || bool_decide (CanonicalHeaderKey key = "X-Plugin-Runtime-Id").

(** The header loop of the proxied request: [n] numbers the range statement. *)
Definition copy_request_headers (src : Header) : Header :=
  fold_left (λ h kv, if withheld kv.1 then h else add_values h kv.1 kv.2) (go_range 0 src) ∅.

Definition copy_response_headers (src dst : Header) : Header :=
  fold_left (λ h kv, add_values h kv.1 kv.2) (go_range 1 src) dst.

(** [new_request method url]: the error of [http.NewRequestWithContext], if any;
    [do]: the answer of the provider, or the transport error. *)
Definition proxyRequest (new_request : string → string → option error) (do : ProxyRequest → res Response)
    (req : Request) (targetURL : string) : written :=
  let fullURL :=
    if bool_decide (req.(rq_RawQuery) ≠ "") then targetURL +:+ "?" +:+ req.(rq_RawQuery) else targetURL in
  match new_request req.(rq_Method) fullURL with
  | Some _ => WError "failed to create proxy request" StatusInternalServerError
  | None =>
      let proxyReq := mkProxyRequest req.(rq_Method) fullURL (copy_request_headers req.(rq_Header)) req.(rq_Body) in
      match do proxyReq with
      | Err _ => WError "failed to proxy request" StatusBadGateway
      | Ok resp => WResponse resp.(rp_StatusCode) (copy_response_headers resp.(rp_Header) ∅) resp.(rp_Body)
      end
  end.

(** ** Routing: the decision before the request is proxied *)

Inductive decision :=
| Refuse (w : written)
| Forward (callerID serviceType providerID targetURL : string).

(** [/services/{type}/{provider-id}/{method...}]; [None] when the path has fewer
    than three parts. *)
Definition parse_path (path : string) : option (string * string * string) :=
  match SplitN "/" (TrimPrefix path "/services/") 3 with
  | [serviceType; providerID; rest] => Some (serviceType, providerID, "/" +:+ rest)
  | _ => None
  end.

Definition provider_base (s : ServiceRouter) (providerID : string) (p : ServiceProvider) : option string :=
  match s.(pluginEndpoints) !! providerID with
  | Some baseURL => Some baseURL
  | None => p.(Metadata) !! "base_url"
  end.

Definition with_handshake (s : ServiceRouter) h : ServiceRouter :=
  mkServiceRouter h s.(registry) s.(lifecycleServer) s.(pluginEndpoints).

Definition route (now : Time) (s : ServiceRouter) (req : Request) : ServiceRouter * decision :=
  if negb (HasPrefix req.(rq_Path) "/services/") then (s, Refuse WNotFound)
  else
    match parse_path req.(rq_Path) with
    | None =>
        (s, Refuse (WError "invalid service path format, expected /services/{type}/{provider-id}/{method}"
                      StatusBadRequest))
    | Some (serviceType, providerID, method) =>
        let callerID := Header_Get req.(rq_Header) "X-Plugin-Runtime-ID" in
        if bool_decide (callerID = "") then
          (s, Refuse (WError "X-Plugin-Runtime-ID header required" StatusUnauthorized))
        else
          let authHeader := Header_Get req.(rq_Header) "Authorization" in
          if negb (HasPrefix authHeader "Bearer ") then
            (s, Refuse (WError "Authorization: Bearer <token> required" StatusUnauthorized))
          else
            let '(h', valid) := ValidateToken now s.(handshakeServer) callerID (TrimPrefix authHeader "Bearer ") in
            let s' := with_handshake s h' in
            if negb valid then (s', Refuse (WError "invalid token" StatusUnauthorized))
            else
              match GetProviderByRuntimeID s.(registry) providerID with
              | Err _ => (s', Refuse (WError ("provider not found: " +:+ providerID) StatusNotFound))
              | Ok provider =>
                  if negb (ShouldRouteTraffic s.(lifecycleServer) providerID) then
                    (s', Refuse (WError "service unavailable (provider unhealthy)" StatusServiceUnavailable))
                  else
                    match provider_base s providerID provider with
                    | None =>
                        (s', Refuse (WError ("provider endpoint not registered: " +:+ providerID) StatusNotFound))
                    | Some baseURL =>
                        (s', Forward callerID serviceType providerID
                               (baseURL +:+ provider.(EndpointPath) +:+ TrimPrefix method "/"))
                    end
              end
    end.

Definition ServeHTTP (new_request : string → string → option error) (do : ProxyRequest → res Response)
    (now : Time) (s : ServiceRouter) (req : Request) : ServiceRouter * written :=
  let '(s', d) := route now s req in
  (s', match d with Refuse w => w | Forward _ _ _ targetURL => proxyRequest new_request do req targetURL end).

(** ** Lemmas *)

Lemma add_values_lookup_ne h key vs k :
  CanonicalHeaderKey key ≠ k → add_values h key vs !! k = h !! k.
Proof.
  intros Hne. unfold add_values. revert h. induction vs as [|v vs IH]; intros h; simpl; [done|].
  rewrite IH. unfold Header_Add. by rewrite lookup_insert_ne.
Qed.

Lemma add_values_lookup_eq h key vs :
  get_or [] (add_values h key vs) (CanonicalHeaderKey key) = get_or [] h (CanonicalHeaderKey key) ++ vs.
Proof.
  unfold add_values. revert h. induction vs as [|v vs IH]; intros h; simpl; [by rewrite app_nil_r|].
  rewrite IH. unfold Header_Add. by rewrite get_or_insert_eq, <- app_assoc.
Qed.

Lemma copy_no_credentials (l : list (string * list string)) (h : Header) k :
  (k = "Authorization" ∨ k = "X-Plugin-Runtime-Id") →
  fold_left (λ h kv, if withheld kv.1 then h else add_values h kv.1 kv.2) l h !! k = h !! k.
Proof.
  intros Hk. revert h. induction l as [|[key vs] l IH]; intros h; simpl; [done|]. rewrite IH.
  destruct (withheld key) eqn:E; [done|]. apply add_values_lookup_ne.
  unfold withheld in E. apply orb_false_iff in E as [E1 E2].
  apply bool_decide_eq_false in E1, E2. destruct Hk; congruence.
Qed.

(** Keys as an HTTP server produces them. *)
Definition canonical (h : Header) : Prop := ∀ k vs, h !! k = Some vs → CanonicalHeaderKey k = k ∧ vs ≠ [].

Lemma copy_exact (l : list (string * list string)) (h : Header) k :
  NoDup l.*1 → (∀ k' vs, (k', vs) ∈ l → CanonicalHeaderKey k' = k') →
  (∀ k', k' ∈ l.*1 → h !! k' = None) → withheld k = false →
  get_or [] (fold_left (λ h kv, if withheld kv.1 then h else add_values h kv.1 kv.2) l h) k =
  match (list_to_map l : Header) !! k with Some vs => vs | None => get_or [] h k end.
Proof.
  revert h. induction l as [|[key vs] l IH]; intros h Hnd Hcan Hh Hk; simpl.
  { by rewrite lookup_empty. }
  apply NoDup_cons in Hnd as [Hkey Hnd].
  assert (Ec : CanonicalHeaderKey key = key) by (apply (Hcan key vs); left).
  set (h1 := if withheld key then h else add_values h key vs).
  assert (Hh1 : ∀ k', k' ≠ key → h1 !! k' = h !! k').
  { intros k' Hne. unfold h1. destruct (withheld key); [done|]. apply add_values_lookup_ne. congruence. }
  rewrite IH; [|done| | |done].
  - destruct (decide (key = k)) as [->|Hne].
    + rewrite lookup_insert_eq. rewrite (not_elem_of_list_to_map_1 l k Hkey).
      unfold h1. rewrite Hk. pose proof (add_values_lookup_eq h k vs) as E. rewrite Ec in E. rewrite E.
      by rewrite (get_or_None _ h k) by (apply Hh; left).
    + rewrite lookup_insert_ne by done. unfold get_or. by rewrite Hh1.
  - intros k' vs' Hin. apply (Hcan k' vs'). by right.
  - intros k' Hin. rewrite Hh1; [apply Hh; by right|]. by intros ->.
Qed.

Lemma parse_path_endpoint t rid m :
  free_of "/" t = true → free_of "/" rid = true →
  parse_path (EndpointUrl t rid +:+ "/" +:+ m) = Some (t, rid, "/" +:+ m) ∧
  HasPrefix (EndpointUrl t rid +:+ "/" +:+ m) "/services/" = true.
Proof.
  intros Ht Hr. unfold parse_path, EndpointUrl. rewrite !str_app_assoc, TrimPrefix_app, HasPrefix_app.
  rewrite !str_app_cons, !str_app_nil. by rewrite SplitN_3.
Qed.

Lemma GetProviderByRuntimeID_spec r a rid : models r a →
  match GetProviderByRuntimeID r rid with
  | Ok p => p ∈ a ∧ p.(RuntimeID) = rid
  | Err _ => ∀ p, p ∈ a → p.(RuntimeID) ≠ rid
  end.
Proof.
  intros M. unfold GetProviderByRuntimeID.
  assert (Hin : ∀ id p, (id, p) ∈ registered_by rid (go_range 0 (registrations r)) ↔
                        (p ∈ a ∧ RegistrationID p = id) ∧ RuntimeID p = rid).
  { intros id p. unfold registered_by. rewrite list_elem_of_filter, elem_of_go_range, (models_registrations _ _ M).
    simpl. tauto. }
  destruct (registered_by _ _) as [|[id p] l].
  - intros p Hp Hr. assert (He : (RegistrationID p, p) ∈ []) by by apply Hin. by apply elem_of_nil in He.
  - destruct (proj1 (Hin id p) ltac:(left)) as [[? _] ?]. done.
Qed.

(** The conditions under which a request is let through. *)
Definition admitted (now : Time) (s : ServiceRouter) (req : Request) (callerID providerID : string) : Prop :=
  callerID = Header_Get req.(rq_Header) "X-Plugin-Runtime-ID" ∧ callerID ≠ "" ∧
  (∃ tok i, Header_Get req.(rq_Header) "Authorization" = "Bearer " +:+ tok ∧
            s.(handshakeServer).(tokens) !! callerID = Some i ∧ i.(ti_token) = tok ∧ (now ≤ i.(ti_expiresAt))%Z) ∧
  ShouldRouteTraffic s.(lifecycleServer) providerID = true.

Lemma route_forward_iff now s req caller t pid url :
  (route now s req).2 = Forward caller t pid url ↔
  ∃ m p base, HasPrefix req.(rq_Path) "/services/" = true ∧ parse_path req.(rq_Path) = Some (t, pid, m) ∧
    admitted now s req caller pid ∧ GetProviderByRuntimeID s.(registry) pid = Ok p ∧
    provider_base s pid p = Some base ∧ url = base +:+ p.(EndpointPath) +:+ TrimPrefix m "/".
Proof.
  unfold route, admitted. split.
  - destruct (HasPrefix (rq_Path req) _) eqn:Ep; simpl; [|done].
    destruct (parse_path _) as [[[t' pid'] m]|] eqn:Epp; [|done].
    case_bool_decide as Hc; [done|].
    destruct (HasPrefix (Header_Get _ _) "Bearer ") eqn:Eb; simpl; [|done].
    apply HasPrefix_true in Eb as [tok Etok]. rewrite Etok, TrimPrefix_app.
    pose proof (ValidateToken_true now (handshakeServer s) (Header_Get (rq_Header req) "X-Plugin-Runtime-ID") tok) as Hv.
    destruct (ValidateToken _ _ _ _) as [h' [|]]; simpl in *; [|done].
    destruct (proj1 Hv eq_refl) as (i & Hi & Ht & Hn).
    destruct (GetProviderByRuntimeID _ _) as [p|] eqn:Eg; [|done].
    destruct (ShouldRouteTraffic _ _) eqn:Es; simpl; [|done].
    destruct (provider_base s pid' p) as [base|] eqn:Eb; [|done].
    intros [= <- -> -> <-]. exists m, p, base. split_and!; try done. by exists tok, i.
  - intros (m & p & base & -> & -> & (-> & Hne & (tok & i & -> & Hi & Ht & Hn) & Hs) & Hg & Hb & ->).
    rewrite bool_decide_eq_false_2 by done. rewrite HasPrefix_app, TrimPrefix_app. cbn [negb].
    pose proof (ValidateToken_true now (handshakeServer s) (Header_Get (rq_Header req) "X-Plugin-Runtime-ID") tok) as Hv.
    destruct (ValidateToken _ _ _ _) as [h' v]; simpl in *.
    rewrite (proj2 Hv) by by exists i. simpl. by rewrite Hg, Hs, Hb.
Qed.
End router.

Arguments ServiceRouter : clear implicits.
Arguments Request : clear implicits.
Arguments Response : clear implicits.
Arguments ProxyRequest : clear implicits.
Arguments written : clear implicits.
Arguments decision : clear implicits.

(** ** Properties *)

(** C8: the router forwards a request exactly when its path has the three parts,
    the caller states its runtime id and the live token issued for it, the named
    provider is registered and not unhealthy, and its endpoint is known; the
    target is that endpoint, the path the provider registered and the rest of the
    request path. Everything else is answered with 400, 401, 404 or 503. *)
Theorem router_forwards_iff {Impl Handler Client Body} `{GoRange} now
    (s : ServiceRouter Impl Handler Client) (req : Request Body) a (M : models s.(registry) a) :
  (∀ caller t pid url,
     (route now s req).2 = Forward caller t pid url ↔
     ∃ m p base, HasPrefix req.(rq_Path) "/services/" = true ∧ parse_path req.(rq_Path) = Some (t, pid, m) ∧
       admitted now s req caller pid ∧ GetProviderByRuntimeID s.(registry) pid = Ok p ∧
       (p ∈ a ∧ p.(RuntimeID) = pid) ∧
       provider_base s pid p = Some base ∧ url = base +:+ p.(EndpointPath) +:+ TrimPrefix m "/") ∧
  (∀ w, (route now s req).2 = Refuse w →
     w = WNotFound ∨ ∃ msg c, w = WError msg c ∧
       c ∈ [StatusBadRequest; StatusUnauthorized; StatusNotFound; StatusServiceUnavailable]).
Proof.
  split.
  - intros caller t pid url. rewrite route_forward_iff. split.
    + intros (m & p & base & ? & ? & ? & Hg & ? & ?). exists m, p, base.
      pose proof (GetProviderByRuntimeID_spec (registry s) a pid M) as Hs. rewrite Hg in Hs. tauto.
    + intros (m & p & base & ? & ? & ? & Hg & _ & ? & ?). by exists m, p, base.
  - intros w. unfold route. repeat (case_match; simpl; try done); intros [= <-];
      try (by left); right; eexists _, _; (split; [reflexivity|]); set_solver.
Qed.

Definition ex_router : ServiceRouter unit unit unit :=
  RegisterPluginEndpoint
    (NewServiceRouter (hs_run (NewHandshakeServer ex_cfg) ex_history) ex_kv NewLifecycleServer)
    "a-1111" "http://p1".

Definition ex_token : string := match generateToken (rand_seq 2) with Ok t => t | Err _ => "" end.

Definition ex_call (path : string) : Request unit :=
  mkRequest "POST" path "" {["X-Plugin-Runtime-Id" := ["cache-0102"]; "Authorization" := ["Bearer " +:+ ex_token]]} tt.

Lemma router_forwards_iff_witness :
  (route 200 ex_router (ex_call "/services/kv/a-1111/Get")).2 =
    Forward "cache-0102" "kv" "a-1111" "http://p1/kv/Get" ∧
  ∃ p, p ∈ ex_log ∧ p.(RuntimeID) = "a-1111".
Proof.
  assert (E : (route 200 ex_router (ex_call "/services/kv/a-1111/Get")).2 =
              Forward "cache-0102" "kv" "a-1111" "http://p1/kv/Get") by (vm_compute; reflexivity).
  split; [exact E|].
  destruct (proj1 (proj1 (router_forwards_iff 200 ex_router (ex_call "/services/kv/a-1111/Get") ex_log ex_kv_models)
    _ _ _ _) E) as (m & p & base & _ & _ & _ & _ & Hp & _).
  exists p. exact Hp.
Defined.

(** Discovery and routing agree: the endpoint that discovery returns for a
    provider, extended with a method, is routed back to the plugin of that
    provider, and to the very provider when the plugin offers no other service. *)
Theorem discovered_endpoint_routes {Impl Handler Client Body} `{GoRange} now
    (s : ServiceRouter Impl Handler Client) (req : Request Body) rnd lc a t v e r' caller m
    (M : models s.(registry) a)
    (Hpath : ∀ p, p ∈ a → ValidateServiceType p.(ServiceType) = None ∧ free_of "/" p.(RuntimeID) = true)
    (Hrr : rr_ok s.(registry)) (Hrnd : rnd_ok rnd) (Hlen : slice_ok (eligible lc s.(registry) t v))
    (Hdisc : DiscoverService_select rnd lc s.(registry) t v = (r', Some (Ok e)))
    (Hreq : req.(rq_Path) = e.(se_EndpointUrl) +:+ "/" +:+ m) :
  ∃ p, p ∈ a ∧ p.(ServiceType) = t ∧ e = endpoint_of p ∧
    parse_path req.(rq_Path) = Some (t, p.(RuntimeID), "/" +:+ m) ∧
    (admitted now s req caller p.(RuntimeID) →
     (∀ q, q ∈ a → q.(RuntimeID) = p.(RuntimeID) → q = p) →
     ∀ base, provider_base s p.(RuntimeID) p = Some base →
     (route now s req).2 = Forward caller t p.(RuntimeID) (base +:+ p.(EndpointPath) +:+ m)).
Proof.
  unfold DiscoverService_select in Hdisc.
  destruct (SelectProvider_cases rnd lc (registry s) t v Hrr Hrnd Hlen)
    as [[_ [e' E]]|(p & r1 & E & Hp & _)]; rewrite E in Hdisc; simplify_eq.
  apply elem_of_eligible in Hp as (Hp & _ & _).
  rewrite (models_providers _ _ M), list_elem_of_filter in Hp. destruct Hp as [Ht Hpa].
  destruct (Hpath p Hpa) as [Hv Hf].
  assert (Hst : free_of "/" t = true).
  { rewrite <- Ht. apply ValidateServiceType_None in Hv as (_ & Hk%key_ok_all & _). by apply (str_all_free key_char). }
  exists p. destruct (parse_path_endpoint t (RuntimeID p) m Hst Hf) as [Epp Epre].
  rewrite Hreq. simpl se_EndpointUrl. rewrite Ht. split_and!; try done.
  intros Hadm Huniq base Hb. apply route_forward_iff. exists ("/" +:+ m), p, base.
  rewrite Hreq. simpl se_EndpointUrl. rewrite Ht. split_and!; try done.
  - pose proof (GetProviderByRuntimeID_spec (registry s) a (RuntimeID p) M) as Hs.
    destruct (GetProviderByRuntimeID _ _) as [q|]; [|by apply (Hs p) in Hpa].
    destruct Hs as [Hq Hqr]. by rewrite (Huniq q Hq Hqr).
Qed.

Lemma ex_log_paths p : p ∈ ex_log →
  ValidateServiceType p.(ServiceType) = None ∧ free_of "/" p.(RuntimeID) = true.
Proof.
  assert (Ha : Forall (λ p, ValidateServiceType p.(ServiceType) = None ∧ free_of "/" p.(RuntimeID) = true) ex_log).
  { vm_compute. repeat constructor. }
  intros Hp. rewrite Forall_forall in Ha. by apply Ha.
Qed.

Lemma discovered_endpoint_routes_witness :
  ∃ e r', DiscoverService_select rnd0 None ex_kv "kv" "" = (r', Some (Ok e)) ∧
    ∃ p, p ∈ ex_log ∧ e = endpoint_of p.
Proof.
  destruct (DiscoverService_select rnd0 None ex_kv "kv" "") as [r' [[e|]|]] eqn:E;
    try (vm_compute in E; discriminate E).
  exists e, r'. split; [reflexivity|].
  destruct (discovered_endpoint_routes 200 ex_router (ex_call (e.(se_EndpointUrl) +:+ "/" +:+ "Get")) rnd0 None ex_log
    "kv" "" e r' "cache-0102" "Get" ex_kv_models
    ex_log_paths
    ex_kv_rr_ok rnd0_ok
    ltac:(by apply slice_ok_short, (bool_decide_unpack _); vm_compute) E eq_refl) as (p & Hp & _ & He & _).
  by exists p.
Defined.

(** The proxied request carries the caller's headers without its credentials:
    [Authorization] and [X-Plugin-Runtime-Id] are never sent, whatever the spelling
    of the header keys, and every other header of a canonical request arrives with
    its values in order, independently of map iteration. *)
Theorem proxied_headers (G : GoRange) src :
  (∀ k, k = "Authorization" ∨ k = "X-Plugin-Runtime-Id" → copy_request_headers src !! k = None) ∧
  (canonical src → ∀ k, k ≠ "Authorization" → k ≠ "X-Plugin-Runtime-Id" → CanonicalHeaderKey k = k →
     get_or [] (copy_request_headers src) k = get_or [] src k).
Proof.
  unfold copy_request_headers. split.
  - intros k Hk. rewrite copy_no_credentials by done. apply lookup_empty.
  - intros Hc k H1 H2 Hk. rewrite copy_exact.
    + rewrite get_or_empty. unfold get_or.
      replace (list_to_map (go_range 0 src) : Header) with src; [by destruct (src !! k)|].
      rewrite <- (list_to_map_to_list src) at 1. symmetry. apply list_to_map_proper; [apply NoDup_fst_go_range|].
      apply go_range_perm.
    + apply NoDup_fst_go_range.
    + intros k' vs Hin%elem_of_go_range. by apply (Hc k' vs).
    + intros k' _. apply lookup_empty.
    + unfold withheld. rewrite Hk. by rewrite !bool_decide_eq_false_2.
Qed.

Lemma proxied_headers_witness :
  let src := {["Accept" := ["a"; "b"]; "Authorization" := ["Bearer x"]]} : Header in
  get_or [] (copy_request_headers src) "Accept" = ["a"; "b"] ∧
  get_or [] src "Accept" = get_or [] (copy_request_headers src) "Accept".
Proof.
  intros src. split; [by vm_compute|]. symmetry.
  apply (proj2 (proxied_headers range_fwd src)); [|done|done|by vm_compute].
  intros k vs. unfold src. rewrite lookup_insert_Some, lookup_singleton_Some.
  intros [[<- <-]|[_ [<- <-]]]; (split; [by vm_compute|done]).
Defined.

(** The service type of the path does not take part in the lookup: with two
    services of one plugin, the request for one is sent to the path of the other
    under some iteration order of the registration map. *)
Definition ex_two : ServiceRegistry :=
  apply_changes NewServiceRegistry
    [ChRegister (rand_seq 1) 0%Z None (ex_req "a-1" "kv" "1.0.0");
     ChRegister (rand_seq 9) 0%Z None (ex_req "a-1" "log" "1.0.0")].

Lemma service_type_not_routed :
  let s := RegisterPluginEndpoint
    (NewServiceRouter (hs_run (NewHandshakeServer ex_cfg) ex_history) ex_two NewLifecycleServer) "a-1" "http://p1" in
  let target (G : GoRange) t := (route (H := G) 200 s (ex_call ("/services/" +:+ t +:+ "/a-1/Get"))).2 in
  target range_fwd "kv" ≠ target range_bwd "kv" ∨ target range_fwd "log" ≠ target range_bwd "log".
Proof. left. vm_compute. discriminate. Qed.

(** A registered path without a final slash runs into the method name. *)
Lemma endpoint_path_without_slash (base m : string) :
  base +:+ "/kv" +:+ TrimPrefix ("/" +:+ m) "/" = base +:+ "/kv" +:+ m.
Proof. by rewrite TrimPrefix_app. Qed.

End router.
