(* ===== verification/CircuitBreaker.v ===== *)
(** * Circuit breaker (circuitbreaker.go)

    The breaker's lock is held for each half of a call, before and after the
    protected function, except that [setState] releases it around the
    [OnStateChange] callback.  The two places where code follows such a release are
    separate steps here ([allowRequest_resume], [recordResult_resume]): between a
    step and its continuation any other goroutine may run.  Counters are 64-bit. *)

From stdpp Require Import prelude strings list relations pretty.
From Stdlib Require Import ZArith.
From S2P Require Import Prelude GoRuntime.

Module circuitbreaker.

(** [CircuitState] is an [int] with three named values. *)
Definition CircuitState := Z.
Definition CircuitClosed : CircuitState := 0%Z.
Definition CircuitOpen : CircuitState := 1%Z.
Definition CircuitHalfOpen : CircuitState := 2%Z.

Definition CircuitState_String (s : CircuitState) : string :=
  if bool_decide (s = CircuitClosed) then "Closed"
  else if bool_decide (s = CircuitOpen) then "Open"
  else if bool_decide (s = CircuitHalfOpen) then "HalfOpen"
  else "Unknown(" +:+ pretty s +:+ ")".

(** A nil [IsFailure] is [None]; [OnStateChange] is "is set": its only effect on
    the breaker is the window it opens. *)
Record CircuitBreakerConfig := mkCircuitBreakerConfig {
  FailureThreshold : Z;
  SuccessThreshold : Z;
  Timeout : Duration;
  IsFailure : option (option error → bool);
  OnStateChange : bool;
}.

Definition defaultIsFailure `{ConnectLib} (err : option error) : bool :=
  match err with
  | None => false
  | Some e =>
      match CodeOf e with
      | CodeUnavailable | CodeResourceExhausted | CodeInternal | CodeUnknown | CodeDeadlineExceeded => true
      | _ => false
      end
  end.

Definition DefaultCircuitBreakerConfig `{ConnectLib} : CircuitBreakerConfig :=
  mkCircuitBreakerConfig 5 2 (10 * Second) (Some defaultIsFailure) false.

Record CircuitBreaker := mkCircuitBreaker {
  config : CircuitBreakerConfig;
  state : CircuitState;
  consecutiveFailures : Z;
  consecutiveSuccesses : Z;
  lastFailureTime : Time;
}.

Definition with_defaults `{ConnectLib} (c : CircuitBreakerConfig) : CircuitBreakerConfig :=
  mkCircuitBreakerConfig
    (if (c.(FailureThreshold) <=? 0)%Z then 5%Z else c.(FailureThreshold))
    (if (c.(SuccessThreshold) <=? 0)%Z then 2%Z else c.(SuccessThreshold))
    (if bool_decide (c.(Timeout) = 0%Z) then (10 * Second)%Z else c.(Timeout))
    (Some (match c.(IsFailure) with None => defaultIsFailure | Some f => f end))
    c.(OnStateChange).

(** The zero [time.Time] is [0]. *)
Definition NewCircuitBreaker `{ConnectLib} (c : CircuitBreakerConfig) : CircuitBreaker :=
  mkCircuitBreaker (with_defaults c) CircuitClosed 0 0 0.

Definition State (cb : CircuitBreaker) : CircuitState := cb.(state).

Definition set_state (cb : CircuitBreaker) (s : CircuitState) : CircuitBreaker :=
  mkCircuitBreaker cb.(config) s cb.(consecutiveFailures) cb.(consecutiveSuccesses) cb.(lastFailureTime).
Definition set_failures (cb : CircuitBreaker) (n : Z) : CircuitBreaker :=
  mkCircuitBreaker cb.(config) cb.(state) n cb.(consecutiveSuccesses) cb.(lastFailureTime).
Definition set_successes (cb : CircuitBreaker) (n : Z) : CircuitBreaker :=
  mkCircuitBreaker cb.(config) cb.(state) cb.(consecutiveFailures) n cb.(lastFailureTime).
Definition set_lastFailure (cb : CircuitBreaker) (t : Time) : CircuitBreaker :=
  mkCircuitBreaker cb.(config) cb.(state) cb.(consecutiveFailures) cb.(consecutiveSuccesses) t.

(** A value that is at hand, or code still to run after a callback. *)
Inductive paused (A : Type) := Done (a : A) | Paused.
Arguments Done {A} a.
Arguments Paused {A}.

(** ** [allowRequest] *)

Definition allowRequest_begin (now : Time) (cb : CircuitBreaker) : CircuitBreaker * paused bool :=
  if bool_decide (cb.(state) = CircuitClosed) then (cb, Done true)
  else if bool_decide (cb.(state) = CircuitOpen) then
    if (cb.(config).(Timeout) <=? Time_Sub now cb.(lastFailureTime))%Z
    then (set_state cb CircuitHalfOpen, Paused)
    else (cb, Done false)
  else if bool_decide (cb.(state) = CircuitHalfOpen) then (cb, Done true)
  else (cb, Done false).

Definition allowRequest_resume (cb : CircuitBreaker) : CircuitBreaker * bool :=
  (set_failures (set_successes cb 0) 0, true).

Definition allowRequest (now : Time) (cb : CircuitBreaker) : CircuitBreaker * bool :=
  match allowRequest_begin now cb with
  | (cb', Done b) => (cb', b)
  | (cb', Paused) => allowRequest_resume cb'
  end.

(** ** [recordResult] *)

Definition is_failure (cb : CircuitBreaker) (err : option error) : bool :=
  match cb.(config).(IsFailure) with Some f => f err | None => false end.

Definition recordResult_begin (now : Time) (cb : CircuitBreaker) (err : option error) : CircuitBreaker * paused unit :=
  let isFailure := is_failure cb err in
  if bool_decide (cb.(state) = CircuitClosed) then
    if isFailure then
      let cb1 := set_lastFailure (set_successes (set_failures cb (wrap64 (cb.(consecutiveFailures) + 1))) 0) now in
      if (cb1.(config).(FailureThreshold) <=? cb1.(consecutiveFailures))%Z
      then (set_state cb1 CircuitOpen, Done tt) else (cb1, Done tt)
    else (set_successes (set_failures cb 0) (wrap64 (cb.(consecutiveSuccesses) + 1)), Done tt)
  else if bool_decide (cb.(state) = CircuitOpen) then
    (if isFailure then set_lastFailure cb now else cb, Done tt)
  else if bool_decide (cb.(state) = CircuitHalfOpen) then
    if isFailure then
      (set_state (set_lastFailure (set_successes (set_failures cb 1) 0) now) CircuitOpen, Done tt)
    else
      let cb1 := set_failures (set_successes cb (wrap64 (cb.(consecutiveSuccesses) + 1))) 0 in
      if (cb1.(config).(SuccessThreshold) <=? cb1.(consecutiveSuccesses))%Z
      then (set_state cb1 CircuitClosed, Paused) else (cb1, Done tt)
  else (cb, Done tt).

Definition recordResult_resume (cb : CircuitBreaker) : CircuitBreaker := set_successes cb 0.

Definition recordResult (now : Time) (cb : CircuitBreaker) (err : option error) : CircuitBreaker :=
  match recordResult_begin now cb err with
  | (cb', Done _) => cb'
  | (cb', Paused) => recordResult_resume cb'
  end.

(** ** [Call], run without interference: [fn] is the function's error, [t0] and [t1]
    the clock before and after it *)
Definition Call (t0 t1 : Time) (cb : CircuitBreaker) (fn : option error) : CircuitBreaker * option error :=
  let '(cb1, ok) := allowRequest t0 cb in
  if negb ok then (cb1, Some (NewError CodeUnavailable (Errorf "circuit breaker is open" [])))
  else (recordResult t1 cb1 fn, fn).

(** [next] answers with a response and an error; the closure that runs it assigns
    [resp] and [callErr] only when the breaker lets the call through. *)
Definition CircuitBreakerInterceptor {Resp} (t0 t1 : Time) (cb : CircuitBreaker)
    (next : option Resp * option error) : CircuitBreaker * (option Resp * option error) :=
  let ran := (allowRequest t0 cb).2 in
  let '(resp, callErr) := if ran then next else (None, None) in
  let '(cb', err) := Call t0 t1 cb next.2 in
  match err, callErr with
  | Some e, None => (cb', (None, Some e))
  | _, _ => (cb', (resp, callErr))
  end.

(** ** Interleavings *)

Inductive continuation := InAllow | InRecord.

(** The breaker and the goroutines that are inside a callback. *)
Record system := mkSystem { breaker : CircuitBreaker; callbacks : list continuation }.

Definition after {A} (p : paused A) (k : continuation) (ks : list continuation) : list continuation :=
  match p with Done _ => ks | Paused => k :: ks end.

Inductive step : relation system :=
| step_allow now cb cb' p ks :
    allowRequest_begin now cb = (cb', p) → step (mkSystem cb ks) (mkSystem cb' (after p InAllow ks))
| step_record now err cb cb' p ks :
    recordResult_begin now cb err = (cb', p) → step (mkSystem cb ks) (mkSystem cb' (after p InRecord ks))
| step_allow_resume cb ks1 ks2 :
    step (mkSystem cb (ks1 ++ InAllow :: ks2)) (mkSystem (allowRequest_resume cb).1 (ks1 ++ ks2))
| step_record_resume cb ks1 ks2 :
    step (mkSystem cb (ks1 ++ InRecord :: ks2)) (mkSystem (recordResult_resume cb) (ks1 ++ ks2)).

(** ** Invariant *)

Record inv (cb : CircuitBreaker) : Prop := {
  inv_thresholds : (0 < cb.(config).(FailureThreshold) ≤ max64)%Z ∧ (0 < cb.(config).(SuccessThreshold) ≤ max64)%Z;
  inv_state : cb.(state) = CircuitClosed ∨ cb.(state) = CircuitOpen ∨ cb.(state) = CircuitHalfOpen;
  inv_closed : cb.(state) = CircuitClosed → (0 ≤ cb.(consecutiveFailures) < cb.(config).(FailureThreshold))%Z;
  inv_open : cb.(state) = CircuitOpen → cb.(consecutiveSuccesses) = 0%Z;
  inv_half : cb.(state) = CircuitHalfOpen → (0 ≤ cb.(consecutiveSuccesses) < cb.(config).(SuccessThreshold))%Z;
}.

Ltac cb_cases := unfold CircuitClosed, CircuitOpen, CircuitHalfOpen in *; repeat case_bool_decide; simplify_eq/=.

Lemma inv_allow_begin now cb : inv cb → inv (allowRequest_begin now cb).1.
Proof.
  intros [[Hf Hs] H1 H2 H3 H4]. unfold allowRequest_begin. cb_cases; try done.
  destruct (_ <=? _)%Z; simpl; [|done]. split; simpl; cb_cases; try done; [tauto|].
  intros _. rewrite H3 by done. lia.
Qed.

Lemma inv_allow_resume cb : inv cb → inv (allowRequest_resume cb).1.
Proof. intros [[Hf Hs] H1 H2 H3 H4]. split; simpl; try done; intros; lia. Qed.

Lemma inv_record_resume cb : inv cb → inv (recordResult_resume cb).
Proof. intros [[Hf Hs] H1 H2 H3 H4]. split; simpl; try done; intros; lia. Qed.

Lemma wrap64_succ n b : (0 ≤ n < b)%Z → (b ≤ max64)%Z → wrap64 (n + 1) = (n + 1)%Z.
Proof. intros. apply wrap64_id. unfold in64, min64 in *. unfold max64 in *. lia. Qed.

Lemma inv_record_begin now cb err : inv cb → inv (recordResult_begin now cb err).1.
Proof.
  intros [[Hf Hs] H1 H2 H3 H4]. unfold recordResult_begin.
  case_bool_decide as Hst.
  { specialize (H2 Hst). destruct (is_failure cb err); simpl.
    - rewrite (wrap64_succ _ (FailureThreshold (config cb))) by lia.
      destruct (Z.leb_spec (FailureThreshold (config cb)) (consecutiveFailures cb + 1)); simpl;
        split; simpl; try done; try tauto; rewrite ?Hst; cb_cases; try done; lia.
    - split; simpl; try done; rewrite ?Hst; cb_cases; try done; lia. }
  case_bool_decide as Hst'; [destruct (is_failure cb err); by split|].
  case_bool_decide as Hst''; [|by split].
  specialize (H4 Hst''). destruct (is_failure cb err); simpl.
  - split; simpl; try done; try tauto; cb_cases; done.
  - rewrite (wrap64_succ _ (SuccessThreshold (config cb))) by lia.
    destruct (Z.leb_spec (SuccessThreshold (config cb)) (consecutiveSuccesses cb + 1)); simpl;
      split; simpl; try done; try tauto; rewrite ?Hst''; cb_cases; try done; lia.
Qed.

Lemma inv_step s s' : step s s' → inv s.(breaker) → inv s'.(breaker).
Proof.
  intros [now cb cb' p ks E|now err cb cb' p ks E|cb ks1 ks2|cb ks1 ks2] Hi; simpl in *.
  - pose proof (inv_allow_begin now cb Hi) as H. by rewrite E in H.
  - pose proof (inv_record_begin now cb err Hi) as H. by rewrite E in H.
  - by apply inv_allow_resume.
  - by apply inv_record_resume.
Qed.

Definition int_config (c : CircuitBreakerConfig) : Prop :=
  (c.(FailureThreshold) ≤ max64)%Z ∧ (c.(SuccessThreshold) ≤ max64)%Z.

Lemma inv_new `{ConnectLib} c : int_config c → inv (NewCircuitBreaker c).
Proof.
  intros [H1 H2]. split; simpl; try done.
  - destruct (Z.leb_spec (FailureThreshold c) 0), (Z.leb_spec (SuccessThreshold c) 0);
      split; split; try lia; unfold max64; lia.
  - by left.
  - intros _. destruct (Z.leb_spec (FailureThreshold c) 0); lia.
Qed.

(** ** Abstract breaker *)

Inductive abstract :=
| AClosed (failures : Z)
| AOpen (since : Time)
| AHalfOpen (successes : Z).

Section spec.
Context (ft st : Z) (timeout : Duration).

(** What the breaker promises: admission, then the effect of a result. *)
Definition spec_admit (now : Time) (a : abstract) : option abstract :=
  match a with
  | AClosed _ | AHalfOpen _ => Some a
  | AOpen t => if (timeout <=? Time_Sub now t)%Z then Some (AHalfOpen 0) else None
  end.

Definition spec_result (now : Time) (failed : bool) (a : abstract) : abstract :=
  match a, failed with
  | AClosed n, true => if (ft <=? n + 1)%Z then AOpen now else AClosed (n + 1)
  | AClosed _, false => AClosed 0
  | AHalfOpen _, true => AOpen now
  | AHalfOpen n, false => if (st <=? n + 1)%Z then AClosed 0 else AHalfOpen (n + 1)
  | AOpen _, true => AOpen now
  | AOpen t, false => AOpen t
  end.

Definition spec_call (t0 t1 : Time) (failed : bool) (a : abstract) : abstract * bool :=
  match spec_admit t0 a with
  | None => (a, false)
  | Some a' => (spec_result t1 failed a', true)
  end.
End spec.

Definition abs (cb : CircuitBreaker) : abstract :=
  if bool_decide (cb.(state) = CircuitClosed) then AClosed cb.(consecutiveFailures)
  else if bool_decide (cb.(state) = CircuitOpen) then AOpen cb.(lastFailureTime)
  else AHalfOpen cb.(consecutiveSuccesses).

Lemma abs_closed cb : cb.(state) = CircuitClosed → abs cb = AClosed cb.(consecutiveFailures).
Proof. intros E. unfold abs. by rewrite bool_decide_eq_true_2. Qed.

Lemma abs_open cb : cb.(state) = CircuitOpen → abs cb = AOpen cb.(lastFailureTime).
Proof. intros E. unfold abs. rewrite E. by rewrite bool_decide_eq_false_2, bool_decide_eq_true_2. Qed.

Lemma abs_half cb : cb.(state) = CircuitHalfOpen → abs cb = AHalfOpen cb.(consecutiveSuccesses).
Proof. intros E. unfold abs. rewrite E. by rewrite !bool_decide_eq_false_2. Qed.

Lemma abs_allow now cb : inv cb →
  let '(cb', ok) := allowRequest now cb in
  inv cb' ∧ cb'.(config) = cb.(config) ∧
  spec_admit cb.(config).(Timeout) now (abs cb) = (if ok then Some (abs cb') else None) ∧
  (ok = false → cb' = cb).
Proof.
  intros Hi. pose proof (inv_allow_begin now cb Hi) as Hb.
  unfold allowRequest, allowRequest_begin in *. destruct (inv_state _ Hi) as [E|[E|E]].
  - rewrite (bool_decide_eq_true_2 (_ = CircuitClosed)) by done. by rewrite abs_closed.
  - rewrite (bool_decide_eq_false_2 (_ = CircuitClosed)), (bool_decide_eq_true_2 (_ = CircuitOpen)) in * by by rewrite E.
    rewrite (abs_open cb E). simpl. destruct (_ <=? _)%Z; simpl; [|by split_and!].
    split_and!; try done. by apply inv_allow_resume in Hb.
  - rewrite (bool_decide_eq_false_2 (_ = CircuitClosed)), (bool_decide_eq_false_2 (_ = CircuitOpen)),
      (bool_decide_eq_true_2 (_ = CircuitHalfOpen)) in * by by rewrite E.
    by rewrite abs_half.
Qed.

Lemma abs_record now cb err : inv cb →
  inv (recordResult now cb err) ∧ (recordResult now cb err).(config) = cb.(config) ∧
  abs (recordResult now cb err) =
    spec_result cb.(config).(FailureThreshold) cb.(config).(SuccessThreshold) now (is_failure cb err) (abs cb).
Proof.
  intros Hi. pose proof (inv_record_begin now cb err Hi) as Hb.
  pose proof (inv_thresholds _ Hi) as [Hf Hs].
  unfold recordResult, recordResult_begin in *. destruct (inv_state _ Hi) as [E|[E|E]].
  - rewrite (bool_decide_eq_true_2 (_ = CircuitClosed)) in * by done. rewrite (abs_closed cb E).
    pose proof (inv_closed _ Hi E) as Hc. simpl in *.
    rewrite (wrap64_succ _ (FailureThreshold (config cb))) in * by lia.
    destruct (is_failure cb err); [destruct (_ <=? _)%Z|]; simpl in *; split_and!; try done.
    + by rewrite abs_closed.
    + by rewrite abs_closed.
  - rewrite (bool_decide_eq_false_2 (_ = CircuitClosed)), (bool_decide_eq_true_2 (_ = CircuitOpen)) in * by by rewrite E.
    rewrite (abs_open cb E). destruct (is_failure cb err); simpl in *; split_and!; try done; by rewrite abs_open.
  - rewrite (bool_decide_eq_false_2 (_ = CircuitClosed)), (bool_decide_eq_false_2 (_ = CircuitOpen)),
      (bool_decide_eq_true_2 (_ = CircuitHalfOpen)) in * by by rewrite E.
    rewrite (abs_half cb E). pose proof (inv_half _ Hi E) as Hh. simpl in *.
    rewrite (wrap64_succ _ (SuccessThreshold (config cb))) in * by lia.
    destruct (is_failure cb err); [|destruct (_ <=? _)%Z]; simpl in *; split_and!; try done.
    + by apply inv_record_resume.
    + by rewrite abs_half.
Qed.

Lemma abs_call t0 t1 cb fn : inv cb →
  let '(cb', err) := Call t0 t1 cb fn in
  let '(a', admitted) := spec_call cb.(config).(FailureThreshold) cb.(config).(SuccessThreshold)
                           cb.(config).(Timeout) t0 t1 (is_failure cb fn) (abs cb) in
  inv cb' ∧ cb'.(config) = cb.(config) ∧ abs cb' = a' ∧
  err = if admitted then fn else Some (NewError CodeUnavailable (Errorf "circuit breaker is open" [])).
Proof.
  intros Hi. unfold Call, spec_call. pose proof (abs_allow t0 cb Hi) as Ha.
  destruct (allowRequest t0 cb) as [cb1 ok]. destruct Ha as (Hi1 & Hc & -> & Hd).
  destruct ok; simpl; [|rewrite Hd by done; by split_and!].
  destruct (abs_record t1 cb1 fn Hi1) as (Hi2 & Hc2 & ->). unfold is_failure. by rewrite Hc2, Hc.
Qed.

(** ** Sequences of calls *)

Record call := mkCall { c_start : Time; c_end : Time; c_fn : option error }.

Fixpoint run_calls (cb : CircuitBreaker) (cs : list call) : CircuitBreaker * list (option error) :=
  match cs with
  | [] => (cb, [])
  | c :: cs' =>
      let '(cb1, r) := Call c.(c_start) c.(c_end) cb c.(c_fn) in
      let '(cb2, rs) := run_calls cb1 cs' in (cb2, r :: rs)
  end.

Definition rejected : option error := Some (NewError CodeUnavailable (Errorf "circuit breaker is open" [])).

Section spec_run.
Context (c : CircuitBreakerConfig) (failed : option error → bool).

Fixpoint spec_run (a : abstract) (cs : list call) : abstract * list (option error) :=
  match cs with
  | [] => (a, [])
  | k :: cs' =>
      let '(a1, ok) := spec_call c.(FailureThreshold) c.(SuccessThreshold) c.(Timeout)
                         k.(c_start) k.(c_end) (failed k.(c_fn)) a in
      let '(a2, rs) := spec_run a1 cs' in (a2, (if ok then k.(c_fn) else rejected) :: rs)
  end.

Lemma spec_run_app a cs1 cs2 : (spec_run a (cs1 ++ cs2)).1 = (spec_run (spec_run a cs1).1 cs2).1.
Proof.
  revert a. induction cs1 as [|k cs1 IH]; intros a; [done|]. simpl.
  destruct (spec_call _ _ _ _ _ _ a) as [a1 ok]. specialize (IH a1).
  by destruct (spec_run a1 (cs1 ++ cs2)), (spec_run a1 cs1).
Qed.

Lemma spec_run_cons a k cs :
  (spec_run a (k :: cs)).1 =
  (spec_run (spec_call c.(FailureThreshold) c.(SuccessThreshold) c.(Timeout)
               k.(c_start) k.(c_end) (failed k.(c_fn)) a).1 cs).1.
Proof. simpl. destruct (spec_call _ _ _ _ _ _ a) as [a1 ok]. simpl. by destruct (spec_run a1 cs). Qed.

Lemma spec_closed_failures n cs :
  Forall (λ k, failed k.(c_fn) = true) cs → (n + Z.of_nat (length cs) < c.(FailureThreshold))%Z →
  (spec_run (AClosed n) cs).1 = AClosed (n + Z.of_nat (length cs)).
Proof.
  revert n. induction cs as [|k cs IH]; intros n Hf Hn; [simpl; by rewrite Z.add_0_r|].
  apply Forall_cons in Hf as [Hk Hf]. cbn [length] in *. rewrite spec_run_cons, Hk.
  unfold spec_call. simpl. rewrite (proj2 (Z.leb_gt _ _)) by lia. rewrite IH by (done || lia). f_equal. lia.
Qed.

Lemma spec_half_successes n cs :
  Forall (λ k, failed k.(c_fn) = false) cs → (n + Z.of_nat (length cs) < c.(SuccessThreshold))%Z →
  (spec_run (AHalfOpen n) cs).1 = AHalfOpen (n + Z.of_nat (length cs)).
Proof.
  revert n. induction cs as [|k cs IH]; intros n Hf Hn; [simpl; by rewrite Z.add_0_r|].
  apply Forall_cons in Hf as [Hk Hf]. cbn [length] in *. rewrite spec_run_cons, Hk.
  unfold spec_call. simpl. rewrite (proj2 (Z.leb_gt _ _)) by lia. rewrite IH by (done || lia). f_equal. lia.
Qed.
End spec_run.

Lemma run_calls_refines cs cb : inv cb →
  inv (run_calls cb cs).1 ∧ (run_calls cb cs).1.(config) = cb.(config) ∧
  spec_run cb.(config) (is_failure cb) (abs cb) cs = (abs (run_calls cb cs).1, (run_calls cb cs).2).
Proof.
  revert cb. induction cs as [|k cs IH]; intros cb Hi; [done|]. simpl.
  pose proof (abs_call (c_start k) (c_end k) cb (c_fn k) Hi) as Hc.
  destruct (Call _ _ _ _) as [cb1 r]. destruct (spec_call _ _ _ _ _ _ _) as [a1 ok].
  destruct Hc as (Hi1 & Ec & <- & ->). destruct (IH cb1 Hi1) as (Hi2 & Ec2 & E).
  assert (Ef : is_failure cb1 = is_failure cb) by (unfold is_failure; by rewrite Ec).
  rewrite Ec, Ef in E. rewrite E. destruct (run_calls cb1 cs) as [cb2 rs]. simpl in *.
  split_and!; [done|congruence|done].
Qed.

(** ** Properties *)

(** C17: under every interleaving of goroutines, callbacks included, the breaker is
    in one of its three states, a closed breaker has counted fewer consecutive
    failures than its threshold, an open one no successes, and a half-open one
    fewer successes than its threshold; the counters never wrap where they are
    compared. *)
Theorem breaker_invariant `{ConnectLib} c s (Hc : int_config c)
    (Hrun : rtc step (mkSystem (NewCircuitBreaker c) []) s) :
  inv s.(breaker).
Proof.
  revert Hrun. generalize (inv_new c Hc : inv (breaker (mkSystem (NewCircuitBreaker c) []))).
  intros Hi Hrun. induction Hrun as [s|s1 s2 s3 Hs _ IH]; [done|]. by eapply IH, inv_step.
Qed.

Definition ex_conf : CircuitBreakerConfig := mkCircuitBreakerConfig 2 2 (10 * Second) None true.

Definition unavailable : option error := Some (NewError CodeUnavailable (Errorf "down" [])).

Lemma breaker_invariant_witness :
  int_config ex_conf ∧
  inv (recordResult_begin 7 (NewCircuitBreaker ex_conf) unavailable).1.
Proof.
  split; [by split; vm_compute|].
  refine (breaker_invariant ex_conf
    (mkSystem (recordResult_begin 7 (NewCircuitBreaker ex_conf) unavailable).1 []) _ _); [by split; vm_compute|].
  apply rtc_once.
  exact (step_record 7%Z unavailable (NewCircuitBreaker ex_conf) _ (Done tt) [] eq_refl).
Defined.

(** C3: without interference the breaker implements the abstract state machine
    Closed(n) / Open(since) / HalfOpen(n) on every sequence of calls: same states,
    same admissions, and an admitted call returns the function's own error, a
    rejected one Unavailable without running the function. *)
Theorem breaker_refines_spec cb cs (Hi : inv cb) :
  let '(cb', rs) := run_calls cb cs in
  inv cb' ∧ spec_run cb.(config) (is_failure cb) (abs cb) cs = (abs cb', rs).
Proof.
  destruct (run_calls_refines cs cb Hi) as (H1 & _ & E). by destruct (run_calls cb cs).
Qed.

Lemma breaker_refines_spec_witness :
  let cs := [mkCall 1 2 unavailable; mkCall 3 4 unavailable; mkCall 5 6 None] in
  spec_run ex_conf defaultIsFailure (AClosed 0) cs =
    (AOpen 4, [unavailable; unavailable; rejected]).
Proof.
  intros cs.
  pose proof (breaker_refines_spec (NewCircuitBreaker ex_conf) cs
    ltac:(apply inv_new; by split; vm_compute)) as H.
  destruct (run_calls (NewCircuitBreaker ex_conf) cs) as [cb' rs] eqn:E.
  vm_compute in E. injection E as <- <-. exact (proj2 H).
Defined.

(** The circuit opens exactly with the threshold-th consecutive failure,
    rejects every call until the timeout has passed since that failure, and closes
    again with the threshold-th consecutive success after it. *)
Theorem breaker_trips_and_recovers cb fails k
    (Hi : inv cb) (Hcl : cb.(state) = CircuitClosed) (H0 : cb.(consecutiveFailures) = 0%Z)
    (Hf : Forall (λ c, is_failure cb c.(c_fn) = true) (fails ++ [k]))
    (Hlen : Z.of_nat (length (fails ++ [k])) = cb.(config).(FailureThreshold)) :
  (run_calls cb fails).1.(state) = CircuitClosed ∧
  let cb1 := (run_calls cb (fails ++ [k])).1 in
  cb1.(state) = CircuitOpen ∧ cb1.(lastFailureTime) = k.(c_end) ∧
  (∀ t0 t1 fn, (Time_Sub t0 k.(c_end) < cb.(config).(Timeout))%Z → Call t0 t1 cb1 fn = (cb1, rejected)) ∧
  (∀ oks c, Forall (λ c, is_failure cb c.(c_fn) = false) (oks ++ [c]) →
     Z.of_nat (length (oks ++ [c])) = cb.(config).(SuccessThreshold) →
     (∀ c0, head (oks ++ [c]) = Some c0 → (cb.(config).(Timeout) ≤ Time_Sub c0.(c_start) k.(c_end))%Z) →
     (run_calls cb1 (oks ++ [c])).1.(state) = CircuitClosed).
Proof.
  apply Forall_app in Hf as [Hf [Hk _]%Forall_cons]. rewrite length_app in Hlen. simpl in Hlen.
  destruct (run_calls_refines fails cb Hi) as (Hi1 & _ & E1).
  destruct (run_calls_refines (fails ++ [k]) cb Hi) as (Hi2 & Ec2 & E2).
  apply (f_equal fst) in E1, E2. simpl in E1, E2.
  rewrite (abs_closed cb Hcl), H0 in E1, E2.
  rewrite (spec_closed_failures _ _ 0 fails Hf) in E1 by lia.
  rewrite spec_run_app, (spec_closed_failures _ _ 0 fails Hf) in E2 by lia.
  rewrite spec_run_cons, Hk in E2. unfold spec_call in E2. simpl in E2.
  rewrite (proj2 (Z.leb_le _ _)) in E2 by lia.
  split.
  { unfold abs in E1. by repeat case_bool_decide. }
  intros cb1. fold cb1 in E2, Hi2, Ec2.
  assert (Ho : cb1.(state) = CircuitOpen ∧ cb1.(lastFailureTime) = k.(c_end)).
  { unfold abs in E2. repeat case_bool_decide; simplify_eq; done. }
  destruct Ho as [Ho Hl]. split_and!; [done|done|..].
  - intros t0 t1 fn Ht. unfold Call, allowRequest, allowRequest_begin. rewrite Ho, Hl, Ec2. simpl.
    by rewrite (proj2 (Z.leb_gt _ _)).
  - intros oks c Hok Hol Hhd. apply Forall_app in Hok as [Hok [Hc _]%Forall_cons].
    rewrite length_app in Hol. simpl in Hol.
    destruct (run_calls_refines (oks ++ [c]) cb1 Hi2) as (_ & _ & E3). apply (f_equal fst) in E3. simpl in E3.
    assert (Ef : is_failure cb1 = is_failure cb) by (unfold is_failure; by rewrite Ec2).
    rewrite <- E2, Ef, Ec2 in E3.
    assert (E4 : (spec_run (config cb) (is_failure cb) (AOpen (c_end k)) (oks ++ [c])).1 = AClosed 0).
    { destruct oks as [|c0 oks].
      - simpl app. rewrite spec_run_cons. unfold spec_call. simpl.
        rewrite (proj2 (Z.leb_le _ _)) by by apply Hhd. simpl. rewrite Hc.
        simpl in Hol. by rewrite (proj2 (Z.leb_le _ _)) by lia.
      - apply Forall_cons in Hok as [Hc0 Hok]. cbn [length] in Hol.
        simpl app. rewrite spec_run_cons. unfold spec_call. simpl.
        rewrite (proj2 (Z.leb_le _ _)) by by apply Hhd. simpl. rewrite Hc0.
        rewrite (proj2 (Z.leb_gt _ _)) by lia. rewrite spec_run_app. cbn [fst].
        rewrite (spec_half_successes _ _ 1 oks Hok) by lia. rewrite spec_run_cons, Hc.
        unfold spec_call. simpl. by rewrite (proj2 (Z.leb_le _ _)) by lia. }
    rewrite E4 in E3. unfold abs in E3. by repeat case_bool_decide.
Qed.

Lemma breaker_trips_and_recovers_witness :
  let cb := NewCircuitBreaker ex_conf in
  let cb1 := (run_calls cb ([mkCall 1 2 unavailable] ++ [mkCall 3 4 unavailable])).1 in
  cb1.(state) = CircuitOpen ∧ Call 5 6 cb1 None = (cb1, rejected).
Proof.
  intros cb.
  destruct (breaker_trips_and_recovers cb [mkCall 1 2 unavailable] (mkCall 3 4 unavailable)
    ltac:(apply inv_new; by split; vm_compute) eq_refl eq_refl ltac:(repeat constructor) eq_refl)
    as (_ & H1 & _ & H2 & _).
  split; [exact H1|]. apply H2. by vm_compute.
Defined.

End circuitbreaker.
