(* ===== verification/GoFloat.v ===== *)
(** * Go's float64

    IEEE 754 binary64 numbers and the operations the program uses, as executable
    definitions on the Standard Library's specification of floating-point numbers:
    conversions, arithmetic, comparison, and [math.Pow] for an integral exponent,
    which follows the algorithm of the Go library. *)

From stdpp Require Import prelude.
From Stdlib Require Import ZArith SpecFloat.
From S2P Require Import Prelude.

Definition f64 := spec_float.
Definition f_prec : Z := 53.
Definition f_emax : Z := 1024.

(** [float64(z)] *)
Definition f_of_Z (z : Z) : f64 := binary_normalize f_prec f_emax z 0 false.
Definition f_mul : f64 → f64 → f64 := SFmul f_prec f_emax.
Definition f_add : f64 → f64 → f64 := SFadd f_prec f_emax.
Definition f_sub : f64 → f64 → f64 := SFsub f_prec f_emax.
Definition f_div : f64 → f64 → f64 := SFdiv f_prec f_emax.
Definition f_lt : f64 → f64 → bool := SFltb.
Definition f_le : f64 → f64 → bool := SFleb.
Definition f_eq : f64 → f64 → bool := SFeqb.

Definition f_one : f64 := f_of_Z 1.
(** The constant 0.5. *)
Definition f_half : f64 := f_div f_one (f_of_Z 2).

Definition is_nan (x : f64) : bool := match x with S754_nan => true | _ => false end.

(** [int64(x)]: truncation toward zero; out of range (where the Go specification
    leaves the value open) the result is the one of amd64, the least integer. *)
Definition f_to_int64 (x : f64) : Z :=
  match x with
  | S754_zero _ => 0%Z
  | S754_finite s m e =>
      let a := if (0 <=? e)%Z then (Zpos m * 2 ^ e)%Z else (Zpos m / 2 ^ (- e))%Z in
      let z := if s then (- a)%Z else a in
      if (min64 <=? z)%Z && (z <=? max64)%Z then z else min64
  | _ => min64
  end.

(** The loop of [math.Pow]: [i] the exponent still to do, [x1 * 2^xe] the power of
    the base for its lowest bit, [a1 * 2^ae] the product so far. *)
Fixpoint pow_loop (fuel : nat) (i : Z) (x1 : f64) (xe : Z) (a1 : f64) (ae : Z) : f64 * Z :=
  match fuel with
  | 0 => (a1, ae)
  | S fuel' =>
      if bool_decide (i = 0%Z) then (a1, ae)
      else if ((xe <? - 2 ^ 12) || (2 ^ 12 <? xe))%Z then (a1, (ae + xe)%Z)
      else
        let '(a1', ae') := if Z.odd i then (f_mul a1 x1, (ae + xe)%Z) else (a1, ae) in
        let x2 := f_mul x1 x1 in
        let xe2 := (2 * xe)%Z in
        if f_lt x2 f_half then pow_loop fuel' (i / 2) (f_add x2 x2) (xe2 - 1) a1' ae'
        else pow_loop fuel' (i / 2) x2 xe2 a1' ae'
  end.

(** [math.Pow(x, float64(n))] for [n >= 0]; 63 rounds exhaust an [int64] exponent. *)
Definition f_pow (x : f64) (n : Z) : f64 :=
  if bool_decide (n = 0%Z) || f_eq x f_one then f_one
  else if bool_decide (n = 1%Z) then x
  else
    match x with
    | S754_nan => S754_nan
    | S754_zero s => if Z.odd n then x else S754_zero false
    | S754_infinity s => if s && Z.odd n then S754_infinity true else S754_infinity false
    | S754_finite _ _ _ =>
        let '(x1, xe) := SFfrexp f_prec f_emax x in
        let '(a1, ae) := pow_loop 63 n x1 xe f_one 0 in
        SFldexp f_prec f_emax a1 ae
    end.

Lemma f_to_int64_in64 x : in64 (f_to_int64 x).
Proof.
  unfold f_to_int64, in64, min64, max64.
  repeat case_match; try lia; apply andb_true_iff in H1 as [?%Z.leb_le ?%Z.leb_le]; lia.
Qed.

#[export] Instance f64_eq_dec : EqDecision spec_float.
Proof. solve_decision. Defined.

Lemma SFcompare_refl x : is_nan x = false → SFcompare x x = Some Eq.
Proof.
  destruct x as [s|s| |s m e]; simpl; [done|by destruct s|done|]. intros _.
  rewrite Z.compare_refl. change (Pos.compare_cont Eq m m) with (Pos.compare m m).
  rewrite Pos.compare_refl. by destruct s.
Qed.

Lemma f_eq_refl x : is_nan x = false → f_eq x x = true.
Proof. intros H. unfold f_eq, SFeqb. by rewrite SFcompare_refl. Qed.

(** The idiom [if x > cap { x = cap }] leaves nothing above [cap]. *)
Lemma f_clamp_le x cap : f_lt cap (if f_lt cap x then cap else x) = false.
Proof.
  destruct (f_lt cap x) eqn:E; [|done]. destruct (is_nan cap) eqn:En.
  - by destruct cap.
  - unfold f_lt, SFltb. by rewrite SFcompare_refl.
Qed.

Definition is_finite (x : f64) : bool :=
  match x with S754_zero _ | S754_finite _ _ _ => true | _ => false end.

Lemma finite_not_nan x : is_finite x = true → is_nan x = false.
Proof. by destruct x. Qed.

(** ** Integers are exact below [2^53] *)

Definition exact_Z : Z := 2 ^ 53.

(** The representation of a positive integer below [exact_Z]: 53 digits. *)
Definition f_nat (z : Z) : f64 :=
  S754_finite false (Z.to_pos (z * 2 ^ (52 - Z.log2 z))) (Z.log2 z - 52).

Lemma digits2_log2 p : Zpos (digits2_pos p) = (Z.log2 (Zpos p) + 1)%Z.
Proof.
  induction p as [p IH|p IH|]; [| |done]; cbn [digits2_pos]; rewrite Pos2Z.inj_succ, IH.
  - rewrite (Pos2Z.inj_xI p), Z.log2_succ_double by lia. lia.
  - rewrite (Pos2Z.inj_xO p), Z.log2_double by lia. lia.
Qed.

Lemma iter_xO m d : Zpos (Pos.iter xO m d) = (Zpos m * 2 ^ Zpos d)%Z.
Proof.
  induction d as [|d IH] using Pos.peano_ind; [rewrite Z.pow_1_r, Z.mul_comm; done|].
  rewrite Pos.iter_succ, Pos2Z.inj_xO, IH, Pos2Z.inj_succ, Z.pow_succ_r by lia. lia.
Qed.

Lemma iter_pos_iter {A} (f : A → A) n x : iter_pos f n x = Pos.iter f x n.
Proof.
  assert (Hc : ∀ n x, f (Pos.iter f x n) = Pos.iter f (f x) n) by (intros; symmetry; by apply Pos.iter_swap).
  revert x. induction n as [n IH|n IH|]; intros x; simpl; [|by rewrite !IH|done].
  by rewrite !IH, <- !Hc.
Qed.

(** Shifting zeros out is exact. *)
Lemma shr_1_double m : (0 < m)%Z → shr_1 (Build_shr_record (2 * m) false false) = Build_shr_record m false false.
Proof. by destruct m. Qed.

Lemma shr_exact m e n : (0 < m)%Z → (0 ≤ n)%Z →
  shr (Build_shr_record (m * 2 ^ n) false false) e n = (Build_shr_record m false false, (e + n)%Z).
Proof.
  intros Hm Hn. destruct n as [|p|p]; [by rewrite Z.mul_1_r, Z.add_0_r| |lia]. cbn [shr]. f_equal.
  rewrite iter_pos_iter. clear Hn. revert m Hm. induction p as [|p IH] using Pos.peano_ind; intros m Hm.
  - rewrite Z.pow_1_r, Z.mul_comm. by apply shr_1_double.
  - rewrite Pos.iter_succ, Pos2Z.inj_succ, Z.pow_succ_r, Z.mul_assoc, (Z.mul_comm m 2), IH by lia.
    by apply shr_1_double.
Qed.

Lemma fexp_normal e : (-1021 ≤ e)%Z → fexp f_prec f_emax e = (e - 53)%Z.
Proof. unfold fexp, emin, f_prec, f_emax. lia. Qed.

Lemma Zdigits2_pos m : (0 < m)%Z → Zdigits2 m = (Z.log2 m + 1)%Z.
Proof. destruct m; intros ?; [lia|apply digits2_log2|lia]. Qed.

(** A mantissa of 53 digits and zeros behind it. *)
Lemma shr_fexp_exact m e n : Z.log2 m = 52%Z → (0 ≤ n)%Z → (-1000 ≤ e + n)%Z →
  shr_fexp f_prec f_emax (m * 2 ^ n) e loc_Exact = (Build_shr_record m false false, (e + n)%Z).
Proof.
  intros Hl Hn He. assert (Hm : (0 < m)%Z) by (destruct (Z.lt_trichotomy m 0) as [?|[->|?]]; [by rewrite Z.log2_nonpos in Hl by lia|done|done]).
  unfold shr_fexp. rewrite Zdigits2_pos by (apply Z.mul_pos_pos; [lia|by apply Z.pow_pos_nonneg]).
  rewrite Z.log2_mul_pow2, Hl, fexp_normal by lia. replace (_ - e)%Z with n by lia. by apply shr_exact.
Qed.

Lemma binary_round_aux_exact m e n : Z.log2 m = 52%Z → (0 ≤ n)%Z → (-1000 ≤ e + n ≤ 900)%Z →
  binary_round_aux f_prec f_emax false (m * 2 ^ n) e loc_Exact = S754_finite false (Z.to_pos m) (e + n).
Proof.
  intros Hl Hn He. unfold binary_round_aux. rewrite shr_fexp_exact by (done || lia). cbn [shr_m loc_of_shr_record round_nearest_even].
  pose proof (shr_fexp_exact m (e + n) 0 Hl ltac:(lia) ltac:(lia)) as E. rewrite Z.mul_1_r, Z.add_0_r in E. rewrite E. cbn [shr_m].
  destruct m as [|p|p]; [done| |by rewrite Z.log2_nonpos in Hl by lia].
  cbn [Z.to_pos]. rewrite (proj2 (Z.leb_le _ _)); [done|]. unfold f_emax, f_prec. lia.
Qed.

Lemma log2_below z : (0 < z < exact_Z)%Z → (0 ≤ Z.log2 z ≤ 52)%Z.
Proof.
  intros [Hz Hb]. split; [apply Z.log2_nonneg|]. apply Z.lt_succ_r. change (Z.succ 52) with 53%Z.
  by apply Z.log2_lt_pow2.
Qed.

Lemma log2_mantissa z : (0 < z < exact_Z)%Z → Z.log2 (z * 2 ^ (52 - Z.log2 z)) = 52%Z.
Proof. intros Hz. pose proof (log2_below z Hz). rewrite Z.log2_mul_pow2 by lia. lia. Qed.

(** An integer, however many zeros its mantissa comes with. *)
Lemma binary_round_int z k p : (0 < z < exact_Z)%Z → (0 ≤ k ≤ 52)%Z → Zpos p = (z * 2 ^ k)%Z →
  binary_round f_prec f_emax false p (- k) = f_nat z.
Proof.
  intros Hz Hk Hp. pose proof (log2_below z Hz) as Hd. pose proof (log2_mantissa z Hz) as Hm.
  unfold binary_round, f_nat. rewrite digits2_log2, Hp, Z.log2_mul_pow2, fexp_normal by lia.
  set (d := Z.log2 z) in *. replace (_ - 53)%Z with (d - 52)%Z by lia.
  unfold shl_align. destruct (d - 52 - - k)%Z as [|q|q] eqn:Eq.
  - assert (k = 52 - d)%Z as -> by lia. rewrite Hp. pose proof (binary_round_aux_exact _ (- (52 - d)) 0 Hm ltac:(lia) ltac:(lia)) as E.
    rewrite Z.mul_1_r in E. rewrite E. f_equal. lia.
  - rewrite Hp. replace (z * 2 ^ k)%Z with (z * 2 ^ (52 - d) * 2 ^ Zpos q)%Z.
    + rewrite binary_round_aux_exact by (done || lia). f_equal. lia.
    + rewrite <- Z.mul_assoc, <- Z.pow_add_r by lia. f_equal. f_equal. lia.
  - rewrite iter_xO, Hp, <- Z.mul_assoc, <- Z.pow_add_r by lia. replace (k + Zpos q)%Z with (52 - d)%Z by lia.
    pose proof (binary_round_aux_exact _ (d - 52) 0 Hm ltac:(lia) ltac:(lia)) as E. rewrite Z.mul_1_r, Z.add_0_r in E. exact E.
Qed.

Lemma f_of_Z_exact z : (0 < z < exact_Z)%Z → f_of_Z z = f_nat z.
Proof.
  intros Hz. unfold f_of_Z, binary_normalize. destruct z as [|p|p]; [lia| |lia].
  apply (binary_round_int (Zpos p) 0 p Hz); [lia|]. by rewrite Z.mul_1_r.
Qed.

(** The mantissa of an integer, aligned with a smaller exponent. *)
Lemma align_int z k : (0 < z < exact_Z)%Z → (52 - Z.log2 z ≤ k)%Z →
  Zpos (shl_align (Z.to_pos (z * 2 ^ (52 - Z.log2 z))) (Z.log2 z - 52) (- k)).1 = (z * 2 ^ k)%Z.
Proof.
  intros Hz Hk. pose proof (log2_below z Hz) as Hd. set (d := Z.log2 z) in *.
  assert (Hp : Zpos (Z.to_pos (z * 2 ^ (52 - d))) = (z * 2 ^ (52 - d))%Z).
  { apply Z2Pos.id, Z.mul_pos_pos; [lia|]. apply Z.pow_pos_nonneg; lia. }
  unfold shl_align. destruct (- k - (d - 52))%Z as [|q|q] eqn:Eq; [|lia|]; cbn [fst].
  - rewrite Hp. f_equal. f_equal. lia.
  - rewrite iter_xO, Hp, <- Z.mul_assoc, <- Z.pow_add_r by lia. f_equal. f_equal. lia.
Qed.

(** Counting down is exact. *)
Lemma f_sub_one z : (0 ≤ z)%Z → (z + 1 < exact_Z)%Z → f_sub (f_of_Z (z + 1)) f_one = f_of_Z z.
Proof.
  intros H0 Hz. rewrite f_of_Z_exact by lia. unfold f_one. rewrite (f_of_Z_exact 1) by (unfold exact_Z in *; lia).
  unfold f_sub, f_nat, SFsub. change (Z.log2 1 - 52)%Z with (-52)%Z. pose proof (log2_below (z + 1) ltac:(lia)) as Hd.
  rewrite Z.min_r by lia. cbn [cond_Zopp]. pose proof (align_int (z + 1) 52 ltac:(lia) ltac:(lia)) as E2. change (- (52))%Z with (-52)%Z in E2. rewrite E2.
  pose proof (align_int 1 52 ltac:(unfold exact_Z; lia) ltac:(done)) as E1. change (Z.log2 1 - 52)%Z with (-52)%Z in E1. change (- (52))%Z with (-52)%Z in E1.
  rewrite E1.
  replace ((z + 1) * 2 ^ 52 - 1 * 2 ^ 52)%Z with (z * 2 ^ 52)%Z by lia.
  destruct (decide (z = 0%Z)) as [->|Hne]; [done|]. rewrite f_of_Z_exact by lia.
  destruct (z * 2 ^ 52)%Z as [|p|p] eqn:Ep; [lia| |lia]. cbn [binary_normalize].
  by apply (binary_round_int z 52); [lia|lia|].
Qed.

(** Sums and products are exact. *)
Lemma f_add_exact x y : (0 ≤ x)%Z → (0 ≤ y)%Z → (x + y < exact_Z)%Z → f_add (f_of_Z x) (f_of_Z y) = f_of_Z (x + y).
Proof.
  intros Hx Hy Hb. destruct (decide (x = 0%Z)) as [->|Nx], (decide (y = 0%Z)) as [->|Ny]; [done|..].
  - rewrite Z.add_0_l, (f_of_Z_exact y) by lia. done.
  - rewrite Z.add_0_r, (f_of_Z_exact x) by lia. done.
  - rewrite !f_of_Z_exact by lia. pose proof (log2_below x ltac:(lia)) as Dx. pose proof (log2_below y ltac:(lia)) as Dy.
    set (k := (52 - Z.min (Z.log2 x) (Z.log2 y))%Z). set (R := f_nat (x + y)). unfold f_add, SFadd, f_nat.
    replace (Z.min (Z.log2 x - 52) (Z.log2 y - 52)) with (- k)%Z by lia. cbn [cond_Zopp].
        rewrite !align_int, <- Z.mul_add_distr_r by lia.
    destruct ((x + y) * 2 ^ k)%Z as [|p|p] eqn:Ep; cbn [binary_normalize].
    + assert (0 < 2 ^ k)%Z by (apply Z.pow_pos_nonneg; lia). nia.
    + by apply binary_round_int; [lia|lia|].
    + assert (0 < 2 ^ k)%Z by (apply Z.pow_pos_nonneg; lia). nia.
Qed.

Lemma f_mul_exact x y : (0 ≤ x < exact_Z)%Z → (0 ≤ y < exact_Z)%Z → (x * y < exact_Z)%Z →
  f_mul (f_of_Z x) (f_of_Z y) = f_of_Z (x * y).
Proof.
  intros Hx Hy Hb. destruct (decide (x = 0%Z)) as [->|Nx], (decide (y = 0%Z)) as [->|Ny]; [done|..].
  - rewrite (f_of_Z_exact y) by lia. done.
  - rewrite (f_of_Z_exact x), Z.mul_0_r by lia. done.
  - assert (Hp : (0 < x * y)%Z) by lia. rewrite !f_of_Z_exact by lia.
    pose proof (log2_below x ltac:(lia)) as Dx. pose proof (log2_below y ltac:(lia)) as Dy.
    pose proof (log2_below (x * y) ltac:(lia)) as D. pose proof (log2_mantissa (x * y) ltac:(lia)) as Hm.
    pose proof (Z.log2_mul_below x y ltac:(lia) ltac:(lia)) as Hl.
    set (R := f_nat (x * y)). unfold f_mul, SFmul, f_nat. cbn [xorb]. rewrite Pos2Z.inj_mul.
    rewrite !Z2Pos.id by (apply Z.mul_pos_pos; [lia|apply Z.pow_pos_nonneg; lia]).
    replace (x * 2 ^ (52 - Z.log2 x) * (y * 2 ^ (52 - Z.log2 y)))%Z
      with (x * y * 2 ^ (52 - Z.log2 (x * y)) * 2 ^ (52 + Z.log2 (x * y) - Z.log2 x - Z.log2 y))%Z.
    + rewrite binary_round_aux_exact by (done || lia). unfold R, f_nat. f_equal. lia.
    + replace (x * 2 ^ (52 - Z.log2 x) * (y * 2 ^ (52 - Z.log2 y)))%Z
        with (x * y * (2 ^ (52 - Z.log2 x) * 2 ^ (52 - Z.log2 y)))%Z by ring.
      rewrite <- Z.mul_assoc, <- !Z.pow_add_r by lia. f_equal. f_equal. lia.
Qed.

(** Comparison of integers. *)
Lemma f_compare_exact x y : (0 ≤ x < exact_Z)%Z → (0 ≤ y < exact_Z)%Z → SFcompare (f_of_Z x) (f_of_Z y) = Some (x ?= y)%Z.
Proof.
  intros Hx Hy. destruct (decide (x = 0%Z)) as [->|Nx], (decide (y = 0%Z)) as [->|Ny]; [done|..].
  - rewrite (f_of_Z_exact y) by lia. cbn. destruct y; [done|done|lia].
  - rewrite (f_of_Z_exact x) by lia. cbn. destruct x; [done|done|lia].
  - rewrite !f_of_Z_exact by lia. unfold f_nat. cbn [SFcompare]. f_equal.
    destruct (Z.compare_spec (Z.log2 x - 52) (Z.log2 y - 52)) as [E|L|L].
    + assert (Z.log2 x = Z.log2 y) as -> by lia. pose proof (log2_below y ltac:(lia)) as Hd.
      assert (Hp : (0 < 2 ^ (52 - Z.log2 y))%Z) by (apply Z.pow_pos_nonneg; lia).
      change (Pos.compare_cont Eq ?a ?b) with (Zpos a ?= Zpos b)%Z. rewrite !Z2Pos.id by lia.
      symmetry. by apply Zmult_compare_compat_r, Z.lt_gt.
    + symmetry. apply Z.compare_lt_iff, Z.log2_lt_cancel. lia.
    + symmetry. apply Z.compare_gt_iff, Z.log2_lt_cancel. lia.
Qed.

Lemma f_of_Z_finite z : (0 ≤ z < exact_Z)%Z → f_of_Z z = S754_zero false ∨ ∃ s m e, f_of_Z z = S754_finite s m e.
Proof.
  intros Hz. destruct (decide (z = 0%Z)) as [->|Hne]; [by left|right]. rewrite f_of_Z_exact by lia. unfold f_nat. eauto.
Qed.

#[export] Hint Resolve f_to_int64_in64 : go.
