(* ===== verification/GoRound.v ===== *)
(** * Rounding of float64

    What the binary64 operations of [GoFloat] do to non-negative numbers: results are
    canonical, and rounding never crosses a representable number.  Values are compared
    as integers, in units of 2^-2200, which is finer than any product. *)

From stdpp Require Import prelude.
From Stdlib Require Import ZArith SpecFloat.
From S2P Require Import Prelude GoFloat.

Open Scope Z_scope.

(** ** Values *)

Definition unit_exp : Z := 2200.

(** [m * 2^e], in units of 2^-2200. *)
Definition scaled (m e : Z) : Z := m * 2 ^ (e + unit_exp).

Definition canonical (m e : Z) : Prop := 0 < m < 2 ^ 53 ∧ -1074 ≤ e ≤ 971 ∧ (2 ^ 52 ≤ m ∨ e = -1074).

(** Zero, a positive number in canonical form, or infinity. *)
Definition nonneg (x : f64) : Prop :=
  match x with
  | S754_zero _ => True
  | S754_finite s m e => s = false ∧ canonical (Zpos m) e
  | S754_infinity s => s = false
  | S754_nan => False
  end.

Definition value (x : f64) : Z := match x with S754_finite _ m e => scaled (Zpos m) e | _ => 0 end.

Lemma scaled_pos e : -unit_exp ≤ e → 0 < 2 ^ (e + unit_exp).
Proof. intros. apply Z.pow_pos_nonneg; lia. Qed.

Lemma scaled_shift m e n : 0 ≤ n → -unit_exp ≤ e → scaled (m * 2 ^ n) e = scaled m (e + n).
Proof. intros. unfold scaled. rewrite <- Z.mul_assoc, <- Z.pow_add_r by lia. f_equal. f_equal. lia. Qed.

Lemma scaled_le m m' e : m ≤ m' → scaled m e ≤ scaled m' e.
Proof. intros. unfold scaled. apply Z.mul_le_mono_nonneg_r; [apply Z.pow_nonneg; lia|done]. Qed.

Lemma scaled_le_inv m m' e : -unit_exp ≤ e → scaled m e ≤ scaled m' e → m ≤ m'.
Proof. intros He. unfold scaled. pose proof (scaled_pos e He). nia. Qed.

Lemma value_nonneg x : nonneg x → 0 ≤ value x.
Proof.
  destruct x as [| | |s m e]; cbn; try done. intros [_ (_ & He & _)]. unfold scaled.
  pose proof (scaled_pos e ltac:(unfold unit_exp; lia)). nia.
Qed.

(** ** Comparison *)

Lemma scaled_lt_exp m1 e1 m2 e2 : canonical m1 e1 → canonical m2 e2 → e1 < e2 → scaled m1 e1 < scaled m2 e2.
Proof.
  intros (H1 & He1 & _) (H2 & He2 & Hc) Hlt. replace e2 with (e1 + (e2 - e1)) by lia.
  rewrite <- scaled_shift by (unfold unit_exp; lia). unfold scaled.
  pose proof (scaled_pos e1 ltac:(unfold unit_exp; lia)).
  apply Z.mul_lt_mono_pos_r; [done|]. assert (2 ^ 1 ≤ 2 ^ (e2 - e1)) by (apply Z.pow_le_mono_r; lia). nia.
Qed.

Lemma f_compare_value x y : nonneg x → nonneg y → is_finite x = true → is_finite y = true →
  SFcompare x y = Some (value x ?= value y).
Proof.
  destruct x as [| | |s1 m1 e1], y as [| | |s2 m2 e2]; try done; intros Hx Hy _ _.
  - destruct Hy as [-> Hc]. cbn [SFcompare value]. f_equal. symmetry. apply Z.compare_lt_iff. unfold scaled.
    pose proof (scaled_pos e2 ltac:(destruct Hc as (_ & ? & _); unfold unit_exp; lia)). nia.
  - destruct Hx as [-> Hc]. cbn [SFcompare value]. f_equal. symmetry. apply Z.compare_gt_iff. unfold scaled.
    pose proof (scaled_pos e1 ltac:(destruct Hc as (_ & ? & _); unfold unit_exp; lia)). nia.
  - destruct Hx as [-> Hc1], Hy as [-> Hc2]. cbn [SFcompare value]. f_equal.
    destruct (Z.compare_spec e1 e2) as [->|Hlt|Hlt].
    + unfold scaled. change (Pos.compare_cont Eq m1 m2) with (Zpos m1 ?= Zpos m2)%Z.
      apply Zmult_compare_compat_r, Z.lt_gt, scaled_pos. destruct Hc2 as (_ & ? & _). unfold unit_exp. lia.
    + symmetry. by apply Z.compare_lt_iff, scaled_lt_exp.
    + symmetry. by apply Z.compare_gt_iff, scaled_lt_exp.
Qed.

Lemma f_lt_value x y : nonneg x → nonneg y → is_finite x = true → is_finite y = true → f_lt x y = (value x <? value y).
Proof. intros. unfold f_lt, SFltb. rewrite f_compare_value by done. unfold Z.ltb. by destruct (value x ?= value y). Qed.

Lemma f_le_value x y : nonneg x → nonneg y → is_finite x = true → is_finite y = true → f_le x y = (value x <=? value y).
Proof. intros. unfold f_le, SFleb. rewrite f_compare_value by done. unfold Z.leb. by destruct (value x ?= value y). Qed.

(** ** Rounding *)

(** The exponent of the result. *)
Definition round_exp (p e : Z) : Z := Z.max (Z.log2 p - 52 + e) (-1074).

(** The result from its mantissa, which may be one bit too long. *)
Definition pack (q e : Z) : f64 :=
  if decide (q = 0) then S754_zero false
  else if decide (q = 2 ^ 53) then (if e + 1 <=? 971 then S754_finite false (2 ^ 52) (e + 1) else S754_infinity false)
  else if e <=? 971 then S754_finite false (Z.to_pos q) e else S754_infinity false.

(** [q] is [p / 2^n], rounded one way or the other. *)
Definition rounds (p n q : Z) : Prop := q = p / 2 ^ n ∨ (q = p / 2 ^ n + 1 ∧ p mod 2 ^ n ≠ 0).

(** Shifting keeps the quotient, and knows whether it is exact. *)
Lemma shr_1_div m r s : 0 ≤ m →
  shr_1 (Build_shr_record m r s) = Build_shr_record (m / 2) (Z.odd m) (r || s).
Proof.
  intros Hm. destruct m as [|[p|p|]|]; [done|..|lia]; cbn [shr_1 Z.odd]; f_equal.
  - apply Z.div_unique_pos with 1; lia.
  - apply Z.div_unique_pos with 0; lia.
Qed.

Lemma shr_div p e n : 0 ≤ p → 0 ≤ n → ∃ r s,
  shr (Build_shr_record p false false) e n = (Build_shr_record (p / 2 ^ n) r s, e + n) ∧
  (p mod 2 ^ n = 0 → r = false ∧ s = false).
Proof.
  intros Hp Hn. destruct n as [|n|n]; [exists false, false; by rewrite Z.div_1_r, Z.add_0_r| |lia].
  cbn [shr]. rewrite iter_pos_iter. clear Hn. induction n as [|n (r & s & E & Hx)] using Pos.peano_ind.
  - cbn [Pos.iter]. rewrite shr_1_div by done. exists (Z.odd p), false. rewrite Z.pow_1_r. split; [done|].
    intros Hm. rewrite Zodd_mod, Hm. done.
  - rewrite Pos.iter_succ. injection E as E. rewrite E, shr_1_div by (apply Z.div_pos; [done|apply Z.pow_pos_nonneg; lia]).
    rewrite Pos2Z.inj_succ, Z.pow_succ_r, (Z.mul_comm 2) by lia. assert (Hp2 : 0 < 2 ^ Zpos n) by (apply Z.pow_pos_nonneg; lia).
    rewrite Zdiv.Zdiv_Zdiv by lia. eexists _, _. split; [reflexivity|]. intros Hm. rewrite Z.rem_mul_r in Hm by lia.
    pose proof (Z.mod_pos_bound p (2 ^ Zpos n) Hp2). pose proof (Z.mod_pos_bound (p / 2 ^ Zpos n) 2 ltac:(lia)).
    destruct (Hx ltac:(nia)) as [-> ->]. split; [|done]. rewrite Zodd_mod. by replace ((p / 2 ^ Zpos n) mod 2) with 0 by nia.
Qed.

Lemma fexp_round p e : 0 < p → fexp f_prec f_emax (Zdigits2 p + e) = round_exp p e.
Proof. intros Hp. rewrite Zdigits2_pos by done. unfold fexp, emin, round_exp, f_prec, f_emax. lia. Qed.

Section rounded.
Context (p e q : Z) (Hp : 0 < p) (He : e ≤ round_exp p e) (Hq : rounds p (round_exp p e - e) q).

Let n := round_exp p e - e.

Lemma pow_n : 0 < 2 ^ n.
Proof. apply Z.pow_pos_nonneg; unfold n; lia. Qed.

(** The quotient has 53 bits, fewer only at the least exponent. *)
Lemma quotient_bits : 0 ≤ p / 2 ^ n < 2 ^ 53 ∧ (2 ^ 52 ≤ p / 2 ^ n ∨ round_exp p e = -1074).
Proof.
  pose proof pow_n as Hn. pose proof (Z.log2_spec p Hp) as [Hl Hu]. pose proof (Z.log2_nonneg p). split; [split|].
  - apply Z.div_pos; lia.
  - apply Z.div_lt_upper_bound; [done|]. eapply Z.lt_le_trans; [exact Hu|]. rewrite <- Z.pow_add_r by (unfold n; lia).
    apply Z.pow_le_mono_r; [lia|]. unfold n, round_exp. lia.
  - destruct (decide (round_exp p e = -1074)) as [|Hne]; [by right|left]. apply Z.div_le_lower_bound; [done|].
    rewrite <- Z.pow_add_r by (unfold n; lia). etrans; [|exact Hl]. apply Z.pow_le_mono_r; [lia|]. unfold n, round_exp in *. lia.
Qed.

Lemma rounded_bits : 0 ≤ q ≤ 2 ^ 53 ∧ (2 ^ 52 ≤ q ∨ round_exp p e = -1074).
Proof. destruct quotient_bits as [Hd Hc]. destruct Hq as [Hr|[Hr _]]; fold n in Hr; lia. Qed.

Lemma round_exp_least : -1074 ≤ round_exp p e.
Proof. unfold round_exp. lia. Qed.

Lemma pack_nonneg : nonneg (pack q (round_exp p e)).
Proof.
  destruct rounded_bits as [Hb Hc]. pose proof round_exp_least. unfold pack.
  case_decide as H0; [done|]. case_decide as H1.
  - destruct (Z.leb_spec (round_exp p e + 1) 971); [|done]. split; [done|]. unfold canonical. cbn. split_and!; lia.
  - destruct (Z.leb_spec (round_exp p e) 971); [|done]. split; [done|]. unfold canonical. rewrite Z2Pos.id by lia. split_and!; lia.
Qed.

Lemma pack_value : is_finite (pack q (round_exp p e)) = true → value (pack q (round_exp p e)) = scaled q (round_exp p e).
Proof.
  destruct rounded_bits as [Hb Hc]. pose proof round_exp_least. unfold pack.
  case_decide as H0; [by subst q|]. case_decide as H1.
  - destruct (_ <=? _); [|done]. intros _. cbn [value]. rewrite H1. change (2 ^ 53) with (2 ^ 52 * 2 ^ 1).
    by rewrite scaled_shift by (unfold unit_exp; lia).
  - destruct (_ <=? _); [|done]. intros _. cbn [value]. by rewrite Z2Pos.id by lia.
Qed.

(** Between the exact number and its rounding there is no representable one. *)
Lemma rounded_lower a k : -unit_exp ≤ e → -1074 ≤ k → 0 ≤ a ≤ 2 ^ 53 → scaled a k ≤ scaled p e → scaled a k ≤ scaled q (round_exp p e).
Proof.
  intros Hu Hk Ha Hle. pose proof pow_n as Hn. pose proof round_exp_least.
  assert (Hu' : -unit_exp ≤ round_exp p e) by (unfold unit_exp in *; lia).
  transitivity (scaled (p / 2 ^ n) (round_exp p e)); [|apply scaled_le; destruct Hq as [Hr|[Hr _]]; fold n in Hr; lia].
  destruct (Z.le_gt_cases (round_exp p e) k) as [Hge|Hlt].
  - replace k with (round_exp p e + (k - round_exp p e)) in * by lia. rewrite <- scaled_shift in * by lia.
    apply scaled_le, Z.div_le_lower_bound; [done|]. apply (scaled_le_inv _ _ e Hu). etrans; [|exact Hle].
    rewrite Z.mul_comm, scaled_shift by (unfold n; lia). by replace (e + n) with (round_exp p e) by (unfold n; lia).
  - destruct quotient_bits as [_ [Hb|Hb]]; [|lia]. transitivity (scaled (2 ^ 52) (round_exp p e)); [|by apply scaled_le].
    transitivity (scaled (2 ^ 53) k); [apply scaled_le; lia|]. rewrite <- (Z.mul_1_l (2 ^ 53)), <- (Z.mul_1_l (2 ^ 52)).
    rewrite !scaled_shift by (unfold unit_exp in *; lia). unfold scaled. rewrite !Z.mul_1_l. apply Z.pow_le_mono_r; lia.
Qed.

Lemma rounded_upper a k : -unit_exp ≤ e → -1074 ≤ k → 0 ≤ a ≤ 2 ^ 53 → scaled p e ≤ scaled a k → scaled q (round_exp p e) ≤ scaled a k.
Proof.
  intros Hu Hk Ha Hle. pose proof pow_n as Hn. pose proof round_exp_least.
  assert (Hu' : -unit_exp ≤ round_exp p e) by (unfold unit_exp in *; lia).
  assert (Hen : e + n = round_exp p e) by (unfold n; lia).
  destruct (Z.le_gt_cases (round_exp p e) k) as [Hge|Hlt].
  - replace k with (round_exp p e + (k - round_exp p e)) in * by lia. rewrite <- scaled_shift in * by lia.
    set (a' := a * 2 ^ (k - round_exp p e)) in *. apply scaled_le.
    assert (Hpa : p ≤ a' * 2 ^ n) by (apply (scaled_le_inv _ _ e Hu); by rewrite scaled_shift, Hen by (unfold n; lia)).
    destruct Hq as [Hr|[Hr Hm]]; fold n in Hr; rewrite Hr.
    + apply Z.div_le_upper_bound; [done|]. by rewrite Z.mul_comm.
    + apply Zlt_le_succ, Z.div_lt_upper_bound; [done|]. rewrite Z.mul_comm. fold n in Hm.
      destruct (decide (p = a' * 2 ^ n)) as [E|]; [|lia]. exfalso. apply Hm. rewrite E. by apply Z.mod_mul, Z.neq_sym, Z.lt_neq.
  - destruct quotient_bits as [_ [Hb|Hb]]; [|lia].
    assert (Hlow : 2 ^ 52 * 2 ^ n ≤ p) by (pose proof (Z.mul_div_le p (2 ^ n) Hn); nia).
    assert (Hup : p ≤ 2 ^ 52 * 2 ^ n).
    { apply (scaled_le_inv _ _ e Hu). etrans; [exact Hle|]. rewrite scaled_shift, Hen by (unfold n; lia).
      transitivity (scaled (2 ^ 53) k); [apply scaled_le; lia|]. rewrite <- (Z.mul_1_l (2 ^ 53)), <- (Z.mul_1_l (2 ^ 52)).
      rewrite !scaled_shift by (unfold unit_exp in *; lia). unfold scaled. rewrite !Z.mul_1_l. apply Z.pow_le_mono_r; lia. }
    assert (Ep : p = 2 ^ 52 * 2 ^ n) by lia. assert (Eq : q = 2 ^ 52).
    { destruct Hq as [Hr|[Hr Hm]]; fold n in Hr; rewrite Hr, ?Ep, ?Z.div_mul by lia; [done|]. exfalso. apply Hm. fold n.
      rewrite Ep. by apply Z.mod_mul, Z.neq_sym, Z.lt_neq. }
    rewrite Eq. rewrite <- Hen, <- scaled_shift by (unfold n; lia). by rewrite <- Ep.
Qed.

(** What is not above a finite number does not overflow. *)
Lemma pack_finite a k : canonical a k → scaled q (round_exp p e) ≤ scaled a k → is_finite (pack q (round_exp p e)) = true.
Proof.
  intros (Ha & Hk & _) Hle. destruct rounded_bits as [Hb Hc]. pose proof round_exp_least.
  assert (Hmax : scaled a k < scaled 1 1024).
  { eapply Z.le_lt_trans with (scaled a 971).
    - unfold scaled. apply Z.mul_le_mono_nonneg_l; [lia|]. apply Z.pow_le_mono_r; unfold unit_exp; lia.
    - unfold scaled. change (1024 + unit_exp) with (53 + (971 + unit_exp)). rewrite (Z.pow_add_r 2 53 (971 + unit_exp)), Z.mul_1_l by (unfold unit_exp; lia).
      apply Z.mul_lt_mono_pos_r; [|lia]. apply scaled_pos. unfold unit_exp. lia. }
  assert (Hbig : ∀ b, scaled 1 (b + round_exp p e) ≤ scaled q (round_exp p e) → 0 ≤ b → b + round_exp p e < 1024).
  { intros b Hs H0. destruct (Z.lt_ge_cases (b + round_exp p e) 1024) as [|Hge]; [done|]. exfalso.
    assert (scaled 1 1024 ≤ scaled 1 (b + round_exp p e)); [|lia]. unfold scaled. rewrite !Z.mul_1_l.
    apply Z.pow_le_mono_r; unfold unit_exp; lia. }
  unfold pack. case_decide; [done|]. case_decide as H1.
  - rewrite (proj2 (Z.leb_le _ _)); [done|]. assert (53 + round_exp p e < 1024); [|lia]. apply Hbig; [|lia]. rewrite H1.
    rewrite Z.add_comm, <- scaled_shift, Z.mul_1_l by (unfold unit_exp; lia). done.
  - rewrite (proj2 (Z.leb_le _ _)); [done|]. destruct Hc as [Hc|Hc]; [|lia]. assert (52 + round_exp p e < 1024); [|lia].
    apply Hbig; [|lia]. rewrite Z.add_comm, <- scaled_shift, Z.mul_1_l by (unfold unit_exp; lia). by apply scaled_le.
Qed.
End rounded.

(** ** Operations *)

(** [x] is [p * 2^e], rounded. *)
Definition is_rounding (p e : Z) (x : f64) : Prop :=
  ∃ e' q, e' ≤ e ∧ (-unit_exp ≤ e → -unit_exp ≤ e') ∧ e' ≤ round_exp (p * 2 ^ (e - e')) e' ∧
    rounds (p * 2 ^ (e - e')) (round_exp (p * 2 ^ (e - e')) e' - e') q ∧ x = pack q (round_exp (p * 2 ^ (e - e')) e').

Section is_rounding.
Context (p e : Z) (x : f64) (Hp : 0 < p) (Hx : is_rounding p e x).

Lemma shifted_pos e' : e' ≤ e → 0 < p * 2 ^ (e - e').
Proof. intros. apply Z.mul_pos_pos; [done|]. apply Z.pow_pos_nonneg; lia. Qed.

Lemma rounding_nonneg : nonneg x.
Proof. destruct Hx as (e' & q & He & _ & Hr & Hq & ->). by apply (pack_nonneg _ e' q (shifted_pos e' He)). Qed.

Context (He : -unit_exp ≤ e).

Lemma rounding_lower a k : is_finite x = true → -1074 ≤ k → 0 ≤ a ≤ 2 ^ 53 → scaled a k ≤ scaled p e → scaled a k ≤ value x.
Proof.
  destruct Hx as (e' & q & Hle & Hu & Hr & Hq & ->). intros Hf Hk Ha Hs. pose proof (shifted_pos e' Hle) as Hp'.
  rewrite (pack_value _ e' q Hp' Hr Hq Hf). apply rounded_lower; [done..|by apply Hu|done|done|].
  rewrite scaled_shift by (lia || by apply Hu). by replace (e' + (e - e')) with e by lia.
Qed.

Lemma rounding_upper a k : canonical a k → scaled p e ≤ scaled a k → is_finite x = true ∧ value x ≤ scaled a k.
Proof.
  destruct Hx as (e' & q & Hle & Hu & Hr & Hq & ->). intros Hc Hs. pose proof (shifted_pos e' Hle) as Hp'.
  assert (Hq' : scaled q (round_exp (p * 2 ^ (e - e')) e') ≤ scaled a k).
  { destruct Hc as (Ha & Hk & _). apply rounded_upper; [done..|by apply Hu|lia|lia|].
    rewrite scaled_shift by (lia || by apply Hu). by replace (e' + (e - e')) with e by lia. }
  pose proof (pack_finite _ e' q Hp' Hr Hq a k Hc Hq') as Hf. split; [done|]. by rewrite (pack_value _ e' q Hp' Hr Hq Hf).
Qed.

(** Against another number. *)
Lemma rounding_le y : nonneg y → is_finite y = true → scaled p e ≤ value y → is_finite x = true ∧ value x ≤ value y.
Proof.
  intros Hy Hfy Hs. destruct y as [| | |s m k]; try done; [|destruct Hy as [-> Hc]; by apply rounding_upper].
  exfalso. cbn in Hs. unfold scaled in Hs. pose proof (scaled_pos e He). nia.
Qed.

Lemma rounding_ge y : is_finite x = true → nonneg y → is_finite y = true → value y ≤ scaled p e → value y ≤ value x.
Proof.
  intros Hf Hy Hfy Hs. destruct y as [| | |s m k]; try done; [by apply value_nonneg, rounding_nonneg|].
  destruct Hy as [-> (Hm & Hk & _)]. apply rounding_lower; [done|lia|cbn; lia|done].
Qed.
End is_rounding.

Lemma round_exp_shift p e n : 0 < p → 0 ≤ n → round_exp (p * 2 ^ n) (e - n) = round_exp p e.
Proof. intros. unfold round_exp. rewrite Z.log2_mul_pow2 by lia. f_equal. lia. Qed.

Lemma shr_none r e n : n ≤ 0 → shr r e n = (r, e).
Proof. by destruct n. Qed.

Lemma binary_round_aux_pack p e : 0 < p → e ≤ round_exp p e → ∃ q,
  rounds p (round_exp p e - e) q ∧ binary_round_aux f_prec f_emax false p e loc_Exact = pack q (round_exp p e).
Proof.
  intros Hp He. unfold binary_round_aux, shr_fexp. rewrite fexp_round by done. set (n := round_exp p e - e).
  destruct (shr_div p e n ltac:(lia) ltac:(unfold n; lia)) as (r & s & Es & Hx). cbn [shr_record_of_loc]. rewrite Es. cbn [shr_m].
  set (q := round_nearest_even (p / 2 ^ n) (loc_of_shr_record (Build_shr_record (p / 2 ^ n) r s))).
  assert (Hq : rounds p n q).
  { unfold rounds, q. destruct (decide (p mod 2 ^ n = 0)) as [Hm|Hm].
    - destruct (Hx Hm) as [-> ->]. by left.
    - destruct r, s; cbn; [by right| |by left|by left]. destruct (Z.even _); [by left|by right]. }
  exists q. split; [done|]. replace (e + n) with (round_exp p e) by (unfold n; lia).
  destruct (rounded_bits p e q Hp He Hq) as [Hb Hc]. pose proof (round_exp_least p e) as Hl.
  unfold pack. case_decide as H0.
  { rewrite H0, shr_none; [done|]. change (Zdigits2 0) with 0. unfold fexp, emin, f_prec, f_emax. lia. }
  case_decide as H1.
  - rewrite H1. cbn [shr_record_of_loc]. change (Zdigits2 (2 ^ 53)) with 54. unfold fexp, emin, f_prec, f_emax.
    replace (_ - round_exp p e) with 1 by lia. reflexivity.
  - assert (Hle : round_exp q (round_exp p e) ≤ round_exp p e).
    { unfold round_exp at 1. assert (Z.log2 q ≤ 52); [|lia]. apply Z.lt_succ_r, Z.log2_lt_pow2; cbn; lia. }
    rewrite fexp_round, shr_none by lia. cbn [shr_m shr_record_of_loc]. by destruct q as [|q'|q']; [|done|lia].
Qed.

Lemma binary_round_aux_rounding p e : 0 < p → e ≤ round_exp p e → is_rounding p e (binary_round_aux f_prec f_emax false p e loc_Exact).
Proof.
  intros Hp He. destruct (binary_round_aux_pack p e Hp He) as (q & Hq & ->). exists e, q.
  rewrite Z.sub_diag, Z.mul_1_r. by split_and!.
Qed.

Lemma binary_round_rounding p e : is_rounding (Zpos p) e (binary_round f_prec f_emax false p e).
Proof.
  unfold binary_round. change (Zpos (digits2_pos p)) with (Zdigits2 (Zpos p)). rewrite fexp_round by done.
  set (E := round_exp (Zpos p) e). assert (HE : -1074 ≤ E) by apply round_exp_least.
  unfold shl_align. destruct (E - e) as [|d|d] eqn:Ed.
  - apply binary_round_aux_rounding; [done|]. fold E. lia.
  - apply binary_round_aux_rounding; [done|]. fold E. lia.
  - assert (HEe : E = e - Zpos d) by lia.
    pose proof (round_exp_shift (Zpos p) e (Zpos d) ltac:(done) ltac:(lia)) as Hs. rewrite <- HEe in Hs. fold E in Hs.
    destruct (binary_round_aux_pack (Zpos (Pos.iter xO p d)) E) as (q & Hq & Eq); [done|rewrite iter_xO, Hs; lia|].
    rewrite Eq. exists E, q. replace (e - E) with (Zpos d) by lia. rewrite iter_xO in *.
    split_and!; [lia|unfold unit_exp; lia|rewrite Hs; lia|done|done].
Qed.

(** *** Constants and integers *)

Lemma f_one_eq : f_one = S754_finite false (2 ^ 52) (-52).
Proof. reflexivity. Qed.

Lemma f_half_eq : f_half = S754_finite false (2 ^ 52) (-53).
Proof. reflexivity. Qed.

Lemma one_nonneg : nonneg f_one.
Proof. rewrite f_one_eq. split; [done|]. unfold canonical. split_and!; lia. Qed.

Lemma half_nonneg : nonneg f_half.
Proof. rewrite f_half_eq. split; [done|]. unfold canonical. split_and!; lia. Qed.

Lemma value_one : value f_one = 2 ^ unit_exp.
Proof. rewrite f_one_eq. reflexivity. Qed.

Lemma value_half : 2 * value f_half = 2 ^ unit_exp.
Proof. rewrite f_half_eq. reflexivity. Qed.

Lemma f_of_Z_nonneg z : 0 ≤ z → nonneg (f_of_Z z).
Proof.
  intros Hz. destruct z as [|p|]; [done| |lia]. apply (rounding_nonneg (Zpos p) 0); [done|]. apply binary_round_rounding.
Qed.

Lemma value_of_Z z : 0 ≤ z < exact_Z → value (f_of_Z z) = scaled z 0.
Proof.
  intros Hz. destruct (decide (z = 0)) as [->|Hne]; [done|]. rewrite f_of_Z_exact by lia. unfold f_nat. cbn [value].
  pose proof (log2_below z ltac:(lia)). rewrite Z2Pos.id by (apply Z.mul_pos_pos; [lia|apply Z.pow_pos_nonneg; lia]).
  rewrite scaled_shift by (unfold unit_exp; lia). f_equal. lia.
Qed.

Lemma finite_of_Z z : 0 ≤ z < exact_Z → is_finite (f_of_Z z) = true.
Proof. intros Hz. by destruct (f_of_Z_finite z Hz) as [->|(? & ? & ? & ->)]. Qed.

(** Truncation. *)
Lemma f_to_int64_value x : nonneg x → is_finite x = true → value x < scaled (2 ^ 63) 0 → f_to_int64 x = value x / 2 ^ unit_exp.
Proof.
  destruct x as [| | |s m e]; try done. intros [-> (Hm & He & _)] _ Hb. unfold f_to_int64. cbn [value] in *.
  set (a := if 0 <=? e then Zpos m * 2 ^ e else Zpos m / 2 ^ (- e)).
  assert (Ea : a = scaled (Zpos m) e / 2 ^ unit_exp).
  { unfold a, scaled. destruct (Z.leb_spec 0 e).
    - rewrite Z.pow_add_r, Z.mul_assoc, Z.div_mul; unfold unit_exp; lia.
    - replace unit_exp with (- e + (e + unit_exp)) at 2 by lia. rewrite (Z.pow_add_r 2 (- e)) by (unfold unit_exp; lia).
      pose proof (scaled_pos e ltac:(unfold unit_exp; lia)). assert (0 < 2 ^ (- e)) by (apply Z.pow_pos_nonneg; lia).
      by rewrite Z.div_mul_cancel_r by lia. }
  rewrite Ea. assert (0 ≤ scaled (Zpos m) e / 2 ^ unit_exp < 2 ^ 63).
  { split; [apply Z.div_pos; [unfold scaled; pose proof (scaled_pos e ltac:(unfold unit_exp; lia)); nia|done]|].
    apply Z.div_lt_upper_bound; [done|]. by rewrite Z.mul_comm. }
  rewrite !(proj2 (Z.leb_le _ _)) by (unfold min64, max64; lia). done.
Qed.

(** *** Products *)

Lemma f_mul_rounding m1 e1 m2 e2 : canonical (Zpos m1) e1 → canonical (Zpos m2) e2 →
  is_rounding (Zpos m1 * Zpos m2) (e1 + e2) (f_mul (S754_finite false m1 e1) (S754_finite false m2 e2)).
Proof.
  intros (H1 & He1 & Hc1) (H2 & He2 & Hc2). unfold f_mul, SFmul. cbn [xorb]. rewrite Pos2Z.inj_mul. apply binary_round_aux_rounding; [done|].
  unfold round_exp. destruct (decide (e1 + e2 ≤ -1074)) as [|Hgt]; [lia|].
  assert (2 ^ 52 ≤ Zpos m1 * Zpos m2) as Hb.
  { destruct (decide (2 ^ 52 ≤ Zpos m1)) as [Hb|Hb]; [|assert (2 ^ 52 ≤ Zpos m2) by lia].
    - rewrite <- (Z.mul_1_r (2 ^ 52)). by apply Z.mul_le_mono_nonneg; [| |lia|lia].
    - rewrite <- (Z.mul_1_l (2 ^ 52)). by apply Z.mul_le_mono_nonneg; [lia|lia| |]. }
  apply Z.log2_le_mono in Hb. rewrite Z.log2_pow2 in Hb by lia. lia.
Qed.

Lemma f_mul_nonneg x y : nonneg x → nonneg y → is_finite x = true → (is_finite y = true ∨ 0 < value x) → nonneg (f_mul x y).
Proof.
  destruct x as [| | |s1 m1 e1], y as [| | |s2 m2 e2]; try done; try (by intros _ _ _ [|]).
  - by intros [-> _] ->.
  - intros [-> H1] [-> H2] _ _. by eapply rounding_nonneg; [|apply f_mul_rounding].
Qed.

Lemma scaled_mul m1 e1 m2 e2 : -1074 ≤ e1 → -1074 ≤ e2 → scaled (m1 * m2) (e1 + e2) * 2 ^ unit_exp = scaled m1 e1 * scaled m2 e2.
Proof.
  intros. unfold scaled. transitivity (m1 * m2 * (2 ^ (e1 + e2 + unit_exp) * 2 ^ unit_exp)); [ring|].
  transitivity (m1 * m2 * (2 ^ (e1 + unit_exp) * 2 ^ (e2 + unit_exp))); [|ring]. f_equal.
  rewrite <- !Z.pow_add_r by (unfold unit_exp; lia). f_equal. lia.
Qed.

(** Multiplying by a number up to one. *)
Lemma f_mul_le x y : nonneg x → nonneg y → is_finite x = true → is_finite y = true → value y ≤ value f_one →
  is_finite (f_mul x y) = true ∧ value (f_mul x y) ≤ value x.
Proof.
  destruct x as [| | |s1 m1 e1], y as [| | |s2 m2 e2]; try done.
  { intros Hx _ _ _ _. split; [done|]. by apply value_nonneg. }
  intros [-> H1] [-> H2] _ _ Hv. pose proof (f_mul_rounding _ _ _ _ H1 H2) as Hr.
  eapply rounding_upper; [|exact Hr|..]; [done|destruct H1 as (_ & ? & _), H2 as (_ & ? & _); unfold unit_exp; lia|done|].
  pose proof (scaled_mul (Zpos m1) e1 (Zpos m2) e2 ltac:(apply H1) ltac:(apply H2)) as Hm.
  rewrite value_one in Hv. cbn [value] in Hv. pose proof (value_nonneg (S754_finite false m1 e1) (conj eq_refl H1)) as Hn. cbn [value] in Hn.
  apply (Z.mul_le_mono_pos_r _ _ (2 ^ unit_exp)); [done|]. rewrite Hm. by apply Z.mul_le_mono_nonneg_l.
Qed.

(** Multiplying by a number from a half to one, and truncating. *)
Lemma f_mul_half x y : nonneg x → nonneg y → is_finite x = true → is_finite y = true →
  value f_half ≤ value y ≤ value f_one → value x < scaled (2 ^ 63) 0 →
  f_to_int64 x / 2 ≤ f_to_int64 (f_mul x y) ≤ f_to_int64 x.
Proof.
  intros Hx Hy Hfx Hfy [Hl Hu] Hb. destruct (f_mul_le x y Hx Hy Hfx Hfy Hu) as [Hf Hle].
  assert (Hn : nonneg (f_mul x y)) by (apply f_mul_nonneg; auto).
  rewrite !f_to_int64_value by (done || lia). split; [|apply Z.div_le_mono; [done|lia]].
  rewrite Z.div_div, (Z.mul_comm _ 2), <- Z.div_div by done.
  destruct x as [| | |s1 m1 e1], y as [| | |s2 m2 e2]; try done. destruct Hx as [-> H1], Hy as [-> H2].
  destruct (decide (e1 = -1074)) as [->|He].
  - transitivity 0; [|apply Z.div_pos; [by apply value_nonneg|done]]. apply Z.lt_succ_r, Z.div_lt_upper_bound; [done|].
    apply Z.div_lt_upper_bound; [done|]. cbn [value]. unfold scaled, unit_exp. destruct H1 as [H1 _].
    eapply Z.lt_le_trans; [apply Z.mul_lt_mono_pos_r; [|apply H1]|]; by apply Z.leb_le || by apply Z.ltb_lt.
  - apply Z.div_le_mono; [done|]. destruct H1 as (Hm & He1 & Hc1). cbn [value] in Hl |- *.
    assert (E2 : scaled (Zpos m1) e1 = scaled (Zpos m1) (e1 - 1) * 2).
    { replace e1 with (e1 - 1 + 1) at 1 by lia. rewrite <- scaled_shift by (unfold unit_exp; lia). unfold scaled. ring. }
    rewrite E2, Z.div_mul by done. pose proof (f_mul_rounding m1 e1 m2 e2 ltac:(done) H2) as Hr.
    eapply rounding_lower; [|exact Hr|..]; [done|destruct H2 as (_ & ? & _); unfold unit_exp; lia|done|lia|lia|].
    pose proof (scaled_mul (Zpos m1) e1 (Zpos m2) e2 ltac:(lia) ltac:(apply H2)) as Hmul. pose proof value_half as Hh.
    pose proof (scaled_pos (e1 - 1) ltac:(unfold unit_exp; lia)) as Hpos. rewrite E2 in Hmul.
    assert (0 < scaled (Zpos m1) (e1 - 1)) by (unfold scaled; nia).
    apply (Z.mul_le_mono_pos_r _ _ (2 ^ unit_exp)); [done|]. rewrite Hmul. nia.
Qed.

(** *** Sums and differences *)

Lemma shl_align_mantissa m e k : k ≤ e → Zpos (shl_align m e k).1 = Zpos m * 2 ^ (e - k).
Proof.
  intros Hk. unfold shl_align. destruct (k - e) as [|d|d] eqn:Ed; [|lia|]; cbn [fst].
  - replace (e - k) with 0 by lia. by rewrite Z.mul_1_r.
  - rewrite iter_xO. f_equal. f_equal. lia.
Qed.

Lemma scaled_align m e k : -unit_exp ≤ k ≤ e → scaled (m * 2 ^ (e - k)) k = scaled m e.
Proof. intros. rewrite scaled_shift by lia. f_equal. lia. Qed.

(** A sum or a difference of mantissas at a common exponent. *)
Lemma binary_normalize_rounding p e : 0 < p → is_rounding p e (binary_normalize f_prec f_emax p e false).
Proof. intros Hp. destruct p as [|p|]; [done| |lia]. apply binary_round_rounding. Qed.

Lemma f_add_rounding m1 e1 m2 e2 : canonical (Zpos m1) e1 → canonical (Zpos m2) e2 → ∃ p e,
  0 < p ∧ -unit_exp ≤ e ∧ scaled p e = scaled (Zpos m1) e1 + scaled (Zpos m2) e2 ∧
  is_rounding p e (f_add (S754_finite false m1 e1) (S754_finite false m2 e2)).
Proof.
  intros (_ & He1 & _) (_ & He2 & _). set (k := Z.min e1 e2). assert (Hu : -unit_exp ≤ k) by (unfold k, unit_exp; lia).
  exists (Zpos m1 * 2 ^ (e1 - k) + Zpos m2 * 2 ^ (e2 - k)), k.
  assert (Hp : 0 < Zpos m1 * 2 ^ (e1 - k) ∧ 0 < Zpos m2 * 2 ^ (e2 - k)).
  { split; (apply Z.mul_pos_pos; [done|]; apply Z.pow_pos_nonneg; lia). }
  split_and!; [lia|done| |].
  - rewrite <- (scaled_align (Zpos m1) e1 k), <- (scaled_align (Zpos m2) e2 k) by lia. unfold scaled. ring.
  - unfold f_add, SFadd. fold k. cbn [cond_Zopp]. rewrite !shl_align_mantissa by lia. apply binary_normalize_rounding. lia.
Qed.

Lemma f_add_nonneg x y : nonneg x → nonneg y → nonneg (f_add x y).
Proof.
  intros Hx Hy. destruct x as [s1|s1| |s1 m1 e1], y as [s2|s2| |s2 m2 e2]; try done;
    try (cbn in Hx, Hy |- *; first [done | by subst | by destruct s1, s2]).
  destruct Hx as [-> H1], Hy as [-> H2]. destruct (f_add_rounding m1 e1 m2 e2 H1 H2) as (p & e & Hp & _ & _ & Hr).
  by eapply rounding_nonneg.
Qed.

Lemma f_add_le x y z : nonneg x → nonneg y → nonneg z → is_finite x = true → is_finite y = true → is_finite z = true →
  value x + value y ≤ value z → is_finite (f_add x y) = true ∧ value (f_add x y) ≤ value z.
Proof.
  intros Hx Hy Hz Hfx Hfy Hfz Hle. destruct x as [| | |s1 m1 e1], y as [| | |s2 m2 e2]; try done.
  - by destruct s, s0.
  - split; [done|]. rewrite Z.add_0_r in Hle. exact Hle.
  - destruct Hx as [-> H1], Hy as [-> H2]. destruct (f_add_rounding m1 e1 m2 e2 H1 H2) as (p & e & Hp & He & Es & Hr).
    eapply rounding_le; [exact Hp|exact Hr|exact He|done|done|]. by rewrite Es.
Qed.

Lemma f_add_ge x y z : nonneg x → nonneg y → nonneg z → is_finite x = true → is_finite y = true → is_finite z = true →
  is_finite (f_add x y) = true → value z ≤ value x + value y → value z ≤ value (f_add x y).
Proof.
  intros Hx Hy Hz Hfx Hfy Hfz Hf Hle. destruct x as [| | |s1 m1 e1], y as [| | |s2 m2 e2]; try done.
  - by destruct s, s0.
  - by rewrite Z.add_0_r in Hle.
  - destruct Hx as [-> H1], Hy as [-> H2]. destruct (f_add_rounding m1 e1 m2 e2 H1 H2) as (p & e & Hp & He & Es & Hr).
    eapply rounding_ge; [exact Hp|exact Hr|exact He|done|done|done|]. by rewrite Es.
Qed.

(** Taking a smaller number away. *)
Lemma f_sub_range x y : nonneg x → nonneg y → is_finite x = true → is_finite y = true → value y ≤ value x →
  nonneg (f_sub x y) ∧ is_finite (f_sub x y) = true ∧ value (f_sub x y) ≤ value x.
Proof.
  intros Hx Hy Hfx Hfy Hle. destruct x as [| | |s1 m1 e1], y as [| | |s2 m2 e2]; try done.
  - by destruct s, s0.
  - exfalso. destruct Hy as [-> (_ & He & _)]. cbn [value] in Hle. unfold scaled in Hle.
    pose proof (scaled_pos e2 ltac:(unfold unit_exp; lia)). nia.
  - destruct Hx as [-> H1], Hy as [-> H2]. pose proof H1 as (_ & He1 & _). pose proof H2 as (_ & He2 & _).
    unfold f_sub, SFsub. set (k := Z.min e1 e2). assert (Hu : -unit_exp ≤ k) by (unfold k, unit_exp; lia).
    cbn [cond_Zopp]. rewrite !shl_align_mantissa by lia. set (p := Zpos m1 * 2 ^ (e1 - k) - Zpos m2 * 2 ^ (e2 - k)).
    assert (Es : scaled p k = scaled (Zpos m1) e1 - scaled (Zpos m2) e2).
    { rewrite <- (scaled_align (Zpos m1) e1 k), <- (scaled_align (Zpos m2) e2 k) by lia. unfold scaled, p. ring. }
    cbn [value] in *. pose proof (scaled_pos k Hu) as Hk.
    assert (Hp : 0 ≤ p) by (apply (scaled_le_inv _ _ k Hu); unfold scaled at 1; lia).
    destruct (decide (p = 0)) as [->|Hne].
    { cbn. split_and!; try done. unfold scaled. pose proof (scaled_pos e1 ltac:(unfold unit_exp; lia)). nia. }
    pose proof (binary_normalize_rounding p k ltac:(lia)) as Hr.
    split; [eapply rounding_nonneg; [|exact Hr]; lia|].
    eapply rounding_upper; [|exact Hr|exact Hu|exact H1|]; [lia|]. rewrite Es. unfold scaled at 2.
    pose proof (scaled_pos e2 ltac:(unfold unit_exp; lia)). lia.
Qed.

(** *** Quotients *)

(** A location is the two bits behind the mantissa. *)
Definition loc_bits (l : location) : Z :=
  match l with loc_Exact => 0 | loc_Inexact Lt => 1 | loc_Inexact Eq => 2 | loc_Inexact Gt => 3 end.

Lemma loc_bits_range l : 0 ≤ loc_bits l ≤ 3.
Proof. destruct l as [|[]]; cbn; lia. Qed.

Lemma shr_loc q l : 0 ≤ q → shr_1 (shr_1 (Build_shr_record (4 * q + loc_bits l) false false)) = shr_record_of_loc q l.
Proof.
  intros Hq. pose proof (loc_bits_range l) as Hl. rewrite shr_1_div by lia. rewrite shr_1_div by (apply Z.div_pos; lia).
  rewrite Z.div_div by done. replace ((4 * q + loc_bits l) / (2 * 2)) with q by (apply Z.div_unique_pos with (loc_bits l); lia).
  assert (E : (4 * q + loc_bits l) / 2 = 2 * q + loc_bits l / 2).
  { replace (4 * q) with (2 * q * 2) by ring. apply Z.div_add_l. done. }
  rewrite E, !Zodd_mod, orb_false_r.
  replace ((4 * q + loc_bits l) mod 2) with (loc_bits l mod 2) by (replace (4 * q) with (2 * q * 2) by ring; by rewrite Z.add_comm, Z.mod_add).
  replace ((2 * q + loc_bits l / 2) mod 2) with ((loc_bits l / 2) mod 2) by (rewrite Z.mul_comm, Z.add_comm; by rewrite Z.mod_add).
  by destruct l as [|[]].
Qed.

(** Rounding with a location is rounding the longer mantissa. *)
Lemma binary_round_aux_loc q e l : 0 < q → e ≤ round_exp q e →
  binary_round_aux f_prec f_emax false q e l = binary_round_aux f_prec f_emax false (4 * q + loc_bits l) (e - 2) loc_Exact.
Proof.
  intros Hq He. pose proof (loc_bits_range l) as Hl.
  assert (Elog : Z.log2 (4 * q + loc_bits l) = Z.log2 q + 2).
  { pose proof (Z.log2_spec q Hq) as [H1 H2]. pose proof (Z.log2_nonneg q). apply Z.log2_unique; [lia|].
    replace (Z.succ (Z.log2 q + 2)) with (Z.succ (Z.log2 q) + 2) by lia. rewrite !Z.pow_add_r by lia. cbn. lia. }
  assert (Er : round_exp (4 * q + loc_bits l) (e - 2) = round_exp q e) by (unfold round_exp; rewrite Elog; f_equal; lia).
  unfold binary_round_aux. assert (Es : shr_fexp f_prec f_emax q e l = shr_fexp f_prec f_emax (4 * q + loc_bits l) (e - 2) loc_Exact); [|by rewrite Es].
  unfold shr_fexp. rewrite !fexp_round, Er by lia. cbn [shr_record_of_loc]. rewrite <- shr_loc by lia.
  replace (round_exp q e - (e - 2)) with (round_exp q e - e + 2) by lia. destruct (round_exp q e - e) as [|n|n] eqn:En; [|..|lia].
  - change (0 + 2) with (Zpos 2). cbn [shr iter_pos]. f_equal. lia.
  - cbn [shr Z.add]. apply (f_equal2 pair); [|lia]. rewrite !iter_pos_iter, Pos.iter_add. cbn [Pos.iter]. symmetry. by rewrite !Pos.iter_swap.
Qed.
(** The mantissa and the exponent of a quotient of integers below one. *)
Lemma div_core r y : 0 < r → r < y → y < exact_Z → ∃ q l,
  SFdiv_core_binary f_prec f_emax (r * 2 ^ (52 - Z.log2 r)) (Z.log2 r - 52) (y * 2 ^ (52 - Z.log2 y)) (Z.log2 y - 52) =
    (q, Z.log2 r - Z.log2 y - 53, l) ∧
  2 ^ 52 ≤ q ∧ q + 1 ≤ 2 ^ (53 + Z.log2 y - Z.log2 r).
Proof.
  intros Hr Hry Hy. pose proof (log2_below r ltac:(lia)) as Lr. pose proof (log2_below y ltac:(lia)) as Ly.
  pose proof (log2_mantissa r ltac:(lia)) as Mr. pose proof (log2_mantissa y ltac:(lia)) as My.
  pose proof (Z.log2_le_mono r y ltac:(lia)) as Hlog.
  assert (Pr : 0 < 2 ^ (52 - Z.log2 r)) by (apply Z.pow_pos_nonneg; lia).
  assert (Py : 0 < 2 ^ (52 - Z.log2 y)) by (apply Z.pow_pos_nonneg; lia).
  set (m1 := r * 2 ^ (52 - Z.log2 r)) in *. set (m2 := y * 2 ^ (52 - Z.log2 y)) in *.
  assert (H1 : 2 ^ 52 ≤ m1) by (rewrite <- Mr; apply Z.log2_spec; unfold m1; nia).
  assert (H2 : 0 < m2 < 2 ^ 53) by (split; [unfold m2; nia|]; change 53 with (Z.succ 52); rewrite <- My; apply Z.log2_spec; unfold m2; nia).
  unfold SFdiv_core_binary. rewrite !Zdigits2_pos, Mr, My by lia. rewrite fexp_normal by lia.
  replace (Z.min _ _) with (Z.log2 r - Z.log2 y - 53) by lia.
  replace (Z.log2 r - 52 - (Z.log2 y - 52) - (Z.log2 r - Z.log2 y - 53)) with 53 by lia.
  rewrite Z.shiftl_mul_pow2 by done. pose proof (Z_div_mod (m1 * 2 ^ 53) m2 ltac:(lia)) as Hd.
  destruct (Z.div_eucl (m1 * 2 ^ 53) m2) as [q rem]. destruct Hd as [Hd Hrem].
  exists q, (new_location m2 rem). split; [done|]. split; [nia|].
  assert (Hm : m1 < m2 * 2 ^ (Z.log2 y - Z.log2 r)).
  { unfold m1, m2. rewrite <- Z.mul_assoc, <- Z.pow_add_r by lia. replace (52 - Z.log2 y + (Z.log2 y - Z.log2 r)) with (52 - Z.log2 r) by lia. nia. }
  replace (53 + Z.log2 y - Z.log2 r) with (Z.log2 y - Z.log2 r + 53) by lia. rewrite Z.pow_add_r by lia.
  assert (q < 2 ^ (Z.log2 y - Z.log2 r) * 2 ^ 53); [|lia]. apply (Z.mul_lt_mono_pos_l m2); nia.
Qed.

(** A proper fraction of integers. *)
Lemma f_div_unit r y : 0 ≤ r < y → y < exact_Z →
  nonneg (f_div (f_of_Z r) (f_of_Z y)) ∧ is_finite (f_div (f_of_Z r) (f_of_Z y)) = true ∧
  value (f_div (f_of_Z r) (f_of_Z y)) ≤ value f_one.
Proof.
  intros Hr Hy. rewrite (f_of_Z_exact y) by lia. destruct (decide (r = 0)) as [->|Hne].
  { split_and!; [done|done|]. rewrite value_one. cbn [value]. by apply Z.pow_nonneg. }
  rewrite f_of_Z_exact by lia. destruct (div_core r y ltac:(lia) ltac:(lia) Hy) as (q & l & E & Hq & Hq1).
  pose proof (log2_below r ltac:(lia)) as Lr. pose proof (log2_below y ltac:(lia)) as Ly. pose proof (Z.log2_le_mono r y ltac:(lia)) as Hlog.
  unfold f_div, SFdiv, f_nat. rewrite !Z2Pos.id by (apply Z.mul_pos_pos; [lia|apply Z.pow_pos_nonneg; lia]). rewrite E. cbn [xorb].
  assert (Hlq : 52 ≤ Z.log2 q) by (apply Z.log2_le_pow2; lia). pose proof (loc_bits_range l) as Hl.
  rewrite binary_round_aux_loc by (unfold round_exp; lia). set (e := Z.log2 r - Z.log2 y - 53) in *.
  assert (Hlog4 : 52 ≤ Z.log2 (4 * q + loc_bits l)) by (etrans; [exact Hlq|apply Z.log2_le_mono; lia]).
  pose proof (binary_round_aux_rounding (4 * q + loc_bits l) (e - 2) ltac:(lia) ltac:(unfold round_exp; lia)) as Hround.
  split; [eapply rounding_nonneg; [|exact Hround]; lia|].
  apply (rounding_le (4 * q + loc_bits l) (e - 2)); [lia|exact Hround|unfold e, unit_exp; lia|apply one_nonneg|done|].
  rewrite value_one. transitivity (scaled (4 * 2 ^ (- e)) (e - 2)).
  - apply scaled_le. replace (- e) with (53 + Z.log2 y - Z.log2 r) by (unfold e; lia). lia.
  - unfold scaled. change 4 with (2 ^ 2). rewrite <- !Z.pow_add_r by (unfold e, unit_exp; lia).
    apply Z.pow_le_mono_r; [lia|]. lia.
Qed.
Close Scope Z_scope.
