(* ===== verification/Retry.v ===== *)
(** * Retry interceptor (retry.go)

    The attempt loop, run against an environment that says, for each attempt, what
    the context reports, what the call returns, which branch of the wait wins and
    what the random source draws. *)

From stdpp Require Import prelude strings list.
From Stdlib Require Import ZArith SpecFloat.
From S2P Require Import Prelude GoRuntime GoFloat.

Module retry.

Record RetryPolicy := mkRetryPolicy {
  MaxAttempts : Z;
  InitialBackoff : Duration;
  MaxBackoff : Duration;
  BackoffMultiplier : f64;
  Jitter : bool;
  IsRetryable : option (error → bool);
}.

(** [defaultIsRetryable] of a non-nil error. *)
Definition defaultIsRetryable `{ConnectLib} (err : error) : bool :=
  match CodeOf err with
  | CodeUnavailable | CodeResourceExhausted | CodeInternal | CodeUnknown | CodeDeadlineExceeded => true
  | CodeCanceled | CodeInvalidArgument | CodeNotFound | CodeAlreadyExists | CodePermissionDenied
  | CodeUnauthenticated | CodeFailedPrecondition | CodeAborted | CodeOutOfRange | CodeUnimplemented
  | CodeDataLoss => false
  | _ => false
  end.

Definition DefaultRetryPolicy `{ConnectLib} : RetryPolicy :=
  mkRetryPolicy 3 (100 * Millisecond) (10 * Second) (f_of_Z 2) true (Some defaultIsRetryable).

(** The defaults [RetryInterceptor] fills in; afterwards [IsRetryable] is set. *)
Definition with_defaults `{ConnectLib} (p : RetryPolicy) : RetryPolicy :=
  mkRetryPolicy
    (if (p.(MaxAttempts) <=? 0)%Z then 3%Z else p.(MaxAttempts))
    (if bool_decide (p.(InitialBackoff) = 0%Z) then (100 * Millisecond)%Z else p.(InitialBackoff))
    (if bool_decide (p.(MaxBackoff) = 0%Z) then (10 * Second)%Z else p.(MaxBackoff))
    (if f_eq p.(BackoffMultiplier) (f_of_Z 0) then f_of_Z 2 else p.(BackoffMultiplier))
    p.(Jitter)
    (Some (match p.(IsRetryable) with None => defaultIsRetryable | Some f => f end)).

(** [rnd] is the draw of [rand.Float64()]. *)
Definition calculateBackoff (p : RetryPolicy) (rnd : f64) (attempt : Z) : Duration :=
  let backoff := f_mul (f_of_Z p.(InitialBackoff)) (f_pow p.(BackoffMultiplier) (attempt - 1)) in
  let backoff := if f_lt (f_of_Z p.(MaxBackoff)) backoff then f_of_Z p.(MaxBackoff) else backoff in
  let backoff := if p.(Jitter) then f_mul backoff (f_add f_half (f_mul rnd f_half)) else backoff in
  f_to_int64 backoff.

Section retry.
Context {Resp : Type}.

(** Attempts are numbered from 1. *)
Record environment := mkEnvironment {
  ctx_Err : Z → option error;
  next : Z → res Resp;
  ctx_Done : Z → bool;
  rand_Float64 : Z → f64;
}.

(** What a run returns, how many calls it made and the waits between them. *)
Record run := mkRun { returned : option Resp * option error; calls : nat; waits : list Duration }.

Definition one_more (r : run) (w : list Duration) : run := mkRun r.(returned) (S r.(calls)) (w ++ r.(waits)).

(** [left] iterations of the loop are left, the next is number [attempt]. *)
Fixpoint attempt_loop (p : RetryPolicy) (env : environment) (left : nat) (attempt : Z) (lastErr : option error) : run :=
  match left with
  | 0 => mkRun (None, lastErr) 0 []
  | S left' =>
      match env.(ctx_Err) attempt with
      | Some ce =>
          match lastErr with
          | Some e => mkRun (None, Some e) 0 []
          | None => mkRun (None, Some ce) 0 []
          end
      | None =>
          match env.(next) attempt with
          | Ok resp => mkRun (Some resp, None) 1 []
          | Err err =>
              let retryable := match p.(IsRetryable) with Some f => f err | None => false end in
              if negb retryable then mkRun (None, Some err) 1 []
              else if bool_decide (attempt = p.(MaxAttempts)) then mkRun (None, Some err) 1 []
              else
                let backoff := calculateBackoff p (env.(rand_Float64) attempt) attempt in
                if env.(ctx_Done) attempt then mkRun (None, Some err) 1 []
                else one_more (attempt_loop p env left' (attempt + 1) (Some err)) [backoff]
          end
      end
  end.

Definition RetryInterceptor `{ConnectLib} (policy : RetryPolicy) (env : environment) : run :=
  let p := with_defaults policy in attempt_loop p env (Z.to_nat p.(MaxAttempts)) 1 None.

(** ** Specification *)

Definition retryable (p : RetryPolicy) (e : error) : bool :=
  match p.(IsRetryable) with Some f => f e | None => false end.

(** Attempt [i] is followed by another one: it failed with a retryable error, it was
    not the last, and the context let both the wait and the next check pass. *)
Definition goes_on (p : RetryPolicy) (env : environment) (i : Z) : Prop :=
  (∃ e, env.(next) i = Err e ∧ retryable p e = true) ∧ i ≠ p.(MaxAttempts) ∧
  env.(ctx_Done) i = false ∧ env.(ctx_Err) (i + 1)%Z = None.

#[global] Instance goes_on_dec p env i : Decision (goes_on p env i).
Proof.
  unfold goes_on. apply and_dec; [|apply _].
  destruct (next env i) as [r|e]; [right; by intros (? & ? & _)|].
  destruct (retryable p e) eqn:E; [left; by exists e|right]. intros (? & [= <-] & ?). congruence.
Defined.

(** The run after attempt [attempt] has been started: it ends with the first
    attempt [k] that does not go on. *)
Definition ends_at (p : RetryPolicy) (env : environment) (first k : Z) : Prop :=
  (first ≤ k ≤ p.(MaxAttempts))%Z ∧ (∀ i, (first ≤ i < k)%Z → goes_on p env i) ∧ ¬ goes_on p env k.

Definition answer (r : res Resp) : option Resp * option error :=
  match r with Ok a => (Some a, None) | Err e => (None, Some e) end.

Definition backoffs (p : RetryPolicy) (env : environment) (first k : Z) : list Duration :=
  (λ i, calculateBackoff p (env.(rand_Float64) (first + Z.of_nat i)) (first + Z.of_nat i)%Z)
    <$> seq 0 (Z.to_nat (k - first)).

Lemma backoffs_step p env i k : (i < k)%Z →
  backoffs p env i k = calculateBackoff p (env.(rand_Float64) i) i :: backoffs p env (i + 1) k.
Proof.
  intros Hk. unfold backoffs. replace (Z.to_nat (k - i)) with (S (Z.to_nat (k - (i + 1)))) by lia.
  cbn [seq]. rewrite fmap_cons, Z.add_0_r. f_equal. rewrite <- fmap_S_seq, <- list_fmap_compose.
  apply list_fmap_ext. intros j x _. unfold compose. replace (i + Z.of_nat (S x))%Z with (i + 1 + Z.of_nat x)%Z by lia. done.
Qed.

Lemma attempt_loop_spec p env left i lastErr :
  (1 ≤ i)%Z → (i + Z.of_nat left = p.(MaxAttempts) + 1)%Z → env.(ctx_Err) i = None → 0 < left →
  ∃ k ws, ends_at p env i k ∧
    attempt_loop p env left i lastErr = mkRun (answer (env.(next) k)) (Z.to_nat (k - i + 1)) ws ∧
    (ws = backoffs p env i k ∨ (ws = backoffs p env i (k + 1) ∧ is_Some (env.(ctx_Err) (k + 1)%Z))).
Proof.
  revert i lastErr. induction left as [|left IH]; intros i lastErr H1 Hn Hc Hl; [lia|].
  simpl. rewrite Hc.
  assert (Hstop : ∀ ws, ¬ goes_on p env i → (ws = [] ∨ ws = backoffs p env i (i + 1) ∧ is_Some (ctx_Err env (i + 1)%Z)) →
    ∃ k ws', ends_at p env i k ∧
    mkRun (answer (next env i)) 1 ws = mkRun (answer (next env k)) (Z.to_nat (k - i + 1)) ws' ∧
    (ws' = backoffs p env i k ∨ (ws' = backoffs p env i (k + 1) ∧ is_Some (ctx_Err env (k + 1)%Z)))).
  { intros ws Hg Hws. exists i, ws. split_and!.
    - split_and!; [lia|lia| |done]. intros j Hj. lia.
    - by replace (i - i + 1)%Z with 1%Z by lia.
    - destruct Hws as [->|?]; [left|by right]. unfold backoffs. by rewrite Z.sub_diag. }
  destruct (next env i) as [r|e] eqn:En.
  { apply Hstop; [|by left]. intros ((e & E & _) & _). congruence. }
  fold (retryable p e). destruct (retryable p e) eqn:Er; simpl.
  2:{ apply Hstop; [|by left]. intros ((e' & E & ?) & _). congruence. }
  case_bool_decide as Hm.
  { apply Hstop; [|by left]. by intros (_ & ? & _). }
  destruct (ctx_Done env i) eqn:Ed.
  { apply Hstop; [|by left]. intros (_ & _ & ? & _). congruence. }
  destruct (ctx_Err env (i + 1)%Z) as [ce|] eqn:Ec.
  - destruct left as [|left]; [lia|]. simpl. rewrite Ec. unfold one_more. simpl.
    apply Hstop; [intros (_ & _ & _ & ?); congruence|]. right. split; [|done].
    rewrite backoffs_step by lia. unfold backoffs. by rewrite Z.sub_diag.
  - destruct (IH (i + 1)%Z (Some e)) as (k & ws & (Hk & Hgo & Hend) & -> & Hws); [lia|lia|done|lia|].
    exists k, (calculateBackoff p (rand_Float64 env i) i :: ws). split_and!.
    + split_and!; [lia|lia| |done]. intros j Hj. destruct (decide (j = i)) as [->|Hne]; [|apply Hgo; lia].
      split_and!; try done. by exists e.
    + unfold one_more. simpl. f_equal. lia.
    + destruct Hws as [->|[-> ?]]; [left|right; split; [|done]]; by rewrite <- backoffs_step by lia.
Qed.
End retry.

Arguments environment : clear implicits.
Arguments run : clear implicits.

(** C35: the interceptor makes attempts 1 to k, where k is the first attempt that
    succeeds, fails with an error that is not retryable, is the last one allowed,
    or after which the context is done; it returns exactly what attempt k returned,
    and waits the computed backoff after each earlier attempt. With a context that
    is done beforehand it makes no attempt and returns the context's error. *)
Theorem RetryInterceptor_attempts `{ConnectLib} {Resp} (policy : RetryPolicy) (env : environment Resp) :
  let p := with_defaults policy in
  (0 < p.(MaxAttempts))%Z ∧
  (∀ e, env.(ctx_Err) 1%Z = Some e → RetryInterceptor policy env = mkRun (None, Some e) 0 []) ∧
  (env.(ctx_Err) 1%Z = None →
   ∃ k ws, ends_at p env 1 k ∧
     RetryInterceptor policy env = mkRun (answer (env.(next) k)) (Z.to_nat k) ws ∧
     Z.of_nat (Z.to_nat k) = k ∧
     (ws = backoffs p env 1 k ∨ (ws = backoffs p env 1 (k + 1) ∧ is_Some (env.(ctx_Err) (k + 1)%Z)))).
Proof.
  intros p. assert (Hp : (0 < p.(MaxAttempts))%Z).
  { unfold p, with_defaults. simpl. destruct (Z.leb_spec (MaxAttempts policy) 0); lia. }
  split_and!; [done|..].
  - intros e He. unfold RetryInterceptor. fold p.
    destruct (Z.to_nat (MaxAttempts p)) eqn:E; [lia|]. simpl. by rewrite He.
  - intros Hc. unfold RetryInterceptor. fold p.
    destruct (attempt_loop_spec p env (Z.to_nat (MaxAttempts p)) 1 None) as (k & ws & Hk & E & Hws); [lia|lia|done|lia|].
    replace (k - 1 + 1)%Z with k in E by lia. exists k, ws. split_and!; try done.
    destruct Hk as [? _]. lia.
Qed.

Definition ex_env : environment string :=
  mkEnvironment (λ _, None)
    (λ i, if (i <? 2)%Z then Err (NewError CodeUnavailable (Errorf "down" [])) else Ok "hello")
    (λ _, false) (λ _, f_of_Z 0).

Lemma RetryInterceptor_attempts_witness :
  RetryInterceptor DefaultRetryPolicy ex_env = mkRun (Some "hello", None) 2 [(50 * Millisecond)%Z] ∧
  ∃ k, ends_at (with_defaults DefaultRetryPolicy) ex_env 1 k.
Proof.
  split; [vm_compute; reflexivity|].
  destruct (proj2 (proj2 (RetryInterceptor_attempts DefaultRetryPolicy ex_env)) eq_refl) as (k & ws & Hk & _).
  by exists k.
Defined.

(** The schedule without jitter: a hundred milliseconds doubling up to ten seconds. *)
Definition unjittered `{ConnectLib} : RetryPolicy :=
  mkRetryPolicy 3 (100 * Millisecond) (10 * Second) (f_of_Z 2) false (Some defaultIsRetryable).

Definition schedule_ok `{ConnectLib} (n : nat) : bool :=
  forallb (λ i, bool_decide (calculateBackoff unjittered f_one (Z.of_nat i)
                 = Z.min (10 * Second) (100 * Millisecond * 2 ^ (Z.of_nat i - 1)))) (seq 1 n).

(** With the default policy and no jitter the n-th backoff is
    min(10 s, 100 ms * 2^(n-1)) (the first 64 attempts), also where the power no
    longer fits a float64 and overflows to infinity (attempt 1,100); no backoff,
    whatever the policy, leaves the range of a duration. *)
Theorem backoff_schedule `{ConnectLib} (n : Z) (Hn : (1 ≤ n ≤ 64)%Z) :
  calculateBackoff unjittered f_one n = Z.min (10 * Second) (100 * Millisecond * 2 ^ (n - 1)) ∧
  (f_pow (f_of_Z 2) 1099 = S754_infinity false ∧ calculateBackoff unjittered f_one 1100 = (10 * Second)%Z) ∧
  ∀ p rnd i, in64 (calculateBackoff p rnd i).
Proof.
  split_and!; [|vm_compute; reflexivity..|intros; apply f_to_int64_in64].
  assert (Hs : schedule_ok 64 = true) by (vm_compute; reflexivity).
  unfold schedule_ok in Hs. rewrite forallb_forall in Hs. specialize (Hs (Z.to_nat n)).
  rewrite Z2Nat.id in Hs by lia. apply bool_decide_eq_true in Hs; [done|]. apply in_seq. lia.
Qed.

Lemma backoff_schedule_witness : calculateBackoff unjittered f_one 8 = (10 * Second)%Z.
Proof. exact (proj1 (backoff_schedule 8 ltac:(split; vm_compute; discriminate))). Defined.

End retry.
