(* ===== verification/Backoff.v ===== *)
(** * The backoffs of the retry interceptor (retry.go)

    [calculateBackoff] computes in float64 with [math.Pow] and a random factor.  Its
    result is bounded for every policy, and exact where the multiplier is two. *)

From stdpp Require Import prelude.
From Stdlib Require Import ZArith SpecFloat.
From S2P Require Import Prelude GoRuntime GoFloat GoRound Retry.

Open Scope Z_scope.

Module backoff.
Import retry.

(** ** [math.Pow] *)

Definition in_unit (x : f64) : Prop := nonneg x ∧ is_finite x = true ∧ value x ≤ value f_one.

Lemma one_in_unit : in_unit f_one.
Proof. split_and!; [apply one_nonneg|done|done]. Qed.

Lemma mul_in_unit x y : in_unit x → in_unit y → in_unit (f_mul x y).
Proof.
  intros (Hx & Fx & Lx) (Hy & Fy & Ly). destruct (f_mul_le x y Hx Hy Fx Fy Ly) as [Hf Hl].
  split_and!; [apply f_mul_nonneg; auto|done|lia].
Qed.

Lemma double_in_unit x : in_unit x → f_lt x f_half = true → in_unit (f_add x x).
Proof.
  intros (Hx & Fx & Lx) Hlt. rewrite f_lt_value in Hlt by (done || apply half_nonneg). apply Z.ltb_lt in Hlt.
  destruct (f_add_le x x f_one Hx Hx one_nonneg Fx Fx eq_refl) as [Hf Hl].
  - rewrite value_one, <- value_half. lia.
  - split_and!; [by apply f_add_nonneg|done|done].
Qed.

Lemma frexp_in_unit m e : canonical (Zpos m) e → in_unit (SFfrexp f_prec f_emax (S754_finite false m e)).1.
Proof.
  intros (Hm & He & _). unfold SFfrexp. change (Zpos (digits2_pos m)) with (Zdigits2 (Zpos m)).
  rewrite Zdigits2_pos by done. pose proof (Z.log2_spec (Zpos m) ltac:(done)) as [Hl Hu].
  assert (H52 : Z.log2 (Zpos m) ≤ 52) by (apply Z.lt_succ_r, Z.log2_lt_pow2; [done|apply Hm]).
  assert (Hun : ∀ k, 2 ^ 52 ≤ Zpos k < 2 ^ 53 → in_unit (S754_finite false k (-53))).
  { intros k Hk. split_and!; [split; [done|]; unfold canonical; split_and!; lia|done|]. rewrite value_one. cbn [value].
    change (2 ^ unit_exp) with (2 ^ (53 + (-53 + unit_exp))). unfold scaled. rewrite (Z.pow_add_r 2 53) by (unfold unit_exp; lia).
    apply Z.mul_le_mono_nonneg_r; [apply Z.pow_nonneg; lia|lia]. }
  unfold f_prec. destruct (Z.leb_spec 53 (Z.log2 (Zpos m) + 1)); cbn [fst].
  - apply Hun. split; [|apply Hm]. by replace (Z.log2 (Zpos m)) with 52 in Hl by lia.
  - apply Hun. rewrite iter_xO, Z2Pos.id by lia. set (d := Z.log2 (Zpos m)) in *.
    assert (E1 : 2 ^ 52 = 2 ^ d * 2 ^ (53 - (d + 1))) by (rewrite <- Z.pow_add_r by (unfold d in *; pose proof (Z.log2_nonneg (Zpos m)); lia); f_equal; lia).
    assert (E2 : 2 ^ 53 = 2 ^ Z.succ d * 2 ^ (53 - (d + 1))) by (rewrite <- Z.pow_add_r by (unfold d in *; pose proof (Z.log2_nonneg (Zpos m)); lia); f_equal; lia).
    assert (0 < 2 ^ (53 - (d + 1))) by (apply Z.pow_pos_nonneg; lia). rewrite E1, E2. nia.
Qed.

Lemma pow_loop_in_unit fuel : ∀ i x1 xe a1 ae, in_unit x1 → in_unit a1 → in_unit (pow_loop fuel i x1 xe a1 ae).1.
Proof.
  induction fuel as [|fuel IH]; intros i x1 xe a1 ae Hx Ha; [done|]. cbn [pow_loop].
  case_bool_decide; [done|]. destruct (_ || _); [done|].
  pose proof (mul_in_unit _ _ Hx Hx) as Hx2. pose proof (mul_in_unit _ _ Ha Hx) as Ha2.
  destruct (Z.odd i), (f_lt (f_mul x1 x1) f_half) eqn:El; apply IH; auto using double_in_unit.
Qed.

Lemma f_pow_nonneg x n : nonneg x → nonneg (f_pow x n).
Proof.
  intros Hx. unfold f_pow. destruct (_ || _); [apply one_nonneg|]. case_bool_decide; [done|].
  destruct x as [s|s| |s m e]; [by destruct (Z.odd n)|by cbn in Hx; subst s|done|]. destruct Hx as [-> Hc].
  pose proof (frexp_in_unit m e Hc) as Hu. destruct (SFfrexp _ _ _) as [x1 xe].
  pose proof (pow_loop_in_unit 63 n x1 xe f_one 0 Hu one_in_unit) as Hp. destruct (pow_loop _ _ _ _ _ _) as [a1 ae].
  destruct Hp as (Hn & Hf & _). cbn [fst] in *. destruct a1 as [| | |s1 m1 e1]; try done. destruct Hn as [-> H1].
  unfold SFldexp. eapply rounding_nonneg; [|apply binary_round_rounding]. done.
Qed.

(** ** Bounds *)

Definition capped (p : RetryPolicy) (attempt : Z) : f64 :=
  let b := f_mul (f_of_Z p.(InitialBackoff)) (f_pow p.(BackoffMultiplier) (attempt - 1)) in
  if f_lt (f_of_Z p.(MaxBackoff)) b then f_of_Z p.(MaxBackoff) else b.

Definition factor (rnd : f64) : f64 := f_add f_half (f_mul rnd f_half).

Definition without_jitter (p : RetryPolicy) : RetryPolicy :=
  mkRetryPolicy p.(MaxAttempts) p.(InitialBackoff) p.(MaxBackoff) p.(BackoffMultiplier) false p.(IsRetryable).

(** Durations below 104 days, and a multiplier that is no negative number and no NaN. *)
Record sane (p : RetryPolicy) : Prop := {
  sane_initial : 0 < p.(InitialBackoff) < exact_Z;
  sane_max : 0 ≤ p.(MaxBackoff) < exact_Z;
  sane_multiplier : nonneg p.(BackoffMultiplier);
}.

(** What [rand.Float64] draws. *)
Definition draw (rnd : f64) : Prop := nonneg rnd ∧ is_finite rnd = true ∧ value rnd < value f_one.

Lemma f_mul_comm x y : f_mul x y = f_mul y x.
Proof.
  unfold f_mul, SFmul. destruct x as [s|s| |s m e], y as [s'|s'| |s' m' e']; try done; try (f_equal; apply xorb_comm).
  by rewrite xorb_comm, Pos.mul_comm, Z.add_comm.
Qed.

Lemma factor_range rnd : draw rnd → nonneg (factor rnd) ∧ is_finite (factor rnd) = true ∧
  value f_half ≤ value (factor rnd) ≤ value f_one.
Proof.
  intros (Hn & Hf & Hv). unfold factor. rewrite f_mul_comm. pose proof half_nonneg as Hh. pose proof one_nonneg as H1.
  destruct (f_mul_le f_half rnd Hh Hn eq_refl Hf ltac:(lia)) as [Hfm Hle].
  assert (Hm : nonneg (f_mul f_half rnd)) by (apply f_mul_nonneg; auto).
  destruct (f_add_le f_half (f_mul f_half rnd) f_one Hh Hm H1 eq_refl Hfm eq_refl) as [Hfa Hla].
  { rewrite value_one, <- value_half. lia. }
  split_and!; [by apply f_add_nonneg|done| |done]. apply f_add_ge; try done. pose proof (value_nonneg _ Hm). lia.
Qed.

Lemma capped_range p n : sane p → nonneg (capped p n) ∧ is_finite (capped p n) = true ∧ value (capped p n) ≤ scaled p.(MaxBackoff) 0.
Proof.
  intros [Hi Hm Hb]. unfold capped. rewrite <- value_of_Z by done. set (b := f_mul _ _).
  assert (Hn : nonneg b).
  { apply f_mul_nonneg; [apply f_of_Z_nonneg; lia|by apply f_pow_nonneg|apply finite_of_Z; lia|right].
    rewrite value_of_Z by lia. unfold scaled. pose proof (scaled_pos 0 ltac:(done)). nia. }
  pose proof (f_of_Z_nonneg p.(MaxBackoff) ltac:(lia)) as HM. pose proof (finite_of_Z p.(MaxBackoff) Hm) as HF.
  destruct (f_lt (f_of_Z (MaxBackoff p)) b) eqn:El; [done|]. assert (Hf : is_finite b = true).
  { destruct b as [|s| |]; try done. cbn in Hn. subst s. by destruct (f_of_Z_finite _ Hm) as [E|(s & m & e & E)]; rewrite E in El. }
  split_and!; [done|done|]. rewrite f_lt_value in El by done. by apply Z.ltb_ge in El.
Qed.

Lemma calculateBackoff_eq p rnd n :
  calculateBackoff p rnd n = f_to_int64 (if p.(Jitter) then f_mul (capped p n) (factor rnd) else capped p n).
Proof. reflexivity. Qed.

Lemma max_in_range p : sane p → scaled p.(MaxBackoff) 0 < scaled (2 ^ 63) 0.
Proof. intros [_ Hm _]. unfold scaled, exact_Z in *. apply Z.mul_lt_mono_pos_r; [done|lia]. Qed.

Lemma backoff_bounds p rnd n : sane p → draw rnd →
  let u := calculateBackoff (without_jitter p) rnd n in
  0 ≤ u ≤ p.(MaxBackoff) ∧ u / 2 ≤ calculateBackoff p rnd n ≤ u.
Proof.
  intros Hs Hd u. destruct (capped_range p n Hs) as (Hn & Hf & Hv). pose proof (max_in_range p Hs) as Hmax.
  assert (Hu : u = value (capped p n) / 2 ^ unit_exp).
  { unfold u. rewrite calculateBackoff_eq. cbn [Jitter without_jitter].
    change (capped (without_jitter p) n) with (capped p n). apply f_to_int64_value; [done..|lia]. }
  split.
  - rewrite Hu. split; [apply Z.div_pos; [by apply value_nonneg|done]|].
    transitivity (scaled p.(MaxBackoff) 0 / 2 ^ unit_exp); [by apply Z.div_le_mono|]. unfold scaled. cbn [Z.add].
    by rewrite Z.div_mul.
  - rewrite calculateBackoff_eq. destruct (Jitter p).
    + destruct (factor_range rnd Hd) as (Jn & Jf & Jr). unfold u. rewrite calculateBackoff_eq. cbn [Jitter without_jitter].
      change (capped (without_jitter p) n) with (capped p n). apply f_mul_half; [done..|lia].
    + rewrite (f_to_int64_value _ Hn Hf), <- Hu by lia. split; [|lia]. apply Z.div_le_upper_bound; [done|].
      assert (0 ≤ u); [|lia]. rewrite Hu. apply Z.div_pos; [by apply value_nonneg|done].
Qed.

(** ** Doubling *)

(** [2^c], for an exponent in the middle of the range. *)
Definition two_to (c : Z) : f64 := S754_finite false (2 ^ 52) (c - 52).

Lemma two_to_mul a b : -900 ≤ a + b ≤ 900 → f_mul (two_to a) (two_to b) = two_to (a + b).
Proof.
  intros Hab. unfold f_mul, SFmul, two_to. cbn [xorb]. change (Zpos (2 ^ 52 * 2 ^ 52)) with (2 ^ 52 * 2 ^ 52).
  rewrite binary_round_aux_exact by (done || lia). change (Z.to_pos (2 ^ 52)) with (2 ^ 52)%positive. f_equal. lia.
Qed.

(** The loop for base two: [xe - 1] is the exponent of the current power, [j] counts
    the ones among the bits so far.  The exponent of the result is exact, or too large
    for any float64. *)
Lemma pow_loop_two fuel : ∀ i xe j ae, 0 ≤ i < 2 ^ Z.of_nat fuel → 0 ≤ j ≤ 13 → 2 ^ j ≤ xe - 1 → 0 ≤ ae - j →
  ∃ j' ae', pow_loop fuel i f_half xe (two_to (- j)) ae = (two_to (- j'), ae') ∧ 0 ≤ j' ≤ 13 ∧
    (ae' - j' = ae - j + i * (xe - 1) ∨ 4096 ≤ ae' - j' ∧ 4096 ≤ ae - j + i * (xe - 1)).
Proof.
  induction fuel as [|fuel IH]; intros i xe j ae Hi Hj Hx Ha; cbn [pow_loop].
  { exists j, ae. split_and!; [done|lia..|left; cbn in Hi; nia]. }
  case_bool_decide as H0; [exists j, ae; split_and!; [done|lia..|left; nia]|].
  assert (0 < 2 ^ j) by (apply Z.pow_pos_nonneg; lia).
  destruct ((xe <? - 2 ^ 12) || (2 ^ 12 <? xe)) eqn:Ee.
  { apply orb_true_iff in Ee as [Ee|Ee]; apply Z.ltb_lt in Ee; [lia|].
    exists j, (ae + xe). split_and!; [done|lia..|right; nia]. }
  apply orb_false_iff in Ee as [_ Ee%Z.ltb_ge]. assert (Hj12 : j < 13).
  { apply (Z.pow_lt_mono_r_iff 2); [lia..|]. cbn. lia. }
  change (f_mul f_half f_half) with (two_to (-2)). change (f_lt (two_to (-2)) f_half) with true.
  change (f_add (two_to (-2)) (two_to (-2))) with f_half.
  assert (Hi2 : 0 ≤ i / 2 < 2 ^ Z.of_nat fuel).
  { rewrite Nat2Z.inj_succ, Z.pow_succ_r in Hi by lia. split; [apply Z.div_pos; lia|apply Z.div_lt_upper_bound; lia]. }
  pose proof (Z.div_mod i 2 ltac:(done)) as Hdm. rewrite Zmod_odd in Hdm. destruct (Z.odd i).
  - assert (Eh : f_mul (two_to (- j)) f_half = two_to (- (j + 1))).
    { change f_half with (two_to (-1)). rewrite two_to_mul by lia. f_equal. lia. }
    rewrite Eh.
    destruct (IH (i / 2) (2 * xe - 1) (j + 1) (ae + xe) Hi2) as (j' & ae' & -> & Hj' & HT); [lia| |lia|].
    + rewrite Z.pow_add_r by lia. lia.
    + exists j', ae'. split; [done|]. split; [done|]. destruct HT as [HT|[HT1 HT2]]; [left|right]; nia.
  - destruct (IH (i / 2) (2 * xe - 1) j ae Hi2) as (j' & ae' & -> & Hj' & HT); [lia|lia|lia|].
    exists j', ae'. split; [done|]. split; [done|]. destruct HT as [HT|[HT1 HT2]]; [left|right]; nia.
Qed.

(** The power of two, exactly, or something that no cap lets through. *)
Lemma f_pow_two n : 0 ≤ n < 2 ^ 63 →
  (n < 900 ∧ f_pow (f_of_Z 2) n = two_to n) ∨
  (900 ≤ n ∧ nonneg (f_pow (f_of_Z 2) n) ∧ (is_finite (f_pow (f_of_Z 2) n) = true → scaled 1 900 ≤ value (f_pow (f_of_Z 2) n))).
Proof.
  intros Hn. destruct (decide (n = 0)) as [->|N0]; [by left|]. destruct (decide (n = 1)) as [->|N1]; [by left|].
  assert (Hnn : nonneg (f_pow (f_of_Z 2) n)) by (apply f_pow_nonneg, f_of_Z_nonneg; lia).
  destruct (pow_loop_two 63 n 2 0 0) as (j & ae & E & Hj & HT); [done|done|done|done|].
  assert (Ep : f_pow (f_of_Z 2) n = binary_round f_prec f_emax false (2 ^ 52) (ae - j - 52)).
  { unfold f_pow. rewrite (bool_decide_eq_false_2 (n = 0)), (bool_decide_eq_false_2 (n = 1)) by done.
    change (f_eq (f_of_Z 2) f_one) with false. cbn [orb]. change (f_of_Z 2) with (S754_finite false (2 ^ 52) (-51)).
    change (SFfrexp _ _ _) with (f_half, 2). change f_one with (two_to (- 0)). cbv beta iota. rewrite E. unfold two_to, SFldexp. f_equal. lia. }
  pose proof (binary_round_rounding (2 ^ 52) (ae - j - 52)) as Hr. rewrite <- Ep in Hr.
  destruct (Z.lt_ge_cases n 900) as [Hlt|Hge]; [left|right]; (split; [done|]).
  - destruct HT as [HT|[_ HT]]; [|lia]. rewrite Ep. replace (ae - j - 52) with (n - 52) by lia.
    unfold binary_round. rewrite digits2_log2. change (Z.log2 (Zpos (2 ^ 52))) with 52. rewrite fexp_normal by lia.
    unfold shl_align. replace (52 + 1 + (n - 52) - 53 - (n - 52)) with 0 by lia.
    pose proof (binary_round_aux_exact (2 ^ 52) (n - 52) 0 eq_refl ltac:(lia) ltac:(lia)) as Ex.
    rewrite Z.mul_1_r, Z.add_0_r in Ex. exact Ex.
  - split; [done|]. intros Hf. eapply rounding_lower; [|exact Hr|unfold unit_exp; lia|done|lia|lia|]; [done|].
    change (Zpos (2 ^ 52)) with (1 * 2 ^ 52). rewrite scaled_shift by (unfold unit_exp; lia). unfold scaled. rewrite !Z.mul_1_l.
    apply Z.pow_le_mono_r; lia.
Qed.

(** An integer times a power. *)
Lemma mul_two_to z c : 0 < z < exact_Z → 0 ≤ c < 900 →
  is_finite (f_mul (f_of_Z z) (two_to c)) = true ∧ value (f_mul (f_of_Z z) (two_to c)) = scaled (z * 2 ^ c) 0.
Proof.
  intros Hz Hc. pose proof (log2_below z Hz) as Hl.
  assert (Hm : 0 < z * 2 ^ (52 - Z.log2 z)) by (apply Z.mul_pos_pos; [lia|apply Z.pow_pos_nonneg; lia]).
  assert (E : f_mul (f_of_Z z) (two_to c) = S754_finite false (Z.to_pos (z * 2 ^ (52 - Z.log2 z))) (Z.log2 z - 52 + c)).
  { rewrite f_of_Z_exact by done. unfold f_mul, SFmul, f_nat, two_to. cbn [xorb]. rewrite Pos2Z.inj_mul, Z2Pos.id by done.
    change (Zpos (2 ^ 52)) with (2 ^ 52). rewrite binary_round_aux_exact by (by apply log2_mantissa || lia). f_equal. lia. }
  rewrite E. split; [done|]. cbn [value]. rewrite Z2Pos.id by done. unfold scaled.
  rewrite <- !Z.mul_assoc, <- !Z.pow_add_r by (unfold unit_exp; lia). f_equal. f_equal. lia.
Qed.

(** An integer times something huge is above every cap. *)
Lemma mul_huge z m x : 0 < z < exact_Z → 0 ≤ m < exact_Z → nonneg x → (is_finite x = true → scaled 1 900 ≤ value x) →
  f_lt (f_of_Z m) (f_mul (f_of_Z z) x) = true.
Proof.
  intros Hz Hm Hx Hbig. pose proof (f_of_Z_nonneg z ltac:(lia)) as Nz. pose proof (finite_of_Z z ltac:(lia)) as Fz.
  pose proof (f_of_Z_nonneg m ltac:(lia)) as Nm. pose proof (finite_of_Z m Hm) as Fm.
  assert (Vz : scaled 1 0 ≤ value (f_of_Z z)) by (rewrite value_of_Z by lia; apply scaled_le; lia).
  assert (Nb : nonneg (f_mul (f_of_Z z) x)) by (apply f_mul_nonneg; try done; right; by eapply Z.lt_le_trans; [|exact Vz]).
  destruct (is_finite (f_mul (f_of_Z z) x)) eqn:Fb.
  2:{ destruct (f_mul (f_of_Z z) x) as [|s| |]; try done. cbn in Nb. subst s.
      by destruct (f_of_Z_finite _ Hm) as [->|(s & k & e & ->)]. }
  rewrite f_lt_value by done. apply Z.ltb_lt. apply Z.lt_le_trans with (scaled 1 900).
  { rewrite value_of_Z by done. unfold scaled, exact_Z in *. change (900 + unit_exp) with (53 + (847 + unit_exp)).
    rewrite (Z.pow_add_r 2 53), Z.mul_1_l by (unfold unit_exp; lia). apply Z.mul_lt_mono_nonneg; [lia|lia|done|].
    apply Z.pow_lt_mono_r; unfold unit_exp; lia. }
  rewrite (f_of_Z_exact z) in * by done. unfold f_nat in *. destruct x as [s|s| |s k e]; try done.
  - by specialize (Hbig eq_refl).
  - destruct Nz as [_ Cz], Hx as [-> Cx]. specialize (Hbig eq_refl). cbn [value] in Hbig, Vz.
    eapply rounding_lower; [|by apply f_mul_rounding|..]; [done|destruct Cz as (_ & ? & _), Cx as (_ & ? & _); unfold unit_exp; lia|done|lia|lia|].
    apply (Z.mul_le_mono_pos_r _ _ (2 ^ unit_exp)); [done|]. rewrite scaled_mul by (apply Cz || apply Cx).
    rewrite Z.mul_comm. apply Z.mul_le_mono_nonneg; [done| |unfold scaled; by rewrite Z.mul_1_l|exact Hbig].
    unfold scaled in Vz. by rewrite Z.mul_1_l in Vz.
Qed.

(** With multiplier two, the schedule is the exact one at every attempt. *)
Lemma doubling p rnd n : sane p → p.(BackoffMultiplier) = f_of_Z 2 → 1 ≤ n ≤ max64 →
  calculateBackoff (without_jitter p) rnd n = Z.min p.(MaxBackoff) (p.(InitialBackoff) * 2 ^ (n - 1)).
Proof.
  intros Hs E2 Hn. destruct (capped_range p n Hs) as (Cn & Cf & Cv). pose proof (max_in_range p Hs) as Hmax.
  destruct Hs as [Hi Hm _]. rewrite calculateBackoff_eq. cbn [Jitter without_jitter].
  change (capped (without_jitter p) n) with (capped p n). rewrite f_to_int64_value by (done || lia). unfold capped in *.
  rewrite E2 in *. set (I := InitialBackoff p) in *. set (M := MaxBackoff p) in *.
  pose proof (f_of_Z_nonneg M ltac:(lia)) as HM. pose proof (finite_of_Z M Hm) as FM.
  assert (Htr : ∀ z, scaled z 0 / 2 ^ unit_exp = z) by (intros z; unfold scaled; cbn [Z.add]; by rewrite Z.div_mul).
  destruct (f_pow_two (n - 1)) as [[Hlt Ep]|(Hge & Hnn & Hbig)]; [unfold max64 in Hn; lia|..].
  - destruct (mul_two_to I (n - 1) Hi ltac:(lia)) as [Fb Vb]. rewrite Ep in *.
    assert (Nb : nonneg (f_mul (f_of_Z I) (two_to (n - 1)))).
    { rewrite <- Ep. apply f_mul_nonneg; [apply f_of_Z_nonneg; lia|apply f_pow_nonneg, f_of_Z_nonneg; lia|apply finite_of_Z; lia|left].
      by rewrite Ep. }
    rewrite f_lt_value in * by done. rewrite Vb, value_of_Z in * by done.
    destruct (Z.ltb_spec (scaled M 0) (scaled (I * 2 ^ (n - 1)) 0)) as [Hl|Hl].
    + rewrite value_of_Z, Htr by done. unfold scaled in Hl. apply Z.mul_lt_mono_pos_r in Hl; [lia|done].
    + rewrite Vb, Htr. apply scaled_le_inv in Hl; [lia|done].
  - rewrite (mul_huge I M) by done. rewrite value_of_Z, Htr by done. rewrite Z.min_l; [done|].
    assert (exact_Z ≤ 2 ^ (n - 1)) by (apply Z.pow_le_mono_r; lia). nia.
Qed.

(** C36: the waits of the retry interceptor.  For every sane policy, one with a positive
    initial backoff, both durations below 2^53 nanoseconds (104 days) and a multiplier
    that is no negative number ([largest_cap_wraps] is a policy with a larger cap,
    whose backoff is negative), at every attempt: without
    jitter the backoff lies between zero and [MaxBackoff]; with jitter, whatever is
    drawn, between half of it, rounded down, and the whole; and with multiplier two it
    is exactly the initial backoff doubled with each attempt and capped, also where
    the power overflows float64. *)
Theorem backoffs_bounded p rnd n (Hs : sane p) (Hd : draw rnd) :
  let u := calculateBackoff (without_jitter p) rnd n in
  0 ≤ u ≤ p.(MaxBackoff) ∧
  u / 2 ≤ calculateBackoff p rnd n ≤ u ∧
  (p.(BackoffMultiplier) = f_of_Z 2 → 1 ≤ n ≤ max64 → u = Z.min p.(MaxBackoff) (p.(InitialBackoff) * 2 ^ (n - 1))).
Proof.
  intros u. destruct (backoff_bounds p rnd n Hs Hd) as [Hb Hj]. split; [exact Hb|]. split; [exact Hj|]. intros. by apply doubling.
Qed.

Definition ex_policy : RetryPolicy := mkRetryPolicy 5 (100 * Millisecond) (10 * Second) (f_of_Z 2) true None.

Lemma backoffs_bounded_witness :
  50 * Millisecond ≤ calculateBackoff ex_policy f_half 1 ≤ 100 * Millisecond ∧
  calculateBackoff (without_jitter ex_policy) f_half 2000 = 10 * Second.
Proof.
  assert (Hs : sane ex_policy) by (split; [by vm_compute|by vm_compute|apply f_of_Z_nonneg; lia]).
  assert (Hd : draw f_half) by (split_and!; [apply half_nonneg|done|by vm_compute]).
  destruct (backoffs_bounded ex_policy f_half 1 Hs Hd) as (_ & H1 & _).
  destruct (backoffs_bounded ex_policy f_half 2000 Hs Hd) as (_ & _ & H2). split.
  - assert (Eu : calculateBackoff (without_jitter ex_policy) f_half 1 = 100 * Millisecond) by (vm_compute; reflexivity).
    rewrite Eu in H1. exact H1.
  - rewrite H2; [|done|split; by vm_compute]. by apply Z.min_l, Z.leb_le.
Defined.

(** A cap of the largest duration, meant as none: float64 rounds it up, out of the
    range of int64, and the wait is negative. *)
Lemma largest_cap_wraps :
  let p := mkRetryPolicy 100 (100 * Millisecond) max64 (f_of_Z 2) false None in
  calculateBackoff p f_half 40 = min64.
Proof. by vm_compute. Qed.
End backoff.

Close Scope Z_scope.
