(* ===== verification/RateLimit.v ===== *)
(** * Rate limiting (ratelimit.go)

    Token buckets are shared objects: the limiter's map holds their addresses and a
    goroutine keeps using the bucket it looked up even when the map has changed
    since.  [Allow] is therefore three steps (lookup, creation, take) on a store of
    buckets; their composition is the undisturbed call.  Token counts are float64. *)

From stdpp Require Import prelude gmap strings list fin_maps.
From Stdlib Require Import ZArith SpecFloat.
From S2P Require Import Prelude GoRuntime GoFloat.

Module ratelimit.

Record Rate := mkRate { RequestsPerSecond : f64; Burst : Z }.

Record bucket := mkBucket {
  tokens : f64;
  capacity : f64;
  refillRate : f64;
  lastRefill : Time;
}.

Record TokenBucketLimiter := mkTokenBucketLimiter {
  buckets : gmap string nat;
  store : gmap nat bucket;
  stopped : bool;
}.

Definition NewTokenBucketLimiter : TokenBucketLimiter := mkTokenBucketLimiter ∅ ∅ false.

(** [d.Seconds()] *)
Definition Seconds (d : Duration) : f64 :=
  f_add (f_of_Z (Z.quot d Second)) (f_div (f_of_Z (Z.rem d Second)) (f_of_Z 1000000000)).

(** ** One bucket *)

Definition retune (limit : Rate) (b : bucket) : bucket :=
  if negb (f_eq b.(capacity) (f_of_Z limit.(Burst))) || negb (f_eq b.(refillRate) limit.(RequestsPerSecond))
  then mkBucket b.(tokens) (f_of_Z limit.(Burst)) limit.(RequestsPerSecond) b.(lastRefill) else b.

Definition refill (now : Time) (b : bucket) : bucket :=
  let t := f_add b.(tokens) (f_mul (Seconds (Time_Sub now b.(lastRefill))) b.(refillRate)) in
  mkBucket (if f_lt b.(capacity) t then b.(capacity) else t) b.(capacity) b.(refillRate) now.

Definition take (now : Time) (limit : Rate) (b : bucket) : bucket * bool :=
  let b := refill now (retune limit b) in
  if f_le f_one b.(tokens)
  then (mkBucket (f_sub b.(tokens) f_one) b.(capacity) b.(refillRate) b.(lastRefill), true)
  else (b, false).

Definition new_bucket (now : Time) (limit : Rate) : bucket :=
  mkBucket (f_of_Z limit.(Burst)) (f_of_Z limit.(Burst)) limit.(RequestsPerSecond) now.

(** ** The limiter *)

Definition Allow_lookup (l : TokenBucketLimiter) (key : string) : option nat := l.(buckets) !! key.

Definition Allow_create (now : Time) (l : TokenBucketLimiter) (key : string) (limit : Rate) :
    TokenBucketLimiter * nat :=
  let a := fresh (dom l.(store)) in
  (mkTokenBucketLimiter (<[key := a]> l.(buckets)) (<[a := new_bucket now limit]> l.(store)) l.(stopped), a).

(** A dangling address does not occur: the bucket stays reachable from the caller. *)
Definition Allow_take (now : Time) (l : TokenBucketLimiter) (a : nat) (limit : Rate) : TokenBucketLimiter * bool :=
  match l.(store) !! a with
  | None => (l, false)
  | Some b =>
      let '(b', ok) := take now limit b in
      (mkTokenBucketLimiter l.(buckets) (<[a := b']> l.(store)) l.(stopped), ok)
  end.

Definition Allow (now : Time) (l : TokenBucketLimiter) (key : string) (limit : Rate) : TokenBucketLimiter * bool :=
  match Allow_lookup l key with
  | Some a => Allow_take now l a limit
  | None => let '(l', a) := Allow_create now l key limit in Allow_take now l' a limit
  end.

Definition Close (l : TokenBucketLimiter) : TokenBucketLimiter :=
  if l.(stopped) then l else mkTokenBucketLimiter l.(buckets) l.(store) true.

Definition is_old (l : TokenBucketLimiter) (threshold : Time) (a : nat) : bool :=
  match l.(store) !! a with Some b => Time_Before b.(lastRefill) threshold | None => false end.

Definition removeOldBuckets `{GoRange} (now : Time) (l : TokenBucketLimiter) : TokenBucketLimiter :=
  let threshold := Time_Add now (- (5 * Minute)) in
  mkTokenBucketLimiter
    (fold_left (λ m kv, if is_old l threshold kv.2 then delete kv.1 m else m) (go_range 0 l.(buckets)) l.(buckets))
    l.(store) l.(stopped).

(** The body of the cleanup goroutine for one received value: [None] when it ends. *)
Inductive cleanup_event := StopSignal | Tick (now : Time).

Definition cleanup `{GoRange} (l : TokenBucketLimiter) (ev : cleanup_event) : option TokenBucketLimiter :=
  match ev with StopSignal => None | Tick now => Some (removeOldBuckets now l) end.

(** ** Interceptors, against the [RateLimiter] interface *)

Class RateLimiter (L : Type) := {
  limiter_Allow : Time → L → string → Rate → L * bool;
}.

#[export] Instance TokenBucket_RateLimiter : RateLimiter TokenBucketLimiter := {
  limiter_Allow := Allow;
}.

Section interceptors.
Context {L : Type} `{RateLimiter L} {Req Resp : Type}.

(** [next] is run only when the request is let through. *)
Definition RateLimitInterceptor (now : Time) (l : L) (keyExtractor : Req → string) (limit : Rate)
    (next : Req → res Resp) (req : Req) : L * res Resp :=
  let key := keyExtractor req in
  let '(l', ok) := limiter_Allow now l key limit in
  if negb ok then (l', Err (NewError CodeResourceExhausted (Errorf "rate limit exceeded for %s" [AStr key])))
  else (l', next req).

Definition StatusTooManyRequests : Z := 429.

Definition RateLimitHTTPHandler (now : Time) (l : L) (keyExtractor : Req → string) (limit : Rate)
    (handler : Req → Z * string) (req : Req) : L * (Z * string) :=
  let key := keyExtractor req in
  let '(l', ok) := limiter_Allow now l key limit in
  if negb ok then (l', (StatusTooManyRequests, "Rate limit exceeded")) else (l', handler req).
End interceptors.

Definition DefaultRateLimitKeyExtractor (h : Header) (peerAddr : string) : string :=
  let runtimeID := Header_Get h "X-Plugin-Runtime-ID" in
  if bool_decide (runtimeID ≠ "") then "runtime:" +:+ runtimeID else "ip:" +:+ peerAddr.

Definition HTTPRateLimitKeyExtractor (h : Header) (remoteAddr : string) : string :=
  let runtimeID := Header_Get h "X-Plugin-Runtime-ID" in
  if bool_decide (runtimeID ≠ "") then "runtime:" +:+ runtimeID else "ip:" +:+ remoteAddr.

(** ** Invariant: distinct keys have distinct, live buckets *)

Record wf (l : TokenBucketLimiter) : Prop := {
  wf_live : ∀ k a, l.(buckets) !! k = Some a → is_Some (l.(store) !! a);
  wf_inj : ∀ k1 k2 a, l.(buckets) !! k1 = Some a → l.(buckets) !! k2 = Some a → k1 = k2;
}.

Lemma limiter_wf_new : wf NewTokenBucketLimiter.
Proof. by split; simpl; intros *; rewrite lookup_empty. Qed.

(** The bucket a key stands for. *)
Definition bucket_of (l : TokenBucketLimiter) (key : string) : option bucket :=
  match l.(buckets) !! key with Some a => l.(store) !! a | None => None end.

Lemma fresh_store (l : TokenBucketLimiter) : l.(store) !! fresh (dom l.(store)) = None.
Proof. apply not_elem_of_dom, is_fresh. Qed.

Lemma wf_create now l key limit : wf l → wf (Allow_create now l key limit).1.
Proof.
  intros [H1 H2]. pose proof (fresh_store l) as Hf. split; simpl.
  - intros k a [[<- <-]|[_ Hk]]%lookup_insert_Some; [rewrite lookup_insert_eq; eauto|].
    rewrite lookup_insert_is_Some'. right. eauto.
  - intros k1 k2 a Hk1 Hk2.
    assert (Hfr : ∀ k, l.(buckets) !! k ≠ Some (fresh (dom l.(store)))).
    { intros k Hk. destruct (H1 _ _ Hk). congruence. }
    apply lookup_insert_Some in Hk1 as [[<- <-]|[Hn1 Hk1]], Hk2 as [[<- Ha]|[Hn2 Hk2]];
      try done; [by destruct (Hfr k2)|subst; by destruct (Hfr k1)|by eapply H2].
Qed.

Lemma wf_take now l a limit : wf l → wf (Allow_take now l a limit).1.
Proof.
  intros [H1 H2]. unfold Allow_take. destruct (store l !! a) as [b|]; [|by split].
  destruct (take now limit b) as [b' ok]. split; simpl; [|done].
  intros k a' Hk. rewrite lookup_insert_is_Some'. right. eauto.
Qed.

Lemma wf_Allow now l key limit : wf l → wf (Allow now l key limit).1.
Proof.
  intros W. unfold Allow. destruct (Allow_lookup l key); [by apply wf_take|].
  pose proof (wf_create now l key limit W) as Hc. destruct (Allow_create now l key limit) as [l' a].
  by apply wf_take.
Qed.

Lemma bucket_of_take now l a limit key : wf l →
  bucket_of (Allow_take now l a limit).1 key =
  match l.(buckets) !! key with
  | Some a' => if decide (a = a') then (λ b, (take now limit b).1) <$> l.(store) !! a else l.(store) !! a'
  | None => None
  end.
Proof.
  intros W. unfold bucket_of, Allow_take. destruct (store l !! a) as [b|] eqn:E.
  - destruct (take now limit b) as [b' ok] eqn:Et. simpl. destruct (buckets l !! key) as [a'|]; [|done].
    rewrite lookup_insert. case_decide; [|done]. by rewrite Et.
  - simpl. destruct (buckets l !! key) as [a'|]; [|done]. case_decide; [by subst|done].
Qed.

Lemma bucket_of_Allow now l key limit : wf l →
  bucket_of (Allow now l key limit).1 key =
    Some (take now limit (default (new_bucket now limit) (bucket_of l key))).1 ∧
  (Allow now l key limit).2 = (take now limit (default (new_bucket now limit) (bucket_of l key))).2 ∧
  (∀ key', key' ≠ key → bucket_of (Allow now l key limit).1 key' = bucket_of l key').
Proof.
  intros W. unfold Allow, Allow_lookup. destruct (buckets l !! key) as [a|] eqn:Ek.
  - destruct (wf_live _ W _ _ Ek) as [b Eb].
    assert (Eo : bucket_of l key = Some b) by (unfold bucket_of; by rewrite Ek). rewrite Eo. split_and!.
    + rewrite bucket_of_take, Ek, decide_True, Eb by done. done.
    + unfold Allow_take. rewrite Eb. simpl. by destruct (take now limit b).
    + intros key' Hne. rewrite bucket_of_take by done. unfold bucket_of.
      destruct (buckets l !! key') as [a'|] eqn:Ek'; [|done].
      rewrite decide_False; [done|]. intros ->. apply Hne. by eapply (wf_inj _ W).
  - pose proof (wf_create now l key limit W) as Wc. pose proof (fresh_store l) as Hf.
    assert (Eo : bucket_of l key = None) by (unfold bucket_of; by rewrite Ek). rewrite Eo.
    unfold Allow_create in *. cbn [fst snd] in *. split_and!.
    + rewrite bucket_of_take by done. simpl. by rewrite lookup_insert_eq, decide_True, lookup_insert_eq.
    + unfold Allow_take. simpl. rewrite lookup_insert_eq. simpl. by destruct (take now limit _).
    + intros key' Hne. rewrite bucket_of_take by done. simpl. rewrite lookup_insert_ne by done. unfold bucket_of.
      destruct (buckets l !! key') as [a'|] eqn:Ek'; [|done].
      destruct (wf_live _ W _ _ Ek') as [b Eb]. rewrite decide_False by congruence.
      rewrite lookup_insert_ne by congruence. done.
Qed.

(** ** Bursts at one instant *)

(** [m] requests for one key at one instant. *)
Fixpoint requests (now : Time) (l : TokenBucketLimiter) (key : string) (limit : Rate) (m : nat) : list bool :=
  match m with
  | 0 => []
  | S m' => let '(l', ok) := Allow now l key limit in ok :: requests now l' key limit m'
  end.

Definition count (k : nat) : f64 := f_of_Z (Z.of_nat k).

(** From here on float64 has no room for single tokens. *)
Definition max_burst : Z := exact_Z.

Lemma count_step k : (Z.of_nat (S k) < max_burst)%Z → f_sub (count (S k)) f_one = count k ∧ f_le f_one (count (S k)) = true.
Proof.
  intros Hk. unfold count, f_le, SFleb, f_one. split.
  - rewrite Nat2Z.inj_succ in *. apply f_sub_one; unfold max_burst in *; lia.
  - rewrite f_compare_exact by (unfold max_burst, exact_Z in *; lia). by destruct (Z.compare_spec 1 (Z.of_nat (S k))); [| |lia].
Qed.

Lemma count_cap c k : k ≤ c → (Z.of_nat c < max_burst)%Z → f_lt (count c) (count k) = false.
Proof.
  intros Hk Hc. unfold f_lt, SFltb, count. unfold max_burst in Hc. rewrite f_compare_exact by lia.
  by destruct (Z.compare_spec (Z.of_nat c) (Z.of_nat k)); [|lia|].
Qed.

Lemma count_form c : (Z.of_nat c < max_burst)%Z → count c = S754_zero false ∨ ∃ s m e, count c = S754_finite s m e.
Proof. intros Hc. apply f_of_Z_finite. unfold max_burst in Hc. lia. Qed.

Lemma count_not_nan c : (Z.of_nat c < max_burst)%Z → is_nan (count c) = false.
Proof. intros Hc. by destruct (count_form c Hc) as [->|(s & m & e & ->)]. Qed.

Lemma refill_same_instant b : is_finite b.(refillRate) = true →
  (b.(tokens) = S754_zero false ∨ ∃ s m e, b.(tokens) = S754_finite s m e) →
  f_lt b.(capacity) b.(tokens) = false →
  refill b.(lastRefill) b = b.
Proof.
  intros Hr Ht Hc. unfold refill, Time_Sub. rewrite Z.sub_diag.
  change (Seconds (Z.max min64 (Z.min max64 0))) with (S754_zero false).
  assert (E : f_add (tokens b) (f_mul (S754_zero false) (refillRate b)) = tokens b).
  { destruct Ht as [->|(s & m & e & ->)]; destruct (refillRate b) as [[]|[]| |[] ? ?]; done. }
  rewrite E, Hc. by destruct b.
Qed.

(** The bucket of a key that has [k] of its [n] tokens left. *)
Definition holding (now : Time) (n k : nat) (rate : f64) : bucket := mkBucket (count k) (count n) rate now.

Lemma take_holding now n k rate : is_finite rate = true → k ≤ n → (Z.of_nat n < max_burst)%Z →
  take now (mkRate rate (Z.of_nat n)) (holding now n k rate) =
  match k with 0 => (holding now n 0 rate, false) | S k' => (holding now n k' rate, true) end.
Proof.
  intros Hr Hk Hn. pose proof (count_cap n k Hk Hn) as Hcap. unfold take.
  assert (E : retune (mkRate rate (Z.of_nat n)) (holding now n k rate) = holding now n k rate).
  { unfold retune. simpl. fold (count n).
    by rewrite (f_eq_refl (count n)), (f_eq_refl rate) by (by apply count_not_nan || by apply finite_not_nan). }
  assert (Er : refill now (holding now n k rate) = holding now n k rate).
  { apply (refill_same_instant (holding now n k rate)); [done|apply count_form; lia|done]. }
  rewrite E, Er. destruct k as [|k]; [done|]. destruct (count_step k ltac:(lia)) as [Hs Hl]. simpl.
  rewrite Hl. unfold holding. by rewrite Hs.
Qed.

Lemma requests_holding now key rate n m k l : is_finite rate = true → k ≤ n → (Z.of_nat n < max_burst)%Z → wf l →
  default (new_bucket now (mkRate rate (Z.of_nat n))) (bucket_of l key) = holding now n k rate →
  requests now l key (mkRate rate (Z.of_nat n)) m = (λ i, bool_decide (i < k)) <$> seq 0 m.
Proof.
  intros Hr Hk Hn. revert k l Hk. induction m as [|m IH]; intros k l Hk W E; [done|]. simpl.
  destruct (bucket_of_Allow now l key (mkRate rate (Z.of_nat n)) W) as (H1 & H2 & _).
  pose proof (wf_Allow now l key (mkRate rate (Z.of_nat n)) W) as W'.
  rewrite E, take_holding in H1, H2 by done.
  destruct (Allow _ _ _ _) as [l' ok]. simpl in *. rewrite <- fmap_S_seq, <- list_fmap_compose.
  destruct k as [|k]; simpl in *; subst ok; f_equal.
  - rewrite (IH 0 l'); [|lia|done|by rewrite H1]. apply list_fmap_ext. intros i x _. unfold compose.
    first [apply bool_decide_ext; lia | done].
  - rewrite (IH k l'); [|lia|done|by rewrite H1]. apply list_fmap_ext. intros i x _. unfold compose.
    first [apply bool_decide_ext; lia | done].
Qed.

Lemma removeOld_lookup `{GoRange} now l k :
  (removeOldBuckets now l).(buckets) !! k =
  match l.(buckets) !! k with
  | Some a => if is_old l (now - 5 * Minute)%Z a then None else Some a
  | None => None
  end.
Proof.
  unfold removeOldBuckets, Time_Add. simpl. set (th := (now + - (5 * Minute))%Z).
  replace (now - 5 * Minute)%Z with th by (unfold th; lia).
  assert (Hf : ∀ (xs : list (string * nat)) (m : gmap string nat),
    fold_left (λ m kv, if is_old l th kv.2 then delete kv.1 m else m) xs m !! k =
    if existsb (λ kv, bool_decide (kv.1 = k) && is_old l th kv.2) xs then None else m !! k).
  { induction xs as [|[k' a] xs IH]; intros m; [done|]. simpl. rewrite IH.
    destruct (existsb _ xs); [by rewrite orb_true_r|]. rewrite orb_false_r.
    cbn [fst snd]. destruct (decide (k' = k)) as [->|Hne].
    - rewrite bool_decide_eq_true_2 by done. destruct (is_old l th a); [by rewrite lookup_delete_eq|done].
    - rewrite bool_decide_eq_false_2 by done. destruct (is_old l th a); [by rewrite lookup_delete_ne|done]. }
  rewrite Hf. destruct (existsb _ _) eqn:Ex.
  - apply existsb_exists in Ex as ([k' a] & Hin%list_elem_of_In%elem_of_go_range & Hc).
    apply andb_true_iff in Hc as [Hk%bool_decide_eq_true Ho]. simpl in Hk, Ho. subst k'. by rewrite Hin, Ho.
  - destruct (buckets l !! k) as [a|] eqn:Ek; [|done]. destruct (is_old l th a) eqn:Eo; [|done].
    assert (Hex : existsb (λ kv, bool_decide (kv.1 = k) && is_old l th kv.2) (go_range 0 (buckets l)) = true).
    { apply existsb_exists. exists (k, a). split; [by apply list_elem_of_In, elem_of_go_range|].
      simpl. by rewrite bool_decide_eq_true_2, Eo. }
    congruence.
Qed.

(** ** Properties *)

(** A request is let through exactly when, after refilling for the time that
    has passed and clamping, the bucket of its key holds at least one token; the
    refilled count never exceeds the capacity; and no request touches the bucket,
    hence the allowance, of another key. *)
Theorem Allow_spec now l key limit (W : wf l) :
  let b := default (new_bucket now limit) (bucket_of l key) in
  let r := refill now (retune limit b) in
  (Allow now l key limit).2 = f_le f_one r.(tokens) ∧
  f_lt r.(capacity) r.(tokens) = false ∧ r.(lastRefill) = now ∧
  bucket_of (Allow now l key limit).1 key =
    Some (if f_le f_one r.(tokens) then mkBucket (f_sub r.(tokens) f_one) r.(capacity) r.(refillRate) now else r) ∧
  (∀ key', key' ≠ key → bucket_of (Allow now l key limit).1 key' = bucket_of l key') ∧
  wf (Allow now l key limit).1.
Proof.
  intros b r. destruct (bucket_of_Allow now l key limit W) as (H1 & H2 & H3).
  fold b in H1, H2. unfold take in H1, H2. fold r in H1, H2.
  split_and!; [| |done| |done|by apply wf_Allow].
  - rewrite H2. by destruct (f_le f_one (tokens r)).
  - unfold r, refill. simpl. apply f_clamp_le.
  - rewrite H1. by destruct (f_le f_one (tokens r)).
Qed.

Lemma Allow_spec_witness :
  (Allow 5 NewTokenBucketLimiter "ip:x" (mkRate (f_of_Z 10) 2)).2 = true ∧
  wf (Allow 5 NewTokenBucketLimiter "ip:x" (mkRate (f_of_Z 10) 2)).1.
Proof.
  destruct (Allow_spec 5 NewTokenBucketLimiter "ip:x" (mkRate (f_of_Z 10) 2) limiter_wf_new) as (H1 & _ & _ & _ & _ & H2).
  split; [rewrite H1; by vm_compute|exact H2].
Defined.

(** A key that has no bucket yet is allowed its burst and no more: of any
    number of requests at one instant exactly the first [Burst] are let through,
    whatever the (finite) refill rate, for every burst that float64 counts exactly
    (below 2^53). *)
Theorem burst_bounded now l key rate n m (W : wf l) (Hnew : bucket_of l key = None)
    (Hr : is_finite rate = true) (Hn : (Z.of_nat n < max_burst)%Z) :
  requests now l key (mkRate rate (Z.of_nat n)) m = (λ i, bool_decide (i < n)) <$> seq 0 m.
Proof. apply requests_holding; try done. by rewrite Hnew. Qed.

Lemma burst_bounded_witness :
  requests 9 NewTokenBucketLimiter "k" (mkRate (f_of_Z 3) 2) 4 = [true; true; false; false].
Proof.
  exact (burst_bounded 9 NewTokenBucketLimiter "k" (f_of_Z 3) 2 4 limiter_wf_new eq_refl eq_refl
    ltac:(vm_compute; reflexivity)).
Defined.

(** Beyond that bound a token more or less makes no difference: a burst of 2^54 never
    runs dry, at one instant. *)
Lemma huge_burst_never_drains :
  let limit := mkRate (f_of_Z 1) (2 ^ 54) in
  let b := new_bucket 9 limit in
  take 9 limit b = (b, true).
Proof. by vm_compute. Qed.

(** Two goroutines that find no bucket for a key each create one: with a burst of
    one, two requests at one instant are let through. *)
Lemma creation_race :
  let limit := mkRate (f_of_Z 1) 1 in
  let l := NewTokenBucketLimiter in
  (* both have looked the key up and found nothing *)
  let '(l1, a1) := Allow_create 0 l "k" limit in
  let '(l2, ok1) := Allow_take 0 l1 a1 limit in
  let '(l3, a2) := Allow_create 0 l2 "k" limit in
  let '(l4, ok2) := Allow_take 0 l3 a2 limit in
  Allow_lookup l "k" = None ∧ ok1 = true ∧ ok2 = true.
Proof. by vm_compute. Qed.

(** Cleanup forgets what a slow bucket owes: at one token per 1,000 seconds, a
    drained bucket is full again after the five idle minutes that remove it. *)
Lemma cleanup_refills :
  let limit := mkRate (f_div f_one (f_of_Z 1000)) 1 in
  let '(l1, ok1) := Allow 0 NewTokenBucketLimiter "k" limit in
  let now := (301 * Second)%Z in
  ok1 = true ∧ (Allow now l1 "k" limit).2 = false ∧ (Allow now (removeOldBuckets now l1) "k" limit).2 = true.
Proof. by vm_compute. Qed.

End ratelimit.
