(* ===== verification/RateBound.v ===== *)
(** * The token bucket over time (ratelimit.go)

    A limiter with an integral rate refines an ideal bucket of integers: over any
    schedule of requests of a key at whole seconds, interleaved with requests of
    other keys and with cleanups, it lets through what the ideal bucket lets through,
    because every float64 computation on the way is exact ([GoFloat]). *)

From stdpp Require Import prelude gmap strings list sorting.
From Stdlib Require Import ZArith SpecFloat.
From S2P Require Import Prelude GoRuntime GoFloat RateLimit.

Module ratebound.

(** [n] elements of a list from position [i] on. *)
Definition window {A} (i n : nat) (l : list A) : list A := take n (drop i l).

(** ** The ideal bucket: [t] tokens at second [s0] *)

Section ideal.
Context (cap r : Z).

Definition refilled (t s0 s : Z) : Z := Z.min cap (t + r * (s - s0)).
Definition admits (t s0 s : Z) : bool := (1 <=? refilled t s0 s)%Z.
Definition left_over (t s0 s : Z) : Z := if admits t s0 s then (refilled t s0 s - 1)%Z else refilled t s0 s.

Fixpoint ideal (t s0 : Z) (ss : list Z) : list bool :=
  match ss with [] => [] | s :: ss' => admits t s0 s :: ideal (left_over t s0 s) s ss' end.

Definition admitted (rs : list bool) : Z := Z.of_nat (length (filter (λ ok, ok = true) rs)).

Context (Hcap : (0 ≤ cap)%Z) (Hr : (0 ≤ r)%Z).

Lemma left_over_range t s0 s : (0 ≤ t ≤ cap)%Z → (s0 ≤ s)%Z → (0 ≤ left_over t s0 s ≤ cap)%Z.
Proof.
  intros Ht Hs. unfold left_over, admits, refilled. destruct (Z.leb_spec 1 (Z.min cap (t + r * (s - s0)))); nia.
Qed.

Lemma ideal_take n t s0 ss : take n (ideal t s0 ss) = ideal t s0 (take n ss).
Proof. revert n t s0. induction ss as [|s ss IH]; intros [|n] t s0; simpl; [done..|by rewrite IH]. Qed.

Lemma ideal_drop i t s0 ss : (0 ≤ t ≤ cap)%Z → Sorted Z.le (s0 :: ss) →
  ∃ t1, (0 ≤ t1 ≤ cap)%Z ∧ drop i (ideal t s0 ss) = ideal t1 (default s0 (last (take i ss))) (drop i ss) ∧
    Sorted Z.le (default s0 (last (take i ss)) :: drop i ss).
Proof.
  revert i t s0. induction ss as [|s ss IH]; intros [|i] t s0 Ht Hs; simpl; [by exists t..|].
  apply Sorted_inv in Hs as [Hs Hh]. apply HdRel_inv in Hh.
  destruct (IH i (left_over t s0 s) s) as (t1 & Ht1 & -> & Hd); [by apply left_over_range|done|].
  exists t1. split; [done|].
  assert (El : default s0 (last (s :: take i ss)) = default s (last (take i ss))); [|by rewrite El].
  destruct (take i ss) as [|x l]; [done|]. rewrite last_cons_cons. by destruct (last_is_Some (x :: l)) as [_ [y ->]].
Qed.

Lemma admitted_cons ok rs : admitted (ok :: rs) = ((if ok then 1 else 0) + admitted rs)%Z.
Proof. unfold admitted. destruct ok; [rewrite filter_cons_True by done|rewrite filter_cons_False by done]; cbn [length]; lia. Qed.

(** What is let through up to second [b] was there at the start or has come since. *)
Lemma ideal_admitted t s0 ss b : Sorted Z.le (s0 :: ss) → (s0 ≤ b)%Z → (∀ s, s ∈ ss → (s ≤ b)%Z) → (0 ≤ t)%Z →
  (admitted (ideal t s0 ss) ≤ t + r * (b - s0))%Z.
Proof.
  revert t s0. induction ss as [|s ss IH]; intros t s0 Hs Hb Hle Ht; [change (0 ≤ t + r * (b - s0))%Z; nia|]. cbn [ideal]. rewrite admitted_cons.
  apply Sorted_inv in Hs as [Hs Hh]. apply HdRel_inv in Hh. pose proof (Hle s ltac:(left)) as Hsb.
  assert (Hlo : (0 ≤ left_over t s0 s ∧ (if admits t s0 s then 1 else 0) + left_over t s0 s ≤ t + r * (s - s0))%Z).
  { unfold left_over, admits, refilled. destruct (Z.leb_spec 1 (Z.min cap (t + r * (s - s0)))); nia. }
  specialize (IH (left_over t s0 s) s Hs Hsb (λ x Hx, Hle x ltac:(by right)) ltac:(lia)). nia.
Qed.

(** The same for a window that starts with a request at second [a]. *)
Lemma ideal_window t s0 a ss b : Sorted Z.le (s0 :: a :: ss) → (a ≤ b)%Z → (∀ s, s ∈ ss → (s ≤ b)%Z) → (0 ≤ t)%Z →
  (admitted (ideal t s0 (a :: ss)) ≤ cap + r * (b - a))%Z.
Proof.
  intros Hs Hb Hle Ht. cbn [ideal]. rewrite admitted_cons. apply Sorted_inv in Hs as [Hs Hh]. apply HdRel_inv in Hh.
  assert (Hlo : (0 ≤ left_over t s0 a ∧ (if admits t s0 a then 1 else 0) + left_over t s0 a ≤ cap)%Z).
  { unfold left_over, admits, refilled. destruct (Z.leb_spec 1 (Z.min cap (t + r * (a - s0)))); nia. }
  pose proof (ideal_admitted (left_over t s0 a) a ss b Hs Hb Hle ltac:(lia)). lia.
Qed.

(** As many requests as there are tokens are let through, one after another. *)
Lemma ideal_first t s0 ss i : Sorted Z.le (s0 :: ss) → (t ≤ cap)%Z → (Z.of_nat i < t)%Z → i < length ss →
  ideal t s0 ss !! i = Some true.
Proof.
  revert t s0 i. induction ss as [|s ss IH]; intros t s0 i Hs Ht Hi Hl; [by apply Nat.nlt_0_r in Hl|]. cbn [ideal].
  apply Sorted_inv in Hs as [Hs Hh]. apply HdRel_inv in Hh.
  assert (Ha : admits t s0 s = true ∧ (t - 1 ≤ left_over t s0 s ≤ cap)%Z).
  { unfold left_over, admits, refilled. destruct (Z.leb_spec 1 (Z.min cap (t + r * (s - s0)))); nia. }
  destruct Ha as [-> Hlo]. destruct i as [|i]; [done|]. cbn [length] in Hl. apply IH; [done|lia..].
Qed.

(** A second's pause brings a token. *)
Lemma ideal_after_pause t s0 s ss : (0 ≤ t)%Z → (s0 < s)%Z → (1 ≤ cap)%Z → (1 ≤ r)%Z →
  ideal t s0 (s :: ss) !! 0 = Some true.
Proof. intros Ht Hs Hc H1. cbn. f_equal. unfold admits, refilled. apply Z.leb_le. nia. Qed.
End ideal.

(** ** Schedules of the limiter *)

Import ratelimit.

Section schedule.
Context `{GoRange} (base : Time) (key : string) (cap r : Z).

Definition limit : Rate := mkRate (f_of_Z r) cap.
Definition at_second (s : Z) : Time := (base + s * Second)%Z.

(** A request of the key at a whole second from [base], a request of another key
    under whatever limit, a cleanup. *)
Inductive event := Own (s : Z) | Other (now : Time) (k : string) (lim : Rate) | Swept (now : Time).

Definition time_of (e : event) : Time :=
  match e with Own s => at_second s | Other now _ _ => now | Swept now => now end.

Fixpoint in_order (T : Time) (evs : list event) : Prop :=
  match evs with [] => True | e :: evs' => (T ≤ time_of e)%Z ∧ in_order (time_of e) evs' end.

Definition own (evs : list event) : list Z := omap (λ e, match e with Own s => Some s | _ => None end) evs.

(** The answers to the key's requests. *)
Fixpoint serve (l : TokenBucketLimiter) (evs : list event) : list bool :=
  match evs with
  | [] => []
  | Own s :: evs' => let '(l', ok) := Allow (at_second s) l key limit in ok :: serve l' evs'
  | Other now k lim :: evs' => serve (Allow now l k lim).1 evs'
  | Swept now :: evs' => serve (removeOldBuckets now l) evs'
  end.

(** What keeps the schedule honest: the others are others, the numbers are exact, and
    a bucket is full again by the time a cleanup may remove it. *)
Record admissible (evs : list event) : Prop := {
  ad_other : ∀ now k lim, Other now k lim ∈ evs → k ≠ key;
  ad_exact : ∀ s, Own s ∈ evs → (cap + r * s < exact_Z ∧ s * Second ≤ max64)%Z;
  ad_swept : (∀ now, Swept now ∉ evs) ∨ (cap ≤ 300 * r)%Z;
}.

Lemma admissible_cons e evs : admissible (e :: evs) → admissible evs.
Proof.
  intros [H1 H2 H3]. split.
  - intros now k lim Hin. eapply H1. by right.
  - intros s Hin. apply H2. by right.
  - destruct H3 as [H3|H3]; [left|by right]. intros now Hin. apply (H3 now). by right.
Qed.

(** *** One request in exact numbers *)

Definition exact_bucket (t s : Z) : bucket := mkBucket (f_of_Z t) (f_of_Z cap) (f_of_Z r) (at_second s).

Lemma Seconds_exact n : (0 ≤ n)%Z → (n * Second ≤ max64)%Z → Seconds (n * Second) = f_of_Z n.
Proof.
  intros Hn Hb. assert (Hx : (n < exact_Z)%Z) by (unfold exact_Z, max64, Second in *; lia).
  unfold Seconds. rewrite Z.quot_mul, Z.rem_mul by done.
  change (f_div (f_of_Z 0) (f_of_Z 1000000000)) with (f_of_Z 0). by rewrite f_add_exact, Z.add_0_r by lia.
Qed.

Context (Hcap : (0 ≤ cap < exact_Z)%Z) (Hr : (0 ≤ r < exact_Z)%Z).

Lemma f_of_Z_not_nan z : (0 ≤ z < exact_Z)%Z → is_nan (f_of_Z z) = false.
Proof. intros Hz. by destruct (f_of_Z_finite z Hz) as [->|(? & ? & ? & ->)]. Qed.

Lemma take_exact t s0 s : (0 ≤ t ≤ cap)%Z → (0 ≤ s0 ≤ s)%Z → (cap + r * s < exact_Z)%Z → (s * Second ≤ max64)%Z →
  ratelimit.take (at_second s) limit (exact_bucket t s0) = (exact_bucket (left_over cap r t s0 s) s, admits cap r t s0 s).
Proof.
  intros Ht Hs Hx Hm. assert (Hrs : (0 ≤ r * (s - s0) ≤ r * s)%Z) by nia. unfold ratelimit.take.
  assert (E : retune limit (exact_bucket t s0) = exact_bucket t s0).
  { unfold retune. cbn. by rewrite !f_eq_refl by (apply f_of_Z_not_nan; lia). }
  assert (Er : refill (at_second s) (exact_bucket t s0) = exact_bucket (refilled cap r t s0 s) s).
  { unfold refill, exact_bucket. cbn [tokens capacity refillRate lastRefill].
    rewrite Time_Sub_exact by (unfold at_second, in64, min64, max64, Second in *; lia).
    replace (at_second s - at_second s0)%Z with ((s - s0) * Second)%Z by (unfold at_second; lia).
    rewrite Seconds_exact, f_mul_exact, f_add_exact by (unfold exact_Z, max64, Second in *; lia).
    unfold f_lt, SFltb, refilled. rewrite f_compare_exact by lia. rewrite (Z.mul_comm r).
    destruct (Z.compare_spec cap (t + (s - s0) * r)); f_equal; f_equal; lia. }
  rewrite E, Er. assert (Hf : (0 ≤ refilled cap r t s0 s ≤ cap)%Z) by (unfold refilled; lia).
  assert (Ele : f_le f_one (tokens (exact_bucket (refilled cap r t s0 s) s)) = admits cap r t s0 s).
  { unfold f_le, SFleb, f_one, admits. cbn [tokens exact_bucket]. rewrite f_compare_exact by (unfold exact_Z in *; lia).
    by destruct (Z.compare_spec 1 (refilled cap r t s0 s)), (Z.leb_spec 1 (refilled cap r t s0 s)); try lia. }
  rewrite Ele. unfold left_over. destruct (admits cap r t s0 s) eqn:Ea; [|done].
  apply Z.leb_le in Ea. unfold exact_bucket. cbn [tokens capacity refillRate lastRefill].
  pose proof (f_sub_one (refilled cap r t s0 s - 1) ltac:(lia) ltac:(lia)) as Es. rewrite Z.sub_add in Es. by rewrite Es.
Qed.

(** *** The limiter in step with the ideal bucket *)

(** At time [T]: the key's bucket holds the ideal one's tokens, or there is none and
    the ideal one is full from now on. *)
Record in_step (l : TokenBucketLimiter) (t s0 : Z) (T : Time) : Prop := {
  is_wf : wf l;
  is_range : (0 ≤ t ≤ cap)%Z;
  is_past : (0 ≤ s0)%Z ∧ (at_second s0 ≤ T)%Z;
  is_bucket : bucket_of l key = Some (exact_bucket t s0) ∨
    (bucket_of l key = None ∧ ∀ s, (T ≤ at_second s)%Z → (cap ≤ t + r * (s - s0))%Z);
}.

Lemma at_second_le s1 s2 : (at_second s1 ≤ at_second s2)%Z ↔ (s1 ≤ s2)%Z.
Proof. unfold at_second, Second. lia. Qed.

Lemma own_step l t s0 T s : in_step l t s0 T → (T ≤ at_second s)%Z → (cap + r * s < exact_Z)%Z → (s * Second ≤ max64)%Z →
  (Allow (at_second s) l key limit).2 = admits cap r t s0 s ∧
  in_step (Allow (at_second s) l key limit).1 (left_over cap r t s0 s) s (at_second s).
Proof.
  intros [W Ht [H0 Hp] Hb] HT Hx Hm. assert (Hs : (s0 ≤ s)%Z) by (apply at_second_le; lia).
  destruct (bucket_of_Allow (at_second s) l key limit W) as (E1 & E2 & _).
  assert (Et : ratelimit.take (at_second s) limit (default (new_bucket (at_second s) limit) (bucket_of l key)) =
    (exact_bucket (left_over cap r t s0 s) s, admits cap r t s0 s)).
  { destruct Hb as [->|[-> Hfull]]; [by apply take_exact|]. change (default _ None) with (exact_bucket cap s).
    rewrite take_exact by lia. specialize (Hfull s HT).
    assert (Ef : refilled cap r cap s s = refilled cap r t s0 s) by (unfold refilled; lia).
    unfold left_over, admits. by rewrite Ef. }
  rewrite Et in E1, E2. split; [done|]. split; [by apply wf_Allow|by apply left_over_range; lia|lia|by left].
Qed.

Lemma other_step l t s0 T now k lim : in_step l t s0 T → (T ≤ now)%Z → k ≠ key → in_step (Allow now l k lim).1 t s0 now.
Proof.
  intros [W Ht [H0 Hp] Hb] HT Hk. destruct (bucket_of_Allow now l k lim W) as (_ & _ & E). split; [by apply wf_Allow|done|lia|].
  rewrite E by done. destruct Hb as [Hb|[Hb Hfull]]; [by left|right]. split; [done|]. intros s Hs. apply Hfull. lia.
Qed.

Lemma wf_removeOld now l : wf l → wf (removeOldBuckets now l).
Proof.
  intros [H1 H2]. assert (Hl : ∀ k a, (removeOldBuckets now l).(buckets) !! k = Some a → l.(buckets) !! k = Some a).
  { intros k a. rewrite removeOld_lookup. destruct (buckets l !! k) as [b|]; [|done]. by case_match. }
  split; [intros k a Hk; by eapply H1, Hl|]. intros k1 k2 a K1 K2. by eapply H2; apply Hl.
Qed.

Lemma swept_step l t s0 T now : in_step l t s0 T → (T ≤ now)%Z → (cap ≤ 300 * r)%Z → in_step (removeOldBuckets now l) t s0 now.
Proof.
  intros [W Ht [H0 Hp] Hb] HT Hc. split; [by apply wf_removeOld|done|lia|].
  assert (Hk : bucket_of (removeOldBuckets now l) key = bucket_of l key ∨
    bucket_of (removeOldBuckets now l) key = None ∧ ∃ b, bucket_of l key = Some b ∧ (b.(lastRefill) < now - 5 * Minute)%Z).
  { unfold bucket_of. rewrite removeOld_lookup. destruct (buckets l !! key) as [a|]; [|by left].
    destruct (is_old _ _ _) eqn:Eo; [right|by left]. split; [done|]. unfold is_old in Eo.
    destruct (store l !! a) as [b|]; [|done]. exists b. split; [done|]. by apply Z.ltb_lt in Eo. }
  destruct Hk as [->|[-> (b & Eb & Hold)]].
  - destruct Hb as [Hb|[Hb Hfull]]; [by left|right]. split; [done|]. intros s Hs. apply Hfull. lia.
  - right. split; [done|]. intros s Hs. destruct Hb as [Hb|[Hb _]]; [|by rewrite Eb in Hb].
    rewrite Eb in Hb. injection Hb as ->. cbn in Hold. unfold at_second, Minute, Second in *.
    assert (300 ≤ s - s0)%Z by lia. nia.
Qed.

Lemma serve_ideal evs : ∀ l t s0 T, in_step l t s0 T → in_order T evs → admissible evs →
  serve l evs = ideal cap r t s0 (own evs).
Proof.
  induction evs as [|e evs IH]; intros l t s0 T I HO A; [done|].
  destruct HO as [HT Ho]. pose proof (admissible_cons e evs A) as A'. destruct A as [A1 A2 A3]. destruct e as [s|now k lim|now]; cbn [serve own omap list_omap].
  - destruct (A2 s ltac:(left)) as [Hx Hm]. destruct (own_step l t s0 T s I HT Hx Hm) as [E1 I'].
    destruct (Allow (at_second s) l key limit) as [l' ok]. cbn in E1, I'. subst ok. cbn [ideal]. f_equal.
    by eapply IH.
  - eapply IH; [|exact Ho|done]. eapply other_step; [done|exact HT|]. by eapply A1; left.
  - eapply IH; [|exact Ho|done]. eapply swept_step; [done|exact HT|]. destruct A3 as [A3|A3]; [|done].
    by destruct (A3 now ltac:(left)).
Qed.

Lemma own_sorted evs : ∀ T s0, in_order T evs → (at_second s0 ≤ T)%Z → Sorted Z.le (s0 :: own evs).
Proof.
  induction evs as [|e evs IH]; intros T s0 HO H0; [by repeat constructor|]. destruct HO as [HT Ho].
  destruct e as [s|now k lim|now]; cbn [own omap list_omap].
  - constructor; [by eapply IH|]. constructor. apply at_second_le. cbn in HT. lia.
  - eapply IH; [exact Ho|cbn in HT |- *; lia].
  - eapply IH; [exact Ho|cbn in HT |- *; lia].
Qed.

Lemma in_step_new l T : wf l → bucket_of l key = None → (base ≤ T)%Z → in_step l cap 0 T.
Proof.
  intros W Hn HT. split; [done|lia|unfold at_second; lia|right]. split; [done|]. intros s Hs.
  unfold at_second, Second in Hs. assert (0 ≤ s)%Z by lia. nia.
Qed.

Lemma sorted_lookup (s0 : Z) ss i j x y : Sorted Z.le (s0 :: ss) → ss !! i = Some x → ss !! j = Some y → i ≤ j → (x ≤ y)%Z.
Proof.
  intros Hs Hx Hy Hij. apply (Sorted_StronglySorted Z.le) in Hs. apply StronglySorted_inv in Hs as [Hs _].
  destruct (decide (i = j)) as [->|Hne]; [by simplify_eq|].
  eapply (StronglySorted_app_1_elem_of Z.le (firstn j ss) (drop j ss)); [by rewrite take_drop| |].
  - apply list_elem_of_lookup. exists i. rewrite lookup_take_lt by lia. done.
  - apply list_elem_of_lookup. exists 0. by rewrite lookup_drop, Nat.add_0_r.
Qed.

Lemma sorted_prefix (x : Z) l n : Sorted Z.le (x :: l) → Sorted Z.le (x :: firstn n l).
Proof.
  intros Hs. apply (Sorted_StronglySorted Z.le) in Hs. apply StronglySorted_Sorted.
  apply (StronglySorted_app_1_l _ (x :: firstn n l) (drop n l)). cbn. by rewrite take_drop.
Qed.

End schedule.

(** C10: the rate limit over time.  The rate is a whole number [r >= 0] of tokens a
    second and the burst a whole number [cap >= 0], both below 2^53; the key has no
    bucket yet; its requests come at whole seconds, as long as [cap + r * s] is below
    2^53 at every second [s] of a request; requests of other keys come in between;
    and cleanups only if a bucket fills up in the five minutes after which they drop
    it, [cap <= 300 * r] ([cleanup_refills] is a slower bucket, which a cleanup does
    refill; rate 0, like any other, is covered where no cleanup occurs).  Then the
    limiter answers as the ideal bucket of integers does; among any consecutive
    requests, from second [a] to second [b], it lets through at most
    [cap + r * (b - a)]; and the first [cap] requests are let through.  If moreover
    [cap >= 1] and [r >= 1], so is every request that comes a second or more after
    the one before. *)
Theorem rate_bounded `{GoRange} base key cap r l evs (Hcap : (0 ≤ cap < exact_Z)%Z) (Hr : (0 ≤ r < exact_Z)%Z) (W : wf l) (Hnew : bucket_of l key = None)
    (HO : in_order base base evs) (A : admissible key cap r evs) :
  let ss := own evs in let rs := serve base key cap r l evs in
  rs = ideal cap r cap 0 ss ∧
  (∀ i n a b, ss !! i = Some a → ss !! (i + n) = Some b → (admitted (window i (S n) rs) ≤ cap + r * (b - a))%Z) ∧
  (∀ i, (Z.of_nat i < cap)%Z → i < length ss → rs !! i = Some true) ∧
  (∀ i a b, ss !! i = Some a → ss !! S i = Some b → (a < b)%Z → (1 ≤ cap)%Z → (1 ≤ r)%Z → rs !! S i = Some true).
Proof.
  intros ss rs. assert (Hs : Sorted Z.le (0%Z :: ss)) by (eapply (own_sorted base); [exact HO|unfold at_second; lia]).
  assert (E : rs = ideal cap r cap 0 ss).
  { eapply (serve_ideal base key cap r Hcap Hr); [|exact HO|exact A]. by apply in_step_new. }
  split; [exact E|]. rewrite E. clear E. clearbody ss. assert (H0 : (0 ≤ cap ≤ cap)%Z) by lia. split_and!.
  - intros i n a b Ha Hb. unfold window.
    destruct (ideal_drop cap r (proj1 Hcap) (proj1 Hr) i cap 0 ss H0 Hs) as (t1 & Ht1 & -> & Hd). rewrite ideal_take.
    pose proof (sorted_prefix _ _ (S n) Hd) as Hd2. clear Hd.
    rewrite (drop_S ss a i Ha) in *. cbn [firstn] in *. apply ideal_window; [lia|lia|exact Hd2|..].
    + by eapply (sorted_lookup 0); [exact Hs|exact Ha|exact Hb|lia].
    + intros s [j [Hj Hjn]%lookup_take_Some]%list_elem_of_lookup. rewrite lookup_drop in Hj.
      eapply (sorted_lookup 0); [exact Hs|exact Hj|exact Hb|lia].
    + lia.
  - intros i Hi Hl. eapply ideal_first; first [exact Hs|exact Hl|lia].
  - intros i a b Ha Hb Hab Hc H1.
    destruct (ideal_drop cap r (proj1 Hcap) (proj1 Hr) (S i) cap 0 ss H0 Hs) as (t1 & Ht1 & E & _).
    rewrite (take_S_r ss i a Ha), last_snoc, (drop_S ss b (S i) Hb) in E. cbn [default from_option id] in E.
    pose proof (ideal_after_pause cap r t1 a b (drop (S (S i)) ss) ltac:(lia) Hab Hc H1) as El.
    rewrite <- E, lookup_drop, Nat.add_0_r in El. exact El.
Qed.

(** Two a burst, one per second, with another key and a cleanup in between. *)
Definition ex_events : list event :=
  [Own 0; Own 0; Other 0 "b" (mkRate (f_of_Z 5) 1); Own 0; Own 1; Swept (400 * Second); Own 400].

Lemma ex_admissible : admissible "k" 2 1 ex_events.
Proof.
  split.
  - intros now k lim Hin. unfold ex_events in Hin. set_unfold in Hin. naive_solver.
  - intros s Hin. assert (Hs : (0 ≤ s ≤ 400)%Z).
    { unfold ex_events in Hin. set_unfold in Hin. naive_solver lia. }
    unfold exact_Z, max64, Second. lia.
  - right. lia.
Qed.

Lemma rate_bounded_witness :
  serve 0 "k" 2 1 NewTokenBucketLimiter ex_events = [true; true; false; true; true] ∧
  (admitted (window 0 4 (serve 0 "k" 2 1 NewTokenBucketLimiter ex_events)) ≤ 3)%Z.
Proof.
  assert (HO : in_order 0 0 ex_events) by (repeat split; by vm_compute).
  destruct (rate_bounded 0 "k" 2 1 NewTokenBucketLimiter ex_events ltac:(vm_compute; split; congruence)
    ltac:(vm_compute; split; congruence) limiter_wf_new eq_refl HO ex_admissible) as (E & Hw & _).
  split; [rewrite E; vm_compute; reflexivity|].
  exact (Hw 0 3 0%Z 1%Z eq_refl eq_refl).
Defined.

End ratebound.
