(* ===== verification/RateInvariant.v ===== *)
(** * The invariant of the token buckets (ratelimit.go)

    Under any interleaving of the critical sections of concurrent calls and cleanups,
    with any sane limits, fractional rates included: the float64 count of every
    bucket stays between zero and its capacity. *)

From stdpp Require Import prelude gmap strings list.
From Stdlib Require Import ZArith SpecFloat.
From S2P Require Import Prelude GoRuntime GoFloat GoRound RateLimit.

Open Scope Z_scope.

Module rateinvariant.
Import ratelimit.

(** ** One bucket *)

Definition number (x : f64) : Prop := nonneg x ∧ is_finite x = true.

(** A burst that float64 counts exactly, and a rate that is a number. *)
Record sane (limit : Rate) : Prop := {
  sane_burst : 0 ≤ limit.(Burst) < exact_Z;
  sane_rate : number limit.(RequestsPerSecond);
}.

(** The count is a number up to the capacity. *)
Record in_bounds (b : bucket) : Prop := {
  ib_tokens : number b.(tokens);
  ib_capacity : number b.(capacity);
  ib_rate : number b.(refillRate);
  ib_le : value b.(tokens) ≤ value b.(capacity);
}.

(** In float64's own comparisons. *)
Lemma in_bounds_le b : in_bounds b → f_le (f_of_Z 0) b.(tokens) = true ∧ f_le b.(tokens) b.(capacity) = true.
Proof.
  intros [[T1 T2] [C1 C2] _ Hle]. rewrite !f_le_value by done. split; apply Z.leb_le; [by apply value_nonneg|done].
Qed.

Lemma burst_number limit : sane limit → number (f_of_Z limit.(Burst)).
Proof. intros [Hb _]. split; [apply f_of_Z_nonneg; lia|by apply finite_of_Z]. Qed.

Lemma Seconds_number d : 0 ≤ d ≤ max64 → number (Seconds d).
Proof.
  intros Hd. unfold Seconds. rewrite Z.quot_div_nonneg, Z.rem_mod_nonneg by (unfold Second; lia).
  pose proof (Z.mod_pos_bound d Second ltac:(done)) as Hm.
  assert (Hq : 0 ≤ d / Second < 10000000000).
  { split; [apply Z.div_pos; unfold Second; lia|apply Z.div_lt_upper_bound; unfold Second, max64 in *; lia]. }
  destruct (f_div_unit (d mod Second) 1000000000) as (Dn & Df & Dv); [done|done|].
  assert (Hq1 : 0 ≤ d / Second < exact_Z ∧ 0 ≤ d / Second + 1 < exact_Z) by (unfold exact_Z; lia). destruct Hq1 as [Q0 Q1].
  destruct (f_add_le (f_of_Z (d / Second)) (f_div (f_of_Z (d mod Second)) (f_of_Z 1000000000)) (f_of_Z (d / Second + 1))) as [Hf _];
    [apply f_of_Z_nonneg; lia|done|apply f_of_Z_nonneg; lia|by apply finite_of_Z|done|by apply finite_of_Z| |].
  - rewrite !value_of_Z by done. rewrite value_one in Dv.
    assert (E : scaled (d / Second + 1) 0 = scaled (d / Second) 0 + 2 ^ unit_exp) by (unfold scaled; rewrite Z.add_0_l; ring). lia.
  - split; [apply f_add_nonneg; [apply f_of_Z_nonneg; lia|done]|done].
Qed.

Lemma elapsed_range now last : last ≤ now → 0 ≤ Time_Sub now last ≤ max64.
Proof. intros. unfold Time_Sub, min64, max64. lia. Qed.

(** Refilling counts up to the capacity, whatever was there. *)
Lemma refill_in_bounds now b : number b.(tokens) → number b.(capacity) → number b.(refillRate) → b.(lastRefill) ≤ now →
  in_bounds (refill now b).
Proof.
  intros [T1 T2] [C1 C2] [R1 R2] Hnow. destruct (Seconds_number _ (elapsed_range now _ Hnow)) as [S1 S2]. unfold refill.
  set (t := f_add _ _). assert (Ht : nonneg t) by (apply f_add_nonneg; [done|apply f_mul_nonneg; auto]).
  destruct (f_lt (capacity b) t) eqn:El; [by split|]. assert (Hf : is_finite t = true).
  { destruct t as [|s| |]; try done. cbn in Ht. subst s. by destruct (capacity b). }
  split; try done. cbn. rewrite f_lt_value in El by done. by apply Z.ltb_ge in El.
Qed.

Lemma take_in_bounds now limit b : sane limit → in_bounds b → b.(lastRefill) ≤ now → in_bounds (take now limit b).1.
Proof.
  intros Hl [Ht Hc Hr _] Hnow. unfold take.
  assert (Hre : in_bounds (refill now (retune limit b))).
  { unfold retune. destruct (_ || _); apply refill_in_bounds; try done; [by apply burst_number|apply Hl]. }
  destruct (f_le f_one (tokens (refill now (retune limit b)))) eqn:El; [|done]. destruct Hre as [[T1 T2] Hc' Hr' Hle].
  rewrite f_le_value in El by (done || apply one_nonneg). apply Z.leb_le in El.
  destruct (f_sub_range _ f_one T1 one_nonneg T2 eq_refl El) as (S1 & S2 & S3). split; try done. cbn in *. lia.
Qed.

Lemma new_bucket_in_bounds now limit : sane limit → in_bounds (new_bucket now limit).
Proof. intros Hl. pose proof (burst_number limit Hl). split; try done. apply Hl. Qed.

(** ** The limiter *)

(** The critical sections.  A goroutine may take from any bucket it has looked up, also
    one that the map has lost since; the clock it reads inside [take] is not behind
    the reading that the bucket keeps. *)
Inductive step `{GoRange} : TokenBucketLimiter → TokenBucketLimiter → Prop :=
| step_create now l key limit : sane limit → step l (Allow_create now l key limit).1
| step_take now l a limit : sane limit → (∀ b, l.(store) !! a = Some b → b.(lastRefill) ≤ now) →
    step l (Allow_take now l a limit).1
| step_cleanup l ev l' : cleanup l ev = Some l' → step l l'
| step_close l : step l (Close l).

Definition invariant (l : TokenBucketLimiter) : Prop := ∀ a b, l.(store) !! a = Some b → in_bounds b.

Lemma step_invariant `{GoRange} l l' : invariant l → step l l' → invariant l'.
Proof.
  intros Hi Hs. destruct Hs as [now l key limit Hl|now l a limit Hl Hc|l ev l' E|l].
  - intros a b. cbn. rewrite lookup_insert_Some. intros [[_ <-]|[_ Hb]]; [by apply new_bucket_in_bounds|by eapply Hi].
  - unfold Allow_take. destruct (store l !! a) as [b|] eqn:E; [|done].
    pose proof (take_in_bounds now limit b Hl (Hi a b E) (Hc b eq_refl)) as Ht. destruct (take now limit b) as [b' ok].
    intros a' b1. cbn. rewrite lookup_insert_Some. intros [[_ <-]|[_ Hb]]; [done|by eapply Hi].
  - destruct ev as [|now]; [done|]. injection E as <-. exact Hi.
  - intros a b. unfold Close. by destruct (stopped l); apply Hi.
Qed.

(** C15: the token counts.  However the critical sections of concurrent calls, cleanups
    and closing interleave, with whatever sane limits, changing ones and fractional
    rates included: in every state of the limiter every bucket, also one that is no
    longer in the map, counts a number of tokens between zero and its capacity; the
    count is never NaN, negative or infinite.  And a call is let through only when
    there is a token after the refill. *)
Theorem tokens_in_bounds `{GoRange} l (Hr : rtc step NewTokenBucketLimiter l) :
  ∀ a b, l.(store) !! a = Some b →
    is_finite b.(tokens) = true ∧ f_le (f_of_Z 0) b.(tokens) = true ∧ f_le b.(tokens) b.(capacity) = true ∧
    ∀ now limit, sane limit → b.(lastRefill) ≤ now → (take now limit b).2 = true →
      f_le f_one (refill now (retune limit b)).(tokens) = true ∧
      f_le (f_of_Z 0) (take now limit b).1.(tokens) = true.
Proof.
  assert (Hi : invariant l).
  { assert (H0 : invariant NewTokenBucketLimiter) by done.
    revert H0. induction Hr as [|x y z Hxy _ IH]; [done|]. intros H0. by eapply IH, step_invariant. }
  intros a b Hb. pose proof (Hi a b Hb) as Hib. destruct (in_bounds_le b Hib) as [H0 H1].
  split; [apply Hib|]. split; [done|]. split; [done|]. intros now limit Hl Hnow Hok.
  split; [|apply in_bounds_le; by apply take_in_bounds]. unfold take in Hok. by destruct (f_le f_one _).
Qed.

(** Two calls for one key race, at a rate of one and a half per second. *)
Definition ex_limit : Rate := mkRate (f_div (f_of_Z 3) (f_of_Z 2)) 2.

Lemma ex_sane : sane ex_limit.
Proof.
  assert (E : f_div (f_of_Z 3) (f_of_Z 2) = S754_finite false 6755399441055744 (-52)) by (vm_compute; reflexivity).
  split; [by vm_compute|]. unfold ex_limit, number. cbn [RequestsPerSecond]. rewrite E.
  split; [split; [done|]; unfold canonical; split_and!; lia|done].
Qed.

Lemma tokens_in_bounds_witness :
  let l1 := (Allow_create 0 NewTokenBucketLimiter "k" ex_limit).1 in
  let l2 := (Allow_create 1 l1 "k" ex_limit).1 in
  let l3 := (Allow_take (5 * Second) l2 0%nat ex_limit).1 in
  ∃ b, l3.(store) !! 0%nat = Some b ∧ f_le (f_of_Z 0) b.(tokens) = true ∧ f_le b.(tokens) b.(capacity) = true.
Proof.
  set (l1 := (Allow_create 0 NewTokenBucketLimiter "k" ex_limit).1). set (l2 := (Allow_create 1 l1 "k" ex_limit).1).
  set (l3 := (Allow_take (5 * Second) l2 0%nat ex_limit).1).
  assert (Hr : rtc step NewTokenBucketLimiter l3).
  { eapply rtc_l; [apply (step_create 0 _ "k" ex_limit ex_sane)|]. eapply rtc_l; [apply (step_create 1 _ "k" ex_limit ex_sane)|].
    eapply rtc_once, step_take; [apply ex_sane|]. intros b Hb. vm_compute in Hb. injection Hb as <-. by vm_compute. }
  destruct (store l3 !! 0%nat) as [b|] eqn:Eb; [|by vm_compute in Eb].
  destruct (tokens_in_bounds l3 Hr 0%nat b Eb) as (_ & H1 & H2 & _). exists b. split; [exact Eb|]. split; [exact H1|exact H2].
Defined.

(** An infinite rate, meant as no limit, can block a key for good: when no time has
    passed since the creation of its bucket the count becomes NaN, and stays it. *)
Lemma infinite_rate_poisons :
  let limit := mkRate (S754_infinity false) 5 in
  let '(b1, ok1) := take 7 limit (new_bucket 7 limit) in
  let '(b2, ok2) := take (100 * Second) limit b1 in
  b1.(tokens) = S754_nan ∧ b2.(tokens) = S754_nan ∧ ok1 = false ∧ ok2 = false.
Proof. by vm_compute. Qed.
End rateinvariant.

Close Scope Z_scope.
