(* ===== verification/Health.v ===== *)
(** * Health service (health.go)

    Serving status by service, watchers with a one-slot channel that always holds
    the newest status, the per-stream deduplication of [Watch], shutdown, and the
    HTTP probes.  A watcher is named by its address and carries the state of the
    goroutine that streams to its client: the status sent last and the messages
    sent so far. *)

From stdpp Require Import prelude gmap strings list fin_maps.
From Stdlib Require Import ZArith.
From S2P Require Import Prelude GoRuntime.

Module health.

Definition ServingStatus := Z.
Definition SERVING_STATUS_UNSPECIFIED : ServingStatus := 0%Z.
Definition SERVING_STATUS_SERVING : ServingStatus := 1%Z.
Definition SERVING_STATUS_NOT_SERVING : ServingStatus := 2%Z.
Definition SERVING_STATUS_SERVICE_UNKNOWN : ServingStatus := 3%Z.

(** [hw_ch]: the channel of capacity one; [hw_lastSent], [hw_sent]: the locals of the
    streaming loop and the stream's messages, newest first. *)
Record healthWatcher := mkHealthWatcher {
  hw_addr : nat;
  hw_ch : option ServingStatus;
  hw_lastSent : Z;
  hw_sent : list ServingStatus;
}.

Record HealthServer := mkHealthServer {
  shutdown : bool;
  statusMap : gmap string ServingStatus;
  watchers : gmap string (list healthWatcher);
}.

Definition NewHealthServer : HealthServer := mkHealthServer false {["" := SERVING_STATUS_SERVING]} ∅.

Definition Check (h : HealthServer) (service : string) : res ServingStatus :=
  match h.(statusMap) !! service with
  | None => Err (NewError CodeNotFound (Errorf "unknown service: %s" [AStr service]))
  | Some status => Ok status
  end.

(** ** Updates *)

(** [select { case <-ch: default: }] *)
Definition drain (w : healthWatcher) : healthWatcher :=
  mkHealthWatcher w.(hw_addr) None w.(hw_lastSent) w.(hw_sent).

(** [select { case ch <- status: default: }] *)
Definition offer (status : ServingStatus) (w : healthWatcher) : healthWatcher :=
  match w.(hw_ch) with
  | None => mkHealthWatcher w.(hw_addr) (Some status) w.(hw_lastSent) w.(hw_sent)
  | Some _ => w
  end.

Definition setStatusLocked (h : HealthServer) (service : string) (status : ServingStatus) : HealthServer :=
  mkHealthServer h.(shutdown) (<[service := status]> h.(statusMap))
    (match h.(watchers) !! service with
     | None => h.(watchers)
     | Some ws => <[service := (λ w, offer status (drain w)) <$> ws]> h.(watchers)
     end).

Definition SetServingStatus (h : HealthServer) (service : string) (status : ServingStatus) : HealthServer :=
  if h.(shutdown) then h else setStatusLocked h service status.

Definition Shutdown `{GoRange} (h : HealthServer) : HealthServer :=
  let h1 := mkHealthServer true h.(statusMap) h.(watchers) in
  fold_left (λ h kv, setStatusLocked h kv.1 SERVING_STATUS_NOT_SERVING) (go_range 0 h1.(statusMap)) h1.

(** ** Watching *)

Definition current (h : HealthServer) (service : string) : ServingStatus :=
  match h.(statusMap) !! service with Some s => s | None => SERVING_STATUS_SERVICE_UNKNOWN end.

(** From the start of [Watch] to the unlock. *)
Definition Watch_open (h : HealthServer) (service : string) (addr : nat) : HealthServer :=
  let watcher := mkHealthWatcher addr (Some (current h service)) (-1) [] in
  mkHealthServer h.(shutdown) h.(statusMap)
    (<[service := get_or [] h.(watchers) service ++ [watcher]]> h.(watchers)).

(** One turn of the streaming loop: receive, drop a repetition, send. *)
Definition stream_turn (w : healthWatcher) : healthWatcher :=
  match w.(hw_ch) with
  | None => w
  | Some status =>
      if bool_decide (status = w.(hw_lastSent))
      then mkHealthWatcher w.(hw_addr) None w.(hw_lastSent) w.(hw_sent)
      else mkHealthWatcher w.(hw_addr) None status (status :: w.(hw_sent))
  end.

Definition at_addr (addr : nat) (w : healthWatcher) : bool := bool_decide (w.(hw_addr) = addr).

Definition Watch_turn (h : HealthServer) (service : string) (addr : nat) : HealthServer :=
  match h.(watchers) !! service with
  | None => h
  | Some ws =>
      mkHealthServer h.(shutdown) h.(statusMap)
        (<[service := (λ w, if at_addr addr w then stream_turn w else w) <$> ws]> h.(watchers))
  end.

Definition Watch_close (h : HealthServer) (service : string) (addr : nat) : HealthServer :=
  let ws := get_or [] h.(watchers) service in
  if existsb (at_addr addr) ws
  then mkHealthServer h.(shutdown) h.(statusMap) (<[service := remove_first (at_addr addr) ws]> h.(watchers))
  else h.

(** ** HTTP probes *)

(** Status and body; [None] for a path the mux does not know. *)
Definition HTTPHealthHandler (h : HealthServer) (path : string) : option (Z * string) :=
  if bool_decide (path = "/healthz") then Some (StatusOK, "ok")
  else if bool_decide (path = "/readyz") then
    match Check h "" with
    | Ok status =>
        if bool_decide (status ≠ SERVING_STATUS_SERVING) then Some (StatusServiceUnavailable, "not ready")
        else Some (StatusOK, "ready")
    | Err _ => Some (StatusServiceUnavailable, "not ready")
    end
  else None.

(** ** Histories *)

Inductive event :=
| EvSet (service : string) (status : ServingStatus)
| EvShutdown
| EvOpen (service : string) (addr : nat)
| EvTurn (service : string) (addr : nat)
| EvClose (service : string) (addr : nat).

Definition apply `{GoRange} (h : HealthServer) (ev : event) : HealthServer :=
  match ev with
  | EvSet s st => SetServingStatus h s st
  | EvShutdown => Shutdown h
  | EvOpen s a => Watch_open h s a
  | EvTurn s a => Watch_turn h s a
  | EvClose s a => Watch_close h s a
  end.

Definition run `{GoRange} (h : HealthServer) (evs : list event) : HealthServer := fold_left apply evs h.

(** ** Invariant *)

Definition watchers_of (h : HealthServer) (s : string) : list healthWatcher := get_or [] h.(watchers) s.

(** The channel, when it holds something, holds [c]; when it is empty [c] was the
    last status sent; and no two consecutive messages are equal. *)
Record watcher_ok (c : ServingStatus) (w : healthWatcher) : Prop := {
  ok_ch : ∀ s, w.(hw_ch) = Some s → s = c;
  ok_last : w.(hw_ch) = None → w.(hw_lastSent) = c;
  ok_sent : w.(hw_sent) = [] ∨ head w.(hw_sent) = Some w.(hw_lastSent);
  ok_fresh : w.(hw_sent) = [] → w.(hw_lastSent) = (-1)%Z;
  ok_dedup : ∀ i x y, w.(hw_sent) !! i = Some x → w.(hw_sent) !! S i = Some y → x ≠ y;
}.

Definition inv (h : HealthServer) : Prop :=
  ∀ s w, w ∈ watchers_of h s → watcher_ok (current h s) w.

Lemma watchers_of_set h s st s' :
  watchers_of (setStatusLocked h s st) s' =
  if decide (s = s') then (λ w, offer st (drain w)) <$> watchers_of h s else watchers_of h s'.
Proof.
  unfold watchers_of, setStatusLocked. simpl. destruct (watchers h !! s) as [ws|] eqn:E.
  - rewrite get_or_insert. case_decide; [|done]. by rewrite (get_or_Some _ _ _ _ E).
  - case_decide; [subst|done]. by rewrite (get_or_None _ _ _ E).
Qed.

Lemma current_set h s st s' :
  current (setStatusLocked h s st) s' = if decide (s = s') then st else current h s'.
Proof. unfold current, setStatusLocked. simpl. rewrite lookup_insert. by case_decide. Qed.

Lemma watcher_ok_set c st w : watcher_ok c w → watcher_ok st (offer st (drain w)).
Proof. intros [H1 H2 H3 H4 H5]. split; simpl; try done. by intros s [= <-]. Qed.

Lemma inv_setStatusLocked h s st : inv h → inv (setStatusLocked h s st).
Proof.
  intros Hi s' w. rewrite watchers_of_set, current_set. case_decide; [subst|apply Hi].
  intros (w0 & -> & Hw)%list_elem_of_fmap. eapply watcher_ok_set, Hi, Hw.
Qed.

Lemma watcher_ok_turn c w : watcher_ok c w → c ≠ (-1)%Z → watcher_ok c (stream_turn w).
Proof.
  intros [H1 H2 H3 H4 H5] Hc. unfold stream_turn. destruct (hw_ch w) as [s|] eqn:E; [|by split; rewrite ?E].
  rewrite (H1 s eq_refl) in *. case_bool_decide as Hs; split; simpl; try done.
  - by right.
  - intros [|i] x y; simpl; [|apply H5].
    intros [= <-] Hy. destruct (hw_sent w) as [|z l]; [done|]. simpl in Hy.
    destruct H3 as [?|H3]; [done|]. simpl in *. congruence.
Qed.

(** Statuses are members of the wire enumeration, which has no negative value. *)
Definition status_ok (ev : event) : Prop := match ev with EvSet _ st => st ≠ (-1)%Z | _ => True end.

Definition map_ok (h : HealthServer) : Prop := ∀ s, current h s ≠ (-1)%Z.

Lemma map_ok_set h s st : map_ok h → st ≠ (-1)%Z → map_ok (setStatusLocked h s st).
Proof. intros H Hst s'. rewrite current_set. case_decide; [done|apply H]. Qed.

Lemma Shutdown_ind `{GoRange} (P : HealthServer → Prop) h :
  P (mkHealthServer true h.(statusMap) h.(watchers)) →
  (∀ h s, P h → P (setStatusLocked h s SERVING_STATUS_NOT_SERVING)) → P (Shutdown h).
Proof.
  intros H0 Hs. unfold Shutdown. simpl. generalize (go_range 0 (statusMap h)) as l.
  revert H0. generalize (mkHealthServer true (statusMap h) (watchers h)) as h1.
  intros h1 H0 l. revert h1 H0. induction l as [|kv l IH]; intros h1 H1; simpl; [done|]. by apply IH, Hs.
Qed.

Lemma inv_apply `{GoRange} h ev : inv h → map_ok h → status_ok ev → inv (apply h ev) ∧ map_ok (apply h ev).
Proof.
  intros Hi Hm Hs. destruct ev as [s st| |s a|s a|s a]; simpl in *.
  - unfold SetServingStatus. destruct (shutdown h); [done|].
    split; [by apply inv_setStatusLocked|by apply map_ok_set].
  - apply (Shutdown_ind (λ h, inv h ∧ map_ok h)); [done|]. intros h' s [Hi' Hm'].
    split; [by apply inv_setStatusLocked|by apply map_ok_set].
  - split; [|done]. intros s' w. unfold watchers_of, Watch_open. simpl.
    change (current (mkHealthServer _ (statusMap h) _) s') with (current h s').
    rewrite get_or_insert. case_decide; [subst|apply Hi].
    rewrite elem_of_app, list_elem_of_singleton. intros [Hw| ->]; [by apply Hi|].
    split; simpl; try done; [by intros ? [= <-]|by left].
  - split.
    + intros s' w. unfold watchers_of, Watch_turn. destruct (watchers h !! s) as [ws|] eqn:E; [|apply Hi].
      simpl. change (current (mkHealthServer _ (statusMap h) _) s') with (current h s').
      rewrite get_or_insert. case_decide; [subst|apply Hi].
      intros (w0 & -> & Hw)%list_elem_of_fmap.
      assert (Hw0 : watcher_ok (current h s') w0)
        by (apply Hi; unfold watchers_of; by rewrite (get_or_Some _ _ _ _ E)).
      destruct (at_addr a w0); [|done]. by apply watcher_ok_turn.
    + unfold Watch_turn. by destruct (watchers h !! s).
  - unfold Watch_close. destruct (existsb _ _); [|done]. split; [|done]. intros s' w. unfold watchers_of. simpl.
    change (current (mkHealthServer _ (statusMap h) _) s') with (current h s').
    rewrite get_or_insert. case_decide; [subst|apply Hi]. intros Hw. apply Hi.
    unfold watchers_of. eapply sublist_subseteq; [apply remove_first_sublist|done].
Qed.

Lemma inv_run `{GoRange} evs h : inv h → map_ok h → Forall status_ok evs → inv (run h evs) ∧ map_ok (run h evs).
Proof.
  unfold run. revert h. induction evs as [|ev evs IH]; intros h Hi Hm Hs; [done|]. simpl.
  apply Forall_cons in Hs as [H1 H2]. destruct (inv_apply h ev Hi Hm H1). by apply IH.
Qed.

Lemma run_app `{GoRange} h e1 e2 : run h (e1 ++ e2) = run (run h e1) e2.
Proof. unfold run. by rewrite fold_left_app. Qed.

(** After shutdown nothing changes a status any more. *)
Lemma apply_down `{GoRange} h ev s : h.(shutdown) = true →
  (h.(statusMap) !! s = None ∨ h.(statusMap) !! s = Some SERVING_STATUS_NOT_SERVING) →
  (apply h ev).(shutdown) = true ∧
  ((apply h ev).(statusMap) !! s = None ∨ (apply h ev).(statusMap) !! s = Some SERVING_STATUS_NOT_SERVING) ∧
  (is_Some (h.(statusMap) !! s) → is_Some ((apply h ev).(statusMap) !! s)).
Proof.
  intros Hd Hs. destruct ev as [s' st| |s' a|s' a|s' a]; simpl.
  - unfold SetServingStatus. by rewrite Hd.
  - apply (Shutdown_ind (λ h', shutdown h' = true ∧
      (statusMap h' !! s = None ∨ statusMap h' !! s = Some SERVING_STATUS_NOT_SERVING) ∧
      (is_Some (statusMap h !! s) → is_Some (statusMap h' !! s)))); [done|].
    intros h' s' (H1 & H2 & H3). simpl. split; [done|]. rewrite lookup_insert. case_decide; [|done].
    split; [by right|eauto].
  - done.
  - unfold Watch_turn. by destruct (watchers h !! s').
  - unfold Watch_close. by destruct (existsb _ _).
Qed.

Lemma Shutdown_status `{GoRange} h s :
  (Shutdown h).(shutdown) = true ∧
  (Shutdown h).(statusMap) !! s =
    match h.(statusMap) !! s with Some _ => Some SERVING_STATUS_NOT_SERVING | None => None end.
Proof.
  unfold Shutdown. simpl. set (h1 := mkHealthServer true (statusMap h) (watchers h)).
  assert (Hf : ∀ (l : list (string * ServingStatus)) h0,
    let h2 := fold_left (λ h kv, setStatusLocked h kv.1 SERVING_STATUS_NOT_SERVING) l h0 in
    h2.(shutdown) = h0.(shutdown) ∧
    (s ∈ l.*1 → h2.(statusMap) !! s = Some SERVING_STATUS_NOT_SERVING) ∧
    (s ∉ l.*1 → h2.(statusMap) !! s = h0.(statusMap) !! s)).
  { induction l as [|[k v] l IH]; intros h0; simpl; [split_and!; try done; intros Hin; by apply elem_of_nil in Hin|].
    destruct (IH (setStatusLocked h0 k SERVING_STATUS_NOT_SERVING)) as (H1 & H2 & H3). simpl in *.
    split; [done|]. split.
    - intros Hin. destruct (decide (s ∈ l.*1)) as [Hl|Hl]; [by apply H2|].
      apply elem_of_cons in Hin as [->|?]; [|done]. by rewrite H3, lookup_insert_eq.
    - intros [Hne Hl]%not_elem_of_cons. by rewrite H3, lookup_insert_ne. }
  destruct (Hf (go_range 0 (statusMap h)) h1) as (H1 & H2 & H3). split; [done|].
  destruct (statusMap h !! s) as [v|] eqn:E.
  - apply H2, elem_of_fst_go_range. by exists v.
  - rewrite H3; [done|]. rewrite elem_of_fst_go_range, E. by intros [? ?].
Qed.

Lemma run_down `{GoRange} evs h s : h.(shutdown) = true →
  (h.(statusMap) !! s = None ∨ h.(statusMap) !! s = Some SERVING_STATUS_NOT_SERVING) →
  ((run h evs).(statusMap) !! s = None ∨ (run h evs).(statusMap) !! s = Some SERVING_STATUS_NOT_SERVING) ∧
  (is_Some (h.(statusMap) !! s) → is_Some ((run h evs).(statusMap) !! s)).
Proof.
  unfold run. revert h. induction evs as [|ev evs IH]; intros h Hd Hs; [done|]. simpl.
  destruct (apply_down h ev s Hd Hs) as (H1 & H2 & H3). destruct (IH _ H1 H2) as [H4 H5]. auto.
Qed.

(** ** Properties *)

(** C16: watching converges to the truth: in every history, a watcher's one-slot
    channel never holds anything but the current status of its service, and when it
    is empty the status sent last is the current one (unknown services counting as
    SERVICE_UNKNOWN); no stream ever sends the same status twice in a row. *)
Theorem watch_converges `{GoRange} evs s w (Hok : Forall status_ok evs)
    (Hw : w ∈ watchers_of (run NewHealthServer evs) s) :
  let h := run NewHealthServer evs in
  (stream_turn w).(hw_ch) = None ∧ (stream_turn w).(hw_lastSent) = current h s ∧
  head (stream_turn w).(hw_sent) = Some (current h s) ∧
  (∀ i x y, (stream_turn w).(hw_sent) !! i = Some x → (stream_turn w).(hw_sent) !! S i = Some y → x ≠ y).
Proof.
  intros h.
  assert (H0 : inv NewHealthServer ∧ map_ok NewHealthServer).
  { split.
    - intros s' w'. unfold watchers_of. simpl. rewrite get_or_empty. intros Hin. by apply elem_of_nil in Hin.
    - intros s'. unfold current. simpl. destruct (decide (s' = "")) as [->|Hne]; [by rewrite lookup_singleton_eq|].
      by rewrite lookup_singleton_ne. }
  destruct (inv_run evs NewHealthServer (proj1 H0) (proj2 H0) Hok) as [Hi Hm]. fold h in Hi, Hm.
  pose proof (watcher_ok_turn _ _ (Hi s w Hw) (Hm s)) as [T1 T2 T3 T4 T5].
  assert (Hch : (stream_turn w).(hw_ch) = None).
  { unfold stream_turn. destruct (hw_ch w) eqn:E; [by case_bool_decide|done]. }
  specialize (T2 Hch). split_and!; try done.
  destruct T3 as [E|E]; [|by rewrite E, T2]. specialize (T4 E). rewrite T4 in T2. by destruct (Hm s).
Qed.

Lemma watch_converges_witness :
  let evs := [EvSet "kv" 1%Z; EvOpen "kv" 7; EvTurn "kv" 7; EvSet "kv" 2%Z; EvSet "kv" 1%Z; EvTurn "kv" 7; EvShutdown] in
  ∃ w, w ∈ watchers_of (run NewHealthServer evs) "kv" ∧ head (stream_turn w).(hw_sent) = Some SERVING_STATUS_NOT_SERVING.
Proof.
  intros evs. exists (mkHealthWatcher 7 (Some 2%Z) 1 [1%Z]).
  assert (Hw : mkHealthWatcher 7 (Some 2%Z) 1 [1%Z] ∈ watchers_of (run NewHealthServer evs) "kv")
    by (vm_compute; left).
  split; [exact Hw|].
  exact (proj1 (proj2 (proj2 (watch_converges evs "kv" _
    ltac:(repeat constructor; vm_compute; discriminate) Hw)))).
Defined.

(** Shutdown is final: every service known when [Shutdown] runs is NOT_SERVING
    from then on whatever is set later, no service is ever reported SERVING again,
    and the readiness probe answers 503 while the liveness probe stays 200. *)
Theorem shutdown_final `{GoRange} h evs s :
  let h' := run (Shutdown h) evs in
  (is_Some (h.(statusMap) !! s) → Check h' s = Ok SERVING_STATUS_NOT_SERVING) ∧
  Check h' s ≠ Ok SERVING_STATUS_SERVING ∧
  HTTPHealthHandler h' "/readyz" = Some (StatusServiceUnavailable, "not ready") ∧
  HTTPHealthHandler h' "/healthz" = Some (StatusOK, "ok").
Proof.
  intros h'.
  assert (Hall : ∀ s, (h'.(statusMap) !! s = None ∨ h'.(statusMap) !! s = Some SERVING_STATUS_NOT_SERVING) ∧
                      (is_Some (h.(statusMap) !! s) → is_Some (h'.(statusMap) !! s))).
  { intros s'. destruct (Shutdown_status h s') as [Hd Hs].
    destruct (run_down evs (Shutdown h) s' Hd) as [H1 H2].
    - rewrite Hs. destruct (statusMap h !! s'); auto.
    - split; [done|]. intros [v Hv]. apply H2. rewrite Hs, Hv. eauto. }
  split_and!; [| | |done].
  - intros Hk. destruct (Hall s) as [Hs Hk']. unfold Check. destruct (Hk' Hk) as [v Hv].
    destruct Hs as [Hs|Hs]; [congruence|by rewrite Hs].
  - destruct (Hall s) as [[Hs|Hs] _]; unfold Check; by rewrite Hs.
  - unfold HTTPHealthHandler, Check. rewrite bool_decide_eq_false_2, bool_decide_eq_true_2 by done.
    destruct (Hall "") as [[Hs|Hs] _]; by rewrite Hs.
Qed.

End health.
