(* ===== verification/Discovery.v ===== *)
(** * Endpoint discovery (discovery.go)

    The [DiscoveryService] interface as a class, and its static implementation.  A
    watch is the list of events in its channel, which is closed behind them. *)

From stdpp Require Import prelude gmap strings list fin_maps.
From Stdlib Require Import ZArith.
From S2P Require Import Prelude GoRuntime.

Module discovery.

Record Endpoint := mkEndpoint { URL : string; ep_Metadata : gmap string string; Weight : Z }.

Record DiscoveryEvent := mkDiscoveryEvent {
  ev_ServiceName : string;
  ev_Endpoints : list Endpoint;
  ev_Error : option error;
}.

Class DiscoveryService (D : Type) := {
  ds_Discover : D → string → res (list Endpoint);
  ds_Watch : D → string → res (list DiscoveryEvent);
}.

Record StaticDiscovery := mkStaticDiscovery { endpoints : gmap string (list Endpoint) }.

Definition NewStaticDiscovery (eps : gmap string (list Endpoint)) : StaticDiscovery := mkStaticDiscovery eps.

Definition Discover (s : StaticDiscovery) (serviceName : string) : res (list Endpoint) :=
  match s.(endpoints) !! serviceName with
  | None => Err (Errorf "service %q not found in static discovery" [AStr serviceName])
  | Some eps =>
      if bool_decide (length eps = 0)
      then Err (Errorf "no endpoints configured for service %q" [AStr serviceName])
      else Ok eps
  end.

Definition Watch (s : StaticDiscovery) (serviceName : string) : res (list DiscoveryEvent) :=
  match Discover s serviceName with
  | Err err => Ok [mkDiscoveryEvent serviceName [] (Some err)]
  | Ok eps => Ok [mkDiscoveryEvent serviceName eps None]
  end.

Definition AddEndpoint (s : StaticDiscovery) (serviceName : string) (endpoint : Endpoint) : StaticDiscovery :=
  mkStaticDiscovery (<[serviceName := get_or [] s.(endpoints) serviceName ++ [endpoint]]> s.(endpoints)).

Definition RemoveService (s : StaticDiscovery) (serviceName : string) : StaticDiscovery :=
  mkStaticDiscovery (delete serviceName s.(endpoints)).

#[export] Instance StaticDiscovery_Service : DiscoveryService StaticDiscovery := {
  ds_Discover := Discover;
  ds_Watch := Watch;
}.

(** Discovery answers with the endpoints of the service in the order they were
    added, and never with an empty list. *)
Lemma Discover_Ok s n eps : Discover s n = Ok eps ↔ s.(endpoints) !! n = Some eps ∧ eps ≠ [].
Proof.
  unfold Discover. destruct (endpoints s !! n) as [l|]; [|split; [done|by intros [? _]]].
  case_bool_decide as E; [apply nil_length_inv in E; subst|].
  - split; [done|]. by intros [[= <-] ?].
  - split; [intros [= ->]; split; [done|by destruct eps]|by intros [[= ->] _]].
Qed.

Lemma Discover_AddEndpoint s n e :
  Discover (AddEndpoint s n e) n = Ok (get_or [] s.(endpoints) n ++ [e]) ∧
  (∀ n', n' ≠ n → Discover (AddEndpoint s n e) n' = Discover s n').
Proof.
  split.
  - apply Discover_Ok. simpl. rewrite lookup_insert_eq. split; [done|]. by destruct (get_or [] (endpoints s) n).
  - intros n' Hne. unfold Discover. simpl. by rewrite lookup_insert_ne.
Qed.

Lemma Discover_RemoveService s n :
  is_ok (Discover (RemoveService s n) n) = false ∧
  (∀ n', n' ≠ n → Discover (RemoveService s n) n' = Discover s n').
Proof.
  split; [unfold Discover; simpl; by rewrite lookup_delete_eq|].
  intros n' Hne. unfold Discover. simpl. by rewrite lookup_delete_ne.
Qed.

(** A watch delivers exactly what discovery answers, once. *)
Lemma Watch_agrees s n :
  ∃ ev, Watch s n = Ok [ev] ∧ ev.(ev_ServiceName) = n ∧
    Discover s n = match ev.(ev_Error) with Some e => Err e | None => Ok ev.(ev_Endpoints) end.
Proof. unfold Watch. destruct (Discover s n); eauto. Qed.

End discovery.
