(* ===== verification/Client.v ===== *)
(** * Plugin client (client.go; the dispensing helpers of plugin.go)

    Lazy connection, endpoint discovery, the client's half of the handshake, runtime
    identity and health reports.  The server is a parameter, the answer of the RPC;
    instantiated with the handshake server's model it gives the agreement of the
    two halves.  Generated RPC clients are known by the endpoint they call. *)

From stdpp Require Import prelude gmap strings list fin_maps sorting.
From Stdlib Require Import ZArith Ascii.
From S2P Require Import Prelude GoRuntime Validation Identity Plugin Broker Handshake Discovery.

Module client.
Import validation identity plugin broker handshake discovery.

Section client.
Context {Impl Handler Stub : Type} `{GoRange}.

Record ClientConfig := mkClientConfig {
  Endpoint : string;
  HostURL : string;
  cc_Plugins : option (PluginSet Impl Handler Stub);
  cc_ProtocolVersion : Z;
  cc_MagicCookieKey : string;
  cc_MagicCookieValue : string;
  SelfID : string;
  SelfVersion : string;
  cc_Metadata : PluginMetadata;
  Discovery : option (string → res (list discovery.Endpoint));
  DiscoveryServiceName : string;
}.

Definition with_endpoint (c : ClientConfig) (endpoint hostURL : string) : ClientConfig :=
  mkClientConfig endpoint hostURL c.(cc_Plugins) c.(cc_ProtocolVersion) c.(cc_MagicCookieKey)
    c.(cc_MagicCookieValue) c.(SelfID) c.(SelfVersion) c.(cc_Metadata) c.(Discovery) c.(DiscoveryServiceName).
Definition with_service_name (c : ClientConfig) (n : string) : ClientConfig :=
  mkClientConfig c.(Endpoint) c.(HostURL) c.(cc_Plugins) c.(cc_ProtocolVersion) c.(cc_MagicCookieKey)
    c.(cc_MagicCookieValue) c.(SelfID) c.(SelfVersion) c.(cc_Metadata) c.(Discovery) n.

Definition has_discovery (c : ClientConfig) : bool := match c.(Discovery) with Some _ => true | None => false end.

(** [Validate] normalises the configuration it is called on. *)
Definition ValidateConfig (c : ClientConfig) : ClientConfig * option error :=
  if bool_decide (c.(Endpoint) = "") && bool_decide (c.(HostURL) = "") && negb (has_discovery c) then
    (c, Some (Errorf "%w: Endpoint, HostURL, or Discovery is required" [AErr ErrInvalidConfig]))
  else
    let c := if bool_decide (c.(Endpoint) = "") && bool_decide (c.(HostURL) ≠ "")
             then with_endpoint c c.(HostURL) c.(HostURL) else c in
    let c := if has_discovery c && bool_decide (c.(DiscoveryServiceName) = "")
             then with_service_name c "plugin-host" else c in
    match c.(cc_Plugins) with
    | None => (c, None)
    | Some ps =>
        if bool_decide (0 < size ps) then
          match Validate ps with
          | Some e => (c, Some (Errorf "%w: %v" [AErr ErrInvalidConfig; AErr e]))
          | None => (c, None)
          end
        else (c, None)
    end.

Record Client := mkClient {
  cl_cfg : ClientConfig;
  connected : bool;
  closed : bool;
  httpClient : bool;
  runtimeID : string;
  runtimeToken : string;
  lifecycleClient : option string;
  registryClient : option string;
}.

Definition NewClient (cfg : ClientConfig) : res Client :=
  let '(cfg, err) := ValidateConfig cfg in
  match err with
  | Some e => Err e
  | None =>
      let cfg := if bool_decide (cfg.(Endpoint) = "") && bool_decide (cfg.(HostURL) ≠ "")
                 then with_endpoint cfg cfg.(HostURL) cfg.(HostURL) else cfg in
      Ok (mkClient cfg false false false "" "" None None)
  end.

Definition with_cfg (c : Client) cfg : Client :=
  mkClient cfg c.(connected) c.(closed) c.(httpClient) c.(runtimeID) c.(runtimeToken)
    c.(lifecycleClient) c.(registryClient).

(** ** Connecting *)

Definition discoverEndpoint (c : Client) (discover : string → res (list discovery.Endpoint)) : Client * option error :=
  let cfg := c.(cl_cfg) in
  let serviceName := if bool_decide (cfg.(DiscoveryServiceName) = "") then "plugin-host" else cfg.(DiscoveryServiceName) in
  match discover serviceName with
  | Err e => (c, Some e)
  | Ok [] => (c, Some (Errorf "no endpoints discovered for service %q" [AStr serviceName]))
  | Ok (ep :: _) => (with_cfg c (with_endpoint cfg ep.(URL) ep.(URL)), None)
  end.

Definition client_plugins (c : ClientConfig) : PluginSet Impl Handler Stub := default ∅ c.(cc_Plugins).

Definition protocolVersion (c : ClientConfig) : Z :=
  if bool_decide (c.(cc_ProtocolVersion) = 0%Z) then 1%Z else c.(cc_ProtocolVersion).

Definition client_cookie (c : ClientConfig) : string * string :=
  if bool_decide (c.(cc_MagicCookieKey) = "") then (DefaultMagicCookieKey, DefaultMagicCookieValue)
  else (c.(cc_MagicCookieKey), c.(cc_MagicCookieValue)).

(** The request sent; an empty self id is not stated.  The client's metadata and
    self version, which the handshake server does not read, are left out. *)
Definition handshake_request (c : ClientConfig) : HandshakeRequest :=
  mkHandshakeRequest 1 (wrap32 (protocolVersion c)) (client_cookie c).1 (client_cookie c).2
    (Keys (client_plugins c)) c.(SelfID).

Definition offered (infos : list PluginInfo) (name : string) : bool :=
  existsb (λ p, bool_decide (p.(pi_Name) = name)) infos.

(** The first requested plugin the server does not offer. *)
Fixpoint missing (infos : list PluginInfo) (names : list string) : option string :=
  match names with
  | [] => None
  | n :: names' => if offered infos n then missing infos names' else Some n
  end.

(** [rpc] is the answer of the server at the client's endpoint. *)
Definition doHandshake (rpc : string → HandshakeRequest → res HandshakeResponse) (c : Client) : Client * option error :=
  let cfg := c.(cl_cfg) in
  match rpc cfg.(Endpoint) (handshake_request cfg) with
  | Err e => (c, Some e)
  | Ok resp =>
      if bool_decide (resp.(hp_CoreProtocolVersion) ≠ 1%Z) then
        (c, Some (Errorf "core protocol version mismatch: got %d, want 1" [AInt resp.(hp_CoreProtocolVersion)]))
      else if bool_decide (resp.(hp_AppProtocolVersion) ≠ wrap32 (protocolVersion cfg)) then
        (c, Some (Errorf "app protocol version mismatch: got %d, want %d"
                    [AInt resp.(hp_AppProtocolVersion); AInt (protocolVersion cfg)]))
      else
        match missing resp.(hp_Plugins) (Keys (client_plugins cfg)) with
        | Some requested => (c, Some (Errorf "requested plugin %q not available on server" [AStr requested]))
        | None =>
            if bool_decide (resp.(hp_RuntimeId) ≠ "") then
              (mkClient cfg c.(connected) c.(closed) c.(httpClient) resp.(hp_RuntimeId) resp.(hp_RuntimeToken)
                 (Some cfg.(Endpoint)) (Some cfg.(Endpoint)), None)
            else (c, None)
        end
  end.

Definition set_http (c : Client) : Client :=
  mkClient c.(cl_cfg) c.(connected) c.(closed) true c.(runtimeID) c.(runtimeToken)
    c.(lifecycleClient) c.(registryClient).
Definition set_connected (c : Client) : Client :=
  mkClient c.(cl_cfg) true c.(closed) c.(httpClient) c.(runtimeID) c.(runtimeToken)
    c.(lifecycleClient) c.(registryClient).

Definition Connect (rpc : string → HandshakeRequest → res HandshakeResponse) (c : Client) : Client * option error :=
  if c.(closed) then (c, Some ErrClientClosed)
  else if c.(connected) then (c, None)
  else
    let '(c1, derr) :=
      match c.(cl_cfg).(Discovery) with
      | Some discover => if bool_decide (c.(cl_cfg).(Endpoint) = "") then discoverEndpoint c discover else (c, None)
      | None => (c, None)
      end in
    match derr with
    | Some e => (c1, Some (Errorf "endpoint discovery failed: %w" [AErr e]))
    | None =>
        let '(c2, herr) := doHandshake rpc (set_http c1) in
        match herr with
        | Some e => (c2, Some (Errorf "handshake failed: %w" [AErr e]))
        | None => (set_connected c2, None)
        end
    end.

Definition ensureConnected (rpc : string → HandshakeRequest → res HandshakeResponse) (c : Client) : Client * option error :=
  if c.(connected) then (c, None) else Connect rpc c.

Definition Dispense (rpc : string → HandshakeRequest → res HandshakeResponse) (c : Client) (name : string) :
    Client * res Stub :=
  let '(c', err) := ensureConnected rpc c in
  match err with
  | Some e => (c', Err e)
  | None =>
      match Get (client_plugins c'.(cl_cfg)) name with
      | None => (c', Err (Errorf "%w: %q" [AErr ErrPluginNotFound; AStr name]))
      | Some p => (c', p.(pl_ConnectClient) c'.(cl_cfg).(Endpoint))
      end
  end.

(** [cast] is the type assertion to the wanted interface. *)
Definition DispenseTyped {I} (cast : Stub → option I) (rpc : string → HandshakeRequest → res HandshakeResponse)
    (c : Client) (name : string) : Client * res I :=
  let '(c', raw) := Dispense rpc c name in
  (c', match raw with
       | Err e => Err e
       | Ok raw =>
           match cast raw with
           | Some typed => Ok typed
           | None => Err (Errorf "plugin %q does not implement %T, got %T" [AStr name])
           end
       end).

(** [None] is the panic. *)
Definition MustDispenseTyped {I} (cast : Stub → option I) (rpc : string → HandshakeRequest → res HandshakeResponse)
    (c : Client) (name : string) : Client * option I :=
  let '(c', r) := DispenseTyped cast rpc c name in
  (c', match r with Ok i => Some i | Err _ => None end).

(** ** Runtime identity and health *)

Definition SetRuntimeIdentity (c : Client) (rid token hostURL : string) : Client :=
  let cfg := c.(cl_cfg) in
  let cfg := if bool_decide (hostURL ≠ "") && bool_decide (cfg.(Endpoint) ≠ hostURL)
             then with_endpoint cfg hostURL hostURL else cfg in
  let init := bool_decide (c.(lifecycleClient) = None) && c.(httpClient) in
  mkClient cfg c.(connected) c.(closed) c.(httpClient) rid token
    (if init then Some cfg.(Endpoint) else c.(lifecycleClient))
    (if init then Some cfg.(Endpoint) else c.(registryClient)).

Record ReportHealthRequest := mkReportHealthRequest {
  rq_State : Z;
  rq_Reason : string;
  rq_UnavailableDependencies : list string;
}.

(** [rpc] is the answer of the host to a report sent to an endpoint. *)
Definition ReportHealth (rpc : string → Header → ReportHealthRequest → option error) (c : Client)
    (state : Z) (reason : string) (unavailableDeps : list string) : option error :=
  match c.(lifecycleClient) with
  | None => Some (Errorf "ReportHealth requires Phase 2 runtime identity (provide SelfID in ClientConfig)" [])
  | Some endpoint =>
      let hdr := Header_Set ∅ "X-Plugin-Runtime-ID" c.(runtimeID) in
      rpc endpoint (Header_Set hdr "Authorization" ("Bearer " +:+ c.(runtimeToken)))
        (mkReportHealthRequest state reason unavailableDeps)
  end.

Definition Close (c : Client) : Client * option error :=
  if c.(closed) then (c, None)
  else (mkClient c.(cl_cfg) c.(connected) true c.(httpClient) c.(runtimeID) c.(runtimeToken)
          c.(lifecycleClient) c.(registryClient), None).

Definition RuntimeID (c : Client) : string := c.(runtimeID).
Definition RuntimeToken (c : Client) : string := c.(runtimeToken).
Definition RegistryClient (c : Client) : option string := c.(registryClient).
Definition Config (c : Client) : ClientConfig := c.(cl_cfg).

(** ** TLS warnings *)

(** [env] is the value of CONNECTPLUGIN_DISABLE_TLS_WARNING. *)
Definition tlsWarningsDisabled (env : string) : bool :=
  let val := ToLower env in
  bool_decide (val = "1") || bool_decide (val = "true") || bool_decide (val = "yes").

Definition isNonTLSEndpoint (endpoint : string) : bool :=
  if HasPrefix endpoint "unix://" then false else HasPrefix endpoint "http://".

(** ** Lemmas *)

Lemma missing_None infos names : missing infos names = None ↔ ∀ n, n ∈ names → offered infos n = true.
Proof.
  induction names as [|n names IH]; simpl; [split; [intros _ n Hn; by apply elem_of_nil in Hn|done]|].
  destruct (offered infos n) eqn:E.
  - rewrite IH. split; [intros Hn m [->|Hm]%elem_of_cons; auto|intros Hn m Hm; apply Hn; by right].
  - split; [done|]. intros Hn. rewrite (Hn n) in E by left. done.
Qed.

Lemma offered_requested (sc : ServeConfig Impl Handler Stub) names n :
  (∀ k p, default ∅ sc.(Plugins) !! k = Some p → p.(pl_Metadata).(Name) = k) → n ∈ names →
  offered (requested_infos sc names) n = true ↔ is_Some (default ∅ sc.(Plugins) !! n).
Proof.
  intros Hnames Hn. unfold offered. rewrite existsb_exists. split.
  - intros (i & Hi & E%bool_decide_eq_true). apply list_elem_of_In in Hi.
    clear Hn. induction names as [|m names IH]; [by apply elem_of_nil in Hi|]. simpl in Hi. unfold Get in Hi.
    destruct (default ∅ (Plugins sc) !! m) as [p|] eqn:Ep; [|by apply IH].
    apply elem_of_cons in Hi as [->|Hi]; [|by apply IH]. simpl in E. rewrite (Hnames m p Ep) in E. subst. by exists p.
  - intros [p Hp]. induction names as [|m names IH]; [by apply elem_of_nil in Hn|].
    destruct (decide (m = n)) as [->|Hne].
    + exists (plugin_info (pl_Metadata p)). simpl. unfold Get. rewrite Hp. split; [by left|].
      apply bool_decide_eq_true. simpl. by apply Hnames.
    + apply elem_of_cons in Hn as [?|Hn]; [done|]. destruct (IH Hn) as (i & Hi & E). exists i. split; [|done].
      simpl. unfold Get. destruct (default ∅ (Plugins sc) !! m); [by right|done].
Qed.

(** The two halves of the handshake. *)
Definition compatible (cc : ClientConfig) (sc : ServeConfig Impl Handler Stub) (rd1 rd2 : Rand) : Prop :=
  client_cookie cc = expected_cookie sc ∧
  wrap32 (protocolVersion cc) = wrap32 (serverVersion sc) ∧
  (∀ n, is_Some (client_plugins cc !! n) → is_Some (default ∅ sc.(Plugins) !! n)) ∧
  (cc.(SelfID) ≠ "" → ValidateSelfID cc.(SelfID) = None ∧
     is_ok (generateRuntimeID rd1 cc.(SelfID)) = true ∧ is_ok (generateToken rd2) = true).

Lemma agrees_request cc (sc : ServeConfig Impl Handler Stub) :
  agrees sc (handshake_request cc) ↔
  client_cookie cc = expected_cookie sc ∧ wrap32 (protocolVersion cc) = wrap32 (serverVersion sc).
Proof.
  unfold agrees, handshake_request. simpl. destruct (client_cookie cc), (expected_cookie sc). simpl. tauto.
Qed.

Lemma missing_requested cc (sc : ServeConfig Impl Handler Stub) :
  (∀ k p, default ∅ sc.(Plugins) !! k = Some p → p.(pl_Metadata).(Name) = k) →
  missing (requested_infos sc (Keys (client_plugins cc))) (Keys (client_plugins cc)) = None ↔
  (∀ n, is_Some (client_plugins cc !! n) → is_Some (default ∅ sc.(Plugins) !! n)).
Proof.
  intros Hn. rewrite missing_None. split.
  - intros Hm n Hin%elem_of_Keys. by apply (offered_requested _ (Keys (client_plugins cc))), Hm.
  - intros Hm n Hin. apply offered_requested; [done..|]. by apply Hm, elem_of_Keys.
Qed.

Lemma doHandshake_server rd1 rd2 now b (h : HandshakeServer Impl Handler Stub) c :
  (∀ k p, default ∅ h.(cfg).(Plugins) !! k = Some p → p.(pl_Metadata).(Name) = k) →
  let '(h', resp) := Handshake rd1 rd2 now b h (handshake_request c.(cl_cfg)) in
  let '(c', err) := doHandshake (λ _ _, resp) c in
  (err = None ↔ compatible c.(cl_cfg) h.(cfg) rd1 rd2) ∧
  (err = None → c.(cl_cfg).(SelfID) ≠ "" →
   c'.(runtimeID) ≠ "" ∧ c'.(lifecycleClient) = Some c.(cl_cfg).(Endpoint) ∧
   h'.(tokens) !! c'.(runtimeID) =
     Some (mkTokenInfo c'.(runtimeToken) now (now + token_ttl h.(cfg))%Z)).
Proof.
  intros Hnames. unfold compatible.
  destruct (Handshake_cases rd1 rd2 now b h (handshake_request (cl_cfg c))) as [[Ha E]|(Hn & code & e & _ & E)];
    rewrite E; clear E.
  2:{ unfold doHandshake. split; [split; [done|]|done]. intros (? & ? & _). destruct Hn. by apply agrees_request. }
  apply agrees_request in Ha as [Hck Hver].
  change (hq_SelfId (handshake_request (cl_cfg c))) with (SelfID (cl_cfg c)).
  pose proof (issue_identity_cases rd1 rd2 now h (SelfID (cl_cfg c))) as Hi.
  destruct (issue_identity rd1 rd2 now h _) as [h' [[rid tok]|e]].
  2:{ unfold doHandshake. split; [split; [done|]|done]. destruct Hi as (_ & Hne & Hf).
      intros (_ & _ & _ & Hs). destruct (Hs Hne) as (Hv & Hg & Ht). specialize (Hf Hv). by rewrite Hg, Ht in Hf. }
  unfold doHandshake. simpl. rewrite Hver, (bool_decide_eq_false_2 (_ ≠ _)) by (by intros []).
  pose proof (missing_requested (cl_cfg c) (cfg h) Hnames) as Hm.
  destruct (missing _ _) as [m|].
  { split; [split; [done|]|done]. intros (_ & _ & Hp & _). by apply Hm in Hp. }
  destruct Hi as [(Hs & -> & -> & ->)|(Hne & Hv & Hg & Ht & ->)].
  - rewrite (bool_decide_eq_false_2 ("" ≠ "")) by (by intros []). split; [|intros _ ?; done].
    split; [intros _|done]. split_and!; [done|done|by apply Hm|done].
  - pose proof (runtime_id_nonempty _ _ _ Hg) as Hr. rewrite (bool_decide_eq_true_2 (rid ≠ "")) by done. simpl.
    split; [|intros _ _; by rewrite lookup_insert_eq].
    split; [intros _|done]. split_and!; [done|done|by apply Hm|]. intros _. by rewrite Hg, Ht.
Qed.

(** A handshake leaves the configuration alone. *)
Lemma doHandshake_cfg rpc c : (doHandshake rpc c).1.(cl_cfg) = c.(cl_cfg).
Proof. unfold doHandshake. by repeat (case_match; simpl; try done). Qed.

Lemma Connect_no_discovery rpc c : c.(closed) = false → c.(connected) = false → c.(cl_cfg).(Endpoint) ≠ "" →
  Connect rpc c = match doHandshake rpc (set_http c) with
                  | (c2, Some e) => (c2, Some (Errorf "handshake failed: %w" [AErr e]))
                  | (c2, None) => (set_connected c2, None)
                  end.
Proof.
  intros Hopen Hnew Hep. unfold Connect. rewrite Hopen, Hnew. destruct (Discovery (cl_cfg c)); [|done].
  by rewrite bool_decide_eq_false_2.
Qed.

(** A client that has connected is connected and open. *)
Lemma Connect_ok rpc c c' : c.(closed) = false → Connect rpc c = (c', None) → c'.(connected) = true ∧ c'.(closed) = false.
Proof.
  intros Hopen. unfold Connect. rewrite Hopen. destruct (connected c) eqn:Hc.
  { by intros [= <-]. }
  assert (Hdisc : ∀ c1 d, (match Discovery (cl_cfg c) with
      | Some discover => if bool_decide (Endpoint (cl_cfg c) = "") then discoverEndpoint c discover else (c, None)
      | None => (c, None) end) = (c1, d) → c1.(closed) = false).
  { intros c1 d E. replace c1 with (c1, d).1 by done. rewrite <- E. unfold discoverEndpoint.
    by repeat (case_match; simpl; try done). }
  destruct (match Discovery (cl_cfg c) with Some _ => _ | None => _ end) as [c1 [d|]]; [done|].
  specialize (Hdisc c1 None eq_refl).
  assert (Hh : (doHandshake rpc (set_http c1)).1.(closed) = false).
  { unfold doHandshake. by repeat (case_match; simpl; try done). }
  destruct (doHandshake rpc (set_http c1)) as [c2 [e|]]; [done|]. by intros [= <-].
Qed.

Lemma Connect_succeeds rd1 rd2 now b (h : HandshakeServer Impl Handler Stub) c :
  c.(closed) = false → c.(connected) = false → c.(cl_cfg).(Endpoint) ≠ "" →
  (∀ k p, default ∅ h.(cfg).(Plugins) !! k = Some p → p.(pl_Metadata).(Name) = k) →
  compatible c.(cl_cfg) h.(cfg) rd1 rd2 →
  let '(_, resp) := Handshake rd1 rd2 now b h (handshake_request c.(cl_cfg)) in
  ∃ c', Connect (λ _ _, resp) c = (c', None) ∧ c'.(connected) = true ∧ c'.(cl_cfg) = c.(cl_cfg).
Proof.
  intros Hopen Hnew Hep Hnames Hc. pose proof (doHandshake_server rd1 rd2 now b h (set_http c) Hnames) as Hd.
  change (cl_cfg (set_http c)) with (cl_cfg c) in Hd. destruct (Handshake _ _ _ _ _ _) as [h' resp].
  rewrite Connect_no_discovery by done. pose proof (doHandshake_cfg (λ _ _, resp) (set_http c)) as Ec.
  destruct (doHandshake _ _) as [c2 err]. destruct Hd as [Hd _]. rewrite (proj2 Hd Hc). by exists (set_connected c2).
Qed.
End client.

Arguments ClientConfig : clear implicits.
Arguments Client : clear implicits.

(** ** Properties *)

(** C18: client and server agree on the handshake. A client that knows its endpoint
    connects to a server exactly when both state the same cookie and (as 32-bit
    numbers) the same protocol version, the server offers every plugin of the
    client, and a stated self id is valid and could be issued an identity; the
    identity the client then holds is the one the server's token check accepts until
    the time-to-live has passed. *)
Theorem Connect_agreement {Impl Handler Stub} `{GoRange} rd1 rd2 now b
    (h : HandshakeServer Impl Handler Stub) (c : Client Impl Handler Stub)
    (Hopen : c.(closed) = false) (Hnew : c.(connected) = false) (Hep : c.(cl_cfg).(Endpoint) ≠ "")
    (Hnames : ∀ k p, default ∅ h.(cfg).(Plugins) !! k = Some p → p.(pl_Metadata).(Name) = k) :
  let '(h', resp) := Handshake rd1 rd2 now b h (handshake_request c.(cl_cfg)) in
  let '(c', err) := Connect (λ _ _, resp) c in
  (err = None ↔ compatible c.(cl_cfg) h.(cfg) rd1 rd2) ∧
  c'.(connected) = bool_decide (err = None) ∧
  (err = None → c.(cl_cfg).(SelfID) ≠ "" →
   ∀ t, (ValidateToken t h' c'.(runtimeID) c'.(runtimeToken)).2 = true ↔ (t ≤ now + token_ttl h.(cfg))%Z).
Proof.
  pose proof (doHandshake_server rd1 rd2 now b h (set_http c) Hnames) as Hd.
  change (cl_cfg (set_http c)) with (cl_cfg c) in Hd.
  destruct (Handshake rd1 rd2 now b h _) as [h' resp] eqn:Eh.
  rewrite Connect_no_discovery by done.
  assert (Hcon : (doHandshake (λ _ _, resp) (set_http c)).1.(connected) = false).
  { unfold doHandshake. by repeat (case_match; simpl; try done). }
  destruct (doHandshake (λ _ _, resp) (set_http c)) as [c2 [e|]]; simpl in *.
  - destruct Hd as [Hd1 _]. split_and!; [|done|done].
    split; [done|]. intros Hc. by apply Hd1 in Hc.
  - destruct Hd as [Hd1 Hd2]. split_and!; [done|done|].
    intros _ Hs t. destruct (Hd2 eq_refl Hs) as (_ & _ & Hl). rewrite ValidateToken_true, Hl. split.
    + by intros (i & [= <-] & _ & ?).
    + intros Ht. eexists. split_and!; [reflexivity|done|done].
Qed.

Definition ex_client_cfg (self : string) : ClientConfig unit unit unit :=
  mkClientConfig "http://host" "" ex_cfg.(Plugins) 0 "" "" self "1.0.0" (mkPluginMetadata "" "" "" [] []) None "".

Definition ex_client (self : string) : Client unit unit unit :=
  mkClient (ex_client_cfg self) false false false "" "" None None.

Lemma ex_names k p : default ∅ (NewHandshakeServer ex_cfg).(cfg).(Plugins) !! k = Some p → p.(pl_Metadata).(Name) = k.
Proof.
  change (ex_plugins !! k = Some p → p.(pl_Metadata).(Name) = k).
  unfold ex_plugins. rewrite lookup_singleton_Some. by intros [<- <-].
Qed.

Lemma Connect_agreement_witness :
  compatible (ex_client_cfg "cache") ex_cfg (rand_seq 1) (rand_seq 2).
Proof.
  pose proof (Connect_agreement (rand_seq 1) (rand_seq 2) 5 None (NewHandshakeServer ex_cfg) (ex_client "cache")
    eq_refl eq_refl ltac:(done) ex_names) as Hc.
  destruct (Handshake _ _ _ _ _ _) as [h' resp] eqn:Eh.
  destruct (Connect _ _) as [c' err] eqn:Ec.
  apply (proj1 Hc). vm_compute in Eh. injection Eh as <- <-. vm_compute in Ec. by injection Ec as <- <-.
Defined.

(** [Close] does not stop a connected client from dispensing. *)
Lemma dispense_after_close :
  let c := (Connect (λ _ req, (Handshake (rand_seq 1) (rand_seq 2) 5 None (NewHandshakeServer ex_cfg) req).2)
              (ex_client "")).1 in
  is_ok (Dispense (λ _ _, Err ErrClientNotConnected) (Close c).1 "kv").2 = true ∧
  (Connect (λ _ _, Err ErrClientNotConnected) (Close c).1).2 = Some ErrClientClosed.
Proof. by vm_compute. Qed.

(** After a failed handshake the discovered endpoint stays: the next attempt does
    not ask the discovery service again. *)
Lemma failed_connect_pins_endpoint :
  let discover url := λ _ : string, Ok [mkEndpoint url ∅ 100] in
  let cfg := mkClientConfig (Impl := unit) (Handler := unit) (Stub := unit)
    "" "" None 0 "" "" "" "" (mkPluginMetadata "" "" "" [] []) (Some (discover "http://old")) "" in
  let c := (Connect (λ _ _, Err ErrClientNotConnected) (mkClient cfg false false false "" "" None None)).1 in
  c.(connected) = false ∧ c.(cl_cfg).(Endpoint) = "http://old".
Proof. by vm_compute. Qed.

(** An existing report client keeps the endpoint it was made for. *)
Lemma stale_report_endpoint :
  let c := mkClient (ex_client_cfg "cache") true false true "cache-1" "t" (Some "http://host") (Some "http://host") in
  let c' := SetRuntimeIdentity c "cache-2" "t2" "http://new" in
  c'.(cl_cfg).(Endpoint) = "http://new" ∧ c'.(lifecycleClient) = Some "http://host".
Proof. by vm_compute. Qed.

End client.
