(* ===== verification/Server.v ===== *)
(** * Serving plugins (server.go, the mux of broker.go)

    Validation of the configuration, assembly of the HTTP mux, health transitions
    around serving, and graceful shutdown.  The listening server is a parameter:
    whether it stops with an error or is asked to stop, and what its [Shutdown]
    returns. *)

From stdpp Require Import prelude gmap strings list fin_maps.
From Stdlib Require Import ZArith Ascii.
From S2P Require Import Prelude GoRuntime Plugin Handshake Health.

Module server.
Import plugin handshake health.

(** ** [http.ServeMux] *)

(** Patterns in registration order.  A pattern that ends in a slash matches every
    path below it, any other only itself; the longest match wins; registering a
    pattern twice, or one without a slash, panics ([None]).  This is what the mux does
    with plain patterns, paths without blanks, percent signs or braces, as connect-go
    generates them.  Patterns with a method or a host, escapes and wildcards, which
    it also accepts or refuses by rules of their own, are outside the model. *)
Section mux.
Context {H : Type}.

Definition mux := list (string * H).

Definition has_path (pattern : string) : bool := negb (free_of "/" pattern).

Definition Handle (m : mux) (pattern : string) (h : H) : option mux :=
  if negb (has_path pattern) || existsb (λ e, bool_decide (e.1 = pattern)) m then None else Some (m ++ [(pattern, h)]).

Definition ends_in_slash (p : string) : bool :=
  bool_decide (String.get (Nat.pred (String.length p)) p = Some "/"%char).

Definition pattern_matches (pattern path : string) : bool :=
  if ends_in_slash pattern then HasPrefix path pattern else bool_decide (path = pattern).

(** The longest of the matching patterns seen so far. *)
Fixpoint longest (m : mux) (path : string) (best : option (string * H)) : option (string * H) :=
  match m with
  | [] => best
  | (p, h) :: m' =>
      longest m' path
        (if pattern_matches p path &&
            match best with None => true | Some (q, _) => Nat.ltb (String.length q) (String.length p) end
         then Some (p, h) else best)
  end.

Definition dispatch (m : mux) (path : string) : option H := snd <$> longest m path None.
End mux.

Arguments mux : clear implicits.

(** Base paths of the generated handlers. *)
Definition HandshakeServicePath : string := "/connectplugin.v1.HandshakeService/".
Definition HealthServicePath : string := "/connectplugin.health.v1.HealthService/".
Definition PluginLifecyclePath : string := "/connectplugin.v1.PluginLifecycle/".
Definition ServiceRegistryPath : string := "/connectplugin.v1.ServiceRegistry/".
Definition CapabilityBrokerPath : string := "/connectplugin.v1.CapabilityBroker/".

(** The broker's own mux: [CapabilityBroker.Handler]. *)
Inductive broker_route := BrokerRPC | BrokerCapabilities.

Definition broker_Handler : mux broker_route :=
  [(CapabilityBrokerPath, BrokerRPC); ("/capabilities/", BrokerCapabilities)].

Section serve.
Context {Impl Handler Stub : Type}.

Inductive mount :=
| MBroker | MHandshake | MHealthRPC | MHTTPHealth | MLifecycle | MRegistry | MRouter
| MPlugin (name : string) (h : Handler).

(** ** Configuration *)

Definition wrap_invalid (e : error) : error := Errorf "%w: %v" [AErr ErrInvalidConfig; AErr e].

Fixpoint first_missing {A B} (l : list (string * A)) (m : gmap string B) : option string :=
  match l with
  | [] => None
  | (n, _) :: l' => match m !! n with None => Some n | Some _ => first_missing l' m end
  end.

Definition ValidateServe `{GoRange} (c : ServeConfig Impl Handler Stub) : option error :=
  match c.(Plugins) with
  | None => Some (Errorf "%w: Plugins must be set" [AErr ErrInvalidConfig])
  | Some plugins =>
      match c.(Impls) with
      | None => Some (Errorf "%w: Impls must be set" [AErr ErrInvalidConfig])
      | Some impls =>
          match first_missing (go_range 1 plugins) impls with
          | Some name => Some (Errorf "%w: no implementation for plugin %q" [AErr ErrInvalidConfig; AStr name])
          | None =>
              match first_missing (go_range 2 impls) plugins with
              | Some name => Some (Errorf "%w: no plugin definition for impl %q" [AErr ErrInvalidConfig; AStr name])
              | None =>
                  match Validate plugins with
                  | Some err => Some (wrap_invalid err)
                  | None =>
                      if (c.(ProtocolVersion) <? 0)%Z
                      then Some (Errorf "%w: ProtocolVersion cannot be negative" [AErr ErrInvalidConfig])
                      else None
                  end
              end
          end
      end
  end.

(** ** Assembly *)

(** [cfg] with the defaults of [Serve]. *)
Definition serve_defaults (c : ServeConfig Impl Handler Stub) : ServeConfig Impl Handler Stub :=
  mkServeConfig c.(Plugins) c.(Impls)
    (if bool_decide (c.(ProtocolVersion) = 0%Z) then 1%Z else c.(ProtocolVersion))
    c.(MagicCookieKey) c.(MagicCookieValue) c.(ServerMetadata)
    (if bool_decide (c.(Addr) = "") then ":8080" else c.(Addr))
    (if bool_decide (c.(GracefulShutdownTimeout) = 0%Z) then (30 * Second)%Z else c.(GracefulShutdownTimeout))
    c.(Cleanup) c.(StopCh) c.(HealthService) c.(HasCapabilityBroker) c.(RuntimeTokenTTL) c.(CapabilityGrantTTL)
    c.(HasRateLimiter) c.(LifecycleService) c.(HasServiceRegistry) c.(HasServiceRouter).

(** The mounts of the optional services, in order. *)
Definition builtin_mounts (c : ServeConfig Impl Handler Stub) : list (string * mount) :=
  (if c.(HasCapabilityBroker) then [("/broker/", MBroker); ("/capabilities/", MBroker)] else []) ++
  [(HandshakeServicePath, MHandshake)] ++
  (if c.(HealthService) then [(HealthServicePath, MHealthRPC); ("/healthz", MHTTPHealth); ("/readyz", MHTTPHealth)] else []) ++
  (if c.(LifecycleService) then [(PluginLifecyclePath, MLifecycle)] else []) ++
  (if c.(HasServiceRegistry) then [(ServiceRegistryPath, MRegistry)] else []) ++
  (if c.(HasServiceRouter) then [("/services/", MRouter)] else []).

Fixpoint handle_all (m : mux mount) (l : list (string * mount)) : option (mux mount) :=
  match l with
  | [] => Some m
  | (p, h) :: l' => match Handle m p h with None => None | Some m' => handle_all m' l' end
  end.

(** A call that may panic or return an error. *)
Inductive outcome (A : Type) := Panicked | Failed (e : error) | Returned (a : A).
Arguments Panicked {A}.
Arguments Failed {A} e.
Arguments Returned {A} a.

Definition mark_serving (c : ServeConfig Impl Handler Stub) (h : HealthServer) (service : string) : HealthServer :=
  if c.(HealthService) then SetServingStatus h service SERVING_STATUS_SERVING else h.

(** The loop that registers the plugin services. *)
Fixpoint register_plugins (c : ServeConfig Impl Handler Stub) (l : list (string * Plugin Impl Handler Stub))
    (m : mux mount) (h : HealthServer) : HealthServer * outcome (mux mount) :=
  match l with
  | [] => (h, Returned m)
  | (name, p) :: l' =>
      match default ∅ c.(Impls) !! name with
      | None => (h, Failed (Errorf "no implementation for plugin %q" [AStr name]))
      | Some impl =>
          match p.(pl_ConnectServer) impl with
          | Err err => (h, Failed (Errorf "plugin %q: %w" [AStr name; AErr err]))
          | Ok (path, handler) =>
              match Handle m path (MPlugin name handler) with
              | None => (h, Panicked)
              | Some m' => register_plugins c l' m' (mark_serving c h name)
              end
          end
      end
  end.

(** Everything [Serve] does before it listens. *)
Definition assemble `{GoRange} (c : ServeConfig Impl Handler Stub) (h : HealthServer) :
    HealthServer * outcome (mux mount) :=
  let c := serve_defaults c in
  match ValidateServe c with
  | Some err => (h, Failed err)
  | None =>
      let h1 := mark_serving c h "" in
      match handle_all [] (builtin_mounts c) with
      | None => (h1, Panicked)
      | Some m => register_plugins c (go_range 3 (default ∅ c.(Plugins))) m h1
      end
  end.

(** ** Running and stopping *)

Inductive ending := ListenFailed (err : error) | StopSignalled (shutdown_err : option error).

(** The health server after shutdown, whether the cleanup hook ran, the result. *)
Definition gracefulShutdown `{GoRange} (c : ServeConfig Impl Handler Stub) (h : HealthServer)
    (shutdown_err : option error) : HealthServer * bool * option error :=
  let h' := if c.(HealthService) then Shutdown h else h in
  let ran := match c.(Cleanup) with Some _ => true | None => false end in
  match shutdown_err with
  | Some err => (h', ran, Some (Errorf "server shutdown: %w" [AErr err]))
  | None => (h', ran, None)
  end.

(** The health server afterwards, whether the cleanup hook ran, the result. *)
Definition Serve `{GoRange} (c : ServeConfig Impl Handler Stub) (h : HealthServer) (e : ending) :
    HealthServer * bool * outcome (option error) :=
  match assemble c h with
  | (h', Panicked) => (h', false, Panicked)
  | (h', Failed err) => (h', false, Returned (Some err))
  | (h', Returned m) =>
      match e with
      | ListenFailed err => (h', false, Returned (Some err))
      | StopSignalled serr =>
          let '(h'', ran, r) := gracefulShutdown (serve_defaults c) h' serr in (h'', ran, Returned r)
      end
  end.

(** ** Lemmas *)

Lemma first_missing_None {A B} (l : list (string * A)) (m : gmap string B) :
  first_missing l m = None ↔ ∀ n, n ∈ l.*1 → is_Some (m !! n).
Proof.
  induction l as [|[n a] l IH]; simpl; [split; [intros _ n Hn; by apply elem_of_nil in Hn|done]|].
  destruct (m !! n) as [b|] eqn:E.
  - rewrite IH. split; [intros Hl k [->|Hk]%elem_of_cons; [by exists b|by apply Hl]|intros Hl k Hk; apply Hl; by right].
  - split; [done|]. intros Hl. destruct (Hl n ltac:(left)). congruence.
Qed.

Definition serve_ok (c : ServeConfig Impl Handler Stub) : Prop :=
  ∃ plugins impls, c.(Plugins) = Some plugins ∧ c.(Impls) = Some impls ∧
    (∀ n, is_Some (plugins !! n) ↔ is_Some (impls !! n)) ∧ valid_set plugins ∧ (0 ≤ c.(ProtocolVersion))%Z.

Lemma ValidateServe_None `{GoRange} c : ValidateServe c = None ↔ serve_ok c.
Proof.
  unfold ValidateServe, serve_ok.
  destruct (Plugins c) as [ps|]; [|split; [done|by intros (? & ? & ? & _)]].
  destruct (Impls c) as [ims|]; [|split; [done|by intros (? & ? & _ & ? & _)]].
  pose proof (first_missing_None (go_range 1 ps) ims) as H1.
  pose proof (first_missing_None (go_range 2 ims) ps) as H2.
  setoid_rewrite elem_of_fst_go_range in H1. setoid_rewrite elem_of_fst_go_range in H2.
  destruct (first_missing (go_range 1 ps) ims).
  { split; [done|]. intros (? & ? & [= <-] & [= <-] & Hk & _). enough (Some s = None) by done. apply H1. intros n. by apply Hk. }
  destruct (first_missing (go_range 2 ims) ps).
  { split; [done|]. intros (? & ? & [= <-] & [= <-] & Hk & _). enough (Some s = None) by done. apply H2. intros n. by apply Hk. }
  pose proof (Validate_None ps) as H3. destruct (Validate ps).
  { split; [done|]. intros (? & ? & [= <-] & _ & _ & Hv & _). by apply H3 in Hv. }
  destruct (Z.ltb_spec (ProtocolVersion c) 0).
  { split; [done|]. intros (? & ? & _ & _ & _ & _ & ?). lia. }
  split; [intros _|done]. exists ps, ims. split_and!; try done; [|by apply H3].
  intros n. split; [by apply H1|by apply H2].
Qed.

Lemma Handle_Some {H} (m m' : mux H) p h : Handle m p h = Some m' ↔ has_path p = true ∧ p ∉ m.*1 ∧ m' = m ++ [(p, h)].
Proof.
  unfold Handle. destruct (has_path p); [|by split; [|intros [? _]]]. destruct (existsb _ m) eqn:E; simpl.
  - split; [done|]. intros (_ & Hn & _). apply existsb_exists in E as ([q h'] & Hin & <-%bool_decide_eq_true).
    destruct Hn. apply list_elem_of_In in Hin. by apply (list_elem_of_fmap_2 fst _ (q, h')).
  - split; [intros [= <-]|by intros (_ & _ & ->)]. split_and!; [done| |done]. intros ([q h'] & -> & Hin)%list_elem_of_fmap.
    assert (existsb (λ e : string * H, bool_decide (e.1 = (q, h').1)) m = true); [|congruence].
    apply existsb_exists. exists (q, h'). split; [by apply list_elem_of_In|by apply bool_decide_eq_true].
Qed.

Lemma handle_all_Some m l : (∀ p, p ∈ l.*1 → has_path p = true ∧ p ∉ m.*1) → NoDup l.*1 → handle_all m l = Some (m ++ l).
Proof.
  revert m. induction l as [|[p h] l IH]; intros m Hp Hnd; simpl; [by rewrite app_nil_r|].
  apply NoDup_cons in Hnd as [Hn Hnd]. destruct (Hp p ltac:(left)) as [Hp1 Hp2].
  rewrite (proj2 (Handle_Some m _ p h)) by done.
  rewrite IH, <- app_assoc; [done| |done]. intros q Hq. destruct (Hp q ltac:(by right)) as [? ?]. split; [done|].
  rewrite fmap_app. apply not_elem_of_app. split; [done|]. intros ->%list_elem_of_singleton. done.
Qed.

(** What the plugins contribute to the mux. *)
Definition plugin_mount (c : ServeConfig Impl Handler Stub) (np : string * Plugin Impl Handler Stub) : option (string * mount) :=
  impl ← default ∅ c.(Impls) !! np.1;
  match np.2.(pl_ConnectServer) impl with Ok (path, handler) => Some (path, MPlugin np.1 handler) | Err _ => None end.

Lemma register_plugins_spec c l m h ms :
  mapM (plugin_mount c) l = Some ms → NoDup ms.*1 → (∀ p, p ∈ ms.*1 → has_path p = true ∧ p ∉ m.*1) →
  register_plugins c l m h = (fold_left (mark_serving c) l.*1 h, Returned (m ++ ms)).
Proof.
  revert m h ms. induction l as [|[n p] l IH]; intros m h ms Hms Hnd Hdis; simpl in *.
  { injection Hms as <-. by rewrite app_nil_r. }
  apply bind_Some in Hms as (mt & Hmt & Hms). apply bind_Some in Hms as (ms' & Hms' & [= <-]).
  unfold plugin_mount in Hmt. simpl in Hmt. destruct (default ∅ (Impls c) !! n) as [impl|]; [|done]. simpl in Hmt.
  destruct (pl_ConnectServer p impl) as [[path handler]|]; [|done]. injection Hmt as <-.
  simpl in Hnd. apply NoDup_cons in Hnd as [Hp Hnd].
  assert (Hh : Handle m path (MPlugin n handler) = Some (m ++ [(path, MPlugin n handler)])).
  { apply Handle_Some. destruct (Hdis path ltac:(left)). done. }
  rewrite Hh, (IH _ _ ms' Hms' Hnd).
  - by rewrite <- app_assoc.
  - intros q Hq. destruct (Hdis q ltac:(by right)) as [? ?]. split; [done|].
    rewrite fmap_app, not_elem_of_app. split; [done|]. simpl. rewrite list_elem_of_singleton. by intros ->.
Qed.

(** ** Routing *)

Lemma prefix_of_length p q r : p = q +:+ r → String.length q ≤ String.length p ∧ (String.length p = String.length q → p = q).
Proof.
  intros ->. rewrite str_length_app. split; [lia|]. intros. destruct r; [by rewrite str_app_nil_r|simpl in *; lia].
Qed.

Lemma pattern_matches_prefix q p : pattern_matches q p = true →
  String.length q ≤ String.length p ∧ (String.length p = String.length q → p = q).
Proof.
  unfold pattern_matches. destruct (ends_in_slash q).
  - intros [r Hr]%HasPrefix_true. by eapply prefix_of_length.
  - by intros ->%bool_decide_eq_true.
Qed.

Lemma pattern_matches_self p : pattern_matches p p = true.
Proof.
  unfold pattern_matches. destruct (ends_in_slash p); [|by apply bool_decide_eq_true].
  apply HasPrefix_true. exists "". by rewrite str_app_nil_r.
Qed.

(** The search keeps the entry whose pattern equals the path. *)
Lemma longest_at {H} (m : mux H) p h best :
  NoDup m.*1 → (p, h) ∈ m → (∀ q k, best = Some (q, k) → pattern_matches q p = true ∧ q ∉ m.*1) →
  longest m p best = Some (p, h).
Proof.
  revert best. induction m as [|[q k] m IH]; intros best Hnd Hin Hb; [by apply elem_of_nil in Hin|].
  apply NoDup_cons in Hnd as [Hq Hnd]. apply elem_of_cons in Hin as [[= <- <-]|Hin]; simpl in *.
  - rewrite pattern_matches_self. simpl.
    assert (Hl : match best with None => true | Some (q, _) => Nat.ltb (String.length q) (String.length p) end = true).
    { destruct best as [[q k]|]; [|done]. destruct (Hb q k eq_refl) as [Hm Hn].
      destruct (pattern_matches_prefix q p Hm) as [H1 H2]. apply Nat.ltb_lt.
      destruct (decide (String.length p = String.length q)) as [E|]; [|lia]. rewrite (H2 E) in Hn. set_solver. }
    rewrite Hl. clear - Hq. assert (Hk : ∀ q k, (q, k) ∈ m → q ≠ p).
    { intros q k Hin ->. apply Hq. by apply (list_elem_of_fmap_2 fst m (p, k)). }
    clear Hq. induction m as [|[q k] m IH]; [done|]. simpl.
    destruct (pattern_matches q p) eqn:E; simpl.
    + apply pattern_matches_prefix in E as [E1 E2].
      rewrite (proj2 (Nat.ltb_ge _ _)) by done. apply IH. intros ???. eapply Hk. by right.
    + apply IH. intros ???. eapply Hk. by right.
  - apply IH; [done|done|]. intros q' k'. destruct (_ && _) eqn:E.
    + intros [= <- <-]. apply andb_true_iff in E as [E _]. done.
    + intros ->. destruct (Hb q' k' eq_refl). split; [done|set_solver].
Qed.

(** Distinct patterns: each is served by its own handler. *)
Lemma dispatch_at {H} (m : mux H) p h : NoDup m.*1 → (p, h) ∈ m → dispatch m p = Some h.
Proof. intros Hnd Hin. unfold dispatch. by erewrite longest_at. Qed.
(** ** Serving *)

Lemma serve_ok_defaults c : serve_ok c → serve_ok (serve_defaults c).
Proof.
  intros (ps & ims & H1 & H2 & H3 & H4 & H5). exists ps, ims. split_and!; try done.
  simpl. case_bool_decide; lia.
Qed.

Lemma builtin_distinct c : NoDup (builtin_mounts c).*1 ∧ (∀ p, p ∈ (builtin_mounts c).*1 → has_path p = true).
Proof.
  unfold builtin_mounts.
  destruct (HasCapabilityBroker c), (HealthService c), (LifecycleService c), (HasServiceRegistry c), (HasServiceRouter c);
    (split; [by apply (bool_decide_unpack _); vm_compute|]; by apply Forall_forall, (bool_decide_unpack _); vm_compute).
Qed.

Lemma mapM_total {A B} (f : A → option B) (g : A → B) (l : list A) :
  (∀ x, x ∈ l → f x = Some (g x)) → mapM f l = Some (g <$> l).
Proof.
  induction l as [|x l IH]; intros Hf; [done|]. simpl. rewrite (Hf x) by left. simpl.
  rewrite IH; [done|]. intros y Hy. apply Hf. by right.
Qed.

Lemma status_after_marks c l h s : c.(HealthService) = true → h.(shutdown) = false →
  (fold_left (mark_serving c) l h).(shutdown) = false ∧
  Check (fold_left (mark_serving c) l h) s = if decide (s ∈ l) then Ok SERVING_STATUS_SERVING else Check h s.
Proof.
  intros Hc. revert h. induction l as [|n l IH]; intros h Hh; simpl; [done|].
  destruct (IH (mark_serving c h n)) as [H1 H2]; unfold mark_serving in *; rewrite ?Hc in *; unfold SetServingStatus in *; rewrite ?Hh in *; [done|].
  split; [done|]. rewrite H2. unfold Check, setStatusLocked. simpl. rewrite lookup_insert.
  destruct (decide (s ∈ l)), (decide (s ∈ n :: l)), (decide (n = s)); subst; try done; set_solver.
Qed.

Lemma status_after_serve `{GoRange} c n (ps : PluginSet Impl Handler Stub) h s :
  c.(HealthService) = true → h.(shutdown) = false →
  Check (fold_left (mark_serving c) (go_range n ps).*1 (mark_serving c h "")) s =
  if decide (s = "" ∨ is_Some (ps !! s)) then Ok SERVING_STATUS_SERVING else Check h s.
Proof.
  intros Hh Hs. destruct (status_after_marks c ("" :: (go_range n ps).*1) h s Hh Hs) as [_ E]. simpl in E. rewrite E.
  pose proof (elem_of_fst_go_range n ps s) as Hl.
  destruct (decide (s ∈ _)), (decide (s = "" ∨ _)); try done; exfalso; set_solver.
Qed.

Lemma Serve_refuses `{GoRange} c h e :
  ¬ serve_ok (serve_defaults c) → ∃ err, Serve c h e = (h, false, Returned (Some err)).
Proof.
  intros Hn. unfold Serve, assemble. pose proof (ValidateServe_None (serve_defaults c)) as Hv.
  destruct (ValidateServe (serve_defaults c)); [by eexists|]. destruct Hn. by apply Hv.
Qed.

(** The mux of a server of one plugin. *)
Lemma assemble_single `{GoRange} (c : ServeConfig Impl Handler Stub) h name p impl path hd :
  serve_ok c → c.(Plugins) = Some {[name := p]} → c.(Impls) = Some {[name := impl]} →
  p.(pl_ConnectServer) impl = Ok (path, hd) → has_path path = true → path ∉ (builtin_mounts c).*1 →
  assemble c h = (mark_serving (serve_defaults c) (mark_serving (serve_defaults c) h "") name,
    Returned (builtin_mounts c ++ [(path, MPlugin name hd)])).
Proof.
  intros Hok Hp Hi Hc Hne Hfree. destruct (builtin_distinct c) as [Hbd Hbe]. unfold assemble.
  rewrite (proj2 (ValidateServe_None (serve_defaults c)) (serve_ok_defaults _ Hok)).
  change (builtin_mounts (serve_defaults c)) with (builtin_mounts c).
  rewrite handle_all_Some by (done || (intros q Hq; split; [by apply Hbe|by apply not_elem_of_nil])).
  change (Plugins (serve_defaults c)) with (Plugins c). rewrite Hp. cbn [default from_option id].
  unfold PluginSet. rewrite go_range_singleton. cbn [register_plugins app].
  change (Impls (serve_defaults c)) with (Impls c). rewrite Hi. cbn [default from_option id]. rewrite lookup_singleton_eq, Hc.
  rewrite (proj2 (Handle_Some (builtin_mounts c) _ path (MPlugin name hd))) by done. done.
Qed.

(** C25: serving a valid configuration, whatever the order in which maps are
    ranged over.  When the plugins connect, on patterns of their own that have a path
    and that no host service uses, assembly succeeds without panic; every plugin and every enabled
    host service is dispatched to at its pattern; with health checking enabled the
    host and every plugin are marked serving, and no other status changes.  A stop
    then runs the cleanup hook if there is one, marks the host and every plugin not
    serving, and returns the error of the HTTP server's shutdown. *)
Theorem Serve_assembles `{GoRange} c h (paths : string → string) (handlers : string → Handler)
    (Hok : serve_ok c)
    (Hconn : ∀ n p impl, default ∅ c.(Plugins) !! n = Some p → default ∅ c.(Impls) !! n = Some impl →
      p.(pl_ConnectServer) impl = Ok (paths n, handlers n))
    (Hinj : ∀ n n', is_Some (default ∅ c.(Plugins) !! n) → is_Some (default ∅ c.(Plugins) !! n') →
      paths n = paths n' → n = n')
    (Hfree : ∀ n, is_Some (default ∅ c.(Plugins) !! n) → has_path (paths n) = true ∧ paths n ∉ (builtin_mounts c).*1) :
  ∃ m h', assemble c h = (h', Returned m) ∧
    (∀ n, is_Some (default ∅ c.(Plugins) !! n) → dispatch m (paths n) = Some (MPlugin n (handlers n))) ∧
    (∀ p mt, (p, mt) ∈ builtin_mounts c → dispatch m p = Some mt) ∧
    (c.(HealthService) = true → h.(shutdown) = false → ∀ s,
       Check h' s = if decide (s = "" ∨ is_Some (default ∅ c.(Plugins) !! s)) then Ok SERVING_STATUS_SERVING else Check h s) ∧
    (∀ serr, ∃ h'', Serve c h (StopSignalled serr) =
         (h'', bool_decide (is_Some c.(Cleanup)), Returned ((λ err, Errorf "server shutdown: %w" [AErr err]) <$> serr)) ∧
       (c.(HealthService) = true → h.(shutdown) = false → ∀ s, s = "" ∨ is_Some (default ∅ c.(Plugins) !! s) →
          Check h'' s = Ok SERVING_STATUS_NOT_SERVING)).
Proof.
  destruct Hok as (ps & ims & Hps & Hims & Hk & Hv & Hpv).
  set (f := λ np : string * Plugin Impl Handler Stub, (paths np.1, MPlugin np.1 (handlers np.1))).
  set (l := go_range 3 ps). set (c' := serve_defaults c).
  assert (Hl : ∀ n, n ∈ l.*1 ↔ is_Some (ps !! n)) by (intros; apply elem_of_fst_go_range).
  rewrite Hps in *. simpl in *.
  assert (Hms : mapM (plugin_mount c') l = Some (f <$> l)).
  { apply mapM_total. intros [n p] Hin%elem_of_go_range. unfold plugin_mount. simpl. rewrite Hims. simpl.
    destruct (proj1 (Hk n) (mk_is_Some _ _ Hin)) as [impl Hi]. rewrite Hi. simpl.
    rewrite Hims in Hconn. by rewrite (Hconn n p impl Hin Hi). }
  assert (Hpaths : (f <$> l).*1 = paths <$> l.*1) by (by rewrite <- !list_fmap_compose).
  assert (Hnd : NoDup (f <$> l).*1).
  { rewrite Hpaths. apply NoDup_fmap_2_strong; [|apply NoDup_fst_go_range].
    intros x y Hx%Hl Hy%Hl. by apply Hinj. }
  assert (Hfr : ∀ p, p ∈ (f <$> l).*1 → has_path p = true ∧ p ∉ (builtin_mounts c).*1).
  { rewrite Hpaths. intros p (n & -> & Hn%Hl)%list_elem_of_fmap. by apply Hfree. }
  destruct (builtin_distinct c) as [Hbd Hbe].
  set (m := builtin_mounts c ++ (f <$> l)). set (h' := fold_left (mark_serving c') l.*1 (mark_serving c' h "")).
  assert (Has : assemble c h = (h', Returned m)).
  { unfold assemble. fold c'. rewrite (proj2 (ValidateServe_None c')) by (apply serve_ok_defaults; by exists ps, ims).
    change (builtin_mounts c') with (builtin_mounts c).
    rewrite handle_all_Some by (done || (intros p Hp; split; [by apply Hbe|by apply not_elem_of_nil])).
    change (default ∅ (Plugins c')) with (default ∅ (Plugins c)). rewrite Hps. simpl.
    by rewrite (register_plugins_spec _ _ _ _ (f <$> l)). }
  assert (Hmd : NoDup m.*1).
  { unfold m. rewrite fmap_app. apply NoDup_app. split_and!; [done| |done]. intros p Hp Hp'. by apply Hfr in Hp' as []. }
  assert (Hst : HealthService c = true → shutdown h = false → ∀ s,
    Check h' s = if decide (s = "" ∨ is_Some (ps !! s)) then Ok SERVING_STATUS_SERVING else Check h s).
  { intros Hh Hs s. by apply (status_after_serve c'). }
  exists m, h'. split_and!; [done| | |exact Hst|].
  - intros n [p Hn]. apply dispatch_at; [done|]. apply elem_of_app. right.
    apply (list_elem_of_fmap_2 f l (n, p)). by apply elem_of_go_range.
  - intros p mt Hin. apply dispatch_at; [done|]. apply elem_of_app. by left.
  - intros serr. unfold Serve. rewrite Has. unfold gracefulShutdown. fold c'.
    change (HealthService c') with (HealthService c). change (Cleanup c') with (Cleanup c).
    exists (if HealthService c then Shutdown h' else h'). split.
    + destruct serr; simpl; by destruct (Cleanup c).
    + intros Hh Hs s Hin. rewrite Hh. unfold Check. destruct (Shutdown_status h' s) as [_ E]. rewrite E.
      specialize (Hst Hh Hs s). rewrite decide_True in Hst by done. unfold Check in Hst.
      by destruct (statusMap h' !! s).
Qed.
End serve.

Arguments mount : clear implicits.
Arguments outcome : clear implicits.
Arguments Panicked {A}.
Arguments Failed {A} e.
Arguments Returned {A} a.

(** ** Witness and consequences *)

Definition kv_plugin : Plugin unit unit unit :=
  mkPlugin (mkPluginMetadata "kv" "/kv.v1.KV/" "1.0.0" [] []) (λ _, Ok ("/kv.v1.KV/", tt)) (λ _, Ok tt).
Definition kv_config : ServeConfig unit unit unit :=
  mkServeConfig (Some {["kv" := kv_plugin]}) (Some {["kv" := tt]}) 0 "" "" None "" 0 None true true true 0 0 false
    true true true.

Lemma kv_only n p : default ∅ (Plugins kv_config) !! n = Some p → n = "kv" ∧ p = kv_plugin.
Proof.
  change (({["kv" := kv_plugin]} : gmap string (Plugin unit unit unit)) !! n = Some p → n = "kv" ∧ p = kv_plugin).
  rewrite lookup_singleton_Some. by intros [<- <-].
Qed.

Lemma Serve_assembles_witness :
  serve_ok kv_config ∧
  ∃ m h', assemble kv_config NewHealthServer = (h', Returned m) ∧ dispatch m "/kv.v1.KV/" = Some (MPlugin "kv" tt) ∧
    Check h' "kv" = Ok SERVING_STATUS_SERVING.
Proof.
  assert (Hok : serve_ok kv_config) by (apply ValidateServe_None; vm_compute; reflexivity).
  assert (Hps : ∀ n, is_Some (default ∅ (Plugins kv_config) !! n) → n = "kv").
  { intros n [p Hp]. by apply kv_only in Hp as [? _]. }
  split; [exact Hok|].
  destruct (Serve_assembles kv_config NewHealthServer (λ _, "/kv.v1.KV/") (λ _, tt) Hok) as (m & h' & H1 & H2 & _ & H3 & _).
  - intros n p impl [_ ->]%kv_only _. reflexivity.
  - intros n n' ->%Hps ->%Hps _. reflexivity.
  - intros n _. split; [reflexivity|]. by apply (bool_decide_unpack _); vm_compute.
  - exists m, h'. split; [exact H1|]. assert (Hkv : is_Some (default ∅ (Plugins kv_config) !! "kv")) by (by eexists).
    split; [exact (H2 "kv" Hkv)|].
    specialize (H3 eq_refl eq_refl "kv"). rewrite decide_True in H3 by (by right). exact H3.
Defined.

(** The path of the broker's Connect RPC is dispatched to nothing, and the paths the
    host does give to the broker's mux never reach its RPC handler: below
    "/broker/" the inner mux knows no pattern. *)
Lemma broker_rpc_unreachable c rest : c.(HasCapabilityBroker) = true →
  dispatch (@builtin_mounts unit unit unit c) "/connectplugin.v1.CapabilityBroker/RequestCapability" = None ∧
  dispatch broker_Handler ("/broker/" +:+ rest) = None ∧
  dispatch broker_Handler ("/capabilities/" +:+ rest) = Some BrokerCapabilities.
Proof.
  intros Hb. split_and!; [|done|done]. unfold builtin_mounts. rewrite Hb.
  by destruct (HealthService c), (LifecycleService c), (HasServiceRegistry c), (HasServiceRouter c).
Qed.

(** A plugin whose pattern is one of a host service's makes [Serve] panic. *)
Lemma pattern_collision_panics :
  (assemble (mkServeConfig (Some {["kv" := mkPlugin (mkPluginMetadata "kv" "/x/" "1" [] []) (λ _, Ok ("/services/", tt)) (λ _, Ok tt)]})
     (Some {["kv" := tt]}) 0 "" "" None "" 0 None true false false 0 0 false false false true) NewHealthServer).2
  = @Panicked (mux (mount unit)).
Proof. by vm_compute. Qed.

End server.
