(* ===== verification/Platform.v ===== *)
(** * Platform: adding, removing and replacing plugins at run time (platform.go)

    The platform ties together the dependency graph, the service registry, the
    health reports and the router's endpoint table.  It has no lock of its own, so
    its operations are taken one at a time; while one of them waits, plugins keep
    calling the registry and the lifecycle server.  Those calls are an arbitrary
    transformer of the two servers at every wait ([activity]).  The RPCs to the
    plugin are parameters: the answers of its PluginIdentity service, and what its
    control client sends ([ControlRPC]).  The control clients the platform makes have
    no HTTP client, so [RemovePlugin] and [ReplacePlugin] end in a panic; what they
    leave behind then is part of their result. *)

From stdpp Require Import prelude gmap strings list fin_maps.
From Stdlib Require Import ZArith.
From S2P Require Import Prelude GoRuntime Depgraph DepgraphImpact Identity Lifecycle ControlClient Registry Plugin.

Module platform.
Import identity lifecycle plugin plugincontrol.

(** ** State *)

(** HTTP clients are shared objects, told apart by number. *)
Definition HTTPClient : Type := nat.

Record PluginInstance := mkPluginInstance {
  RuntimeID : string;
  SelfID : string;
  Metadata : PluginMetadata;
  Endpoint : string;
  Token : string;
  control : option (PluginControlClient HTTPClient);
}.

Record PluginConfig := mkPluginConfig {
  cfg_SelfID : string;
  cfg_SelfVersion : string;
  cfg_Endpoint : string;
  cfg_Metadata : PluginMetadata;
}.

(** Of the router the platform uses the endpoint table only. *)
Record Platform := mkPlatform {
  depGraph : depgraph.Graph;
  registry : registry.ServiceRegistry;
  lifecycleServer : LifecycleServer;
  pluginEndpoints : gmap string string;
  plugins : gmap string PluginInstance;
}.

Definition NewPlatform (r : registry.ServiceRegistry) (l : LifecycleServer) (endpoints : gmap string string) : Platform :=
  mkPlatform depgraph.New r l endpoints ∅.

Definition with_graph (p : Platform) g := mkPlatform g p.(registry) p.(lifecycleServer) p.(pluginEndpoints) p.(plugins).
Definition with_registry (p : Platform) r := mkPlatform p.(depGraph) r p.(lifecycleServer) p.(pluginEndpoints) p.(plugins).
Definition with_plugins (p : Platform) m := mkPlatform p.(depGraph) p.(registry) p.(lifecycleServer) p.(pluginEndpoints) m.
Definition with_endpoint (p : Platform) (rid endpoint : string) :=
  mkPlatform p.(depGraph) p.(registry) p.(lifecycleServer) (<[rid := endpoint]> p.(pluginEndpoints)) p.(plugins).

(** What plugins do to the two servers while the platform waits. *)
Definition servers : Type := registry.ServiceRegistry * LifecycleServer.
Definition activity : Type := servers → servers.

Definition act_on (act : activity) (p : Platform) : Platform :=
  let '(r, l) := act (p.(registry), p.(lifecycleServer)) in
  mkPlatform p.(depGraph) r l p.(pluginEndpoints) p.(plugins).

(** ** Waiting *)

(** What wakes the select of [waitForHealthy]: the context, or the ticker (with the
    instant [time.Now] then gives). *)
Inductive wake := Cancelled (deadlineExceeded : bool) | Tick (now : Time).

(** The second component is [None] while the wait goes on, [Some None] for nil. *)
Fixpoint waitForHealthy (deadline : Time) (p : Platform) (runtimeID : string) (evs : list (activity * wake)) :
    Platform * option (option error) :=
  match evs with
  | [] => (p, None)
  | (act, w) :: evs' =>
      let p := act_on act p in
      match w with
      | Cancelled d => (p, Some (Some (ErrContext d)))
      | Tick now =>
          if Time_After now deadline
          then (p, Some (Some (Errorf "timeout waiting for plugin to become healthy" [])))
          else
            match GetHealthState p.(lifecycleServer) runtimeID with
            | Some state =>
                if bool_decide (state.(State) = 1%Z) then (p, Some None)
                else waitForHealthy deadline p runtimeID evs'
            | None => waitForHealthy deadline p runtimeID evs'
            end
      end
  end.

Definition health_timeout : Duration := (30 * Second)%Z.
Definition health_poll : Duration := (500 * Millisecond)%Z.

(** ** Nodes of the dependency graph *)

Definition graph_provides (l : list ServiceDeclaration) : list depgraph.ServiceDeclaration :=
  (λ svc, depgraph.mkDecl svc.(sd_Type) svc.(sd_Version)) <$> l.

Definition graph_requires (l : list ServiceDependency) : list depgraph.ServiceDependency :=
  (λ dep, depgraph.mkDep dep.(dep_Type) dep.(dep_MinVersion) dep.(dep_RequiredForStartup) dep.(dep_WatchForChanges)) <$> l.

Definition depNode (runtimeID selfID : string) (provides : list ServiceDeclaration) (requires : list ServiceDependency) :
    depgraph.Node :=
  depgraph.mkNode runtimeID selfID (graph_provides provides) (graph_requires requires).

Definition AddToDependencyGraph (p : Platform) (runtimeID selfID : string) (provides : list ServiceDeclaration)
    (requires : list ServiceDependency) : Platform :=
  with_graph p (depgraph.Add p.(depGraph) (depNode runtimeID selfID provides requires)).

(** ** Adding a plugin *)

Record GetPluginInfoResponse := mkGetPluginInfoResponse {
  SelfId : string;
  gi_Metadata : gmap string string;
  gi_Provides : list ServiceDeclaration;
  gi_Requires : list ServiceDependency;
}.

(** The first dependency required for startup that nobody in the graph provides. *)
Fixpoint unavailable_dep (g : depgraph.Graph) (requires : list ServiceDependency) : option ServiceDependency :=
  match requires with
  | [] => None
  | dep :: requires' =>
      if dep.(dep_RequiredForStartup) && negb (depgraph.HasService g dep.(dep_Type)) then Some dep
      else unavailable_dep g requires'
  end.

(** The PluginIdentity service of the plugin at an endpoint. *)
Record PluginIdentity := mkPluginIdentity {
  GetPluginInfo : string → res GetPluginInfoResponse;
  SetRuntimeIdentity : string → string → string → string → option error;
}.

Definition self_id (config : PluginConfig) (info : GetPluginInfoResponse) : string :=
  if bool_decide (info.(SelfId) = "") then config.(cfg_SelfID) else info.(SelfId).

Definition new_instance (config : PluginConfig) (info : GetPluginInfoResponse) (runtimeID token : string) : PluginInstance :=
  mkPluginInstance runtimeID (self_id config info)
    (mkPluginMetadata (get_or "" info.(gi_Metadata) "name") "" (get_or "" info.(gi_Metadata) "version")
       info.(gi_Provides) info.(gi_Requires))
    config.(cfg_Endpoint) token (Some (NewPluginControlClient config.(cfg_Endpoint) None)).

(** [t0] is the instant the wait for the plugin's health starts, [evs] what happens
    during it.  The second component is [None] while the call has not returned. *)
Definition AddPlugin (rpc : PluginIdentity) (rd1 rd2 : Rand) (t0 : Time) (evs : list (activity * wake))
    (p : Platform) (config : PluginConfig) : Platform * option (option error) :=
  match rpc.(GetPluginInfo) config.(cfg_Endpoint) with
  | Err err => (p, Some (Some (Errorf "failed to get plugin info: %w" [AErr err])))
  | Ok info =>
      let selfID := self_id config info in
      match unavailable_dep p.(depGraph) info.(gi_Requires) with
      | Some dep =>
          (p, Some (Some (Errorf "required service %q not available for plugin %q" [AStr dep.(dep_Type); AStr selfID])))
      | None =>
          match generateRuntimeID rd1 selfID with
          | Err err => (p, Some (Some (Errorf "failed to generate runtime ID: %w" [AErr err])))
          | Ok runtimeID =>
              match generateToken rd2 with
              | Err err => (p, Some (Some (Errorf "failed to generate runtime token: %w" [AErr err])))
              | Ok runtimeToken =>
                  match rpc.(SetRuntimeIdentity) config.(cfg_Endpoint) runtimeID runtimeToken "" with
                  | Some err => (p, Some (Some (Errorf "failed to set runtime identity: %w" [AErr err])))
                  | None =>
                      let instance := new_instance config info runtimeID runtimeToken in
                      let p1 := with_graph p (depgraph.Add p.(depGraph)
                                  (depNode runtimeID selfID info.(gi_Provides) info.(gi_Requires))) in
                      let '(p2, out) := waitForHealthy (Time_Add t0 health_timeout) p1 runtimeID evs in
                      match out with
                      | None => (p2, None)
                      | Some (Some err) =>
                          (with_graph p2 (depgraph.Remove p2.(depGraph) runtimeID),
                           Some (Some (Errorf "plugin %q did not become healthy: %w" [AStr selfID; AErr err])))
                      | Some None =>
                          let p3 := with_endpoint p2 runtimeID config.(cfg_Endpoint) in
                          (with_plugins p3 (<[runtimeID := instance]> p3.(plugins)), Some None)
                      end
                  end
              end
          end
      end
  end.

(** ** Asking a plugin to stop *)

(** The shutdown request of [RemovePlugin] and [ReplacePlugin]: nothing without a
    control client, and the answer is not looked at; a panic passes through. *)
Definition request_shutdown (rpc : ControlRPC HTTPClient servers) (control : option (PluginControlClient HTTPClient))
    (gracePeriodSeconds : Z) (reason : string) (p : Platform) : Platform * call unit :=
  match control with
  | None => (p, Returned ())
  | Some c =>
      let '(r, l, out) := Shutdown rpc c gracePeriodSeconds reason (p.(registry), p.(lifecycleServer)) in
      (mkPlatform p.(depGraph) r l p.(pluginEndpoints) p.(plugins),
       match out with Returned _ => Returned () | Panicked => Panicked end)
  end.

(** ** Removing a plugin *)

(** [grace] is what happens during the grace period.  [None]: the impact analysis
    does not return, or a nil registration is dereferenced. *)
Definition RemovePlugin `{GoRange} (rpc : ControlRPC HTTPClient servers) (grace : activity) (p : Platform)
    (runtimeID : string) : option (Platform * call (option error)) :=
  match p.(plugins) !! runtimeID with
  | None => Some (p, Returned (Some (Errorf "plugin not found: %s" [AStr runtimeID])))
  | Some instance =>
      match depgraph.GetImpact p.(depGraph) runtimeID with
      | None => None
      | Some _ =>
          let p1 := act_on grace p in
          match registry.UnregisterPluginServices p1.(registry) runtimeID with
          | None => None
          | Some r =>
              let p2 := with_registry p1 r in
              match request_shutdown rpc instance.(control) 30 "plugin removed" p2 with
              | (p3, Panicked) => Some (p3, Panicked)
              | (p3, Returned _) =>
                  let p4 := with_graph p3 (depgraph.Remove p3.(depGraph) runtimeID) in
                  Some (with_plugins p4 (delete runtimeID p4.(plugins)), Returned None)
              end
          end
      end
  end.

(** ** Replacing a plugin *)

Definition replacement (config : PluginConfig) (runtimeID token : string) : PluginInstance :=
  mkPluginInstance runtimeID config.(cfg_SelfID) config.(cfg_Metadata) config.(cfg_Endpoint) token (Some (NewPluginControlClient config.(cfg_Endpoint) None)).

(** [drain]: during the wait of [drainPlugin].  The outer option is as for
    [RemovePlugin]; the inner is [None] while the call has not returned. *)
Definition ReplacePlugin `{GoRange} (rpc : ControlRPC HTTPClient servers) (rd1 rd2 : Rand) (t0 : Time)
    (evs : list (activity * wake)) (drain : activity) (p : Platform) (runtimeID : string) (newConfig : PluginConfig) :
    option (Platform * option (call (option error))) :=
  match p.(plugins) !! runtimeID with
  | None => Some (p, Some (Returned (Some (Errorf "plugin not found: %s" [AStr runtimeID]))))
  | Some oldInstance =>
      match generateRuntimeID rd1 newConfig.(cfg_SelfID) with
      | Err err => Some (p, Some (Returned (Some (Errorf "failed to generate runtime ID: %w" [AErr err]))))
      | Ok newRuntimeID =>
          match generateToken rd2 with
          | Err err => Some (p, Some (Returned (Some (Errorf "failed to generate token: %w" [AErr err]))))
          | Ok newToken =>
              let newInstance := replacement newConfig newRuntimeID newToken in
              let p1 := with_graph p (depgraph.Add p.(depGraph)
                          (depNode newRuntimeID newConfig.(cfg_SelfID) newConfig.(cfg_Metadata).(Provides)
                             newConfig.(cfg_Metadata).(Requires))) in
              let '(p2, out) := waitForHealthy (Time_Add t0 health_timeout) p1 newRuntimeID evs in
              match out with
              | None => Some (p2, None)
              | Some (Some err) =>
                  Some (with_graph p2 (depgraph.Remove p2.(depGraph) newRuntimeID),
                        Some (Returned (Some (Errorf "new version did not become healthy: %w" [AErr err]))))
              | Some None =>
                  let p3 := act_on drain (with_endpoint p2 newRuntimeID newConfig.(cfg_Endpoint)) in
                  match request_shutdown rpc oldInstance.(control) 10 "replaced with new version" p3 with
                  | (p4, Panicked) => Some (p4, Some Panicked)
                  | (p4, Returned _) =>
                      match registry.UnregisterPluginServices p4.(registry) runtimeID with
                      | None => None
                      | Some r =>
                          let p5 := with_registry p4 r in
                          let p6 := with_graph p5 (depgraph.Remove p5.(depGraph) runtimeID) in
                          Some (with_plugins p6 (<[newRuntimeID := newInstance]> (delete runtimeID p6.(plugins))),
                                Some (Returned None))
                      end
                  end
              end
          end
      end
  end.

Definition GetImpact `{GoRange} (p : Platform) (runtimeID : string) : option depgraph.ImpactAnalysis :=
  depgraph.GetImpact p.(depGraph) runtimeID.
Definition GetStartupOrder `{GoRange} (p : Platform) : option (res (list string)) :=
  depgraph.StartupOrder p.(depGraph).

(** ** Lemmas on waiting *)

Lemma act_on_graph act p :
  (act_on act p).(depGraph) = p.(depGraph) ∧ (act_on act p).(pluginEndpoints) = p.(pluginEndpoints) ∧
  (act_on act p).(plugins) = p.(plugins).
Proof. unfold act_on. by destruct (act _). Qed.

(** Waiting leaves the platform's own tables alone. *)
Lemma wait_tables deadline p rid evs :
  let p' := (waitForHealthy deadline p rid evs).1 in
  p'.(depGraph) = p.(depGraph) ∧ p'.(pluginEndpoints) = p.(pluginEndpoints) ∧ p'.(plugins) = p.(plugins).
Proof.
  revert p. induction evs as [|[act w] evs IH]; intros p; simpl; [done|].
  destruct (act_on_graph act p) as (E1 & E2 & E3). destruct (IH (act_on act p)) as (F1 & F2 & F3).
  rewrite E1, E2, E3 in *. destruct w as [d|now]; [done|]. destruct (Time_After now deadline); [done|].
  destruct (GetHealthState _ _) as [st|]; [|done]. by case_bool_decide.
Qed.

Definition reported_healthy (l : LifecycleServer) (rid : string) : Prop :=
  ∃ st, l.(states) !! rid = Some st ∧ st.(State) = HEALTH_STATE_HEALTHY.

Lemma reported_healthy_iff l rid :
  reported_healthy l rid ↔ ∃ st, GetHealthState l rid = Some st ∧ st.(State) = 1%Z.
Proof.
  unfold reported_healthy, GetHealthState, HEALTH_STATE_HEALTHY.
  destruct (states l !! rid) as [st|]; naive_solver.
Qed.

(** One turn of the wait. *)
Lemma wait_cons deadline p rid act w evs :
  waitForHealthy deadline p rid ((act, w) :: evs) =
  let p' := act_on act p in
  match w with
  | Cancelled d => (p', Some (Some (ErrContext d)))
  | Tick now =>
      if (deadline <? now)%Z then (p', Some (Some (Errorf "timeout waiting for plugin to become healthy" [])))
      else match GetHealthState p'.(lifecycleServer) rid with
           | Some st => if bool_decide (st.(State) = 1%Z) then (p', Some None) else waitForHealthy deadline p' rid evs
           | None => waitForHealthy deadline p' rid evs
           end
  end.
Proof. done. Qed.

Lemma wait_healthy deadline p rid evs p' :
  waitForHealthy deadline p rid evs = (p', Some None) →
  reported_healthy p'.(lifecycleServer) rid ∧ ∃ act now, (act, Tick now) ∈ evs ∧ (now ≤ deadline)%Z.
Proof.
  revert p. induction evs as [|[act w] evs IH]; intros p; [done|]. rewrite wait_cons. cbn zeta.
  destruct w as [d|now]; [done|]. destruct (Z.ltb_spec deadline now) as [|Hle]; [done|].
  assert (Hrec : waitForHealthy deadline (act_on act p) rid evs = (p', Some None) →
    reported_healthy p'.(lifecycleServer) rid ∧ ∃ a n, (a, Tick n) ∈ (act, Tick now) :: evs ∧ (n ≤ deadline)%Z).
  { intros (H1 & a & n & Hin & Hn)%IH. split; [done|]. exists a, n. split; [by right|done]. }
  destruct (GetHealthState _ _) as [st|] eqn:E; [|exact Hrec]. case_bool_decide as Hst; [|exact Hrec].
  intros [= <-]. split; [apply reported_healthy_iff; by exists st|]. exists act, now. split; [by left|done].
Qed.

(** A wait that comes to a tick after the deadline, or to a cancellation, ends. *)
Lemma wait_ends deadline p rid evs :
  (∃ act w, (act, w) ∈ evs ∧ match w with Cancelled _ => True | Tick now => (deadline < now)%Z end) →
  (waitForHealthy deadline p rid evs).2 ≠ None.
Proof.
  revert p. induction evs as [|[act w] evs IH]; intros p (a & v & Hin & Hv); [by apply elem_of_nil in Hin|].
  rewrite wait_cons. cbn zeta. destruct w as [d|now]; [done|]. destruct (Z.ltb_spec deadline now) as [|Hle]; [done|].
  assert (Hrec : (waitForHealthy deadline (act_on act p) rid evs).2 ≠ None).
  { apply IH. exists a, v. apply elem_of_cons in Hin as [[= -> ->]|Hin]; [lia|done]. }
  destruct (GetHealthState _ _) as [st|]; [|done]. by case_bool_decide.
Qed.

(** The wake-ups of a ticker that is never late, from poll number [k] on. *)
Fixpoint on_time (t0 : Time) (k : nat) (acts : list activity) : list (activity * wake) :=
  match acts with
  | [] => []
  | act :: acts' => (act, Tick (t0 + health_poll * Z.of_nat (S k))%Z) :: on_time t0 (S k) acts'
  end.

(** The platform at the time of poll [n]. *)
Definition after (acts : list activity) (n : nat) (p : Platform) : Platform :=
  fold_left (λ p act, act_on act p) (take n acts) p.

Lemma on_time_wait t0 k acts p rid : k ≤ 60 →
  let out := (waitForHealthy (t0 + health_timeout)%Z p rid (on_time t0 k acts)).2 in
  (60 < k + length acts → out ≠ None) ∧
  (out = Some None ↔ ∃ i, i < length acts ∧ k + i < 60 ∧ reported_healthy (after acts (S i) p).(lifecycleServer) rid).
Proof.
  revert k p. induction acts as [|act acts IH]; intros k p Hk.
  { simpl. split; [lia|]. split; [done|]. intros (i & Hi & _). lia. }
  cbn [on_time length]. rewrite wait_cons. cbn zeta.
  assert (Hd : ∀ n, (t0 + health_timeout <? t0 + health_poll * Z.of_nat n)%Z = Nat.ltb 60 n).
  { intros n. unfold health_timeout, health_poll, Second, Millisecond.
    destruct (Nat.ltb_spec 60 n); [apply Z.ltb_lt|apply Z.ltb_ge]; lia. }
  rewrite Hd. destruct (Nat.ltb_spec 60 (S k)) as [|Hk'].
  { simpl. split; [done|]. split; [done|]. intros (i & _ & ? & _). lia. }
  destruct (IH (S k) (act_on act p) ltac:(lia)) as [IH1 IH2].
  assert (Hrec : ¬ reported_healthy (act_on act p).(lifecycleServer) rid →
    let out := (waitForHealthy (t0 + health_timeout)%Z (act_on act p) rid (on_time t0 (S k) acts)).2 in
    (60 < k + S (length acts) → out ≠ None) ∧
    (out = Some None ↔ ∃ i, i < S (length acts) ∧ k + i < 60 ∧
       reported_healthy (after (act :: acts) (S i) p).(lifecycleServer) rid)).
  { intros Hn. cbn zeta. split; [intros; apply IH1; lia|]. rewrite IH2. split.
    - intros (i & ? & ? & ?). exists (S i). split_and!; [lia|lia|done].
    - intros ([|i] & ? & ? & Hh); [done|]. exists i. split_and!; [lia|lia|done]. }
  destruct (GetHealthState _ _) as [st|] eqn:E.
  - case_bool_decide as Hst; [|apply Hrec; intros (st' & E' & Hst')%reported_healthy_iff; congruence].
    simpl. split; [done|]. split; [intros _|done]. exists 0. split_and!; [lia|lia|].
    apply reported_healthy_iff. exists st. done.
  - apply Hrec. intros (st & E' & _)%reported_healthy_iff. congruence.
Qed.

(** ** Invariant *)

Definition node_of (i : PluginInstance) : depgraph.Node :=
  depNode i.(RuntimeID) i.(SelfID) i.(Metadata).(Provides) i.(Metadata).(Requires).

(** The graph's index is exact; every plugin is stored under its runtime id, is in
    the graph with the services it declared, and can be routed to. *)
Record platform_ok (p : Platform) : Prop := {
  ok_graph : depgraph.graph_wf p.(depGraph);
  ok_plugins : ∀ rid i, p.(plugins) !! rid = Some i →
    i.(RuntimeID) = rid ∧ p.(depGraph).(depgraph.nodes) !! rid = Some (node_of i) ∧
    p.(pluginEndpoints) !! rid = Some i.(Endpoint);
}.

(** [platform_ok] looks at the platform's own tables only. *)
Lemma platform_ok_tables p p' :
  p'.(depGraph) = p.(depGraph) → p'.(pluginEndpoints) = p.(pluginEndpoints) → p'.(plugins) = p.(plugins) →
  platform_ok p → platform_ok p'.
Proof. intros E1 E2 E3 [H1 H2]. split; [by rewrite E1|]. rewrite E1, E2, E3. exact H2. Qed.

Lemma ok_act act p : platform_ok p → platform_ok (act_on act p).
Proof. destruct (act_on_graph act p) as (E1 & E2 & E3). by apply platform_ok_tables. Qed.

(** Adding a node under a fresh id. *)
Lemma ok_add_node p n : platform_ok p → p.(depGraph).(depgraph.nodes) !! depgraph.RuntimeID n = None →
  platform_ok (with_graph p (depgraph.Add p.(depGraph) n)).
Proof.
  intros [H1 H2] Hf. split; [by apply depgraph.Add_wf|]. intros rid i Hi. simpl.
  destruct (H2 rid i Hi) as (E1 & E2 & E3). split_and!; [done| |done]. rewrite lookup_insert_ne; [done|]. congruence.
Qed.

(** Storing the instance of a node of the graph, with its route. *)
Lemma ok_store p i : platform_ok p → p.(depGraph).(depgraph.nodes) !! i.(RuntimeID) = Some (node_of i) →
  platform_ok (with_plugins (with_endpoint p i.(RuntimeID) i.(Endpoint)) (<[i.(RuntimeID) := i]> p.(plugins))).
Proof.
  intros [H1 H2] Hn. split; [done|]. intros rid j. simpl. rewrite lookup_insert_Some.
  intros [[<- <-]|[Hne Hj]]; [by rewrite lookup_insert_eq|].
  destruct (H2 rid j Hj) as (E1 & E2 & E3). by rewrite lookup_insert_ne.
Qed.

Lemma Remove_nodes g id : (depgraph.Remove g id).(depgraph.nodes) = delete id g.(depgraph.nodes).
Proof.
  unfold depgraph.Remove. destruct (depgraph.nodes g !! id) eqn:E; [done|]. by rewrite delete_id.
Qed.

(** Removing a plugin from graph and table. *)
Lemma ok_remove p rid : platform_ok p →
  platform_ok (with_plugins (with_graph p (depgraph.Remove p.(depGraph) rid)) (delete rid p.(plugins))).
Proof.
  intros [H1 H2]. split; [by apply depgraph.Remove_wf|]. intros k i. simpl. rewrite lookup_delete_Some.
  intros [Hne Hi]. destruct (H2 k i Hi) as (E1 & E2 & E3). by rewrite Remove_nodes, lookup_delete_ne.
Qed.

Lemma unavailable_dep_None g reqs :
  unavailable_dep g reqs = None ↔
  ∀ dep, dep ∈ reqs → dep.(dep_RequiredForStartup) = true → depgraph.HasService g dep.(dep_Type) = true.
Proof.
  induction reqs as [|d reqs IH]; simpl; [split; [intros _ ? H; by apply elem_of_nil in H|done]|].
  destruct (dep_RequiredForStartup d && negb (depgraph.HasService g (dep_Type d))) eqn:E.
  - split; [done|]. intros Hd. apply andb_true_iff in E as [E1 E2%negb_true_iff].
    rewrite (Hd d) in E2; [done|by left|done].
  - rewrite IH. apply andb_false_iff in E. split; intros Hd dep.
    + intros [->|Hin]%elem_of_cons; [|by apply Hd]. intros Hr. destruct E as [E|E%negb_false_iff]; congruence.
    + intros Hin. apply Hd. by right.
Qed.

(** ** AddPlugin as a transaction *)

(** What has to hold before a plugin is started, with the id and token it gets. *)
Definition admitted (rpc : PluginIdentity) (rd1 rd2 : Rand) (p : Platform) (config : PluginConfig)
    (info : GetPluginInfoResponse) (rid token : string) : Prop :=
  rpc.(GetPluginInfo) config.(cfg_Endpoint) = Ok info ∧
  (∀ dep, dep ∈ info.(gi_Requires) → dep.(dep_RequiredForStartup) = true →
     depgraph.HasService p.(depGraph) dep.(dep_Type) = true) ∧
  generateRuntimeID rd1 (self_id config info) = Ok rid ∧ generateToken rd2 = Ok token ∧
  rpc.(SetRuntimeIdentity) config.(cfg_Endpoint) rid token "" = None.

(** Either the plugin is not admitted and nothing happens, or the outcome is that
    of the wait. *)
Lemma AddPlugin_cases rpc rd1 rd2 t0 evs p config :
  ((¬ ∃ info rid token, admitted rpc rd1 rd2 p config info rid token) ∧
   ∃ err, AddPlugin rpc rd1 rd2 t0 evs p config = (p, Some (Some err))) ∨
  (∃ info rid token, admitted rpc rd1 rd2 p config info rid token ∧
   let i := new_instance config info rid token in
   let '(p2, out) := waitForHealthy (t0 + health_timeout)%Z
                       (with_graph p (depgraph.Add p.(depGraph) (node_of i))) rid evs in
   AddPlugin rpc rd1 rd2 t0 evs p config =
   match out with
   | None => (p2, None)
   | Some (Some err) =>
       (with_graph p2 (depgraph.Remove p2.(depGraph) rid),
        Some (Some (Errorf "plugin %q did not become healthy: %w" [AStr (self_id config info); AErr err])))
   | Some None => (with_plugins (with_endpoint p2 rid config.(cfg_Endpoint)) (<[rid := i]> p2.(plugins)), Some None)
   end).
Proof.
  unfold AddPlugin, admitted. destruct (GetPluginInfo rpc (cfg_Endpoint config)) as [info|e] eqn:E1.
  2:{ left. split; [by intros (? & ? & ? & ? & _)|eauto]. }
  pose proof (unavailable_dep_None (depGraph p) (gi_Requires info)) as Hu.
  destruct (unavailable_dep _ _) as [dep|].
  { left. split; [|eauto]. intros (? & ? & ? & [= <-] & Hd & _). by apply Hu in Hd. }
  destruct (generateRuntimeID rd1 _) as [rid|] eqn:E2.
  2:{ left. split; [|eauto]. intros (? & ? & ? & [= <-] & _ & ? & _). congruence. }
  destruct (generateToken rd2) as [token|] eqn:E3.
  2:{ left. split; [|eauto]. by intros (? & ? & ? & [= <-] & _ & _ & ? & _). }
  destruct (SetRuntimeIdentity rpc _ rid token "") eqn:E4.
  { left. split; [|eauto]. intros (? & ? & ? & [= <-] & _ & ? & [= <-] & ?). congruence. }
  right. exists info, rid, token. split; [split_and!; try done; by apply Hu|]. simpl.
  by destruct (waitForHealthy _ _ _ _) as [p2 [[]|]].
Qed.

(** ** Properties *)

(** Waiting for a plugin ends.  Polled on time, the wait is over after at most
    sixty-one polls, and it ends in success exactly when the plugin's own latest
    report says HEALTHY at one of the first sixty. *)
Theorem waitForHealthy_polls t0 acts p rid (Hlong : 61 ≤ length acts) :
  ∃ r, (waitForHealthy (t0 + health_timeout)%Z p rid (on_time t0 0 acts)).2 = Some r ∧
    (r = None ↔ ∃ i, i < 60 ∧ reported_healthy (after acts (S i) p).(lifecycleServer) rid).
Proof.
  destruct (on_time_wait t0 0 acts p rid ltac:(lia)) as [H1 H2].
  destruct (waitForHealthy _ _ _ _).2 as [r|]; [|by destruct (H1 ltac:(lia))].
  exists r. split; [done|]. split.
  - intros ->. destruct (proj1 H2 eq_refl) as (i & _ & ? & ?). by exists i.
  - intros (i & ? & ?). enough (Some r = Some None) by congruence. apply H2. exists i. split_and!; [lia|lia|done].
Qed.

(** C12: adding a plugin is all or nothing.  An error leaves the graph, the routes and
    the plugins as they were, also when it comes after the node was added; success
    means that the plugin was admitted (its description was read, every service it
    requires for startup has a provider, it was given its identity) and reported
    HEALTHY within the time limit, and then node, route and instance are all there
    and the platform invariant holds. *)
Theorem AddPlugin_transaction rpc rd1 rd2 t0 evs p config (Hok : platform_ok p)
    (Hfresh : ∀ info rid token, admitted rpc rd1 rd2 p config info rid token →
       p.(depGraph).(depgraph.nodes) !! rid = None) :
  let '(p', out) := AddPlugin rpc rd1 rd2 t0 evs p config in
  match out with
  | None => (∃ info rid token, admitted rpc rd1 rd2 p config info rid token) ∧ p'.(plugins) = p.(plugins)
  | Some (Some err) =>
      p'.(depGraph) = p.(depGraph) ∧ p'.(pluginEndpoints) = p.(pluginEndpoints) ∧ p'.(plugins) = p.(plugins)
  | Some None =>
      platform_ok p' ∧
      ∃ info rid token, admitted rpc rd1 rd2 p config info rid token ∧
        (∃ act now, (act, Tick now) ∈ evs ∧ (now ≤ t0 + health_timeout)%Z) ∧
        reported_healthy p'.(lifecycleServer) rid ∧
        p'.(depGraph) = depgraph.Add p.(depGraph) (node_of (new_instance config info rid token)) ∧
        p'.(pluginEndpoints) = <[rid := config.(cfg_Endpoint)]> p.(pluginEndpoints) ∧
        p'.(plugins) = <[rid := new_instance config info rid token]> p.(plugins)
  end.
Proof.
  destruct (AddPlugin_cases rpc rd1 rd2 t0 evs p config) as [[_ [err ->]]|(info & rid & token & Ha & E)]; [done|].
  cbn zeta in E. specialize (Hfresh info rid token Ha). set (i := new_instance config info rid token) in *.
  pose proof (ok_add_node p (node_of i) Hok Hfresh) as Hok1.
  set (p1 := with_graph p (depgraph.Add (depGraph p) (node_of i))) in *.
  pose proof (wait_tables (t0 + health_timeout)%Z p1 rid evs) as (W1 & W2 & W3).
  pose proof (wait_healthy (t0 + health_timeout)%Z p1 rid evs) as Wh.
  destruct (waitForHealthy _ p1 rid evs) as [p2 [[err|]|]]; simpl in E; rewrite E; simpl in *.
  - split_and!; [|done|done]. rewrite W1. apply (depgraph.Remove_Add_aux _ (node_of i)); [apply Hok|done].
  - destruct (Wh p2 eq_refl) as [Hh Hev]. split.
    + apply (platform_ok_tables p1 p2 W1 W2 W3) in Hok1.
      apply (ok_store p2 i Hok1). rewrite W1. simpl. by rewrite lookup_insert_eq.
    + exists info, rid, token. split_and!; try done; [by rewrite W2|by rewrite W3].
  - split; [by exists info, rid, token|done].
Qed.

(** ** Taking plugins away *)

(** A control client without an HTTP client: only for an endpoint that is no URL does
    the request return. *)
Lemma request_shutdown_nil rpc endpoint grace reason p :
  request_shutdown rpc (Some (NewPluginControlClient endpoint None)) grace reason p =
  (p, match rpc.(url_error) endpoint with Some _ => Returned () | None => Panicked end).
Proof. unfold request_shutdown. rewrite Shutdown_nil. destruct p, (url_error rpc endpoint); done. Qed.

(** The control clients of the plugins in the table, as the platform makes them. *)
Definition built (p : Platform) : Prop :=
  ∀ rid i, p.(plugins) !! rid = Some i → i.(control) = Some (NewPluginControlClient i.(Endpoint) None).

Lemma built_tables p p' : p'.(plugins) = p.(plugins) → built p → built p'.
Proof. unfold built. by intros ->. Qed.

Lemma built_insert p m rid i : built p → m ⊆ p.(plugins) → i.(control) = Some (NewPluginControlClient i.(Endpoint) None) →
  built (with_plugins p (<[rid := i]> m)).
Proof.
  intros Hb Hm Hc k j. simpl. intros [[<- <-]|[_ Hj]]%lookup_insert_Some; [done|].
  by apply (Hb k), (lookup_weaken _ _ _ _ Hj).
Qed.

Lemma fresh_plugin p rid : platform_ok p → p.(depGraph).(depgraph.nodes) !! rid = None → p.(plugins) !! rid = None.
Proof.
  intros Hok Hn. destruct (plugins p !! rid) as [i|] eqn:Hi; [|done].
  destruct (ok_plugins p Hok rid i Hi) as (_ & Hn' & _). congruence.
Qed.

(** A route for an id that is not in the table. *)
Lemma ok_endpoint p rid endpoint : platform_ok p → p.(plugins) !! rid = None → platform_ok (with_endpoint p rid endpoint).
Proof.
  intros [H1 H2] Hn. split; [done|]. intros k i. simpl. intros Hi. destruct (H2 k i Hi) as (E1 & E2 & E3).
  rewrite lookup_insert_ne; [done|]. congruence.
Qed.

(** What the graph offers are the declarations of its nodes. *)
Lemma HasService_iff p t : platform_ok p →
  depgraph.HasService p.(depGraph) t = true ↔
  ∃ k n, p.(depGraph).(depgraph.nodes) !! k = Some n ∧ t ∈ depgraph.decl_Type <$> depgraph.Provides n.
Proof.
  intros [[_ Hidx] _]. unfold depgraph.HasService. rewrite Z.ltb_lt. split.
  - intros Hlen. destruct (get_or [] (depgraph.byType (depGraph p)) t) as [|k l] eqn:El; [simpl in Hlen; lia|].
    assert (Hk : k ∈ get_or [] (depgraph.byType (depGraph p)) t) by (rewrite El; by left).
    apply depgraph.index_wf_provider in Hk as (n & Hkn & Ht); [|done]. by exists k, n.
  - intros (k & n & Hkn & Ht).
    assert (Hk : k ∈ get_or [] (depgraph.byType (depGraph p)) t) by (apply depgraph.index_wf_provider; [done|by exists n]).
    destruct (get_or [] _ t); [by apply elem_of_nil in Hk|]. simpl. lia.
Qed.

(** The new version of a replacement, up to the end of the wait for its health. *)
Definition started (t0 : Time) (evs : list (activity * wake)) (p : Platform) (i : PluginInstance) :
    Platform * option (option error) :=
  waitForHealthy (t0 + health_timeout)%Z (with_graph p (depgraph.Add p.(depGraph) (node_of i))) i.(RuntimeID) evs.

(** Replacing an instance that the platform has made. *)
Lemma ReplacePlugin_cases `{GoRange} rpc rd1 rd2 t0 evs drain p old newConfig i :
  p.(plugins) !! old = Some i → i.(control) = Some (NewPluginControlClient i.(Endpoint) None) →
  (∃ e, ReplacePlugin rpc rd1 rd2 t0 evs drain p old newConfig = Some (p, Some (Returned (Some e)))) ∨
  (∃ rid token, generateRuntimeID rd1 newConfig.(cfg_SelfID) = Ok rid ∧ generateToken rd2 = Ok token ∧
   let ni := replacement newConfig rid token in let p2 := (started t0 evs p ni).1 in
   ReplacePlugin rpc rd1 rd2 t0 evs drain p old newConfig =
   match (started t0 evs p ni).2 with
   | None => Some (p2, None)
   | Some (Some err) =>
       Some (with_graph p2 (depgraph.Remove p2.(depGraph) rid),
             Some (Returned (Some (Errorf "new version did not become healthy: %w" [AErr err]))))
   | Some None =>
       let p3 := act_on drain (with_endpoint p2 rid newConfig.(cfg_Endpoint)) in
       match rpc.(url_error) i.(Endpoint) with
       | None => Some (p3, Some Panicked)
       | Some _ =>
           r ← registry.UnregisterPluginServices p3.(registry) old;
           Some (with_plugins (with_graph (with_registry p3 r) (depgraph.Remove p3.(depGraph) old))
                   (<[rid := ni]> (delete old p3.(plugins))), Some (Returned None))
       end
   end).
Proof.
  intros Hi Hc. unfold ReplacePlugin. rewrite Hi.
  destruct (generateRuntimeID rd1 _) as [rid|e] eqn:Er; [|left; eauto].
  destruct (generateToken rd2) as [token|e] eqn:Et; [|left; eauto].
  right. exists rid, token. split_and!; [done..|]. cbn zeta.
  change (waitForHealthy _ _ rid evs) with (started t0 evs p (replacement newConfig rid token)).
  destruct (started t0 evs p _) as [p2 [[err|]|]]; [done| |done]. cbn [fst snd].
  rewrite Hc, request_shutdown_nil. destruct (url_error rpc _); [|done].
  by destruct (registry.UnregisterPluginServices _ old).
Qed.

(** ** The platforms there are *)

(** The states of a platform under its operations, one after the other, whatever
    plugins do and answer.  The ids that are drawn are new to the graph. *)
Inductive reachable `{GoRange} : Platform → Prop :=
| reach_new r l endpoints : reachable (NewPlatform r l endpoints)
| reach_activity act p : reachable p → reachable (act_on act p)
| reach_node p rid selfID provides requires : reachable p → p.(depGraph).(depgraph.nodes) !! rid = None →
    reachable (AddToDependencyGraph p rid selfID provides requires)
| reach_add id rd1 rd2 t0 evs p config : reachable p →
    (∀ info rid token, admitted id rd1 rd2 p config info rid token → p.(depGraph).(depgraph.nodes) !! rid = None) →
    reachable (AddPlugin id rd1 rd2 t0 evs p config).1
| reach_remove rpc grace p rid p' out : reachable p → RemovePlugin rpc grace p rid = Some (p', out) → reachable p'
| reach_replace rpc rd1 rd2 t0 evs drain p old config p' out : reachable p →
    (∀ rid, generateRuntimeID rd1 config.(cfg_SelfID) = Ok rid → p.(depGraph).(depgraph.nodes) !! rid = None) →
    ReplacePlugin rpc rd1 rd2 t0 evs drain p old config = Some (p', out) → reachable p'.

(** The tables are consistent, and every control client is one without HTTP client. *)
Record platform_inv (p : Platform) : Prop := { inv_ok : platform_ok p; inv_built : built p }.

Lemma inv_tables p p' :
  p'.(depGraph) = p.(depGraph) → p'.(pluginEndpoints) = p.(pluginEndpoints) → p'.(plugins) = p.(plugins) →
  platform_inv p → platform_inv p'.
Proof. intros E1 E2 E3 [H1 H2]. split; [by apply (platform_ok_tables p)|by apply (built_tables p)]. Qed.

Lemma inv_act act p : platform_inv p → platform_inv (act_on act p).
Proof. destruct (act_on_graph act p) as (E1 & E2 & E3). by apply inv_tables. Qed.

Lemma inv_remove p rid : platform_inv p →
  platform_inv (with_plugins (with_graph p (depgraph.Remove p.(depGraph) rid)) (delete rid p.(plugins))).
Proof.
  intros [H1 H2]. split; [by apply ok_remove|]. intros k i. simpl. intros [_ Hi]%lookup_delete_Some. by apply (H2 k).
Qed.

(** The tables while, and after, a node that is new in the graph waits for its health. *)
Lemma inv_started t0 evs p i : platform_inv p → p.(depGraph).(depgraph.nodes) !! i.(RuntimeID) = None →
  let p2 := (started t0 evs p i).1 in
  platform_inv p2 ∧ p2.(depGraph) = depgraph.Add p.(depGraph) (node_of i) ∧ p2.(pluginEndpoints) = p.(pluginEndpoints) ∧
  p2.(plugins) = p.(plugins) ∧ depgraph.Remove p2.(depGraph) i.(RuntimeID) = p.(depGraph).
Proof.
  intros [Hok Hb] Hf. pose proof (ok_add_node p (node_of i) Hok Hf) as Hok1. unfold started.
  set (p1 := with_graph p _) in *. destruct (wait_tables (t0 + health_timeout)%Z p1 (RuntimeID i) evs) as (W1 & W2 & W3).
  split_and!; [by apply (inv_tables p1)|done..|].
  rewrite W1. apply (depgraph.Remove_Add_aux _ (node_of i)); [apply Hok|done].
Qed.

Lemma AddPlugin_inv id rd1 rd2 t0 evs p config : platform_inv p →
  (∀ info rid token, admitted id rd1 rd2 p config info rid token → p.(depGraph).(depgraph.nodes) !! rid = None) →
  platform_inv (AddPlugin id rd1 rd2 t0 evs p config).1.
Proof.
  intros Hp Hf. destruct (AddPlugin_cases id rd1 rd2 t0 evs p config) as [[_ [err ->]]|(info & rid & token & Ha & E)]; [done|].
  specialize (Hf info rid token Ha). set (i := new_instance config info rid token) in *. cbn zeta in E.
  destruct (inv_started t0 evs p i Hp Hf) as (Hp2 & Hg & He & Ht & Hr). unfold started in *. change (RuntimeID i) with rid in *.
  destruct (waitForHealthy _ _ rid evs) as [p2 [[err|]|]]; rewrite E; [by apply (inv_tables p)| |done]. cbn [fst] in *.
  split; [|by apply (built_insert (with_endpoint p2 rid (cfg_Endpoint config))); [apply Hp2|reflexivity|]].
  apply (ok_store p2 i (inv_ok _ Hp2)). rewrite Hg. simpl. by rewrite lookup_insert_eq.
Qed.

Lemma RemovePlugin_inv `{GoRange} rpc grace p rid p' out : platform_inv p → RemovePlugin rpc grace p rid = Some (p', out) → platform_inv p'.
Proof.
  intros Hp. unfold RemovePlugin. destruct (plugins p !! rid) as [i|] eqn:Hi; [|by intros [= <- _]].
  destruct (depgraph.GetImpact _ _); [|done]. destruct (registry.UnregisterPluginServices _ _) as [r|]; [|done].
  rewrite (inv_built p Hp rid i Hi), request_shutdown_nil.
  assert (Hp2 : platform_inv (with_registry (act_on grace p) r)) by by apply (inv_tables (act_on grace p)), inv_act.
  destruct (url_error rpc _); intros [= <- _]; [exact (inv_remove _ rid Hp2)|done].
Qed.

(** A new version with a route, after the drain; the old one taken away and the new
    one stored. *)
Lemma inv_switched old rid ni drain p2 : platform_inv p2 → rid ≠ old → ni.(RuntimeID) = rid → p2.(plugins) !! rid = None →
  ni.(control) = Some (NewPluginControlClient ni.(Endpoint) None) → p2.(depGraph).(depgraph.nodes) !! rid = Some (node_of ni) →
  let p3 := act_on drain (with_endpoint p2 rid ni.(Endpoint)) in
  platform_inv p3 ∧
  ∀ r, platform_inv (with_plugins (with_graph (with_registry p3 r) (depgraph.Remove p3.(depGraph) old))
                       (<[rid := ni]> (delete old p3.(plugins)))).
Proof.
  intros Hp Hne Hid Hno Hc Hn. cbn zeta. destruct (act_on_graph drain (with_endpoint p2 rid (Endpoint ni))) as (F1 & F2 & F3).
  assert (Hp3 : platform_inv (act_on drain (with_endpoint p2 rid (Endpoint ni)))).
  { apply inv_act. split; [by apply ok_endpoint; [apply Hp|]|]. by apply (built_tables p2); [|apply Hp]. }
  set (p3 := act_on drain _) in *. split; [done|]. intros r.
  assert (Hp4 : platform_inv (with_plugins (with_graph (with_registry p3 r) (depgraph.Remove (depGraph p3) old)) (delete old (plugins p3)))).
  { by apply (inv_remove (with_registry p3 r)), (inv_tables p3). }
  split; [|by apply (built_insert _ _ rid ni (inv_built _ Hp4))].
  split; [apply Hp4|]. intros k j. simpl. rewrite lookup_insert_Some. intros [[<- <-]|[_ Hj]].
  - rewrite Remove_nodes, F1, F2. simpl. by rewrite lookup_delete_ne, lookup_insert_eq.
  - exact (ok_plugins _ (inv_ok _ Hp4) k j Hj).
Qed.

Lemma ReplacePlugin_inv `{GoRange} rpc rd1 rd2 t0 evs drain p old config p' out : platform_inv p →
  (∀ rid, generateRuntimeID rd1 config.(cfg_SelfID) = Ok rid → p.(depGraph).(depgraph.nodes) !! rid = None) →
  ReplacePlugin rpc rd1 rd2 t0 evs drain p old config = Some (p', out) → platform_inv p'.
Proof.
  intros Hp Hf. destruct (plugins p !! old) as [i|] eqn:Hi.
  2:{ unfold ReplacePlugin. rewrite Hi. by intros [= <- _]. }
  destruct (ReplacePlugin_cases rpc rd1 rd2 t0 evs drain p old config i Hi (inv_built p Hp old i Hi))
    as [[e ->]|(rid & token & Hrid & _ & ->)]; [by intros [= <- _]|]. cbn zeta.
  set (ni := replacement config rid token). specialize (Hf rid Hrid).
  destruct (inv_started t0 evs p ni Hp Hf) as (Hp2 & Hg & He & Ht & Hr).
  destruct (started t0 evs p ni) as [p2 [[err|]|]]; cbn [fst snd] in *; [|  |by intros [= <- _]].
  { intros [= <- _]. by apply (inv_tables p). }
  destruct (ok_plugins p (inv_ok p Hp) old i Hi) as (_ & Ho & _).
  destruct (inv_switched old rid ni drain p2) as [Hp3 Hp4]; [done|congruence|done| |done| |].
  - rewrite Ht. by apply fresh_plugin; [apply Hp|].
  - rewrite Hg. simpl. by rewrite lookup_insert_eq.
  - destruct (url_error rpc _); [|by intros [= <- _]].
    destruct (registry.UnregisterPluginServices _ old) as [r|]; [|done]. intros [= <- _]. apply Hp4.
Qed.

Lemma reachable_platform_inv `{GoRange} p : reachable p → platform_inv p.
Proof.
  induction 1 as [r l e|act p _ IH|p rid s pr rq _ IH Hf|id rd1 rd2 t0 evs p config _ IH Hf|rpc grace p rid p' out _ IH E
                 |rpc rd1 rd2 t0 evs drain p old config p' out _ IH Hf E].
  - split; [split; [apply depgraph.New_wf|]|]; intros rid i; simpl; by rewrite lookup_empty.
  - by apply inv_act.
  - split; [by apply ok_add_node; [apply IH|]|]. by apply (built_tables p); [|apply IH].
  - by apply AddPlugin_inv.
  - by eapply RemovePlugin_inv.
  - by eapply ReplacePlugin_inv.
Qed.

(** C28: removing a plugin, on every platform there is.  The plugin's services are
    unregistered, and nobody else's.  Then the call panics, unless the plugin's
    endpoint is no URL: the shutdown request goes through a client without HTTP
    client.  Graph, table and routes keep the plugin, which therefore still stands for
    the services it has declared when the next plugin asks for them.  For an endpoint
    that is no URL the removal is complete: the plugin is in neither table nor graph,
    and a service is still offered exactly when another plugin of the graph
    declares it. *)
Theorem RemovePlugin_outcomes `{GoRange} rpc grace p rid i a (Hp : reachable p)
    (Hi : p.(plugins) !! rid = Some i) (Hmodels : registry.models (act_on grace p).(registry) a) :
  ∃ p' out, RemovePlugin rpc grace p rid = Some (p', out) ∧ platform_ok p' ∧
    registry.models p'.(registry) (filter (λ q, q.(registry.RuntimeID) ≠ rid) a) ∧
    p'.(lifecycleServer) = (act_on grace p).(lifecycleServer) ∧ p'.(pluginEndpoints) = p.(pluginEndpoints) ∧
    match rpc.(url_error) i.(Endpoint) with
    | None =>
        out = Panicked ∧ p'.(depGraph) = p.(depGraph) ∧ p'.(plugins) = p.(plugins) ∧
        ∀ svc, svc ∈ i.(Metadata).(Provides) → depgraph.HasService p'.(depGraph) svc.(sd_Type) = true
    | Some _ =>
        out = Returned None ∧ p'.(plugins) = delete rid p.(plugins) ∧
        p'.(depGraph).(depgraph.nodes) = delete rid p.(depGraph).(depgraph.nodes) ∧
        ∀ t, depgraph.HasService p'.(depGraph) t = true ↔
          ∃ k n, k ≠ rid ∧ p.(depGraph).(depgraph.nodes) !! k = Some n ∧ t ∈ depgraph.decl_Type <$> depgraph.Provides n
    end.
Proof.
  apply reachable_platform_inv in Hp. destruct (ok_plugins p (inv_ok p Hp) rid i Hi) as (_ & Hn & _).
  destruct (depimpact.GetImpact_aux (depGraph p) rid _ Hn) as (imp & Himp & _).
  destruct (registry.models_unregister_plugin _ _ rid Hmodels) as (r & Hr & Hmr & _).
  destruct (act_on_graph grace p) as (E1 & E2 & E3).
  assert (Hp2 : platform_inv (with_registry (act_on grace p) r)) by by apply (inv_tables (act_on grace p)), inv_act.
  unfold RemovePlugin. rewrite Hi, Himp, Hr, (inv_built p Hp rid i Hi), request_shutdown_nil.
  destruct (url_error rpc _).
  - eexists _, _. split; [reflexivity|]. pose proof (inv_ok _ (inv_remove _ rid Hp2)) as Hok'. split; [exact Hok'|].
    split_and!; [done|done|done|done|by simpl; rewrite E3|by simpl; rewrite Remove_nodes, E1|].
    intros t. rewrite (HasService_iff _ t Hok'). simpl. rewrite Remove_nodes, E1.
    setoid_rewrite lookup_delete_Some. naive_solver.
  - eexists _, _. split; [reflexivity|]. split; [apply Hp2|]. split_and!; [done|done|done|done|done|done|].
    intros svc Hs. rewrite (HasService_iff _ _ (inv_ok _ Hp2)). exists rid, (node_of i). split; [by simpl; rewrite E1|].
    simpl. unfold graph_provides. rewrite <- list_fmap_compose. apply list_elem_of_fmap. by exists svc.
Qed.

(** ** Replacing *)

(** Calls that keep the registry a view of some log: all of the registry's own
    operations do (see [registry_refines_log] there). *)
Definition modelled (r : registry.ServiceRegistry) : Prop := ∃ a, registry.models r a.
Definition keeps_models (act : activity) : Prop := ∀ r l, modelled r → modelled (act (r, l)).1.

Lemma act_modelled act p : keeps_models act → modelled p.(registry) → modelled (act_on act p).(registry).
Proof.
  intros Hk Hm. specialize (Hk (registry p) (lifecycleServer p) Hm). unfold act_on.
  by destruct (act (registry p, lifecycleServer p)).
Qed.

Lemma wait_modelled deadline p rid evs : (∀ act w, (act, w) ∈ evs → keeps_models act) → modelled p.(registry) →
  modelled (waitForHealthy deadline p rid evs).1.(registry).
Proof.
  revert p. induction evs as [|[act w] evs IH]; intros p Hk Hm; [done|]. rewrite wait_cons. cbn zeta.
  assert (Hm' : modelled (registry (act_on act p))) by (apply act_modelled; [eapply Hk; by left|done]).
  assert (Hrec : modelled (waitForHealthy deadline (act_on act p) rid evs).1.(registry)).
  { apply IH; [|done]. intros a v Hin. eapply Hk. by right. }
  destruct w as [d|now]; [done|]. destruct (deadline <? now)%Z; [done|].
  destruct (GetHealthState _ _) as [st|]; [|done]. by case_bool_decide.
Qed.

(** C27: replacing a plugin, on every platform there is.  An error leaves graph, routes
    and plugins as they were (the identity could not be made, or the new version did
    not report HEALTHY in time).  A new version that is healthy gets its route, and
    the drain goes by; then the call panics, unless the old endpoint is no URL, in
    the shutdown request to the old version.  Both versions are then in graph and
    routes, the table knows the old one only, and the registry is as the drain left
    it.  For an old endpoint that is no URL the switch is complete: table and graph
    have the new version in the place of the old one, of which no registration is
    left. *)
Theorem ReplacePlugin_outcomes `{GoRange} rpc rd1 rd2 t0 evs drain p old newConfig i (Hp : reachable p)
    (Hi : p.(plugins) !! old = Some i)
    (Hfresh : ∀ rid, generateRuntimeID rd1 newConfig.(cfg_SelfID) = Ok rid → p.(depGraph).(depgraph.nodes) !! rid = None)
    (Hreg : modelled p.(registry)) (Hacts : ∀ act w, (act, w) ∈ evs → keeps_models act) (Hdrain : keeps_models drain) :
  ∃ p' out, ReplacePlugin rpc rd1 rd2 t0 evs drain p old newConfig = Some (p', out) ∧ platform_ok p' ∧
    match out with
    | None => p'.(plugins) = p.(plugins)
    | Some (Returned (Some err)) =>
        p'.(depGraph) = p.(depGraph) ∧ p'.(pluginEndpoints) = p.(pluginEndpoints) ∧ p'.(plugins) = p.(plugins)
    | Some ended =>
        ∃ rid token, generateRuntimeID rd1 newConfig.(cfg_SelfID) = Ok rid ∧ generateToken rd2 = Ok token ∧ rid ≠ old ∧
          let ni := replacement newConfig rid token in let '(p2, waited) := started t0 evs p ni in
          let added := <[rid := node_of ni]> p.(depGraph).(depgraph.nodes) in
          waited = Some None ∧ reported_healthy p2.(lifecycleServer) rid ∧
          p'.(pluginEndpoints) = <[rid := newConfig.(cfg_Endpoint)]> p.(pluginEndpoints) ∧
          match rpc.(url_error) i.(Endpoint) with
          | None =>
              ended = Panicked ∧ p'.(plugins) = p.(plugins) ∧ p'.(depGraph).(depgraph.nodes) = added ∧
              (p'.(registry), p'.(lifecycleServer)) = drain (p2.(registry), p2.(lifecycleServer))
          | Some _ =>
              ended = Returned None ∧ p'.(plugins) = <[rid := ni]> (delete old p.(plugins)) ∧
              p'.(depGraph).(depgraph.nodes) = delete old added ∧
              ∃ a, registry.models p'.(registry) a ∧ ∀ q, q ∈ a → q.(registry.RuntimeID) ≠ old
          end
    end.
Proof.
  apply reachable_platform_inv in Hp.
  destruct (ReplacePlugin_cases rpc rd1 rd2 t0 evs drain p old newConfig i Hi (inv_built p Hp old i Hi))
    as [[e ->]|(rid & token & Hrid & Htok & ->)].
  { eexists _, _. split; [reflexivity|]. split; [apply Hp|done]. }
  cbn zeta. set (ni := replacement newConfig rid token). specialize (Hfresh rid Hrid).
  destruct (inv_started t0 evs p ni Hp Hfresh) as (Hp2 & Hg & He & Ht & Hr).
  pose proof (wait_modelled (t0 + health_timeout)%Z (with_graph p (depgraph.Add (depGraph p) (node_of ni))) rid evs Hacts Hreg) as Hm.
  change (waitForHealthy _ _ rid evs) with (started t0 evs p ni) in Hm.
  assert (Hh : (started t0 evs p ni).2 = Some None → reported_healthy (started t0 evs p ni).1.(lifecycleServer) rid).
  { intros E. apply (wait_healthy (t0 + health_timeout)%Z (with_graph p (depgraph.Add (depGraph p) (node_of ni))) rid evs).
    change (waitForHealthy _ _ rid evs) with (started t0 evs p ni). by destruct (started _ _ _ _) as [? ?]; simpl in E; subst. }
  destruct (started t0 evs p ni) as [p2 [[err|]|]] eqn:Es; cbn [fst snd] in *.
  { eexists _, _. split; [reflexivity|]. split; [by apply (inv_tables p)|]. by split_and!. }
  2:{ eexists _, _. split; [reflexivity|]. by split; [apply Hp2|]. }
  destruct (ok_plugins p (inv_ok p Hp) old i Hi) as (_ & Ho & _). assert (Hne : rid ≠ old) by congruence.
  destruct (inv_switched old rid ni drain p2) as [Hp3 Hp4]; [done|done|done| |done| |].
  { rewrite Ht. by apply fresh_plugin; [apply Hp|]. }
  { rewrite Hg. simpl. by rewrite lookup_insert_eq. }
  destruct (act_on_graph drain (with_endpoint p2 rid (Endpoint ni))) as (F1 & F2 & F3).
  assert (Hm3 : modelled (registry (act_on drain (with_endpoint p2 rid (Endpoint ni))))) by by apply act_modelled.
  change (Endpoint ni) with (cfg_Endpoint newConfig) in *. set (p3 := act_on drain (with_endpoint p2 rid _)) in *.
  assert (Hroute : pluginEndpoints p3 = <[rid := cfg_Endpoint newConfig]> (pluginEndpoints p)) by by rewrite F2, <- He.
  destruct (url_error rpc _).
  - destruct Hm3 as [a Ha]. destruct (registry.models_unregister_plugin _ _ old Ha) as (r & -> & Hmr & _).
    eexists _, _. split; [reflexivity|]. split; [apply Hp4|]. exists rid, token. split_and!; [done..|].
    fold ni. rewrite Es. split_and!; [done|by apply Hh|exact Hroute|done|by simpl; rewrite F3, <- Ht|by simpl; rewrite Remove_nodes, F1; simpl; rewrite Hg|].
    eexists. split; [exact Hmr|]. by intros q [? _]%list_elem_of_filter.
  - eexists _, _. split; [reflexivity|]. split; [apply Hp3|]. exists rid, token. split_and!; [done..|].
    fold ni. rewrite Es. split_and!; [done|by apply Hh|exact Hroute|done|by rewrite F3, <- Ht|by rewrite F1; simpl; rewrite Hg|].
    unfold p3, act_on. by destruct (drain _).
Qed.

(** ** A concrete platform: one logger, running *)

Definition idle : activity := λ s, s.

(** The plugin [rid] reports HEALTHY. *)
Definition reports_healthy (rid : string) : activity := λ s,
  (s.1, (ReportHealth s.2 (mkReportHealthRequest {["X-Plugin-Runtime-Id" := [rid]]} HEALTH_STATE_HEALTHY "" [])).1).

Definition ex_logger : PluginInstance :=
  mkPluginInstance "logger-0001" "logger" (mkPluginMetadata "logger" "" "1.0.0" [mkServiceDeclaration "logger" "1.0.0" "/"] [])
    "http://localhost:8081" "t" (Some (NewPluginControlClient "http://localhost:8081" None)).

Definition ex_platform : Platform :=
  let p := NewPlatform registry.NewServiceRegistry NewLifecycleServer ∅ in
  let p := with_graph p (depgraph.Add p.(depGraph) (node_of ex_logger)) in
  with_plugins (with_endpoint p ex_logger.(RuntimeID) ex_logger.(Endpoint)) (<[ex_logger.(RuntimeID) := ex_logger]> p.(plugins)).

Lemma ex_platform_ok : platform_ok ex_platform.
Proof.
  apply ok_store; [|by vm_compute]. apply ok_add_node; [|by vm_compute].
  split; [apply depgraph.New_wf|]. intros rid i. simpl. by rewrite lookup_empty.
Qed.

Definition ex_config : PluginConfig :=
  mkPluginConfig "cache" "1.0.0" "http://localhost:8082"
    (mkPluginMetadata "cache" "" "1.0.0" [mkServiceDeclaration "cache" "1.0.0" "/"] []).

Definition ex_identity : PluginIdentity :=
  mkPluginIdentity
    (λ _, Ok (mkGetPluginInfoResponse "cache" {["name" := "cache"]} [mkServiceDeclaration "cache" "1.0.0" "/"]
                [mkServiceDependency "logger" "1.0.0" true true])) (λ _ _ _ _, None).

Definition ex_id : string := "cache-abac".

Lemma ex_id_generated : generateRuntimeID (rand_seq 171) "cache" = Ok ex_id.
Proof. by vm_compute. Qed.

(** The platform after the new plugin has reported at the second poll. *)
Definition ex_evs : list (activity * wake) := on_time 0 0 [idle; reports_healthy ex_id].

Lemma waitForHealthy_polls_witness :
  61 ≤ length (idle :: reports_healthy ex_id :: replicate 59 idle) ∧
  (waitForHealthy (0 + health_timeout)%Z ex_platform ex_id (on_time 0 0 (idle :: reports_healthy ex_id :: replicate 59 idle))).2
    = Some None.
Proof.
  assert (Hl : 61 ≤ length (idle :: reports_healthy ex_id :: replicate 59 idle)) by (vm_compute; lia).
  split; [exact Hl|].
  destruct (waitForHealthy_polls 0 (idle :: reports_healthy ex_id :: replicate 59 idle) ex_platform ex_id Hl) as (r & E & Hr).
  rewrite E. f_equal. apply Hr. exists 1. split; [lia|].
  exists (mkPluginHealthState 1%Z "" []). split; [vm_compute; reflexivity|reflexivity].
Defined.

Lemma AddPlugin_transaction_witness :
  platform_ok ex_platform ∧ platform_ok (AddPlugin ex_identity (rand_seq 171) (rand_seq 5) 0 ex_evs ex_platform ex_config).1 ∧
  (AddPlugin ex_identity (rand_seq 171) (rand_seq 5) 0 ex_evs ex_platform ex_config).2 = Some None.
Proof.
  split; [exact ex_platform_ok|].
  assert (Hf : ∀ info rid token, admitted ex_identity (rand_seq 171) (rand_seq 5) ex_platform ex_config info rid token →
    (depGraph ex_platform).(depgraph.nodes) !! rid = None).
  { intros info rid token ([= <-] & _ & Hr & _). change (generateRuntimeID (rand_seq 171) "cache" = Ok rid) in Hr.
    rewrite ex_id_generated in Hr. injection Hr as <-. by vm_compute. }
  pose proof (AddPlugin_transaction ex_identity (rand_seq 171) (rand_seq 5) 0 ex_evs ex_platform ex_config ex_platform_ok Hf) as Ht.
  assert (E : (AddPlugin ex_identity (rand_seq 171) (rand_seq 5) 0 ex_evs ex_platform ex_config).2 = Some None) by (vm_compute; reflexivity).
  destruct (AddPlugin _ _ _ _ _ _ _) as [p' out]. simpl in E. subst out. split; [apply Ht|reflexivity].
Defined.

(** A plugin whose requests anybody who can send them has answered. *)
Definition ex_rpc : ControlRPC HTTPClient servers :=
  mkControlRPC (λ _, None) (λ _ _ w, (w, Ok (HEALTH_STATE_HEALTHY, ""))) (λ _ _ _ _ w, (w, Ok true)).

(** A new platform that has added the cache, which requires nothing here. *)
Definition ex_alone : PluginIdentity :=
  mkPluginIdentity (λ _, Ok (mkGetPluginInfoResponse "cache" ∅ [mkServiceDeclaration "cache" "1.0.0" "/"] [])) (λ _ _ _ _, None).

Definition ex_running : Platform :=
  (AddPlugin ex_alone (rand_seq 171) (rand_seq 5) 0 ex_evs (NewPlatform registry.NewServiceRegistry NewLifecycleServer ∅) ex_config).1.

Definition ex_cache : PluginInstance :=
  mkPluginInstance ex_id "cache" (mkPluginMetadata "" "" "" [mkServiceDeclaration "cache" "1.0.0" "/"] [])
    "http://localhost:8082" (match generateToken (rand_seq 5) with Ok t => t | Err _ => "" end)
    (Some (NewPluginControlClient "http://localhost:8082" None)).

Lemma ex_running_reachable `{GoRange} : reachable ex_running.
Proof. apply reach_add; [apply reach_new|]. intros info rid token _. simpl. by rewrite lookup_empty. Qed.

Lemma ex_running_cache : plugins ex_running !! ex_id = Some ex_cache.
Proof. vm_compute. reflexivity. Qed.

Lemma ex_running_models : registry.models (registry ex_running) [].
Proof. exact registry.models_new. Qed.

(** The cache is asked to go and stays: the registry knows it no more, the graph still
    offers its service. *)
Lemma RemovePlugin_outcomes_witness :
  plugins ex_running !! ex_id = Some ex_cache ∧
  ∃ p', RemovePlugin ex_rpc idle ex_running ex_id = Some (p', Panicked) ∧
    plugins p' !! ex_id = Some ex_cache ∧ depgraph.HasService p'.(depGraph) "cache" = true.
Proof.
  split; [exact ex_running_cache|].
  destruct (RemovePlugin_outcomes ex_rpc idle ex_running ex_id ex_cache [] ex_running_reachable ex_running_cache ex_running_models)
    as (p' & out & E & _ & _ & _ & _ & -> & _ & Ep & Hs).
  exists p'. split; [exact E|]. split; [rewrite Ep; exact ex_running_cache|].
  exact (Hs (mkServiceDeclaration "cache" "1.0.0" "/") (list_elem_of_here _ _)).
Defined.

Lemma idle_keeps : keeps_models idle.
Proof. intros r l H. exact H. Qed.

Lemma reports_keep rid : keeps_models (reports_healthy rid).
Proof. intros r l H. exact H. Qed.

(** The identity of the next version; it reports HEALTHY under it. *)
Definition ex_next : string := "cache-4d4e".

Lemma ex_next_generated : generateRuntimeID (rand_seq 77) "cache" = Ok ex_next.
Proof. by vm_compute. Qed.

Definition ex_next_evs : list (activity * wake) := on_time 0 0 [reports_healthy ex_next].

Lemma ReplacePlugin_outcomes_witness :
  ∃ p', ReplacePlugin ex_rpc (rand_seq 77) (rand_seq 5) 0 ex_next_evs idle ex_running ex_id ex_config = Some (p', Some Panicked) ∧
    platform_ok p' ∧ plugins p' !! ex_next = None ∧ pluginEndpoints p' !! ex_next = Some "http://localhost:8082".
Proof.
  destruct (ReplacePlugin_outcomes ex_rpc (rand_seq 77) (rand_seq 5) 0 ex_next_evs idle ex_running ex_id ex_config ex_cache
    ex_running_reachable ex_running_cache) as (p' & out & E & Hok & Hout).
  - intros rid Hr. change (generateRuntimeID (rand_seq 77) "cache" = Ok rid) in Hr.
    rewrite ex_next_generated in Hr. injection Hr as <-. by vm_compute.
  - exists []. apply ex_running_models.
  - intros act w [[= -> _]|[]%elem_of_nil]%elem_of_cons. apply reports_keep.
  - apply idle_keeps.
  - exists p'. assert (Eo : snd <$> ReplacePlugin ex_rpc (rand_seq 77) (rand_seq 5) 0 ex_next_evs idle ex_running ex_id ex_config
      = Some (Some Panicked)) by (vm_compute; reflexivity).
    rewrite E in Eo. injection Eo as ->. destruct Hout as (rid & token & Hr & _ & _ & Hout).
    change (generateRuntimeID (rand_seq 77) "cache" = Ok rid) in Hr. rewrite ex_next_generated in Hr. injection Hr as <-.
    cbn zeta in Hout. destruct (started _ _ _ _) as [p2 waited]. destruct Hout as (_ & _ & Ee & _ & Ep & _).
    split_and!; [exact E|exact Hok|rewrite Ep; vm_compute; reflexivity|rewrite Ee; vm_compute; reflexivity].
Defined.

(** [ReplacePlugin] makes a runtime id but sends it to nobody: unless somebody
    reports under an id they were not told, it times out. *)
Lemma replace_times_out `{GoRange} rpc rd1 rd2 t0 acts p old newConfig i rid :
  plugins p !! old = Some i → generateRuntimeID rd1 newConfig.(cfg_SelfID) = Ok rid → 61 ≤ length acts →
  (∀ g n, ¬ reported_healthy (after acts n (with_graph p g)).(lifecycleServer) rid) →
  ∃ p' e, ReplacePlugin rpc rd1 rd2 t0 (on_time t0 0 acts) idle p old newConfig = Some (p', Some (Returned (Some e))).
Proof.
  intros Hi Hr Hl Hn. unfold ReplacePlugin. rewrite Hi, Hr.
  destruct (generateToken rd2) as [token|e]; [|by eexists _, _].
  set (p1 := with_graph p _). destruct (on_time_wait t0 0 acts p1 rid ltac:(lia)) as [H1 H2]. unfold Time_Add.
  destruct (waitForHealthy _ p1 rid _) as [p2 [[e|]|]]; simpl in *.
  - by eexists _, _.
  - destruct (proj1 H2 eq_refl) as (k & _ & _ & Hk). by destruct (Hn _ (S k) Hk).
  - by destruct (H1 ltac:(lia)).
Qed.

(** Removing a plugin leaves its route in the router. *)
Lemma removed_route_stays :
  (λ r, r.1.(pluginEndpoints) !! "logger-0001") <$> RemovePlugin ex_rpc idle ex_platform "logger-0001" =
  Some (Some "http://localhost:8081").
Proof. by vm_compute. Qed.

(** A failed [AddPlugin] does not take back what the plugin registered meanwhile. *)
Definition registers (rid : string) : activity := λ s,
  ((registry.RegisterService (rand_seq 9) 0 None s.1
      (registry.mkRegisterServiceRequest {["X-Plugin-Runtime-Id" := [rid]]} "cache" "1.0.0" "/cache/" ∅)).1, s.2).

Lemma failed_add_leaves_registrations :
  let '(p', out) := AddPlugin ex_identity (rand_seq 171) (rand_seq 5) 0 [(registers ex_id, Cancelled true)] ex_platform ex_config in
  out ≠ Some None ∧ out ≠ None ∧ length (registry.GetServicesBy p'.(registry) ex_id) = 1.
Proof. by vm_compute. Qed.

End platform.
