(* ===== verification/Auth.v ===== *)
(** * Authentication interceptors (auth.go, auth_token.go, auth_mtls.go)

    Unary functions thread a world, the state handlers change; the context carries
    at most one authentication context, the only value the program stores in it.
    What a provider promises is a class: its server interceptor either refuses or
    calls the handler with the identity it computed from the request.  Requests are
    values: the header a client interceptor sets is the one the next function sees. *)

From stdpp Require Import prelude gmap strings list fin_maps.
From Stdlib Require Import ZArith Ascii.
From S2P Require Import Prelude GoRuntime.

Module auth.

(** ** Contexts *)

Record AuthContext := mkAuthContext { Identity : string; Claims : gmap string string; Provider : string }.

(** A context, by the value under [authContextKey]. *)
Definition Context := option AuthContext.

Definition WithAuthContext (ctx : Context) (auth : AuthContext) : Context := Some auth.
Definition GetAuthContext (ctx : Context) : option AuthContext := ctx.

Section auth.
Context {W Body Response : Type}.

Record Request := mkRequest { rq_Header : Header; rq_Body : Body }.

Definition UnaryFunc := W → Context → Request → W * res Response.
Definition UnaryInterceptorFunc := UnaryFunc → UnaryFunc.

Record AuthProvider := mkAuthProvider {
  ClientInterceptor : UnaryInterceptorFunc;
  ServerInterceptor : UnaryInterceptorFunc;
}.

Definition RequireAuth : UnaryInterceptorFunc := λ next w ctx req,
  match GetAuthContext ctx with
  | None => (w, Err (NewError CodeUnauthenticated (Errorf "authentication required" [])))
  | Some _ => next w ctx req
  end.

(** ** Composition *)

Fixpoint apply_clients (providers : list AuthProvider) (next : UnaryFunc) : UnaryFunc :=
  match providers with
  | [] => next
  | p :: providers' => apply_clients providers' (p.(ClientInterceptor) next)
  end.

(** The loop runs from the last provider to the first. *)
Definition ComposeAuthClient (providers : list AuthProvider) : UnaryInterceptorFunc := λ next,
  apply_clients (reverse providers) next.

(** The function every provider wraps in turn. *)
Definition require_context (next : UnaryFunc) : UnaryFunc := λ w ctx req,
  match GetAuthContext ctx with
  | Some _ => next w ctx req
  | None => (w, Err (NewError CodeUnauthenticated (Errorf "no auth context" [])))
  end.

Fixpoint try_providers (providers : list AuthProvider) (lastErr : option error) (next : UnaryFunc) : UnaryFunc := λ w ctx req,
  match providers with
  | [] =>
      (w, Err match lastErr with
              | Some e => e
              | None => NewError CodeUnauthenticated (Errorf "authentication failed" [])
              end)
  | p :: providers' =>
      match p.(ServerInterceptor) (require_context next) w ctx req with
      | (w', Ok resp) => (w', Ok resp)
      | (w', Err err) => try_providers providers' (Some err) next w' ctx req
      end
  end.

Definition ComposeAuthServer (providers : list AuthProvider) : UnaryInterceptorFunc := λ next,
  match providers with
  | [] => next
  | _ => try_providers providers None next
  end.

(** ** Tokens and API keys *)

(** [ValidateToken]: [None] is a nil function. *)
Record TokenAuth := mkTokenAuth {
  Token : string;
  ValidateToken : option (string → res (string * gmap string string));
  ta_Header : string;
  Prefix : string;
}.

Definition NewTokenAuth (token : string) validateToken : TokenAuth :=
  mkTokenAuth token validateToken "Authorization" "Bearer ".

Definition NewAPIKeyAuth (apiKey : string) validateKey : TokenAuth := mkTokenAuth apiKey validateKey "X-API-Key" "".

Definition token_client (t : TokenAuth) : UnaryInterceptorFunc := λ next w ctx req,
  next w ctx
    (if bool_decide (t.(Token) ≠ "")
     then mkRequest (Header_Set req.(rq_Header) t.(ta_Header) (t.(Prefix) +:+ t.(Token))) req.(rq_Body)
     else req).

(** The token the server reads off a request, or its refusal. *)
Definition extract_token (t : TokenAuth) (req : Request) : res string :=
  let authHeader := Header_Get req.(rq_Header) t.(ta_Header) in
  if bool_decide (authHeader = "") then
    Err (NewError CodeUnauthenticated (Errorf "missing %s header" [AStr t.(ta_Header)]))
  else if bool_decide (t.(Prefix) ≠ "") then
    if negb (HasPrefix authHeader t.(Prefix)) then
      Err (NewError CodeUnauthenticated (Errorf "invalid token format, expected %s prefix" [AStr t.(Prefix)]))
    else Ok (TrimPrefix authHeader t.(Prefix))
  else Ok authHeader.

Definition token_server (t : TokenAuth) : UnaryInterceptorFunc := λ next w ctx req,
  match extract_token t req with
  | Err e => (w, Err e)
  | Ok token =>
      match t.(ValidateToken) with
      | None => (w, Err (NewError CodeInternal (Errorf "token validator not configured" [])))
      | Some validate =>
          match validate token with
          | Err err => (w, Err (NewError CodeUnauthenticated (Errorf "invalid token: %w" [AErr err])))
          | Ok (ident, claims) => next w (WithAuthContext ctx (mkAuthContext ident claims "token")) req
          end
      end
  end.

Definition token_provider (t : TokenAuth) : AuthProvider := mkAuthProvider (token_client t) (token_server t).

(** ** Mutual TLS *)

(** Certificates and pools are opaque; of a verified certificate the default
    extraction reads the subject's common name and first organization. *)
Section mtls.
Context {Cert CertPool : Type}.

Record Subject := mkSubject { CommonName : string; Organization : list string }.

Record MTLSAuth := mkMTLSAuth {
  ClientCert : option Cert;
  RootCAs : option CertPool;
  ClientCAs : option CertPool;
  ExtractIdentity : Subject → option (string * gmap string string);
}.

(** [None] is the panic of [Organization[0]] on an empty slice. *)
Definition default_extract (s : Subject) : option (string * gmap string string) :=
  match s.(Organization) with
  | [] => None
  | org :: _ => Some (s.(CommonName), {["organization" := org]})
  end.

Definition NewMTLSAuth clientCert rootCAs clientCAs : MTLSAuth := mkMTLSAuth clientCert rootCAs clientCAs default_extract.

Definition mtls_client (m : MTLSAuth) : UnaryInterceptorFunc := λ next w ctx req, next w ctx req.

Definition mtls_context : AuthContext := mkAuthContext "mtls-client" {["verified" := "true"]} "mtls".

Definition mtls_server (m : MTLSAuth) : UnaryInterceptorFunc := λ next w ctx req,
  next w (WithAuthContext ctx mtls_context) req.

Definition mtls_provider (m : MTLSAuth) : AuthProvider := mkAuthProvider (mtls_client m) (mtls_server m).

Record ClientTLS := mkClientTLS { Certificates : list Cert; tls_RootCAs : option CertPool; tls_MinVersion : Z }.
Record ServerTLS := mkServerTLS { RequireAndVerifyClientCert : bool; tls_ClientCAs : CertPool; tls_server_MinVersion : Z }.
Definition VersionTLS12 : Z := 771.

(** The transport configuration the client gets. *)
Definition ConfigureClientTLS (m : MTLSAuth) : res ClientTLS :=
  match m.(ClientCert) with
  | None => Err (Errorf "client certificate required for mTLS" [])
  | Some cert => Ok (mkClientTLS [cert] m.(RootCAs) VersionTLS12)
  end.

Definition ConfigureServerTLS (m : MTLSAuth) : res ServerTLS :=
  match m.(ClientCAs) with
  | None => Err (Errorf "client CA pool required for mTLS server" [])
  | Some pool => Ok (mkServerTLS true pool VersionTLS12)
  end.
End mtls.

(** ** What a provider promises *)

(** The server interceptor of [p] decides on the request alone, by [authenticate]:
    it refuses without calling the handler, or calls it once with that identity. *)
Class Authenticates (p : AuthProvider) (authenticate : Request → res AuthContext) : Prop :=
  server_spec : ∀ next w ctx req, p.(ServerInterceptor) next w ctx req =
    match authenticate req with
    | Err e => (w, Err e)
    | Ok a => next w (WithAuthContext ctx a) req
    end.

Definition token_authenticate (t : TokenAuth) (req : Request) : res AuthContext :=
  let? token := extract_token t req in
  match t.(ValidateToken) with
  | None => Err (NewError CodeInternal (Errorf "token validator not configured" []))
  | Some validate =>
      match validate token with
      | Err err => Err (NewError CodeUnauthenticated (Errorf "invalid token: %w" [AErr err]))
      | Ok (ident, claims) => Ok (mkAuthContext ident claims "token")
      end
  end.

#[export] Instance token_Authenticates t : Authenticates (token_provider t) (token_authenticate t).
Proof.
  intros next w ctx req. simpl. unfold token_server, token_authenticate.
  destruct (extract_token t req) as [token|]; [|done]. simpl.
  destruct (ValidateToken t) as [v|]; [|done]. by destruct (v token) as [[]|].
Qed.

#[export] Instance mtls_Authenticates {Cert Pool} (m : @MTLSAuth Cert Pool) :
  Authenticates (mtls_provider m) (λ _, Ok mtls_context).
Proof. done. Qed.

(** ** Composed servers *)

(** The providers of a server with what each decides. *)
Definition decided := list (AuthProvider * (Request → res AuthContext)).
Definition all_authenticate (ps : decided) : Prop := ∀ p f, (p, f) ∈ ps → Authenticates p f.

(** The first provider that accepts, or the last refusal. *)
Fixpoint first_accepted (ps : decided) (req : Request) (lastErr : error) : res AuthContext :=
  match ps with
  | [] => Err lastErr
  | (_, f) :: ps' => match f req with Ok a => Ok a | Err e => first_accepted ps' req e end
  end.

Lemma try_cons p ps lastErr next w ctx req f : Authenticates p f →
  try_providers (p :: ps) lastErr next w ctx req =
  match f req with
  | Err e => try_providers ps (Some e) next w ctx req
  | Ok a =>
      match next w (Some a) req with
      | (w', Ok resp) => (w', Ok resp)
      | (w', Err err) => try_providers ps (Some err) next w' ctx req
      end
  end.
Proof. intros Hp. simpl. rewrite Hp. by destruct (f req). Qed.

Lemma all_authenticate_cons p f ps : all_authenticate ((p, f) :: ps) → Authenticates p f ∧ all_authenticate ps.
Proof. intros H. split; [apply H; by left|]. intros q g Hin. apply H. by right. Qed.

Lemma try_first ps lastErr next w ctx req (succeeds : ∀ w a, ∃ w' resp, next w (Some a) req = (w', Ok resp)) :
  all_authenticate ps → ∀ e, lastErr = Some e →
  try_providers ps.*1 lastErr next w ctx req =
  match first_accepted ps req e with Ok a => next w (Some a) req | Err e' => (w, Err e') end.
Proof.
  revert lastErr. induction ps as [|[p f] ps IH]; intros lastErr Hps e ->; [done|].
  apply all_authenticate_cons in Hps as [Hp Hps]. rewrite fmap_cons, (try_cons _ _ _ _ _ _ _ f Hp). simpl.
  destruct (f req) as [a|e']; [|by apply IH].
  destruct (succeeds w a) as (w' & resp & ->). done.
Qed.

Lemma try_safe (I : W → Prop) ps lastErr next w ctx req :
  all_authenticate ps →
  (∀ w a, I w → (∃ p f, (p, f) ∈ ps ∧ f req = Ok a) → I (next w (Some a) req).1) →
  I w → I (try_providers ps.*1 lastErr next w ctx req).1.
Proof.
  revert lastErr w. induction ps as [|[p f] ps IH]; intros lastErr w Hps Hnext Hw; [done|].
  apply all_authenticate_cons in Hps as [Hp Hps]. rewrite fmap_cons, (try_cons _ _ _ _ _ _ _ f Hp).
  assert (Hrec : ∀ err w, I w → I (try_providers ps.*1 err next w ctx req).1).
  { intros err w1 H1. apply IH; [done| |done]. intros w2 a H2 (q & g & Hin & Hg). apply Hnext; [done|].
    exists q, g. split; [by right|done]. }
  destruct (f req) as [a|e] eqn:Ef; [|by apply Hrec].
  assert (Ha : I (next w (Some a) req).1).
  { apply Hnext; [done|]. exists p, f. split; [by left|done]. }
  destruct (next w (Some a) req) as [w' [resp|err]]; [done|]. by apply Hrec.
Qed.

(** C37: a composed server lets the handler see authenticated requests only. Whatever
    the handler keeps true when called with an identity some provider computed from
    the request stays true; when no provider accepts, the handler is not called and
    the answer is an error; a handler that succeeds is called exactly once, with the
    identity of the first provider that accepts. *)
Theorem ComposeAuthServer_authenticates (ps : decided) next w ctx req
    (Hne : ps ≠ []) (Hps : all_authenticate ps) :
  let out := ComposeAuthServer ps.*1 next w ctx req in
  (∀ I : W → Prop,
     (∀ w a, I w → (∃ p f, (p, f) ∈ ps ∧ f req = Ok a) → I (next w (Some a) req).1) → I w → I out.1) ∧
  ((∀ p f, (p, f) ∈ ps → is_ok (f req) = false) → out.1 = w ∧ is_ok out.2 = false) ∧
  ((∀ w a, ∃ w' resp, next w (Some a) req = (w', Ok resp)) → ∀ a e, first_accepted ps req e = Ok a →
     out = next w (Some a) req).
Proof.
  assert (E : ComposeAuthServer ps.*1 next w ctx req = try_providers ps.*1 None next w ctx req) by (by destruct ps as [|[]]).
  rewrite E. clear E. cbn zeta. split_and!.
  - intros I Hnext Hw. by apply try_safe.
  - assert (Hno : ∀ err, (∀ p f, (p, f) ∈ ps → is_ok (f req) = false) →
      ∃ e, try_providers ps.*1 err next w ctx req = (w, Err e)).
    { clear Hne. induction ps as [|[p f] ps IH]; intros err Hf; [by eexists|].
      apply all_authenticate_cons in Hps as [Hp Hps]. rewrite fmap_cons, (try_cons _ _ _ _ _ _ _ f Hp).
      specialize (Hf p f) as Hf1. destruct (f req); [by discriminate Hf1; left|].
      apply IH; [done|]. intros q g Hin. apply (Hf q g). by right. }
    intros Hf. by destruct (Hno None Hf) as [e ->].
  - intros Hs a e Ha. destruct ps as [|[p f] ps]; [done|].
    apply all_authenticate_cons in Hps as [Hp Hps]. rewrite fmap_cons, (try_cons _ _ _ _ _ _ _ f Hp).
    simpl in Ha. destruct (f req) as [a'|e'].
    + injection Ha as ->. by destruct (Hs w a) as (w' & resp & ->).
    + rewrite (try_first ps (Some e') next w ctx req Hs Hps e' eq_refl). by rewrite Ha.
Qed.

(** The token a client sends is the token the server validates, whatever header
    and prefix the two agree on and whatever other headers the request has. *)
Theorem token_roundtrip t client next w ctx req (Hclient : client.(Token) ≠ "")
    (Hheader : CanonicalHeaderKey client.(ta_Header) = CanonicalHeaderKey t.(ta_Header))
    (Hprefix : client.(Prefix) = t.(Prefix)) :
  ComposeAuthClient [token_provider client] (token_server t next) w ctx req =
  match t.(ValidateToken) with
  | None => (w, Err (NewError CodeInternal (Errorf "token validator not configured" [])))
  | Some validate =>
      match validate client.(Token) with
      | Err err => (w, Err (NewError CodeUnauthenticated (Errorf "invalid token: %w" [AErr err])))
      | Ok (ident, claims) =>
          next w (Some (mkAuthContext ident claims "token"))
            (mkRequest (Header_Set req.(rq_Header) client.(ta_Header) (client.(Prefix) +:+ client.(Token))) req.(rq_Body))
      end
  end.
Proof.
  change (ComposeAuthClient [token_provider client] (token_server t next)) with (token_client client (token_server t next)).
  unfold token_client. rewrite bool_decide_eq_true_2 by done. unfold token_server.
  set (req' := mkRequest _ _).
  assert (Ex : extract_token t req' = Ok (Token client)); [|by rewrite Ex].
  unfold extract_token.
  assert (Eh : Header_Get (rq_Header req') (ta_Header t) = Prefix t +:+ Token client).
  { unfold req'. simpl. unfold Header_Get, Header_Set. by rewrite Hheader, lookup_insert_eq, Hprefix. }
  rewrite Eh, (bool_decide_eq_false_2 (_ = "")).
  2:{ destruct (Prefix t) as [|a s]; [done|by rewrite str_app_cons]. }
  destruct (decide (Prefix t = "")) as [Ep|Ep].
  - rewrite bool_decide_eq_false_2 by (by intros []). by rewrite Ep.
  - rewrite bool_decide_eq_true_2 by done. by rewrite HasPrefix_app, TrimPrefix_app.
Qed.
End auth.

Arguments Request : clear implicits.
Arguments AuthProvider : clear implicits.
Arguments decided : clear implicits.

(** ** Witnesses and consequences *)

Definition accept_only (key : string) : option (string → res (string * gmap string string)) :=
  Some (λ token, if bool_decide (token = key) then Ok ("alice", ∅) else Err (Errorf "no such token" [])).

(** A handler that counts its calls and answers with the identity it sees. *)
Definition counting (fails : bool) : @UnaryFunc nat unit string := λ n ctx _,
  (S n, if fails then Err (Errorf "handler failed" []) else Ok match ctx with Some a => Identity a | None => "" end).

Definition ex_providers : decided nat unit string :=
  [(token_provider (NewTokenAuth "" (accept_only "other")), token_authenticate (NewTokenAuth "" (accept_only "other")));
   (token_provider (NewTokenAuth "" (accept_only "secret")), token_authenticate (NewTokenAuth "" (accept_only "secret")))].

Lemma ex_providers_ok : all_authenticate ex_providers.
Proof. intros p f [[= -> ->]|[[= -> ->]|[]%elem_of_nil]%elem_of_cons]%elem_of_cons; apply _. Qed.

Definition ex_request : Request unit := mkRequest {["Authorization" := ["Bearer secret"]]} tt.

Lemma ComposeAuthServer_authenticates_witness :
  ComposeAuthServer ex_providers.*1 (counting false) 0 None ex_request = (1, Ok "alice").
Proof.
  destruct (ComposeAuthServer_authenticates ex_providers (counting false) 0 None ex_request ltac:(discriminate) ex_providers_ok)
    as (_ & _ & H).
  rewrite (H (λ w a, ex_intro _ (S w) (ex_intro _ (Identity a) eq_refl)) (mkAuthContext "alice" ∅ "token")
    (Errorf "" [])); [reflexivity|vm_compute; reflexivity].
Defined.

Lemma token_roundtrip_witness :
  ComposeAuthClient [token_provider (NewAPIKeyAuth "secret" None)] (token_server (NewAPIKeyAuth "" (accept_only "secret")) (counting false))
    0 None (mkRequest ∅ tt) = (1, Ok "alice").
Proof.
  rewrite (token_roundtrip (NewAPIKeyAuth "" (accept_only "secret")) (NewAPIKeyAuth "secret" None) (counting false)
    0 None (mkRequest ∅ tt) ltac:(discriminate) eq_refl eq_refl).
  vm_compute. reflexivity.
Defined.

(** A handler that fails is called again for every further provider that accepts. *)
Lemma failing_handler_runs_twice :
  let t := NewTokenAuth "" (accept_only "secret") in
  (ComposeAuthServer [token_provider t; token_provider t] (counting true) 0 None ex_request).1 = 2.
Proof. by vm_compute. Qed.

(** The mTLS interceptor authenticates a request that carries nothing. *)
Lemma mtls_accepts_anyone (m : @MTLSAuth unit unit) :
  ComposeAuthServer [mtls_provider m] (counting false) 0 None (mkRequest ∅ tt) = (1, Ok "mtls-client").
Proof. done. Qed.

(** The default identity extraction panics on a certificate without organization. *)
Lemma extract_without_organization (cn : string) : default_extract (mkSubject cn []) = None.
Proof. done. Qed.

End auth.
