(* ===== verification/Streaming.v ===== *)
(** * Channel-to-stream adapter (streaming.go)

    [PumpToStream] and the goroutine that feeds it, interleaved.  A state holds the
    two channels, the context, and the messages handed to the stream; the select
    statement takes any of its ready cases, so a turn names the case it takes. *)

From stdpp Require Import prelude list.
From Stdlib Require Import ZArith.
From S2P Require Import Prelude GoRuntime.

Module streaming.

Section pump.
Context {T : Type}.

(** [cap]: the capacity of the message channel; [send]: what the stream answers to
    the [n]-th message. *)
Context (cap : nat) (send : nat → T → option error).

(** [produced] and [raised] record what the implementation has put into the two
    channels so far. *)
Record pump := mkPump {
  ch : list T;
  ch_closed : bool;
  errs : list (option error);
  ctx_err : option error;
  sent : list T;
  produced : list T;
  raised : list error;
  result : option (option error);
}.

Definition start : pump := mkPump [] false [] None [] [] [] None.

(** What the implementation and the client do meanwhile.  [errs] has capacity one
    and is not closed; sending on a closed channel panics, so it is no event. *)
Inductive outside := Put (msg : T) | CloseCh | PutErr (err : option error) | Cancel (err : error).

Definition outside_step (s : pump) (o : outside) : option pump :=
  match o with
  | Put msg =>
      if negb s.(ch_closed) && bool_decide (length s.(ch) < cap)
      then Some (mkPump (s.(ch) ++ [msg]) s.(ch_closed) s.(errs) s.(ctx_err) s.(sent) (s.(produced) ++ [msg]) s.(raised) s.(result))
      else None
  | CloseCh =>
      if s.(ch_closed) then None
      else Some (mkPump s.(ch) true s.(errs) s.(ctx_err) s.(sent) s.(produced) s.(raised) s.(result))
  | PutErr err =>
      if bool_decide (length s.(errs) < 1)
      then Some (mkPump s.(ch) s.(ch_closed) (s.(errs) ++ [err]) s.(ctx_err) s.(sent) s.(produced)
              (match err with Some e => s.(raised) ++ [e] | None => s.(raised) end) s.(result))
      else None
  | Cancel err =>
      match s.(ctx_err) with
      | Some _ => Some s
      | None => Some (mkPump s.(ch) s.(ch_closed) s.(errs) (Some err) s.(sent) s.(produced) s.(raised) s.(result))
      end
  end.

(** The cases of the select statement. *)
Inductive select_case := CaseDone | CaseErr | CaseMsg.

Definition return_ (s : pump) (r : option error) : pump :=
  mkPump s.(ch) s.(ch_closed) s.(errs) s.(ctx_err) s.(sent) s.(produced) s.(raised) (Some r).

(** One turn of the loop through a given case; [None] when that case is not ready
    or the function has returned. *)
Definition turn (s : pump) (c : select_case) : option pump :=
  match s.(result) with
  | Some _ => None
  | None =>
      match c with
      | CaseDone => match s.(ctx_err) with None => None | Some err => Some (return_ s (Some err)) end
      | CaseErr =>
          match s.(errs) with
          | [] => None
          | err :: errs' =>
              let s' := mkPump s.(ch) s.(ch_closed) errs' s.(ctx_err) s.(sent) s.(produced) s.(raised) None in
              Some match err with Some e => return_ s' (Some e) | None => s' end
          end
      | CaseMsg =>
          match s.(ch) with
          | [] => if s.(ch_closed) then Some (return_ s None) else None
          | msg :: ch' =>
              match send (length s.(sent)) msg with
              | Some err => Some (mkPump ch' s.(ch_closed) s.(errs) s.(ctx_err) s.(sent) s.(produced) s.(raised) (Some (Some err)))
              | None => Some (mkPump ch' s.(ch_closed) s.(errs) s.(ctx_err) (s.(sent) ++ [msg]) s.(produced) s.(raised) None)
              end
          end
      end
  end.

Inductive action := Out (o : outside) | Turn (c : select_case).

Definition step (s : pump) (a : action) : option pump :=
  match a with Out o => outside_step s o | Turn c => turn s c end.

Inductive reachable : pump → Prop :=
| reach_start : reachable start
| reach_step s a s' : reachable s → step s a = Some s' → reachable s'.

(** The turns of a loop that follows [cs]; it stops where it cannot go on. *)
Fixpoint turns (s : pump) (cs : list select_case) : option pump :=
  match cs with
  | [] => Some s
  | c :: cs' => match turn s c with None => None | Some s' => turns s' cs' end
  end.

(** ** Correctness *)

(** What has been sent, and why the function has returned what it has. *)
Definition explained (s : pump) : Prop :=
  match s.(result) with
  | None => s.(produced) = s.(sent) ++ s.(ch)
  | Some None => s.(ch) = [] ∧ s.(ch_closed) = true ∧ s.(produced) = s.(sent)
  | Some (Some e) =>
      s.(sent) `prefix_of` s.(produced) ∧
      (s.(ctx_err) = Some e ∨ e ∈ s.(raised) ∨
       ∃ m, send (length s.(sent)) m = Some e ∧ s.(sent) ++ [m] `prefix_of` s.(produced))
  end.

Definition errs_raised (s : pump) : Prop := ∀ e, Some e ∈ s.(errs) → e ∈ s.(raised).

Lemma outside_keeps s o s' : outside_step s o = Some s' → explained s → errs_raised s → explained s' ∧ errs_raised s'.
Proof.
  unfold explained, errs_raised. destruct o as [msg| |err|err]; simpl; intros Hs He Hr.
  - destruct (ch_closed s) eqn:Ec; [done|]. simpl in Hs. case_bool_decide; [|done]. injection Hs as <-. simpl.
    split; [|done]. destruct (result s) as [[e|]|].
    + destruct He as [Hp Hw]. split; [by apply prefix_app_r|].
      destruct Hw as [?|[?|(m & Hm & Hp')]]; [by left|by right; left|]. right; right. exists m. split; [done|]. by apply prefix_app_r.
    + by destruct He as (_ & ? & _).
    + by rewrite He, <- app_assoc.
  - destruct (ch_closed s); [done|]. injection Hs as <-. simpl. split; [|done].
    destruct (result s) as [[e|]|]; [done| |done]. by destruct He as (? & _ & ?).
  - case_bool_decide; [|done]. injection Hs as <-. simpl. split.
    + destruct (result s) as [[e|]|]; [|done|done]. destruct He as [Hp Hw]. split; [done|].
      destruct Hw as [?|[?|?]]; [by left| |by right; right]. right; left. destruct err; [set_solver|done].
    + intros e [He1|He1]%elem_of_app.
      * apply Hr in He1. destruct err; [set_solver|done].
      * apply list_elem_of_singleton in He1 as <-. set_solver.
  - destruct (ctx_err s) as [e0|] eqn:Ec; injection Hs as <-; [by rewrite Ec|]. simpl. split; [|done].
    destruct (result s) as [[e|]|]; [|done|done]. destruct He as [Hp [?|?]]; [done|]. split; [done|]. by right.
Qed.

Lemma turn_keeps s c s' : turn s c = Some s' → explained s → errs_raised s → explained s' ∧ errs_raised s'.
Proof.
  unfold turn. destruct (result s) eqn:Er; [done|]. unfold explained, errs_raised. rewrite Er.
  destruct c; intros Hs He Hr.
  - destruct (ctx_err s) as [e|] eqn:Ec; [|done]. injection Hs as <-. simpl. split; [|done].
    split; [rewrite He; by apply prefix_app_r|by left].
  - destruct (errs s) as [|[e|] errs'] eqn:Ee; [done|..]; injection Hs as <-; simpl.
    + split; [|intros e' ?; apply Hr; by right]. split; [rewrite He; by apply prefix_app_r|]. right; left. apply Hr. by left.
    + split; [done|]. intros e' ?. apply Hr. by right.
  - destruct (ch s) as [|msg ch'] eqn:Ech.
    + destruct (ch_closed s) eqn:Ecl; [|done]. injection Hs as <-. simpl. rewrite Ech.
      split; [|done]. rewrite He, app_nil_r. done.
    + destruct (send (length (sent s)) msg) as [e|] eqn:Es; injection Hs as <-; simpl; (split; [|done]).
      * rewrite He. split; [by apply prefix_app_r|]. right; right. exists msg. split; [done|].
        rewrite (cons_middle msg (sent s) ch'), app_assoc. by apply prefix_app_r.
      * by rewrite He, <- app_assoc.
Qed.

Lemma reachable_explained s : reachable s → explained s ∧ errs_raised s.
Proof.
  induction 1 as [|s [o|c] s' _ [IH1 IH2] Hs].
  - split; [done|]. intros e He. by apply elem_of_nil in He.
  - by eapply outside_keeps.
  - by eapply turn_keeps.
Qed.

(** The messages and errors still to be received. *)
Definition pending (s : pump) : nat := length s.(ch) + length s.(errs).

Lemma turn_pending s c s' : turn s c = Some s' →
  s'.(ch_closed) = s.(ch_closed) ∧ (is_Some s'.(result) ∨ (s'.(result) = None ∧ pending s = S (pending s'))).
Proof.
  unfold turn, pending. destruct (result s); [done|]. destruct c.
  - destruct (ctx_err s); [|done]. intros [= <-]. simpl. eauto.
  - destruct (errs s) as [|[e|] es]; [done|..]; intros [= <-]; simpl; eauto.
  - destruct (ch s) as [|m l]; [destruct (ch_closed s) eqn:E; [|done]; intros [= <-]; simpl; eauto|].
    destruct (send _ m); intros [= <-]; simpl; eauto.
Qed.

Lemma turns_bound s cs s' : turns s cs = Some s' → length cs ≤ pending s + 1.
Proof.
  revert s. induction cs as [|c cs IH]; intros s; simpl; [lia|].
  destruct (turn s c) as [s1|] eqn:E; [|done]. intros Ht.
  destruct (turn_pending s c s1 E) as [_ [[r Hr]|[_ Hp]]].
  - destruct cs as [|c' cs]; [simpl; lia|]. simpl in Ht. unfold turn in Ht. by rewrite Hr in Ht.
  - apply IH in Ht. lia.
Qed.

Lemma turns_closed s cs s' : turns s cs = Some s' → s'.(ch_closed) = s.(ch_closed).
Proof.
  revert s. induction cs as [|c cs IH]; intros s; simpl; [by intros [= ->]|].
  destruct (turn s c) as [s1|] eqn:E; [|done]. intros ->%IH. by apply (turn_pending s c).
Qed.

(** C30: whatever the interleaving and whichever ready case each select takes, the
    stream receives the produced values in order, none twice and none left out in
    between; nil is returned only after the channel was closed and every value
    was sent; an error returned is that of the context, one the implementation
    raised, or the stream's answer to the next value; in particular a run without
    any of these returns nothing but nil. *)
Theorem PumpToStream_sound s (Hs : reachable s) :
  s.(sent) `prefix_of` s.(produced) ∧
  (s.(result) = Some None → s.(ch_closed) = true ∧ s.(sent) = s.(produced)) ∧
  (∀ e, s.(result) = Some (Some e) →
     s.(ctx_err) = Some e ∨ e ∈ s.(raised) ∨
     ∃ m, send (length s.(sent)) m = Some e ∧ s.(sent) ++ [m] `prefix_of` s.(produced)) ∧
  (s.(ctx_err) = None → s.(raised) = [] → (∀ n m, send n m = None) → s.(result) = None ∨ s.(result) = Some None).
Proof.
  destruct (reachable_explained s Hs) as [He _]. unfold explained in He.
  destruct (result s) as [[e|]|].
  - destruct He as [Hp Hw]. split_and!; [done|done|by intros e' [= <-]|].
    intros Hc Hr Hn. exfalso. destruct Hw as [E|[E|(m & E & _)]]; [congruence|rewrite Hr in E; by apply elem_of_nil in E|].
    rewrite Hn in E. done.
  - destruct He as (? & ? & ->). split_and!; [done|done|done|by right].
  - rewrite He. split_and!; [by apply prefix_app_r|done|done|by left].
Qed.

(** C31: once the implementation has closed its channel the loop ends: it never blocks
    before it returns, and takes at most one turn per buffered message and error,
    and one more. *)
Theorem PumpToStream_terminates s (Hclosed : s.(ch_closed) = true) :
  ∀ cs s', turns s cs = Some s' →
    length cs ≤ length s.(ch) + length s.(errs) + 1 ∧
    (s'.(result) = None → ∃ c s'', turn s' c = Some s'').
Proof.
  intros cs s' Ht. split; [by apply (turns_bound s cs s')|]. intros Hr. exists CaseMsg.
  apply turns_closed in Ht. unfold turn. rewrite Hr.
  destruct (ch s') as [|m l]; [rewrite Ht, Hclosed; eauto|]. destruct (send _ m); eauto.
Qed.
End pump.

Arguments pump : clear implicits.
Arguments outside : clear implicits.
Arguments action : clear implicits.

(** ** Witnesses and consequences *)

Definition sends_all : nat → nat → option error := λ _ _, None.

(** A run: two values, one of them sent before the channel is closed. *)
Definition ex_run : list (action nat) :=
  [Out (Put 5); Out (Put 6); Turn CaseMsg; Out CloseCh; Turn CaseMsg; Turn CaseMsg].

Definition run (acts : list (action nat)) : option (pump nat) := foldM (step 32 sends_all) acts start.

Lemma pump_reachable_run acts s s' : reachable 32 sends_all s → foldM (step 32 sends_all) acts s = Some s' → reachable 32 sends_all s'.
Proof.
  revert s. induction acts as [|a acts IH]; intros s Hs; simpl; [by intros [= <-]|].
  destruct (step 32 sends_all s a) as [s1|] eqn:E; [|done]. apply IH. by eapply reach_step.
Qed.

Lemma PumpToStream_sound_witness :
  ∃ s, run ex_run = Some s ∧ reachable 32 sends_all s ∧ s.(sent) = s.(produced) ∧ s.(produced) = [5; 6].
Proof.
  eexists. split; [vm_compute; reflexivity|].
  assert (Hr : reachable 32 sends_all (mkPump [] true [] None [5; 6] [5; 6] [] (Some None))).
  { apply (pump_reachable_run ex_run start); [apply reach_start|vm_compute; reflexivity]. }
  split; [exact Hr|]. destruct (PumpToStream_sound 32 sends_all _ Hr) as (_ & H & _).
  split; [exact (proj2 (H eq_refl))|reflexivity].
Defined.

Lemma PumpToStream_terminates_witness :
  let s := mkPump [5; 6] true [None] None [] [5; 6] [] None in
  ∃ s', turns sends_all s [CaseErr; CaseMsg; CaseMsg; CaseMsg] = Some s' ∧ 4 ≤ length s.(ch) + length s.(errs) + 1.
Proof.
  intros s. eexists. split; [vm_compute; reflexivity|].
  exact (proj1 (PumpToStream_terminates sends_all s eq_refl [CaseErr; CaseMsg; CaseMsg; CaseMsg] _ eq_refl)).
Defined.

(** An implementation that keeps to the contract (raises its error, then closes) can
    have the error lost: both cases are ready, and the select may take the other. *)
Lemma error_may_be_lost e :
  run [Out (PutErr (Some e)); Out CloseCh; Turn CaseMsg] =
  Some (mkPump [] true [Some e] None [] [] [e] (Some None)).
Proof. done. Qed.

End streaming.
