(* ===== verification/KVStore.v ===== *)
(** * Key-value plugin (examples/kv/impl/store.go)

    The reference plugin: a map with watchers by key prefix.  A watcher is named by
    its address and is its channel of capacity thirty-two, which [PumpToStream]
    empties; [Watch] registers it and sends its first event in two steps, because
    the lock is released in between. *)

From stdpp Require Import prelude gmap strings list fin_maps.
From Stdlib Require Import ZArith.
From S2P Require Import Prelude GoRuntime.

Module kv.

Definition EVENT_TYPE_UNSPECIFIED : Z := 0.
Definition EVENT_TYPE_PUT : Z := 1.
Definition EVENT_TYPE_DELETE : Z := 2.

Record WatchEvent := mkWatchEvent { we_Type : Z; we_Key : string; we_Value : string }.

(** [w_done]: the watcher's context is cancelled. *)
Record watcher := mkWatcher { w_addr : nat; w_prefix : string; w_ch : list WatchEvent; w_done : bool }.

Record Store := mkStore { data : gmap string string; watchers : list watcher }.

Definition NewStore : Store := mkStore ∅ [].

Definition watch_cap : nat := 32.

(** ** Notification *)

Definition matches (w : watcher) (key : string) : bool :=
  bool_decide (w.(w_prefix) = "") || HasPrefix key w.(w_prefix).

Definition push (e : WatchEvent) (w : watcher) : watcher :=
  mkWatcher w.(w_addr) w.(w_prefix) (w.(w_ch) ++ [e]) w.(w_done).

(** The select: [pick] says whether the cancelled context is taken when the channel
    has room too. *)
Definition try_send (pick : nat → bool) (e : WatchEvent) (w : watcher) : watcher :=
  if bool_decide (length w.(w_ch) < watch_cap) then
    if w.(w_done) && pick w.(w_addr) then w else push e w
  else w.

Definition notifyWatchers (pick : nat → bool) (ws : list watcher) (event : WatchEvent) : list watcher :=
  (λ w, if matches w event.(we_Key) then try_send pick event w else w) <$> ws.

(** ** Operations *)

Definition Get (s : Store) (key : string) : string * bool :=
  (get_or "" s.(data) key, bool_decide (is_Some (s.(data) !! key))).

Definition Put (pick : nat → bool) (s : Store) (key value : string) : Store * option error :=
  if bool_decide (key = "") then (s, Some (NewError CodeInvalidArgument (Errorf "key cannot be empty" [])))
  else
    (mkStore (<[key := value]> s.(data)) (notifyWatchers pick s.(watchers) (mkWatchEvent EVENT_TYPE_PUT key value)), None).

Definition Delete (pick : nat → bool) (s : Store) (key : string) : Store * bool :=
  let found := bool_decide (is_Some (s.(data) !! key)) in
  (mkStore (delete key s.(data))
     (if found then notifyWatchers pick s.(watchers) (mkWatchEvent EVENT_TYPE_DELETE key "") else s.(watchers)), found).

(** ** Watching *)

Definition at_addr (addr : nat) (w : watcher) : bool := bool_decide (w.(w_addr) = addr).

Definition Watch_register (s : Store) (addr : nat) (prefix : string) : Store :=
  mkStore s.(data) (s.(watchers) ++ [mkWatcher addr prefix [] false]).

(** The event that establishes the stream; the send blocks ([None]) while the
    channel is full. *)
Definition Watch_started (s : Store) (addr : nat) : option Store :=
  if forallb (λ w, negb (at_addr addr w) || bool_decide (length w.(w_ch) < watch_cap)) s.(watchers)
  then Some (mkStore s.(data)
         ((λ w, if at_addr addr w then push (mkWatchEvent EVENT_TYPE_UNSPECIFIED "_watch_started" "") w else w) <$> s.(watchers)))
  else None.

(** The receive of the pump. *)
Definition Watch_recv (s : Store) (addr : nat) : Store :=
  mkStore s.(data)
    ((λ w, if at_addr addr w then mkWatcher w.(w_addr) w.(w_prefix) (tail w.(w_ch)) w.(w_done) else w) <$> s.(watchers)).

Definition Watch_close (s : Store) (addr : nat) : Store :=
  mkStore s.(data) (remove_first (at_addr addr) s.(watchers)).

(** ** What a watcher receives *)

Inductive op := OpPut (key value : string) | OpDelete (key : string).

Definition apply (pick : nat → bool) (s : Store) (o : op) : Store :=
  match o with OpPut k v => (Put pick s k v).1 | OpDelete k => (Delete pick s k).1 end.

Definition run (pick : nat → bool) (s : Store) (ops : list op) : Store := fold_left (apply pick) ops s.

(** The event an operation causes. *)
Definition event_of (s : Store) (o : op) : option WatchEvent :=
  match o with
  | OpPut k v => if bool_decide (k = "") then None else Some (mkWatchEvent EVENT_TYPE_PUT k v)
  | OpDelete k => if bool_decide (is_Some (s.(data) !! k)) then Some (mkWatchEvent EVENT_TYPE_DELETE k "") else None
  end.

Definition relevant (w : watcher) (e : option WatchEvent) : list WatchEvent :=
  match e with Some e => if matches w e.(we_Key) then [e] else [] | None => [] end.

Fixpoint emitted (pick : nat → bool) (w : watcher) (s : Store) (ops : list op) : list WatchEvent :=
  match ops with [] => [] | o :: ops' => relevant w (event_of s o) ++ emitted pick w (apply pick s o) ops' end.

(** A client that replays events on a copy of the data. *)
Definition replay1 (m : gmap string string) (e : WatchEvent) : gmap string string :=
  if bool_decide (e.(we_Type) = EVENT_TYPE_PUT) then <[e.(we_Key) := e.(we_Value)]> m
  else if bool_decide (e.(we_Type) = EVENT_TYPE_DELETE) then delete e.(we_Key) m
  else m.
Definition replay (m : gmap string string) (es : list WatchEvent) : gmap string string := fold_left replay1 es m.

(** The part of the data under the watcher's prefix. *)
Definition view (w : watcher) (m : gmap string string) : gmap string string := filter (λ kv, matches w kv.1 = true) m.

(** ** Lemmas *)

Lemma view_insert w m k v : view w (<[k := v]> m) = if matches w k then <[k := v]> (view w m) else view w m.
Proof.
  apply map_eq. intros j. apply option_eq. intros x. unfold view. rewrite map_lookup_filter_Some.
  destruct (matches w k) eqn:E; simpl.
  - rewrite !lookup_insert_Some, map_lookup_filter_Some. simpl. naive_solver.
  - rewrite lookup_insert_Some, map_lookup_filter_Some. simpl. naive_solver congruence.
Qed.

Lemma view_delete w m k : view w (delete k m) = delete k (view w m).
Proof. unfold view. by rewrite map_filter_delete. Qed.

Lemma view_delete_other w m k : matches w k = false ∨ m !! k = None → view w (delete k m) = view w m.
Proof.
  intros H. rewrite view_delete. apply delete_id. unfold view. apply map_lookup_filter_None.
  destruct H as [H|H]; [right; simpl; intros; congruence|by left].
Qed.

(** One operation: the data the watcher can see changes as its event says. *)
Lemma replay_op pick w s o :
  replay (view w s.(data)) (relevant w (event_of s o)) = view w (apply pick s o).(data).
Proof.
  destruct o as [k v|k]; simpl; unfold Put.
  - case_bool_decide as Hk; [done|]. simpl. rewrite view_insert. by destruct (matches w k).
  - case_bool_decide as Hk; simpl.
    + destruct (matches w k) eqn:E; unfold replay; simpl; [by rewrite view_delete|].
      symmetry. apply view_delete_other. by left.
    + symmetry. apply view_delete_other. right. by apply eq_None_not_Some.
Qed.

Lemma replay_ops pick w s ops :
  replay (view w s.(data)) (emitted pick w s ops) = view w (run pick s ops).(data).
Proof.
  revert s. induction ops as [|o ops IH]; intros s; simpl; [done|].
  unfold replay. rewrite fold_left_app. fold (replay (view w (data s)) (relevant w (event_of s o))).
  rewrite (replay_op pick). apply IH.
Qed.

(** A watcher that receives nothing while [es] are emitted for it. *)
Definition buffered (es : list WatchEvent) (w : watcher) : watcher :=
  mkWatcher w.(w_addr) w.(w_prefix) (take watch_cap (w.(w_ch) ++ es)) w.(w_done).

Lemma kv_buffered_app es1 es2 w : buffered es2 (buffered es1 w) = buffered (es1 ++ es2) w.
Proof.
  unfold buffered. simpl. f_equal. rewrite (app_assoc (w_ch w)). generalize (w_ch w ++ es1) as l. intros l.
  destruct (decide (length l ≤ watch_cap)) as [H|H].
  - by rewrite (take_ge l).
  - rewrite (take_app_le (take _ _)) by (rewrite length_take; lia).
    rewrite take_take, Nat.min_id. by rewrite take_app_le by lia.
Qed.

Lemma try_send_live pick e w : w.(w_done) = false → length w.(w_ch) ≤ watch_cap → try_send pick e w = buffered [e] w.
Proof.
  intros Hd Hl. unfold try_send, buffered. rewrite Hd. simpl. case_bool_decide as H.
  - unfold push. rewrite Hd. f_equal. symmetry. apply take_ge. rewrite length_app. simpl. lia.
  - rewrite take_app_length' by lia. destruct w; simpl in *; by subst.
Qed.

Lemma kv_buffered_nil w : length w.(w_ch) ≤ watch_cap → buffered [] w = w.
Proof. intros. unfold buffered. rewrite app_nil_r, take_ge by done. by destruct w. Qed.

Lemma apply_watchers pick s o i w : s.(watchers) !! i = Some w → w.(w_done) = false → length w.(w_ch) ≤ watch_cap →
  (apply pick s o).(watchers) !! i = Some (buffered (relevant w (event_of s o)) w).
Proof.
  intros Hi Hd Hl.
  assert (Hn : ∀ e, notifyWatchers pick (watchers s) e !! i = Some (buffered (relevant w (Some e)) w)).
  { intros e. unfold notifyWatchers. rewrite list_lookup_fmap, Hi. simpl.
    destruct (matches w (we_Key e)); f_equal; [by apply try_send_live|by rewrite kv_buffered_nil]. }
  destruct o as [k v|k]; simpl; unfold Put; case_bool_decide; simpl; rewrite ?Hn; try done; by rewrite Hi, kv_buffered_nil.
Qed.

Lemma relevant_buffered es w e : relevant (buffered es w) e = relevant w e.
Proof. done. Qed.

Lemma emitted_buffered pick es w s ops : emitted pick (buffered es w) s ops = emitted pick w s ops.
Proof. revert s. induction ops as [|o ops IH]; intros s; simpl; [done|]. by rewrite IH. Qed.

Lemma run_watchers pick s ops i w : s.(watchers) !! i = Some w → w.(w_done) = false → length w.(w_ch) ≤ watch_cap →
  (run pick s ops).(watchers) !! i = Some (buffered (emitted pick w s ops) w).
Proof.
  revert s w. induction ops as [|o ops IH]; intros s w Hi Hd Hl; simpl; [by rewrite kv_buffered_nil|].
  rewrite (IH _ (buffered (relevant w (event_of s o)) w)).
  - by rewrite emitted_buffered, kv_buffered_app.
  - by apply apply_watchers.
  - done.
  - simpl. rewrite length_take. lia.
Qed.

(** ** Property *)

(** A watcher that is live receives, in order, the changes of the keys under its
    prefix, the newest dropped once thirty-two are waiting; as long as none was
    dropped, replaying what it receives on the part of the data it could see gives
    the part of the data it can see now. *)
Theorem watch_replicates pick s ops i w (Hi : s.(watchers) !! i = Some w) (Hlive : w.(w_done) = false)
    (Hcap : length w.(w_ch) ≤ watch_cap) :
  ∃ w', (run pick s ops).(watchers) !! i = Some w' ∧
    w'.(w_ch) = take watch_cap (w.(w_ch) ++ emitted pick w s ops) ∧
    (length w.(w_ch) + length (emitted pick w s ops) ≤ watch_cap →
     replay (view w s.(data)) (drop (length w.(w_ch)) w'.(w_ch)) = view w (run pick s ops).(data)).
Proof.
  exists (buffered (emitted pick w s ops) w). split_and!; [by apply run_watchers|done|].
  intros Hlen. simpl. rewrite take_ge by (rewrite length_app; lia).
  rewrite drop_app_length. apply replay_ops.
Qed.

Definition ex_store : Store := mkStore {["user/1" := "ann"; "cfg" := "x"]} [mkWatcher 7 "user/" [] false].
Definition ex_ops : list op := [OpPut "user/2" "bob"; OpPut "cfg" "y"; OpDelete "user/1"; OpDelete "none"].

Lemma watch_replicates_witness :
  ∃ w', (run (λ _, true) ex_store ex_ops).(watchers) !! 0 = Some w' ∧
    w'.(w_ch) = [mkWatchEvent EVENT_TYPE_PUT "user/2" "bob"; mkWatchEvent EVENT_TYPE_DELETE "user/1" ""] ∧
    replay {["user/1" := "ann"]} w'.(w_ch) = {["user/2" := "bob"]}.
Proof.
  destruct (watch_replicates (λ _, true) ex_store ex_ops 0 (mkWatcher 7 "user/" [] false) eq_refl eq_refl
    ltac:(vm_compute; lia)) as (w' & H1 & H2 & H3).
  exists w'. split; [exact H1|]. rewrite H2. split; [vm_compute; reflexivity|].
  specialize (H3 ltac:(vm_compute; lia)). rewrite H2 in H3. vm_compute in H3 |- *. exact H3.
Defined.

(** Reads see the last write. *)
Lemma Get_Put pick s k v k' : k ≠ "" → Get (Put pick s k v).1 k' = if decide (k = k') then (v, true) else Get s k'.
Proof.
  intros Hk. unfold Put, Get. rewrite bool_decide_eq_false_2 by done. simpl. rewrite get_or_insert, lookup_insert.
  by case_decide.
Qed.

Lemma Get_Delete pick s k k' : Get (Delete pick s k).1 k' = if decide (k = k') then ("", false) else Get s k'.
Proof. unfold Get. simpl. rewrite get_or_delete, lookup_delete. by case_decide. Qed.

(** A client can be sent an event before the one that announces its stream. *)
Lemma first_event_not_started :
  let s := (Put (λ _, false) (Watch_register NewStore 1 "") "a" "1").1 in
  (λ s, (λ w, w.(w_ch)) <$> s.(watchers)) <$> Watch_started s 1 =
  Some [[mkWatchEvent EVENT_TYPE_PUT "a" "1"; mkWatchEvent EVENT_TYPE_UNSPECIFIED "_watch_started" ""]].
Proof. done. Qed.

End kv.
