(* ===== verification/Launcher.v ===== *)
(** * Plugin launcher (launcher.go, launch_strategy.go)

    Launching plugins on demand through pluggable strategies.  Strategies change
    shared objects (the registry, their own tables, processes), so the launcher runs
    in a world [W] of which it knows one part, the registry, through a lens; a
    strategy is a record of operations on the world, as the Go interface is. *)

From stdpp Require Import prelude gmap strings list fin_maps.
From Stdlib Require Import ZArith.
From S2P Require Import Prelude GoRuntime Identity Lifecycle Registry Plugin.

Module launcher.
Import plugin.

(** ** Parts of the world *)

(** A part of type [A] that can be read and replaced. *)
Class Lens (W A : Type) := {
  view : W → A;
  set : A → W → W;
  view_set : ∀ a w, view (set a w) = a;
}.

(** ** Data *)

Section launcher.
Context {W Impl Handler Client HTTPClient : Type} `{Lens W registry.ServiceRegistry} `{GoRange}.

Record PluginSpec := mkPluginSpec {
  sp_Name : string;
  sp_Provides : list string;
  sp_Strategy : string;
  sp_Port : Z;
  sp_BinaryPath : string;
  sp_HostURL : string;
  sp_Plugin : option (Plugin Impl Handler Client);
  sp_ImplFactory : option (W → W * Impl);
  sp_Metadata : gmap string string;
}.

Record LaunchResult := mkLaunchResult {
  lr_Endpoint : string;
  lr_HTTPClient : option HTTPClient;
  lr_Cleanup : option (W → W);
}.

Record LaunchStrategy := mkLaunchStrategy {
  ls_Name : string;
  Launch : PluginSpec → W → W * res LaunchResult;
}.

Record pluginInstance := mkPluginInstance {
  pluginName : string;
  endpoint : string;
  httpClient : option HTTPClient;
  cleanup : option (W → W);
  provides : list string;
}.

Record PluginLauncher := mkPluginLauncher {
  strategies : gmap string LaunchStrategy;
  specs : gmap string PluginSpec;
  instances : gmap string pluginInstance;
}.

Definition NewPluginLauncher : PluginLauncher := mkPluginLauncher ∅ ∅ ∅.

Definition with_instances (l : PluginLauncher) m := mkPluginLauncher l.(strategies) l.(specs) m.

(** ** Configuration *)

Definition RegisterStrategy (l : PluginLauncher) (strategy : LaunchStrategy) : PluginLauncher :=
  mkPluginLauncher (<[strategy.(ls_Name) := strategy]> l.(strategies)) l.(specs) l.(instances).

Definition Configure (l : PluginLauncher) (new : gmap string PluginSpec) : PluginLauncher :=
  mkPluginLauncher l.(strategies) (fold_left (λ m kv, <[kv.1 := kv.2]> m) (go_range 0 new) l.(specs)) l.(instances).

Definition availableStrategies (l : PluginLauncher) : list string := (go_range 0 l.(strategies)).*1.

Definition contains (slice : list string) (item : string) : bool := existsb (λ s, bool_decide (s = item)) slice.

(** ** Launching *)

(** [settle]: what happens in the world during the half second given to the plugin
    to register itself. *)
Definition launchPluginLocked (settle : W → W) (l : PluginLauncher) (w : W) (name : string) (spec : PluginSpec) :
    PluginLauncher * W * option error :=
  match l.(strategies) !! spec.(sp_Strategy) with
  | None =>
      (l, w, Some (Errorf "strategy %q not registered (available: %v)" [AStr spec.(sp_Strategy); AList (availableStrategies l)]))
  | Some strategy =>
      match strategy.(Launch) spec w with
      | (w', Err err) => (l, w', Some err)
      | (w', Ok result) =>
          (with_instances l
             (<[name := mkPluginInstance name result.(lr_Endpoint) result.(lr_HTTPClient) result.(lr_Cleanup)
                          spec.(sp_Provides)]> l.(instances)),
           settle w', None)
      end
  end.

(** The part that [GetService] and [GetServiceClient] share: the running instance of
    a plugin that declares the service, launched if need be.  A successful launch
    stores the instance, so the last branch (a nil instance in the code) is not
    reached. *)
Definition obtain (settle : W → W) (l : PluginLauncher) (w : W) (name serviceType : string) :
    PluginLauncher * W * res pluginInstance :=
  match l.(specs) !! name with
  | None => (l, w, Err (Errorf "plugin %q not configured in launcher" [AStr name]))
  | Some spec =>
      if negb (contains spec.(sp_Provides) serviceType) then
        (l, w, Err (Errorf "plugin %q doesn't provide service %q (provides: %v)"
                      [AStr name; AStr serviceType; AList spec.(sp_Provides)]))
      else
        match l.(instances) !! name with
        | Some instance => (l, w, Ok instance)
        | None =>
            let '(l', w', err) := launchPluginLocked settle l w name spec in
            match err with
            | Some e => (l', w', Err (Errorf "failed to launch plugin %q: %w" [AStr name; AErr e]))
            | None =>
                match l'.(instances) !! name with
                | Some instance => (l', w', Ok instance)
                | None => (l', w', Err (Errorf "nil instance" []))
                end
            end
        end
  end.

(** [rnd], [lc]: the registry's source of random numbers and its lifecycle server.
    The result is [None] when the discovery panics. *)
Definition GetService (rnd : Z → Z) (lc : option lifecycle.LifecycleServer) (settle : W → W)
    (l : PluginLauncher) (w : W) (name serviceType : string) : PluginLauncher * W * option (res string) :=
  let '(l', w', r) := obtain settle l w name serviceType in
  match r with
  | Err e => (l', w', Some (Err e))
  | Ok instance =>
      let '(reg, out) := registry.DiscoverService rnd lc (view w') (λ r, r) serviceType "" in
      let w'' := set reg w' in
      (l', w'',
       match out with
       | None => None
       | Some (Err err) => Some (Err (Errorf "service %q not found in registry: %w" [AStr serviceType; AErr err]))
       | Some (Ok _) => Some (Ok instance.(endpoint))
       end)
  end.

Definition GetServiceClient (settle : W → W) (l : PluginLauncher) (w : W) (name serviceType : string) :
    PluginLauncher * W * res (string * option HTTPClient) :=
  let '(l', w', r) := obtain settle l w name serviceType in
  (l', w', match r with Err e => Err e | Ok instance => Ok (instance.(endpoint), instance.(httpClient)) end).

Definition GetDefaultService (rnd : Z → Z) (lc : option lifecycle.LifecycleServer) (settle : W → W)
    (l : PluginLauncher) (w : W) (name : string) : PluginLauncher * W * option (res string) :=
  match l.(specs) !! name with
  | None => (l, w, Some (Err (Errorf "plugin %q not configured" [AStr name])))
  | Some spec =>
      match spec.(sp_Provides) with
      | [service] => GetService rnd lc settle l w name service
      | ps =>
          (l, w, Some (Err (Errorf "plugin %q provides %d services (%v), specify which service type"
                              [AStr name; AInt (Z.of_nat (length ps)); AList ps])))
      end
  end.

(** ** Shutdown *)

Definition run_cleanup (w : W) (i : pluginInstance) : W := match i.(cleanup) with Some f => f w | None => w end.

Definition Shutdown (l : PluginLauncher) (w : W) : PluginLauncher * W :=
  fold_left (λ lw kv, (with_instances lw.1 (delete kv.1 lw.1.(instances)), run_cleanup lw.2 kv.2))
    (go_range 0 l.(instances)) (l, w).

(** ** Lemmas *)

Lemma contains_true slice item : contains slice item = true ↔ item ∈ slice.
Proof.
  unfold contains. rewrite existsb_exists. split.
  - intros (x & Hx & ->%bool_decide_eq_true). by apply list_elem_of_In.
  - intros Hin. exists item. split; [by apply list_elem_of_In|by apply bool_decide_eq_true].
Qed.

Lemma Configure_specs l new name :
  (Configure l new).(specs) !! name = match new !! name with Some s => Some s | None => l.(specs) !! name end.
Proof.
  unfold Configure. simpl.
  assert (Hf : ∀ (kvs : list (string * PluginSpec)) (m : gmap string PluginSpec), NoDup kvs.*1 →
    fold_left (λ m kv, <[kv.1 := kv.2]> m) kvs m !! name =
    match (list_to_map kvs : gmap string PluginSpec) !! name with Some s => Some s | None => m !! name end).
  { induction kvs as [|[k s] kvs IH]; intros m Hnd; simpl; [by rewrite lookup_empty|].
    apply NoDup_cons in Hnd as [Hk Hnd]. rewrite IH by done. destruct (decide (k = name)) as [->|Hne].
    - rewrite !lookup_insert_eq. by rewrite (not_elem_of_list_to_map_1 kvs name Hk).
    - by rewrite !lookup_insert_ne. }
  rewrite Hf by apply NoDup_fst_go_range.
  destruct (new !! name) as [s|] eqn:E.
  - rewrite (elem_of_list_to_map_1 _ name s); [done|apply NoDup_fst_go_range|by apply elem_of_go_range].
  - rewrite not_elem_of_list_to_map_1; [done|]. rewrite elem_of_fst_go_range, E. by intros [? ?].
Qed.

(** A plugin is stored under its name with the services of its specification. *)
Definition instances_ok (l : PluginLauncher) : Prop :=
  ∀ name i, l.(instances) !! name = Some i → i.(pluginName) = name.

Lemma launch_cases settle l w name spec :
  let '(l', w', err) := launchPluginLocked settle l w name spec in
  match err with
  | Some _ => l' = l
  | None => ∃ i, l' = with_instances l (<[name := i]> l.(instances)) ∧ i.(pluginName) = name
  end.
Proof.
  unfold launchPluginLocked. destruct (strategies l !! _) as [st|]; [|done].
  destruct (Launch st spec w) as [w1 [r|e]]; [|done]. eexists. split; [done|done].
Qed.

(** What [obtain] does to the launcher and the world. *)
Lemma obtain_spec settle l w name t : instances_ok l →
  let '(l', w', r) := obtain settle l w name t in
  l'.(specs) = l.(specs) ∧ l'.(strategies) = l.(strategies) ∧ instances_ok l' ∧
  (∀ i, l.(instances) !! name = Some i → l' = l ∧ w' = w) ∧
  (∀ k, k ≠ name → l'.(instances) !! k = l.(instances) !! k) ∧
  match r with
  | Ok i => l'.(instances) !! name = Some i ∧ ∃ spec, l.(specs) !! name = Some spec ∧ t ∈ spec.(sp_Provides)
  | Err _ => l' = l ∧ (l.(specs) !! name = None ∨ (∃ spec, l.(specs) !! name = Some spec ∧ t ∉ spec.(sp_Provides)) ∨
                       l.(instances) !! name = None)
  end.
Proof.
  intros Hok. unfold obtain. destruct (specs l !! name) as [spec|] eqn:Es; [|split_and!; try done; by left].
  destruct (contains (sp_Provides spec) t) eqn:Ec; simpl.
  2:{ split_and!; try done. right; left. exists spec. split; [done|]. rewrite <- contains_true. congruence. }
  apply contains_true in Ec. destruct (instances l !! name) as [i|] eqn:Ei; [split_and!; eauto|].
  pose proof (launch_cases settle l w name spec) as Hl.
  destruct (launchPluginLocked settle l w name spec) as [[l' w'] [e|]]; [rewrite Hl; split_and!; by eauto|].
  destruct Hl as (i & -> & Hi). simpl. rewrite lookup_insert_eq. simpl. split_and!; try done.
  - intros k j. simpl. rewrite lookup_insert_Some. intros [[<- <-]|[_ Hj]]; [done|by apply Hok].
  - intros k Hk. by rewrite lookup_insert_ne.
  - by rewrite lookup_insert_eq.
  - eauto.
Qed.

(** C38: a plugin is launched once. Asking for a service of a running plugin gives the
    endpoint of the running instance and changes neither launcher nor world;
    asking for one of a plugin that is not running either launches it, leaving every
    other instance alone, so that the next request finds it running, or fails and
    leaves the launcher as it was; services the specification does not declare are
    refused without launching anything. *)
Theorem launched_once settle l w name t (Hok : instances_ok l) :
  let '(l', w', r) := GetServiceClient settle l w name t in
  instances_ok l' ∧
  (∀ k, k ≠ name → l'.(instances) !! k = l.(instances) !! k) ∧
  (∀ i spec, l.(instances) !! name = Some i → l.(specs) !! name = Some spec → t ∈ spec.(sp_Provides) →
     l' = l ∧ w' = w ∧ r = Ok (i.(endpoint), i.(httpClient))) ∧
  match r with
  | Ok (ep, hc) => ∀ settle', GetServiceClient settle' l' w' name t = (l', w', Ok (ep, hc))
  | Err _ => l' = l
  end ∧
  (∀ spec, l.(specs) !! name = Some spec → t ∉ spec.(sp_Provides) → l' = l ∧ w' = w ∧ is_ok r = false).
Proof.
  unfold GetServiceClient. pose proof (obtain_spec settle l w name t Hok) as Ho.
  destruct (obtain settle l w name t) as [[l' w'] r] eqn:E.
  destruct Ho as (E1 & E2 & Hok' & Hrun & Hothers & Hr). split_and!; [done|done| | |].
  - intros i spec Hi Hs Ht. destruct (Hrun i Hi) as [-> ->]. split_and!; [done|done|].
    destruct r as [j|e]; [by destruct Hr as [Hj _]; simplify_eq|].
    exfalso. destruct Hr as [_ [Hn|[(s & Hs' & Hn)|Hn]]]; congruence.
  - destruct r as [i|e]; [|by destruct Hr]. intros settle'. destruct Hr as [Hi (spec & Hs & Ht)].
    unfold obtain. rewrite E1, Hs, (proj2 (contains_true _ _) Ht). simpl. by rewrite Hi.
  - intros spec Hs Ht. unfold obtain in E. rewrite Hs in E.
    destruct (contains (sp_Provides spec) t) eqn:Ec; [by apply contains_true in Ec|]. simpl in E. injection E as <- <- <-. done.
Qed.

(** Shutting down forgets every instance, after running each cleanup once. *)
Lemma Shutdown_fold kvs l w :
  (fold_left (λ lw kv, (with_instances lw.1 (delete kv.1 lw.1.(instances)), run_cleanup lw.2 kv.2)) kvs (l, w)) =
  (with_instances l (fold_left (λ m k, delete k m) kvs.*1 l.(instances)), fold_left run_cleanup kvs.*2 w).
Proof.
  revert l w. induction kvs as [|[k i] kvs IH]; intros l w; simpl; [by destruct l|]. by rewrite IH.
Qed.

Lemma delete_all {A} (ks : list string) (m : gmap string A) k :
  fold_left (λ m k, delete k m) ks m !! k = if decide (k ∈ ks) then None else m !! k.
Proof.
  revert m. induction ks as [|j ks IH]; intros m; simpl; [done|]. rewrite IH, lookup_delete.
  destruct (decide (k ∈ ks)), (decide (k ∈ j :: ks)), (decide (j = k)); set_solver.
Qed.

Lemma Shutdown_spec l w :
  ∃ order, order ≡ₚ (map_to_list l.(instances)).*2 ∧
    Shutdown l w = (with_instances l ∅, fold_left run_cleanup order w).
Proof.
  exists (go_range 0 (instances l)).*2. split; [by rewrite go_range_perm|].
  unfold Shutdown. rewrite Shutdown_fold. f_equal. f_equal. apply map_eq. intros k. rewrite delete_all, lookup_empty.
  case_decide as Hk; [done|]. rewrite elem_of_fst_go_range in Hk. by apply eq_None_not_Some.
Qed.
End launcher.

Arguments PluginSpec : clear implicits.
Arguments LaunchResult : clear implicits.
Arguments LaunchStrategy : clear implicits.
Arguments PluginLauncher : clear implicits.

(** ** Witness and consequences *)

(** A world that is the registry and a count of launches. *)
Definition ex_world : Type := registry.ServiceRegistry * nat.

#[export] Instance ex_lens : Lens ex_world registry.ServiceRegistry := {
  view w := w.1;
  set r w := (r, w.2);
  view_set a w := eq_refl;
}.

Definition ex_strategy : LaunchStrategy ex_world unit unit unit unit :=
  mkLaunchStrategy "test" (λ spec w, ((w.1, S w.2), Ok (mkLaunchResult "http://p" None None))).

Definition ex_spec : PluginSpec ex_world unit unit unit := mkPluginSpec "data" ["cache"; "storage"] "test" 0 "" "" None None ∅.

Definition ex_launcher : PluginLauncher ex_world unit unit unit unit :=
  Configure (RegisterStrategy NewPluginLauncher ex_strategy) {["data" := ex_spec]}.

Lemma launched_once_witness :
  ∃ l' w', GetServiceClient (λ w, w) ex_launcher (registry.NewServiceRegistry, 0) "data" "cache" = (l', w', Ok ("http://p", None)) ∧
    w'.2 = 1 ∧ GetServiceClient (λ w, w) l' w' "data" "cache" = (l', w', Ok ("http://p", None)).
Proof.
  assert (Hok : instances_ok ex_launcher) by (intros n i Hi; discriminate Hi).
  pose proof (launched_once (λ w, w) ex_launcher (registry.NewServiceRegistry, 0) "data" "cache" Hok) as Ht.
  assert (Er : (GetServiceClient (λ w, w) ex_launcher (registry.NewServiceRegistry, 0) "data" "cache").2 = Ok ("http://p", None))
    by (vm_compute; reflexivity).
  assert (Ew : (GetServiceClient (λ w, w) ex_launcher (registry.NewServiceRegistry, 0) "data" "cache").1.2.2 = 1)
    by (vm_compute; reflexivity).
  destruct (GetServiceClient _ _ _ _ _) as [[l' w'] r]. simpl in Er, Ew. subst r.
  exists l', w'. split; [reflexivity|]. split; [exact Ew|]. destruct Ht as (_ & _ & _ & Ht & _). exact (Ht (λ w, w)).
Defined.

(** [GetService] asks the registry for any provider of the type, not for this plugin:
    a plugin that has registered nothing is handed out when another one did. *)
Lemma GetService_any_provider :
  let w : ex_world := ((registry.RegisterService (identity.rand_seq 9) 0 None registry.NewServiceRegistry
     (registry.mkRegisterServiceRequest {["X-Plugin-Runtime-Id" := ["other"]]} "cache" "1.0.0" "/c/" ∅)).1, 0) in
  (GetService (λ _, 0%Z) None (λ w, w) ex_launcher w "data" "cache").2 = Some (Ok "http://p").
Proof. by vm_compute. Qed.

(** A launched plugin that does not register stays launched behind the error. *)
Lemma failed_discovery_keeps_instance :
  let '(l', _, r) := GetService (λ _, 0%Z) None (λ w, w) ex_launcher (registry.NewServiceRegistry, 0) "data" "cache" in
  (is_ok <$> r) = Some false ∧ is_Some (l'.(instances) !! "data").
Proof. vm_compute. eauto. Qed.

End launcher.
