(* ===== verification/MemTransport.v ===== *)
(** * In-memory transport (internal/memtransport/listener.go)

    The listener behind in-process plugins: a channel of sixteen server ends of
    [net.Pipe] pairs, and a channel that is closed once.  A pair is a number.
    Dialling is two steps, the check and the select; the select statements take any
    ready case, which an event names. *)

From stdpp Require Import prelude strings list.
From Stdlib Require Import ZArith.
From S2P Require Import Prelude GoRuntime.

Module memtransport.

(** [dialled], [accepted] record the pairs handed to clients and to the server,
    [dialling] the calls of [DialContext] past their first check. *)
Record Listener := mkListener {
  conns : list nat;
  closed : bool;
  dialling : list nat;
  dialled : list nat;
  accepted : list nat;
}.

Definition New : Listener := mkListener [] false [] [] [].

Definition conns_cap : nat := 16.

Definition ErrListenerClosed : error := Errorf "memtransport: listener closed" [].

Definition Close (l : Listener) : Listener := mkListener l.(conns) true l.(dialling) l.(dialled) l.(accepted).

(** [Accept] through one case of its select: [None] when that case is not ready.  The
    channel of connections is never closed. *)
Inductive accept_case := AcceptConn | AcceptClosed.

Definition Accept (l : Listener) (c : accept_case) : option (Listener * res nat) :=
  match c with
  | AcceptConn =>
      match l.(conns) with
      | [] => None
      | conn :: rest => Some (mkListener rest l.(closed) l.(dialling) l.(dialled) (l.(accepted) ++ [conn]), Ok conn)
      end
  | AcceptClosed => if l.(closed) then Some (l, Err ErrListenerClosed) else None
  end.

(** The first select of [DialContext], for the pair [conn] made afterwards. *)
Definition Dial_check (l : Listener) (conn : nat) : Listener * option error :=
  if l.(closed) then (l, Some ErrListenerClosed)
  else (mkListener l.(conns) l.(closed) (conn :: l.(dialling)) l.(dialled) l.(accepted), None).

(** The second select; [DialDone err] is the case of the cancelled context.  On an
    error both ends are closed. *)
Inductive dial_case := DialSend | DialClosed | DialDone (err : error).

Definition Dial_select (l : Listener) (conn : nat) (c : dial_case) : option (Listener * res nat) :=
  let rest := remove_first (λ n, bool_decide (n = conn)) l.(dialling) in
  match c with
  | DialSend =>
      if bool_decide (length l.(conns) < conns_cap)
      then Some (mkListener (l.(conns) ++ [conn]) l.(closed) rest (l.(dialled) ++ [conn]) l.(accepted), Ok conn)
      else None
  | DialClosed =>
      if l.(closed) then Some (mkListener l.(conns) l.(closed) rest l.(dialled) l.(accepted), Err ErrListenerClosed)
      else None
  | DialDone err => Some (mkListener l.(conns) l.(closed) rest l.(dialled) l.(accepted), Err err)
  end.

(** ** Histories *)

Inductive event :=
| EvClose
| EvAccept (c : accept_case)
| EvCheck (conn : nat)
| EvSelect (conn : nat) (c : dial_case).

(** A pair is made once, and selected by the call that made it. *)
Definition step (l : Listener) (ev : event) : option Listener :=
  match ev with
  | EvClose => Some (Close l)
  | EvAccept c => fst <$> Accept l c
  | EvCheck conn =>
      if bool_decide (conn ∈ l.(dialling) ++ l.(dialled)) then None else Some (Dial_check l conn).1
  | EvSelect conn c => if bool_decide (conn ∈ l.(dialling)) then fst <$> Dial_select l conn c else None
  end.

Inductive reachable : Listener → Prop :=
| reach_new : reachable New
| reach_step l ev l' : reachable l → step l ev = Some l' → reachable l'.

Record inv (l : Listener) : Prop := {
  inv_fifo : l.(dialled) = l.(accepted) ++ l.(conns);
  inv_nodup : NoDup (l.(dialling) ++ l.(dialled));
  inv_cap : length l.(conns) ≤ conns_cap;
}.

Lemma remove_first_perm conn (ds : list nat) : conn ∈ ds →
  ds ≡ₚ conn :: remove_first (λ n, bool_decide (n = conn)) ds.
Proof.
  induction ds as [|d ds IH]; intros Hin; [by apply elem_of_nil in Hin|]. simpl. case_bool_decide as E.
  - by subst.
  - apply elem_of_cons in Hin as [->|Hin]; [done|]. etransitivity; [by apply Permutation_skip, IH|]. apply Permutation_swap.
Qed.

Lemma listener_inv_step l ev l' : inv l → step l ev = Some l' → inv l'.
Proof.
  intros [H1 H2 H3]. destruct ev as [|c|conn|conn c]; simpl.
  - by intros [= <-].
  - destruct c; simpl.
    + destruct (conns l) as [|conn rest] eqn:E; [done|]. intros [= <-]. split; simpl; [|done|simpl in H3; lia].
      by rewrite H1, <- app_assoc.
    + destruct (closed l); [|done]. by intros [= <-].
  - case_bool_decide as Hn; [done|]. unfold Dial_check. destruct (closed l); intros [= <-]; [done|].
    split; simpl; [done| |done]. constructor; done.
  - case_bool_decide as Hin; [|done].
    pose proof (remove_first_perm conn (dialling l) Hin) as Hp.
    assert (H2' : NoDup (conn :: remove_first (λ n, bool_decide (n = conn)) (dialling l) ++ dialled l)).
    { by rewrite app_comm_cons, <- Hp. }
    destruct c; simpl.
    + case_bool_decide; [|done]. intros [= <-]. split; simpl.
      * by rewrite H1, app_assoc.
      * rewrite app_assoc. by rewrite <- Permutation_cons_append.
      * rewrite length_app. simpl. lia.
    + destruct (closed l); [|done]. intros [= <-]. apply NoDup_cons in H2' as [_ H2']. by split.
    + intros [= <-]. apply NoDup_cons in H2' as [_ H2']. by split.
Qed.

Lemma reachable_inv l : reachable l → inv l.
Proof.
  induction 1 as [|l ev l' _ IH Hs]; [|by eapply listener_inv_step].
  split; simpl; [done|constructor|unfold conns_cap; lia].
Qed.

Lemma listener_reachable_run evs l l' : reachable l → foldM step evs l = Some l' → reachable l'.
Proof.
  revert l. induction evs as [|ev evs IH]; intros l Hl; simpl; [by intros [= <-]|].
  destruct (step l ev) as [l1|] eqn:E; [|done]. apply IH. by eapply reach_step.
Qed.

(** C32: under every interleaving of dialling, accepting and closing, the server
    receives the connections of the clients, each once, in the order in which they
    were made, at most sixteen waiting; and nobody waits on a closed listener: every
    call finds a ready case, and new calls are refused. *)
Theorem listener_fifo l (Hl : reachable l) :
  l.(dialled) = l.(accepted) ++ l.(conns) ∧ NoDup l.(dialled) ∧ length l.(conns) ≤ conns_cap ∧
  (l.(closed) = true →
     (∃ out, Accept l AcceptClosed = Some (l, Err out)) ∧
     (∀ conn, ∃ l' e, Dial_select l conn DialClosed = Some (l', Err e)) ∧
     (∀ conn, Dial_check l conn = (l, Some ErrListenerClosed))).
Proof.
  destruct (reachable_inv l Hl) as [H1 H2 H3]. apply NoDup_app in H2 as (_ & _ & H2).
  split_and!; [done|done|done|]. intros Hc. unfold Accept, Dial_select, Dial_check. rewrite Hc. split_and!; eauto.
Qed.

Lemma listener_fifo_witness :
  ∃ l, foldM step [EvCheck 1; EvCheck 2; EvSelect 2 DialSend; EvSelect 1 DialSend; EvAccept AcceptConn; EvClose] New = Some l ∧
    l.(dialled) = l.(accepted) ++ l.(conns) ∧ l.(accepted) = [2].
Proof.
  eexists. split; [vm_compute; reflexivity|]. split; [|reflexivity].
  apply listener_fifo. apply (listener_reachable_run
    [EvCheck 1; EvCheck 2; EvSelect 2 DialSend; EvSelect 1 DialSend; EvAccept AcceptConn; EvClose] New); [apply reach_new|].
  vm_compute. reflexivity.
Defined.

(** A call that has passed its check can still be given a connection after the
    listener was closed; no [Accept] need take it, and nobody closes it. *)
Lemma dial_after_close :
  (λ l, (l.(closed), l.(dialled), l.(accepted), l.(conns))) <$> foldM step [EvCheck 1; EvClose; EvSelect 1 DialSend; EvAccept AcceptClosed] New
  = Some (true, [1], [], [1]).
Proof. done. Qed.

End memtransport.
