(* ===== verification/Strategies.v ===== *)
(** * Launch strategies (launch_inmemory.go, launch_process.go)

    The two implementations of [LaunchStrategy].  Each owns a table in the world,
    reached through a lens; the in-memory strategy also writes the registry, by
    itself and not through [RegisterService].  Starting and killing processes,
    dialling ports and probing URLs are parameters. *)

From stdpp Require Import prelude gmap strings list fin_maps pretty.
From Stdlib Require Import ZArith.
From S2P Require Import Prelude GoRuntime Identity Lifecycle Registry Plugin Handshake Health Server MemTransport Launcher.

Module strategies.
Import identity plugin launcher.

(** ** In-memory plugins *)

(** [listeners]: the strategy's table; [heap]: the listeners themselves, by address;
    [servers]: what the HTTP server on a listener serves, the plugin's handler or the
    control service; [next]: the next unused address. *)
Record InMemoryStrategy (Handler : Type) := mkInMemoryStrategy {
  listeners : gmap string nat;
  heap : gmap nat memtransport.Listener;
  servers : gmap nat (server.mux (Handler + ()));
  next : nat;
}.
#[global] Arguments mkInMemoryStrategy {_}.
#[global] Arguments listeners {_}.
#[global] Arguments heap {_}.
#[global] Arguments servers {_}.
#[global] Arguments next {_}.

Definition NewInMemoryStrategy {Handler} : InMemoryStrategy Handler := mkInMemoryStrategy ∅ ∅ ∅ 0.

Definition PluginControlPath : string := "/connectplugin.v1.PluginControl/".

Section inmemory.
Context {W Impl Handler Client : Type} `{LR : Lens W registry.ServiceRegistry} `{LS : Lens W (InMemoryStrategy Handler)}.

(** The provider entry of one service: [rd] is the randomness of its id. *)
Definition memory_provider (name svcType regID servicePath : string) : registry.ServiceProvider :=
  registry.mkServiceProvider regID name svcType "1.0.0" servicePath {["transport" := "in-memory"]} 0%Z.

Definition add_provider (r : registry.ServiceRegistry) (p : registry.ServiceProvider) : registry.ServiceRegistry :=
  registry.with_providers r
    (<[p.(registry.ServiceType) := get_or [] r.(registry.providers) p.(registry.ServiceType) ++ [p]]> r.(registry.providers))
    (<[p.(registry.RegistrationID) := p]> r.(registry.registrations)).

(** The loop of [registerService] from index [i] on; an id that cannot be made skips
    the service. *)
Fixpoint register_services (rds : nat → Rand) (name : string) (declared : list ServiceDeclaration) (i : nat)
    (types : list string) (r : registry.ServiceRegistry) : registry.ServiceRegistry :=
  match types with
  | [] => r
  | svcType :: types' =>
      let servicePath := match declared !! i with Some d => d.(sd_Path) | None => "" end in
      let r' := match generateRegistrationID (rds i) with
                | Err _ => r
                | Ok regID => add_provider r (memory_provider name svcType regID servicePath)
                end in
      register_services rds name declared (S i) types' r'
  end.

Definition registerService (rds : nat → Rand) (p : Plugin Impl Handler Client) (name : string) (types : list string)
    (r : registry.ServiceRegistry) : registry.ServiceRegistry :=
  register_services rds name p.(pl_Metadata).(Provides) 0 types r.

(** The cleanup closure: the HTTP server is shut down, its listener closed, and the
    name's entry dropped from the table. *)
Definition memory_cleanup (addr : nat) (name : string) (w : W) : W :=
  let s := view w in
  set (mkInMemoryStrategy (delete name s.(listeners)) (alter memtransport.Close addr s.(heap)) s.(servers) s.(next)) w.

(** [registers]: the strategy was made with a registry.  The result is [None] when
    the mux panics, because the plugin's pattern has no path or is that of the control
    service. *)
Definition Launch_inmemory (rds : nat → Rand) (registers : bool) (spec : PluginSpec W Impl Handler Client) (w : W) :
    W * option (res (LaunchResult W nat)) :=
  match spec.(sp_Plugin) with
  | None => (w, Some (Err (Errorf "Plugin required for in-memory strategy" [])))
  | Some p =>
      match spec.(sp_ImplFactory) with
      | None => (w, Some (Err (Errorf "ImplFactory required for in-memory strategy" [])))
      | Some factory =>
          let '(w, impl) := factory w in
          match p.(pl_ConnectServer) impl with
          | Err err => (w, Some (Err (Errorf "failed to create handler: %w" [AErr err])))
          | Ok (path, handler) =>
              match server.Handle [] path (inl handler) with
              | None => (w, None)
              | Some mux =>
                  match server.Handle mux PluginControlPath (inr ()) with
                  | None => (w, None)
                  | Some mux =>
                      let s := view w in
                      let addr := s.(next) in
                      let w := set (mkInMemoryStrategy (<[spec.(sp_Name) := addr]> s.(listeners))
                                      (<[addr := memtransport.New]> s.(heap)) (<[addr := mux]> s.(servers)) (S addr)) w in
                      let w := if registers
                               then set (registerService rds p spec.(sp_Name) spec.(sp_Provides) (view w)) w
                               else w in
                      (w, Some (Ok (mkLaunchResult ("http://in-memory." +:+ spec.(sp_Name)) (Some addr)
                                      (Some (memory_cleanup addr spec.(sp_Name))))))
                  end
              end
          end
      end
  end.

(** As a [LaunchStrategy]; a panic of the mux is kept as an error value. *)
Definition in_memory (rds : nat → Rand) (registers : bool) : LaunchStrategy W Impl Handler Client nat :=
  mkLaunchStrategy "in-memory" (λ spec w,
    let '(w', r) := Launch_inmemory rds registers spec w in (w', default (Err (Errorf "panic" [])) r)).
End inmemory.

(** [PluginControl] of an in-memory plugin. *)
Definition inMemory_GetHealth : lifecycle.HealthState * string := (lifecycle.HEALTH_STATE_HEALTHY, "in-memory (in-process)").
Definition inMemory_Shutdown : bool := true.

(** ** Child processes *)

Record ProcessStrategy := mkProcessStrategy { processes : gmap string nat }.
Definition NewProcessStrategy : ProcessStrategy := mkProcessStrategy ∅.

Section process.
Context {W Impl Handler Client HTTPClient : Type} `{LP : Lens W ProcessStrategy}.

(** The operating system: [start] runs a binary with the additions to its
    environment; [stop] and [interrupt] act on a process. *)
Context (start : string → list string → W → W * res nat) (kill interrupt : nat → W → W).

(** [tcp]: a dial to the address; [get]: a GET of the URL. *)
Context (get : string → option error).

Definition checkHTTPReady (endpoint : string) : option error := get (endpoint +:+ "/").

Fixpoint str_drop (n : nat) (s : string) : string :=
  match n, s with 0, _ => s | S n', String _ s' => str_drop n' s' | _, "" => "" end.

#[local] Arguments str_drop : simpl never.

(** What wakes the polling loop: its timeout, or the ticker, with the outcome of the
    dial to the given address. *)
Inductive poll := TimedOut (ctx_err : error) | Polled (tcp : string → option error).

(** [None]: still polling. *)
Fixpoint waitForPluginReady (endpoint : string) (evs : list poll) : option (option error) :=
  match evs with
  | [] => None
  | TimedOut err :: _ => Some (Some (Errorf "timeout waiting for plugin: %w" [AErr err]))
  | Polled tcp :: evs' =>
      match tcp (str_drop 7 endpoint) with
      | None => Some (checkHTTPReady endpoint)
      | Some _ => waitForPluginReady endpoint evs'
      end
  end.

Definition process_env (spec : PluginSpec W Impl Handler Client) : list string :=
  let hostURL := if bool_decide (spec.(sp_HostURL) = "") then "http://localhost:8080" else spec.(sp_HostURL) in
  ["PORT=" +:+ pretty spec.(sp_Port); "HOST_URL=" +:+ hostURL].

Definition process_endpoint (spec : PluginSpec W Impl Handler Client) : string := "http://localhost:" +:+ pretty spec.(sp_Port).

Definition process_cleanup (pid : nat) (name : string) (w : W) : W :=
  let w := kill pid (interrupt pid w) in
  set (mkProcessStrategy (delete name (view w).(processes))) w.

(** [evs]: the course of the poll; the outer option as for [waitForPluginReady]. *)
Definition Launch_process (evs : list poll) (spec : PluginSpec W Impl Handler Client) (w : W) :
    W * option (res (LaunchResult W HTTPClient)) :=
  if bool_decide (spec.(sp_BinaryPath) = "") then (w, Some (Err (Errorf "BinaryPath required for process strategy" [])))
  else
    let '(w, started) := start spec.(sp_BinaryPath) (process_env spec) w in
    match started with
    | Err err => (w, Some (Err (Errorf "failed to start process %s: %w" [AStr spec.(sp_BinaryPath); AErr err])))
    | Ok pid =>
        let w := set (mkProcessStrategy (<[spec.(sp_Name) := pid]> (view w).(processes))) w in
        match waitForPluginReady (process_endpoint spec) evs with
        | None => (w, None)
        | Some (Some err) => (kill pid w, Some (Err (Errorf "plugin %s didn't become ready: %w" [AStr spec.(sp_Name); AErr err])))
        | Some None =>
            (w, Some (Ok (mkLaunchResult (process_endpoint spec) None (Some (process_cleanup pid spec.(sp_Name))))))
        end
    end.

(** The wait ends at the first open port or at the timeout. *)
Lemma waitForPluginReady_ends endpoint evs err :
  TimedOut err ∈ evs → is_Some (waitForPluginReady endpoint evs).
Proof.
  induction evs as [|[e|tcp] evs IH]; intros Hin; [by apply elem_of_nil in Hin|simpl; eauto|]. simpl.
  destruct (tcp _); [|eauto]. apply IH. by apply elem_of_cons in Hin as [|].
Qed.

Lemma waitForPluginReady_ready endpoint tcps tcp evs :
  (∀ t, t ∈ tcps → t (str_drop 7 endpoint) ≠ None) → tcp (str_drop 7 endpoint) = None →
  waitForPluginReady endpoint ((Polled <$> tcps) ++ Polled tcp :: evs) = Some (get (endpoint +:+ "/")).
Proof.
  intros Hn Ht. induction tcps as [|t tcps IH]; simpl; [by rewrite Ht|].
  specialize (Hn t ltac:(left)) as Ht'. destruct (t _); [|done]. apply IH. intros t' ?. apply Hn. by right.
Qed.

(** A launch that fails after the start kills the process, but its entry stays in the
    table: nobody holds a cleanup for it. *)
Lemma failed_launch_keeps_entry evs spec w w1 pid err :
  spec.(sp_BinaryPath) ≠ "" → start spec.(sp_BinaryPath) (process_env spec) w = (w1, Ok pid) →
  waitForPluginReady (process_endpoint spec) evs = Some (Some err) →
  ∃ w', (Launch_process evs spec w).1 = kill pid w' ∧ (view w').(processes) !! spec.(sp_Name) = Some pid.
Proof.
  intros Hb Hs Hw. unfold Launch_process. rewrite bool_decide_eq_false_2, Hs, Hw by done.
  eexists. split; [reflexivity|]. rewrite view_set. simpl. by rewrite lookup_insert_eq.
Qed.
End process.

(** ** In-memory launches register and serve *)

(** Two parts of the world that do not overlap. *)
Class Independent (W A B : Type) `{Lens W A} `{Lens W B} := {
  set_other : ∀ (b : B) (w : W), view (A := A) (set b w) = view (A := A) w;
}.

(** The entries [registerService] makes. *)
Fixpoint memory_providers (rds : nat → Rand) (name : string) (declared : list ServiceDeclaration) (i : nat)
    (types : list string) : list registry.ServiceProvider :=
  match types with
  | [] => []
  | svcType :: types' =>
      match generateRegistrationID (rds i) with
      | Err _ => []
      | Ok regID => [memory_provider name svcType regID (match declared !! i with Some d => d.(sd_Path) | None => "" end)]
      end ++ memory_providers rds name declared (S i) types'
  end.

Lemma register_services_models rds name declared i types r a :
  registry.models r a →
  NoDup ((registry.RegistrationID <$> a) ++ (registry.RegistrationID <$> memory_providers rds name declared i types)) →
  registry.models (register_services rds name declared i types r) (a ++ memory_providers rds name declared i types).
Proof.
  revert i r a. induction types as [|t types IH]; intros i r a Hm Hnd; simpl; [by rewrite app_nil_r|].
  simpl in Hnd. destruct (generateRegistrationID (rds i)) as [regID|]; [|by apply IH].
  set (p := memory_provider name t regID _) in *. simpl in Hnd |- *.
  rewrite (cons_middle p a), app_assoc. apply IH.
  - apply (registry.models_append r a t regID p Hm eq_refl eq_refl).
    destruct (registry.registrations r !! regID) as [q|] eqn:E; [|done].
    apply (registry.models_registrations r a Hm) in E as [Hq E].
    apply NoDup_app in Hnd as (_ & Hnd & _). destruct (Hnd regID); [|by left].
    rewrite <- E. by apply list_elem_of_fmap_2.
  - by rewrite fmap_app, <- app_assoc.
Qed.

Section launches.
Context {W Impl Handler Client : Type} `{LR : Lens W registry.ServiceRegistry} `{LS : Lens W (InMemoryStrategy Handler)}.
Context `{!Independent W registry.ServiceRegistry (InMemoryStrategy Handler)}.
Context `{!Independent W (InMemoryStrategy Handler) registry.ServiceRegistry}.

(** What the server on a plugin's listener serves. *)
Definition memory_mux (path : string) (h : Handler) : server.mux (Handler + ()) := [(path, inl h); (PluginControlPath, inr ())].

Lemma memory_mux_handles path (h : Handler) : server.has_path path = true → path ≠ PluginControlPath →
  ∃ m, server.Handle [] path (inl h) = Some m ∧ server.Handle m PluginControlPath (inr ()) = Some (memory_mux path h).
Proof.
  intros H1 H2. exists [(path, inl h)]. split.
  - apply server.Handle_Some. split_and!; [done|apply not_elem_of_nil|done].
  - apply server.Handle_Some. split_and!; [done| |reflexivity]. simpl. rewrite list_elem_of_singleton. congruence.
Qed.

(** The world after a launch, at the address it has given the listener. *)
Definition listening (name : string) (m : server.mux (Handler + ())) (w : W) : W :=
  let s := view w in
  set (mkInMemoryStrategy (<[name := s.(next)]> s.(listeners)) (<[s.(next) := memtransport.New]> s.(heap))
         (<[s.(next) := m]> s.(servers)) (S s.(next))) w.

Lemma Launch_inmemory_ok rds registers (spec : PluginSpec W Impl Handler Client) (w w1 : W) p factory impl path (handler : Handler) :
  spec.(sp_Plugin) = Some p → spec.(sp_ImplFactory) = Some factory → factory w = (w1, impl) →
  p.(pl_ConnectServer) impl = Ok (path, handler) → server.has_path path = true → path ≠ PluginControlPath →
  let w2 := listening spec.(sp_Name) (memory_mux path handler) w1 in
  Launch_inmemory rds registers spec w =
    (if registers then set (registerService rds p spec.(sp_Name) spec.(sp_Provides) (view w2)) w2 else w2,
     Some (Ok (mkLaunchResult ("http://in-memory." +:+ spec.(sp_Name)) (Some (view w1).(next))
                 (Some (memory_cleanup (Handler := Handler) (view w1).(next) spec.(sp_Name)))))).
Proof.
  intros Hp Hf Hi Hc H1 H2. destruct (memory_mux_handles path handler H1 H2) as (m & E1 & E2).
  unfold Launch_inmemory. by rewrite Hp, Hf, Hi, Hc, E1, E2.
Qed.

(** Launching in memory. A plugin with a factory, whose handler can be made and
    does not claim the control service's path, is launched: its listener is new,
    open and in the strategy's table, its endpoint names it, and the registry gains
    exactly one entry for every declared service, at the end of the log, under the
    plugin's name.  Its cleanup closes that listener and drops the table entry, and
    leaves the registry alone. *)
Theorem in_memory_launch rds (spec : PluginSpec W Impl Handler Client) (w w1 : W) p factory impl path (handler : Handler) a
    (Hp : spec.(sp_Plugin) = Some p) (Hf : spec.(sp_ImplFactory) = Some factory) (Hi : factory w = (w1, impl))
    (Hc : p.(pl_ConnectServer) impl = Ok (path, handler)) (Hpath : server.has_path path = true ∧ path ≠ PluginControlPath)
    (Hm : registry.models (view w1) a)
    (Hids : NoDup ((registry.RegistrationID <$> a) ++
       (registry.RegistrationID <$> memory_providers rds spec.(sp_Name) p.(pl_Metadata).(Provides) 0 spec.(sp_Provides)))) :
  ∃ w2 addr (clean : W → W),
    Launch_inmemory (Client := Client) rds true spec w =
      (w2, Some (Ok (mkLaunchResult ("http://in-memory." +:+ spec.(sp_Name)) (Some addr) (Some clean)))) ∧
    (view w2).(listeners) !! spec.(sp_Name) = Some addr ∧ (view w2).(heap) !! addr = Some memtransport.New ∧
    registry.models (view w2)
      (a ++ memory_providers rds spec.(sp_Name) p.(pl_Metadata).(Provides) 0 spec.(sp_Provides)) ∧
    (view (clean w2)).(listeners) !! spec.(sp_Name) = None ∧
    (view (clean w2)).(heap) !! addr = Some (memtransport.Close memtransport.New) ∧
    view (A := registry.ServiceRegistry) (clean w2) = view w2.
Proof.
  rewrite (Launch_inmemory_ok rds true spec w w1 p factory impl path handler Hp Hf Hi Hc (proj1 Hpath) (proj2 Hpath)).
  eexists _, _, _. split; [reflexivity|]. unfold memory_cleanup, listening.
  pose proof (set_other (W := W) (A := registry.ServiceRegistry) (B := InMemoryStrategy Handler)) as S1.
  pose proof (set_other (W := W) (A := InMemoryStrategy Handler) (B := registry.ServiceRegistry)) as S2.
  repeat first [rewrite S1 | rewrite S2 | rewrite view_set]. simpl. rewrite !lookup_insert_eq, lookup_delete_eq, lookup_alter_eq, lookup_insert_eq.
  split_and!; try done. by apply register_services_models.
Qed.
End launches.

(** ** Witness and consequences *)

Definition host : Type := registry.ServiceRegistry * InMemoryStrategy unit.

#[export] Instance host_registry : Lens host registry.ServiceRegistry :=
  {| view w := w.1; set r w := (r, w.2); view_set a w := eq_refl |}.
#[export] Instance host_strategy : Lens host (InMemoryStrategy unit) :=
  {| view w := w.2; set s w := (w.1, s); view_set a w := eq_refl |}.
#[export] Instance host_indep1 : Independent host registry.ServiceRegistry (InMemoryStrategy unit).
Proof. split. reflexivity. Qed.
#[export] Instance host_indep2 : Independent host (InMemoryStrategy unit) registry.ServiceRegistry.
Proof. split. reflexivity. Qed.

Definition ex_plugin (path : string) : Plugin unit unit unit :=
  mkPlugin (mkPluginMetadata "kv" path "1.0.0" [mkServiceDeclaration "kv" "1.0.0" "/kv/"] []) (λ _, Ok (path, tt)) (λ _, Ok tt).

Definition ex_spec (path : string) : PluginSpec host unit unit unit :=
  mkPluginSpec "kv-plugin" ["kv"] "in-memory" 0 "" "" (Some (ex_plugin path)) (Some (λ w, (w, tt))) ∅.

Definition ex_host : host := (registry.NewServiceRegistry, NewInMemoryStrategy).

Lemma in_memory_launch_witness :
  ∃ w2 r, Launch_inmemory (λ _, rand_seq 9) true (ex_spec "/kv/") ex_host = (w2, Some (Ok r)) ∧
    r.(lr_Endpoint) = "http://in-memory.kv-plugin" ∧ length (get_or [] (view w2).(registry.providers) "kv") = 1.
Proof.
  destruct (in_memory_launch (Client := unit) (λ _, rand_seq 9) (ex_spec "/kv/") ex_host ex_host (ex_plugin "/kv/") (λ w, (w, tt)) tt "/kv/" tt []
    eq_refl eq_refl eq_refl eq_refl) as (w2 & addr & clean & E & _ & _ & Hm & _).
  - split; [reflexivity|discriminate].
  - apply registry.models_new.
  - apply (bool_decide_unpack _). vm_compute. reflexivity.
  - exists w2, (mkLaunchResult "http://in-memory.kv-plugin" (Some addr) (Some clean)). split; [exact E|]. split; [reflexivity|].
    rewrite (registry.models_providers _ _ Hm). vm_compute. reflexivity.
Defined.

(** Launching again after a cleanup registers the services a second time. *)
Lemma relaunch_registers_twice :
  let '(w1, r1) := Launch_inmemory (λ _, rand_seq 9) true (ex_spec "/kv/") ex_host in
  let w2 := match r1 with Some (Ok r) => default (λ w, w) r.(lr_Cleanup) w1 | _ => w1 end in
  let '(w3, _) := Launch_inmemory (λ _, rand_seq 10) true (ex_spec "/kv/") w2 in
  length (get_or [] (view w3).(registry.providers) "kv") = 2 ∧ size (view w2).(listeners) = 0.
Proof. by vm_compute. Qed.

(** A plugin that serves the control service's path makes the mux panic. *)
Lemma control_path_panics : (Launch_inmemory (λ _, rand_seq 9) true (ex_spec PluginControlPath) ex_host).2 = None.
Proof. by vm_compute. Qed.

End strategies.
