(* ===== verification/Generator.v ===== *)
(** * Code generator (cmd/protoc-gen-connect-plugin/main.go)

    The protoc plugin prints, for every service of a file, a plugin package and a
    delegate package.  The descriptors protogen builds are records of what the code
    reads of them; a generated file is its name and its lines, as they are before
    protogen formats them.  [None] is a run-time panic. *)

From stdpp Require Import prelude strings list.
From Stdlib Require Import ZArith Ascii.
From S2P Require Import Prelude GoRuntime.

Module generator.

(** ** Text *)

Definition dq : string := String (ascii_of_nat 34) "".
Definition quoted (s : string) : string := dq +:+ s +:+ dq.
Definition tab : string := String (ascii_of_nat 9) "".
Definition newline : ascii := ascii_of_nat 10.

(** [g.P]: one line, its arguments next to each other. *)
Definition P (args : list string) : list string := [foldr (λ a s, a +:+ s) "" args].
(** A line that begins with [n] tabs. *)
Definition T (n : nat) (args : list string) : list string := P (replicate n tab ++ args).

Fixpoint str_rev (s : string) : string := match s with "" => "" | String a s' => str_rev s' +:+ String a "" end.
Definition TrimSuffix (s suffix : string) : string :=
  match strip_prefix (str_rev suffix) (str_rev s) with Some r => str_rev r | None => s end.

Definition is_space (c : ascii) : bool := bool_decide (c = " "%char) || byte_in "009" "013" c.
Fixpoint TrimLeft (s : string) : string := match s with "" => "" | String a s' => if is_space a then TrimLeft s' else s end.
(** [strings.TrimSpace] on ASCII text. *)
Definition TrimSpace (s : string) : string := str_rev (TrimLeft (str_rev (TrimLeft s))).

Definition lowerFirst (s : string) : string := match s with "" => "" | String a s' => String (lower a) s' end.

(** ** Descriptors *)

(** [f_Kind] is the name of the field's kind; [f_Enum] the Go name of its enum type. *)
Inductive Field := mkField {
  f_GoName : string;
  f_Kind : string;
  f_IsList : bool;
  f_IsMap : bool;
  f_Message : option Message;
  f_Enum : option string;
}
with Message := mkMessage { m_GoName : string; m_Fields : list Field }.

Record Method := mkMethod {
  me_GoName : string;
  me_Leading : string;
  me_StreamingServer : bool;
  me_StreamingClient : bool;
  me_Input : Message;
  me_Output : Message;
}.

Record Service := mkService { s_GoName : string; s_Methods : list Method }.

Record File := mkFile {
  fi_Path : string;
  fi_GoPackageName : string;
  fi_GoImportPath : string;
  fi_Services : list Service;
  fi_Generate : bool;
}.

Definition GeneratedFile : Type := string * list string.

(** ** Types *)

Definition one_of (s : string) (l : list string) : bool := existsb (λ x, bool_decide (x = s)) l.

Definition scalarToGoType (field : Field) : string :=
  let k := field.(f_Kind) in
  if one_of k ["double"] then "float64"
  else if one_of k ["float"] then "float32"
  else if one_of k ["int64"; "sfixed64"; "sint64"] then "int64"
  else if one_of k ["uint64"; "fixed64"] then "uint64"
  else if one_of k ["int32"; "sfixed32"; "sint32"] then "int32"
  else if one_of k ["uint32"; "fixed32"] then "uint32"
  else if one_of k ["bool"] then "bool"
  else if one_of k ["string"] then "string"
  else if one_of k ["bytes"] then "[]byte"
  else "".

(** [field.Message.GoIdent.GoName], in the package of the file. *)
Definition message_type (pkg : string) (field : Field) : option string :=
  match field.(f_Message) with Some m => Some ("*" +:+ pkg +:+ "." +:+ m.(m_GoName)) | None => None end.

Definition protoFieldToGoType (pkg : string) (field : Field) : option string :=
  if field.(f_IsList) then
    let elemType := scalarToGoType field in
    if bool_decide (elemType ≠ "") then Some ("[]" +:+ elemType)
    else t ← message_type pkg field; Some ("[]" +:+ t)
  else if field.(f_IsMap) then
    m ← field.(f_Message);
    keyField ← m.(m_Fields) !! 0;
    valueField ← m.(m_Fields) !! 1;
    let keyType := scalarToGoType keyField in
    let valueType := scalarToGoType valueField in
    if bool_decide (valueType = "")
    then t ← message_type pkg valueField; Some ("map[" +:+ keyType +:+ "]" +:+ t)
    else Some ("map[" +:+ keyType +:+ "]" +:+ valueType)
  else
    let goType := scalarToGoType field in
    if bool_decide (goType ≠ "") then Some goType
    else
      match field.(f_Message), field.(f_Enum) with
      | Some m, _ => Some ("*" +:+ pkg +:+ "." +:+ m.(m_GoName))
      | None, Some e => Some (pkg +:+ "." +:+ e)
      | None, None => Some "any"
      end.

Definition zeroValue (field : Field) : string :=
  if field.(f_IsList) || field.(f_IsMap) || bool_decide (is_Some field.(f_Message)) then "nil"
  else
    let k := field.(f_Kind) in
    if one_of k ["double"; "float"] then "0"
    else if one_of k ["int64"; "sfixed64"; "sint64"; "uint64"; "fixed64"; "int32"; "sfixed32"; "sint32"; "uint32"; "fixed32"]
    then "0"
    else if one_of k ["bool"] then "false"
    else if one_of k ["string"] then dq +:+ dq
    else if one_of k ["bytes"] then "nil"
    else if bool_decide (is_Some field.(f_Enum)) then "0" else "nil".

(** ** Signatures *)

(** [lowerFirst(field.GoName)+" "+goType] for every field. *)
Definition field_decls (pkg : string) (fields : list Field) : option (list string) :=
  mapM (λ field, t ← protoFieldToGoType pkg field; Some (lowerFirst field.(f_GoName) +:+ " " +:+ t)) fields.

Definition params (pkg : string) (m : Method) : option string :=
  ps ← field_decls pkg m.(me_Input).(m_Fields);
  Some (Join ("ctx context.Context" :: ps) ", ").

Definition returnSig (pkg : string) (m : Method) : option string :=
  match m.(me_Output).(m_Fields) with
  | [] => Some "error"
  | fields => rs ← field_decls pkg fields; Some ("(" +:+ Join (rs ++ ["err error"]) ", " +:+ ")")
  end.

Definition streaming (m : Method) : bool := m.(me_StreamingServer) || m.(me_StreamingClient).

Definition outputType (pkg : string) (m : Method) : string := pkg +:+ "." +:+ m.(me_Output).(m_GoName).
Definition inputType (pkg : string) (m : Method) : string := pkg +:+ "." +:+ m.(me_Input).(m_GoName).

(** ** The interface *)

Definition leading_comment (m : Method) : list string :=
  if bool_decide (m.(me_Leading) ≠ "")
  then Split newline (TrimSpace m.(me_Leading)) ≫= λ line, T 1 ["// "; TrimPrefix line "// "]
  else [].

Definition generateUnaryInterfaceMethod (pkg : string) (m : Method) : option (list string) :=
  ps ← params pkg m;
  r ← returnSig pkg m;
  Some (T 1 [m.(me_GoName); "("; ps; ") "; r]).

(** The parameters are computed first, whatever the kind of stream. *)
Definition generateStreamingInterfaceMethod (pkg : string) (m : Method) : option (list string) :=
  ps ← params pkg m;
  Some
    (if m.(me_StreamingServer) && negb m.(me_StreamingClient) then
       T 1 [m.(me_GoName); "("; ps; ") (*connect.ServerStreamForClient["; outputType pkg m; "], error)"]
     else if m.(me_StreamingClient) && negb m.(me_StreamingServer) then
       T 1 [m.(me_GoName); "(ctx context.Context) (*connect.ClientStreamForClient["; pkg; "."; m.(me_Input).(m_GoName); ", ";
            outputType pkg m; "], error)"]
     else
       T 1 [m.(me_GoName); "(ctx context.Context) (*connect.BidiStreamForClient["; pkg; "."; m.(me_Input).(m_GoName); ", ";
            outputType pkg m; "], error)"]).

Definition generateInterfaceMethod (pkg : string) (m : Method) : option (list string) :=
  body ← if streaming m then generateStreamingInterfaceMethod pkg m else generateUnaryInterfaceMethod pkg m;
  Some (leading_comment m ++ body).

(** ** The delegate's methods *)

Definition implements_comment (m : Method) : list string :=
  P ["// "; m.(me_GoName); " implements "; m.(me_GoName); " via Connect client."].

Definition build_request (pkg : string) (m : Method) : list string :=
  T 1 ["req := &"; pkg; "."; m.(me_Input).(m_GoName); "{"] ++
  (m.(me_Input).(m_Fields) ≫= λ field, T 2 [field.(f_GoName); ": "; lowerFirst field.(f_GoName); ","]) ++
  T 1 ["}"] ++ P [].

Definition hasOutputFields (m : Method) : bool := bool_decide (0 < length m.(me_Output).(m_Fields)).

Definition zeroReturns (m : Method) : list string := (zeroValue <$> m.(me_Output).(m_Fields)) ++ ["err"].
Definition returnExprs (m : Method) : list string :=
  ((λ field, "resp.Msg." +:+ field.(f_GoName)) <$> m.(me_Output).(m_Fields)) ++ ["nil"].

Definition generateUnaryDelegateMethod (pkg delegateStructName : string) (m : Method) : option (list string) :=
  ps ← params pkg m;
  r ← returnSig pkg m;
  Some
    (implements_comment m ++
     P ["func (d *"; delegateStructName; ") "; m.(me_GoName); "("; ps; ") "; r; " {"] ++
     build_request pkg m ++
     (if hasOutputFields m then T 1 ["resp, err := d.client."; m.(me_GoName); "(ctx, connect.NewRequest(req))"]
      else T 1 ["_, err := d.client."; m.(me_GoName); "(ctx, connect.NewRequest(req))"]) ++
     T 1 ["if err != nil {"] ++
     (if hasOutputFields m then T 2 ["return "; Join (zeroReturns m) ", "] else T 2 ["return err"]) ++
     T 1 ["}"] ++ P [] ++
     (if hasOutputFields m then T 1 ["return "; Join (returnExprs m) ", "] else T 1 ["return nil"]) ++
     P ["}"] ++ P []).

Definition generateStreamingDelegateMethod (pkg delegateStructName : string) (m : Method) : option (list string) :=
  if m.(me_StreamingServer) && negb m.(me_StreamingClient) then
    ps ← params pkg m;
    Some
      (implements_comment m ++
       P ["func (d *"; delegateStructName; ") "; m.(me_GoName); "("; ps; ") (*connect.ServerStreamForClient["; outputType pkg m;
          "], error) {"] ++
       build_request pkg m ++
       T 1 ["return d.client."; m.(me_GoName); "(ctx, connect.NewRequest(req))"] ++
       P ["}"] ++ P [])
  else if m.(me_StreamingClient) && negb m.(me_StreamingServer) then
    Some
      (implements_comment m ++
       P ["func (d *"; delegateStructName; ") "; m.(me_GoName); "(ctx context.Context) (*connect.ClientStreamForClient["; inputType pkg m;
          ", "; outputType pkg m; "], error) {"] ++
       T 1 ["return d.client."; m.(me_GoName); "(ctx), nil"] ++
       P ["}"] ++ P [])
  else
    Some
      (implements_comment m ++
       P ["func (d *"; delegateStructName; ") "; m.(me_GoName); "(ctx context.Context) (*connect.BidiStreamForClient["; inputType pkg m;
          ", "; outputType pkg m; "], error) {"] ++
       T 1 ["return d.client."; m.(me_GoName); "(ctx), nil"] ++
       P ["}"] ++ P []).

Definition generateDelegateMethod (pkg delegateStructName : string) (m : Method) : option (list string) :=
  if streaming m then generateStreamingDelegateMethod pkg delegateStructName m
  else generateUnaryDelegateMethod pkg delegateStructName m.

(** ** Files *)

Definition file_head (file : File) (pkgName : string) : list string :=
  P ["// Code generated by protoc-gen-connect-plugin. DO NOT EDIT."] ++ P [] ++
  P ["// source: "; file.(fi_Path)] ++ P [] ++
  P ["package "; pkgName] ++ P [].

Definition interfaceName (service : Service) : string := TrimSuffix service.(s_GoName) "Service".

(** [strings.ToLower(name[:1]) + name[1:] + "Delegate"]: an empty name panics. *)
Definition delegateStructName (service : Service) : option string :=
  match interfaceName service with
  | "" => None
  | name => Some (lowerFirst name +:+ "Delegate")
  end.

Definition delegate_imports (file : File) : list string :=
  let pkg := file.(fi_GoPackageName) in
  P ["import ("] ++ T 1 [quoted "context"] ++ T 1 [quoted "net/http"] ++ P [] ++
  T 1 [quoted "connectrpc.com/connect"] ++
  T 1 [pkg; " "; quoted file.(fi_GoImportPath)] ++
  T 1 [pkg; "connect "; quoted (file.(fi_GoImportPath) +:+ "/" +:+ pkg +:+ "connect")] ++
  P [")"] ++ P [].

Definition generateDelegate (file : File) (service : Service) : option GeneratedFile :=
  let pkg := file.(fi_GoPackageName) in
  let delegatePkgName := pkg +:+ "delegate" in
  let name := interfaceName service in
  let clientType := pkg +:+ "connect." +:+ service.(s_GoName) +:+ "Client" in
  struct ← delegateStructName service;
  interface ← mapM (generateInterfaceMethod pkg) service.(s_Methods);
  methods ← mapM (generateDelegateMethod pkg struct) service.(s_Methods);
  Some (delegatePkgName +:+ "/delegate.go",
    file_head file delegatePkgName ++
    delegate_imports file ++
    (if negb (existsb streaming service.(s_Methods))
     then P ["// Ensure imports are used"] ++ P ["var _ = connect.IsAtLeastVersion1_13_0"] ++ P [] else []) ++
    P ["// "; name; " is the domain interface for "; service.(s_GoName); "."] ++
    P ["type "; name; " interface {"] ++ concat interface ++ P ["}"] ++ P [] ++
    P ["// "; struct; " implements "; name; " using a Connect client."] ++
    P ["type "; struct; " struct {"] ++ T 1 ["client "; clientType] ++ P ["}"] ++ P [] ++
    P ["var _ "; name; " = (*"; struct; ")(nil)"] ++ P [] ++
    P ["// New creates a "; name; " from an existing Connect client."] ++
    P ["func New(client "; clientType; ") "; name; " {"] ++
    T 1 ["return &"; struct; "{client: client}"] ++ P ["}"] ++ P [] ++
    P ["// NewFromURL creates a "; name; " from a URL."] ++
    P ["func NewFromURL(url string, opts ...connect.ClientOption) "; name; " {"] ++
    T 1 ["client := "; pkg; "connect.New"; service.(s_GoName); "Client(http.DefaultClient, url, opts...)"] ++
    T 1 ["return &"; struct; "{client: client}"] ++ P ["}"] ++ P [] ++
    concat methods).

Definition pluginDefaultName (service : Service) : string := ToLower (interfaceName service).

Definition generatePlugin (file : File) (service : Service) : GeneratedFile :=
  let pkg := file.(fi_GoPackageName) in
  let pluginPkgName := pkg +:+ "plugin" in
  let pluginName := service.(s_GoName) +:+ "Plugin" in
  let handlerName := service.(s_GoName) +:+ "Handler" in
  let serviceName := pkg +:+ "connect." +:+ service.(s_GoName) +:+ "Name" in
  let default_name := pluginDefaultName service in
  (pluginPkgName +:+ "/plugin.go",
    file_head file pluginPkgName ++
    P ["import ("] ++ T 1 [quoted "fmt"] ++ T 1 [quoted "net/http"] ++ P [] ++
    T 1 [quoted "connectrpc.com/connect"] ++
    T 1 ["connectplugin "; quoted "github.com/masegraye/connect-plugin-go"] ++
    T 1 [pkg; "connect "; quoted (file.(fi_GoImportPath) +:+ "/" +:+ pkg +:+ "connect")] ++
    P [")"] ++ P [] ++
    P ["// "; pluginName; " implements connectplugin.Plugin for "; service.(s_GoName); "."] ++
    P ["type "; pluginName; " struct{}"] ++ P [] ++
    P ["var _ connectplugin.Plugin = (*"; pluginName; ")(nil)"] ++ P [] ++
    P ["// Metadata returns plugin metadata."] ++
    P ["func (p *"; pluginName; ") Metadata() connectplugin.PluginMetadata {"] ++
    T 1 ["return connectplugin.PluginMetadata{"] ++
    T 2 ["Name:    "; quoted default_name; ","] ++
    T 2 ["Path:    "; serviceName; ","] ++
    T 2 ["Version: "; quoted "1.0.0"; ","] ++
    T 2 ["Provides: []connectplugin.ServiceDeclaration{"] ++
    T 3 ["{"] ++
    T 4 ["Type:    "; quoted default_name; ","] ++
    T 4 ["Version: "; quoted "1.0.0"; ","] ++
    T 4 ["Path:    "; serviceName; ","] ++
    T 3 ["},"] ++ T 2 ["},"] ++ T 1 ["}"] ++ P ["}"] ++ P [] ++
    P ["// ConnectServer creates a server-side handler for this plugin."] ++
    P ["func (p *"; pluginName; ") ConnectServer(impl any) (string, http.Handler, error) {"] ++
    T 1 ["handler, ok := impl.("; pkg; "connect."; handlerName; ")"] ++
    T 1 ["if !ok {"] ++
    T 2 ["return "; dq; dq; ", nil, fmt.Errorf("; quoted ("impl must implement " +:+ handlerName +:+ ", got %T"); ", impl)"] ++
    T 1 ["}"] ++ P [] ++
    T 1 ["path, h := "; pkg; "connect.New"; service.(s_GoName); "Handler(handler)"] ++
    T 1 ["return path, h, nil"] ++ P ["}"] ++ P [] ++
    P ["// ConnectClient creates a client-side plugin instance."] ++
    P ["func (p *"; pluginName; ") ConnectClient(baseURL string, httpClient connect.HTTPClient) (any, error) {"] ++
    T 1 ["return "; pkg; "connect.New"; service.(s_GoName); "Client(httpClient, baseURL), nil"] ++
    P ["}"] ++ P []).

(** A plugin file and a delegate file for each service, in order. *)
Definition generateFile (file : File) : option (list GeneratedFile) :=
  mjoin <$> mapM (λ service, d ← generateDelegate file service; Some [generatePlugin file service; d]) file.(fi_Services).

(** The run over all files of the request. *)
Definition run (files : list File) : option (list GeneratedFile) :=
  mjoin <$> mapM (λ f, if fi_Generate f then generateFile f else Some []) files.

(** ** Lemmas *)

(** The fields whose Go type can be written down. *)
Definition typed (field : Field) : Prop :=
  if field.(f_IsList) then scalarToGoType field ≠ "" ∨ is_Some field.(f_Message)
  else if field.(f_IsMap) then
    ∃ m k v, field.(f_Message) = Some m ∧ m.(m_Fields) !! 0 = Some k ∧ m.(m_Fields) !! 1 = Some v ∧
      (scalarToGoType v ≠ "" ∨ is_Some v.(f_Message))
  else True.

Lemma message_type_Some pkg field : is_Some (message_type pkg field) ↔ is_Some field.(f_Message).
Proof. unfold message_type. destruct (f_Message field); split; intros [x H]; by eauto. Qed.

Lemma bind_is_Some {A B} (f : A → option B) (x : option A) :
  is_Some (x ≫= f) ↔ ∃ a, x = Some a ∧ is_Some (f a).
Proof. destruct x; simpl; split; [eauto|by intros (? & [= <-] & ?)|by intros [? ?]|by intros (? & ? & _)]. Qed.

Lemma some_is_Some {A} (a : A) : is_Some (Some a) ↔ True.
Proof. split; [done|by eexists]. Qed.

Lemma protoFieldToGoType_typed pkg field : is_Some (protoFieldToGoType pkg field) ↔ typed field.
Proof.
  unfold protoFieldToGoType, typed. destruct (f_IsList field).
  - case_bool_decide as E; [rewrite some_is_Some; tauto|].
    rewrite bind_is_Some. split.
    + intros (t & Ht & _). right. apply (message_type_Some pkg). by exists t.
    + intros [?|H]; [done|]. apply (message_type_Some pkg) in H as [t Ht]. exists t. split; [done|by eexists].
  - destruct (f_IsMap field).
    + rewrite bind_is_Some. split.
      * intros (m & Hm & (k & Hk & (v & Hv & Ht)%bind_is_Some)%bind_is_Some). exists m, k, v. split_and!; try done.
        cbn zeta in Ht. case_bool_decide as E; [|by left]. right. apply bind_is_Some in Ht as (t & Ht & _).
        apply (message_type_Some pkg). by exists t.
      * intros (m & k & v & Hm & Hk & Hv & Ht). exists m. split; [done|].
        apply bind_is_Some. exists k. split; [done|]. apply bind_is_Some. exists v. split; [done|]. cbn zeta.
        case_bool_decide as E; [|by eexists]. apply bind_is_Some. destruct Ht as [?|Ht]; [done|].
        apply (message_type_Some pkg) in Ht as [t Ht]. exists t. split; [done|by eexists].
    + rewrite <- some_is_Some with (a := ()). case_bool_decide; [split; intros _; by eexists|].
      destruct (f_Message field); [|destruct (f_Enum field)]; split; intros _; by eexists.
Qed.

Lemma mapM_is_Some {A B} (f : A → option B) (l : list A) : is_Some (mapM f l) ↔ ∀ x, x ∈ l → is_Some (f x).
Proof. rewrite mapM_is_Some, Forall_forall. done. Qed.

Lemma field_decls_typed pkg fields : is_Some (field_decls pkg fields) ↔ ∀ field, field ∈ fields → typed field.
Proof.
  unfold field_decls. rewrite mapM_is_Some. split; intros H field Hin; specialize (H field Hin).
  - apply bind_is_Some in H as (t & Ht & _). apply (protoFieldToGoType_typed pkg). by exists t.
  - apply (protoFieldToGoType_typed pkg) in H as [t Ht]. apply bind_is_Some. exists t. split; [done|by eexists].
Qed.

Lemma params_typed pkg m : is_Some (params pkg m) ↔ ∀ field, field ∈ m.(me_Input).(m_Fields) → typed field.
Proof.
  rewrite <- (field_decls_typed pkg). unfold params. rewrite bind_is_Some. split; [intros (t & H & _); by exists t|].
  intros [t H]. exists t. split; [done|by eexists].
Qed.

Lemma returnSig_typed pkg m : is_Some (returnSig pkg m) ↔ ∀ field, field ∈ m.(me_Output).(m_Fields) → typed field.
Proof.
  rewrite <- (field_decls_typed pkg). unfold returnSig. destruct (m_Fields (me_Output m)) as [|f fs].
  - split; intros _; [by exists []|by eexists].
  - rewrite bind_is_Some. split; [intros (t & H & _); by exists t|]. intros [t H]. exists t. split; [done|by eexists].
Qed.

(** What generating a method needs: its parameters, and the results of a unary one. *)
Definition method_typed (m : Method) : Prop :=
  (∀ field, field ∈ m.(me_Input).(m_Fields) → typed field) ∧
  (streaming m = false → ∀ field, field ∈ m.(me_Output).(m_Fields) → typed field).

Lemma interface_typed pkg m : is_Some (generateInterfaceMethod pkg m) ↔ method_typed m.
Proof.
  unfold generateInterfaceMethod, method_typed. rewrite bind_is_Some.
  rewrite <- (params_typed pkg), <- (returnSig_typed pkg).
  unfold generateStreamingInterfaceMethod, generateUnaryInterfaceMethod. destruct (streaming m).
  - split.
    + intros (b & Hb & _). split; [|done]. destruct (params pkg m); [by eexists|done].
    + intros [[ps ->] _]. simpl. eexists. split; [done|by eexists].
  - split.
    + intros (b & Hb & _). by destruct (params pkg m), (returnSig pkg m).
    + intros [[ps ->] H]. destruct (H eq_refl) as [r ->]. simpl. eexists. split; [done|by eexists].
Qed.

Lemma delegate_typed pkg struct m : method_typed m → is_Some (generateDelegateMethod pkg struct m).
Proof.
  unfold method_typed. rewrite <- (params_typed pkg), <- (returnSig_typed pkg).
  unfold generateDelegateMethod, generateStreamingDelegateMethod, generateUnaryDelegateMethod.
  intros [[ps ->] H]. destruct (streaming m).
  - simpl. repeat case_match; by eexists.
  - destruct (H eq_refl) as [r ->]. simpl. by eexists.
Qed.

(** The head of a method: its name, parameters and results. *)
Definition signature (pkg : string) (m : Method) : option string :=
  ps ← params pkg m;
  if streaming m then
    Some
      (if m.(me_StreamingServer) && negb m.(me_StreamingClient) then
         m.(me_GoName) +:+ "(" +:+ ps +:+ ") (*connect.ServerStreamForClient[" +:+ outputType pkg m +:+ "], error)"
       else if m.(me_StreamingClient) && negb m.(me_StreamingServer) then
         m.(me_GoName) +:+ "(ctx context.Context) (*connect.ClientStreamForClient[" +:+ inputType pkg m +:+ ", " +:+
           outputType pkg m +:+ "], error)"
       else
         m.(me_GoName) +:+ "(ctx context.Context) (*connect.BidiStreamForClient[" +:+ inputType pkg m +:+ ", " +:+
           outputType pkg m +:+ "], error)")
  else r ← returnSig pkg m; Some (m.(me_GoName) +:+ "(" +:+ ps +:+ ") " +:+ r).

Lemma interface_signature pkg m lines : generateInterfaceMethod pkg m = Some lines →
  ∃ sig, signature pkg m = Some sig ∧ lines = leading_comment m ++ [tab +:+ sig].
Proof.
  unfold generateInterfaceMethod, signature, generateStreamingInterfaceMethod, generateUnaryInterfaceMethod.
  destruct (params pkg m) as [ps|]; [|by destruct (streaming m)]. simpl. destruct (streaming m); simpl.
  - intros [= <-]. eexists. split; [reflexivity|]. f_equal. unfold T, P, inputType. simpl.
    repeat case_match; simpl; by rewrite ?str_app_assoc, ?str_app_nil_r.
  - destruct (returnSig pkg m) as [r|]; [|done]. intros [= <-]. eexists. split; [reflexivity|].
    f_equal. unfold T, P. simpl. by rewrite ?str_app_assoc, ?str_app_nil_r.
Qed.

Lemma delegate_signature pkg struct m sig lines : signature pkg m = Some sig → generateDelegateMethod pkg struct m = Some lines →
  "func (d *" +:+ struct +:+ ") " +:+ sig +:+ " {" ∈ lines.
Proof.
  unfold signature, generateDelegateMethod, generateStreamingDelegateMethod, generateUnaryDelegateMethod.
  destruct (params pkg m) as [ps|]; [|done]. simpl. intros Hs Hl.
  enough (∃ l2, lines = implements_comment m ++ ["func (d *" +:+ struct +:+ ") " +:+ sig +:+ " {"] ++ l2) as [l2 ->]
    by (apply elem_of_app; right; by left).
  destruct (streaming m).
  - injection Hs as <-. repeat case_match; injection Hl as <-; eexists; f_equal; unfold P; simpl; f_equal;
      by rewrite ?str_app_assoc, ?str_app_nil_r.
  - destruct (returnSig pkg m) as [r|]; [|done]. injection Hs as <-. injection Hl as <-. eexists. f_equal. unfold P. simpl. f_equal.
    by rewrite ?str_app_assoc, ?str_app_nil_r.
Qed.

Lemma mapM_elem {A B} (f : A → option B) l k x : mapM f l = Some k → x ∈ l → ∃ y, f x = Some y ∧ y ∈ k.
Proof.
  intros Hk%mapM_Some Hx. apply list_elem_of_lookup in Hx as [i Hi].
  destruct (Forall2_lookup_l _ _ _ _ _ Hk Hi) as (y & Hy & Hf). exists y. split; [done|]. by eapply list_elem_of_lookup_2.
Qed.

Lemma elem_of_concat {A} (x : A) l (ll : list (list A)) : x ∈ l → l ∈ ll → x ∈ concat ll.
Proof. intros Hx Hl. apply list_elem_of_In, in_concat. exists l. by rewrite <- !list_elem_of_In. Qed.

(** ** Properties *)

(** C39: in a generated delegate package the struct has the methods of the interface.
    The package asserts that the struct implements the interface, and for every
    method of the service the interface has a line, and the struct a method, with
    one and the same name, parameter list and result list. *)
Theorem delegate_implements_interface file service name lines (Hgen : generateDelegate file service = Some (name, lines)) :
  ∃ struct, delegateStructName service = Some struct ∧
    "var _ " +:+ interfaceName service +:+ " = (*" +:+ struct +:+ ")(nil)" ∈ lines ∧
    ∀ m, m ∈ service.(s_Methods) → ∃ sig, signature file.(fi_GoPackageName) m = Some sig ∧
      tab +:+ sig ∈ lines ∧ "func (d *" +:+ struct +:+ ") " +:+ sig +:+ " {" ∈ lines.
Proof.
  unfold generateDelegate in Hgen. apply bind_Some in Hgen as (struct & Hs & Hgen).
  apply bind_Some in Hgen as (interface & Hi & Hgen). apply bind_Some in Hgen as (methods & Hm & Hl).
  apply (inj Some), (f_equal snd) in Hl. cbn [snd] in Hl. rewrite <- Hl. clear Hl.
  exists struct. split; [done|]. split.
  - assert (Hx : "var _ " +:+ interfaceName service +:+ " = (*" +:+ struct +:+ ")(nil)" ∈
      P ["var _ "; interfaceName service; " = (*"; struct; ")(nil)"]).
    { unfold P. simpl. by left. }
    rewrite !elem_of_app. tauto.
  - intros m Hin. destruct (mapM_elem _ _ _ m Hi Hin) as (il & Hil & Hiin).
    destruct (mapM_elem _ _ _ m Hm Hin) as (ml & Hml & Hmin).
    destruct (interface_signature _ _ _ Hil) as (sig & Hsig & ->). exists sig. split; [done|].
    pose proof (delegate_signature _ _ _ _ _ Hsig Hml) as Hd. split.
    + apply (elem_of_concat (tab +:+ sig)) in Hiin; [|apply elem_of_app; right; by left]. rewrite !elem_of_app. tauto.
    + apply (elem_of_concat _ _ _ Hd) in Hmin. rewrite !elem_of_app. tauto.
Qed.

(** C40: Generating a delegate panics exactly when the service is called "Service" or a
    method has a field without a Go type: a repeated enum, or a map of enums. *)
Theorem generateDelegate_total file service :
  is_Some (generateDelegate file service) ↔
  interfaceName service ≠ "" ∧ ∀ m, m ∈ service.(s_Methods) → method_typed m.
Proof.
  unfold generateDelegate. rewrite bind_is_Some. split.
  - intros (struct & Hs & H). apply bind_is_Some in H as (interface & Hi & _). split.
    + unfold delegateStructName in Hs. by destruct (interfaceName service).
    + intros m Hm. apply (interface_typed file.(fi_GoPackageName)).
      assert (Hi' : is_Some (mapM (generateInterfaceMethod (fi_GoPackageName file)) (s_Methods service))) by by exists interface.
      by apply mapM_is_Some with (x := m) in Hi'.
  - intros [Hn Ht]. destruct (delegateStructName service) as [struct|] eqn:Es;
      [|unfold delegateStructName in Es; by destruct (interfaceName service)].
    exists struct. split; [done|]. apply bind_is_Some.
    destruct (proj2 (mapM_is_Some (generateInterfaceMethod (fi_GoPackageName file)) (s_Methods service))) as [interface Hi].
    { intros m Hm. by apply interface_typed, Ht. }
    exists interface. split; [done|]. apply bind_is_Some.
    destruct (proj2 (mapM_is_Some (generateDelegateMethod (fi_GoPackageName file) struct) (s_Methods service))) as [ms Hm].
    { intros m Hm. by apply delegate_typed, Ht. }
    exists ms. split; [done|by eexists].
Qed.

(** ** The key-value service, and the files checked in for it *)

Definition scalar (name kind : string) : Field := mkField name kind false false None None.

Definition kv_service : Service :=
  let msg name fields := mkMessage name fields in
  mkService "KVService"
    [mkMethod "Get" " Get retrieves a value by key." false false (msg "GetRequest" [scalar "Key" "string"])
       (msg "GetResponse" [scalar "Value" "bytes"; scalar "Found" "bool"]);
     mkMethod "Put" " Put stores a key-value pair." false false (msg "PutRequest" [scalar "Key" "string"; scalar "Value" "bytes"])
       (msg "PutResponse" []);
     mkMethod "Delete" " Delete removes a key." false false (msg "DeleteRequest" [scalar "Key" "string"])
       (msg "DeleteResponse" [scalar "Found" "bool"]);
     mkMethod "Watch" " Watch streams changes to keys with the given prefix." true false
       (msg "WatchRequest" [scalar "Prefix" "string"])
       (msg "WatchEvent" [mkField "Type" "enum" false false None (Some "EventType"); scalar "Key" "string"; scalar "Value" "bytes"])].

Definition kv_file : File :=
  mkFile "kv.proto" "kvv1" "github.com/masegraye/connect-plugin-go/testdata/kv/gen" [kv_service] true.

(** Text without blanks and empty lines: what formatting may change. *)
Fixpoint squeeze1 (s : string) : string :=
  match s with "" => "" | String a s' => if is_space a then squeeze1 s' else String a (squeeze1 s') end.
Definition squeeze (lines : list string) : list string := filter (λ l, l ≠ "") (squeeze1 <$> lines).

(** testdata/kv/gen/kvv1delegate/delegate.go and testdata/kv/gen/kvv1plugin/plugin.go *)
Definition golden_delegate : list string :=
  ["//Codegeneratedbyprotoc-gen-connect-plugin.DONOTEDIT.";
   "//source:kv.proto";
   "packagekvv1delegate";
   "import(";
   dq +:+ "context" +:+ dq;
   dq +:+ "net/http" +:+ dq;
   dq +:+ "connectrpc.com/connect" +:+ dq;
   "kvv1" +:+ dq +:+ "github.com/masegraye/connect-plugin-go/testdata/kv/gen" +:+ dq;
   "kvv1connect" +:+ dq +:+ "github.com/masegraye/connect-plugin-go/testdata/kv/gen/kvv1connect" +:+ dq;
   ")";
   "//KVisthedomaininterfaceforKVService.";
   "typeKVinterface{";
   "//Getretrievesavaluebykey.";
   "Get(ctxcontext.Context,keystring)(value[]byte,foundbool,errerror)";
   "//Putstoresakey-valuepair.";
   "Put(ctxcontext.Context,keystring,value[]byte)error";
   "//Deleteremovesakey.";
   "Delete(ctxcontext.Context,keystring)(foundbool,errerror)";
   "//Watchstreamschangestokeyswiththegivenprefix.";
   "Watch(ctxcontext.Context,prefixstring)(*connect.ServerStreamForClient[kvv1.WatchEvent],error)";
   "}";
   "//kVDelegateimplementsKVusingaConnectclient.";
   "typekVDelegatestruct{";
   "clientkvv1connect.KVServiceClient";
   "}";
   "var_KV=(*kVDelegate)(nil)";
   "//NewcreatesaKVfromanexistingConnectclient.";
   "funcNew(clientkvv1connect.KVServiceClient)KV{";
   "return&kVDelegate{client:client}";
   "}";
   "//NewFromURLcreatesaKVfromaURL.";
   "funcNewFromURL(urlstring,opts...connect.ClientOption)KV{";
   "client:=kvv1connect.NewKVServiceClient(http.DefaultClient,url,opts...)";
   "return&kVDelegate{client:client}";
   "}";
   "//GetimplementsGetviaConnectclient.";
   "func(d*kVDelegate)Get(ctxcontext.Context,keystring)(value[]byte,foundbool,errerror){";
   "req:=&kvv1.GetRequest{";
   "Key:key,";
   "}";
   "resp,err:=d.client.Get(ctx,connect.NewRequest(req))";
   "iferr!=nil{";
   "returnnil,false,err";
   "}";
   "returnresp.Msg.Value,resp.Msg.Found,nil";
   "}";
   "//PutimplementsPutviaConnectclient.";
   "func(d*kVDelegate)Put(ctxcontext.Context,keystring,value[]byte)error{";
   "req:=&kvv1.PutRequest{";
   "Key:key,";
   "Value:value,";
   "}";
   "_,err:=d.client.Put(ctx,connect.NewRequest(req))";
   "iferr!=nil{";
   "returnerr";
   "}";
   "returnnil";
   "}";
   "//DeleteimplementsDeleteviaConnectclient.";
   "func(d*kVDelegate)Delete(ctxcontext.Context,keystring)(foundbool,errerror){";
   "req:=&kvv1.DeleteRequest{";
   "Key:key,";
   "}";
   "resp,err:=d.client.Delete(ctx,connect.NewRequest(req))";
   "iferr!=nil{";
   "returnfalse,err";
   "}";
   "returnresp.Msg.Found,nil";
   "}";
   "//WatchimplementsWatchviaConnectclient.";
   "func(d*kVDelegate)Watch(ctxcontext.Context,prefixstring)(*connect.ServerStreamForClient[kvv1.WatchEvent],error){";
   "req:=&kvv1.WatchRequest{";
   "Prefix:prefix,";
   "}";
   "returnd.client.Watch(ctx,connect.NewRequest(req))";
   "}"].

Definition golden_plugin : list string :=
  ["//Codegeneratedbyprotoc-gen-connect-plugin.DONOTEDIT.";
   "//source:kv.proto";
   "packagekvv1plugin";
   "import(";
   dq +:+ "fmt" +:+ dq;
   dq +:+ "net/http" +:+ dq;
   dq +:+ "connectrpc.com/connect" +:+ dq;
   "connectplugin" +:+ dq +:+ "github.com/masegraye/connect-plugin-go" +:+ dq;
   "kvv1connect" +:+ dq +:+ "github.com/masegraye/connect-plugin-go/testdata/kv/gen/kvv1connect" +:+ dq;
   ")";
   "//KVServicePluginimplementsconnectplugin.PluginforKVService.";
   "typeKVServicePluginstruct{}";
   "var_connectplugin.Plugin=(*KVServicePlugin)(nil)";
   "//Metadatareturnspluginmetadata.";
   "func(p*KVServicePlugin)Metadata()connectplugin.PluginMetadata{";
   "returnconnectplugin.PluginMetadata{";
   "Name:" +:+ dq +:+ "kv" +:+ dq +:+ ",";
   "Path:kvv1connect.KVServiceName,";
   "Version:" +:+ dq +:+ "1.0.0" +:+ dq +:+ ",";
   "Provides:[]connectplugin.ServiceDeclaration{";
   "{";
   "Type:" +:+ dq +:+ "kv" +:+ dq +:+ ",";
   "Version:" +:+ dq +:+ "1.0.0" +:+ dq +:+ ",";
   "Path:kvv1connect.KVServiceName,";
   "},";
   "},";
   "}";
   "}";
   "//ConnectServercreatesaserver-sidehandlerforthisplugin.";
   "func(p*KVServicePlugin)ConnectServer(implany)(string,http.Handler,error){";
   "handler,ok:=impl.(kvv1connect.KVServiceHandler)";
   "if!ok{";
   "return" +:+ dq +:+ dq +:+ ",nil,fmt.Errorf(" +:+ dq +:+ "implmustimplementKVServiceHandler,got%T" +:+ dq +:+ ",impl)";
   "}";
   "path,h:=kvv1connect.NewKVServiceHandler(handler)";
   "returnpath,h,nil";
   "}";
   "//ConnectClientcreatesaclient-sideplugininstance.";
   "func(p*KVServicePlugin)ConnectClient(baseURLstring,httpClientconnect.HTTPClient)(any,error){";
   "returnkvv1connect.NewKVServiceClient(httpClient,baseURL),nil";
   "}"].


(** The model prints the files that are checked in, up to formatting. *)
Lemma kv_golden :
  (λ fs : list GeneratedFile, (λ f, (f.1, squeeze f.2)) <$> fs) <$> run [kv_file] =
  Some [("kvv1plugin/plugin.go", golden_plugin); ("kvv1delegate/delegate.go", golden_delegate)].
Proof. by vm_compute. Qed.

Lemma delegate_implements_interface_witness :
  ∃ name lines, generateDelegate kv_file kv_service = Some (name, lines) ∧
    "var _ KV = (*kVDelegate)(nil)" ∈ lines.
Proof.
  destruct (generateDelegate kv_file kv_service) as [[name lines]|] eqn:E; [|vm_compute in E; discriminate E].
  exists name, lines. split; [reflexivity|].
  destruct (delegate_implements_interface kv_file kv_service name lines E) as (struct & Hs & Hv & _).
  vm_compute in Hs. injection Hs as <-. exact Hv.
Defined.

(** A repeated enum field makes the generator panic. *)
Lemma repeated_enum_panics :
  protoFieldToGoType "p" (mkField "Kinds" "enum" true false None (Some "Kind")) = None.
Proof. done. Qed.

(** Two services of one file are printed to the same two file names. *)
Lemma two_services_collide :
  (λ fs : list GeneratedFile, fs.*1) <$>
    generateFile (mkFile "a.proto" "av1" "a" [mkService "XService" []; mkService "YService" []] true) =
  Some ["av1plugin/plugin.go"; "av1delegate/delegate.go"; "av1plugin/plugin.go"; "av1delegate/delegate.go"].
Proof. by vm_compute. Qed.

(** A field of the request and one of the response with the same name, or a field
    called [type], give a signature that is not Go. *)
Lemma clashing_names :
  signature "p" (mkMethod "Swap" "" false false (mkMessage "Q" [scalar "Id" "string"; scalar "Type" "string"])
                   (mkMessage "R" [scalar "Id" "string"])) =
  Some "Swap(ctx context.Context, id string, type string) (id string, err error)".
Proof. by vm_compute. Qed.

End generator.
