(* ===== verification/NetURL.v ===== *)
(** * URLs and query strings (package net/url, as the example plugins use it)

    [QueryEscape] and [QueryUnescape], the lenient parsing of a query string behind
    [Request.URL.Query().Get], and the parsing of a request URL by the HTTP client.
    The library is the language's: the definitions follow its documentation for the
    URLs the plugins build, absolute http URLs whose authority has no user
    information and no bracketed address. *)

From stdpp Require Import prelude gmap strings list fin_maps.
From Stdlib Require Import ZArith NArith Ascii.
From S2P Require Import Prelude GoRuntime Identity.

Module neturl.
Import identity.

Definition upper_hex : string := "0123456789ABCDEF".

(** The bytes a query component keeps (RFC 3986, unreserved). *)
Definition unreserved (c : ascii) : bool :=
  is_alnum c || existsb (λ d, bool_decide (d = c)) ["-"; "_"; "."; "~"]%char.

Definition byte_of (c : ascii) : Z := Z.of_N (N_of_ascii c).
Definition of_byte (z : Z) : ascii := ascii_of_N (Z.to_N z).

Definition escape_byte (c : ascii) (rest : string) : string :=
  if unreserved c then String c rest
  else if bool_decide (c = " "%char) then String "+" rest
  else String "%" (String (digit_at upper_hex (byte_of c / 16)) (String (digit_at upper_hex (byte_of c mod 16)) rest)).

Fixpoint QueryEscape (s : string) : string :=
  match s with "" => "" | String c s' => escape_byte c (QueryEscape s') end.

Definition unhex (c : ascii) : option Z :=
  match digit_index upper_hex c with Some v => Some v | None => digit_index hex_alphabet c end.

(** Undoing percent escapes; [plus] says that a plus sign is a space. *)
Fixpoint unescape (plus : bool) (s : string) : option string :=
  match s with
  | "" => Some ""
  | String c s' =>
      if bool_decide (c = "%"%char) then
        match s' with
        | String a (String b r) =>
            match unhex a, unhex b with
            | Some x, Some y => String (of_byte (16 * x + y)) <$> unescape plus r
            | _, _ => None
            end
        | _ => None
        end
      else String (if plus && bool_decide (c = "+"%char) then " "%char else c) <$> unescape plus s'
  end.

Definition QueryUnescape : string → option string := unescape true.

(** [strings.Cut]: all of [s] and nothing when [c] does not occur. *)
Definition Cut (c : ascii) (s : string) : string * string := default (s, "") (cut c s).

(** One part of a query between ampersands; malformed parts are dropped. *)
Definition parse_pair (part : string) : option (string * string) :=
  if negb (free_of ";" part) || bool_decide (part = "") then None
  else
    let '(key, value) := Cut "=" part in
    match QueryUnescape key, QueryUnescape value with
    | Some k, Some v => Some (k, v)
    | _, _ => None
    end.

(** [URL.Query()]: the values in the order of the string. *)
Definition Query (raw : string) : list (string * string) := omap parse_pair (Split "&" raw).

(** [Values.Get] *)
Definition Values_Get (vs : list (string * string)) (key : string) : string :=
  match filter (λ kv, kv.1 = key) vs with (_, v) :: _ => v | [] => "" end.

Definition query_get (raw key : string) : string := Values_Get (Query raw) key.

(** ** Request URLs *)

Record URL := mkURL { u_Host : string; u_Path : string; u_RawQuery : string }.

Definition is_ctl (c : ascii) : bool := (N_of_ascii c <? 32)%N || (N_of_ascii c =? 127)%N.

Definition host_byte (c : ascii) : bool :=
  is_alnum c || (128 <=? N_of_ascii c)%N ||
  existsb (λ d, bool_decide (d = c)) ["-"; "_"; "."; "~"; "!"; "$"; "&"; "'"; "("; ")"; "*"; "+"; ","; ";"; "="; ":"; "<"; ">"]%char.

(** Host and optional port. *)
Definition valid_authority (h : string) : bool :=
  str_all host_byte h &&
  match reverse (Split ":" h) with port :: _ :: _ => str_all is_digit port | _ => true end.

(** The authority of what follows the scheme, and the path. *)
Definition split_authority (s : string) : string * string :=
  match cut "/" s with Some (a, p) => (a, String "/" p) | None => (s, "") end.

(** [http.NewRequest] of a URL; [None] is its error.  The fragment is not sent. *)
Definition parse_url (s : string) : option URL :=
  let '(u, frag) := Cut "#" s in
  match unescape false frag with
  | None => None
  | Some _ =>
      if negb (str_all (λ c, negb (is_ctl c)) u) then None
      else
        match strip_prefix "http://" u with
        | None => None
        | Some rest =>
            let '(rest, query) := Cut "?" rest in
            let '(authority, path) := split_authority rest in
            if negb (valid_authority authority) then None
            else (λ p, mkURL authority p query) <$> unescape false path
        end
  end.

(** The request line has no room for a space in the query: the server refuses it. *)
Definition well_formed_line (u : URL) : bool := free_of " " u.(u_RawQuery).

(** ** Lemmas *)

Lemma byte_of_range c : (0 ≤ byte_of c < 256)%Z.
Proof. unfold byte_of. pose proof (N_ascii_bounded c). lia. Qed.

Lemma of_byte_of c : of_byte (byte_of c) = c.
Proof. unfold of_byte, byte_of. by rewrite N2Z.id, ascii_N_embedding. Qed.

Lemma unhex_digit i : (0 ≤ i < 16)%Z → unhex (digit_at upper_hex i) = Some i.
Proof.
  intros H. pose (f := λ i : Z, match unhex (digit_at upper_hex i) with Some j => (j =? i)%Z | None => false end).
  assert (Hf : f i = true) by by apply (below_case 16 f).
  unfold f in Hf. destruct (unhex _); [|done]. apply Z.eqb_eq in Hf. by subst.
Qed.

Lemma unescape_cons plus c s : c ≠ "%"%char →
  unescape plus (String c s) = String (if plus && bool_decide (c = "+"%char) then " "%char else c) <$> unescape plus s.
Proof. intros Hc. simpl. by rewrite bool_decide_eq_false_2. Qed.

Lemma unescape_escaped plus x y s : (0 ≤ x < 16)%Z → (0 ≤ y < 16)%Z →
  unescape plus (String "%" (String (digit_at upper_hex x) (String (digit_at upper_hex y) s))) =
  String (of_byte (16 * x + y)) <$> unescape plus s.
Proof. intros Hx Hy. cbn [unescape]. by rewrite !unhex_digit. Qed.

Lemma unreserved_not c d : unreserved d = false → unreserved c = true → c ≠ d.
Proof. intros Hd Hc ->. congruence. Qed.

Lemma QueryUnescape_escape s : QueryUnescape (QueryEscape s) = Some s.
Proof.
  unfold QueryUnescape. induction s as [|c s IH]; [done|]. cbn [QueryEscape]. unfold escape_byte.
  destruct (unreserved c) eqn:E.
  - rewrite unescape_cons, bool_decide_eq_false_2 by (by apply unreserved_not). by rewrite andb_false_r, IH.
  - case_bool_decide as Hc; [subst c; rewrite unescape_cons by done; by rewrite IH|].
    pose proof (byte_of_range c). rewrite unescape_escaped by div_lia.
    rewrite IH. simpl. do 2 f_equal. rewrite <- (of_byte_of c) at 3. f_equal. div_lia.
Qed.

(** Text in which no byte has a meaning to [unescape]. *)
Definition literal (s : string) : bool := free_of "%" s && free_of "+" s.

Lemma literal_cons c s : literal (String c s) = true ↔ c ≠ "%"%char ∧ c ≠ "+"%char ∧ literal s = true.
Proof.
  unfold literal, free_of. cbn [str_all]. rewrite !andb_true_iff, !bool_decide_eq_true. tauto.
Qed.

Lemma unescape_literal plus s : literal s = true → unescape plus s = Some s.
Proof.
  induction s as [|c s IH]; [done|]. intros (H1 & H2 & Hs)%literal_cons.
  rewrite unescape_cons, bool_decide_eq_false_2, andb_false_r, IH by done. done.
Qed.

Lemma free_of_cons c a s : free_of c (String a s) = true ↔ a ≠ c ∧ free_of c s = true.
Proof. unfold free_of. cbn [str_all]. by rewrite andb_true_iff, bool_decide_eq_true. Qed.

Lemma free_of_all (f : ascii → bool) c s : f c = false → str_all f s = true → free_of c s = true.
Proof.
  intros Hc. unfold free_of. apply str_all_impl. intros a Ha. apply bool_decide_eq_true. congruence.
Qed.

Lemma Cut_free c s : free_of c s = true → Cut c s = (s, "").
Proof. intros H. unfold Cut. by rewrite cut_free. Qed.

Lemma Cut_app c s t : free_of c s = true → Cut c (s +:+ String c t) = (s, t).
Proof. intros H. unfold Cut. by rewrite cut_app. Qed.

(** A part [key=value] of literal texts; the value may hold further equal signs. *)
Lemma parse_pair_literal k v : k ≠ "" →
  free_of "=" k = true → free_of ";" (k +:+ "=" +:+ v) = true → literal k = true → literal v = true →
  parse_pair (k +:+ "=" +:+ v) = Some (k, v).
Proof.
  intros Hne Hk Hsemi Hlk Hlv. unfold parse_pair. rewrite Hsemi. cbn [negb orb].
  rewrite bool_decide_eq_false_2 by by destruct k.
  change ("=" +:+ v) with (String "=" v). rewrite Cut_app by done. unfold QueryUnescape. by rewrite !unescape_literal.
Qed.

Lemma Query_app p q : free_of "&" p = true → Query (p +:+ "&" +:+ q) = omap parse_pair [p] ++ Query q.
Proof.
  intros H. unfold Query. change ("&" +:+ q) with (String "&" q). rewrite Split_app by done.
  cbn [omap list_omap]. by destruct (parse_pair p).
Qed.

Lemma Query_one p : free_of "&" p = true → Query p = omap parse_pair [p].
Proof. intros H. unfold Query. by rewrite Split_free. Qed.

Lemma parse_url_http authority path query :
  valid_authority authority = true → free_of "/" authority = true →
  HasPrefix path "/" = true → literal path = true → free_of "?" authority = true → free_of "?" path = true →
  free_of "#" ("http://" +:+ authority +:+ path +:+ "?" +:+ query) = true →
  str_all (λ c, negb (is_ctl c)) ("http://" +:+ authority +:+ path +:+ "?" +:+ query) = true →
  parse_url ("http://" +:+ authority +:+ path +:+ "?" +:+ query) = Some (mkURL authority path query).
Proof.
  intros Ha Hsl Hp Hlp Hqa Hqp Hf Hc. unfold parse_url. rewrite Cut_free by done. cbn [unescape].
  rewrite Hc. cbn [negb]. rewrite strip_prefix_app.
  change ("?" +:+ query) with (String "?" query). rewrite <- str_app_assoc.
  rewrite Cut_app by (by rewrite free_of_app, Hqa, Hqp).
  apply HasPrefix_true in Hp as [p ->]. unfold split_authority.
  change ("/" +:+ p) with (String "/" p). rewrite cut_app by done. rewrite Ha. cbn [negb].
  by rewrite unescape_literal.
Qed.

End neturl.
