(* ===== verification/JSON.v ===== *)
(** * Decoding JSON (package encoding/json, as the programs use it)

    [json.Unmarshal] and [json.Decoder.Decode] into a struct of string fields: the
    grammar of values with escapes and the repair of invalid UTF-8, members in
    order with later ones overriding, names matched exactly or else without case.
    The library is the language's; names are folded in ASCII only. *)

From stdpp Require Import prelude gmap strings list fin_maps.
From Stdlib Require Import ZArith NArith Ascii.
From S2P Require Import Prelude GoRuntime Identity NetURL.

Module json.
Import identity neturl.

Definition dquote : ascii := "034"%char.
Definition backslash : ascii := "092"%char.

(** ** Values *)

Inductive value :=
| JNull
| JBool (b : bool)
| JNum (text : string)
| JStr (s : string)
| JArr (l : list value)
| JObj (l : list (string * value)).

(** ** Strings *)

(** [utf8.EncodeRune] *)
Definition EncodeRune (r : Z) : string :=
  let last := of_byte (128 + r mod 64)%Z in
  if (r <? 128)%Z then String (of_byte r) ""
  else if (r <? 2048)%Z then String (of_byte (192 + r / 64)%Z) (String last "")
  else if (r <? 65536)%Z then
    String (of_byte (224 + r / 4096)%Z) (String (of_byte (128 + r / 64 mod 64)%Z) (String last ""))
  else String (of_byte (240 + r / 262144)%Z) (String (of_byte (128 + r / 4096 mod 64)%Z)
         (String (of_byte (128 + r / 64 mod 64)%Z) (String last ""))).

Definition RuneError : string := EncodeRune 65533%Z.

Definition within (lo hi : Z) (c : ascii) : bool := (lo <=? byte_of c)%Z && (byte_of c <=? hi)%Z.
Definition continuation : ascii → bool := within 128%Z 191%Z.

(** The first rune of a text that starts with the byte [c >= 0x80]: its bytes, or
    the replacement character for one byte when the encoding is invalid. *)
Definition decode_rune (c : ascii) (s : string) : string * string :=
  let bad := (RuneError, s) in
  if within 194%Z 223%Z c then
    match s with
    | String d s1 => if continuation d then (String c (String d ""), s1) else bad
    | _ => bad
    end
  else if within 224%Z 239%Z c then
    match s with
    | String d (String e s2) =>
        let lo := if (byte_of c =? 224)%Z then 160%Z else 128%Z in
        let hi := if (byte_of c =? 237)%Z then 159%Z else 191%Z in
        if within lo hi d && continuation e then (String c (String d (String e "")), s2) else bad
    | _ => bad
    end
  else if within 240%Z 244%Z c then
    match s with
    | String d (String e (String f s3)) =>
        let lo := if (byte_of c =? 240)%Z then 144%Z else 128%Z in
        let hi := if (byte_of c =? 244)%Z then 143%Z else 191%Z in
        if within lo hi d && continuation e && continuation f
        then (String c (String d (String e (String f ""))), s3) else bad
    | _ => bad
    end
  else bad.

(** Four hexadecimal digits. *)
Definition getu4 (s : string) : option (Z * string) :=
  match s with
  | String a (String b (String c (String d s'))) =>
      w ← unhex a; x ← unhex b; y ← unhex c; z ← unhex d;
      Some ((4096 * w + 256 * x + 16 * y + z)%Z, s')
  | _ => None
  end.

Definition is_high (r : Z) : bool := (55296 <=? r)%Z && (r <=? 56319)%Z.
Definition is_low (r : Z) : bool := (56320 <=? r)%Z && (r <=? 57343)%Z.

(** The rune of a [\u] escape whose digits start [s], and the rest: a surrogate
    pair is one rune, a lone surrogate the replacement character. *)
Definition unicode_escape (s : string) : option (string * string) :=
  match getu4 s with
  | None => None
  | Some (r, s') =>
      if is_high r then
        match s' with
        | String c1 (String c2 s2) =>
            if bool_decide (c1 = backslash) && bool_decide (c2 = "u"%char) then
              match getu4 s2 with
              | Some (r', s'') =>
                  if is_low r' then Some (EncodeRune (65536 + (r - 55296) * 1024 + (r' - 56320))%Z, s'')
                  else Some (RuneError, s')
              | None => None
              end
            else Some (RuneError, s')
        | _ => Some (RuneError, s')
        end
      else if is_low r then Some (RuneError, s')
      else Some (EncodeRune r, s')
  end.

Definition simple_escape (c : ascii) : option ascii :=
  if bool_decide (c = dquote) then Some dquote
  else if bool_decide (c = backslash) then Some backslash
  else if bool_decide (c = "/"%char) then Some "/"%char
  else if bool_decide (c = "b"%char) then Some "008"%char
  else if bool_decide (c = "f"%char) then Some "012"%char
  else if bool_decide (c = "n"%char) then Some "010"%char
  else if bool_decide (c = "r"%char) then Some "013"%char
  else if bool_decide (c = "t"%char) then Some "009"%char
  else None.

Definition prepend (p : string) (r : option (string * string)) : option (string * string) :=
  match r with Some (s, rest) => Some (p +:+ s, rest) | None => None end.

(** The content of a string literal after its opening quote, and what follows the
    closing one.  Every step takes a byte at least, so the length is fuel enough. *)
Fixpoint scan_string (n : nat) (s : string) : option (string * string) :=
  match n with
  | 0 => None
  | S n =>
      match s with
      | "" => None
      | String c s' =>
          if bool_decide (c = dquote) then Some ("", s')
          else if bool_decide (c = backslash) then
            match s' with
            | "" => None
            | String e s'' =>
                if bool_decide (e = "u"%char) then
                  match unicode_escape s'' with
                  | Some (r, rest) => prepend r (scan_string n rest)
                  | None => None
                  end
                else
                  match simple_escape e with
                  | Some d => prepend (String d "") (scan_string n s'')
                  | None => None
                  end
            end
          else if (byte_of c <? 32)%Z then None
          else if (byte_of c <? 128)%Z then prepend (String c "") (scan_string n s')
          else let '(r, rest) := decode_rune c s' in prepend r (scan_string n rest)
      end
  end.

Definition parse_string (s : string) : option (string * string) := scan_string (S (String.length s)) s.

(** ** Numbers *)

Fixpoint digits (s : string) : string * string :=
  match s with
  | String c s' => if is_digit c then let '(d, r) := digits s' in (String c d, r) else ("", s)
  | "" => ("", "")
  end.

Definition some_digits (s : string) : option (string * string) :=
  match digits s with ("", _) => None | (d, r) => Some (d, r) end.

Definition integer_part (s : string) : option (string * string) :=
  match s with
  | String c s' => if bool_decide (c = "0"%char) then Some ("0", s') else some_digits s
  | "" => None
  end.

Definition fraction_part (s : string) : option (string * string) :=
  match s with
  | String c s' => if bool_decide (c = "."%char) then prepend "." (some_digits s') else Some ("", s)
  | "" => Some ("", s)
  end.

Definition exponent_part (s : string) : option (string * string) :=
  match s with
  | String c s' =>
      if bool_decide (c = "e"%char) || bool_decide (c = "E"%char) then
        match s' with
        | String g s'' =>
            if bool_decide (g = "+"%char) || bool_decide (g = "-"%char)
            then prepend (String c (String g "")) (some_digits s'') else prepend (String c "") (some_digits s')
        | "" => None
        end
      else Some ("", s)
  | "" => Some ("", s)
  end.

Definition parse_number (s : string) : option (string * string) :=
  let '(sign, s) := match strip_prefix "-" s with Some s' => ("-", s') | None => ("", s) end in
  match integer_part s with
  | None => None
  | Some (i, s) =>
      match fraction_part s with
      | None => None
      | Some (f, s) => prepend (sign +:+ i +:+ f) (exponent_part s)
      end
  end.

(** ** Values: one unit of fuel for each value, element and member *)

Definition is_space (c : ascii) : bool :=
  bool_decide (c = " "%char) || bool_decide (c = "009"%char) || bool_decide (c = "010"%char) || bool_decide (c = "013"%char).

Fixpoint skip_space (s : string) : string :=
  match s with String c s' => if is_space c then skip_space s' else s | "" => "" end.

Definition parse_literal (s : string) : option (value * string) :=
  match strip_prefix "null" s with
  | Some r => Some (JNull, r)
  | None =>
      match strip_prefix "true" s with
      | Some r => Some (JBool true, r)
      | None =>
          match strip_prefix "false" s with
          | Some r => Some (JBool false, r)
          | None => match parse_number s with Some (t, r) => Some (JNum t, r) | None => None end
          end
      end
  end.

Fixpoint parse_value (n : nat) (s : string) : option (value * string) :=
  match n with
  | 0 => None
  | S n =>
      let s := skip_space s in
      match s with
      | String c s' =>
          if bool_decide (c = dquote) then
            match parse_string s' with Some (t, r) => Some (JStr t, r) | None => None end
          else if bool_decide (c = "["%char) then
            match skip_space s' with
            | String d r => if bool_decide (d = "]"%char) then Some (JArr [], r)
                            else match parse_elements n s' with Some (l, r) => Some (JArr l, r) | None => None end
            | "" => None
            end
          else if bool_decide (c = "{"%char) then
            match skip_space s' with
            | String d r => if bool_decide (d = "}"%char) then Some (JObj [], r)
                            else match parse_members n s' with Some (l, r) => Some (JObj l, r) | None => None end
            | "" => None
            end
          else parse_literal s
      | "" => None
      end
  end
with parse_elements (n : nat) (s : string) : option (list value * string) :=
  match n with
  | 0 => None
  | S n =>
      match parse_value n s with
      | None => None
      | Some (v, s) =>
          match skip_space s with
          | String c s =>
              if bool_decide (c = "]"%char) then Some ([v], s)
              else if bool_decide (c = ","%char) then
                match parse_elements n s with Some (l, s) => Some (v :: l, s) | None => None end
              else None
          | "" => None
          end
      end
  end
with parse_members (n : nat) (s : string) : option (list (string * value) * string) :=
  match n with
  | 0 => None
  | S n =>
      match skip_space s with
      | String c s =>
          if bool_decide (c = dquote) then
            match parse_string s with
            | None => None
            | Some (k, s) =>
                match skip_space s with
                | String c s =>
                    if bool_decide (c = ":"%char) then
                      match parse_value n s with
                      | None => None
                      | Some (v, s) =>
                          match skip_space s with
                          | String c s =>
                              if bool_decide (c = "}"%char) then Some ([(k, v)], s)
                              else if bool_decide (c = ","%char) then
                                match parse_members n s with Some (l, s) => Some ((k, v) :: l, s) | None => None end
                              else None
                          | "" => None
                          end
                      end
                    else None
                | "" => None
                end
            end
          else None
      | "" => None
      end
  end.

Definition fuel (s : string) : nat := S (2 * String.length s).

(** ** Decoding into a struct of string fields *)

Definition matches_field (fields : list string) (key : string) : option string :=
  if bool_decide (key ∈ fields) then Some key
  else head (filter (λ f, ToLower f = ToLower key) fields).

(** The members in order: [None] is the error of a member of another type. *)
Fixpoint decode_members (fields : list string) (l : list (string * value)) (acc : gmap string string) :
    option (gmap string string) :=
  match l with
  | [] => Some acc
  | (k, v) :: l' =>
      match matches_field fields k with
      | None => decode_members fields l' acc
      | Some f =>
          match v with
          | JStr s => decode_members fields l' (<[f := s]> acc)
          | JNull => decode_members fields l' acc
          | _ => None
          end
      end
  end.

Definition decode (fields : list string) (v : value) : option (gmap string string) :=
  match v with
  | JObj l => decode_members fields l ∅
  | JNull => Some ∅
  | _ => None
  end.

(** [json.Unmarshal]: one value and nothing else. *)
Definition Unmarshal (fields : list string) (body : string) : option (gmap string string) :=
  match parse_value (fuel body) body with
  | Some (v, rest) => if bool_decide (skip_space rest = "") then decode fields v else None
  | None => None
  end.

(** [json.NewDecoder(body).Decode]: the first value of the text. *)
Definition Decode (fields : list string) (body : string) : option (gmap string string) :=
  match parse_value (fuel body) body with Some (v, _) => decode fields v | None => None end.

(** ** Lemmas *)

(** Bytes that stand for themselves inside a string literal. *)
Definition plain_char (c : ascii) : bool :=
  negb (bool_decide (c = dquote)) && negb (bool_decide (c = backslash)) && within 32%Z 127%Z c.

Lemma scan_string_plain n s rest : str_all plain_char s = true → String.length s < n →
  scan_string n (s +:+ String dquote rest) = Some (s, rest).
Proof.
  revert n. induction s as [|c s IH]; intros n Hs Hn.
  - destruct n; [simpl in Hn; lia|]. rewrite str_app_nil. cbn [scan_string]. by rewrite bool_decide_eq_true_2.
  - cbn [str_all String.length] in Hs, Hn. apply andb_true_iff in Hs as [Hc Hs]. destruct n as [|n]; [lia|].
    unfold plain_char, within in Hc. rewrite !andb_true_iff, !negb_true_iff, Z.leb_le, Z.leb_le in Hc.
    destruct Hc as [[H1 H2] [H3 H4]]. rewrite str_app_cons. cbn [scan_string]. rewrite H1, H2.
    replace (byte_of c <? 32)%Z with false by (symmetry; apply Z.ltb_ge; lia).
    replace (byte_of c <? 128)%Z with true by (symmetry; apply Z.ltb_lt; lia).
    by rewrite IH by (done || lia).
Qed.

Lemma parse_string_plain s rest : str_all plain_char s = true →
  parse_string (s +:+ String dquote rest) = Some (s, rest).
Proof. intros Hs. apply scan_string_plain; [done|]. rewrite str_length_app. simpl. lia. Qed.

End json.
