(* ===== verification/PluginApp.v ===== *)
(** * What the example plugins share (examples/*-plugin/main.go)

    The five example plugins repeat the same code: choosing the deployment from the
    environment, connecting, registering services, checking a dependency, calling
    another plugin through the host, and the PluginIdentity and PluginControl
    handlers.  It is written once here, and each plugin's file instantiates it.
    Everything outside the plugin's process is an interface, [World]. *)

From stdpp Require Import prelude gmap strings list fin_maps.
From Stdlib Require Import ZArith Ascii.
From S2P Require Import Prelude GoRuntime Identity Lifecycle Plugin Handshake Discovery Client Server NetURL JSON.
From S2P Require Registry Router.

Module pluginapp.
Import plugin lifecycle handshake client neturl json.

(** ** The world outside a plugin *)

Record HTTPRequest := mkHTTPRequest { hr_Method : string; hr_URL : URL; hr_Header : Header }.

Abbreviation Request := (Router.router.Request string).
Abbreviation Response := (Router.router.Response string).
Abbreviation mkResponse := (Router.router.mkResponse (Body := string)).
Abbreviation DiscoverServiceResponse := Registry.registry.DiscoverServiceResponse.

(** RPCs go to an endpoint; [sleeps] is what happens while the plugin sleeps. *)
Class World (W : Type) := {
  rpc_Handshake : W → string → HandshakeRequest → W * res HandshakeResponse;
  rpc_RegisterService : W → string → Registry.registry.RegisterServiceRequest → W * res string;
  rpc_DiscoverService : W → string → Header → string → string → W * res DiscoverServiceResponse;
  rpc_ReportHealth : W → string → Header → client.ReportHealthRequest → W * option error;
  http_Do : W → HTTPRequest → W * res Response;
  sleeps : W → Duration → W;
}.

(** ** Responses *)

(** [http.Error] *)
Definition http_Error (msg : string) (code : Z) : Response :=
  mkResponse code
    (Header_Set (Header_Set ∅ "Content-Type" "text/plain; charset=utf-8") "X-Content-Type-Options" "nosniff")
    (msg +:+ String "010" "").

Definition quoted (s : string) : string := String dquote (s +:+ String dquote "").

Definition json_response (body : string) : Response :=
  mkResponse StatusOK (Header_Set ∅ "Content-Type" "application/json") body.

Definition url_param (r : Request) (key : string) : string := query_get r.(Router.router.rq_RawQuery) key.

(** Base paths of the generated handlers. *)
Definition PluginControlPath : string := "/connectplugin.v1.PluginControl/".
Definition PluginIdentityPath : string := "/connectplugin.v1.PluginIdentity/".

(** What a plugin's mux serves: the two RPC services, and functions of its own. *)
Inductive plugin_route (F : Type) := Control | Identity | Func (f : F).
Arguments Control {F}.
Arguments Identity {F}.
Arguments Func {F} f.

Definition plugin_mux {F} (funcs : list (string * F)) : server.mux (plugin_route F) :=
  [(PluginControlPath, Control); (PluginIdentityPath, Identity)] ++ ((λ pf, (pf.1, Func pf.2)) <$> funcs).

Section app.
Context {Impl Handler Stub W : Type} `{GoRange} `{World W}.
Abbreviation Client := (client.Client Impl Handler Stub).
Abbreviation ClientConfig := (client.ClientConfig Impl Handler Stub).

(** ** Configuration: [env] is [os.Getenv] *)

Definition unmanaged (env : string → string) : bool := bool_decide (env "HOST_URL" ≠ "").

Definition host_url (env : string → string) : string :=
  if unmanaged env then env "HOST_URL" else "http://localhost:8080".

Definition or_default (s d : string) : string := if bool_decide (s = "") then d else s.

Definition example_config (selfID name : string) (provides : list ServiceDeclaration)
    (requires : list ServiceDependency) (hostURL : string) : ClientConfig :=
  mkClientConfig "" hostURL None 0 "" "" selfID "1.0.0" (mkPluginMetadata name "" "1.0.0" provides requires) None "".

(** ** Requests to the host *)

Definition identity_headers (c : Client) : Header :=
  Header_Set (Header_Set ∅ "X-Plugin-Runtime-ID" (RuntimeID c)) "Authorization" ("Bearer " +:+ RuntimeToken c).

Definition discover (c : Client) (w : W) (regClient serviceType : string) : W * res DiscoverServiceResponse :=
  rpc_DiscoverService w regClient (identity_headers c) serviceType "1.0.0".

(** [Client.ReportHealth] on the world. *)
Definition report (c : Client) (w : W) (state : Z) (reason : string) (deps : list string) : W * option error :=
  (match c.(lifecycleClient) with
   | None => w
   | Some ep => (rpc_ReportHealth w ep (identity_headers c) (mkReportHealthRequest state reason deps)).1
   end,
   client.ReportHealth (λ ep hdr req, (rpc_ReportHealth w ep hdr req).2) c state reason deps).

(** [req, _ := http.NewRequestWithContext(...)], the identity headers, and [Do]:
    without a request the headers are set on nil, and the call panics ([None]). *)
Definition call (c : Client) (w : W) (method url : string) : W * option (res Response) :=
  match parse_url url with
  | None => (w, None)
  | Some u => let '(w', r) := http_Do w (mkHTTPRequest method u (identity_headers c)) in (w', Some r)
  end.

(** ** Registration *)

(** The registration request of a declared service. *)
Definition register_request (c : Client) (metadata : gmap string string) (svc : ServiceDeclaration) :
    Registry.registry.RegisterServiceRequest :=
  Registry.registry.mkRegisterServiceRequest (identity_headers c) svc.(sd_Type) svc.(sd_Version) svc.(sd_Path) metadata.

(** The loop over the provided services; an error ends the process. *)
Fixpoint register_all (c : Client) (w : W) (regClient : string) (metadata : gmap string string)
    (svcs : list ServiceDeclaration) : W * option error :=
  match svcs with
  | [] => (w, None)
  | svc :: svcs' =>
      match rpc_RegisterService w regClient (register_request c metadata svc) with
      | (w', Err e) => (w', Some (Errorf "Failed to register service %s: %v" [AStr svc.(sd_Type); AErr e]))
      | (w', Ok _) => register_all c w' regClient metadata svcs'
      end
  end.

(** [http://HOSTNAME:PORT], the metadata for the router. *)
Definition base_url (env : string → string) (port : string) : string :=
  "http://" +:+ or_default (env "HOSTNAME") "localhost" +:+ ":" +:+ or_default (env "PORT") port.

(** Discovering a dependency and reporting on it; the reports' errors are ignored. *)
Definition check_dependency (c : Client) (w : W) (regClient dep : string) : W :=
  match discover c w regClient dep with
  | (w', Err _) => (report c w' HEALTH_STATE_DEGRADED (dep +:+ " dependency not available") [dep]).1
  | (w', Ok _) => (report c w' HEALTH_STATE_HEALTHY "" []).1
  end.

Definition provided (c : Client) : list ServiceDeclaration := (Config c).(cc_Metadata).(Provides).

(** ** Starting *)

Inductive started := Fatal (e : error) | Running (c : Client).

(** The part of [main] before the plugin serves; [register] is what the plugin does
    once it is connected. *)
Definition start (config : string → ClientConfig) (register : Client → W → W * option error)
    (env : string → string) (w : W) : W * started :=
  match NewClient (config (host_url env)) with
  | Err e => (w, Fatal (Errorf "Failed to create client: %v" [AErr e]))
  | Ok c =>
      if unmanaged env then
        let '(w1, resp) := rpc_Handshake w c.(cl_cfg).(Endpoint) (handshake_request c.(cl_cfg)) in
        let '(c1, err) := Connect (λ _ _, resp) c in
        match err with
        | Some e => (w1, Fatal (Errorf "Failed to connect: %v" [AErr e]))
        | None =>
            match register c1 w1 with
            | (w2, Some e) => (w2, Fatal e)
            | (w2, None) => (w2, Running c1)
            end
        end
      else (w, Running c)
  end.

(** ** The RPC handlers of a plugin *)

Record GetPluginInfoResponse := mkGetPluginInfoResponse {
  gi_SelfId : string;
  gi_SelfVersion : string;
  gi_Provides : list ServiceDeclaration;
  gi_Requires : list ServiceDependency;
  gi_Metadata : gmap string string;
}.

Definition GetPluginInfo (c : Client) : GetPluginInfoResponse :=
  let cfg := Config c in
  mkGetPluginInfoResponse cfg.(SelfID) cfg.(SelfVersion)
    ((λ svc, mkServiceDeclaration svc.(sd_Type) svc.(sd_Version) svc.(sd_Path)) <$> cfg.(cc_Metadata).(Provides))
    ((λ dep, mkServiceDependency dep.(dep_Type) dep.(dep_MinVersion) dep.(dep_RequiredForStartup)
               dep.(dep_WatchForChanges)) <$> cfg.(cc_Metadata).(Requires))
    {["name" := cfg.(cc_Metadata).(Name); "version" := cfg.(cc_Metadata).(Version)]}.

Record SetRuntimeIdentityRequest := mkSetRuntimeIdentityRequest {
  si_RuntimeId : string;
  si_RuntimeToken : string;
  si_HostUrl : string;
}.

(** The handler answers [Acknowledged]; a goroutine registers afterwards ([register_later]). *)
Definition SetRuntimeIdentity (c : Client) (req : SetRuntimeIdentityRequest) : Client * bool :=
  (client.SetRuntimeIdentity c req.(si_RuntimeId) req.(si_RuntimeToken) req.(si_HostUrl), true).

(** [RuntimeToken[:8]] *)
Definition token_preview (token : string) : option string :=
  if (len token <? 8)%Z then None else Some (identity.str_take 8 token).

(** The variant that logs the first eight bytes of the token; [None] is the panic. *)
Definition SetRuntimeIdentity_logged (c : Client) (req : SetRuntimeIdentityRequest) : option (Client * bool) :=
  match token_preview req.(si_RuntimeToken) with
  | None => None
  | Some _ => Some (SetRuntimeIdentity c req)
  end.

(** The goroutine of the identity handler: [log.Fatalf] ends the process. *)
Definition register_later (register : Client → W → W * option error) (c : Client) (w : W) : W * option error :=
  register c (sleeps w (100 * Millisecond)%Z).

(** [PluginControl.Shutdown]: acknowledged, and the process exits a tenth of a
    second later whatever the grace period is. *)
Record ShutdownRequest := mkShutdownRequest { sr_GracePeriodSeconds : Z; sr_Reason : string }.
Definition Shutdown (req : ShutdownRequest) : bool * Duration := (true, (100 * Millisecond)%Z).

(** ** Lemmas *)

Lemma identity_headers_id c : Header_Get (identity_headers c) "X-Plugin-Runtime-ID" = c.(runtimeID).
Proof. unfold identity_headers. by rewrite Header_Get_Set_ne, Header_Get_Set_eq by done. Qed.

Lemma identity_headers_auth c : Header_Get (identity_headers c) "Authorization" = "Bearer " +:+ c.(runtimeToken).
Proof. unfold identity_headers. by rewrite Header_Get_Set_eq. Qed.

Lemma NewClient_example selfID name ps rs url : url ≠ "" →
  NewClient (example_config selfID name ps rs url) =
  Ok (mkClient (with_endpoint (example_config selfID name ps rs url) url url) false false false "" "" None None).
Proof.
  intros Hu. unfold NewClient, ValidateConfig, example_config, has_discovery. simpl.
  rewrite (bool_decide_eq_false_2 (url = "")) by done. rewrite (bool_decide_eq_true_2 (url ≠ "")) by done. simpl.
  by rewrite (bool_decide_eq_false_2 (url = "")).
Qed.

Lemma host_url_nonempty env : host_url env ≠ "".
Proof. unfold host_url, unmanaged. by case_bool_decide. Qed.

(** An identity assigned to a client that never connected leaves it without the RPC
    clients: those are made only when the HTTP client exists. *)
Lemma assigned_identity_has_no_clients (c : Client) req :
  c.(httpClient) = false → c.(registryClient) = None → c.(lifecycleClient) = None →
  let c' := (SetRuntimeIdentity c req).1 in
  RegistryClient c' = None ∧ c'.(lifecycleClient) = None ∧ c'.(runtimeID) = req.(si_RuntimeId).
Proof.
  intros Hh Hr Hl. unfold SetRuntimeIdentity, client.SetRuntimeIdentity, RegistryClient. simpl.
  by rewrite Hh, andb_false_r.
Qed.

Lemma start_managed config register env w c :
  unmanaged env = false → NewClient (config (host_url env)) = Ok c → start config register env w = (w, Running c).
Proof. intros Hu Hc. unfold start. by rewrite Hc, Hu. Qed.

End app.

Arguments started : clear implicits.
End pluginapp.
