(* ===== verification/StoragePlugin.v ===== *)
(** * Storage plugin (examples/storage-plugin/main.go)

    Keeps the URLs of the shortener by code, behind two HTTP functions, and logs
    every operation through the logger service.  The map is written and read in one
    critical section each; the handler logs after it. *)

From stdpp Require Import prelude gmap strings list fin_maps.
From Stdlib Require Import ZArith Ascii.
From S2P Require Import Prelude GoRuntime Plugin Lifecycle Handshake Client Server NetURL JSON PluginApp.
From S2P Require Registry Router.

Module storageplugin.
Import plugin client neturl json pluginapp.

Section storage.
Context {Impl Handler Stub W : Type} `{GoRange} `{World W}.
Abbreviation Client := (client.Client Impl Handler Stub).

Definition config : string → ClientConfig Impl Handler Stub :=
  example_config "storage-plugin" "Storage Plugin"
    [mkServiceDeclaration "storage" "1.0.0" "/storage.v1.Storage/"]
    [mkServiceDependency "logger" "1.0.0" true true].

Record storageService := mkStorageService { data : gmap string string; service_client : Client }.

(** ** Logging through the host *)

Definition log_url (c : Client) (endpoint message : string) : string :=
  (Config c).(HostURL) +:+ endpoint +:+ "/Log?message=" +:+ QueryEscape message.

(** The second component is [None] when the call panics. *)
Definition logOperation (c : Client) (w : W) (message : string) : W * option unit :=
  match RegistryClient c with
  | None => (w, Some tt)
  | Some regClient =>
      match discover c w regClient "logger" with
      | (w1, Err _) => (w1, Some tt)
      | (w1, Ok resp) =>
          let '(w2, r) := call c w1 "POST"
            (log_url c resp.(Registry.registry.dr_Endpoint).(Registry.registry.se_EndpointUrl) message) in
          (w2, match r with None => None | Some _ => Some tt end)
      end
  end.

(** ** The HTTP functions: [None] is a panic, which aborts the connection *)

Definition stored_message (shortCode url : string) : string := "STORE " +:+ shortCode +:+ " → " +:+ url.
Definition read_message (shortCode url : string) : string := "GET " +:+ shortCode +:+ " → " +:+ url.

Definition with_data (s : storageService) d : storageService := mkStorageService d s.(service_client).

Definition Store (s : storageService) (w : W) (r : Request) : storageService * W * option Response :=
  if bool_decide (r.(Router.router.rq_Method) ≠ "POST") then
    (s, w, Some (http_Error "Method not allowed" StatusMethodNotAllowed))
  else
    let shortCode := url_param r "code" in
    let url := url_param r "url" in
    if bool_decide (shortCode = "") || bool_decide (url = "") then
      (s, w, Some (http_Error "Missing code or url" StatusBadRequest))
    else
      let s' := with_data s (<[shortCode := url]> s.(data)) in
      let '(w', logged) := logOperation s.(service_client) w (stored_message shortCode url) in
      (s', w', (λ _, json_response ("{" +:+ quoted "success" +:+ ": true}")) <$> logged).

Definition Get (s : storageService) (w : W) (r : Request) : W * option Response :=
  let shortCode := url_param r "code" in
  if bool_decide (shortCode = "") then (w, Some (http_Error "Missing code" StatusBadRequest))
  else
    match s.(data) !! shortCode with
    | None => (w, Some (http_Error "Not found" StatusNotFound))
    | Some url =>
        let '(w', logged) := logOperation s.(service_client) w (read_message shortCode url) in
        (w', (λ _, json_response ("{" +:+ quoted "url" +:+ ": " +:+ quoted url +:+ "}")) <$> logged)
    end.

(** ** Starting and the RPC handlers *)

Definition registerServices (env : string → string) (c : Client) (w : W) : W * option error :=
  match RegistryClient c with
  | None => (w, None)
  | Some regClient =>
      match register_all c w regClient {["base_url" := base_url env "8082"]} (provided c) with
      | (w1, Some e) => (w1, Some e)
      | (w1, None) => (check_dependency c (sleeps w1 (200 * Millisecond)%Z) regClient "logger", None)
      end
  end.

Inductive func := FStore | FGet.

(** The mux, and the storage it serves. *)
Definition mux : server.mux (plugin_route func) :=
  plugin_mux [("/storage.v1.Storage/Store", FStore); ("/storage.v1.Storage/Get", FGet)].

Definition main (env : string → string) (w : W) : W * started Impl Handler Stub :=
  start config (registerServices env) env w.

Definition new_storage (c : Client) : storageService := mkStorageService ∅ c.

(** The listening address. *)
Definition listen_addr (env : string → string) : string := ":" +:+ or_default (env "PORT") "8082".

Definition GetPluginInfo (c : Client) : GetPluginInfoResponse := pluginapp.GetPluginInfo c.

Definition SetRuntimeIdentity (c : Client) (req : SetRuntimeIdentityRequest) : Client * bool :=
  pluginapp.SetRuntimeIdentity c req.

(** What the handler's goroutine does. *)
Definition after_identity (env : string → string) (c : Client) (w : W) : W * option error :=
  register_later (registerServices env) c w.

Definition GetHealth : lifecycle.HealthState * string := (lifecycle.HEALTH_STATE_HEALTHY, "operational").

Definition Shutdown (req : ShutdownRequest) : bool * Duration := pluginapp.Shutdown req.

(** ** Lemmas *)

Lemma Store_ok s w r code url :
  r.(Router.router.rq_Method) = "POST" → url_param r "code" = code → url_param r "url" = url → code ≠ "" → url ≠ "" →
  Store s w r =
    let '(w', logged) := logOperation s.(service_client) w (stored_message code url) in
    (with_data s (<[code := url]> s.(data)), w',
     (λ _, json_response ("{" +:+ quoted "success" +:+ ": true}")) <$> logged).
Proof.
  intros Hm Hc Hu Hc0 Hu0. unfold Store. rewrite Hm, Hc, Hu. rewrite bool_decide_eq_false_2 by (intros E; by apply E).
  by rewrite (bool_decide_eq_false_2 (code = "")), (bool_decide_eq_false_2 (url = "")) by done.
Qed.

Lemma Get_ok s w r code url : url_param r "code" = code → code ≠ "" → s.(data) !! code = Some url →
  Get s w r =
    let '(w', logged) := logOperation s.(service_client) w (read_message code url) in
    (w', (λ _, json_response ("{" +:+ quoted "url" +:+ ": " +:+ quoted url +:+ "}")) <$> logged).
Proof.
  intros Hc Hc0 Hd. unfold Get. rewrite Hc. rewrite bool_decide_eq_false_2 by done. by rewrite Hd.
Qed.

End storage.
End storageplugin.
