(* ===== verification/ApiPlugin.v ===== *)
(** * API plugin and command line client (examples/api-plugin/main.go, url-client/main.go)

    The front of the URL shortener: [Shorten] draws a code and stores the URL through
    the storage service, [Resolve] reads it back; the client calls both.  Texts of
    error values appear in response bodies only: [error_text] renders them. *)

From stdpp Require Import prelude gmap strings list fin_maps.
From Stdlib Require Import ZArith Ascii.
From S2P Require Import Prelude GoRuntime Identity Plugin Lifecycle Handshake Client Server NetURL JSON PluginApp.
From S2P Require Registry Router.

Module apiplugin.
Import identity plugin client neturl json pluginapp.

Section api.
Context {Impl Handler Stub W : Type} `{GoRange} `{World W} (error_text : error → string).
Abbreviation Client := (client.Client Impl Handler Stub).

Definition config : string → ClientConfig Impl Handler Stub :=
  example_config "api-plugin" "API Plugin" [mkServiceDeclaration "api" "1.0.0" "/api.v1.API/"]
    [mkServiceDependency "storage" "1.0.0" true true].

(** [rd] is [rand.Read], whose error is ignored: the buffer stays zero. *)
Definition generateShortCode (rd : Rand) : string :=
  hex_EncodeToString (match rd 4 with Ok b => b | Err _ => [0; 0; 0; 0]%Z end).

(** ** Calls to the storage service *)

Definition store_url (c : Client) (endpoint shortCode url : string) : string :=
  (Config c).(HostURL) +:+ endpoint +:+ "/Store?code=" +:+ shortCode +:+ "&url=" +:+ url.

Definition get_url (c : Client) (endpoint shortCode : string) : string :=
  (Config c).(HostURL) +:+ endpoint +:+ "/Get?code=" +:+ shortCode.

Definition no_registry : error := Errorf "registry client not available" [].
Definition no_storage (e : error) : error := Errorf "storage service not found: %w" [AErr e].

Definition endpoint_url (resp : DiscoverServiceResponse) : string :=
  resp.(Registry.registry.dr_Endpoint).(Registry.registry.se_EndpointUrl).

(** The outer [None] is the panic on a URL that does not parse. *)
Definition storeURL (c : Client) (w : W) (shortCode url : string) : W * option (option error) :=
  match RegistryClient c with
  | None => (w, Some (Some no_registry))
  | Some regClient =>
      match discover c w regClient "storage" with
      | (w1, Err e) => (w1, Some (Some (no_storage e)))
      | (w1, Ok discResp) =>
          match call c w1 "POST" (store_url c (endpoint_url discResp) shortCode url) with
          | (w2, None) => (w2, None)
          | (w2, Some (Err e)) => (w2, Some (Some e))
          | (w2, Some (Ok resp)) =>
              if bool_decide (resp.(Router.router.rp_StatusCode) ≠ StatusOK)
              then (w2, Some (Some (Errorf "storage returned %d" [AInt resp.(Router.router.rp_StatusCode)])))
              else (w2, Some None)
          end
      end
  end.

Definition invalid_json : error := ErrForeign 1.

Definition getURL (c : Client) (w : W) (shortCode : string) : W * option (res string) :=
  match RegistryClient c with
  | None => (w, Some (Err no_registry))
  | Some regClient =>
      match discover c w regClient "storage" with
      | (w1, Err e) => (w1, Some (Err (no_storage e)))
      | (w1, Ok discResp) =>
          match call c w1 "GET" (get_url c (endpoint_url discResp) shortCode) with
          | (w2, None) => (w2, None)
          | (w2, Some (Err e)) => (w2, Some (Err e))
          | (w2, Some (Ok resp)) =>
              if bool_decide (resp.(Router.router.rp_StatusCode) ≠ StatusOK) then (w2, Some (Err (Errorf "not found" [])))
              else
                match Unmarshal ["url"] resp.(Router.router.rp_Body) with
                | None => (w2, Some (Err invalid_json))
                | Some result => (w2, Some (Ok (get_or "" result "url")))
                end
          end
      end
  end.

(** ** The HTTP functions: [None] is a panic, which aborts the connection *)

Definition Shorten (c : Client) (rd : Rand) (w : W) (r : Request) : W * option Response :=
  let url := url_param r "url" in
  if bool_decide (url = "") then (w, Some (http_Error "Missing url parameter" StatusBadRequest))
  else
    let shortCode := generateShortCode rd in
    match storeURL c w shortCode url with
    | (w', None) => (w', None)
    | (w', Some (Some err)) => (w', Some (http_Error ("Storage failed: " +:+ error_text err) StatusInternalServerError))
    | (w', Some None) =>
        (w', Some (json_response ("{" +:+ quoted "short_code" +:+ ": " +:+ quoted shortCode +:+ ", " +:+
                                  quoted "url" +:+ ": " +:+ quoted url +:+ "}")))
    end.

Definition Resolve (c : Client) (w : W) (r : Request) : W * option Response :=
  let shortCode := url_param r "code" in
  if bool_decide (shortCode = "") then (w, Some (http_Error "Missing code parameter" StatusBadRequest))
  else
    match getURL c w shortCode with
    | (w', None) => (w', None)
    | (w', Some (Err err)) => (w', Some (http_Error ("Not found: " +:+ error_text err) StatusNotFound))
    | (w', Some (Ok url)) =>
        (w', Some (json_response ("{" +:+ quoted "url" +:+ ": " +:+ quoted url +:+ "}")))
    end.

(** ** Starting and the RPC handlers *)

Definition registerServices (env : string → string) (c : Client) (w : W) : W * option error :=
  match RegistryClient c with
  | None => (w, None)
  | Some regClient =>
      match register_all c w regClient {["base_url" := base_url env "8083"]} (provided c) with
      | (w1, Some e) => (w1, Some e)
      | (w1, None) => (check_dependency c (sleeps w1 (200 * Millisecond)%Z) regClient "storage", None)
      end
  end.

Inductive func := FShorten | FResolve.

Definition mux : server.mux (plugin_route func) :=
  plugin_mux [("/api.v1.API/Shorten", FShorten); ("/api.v1.API/Resolve", FResolve)].

Definition main (env : string → string) (w : W) : W * started Impl Handler Stub :=
  start config (registerServices env) env w.

Definition listen_addr (env : string → string) : string := ":" +:+ or_default (env "PORT") "8083".

Definition GetPluginInfo (c : Client) : GetPluginInfoResponse := pluginapp.GetPluginInfo c.

Definition SetRuntimeIdentity (c : Client) (req : SetRuntimeIdentityRequest) : Client * bool :=
  pluginapp.SetRuntimeIdentity c req.

(** What the handler's goroutine does. *)
Definition after_identity (env : string → string) (c : Client) (w : W) : W * option error :=
  register_later (registerServices env) c w.

Definition GetHealth : lifecycle.HealthState * string := (lifecycle.HEALTH_STATE_HEALTHY, "operational").

Definition Shutdown (req : ShutdownRequest) : bool * Duration := pluginapp.Shutdown req.

End api.

(** ** The command line client *)

Section urlclient.
Context {W : Type} `{World W}.

(** How a run of the program ends: the usage text, a fatal message, a panic on a
    URL that does not parse, or the values it prints. *)
Inductive ended :=
| Usage
| FatalExit (msg : string)
| Panics
| Shortened (url code : string)
| Resolved (code url : string).

Definition client_call (w : W) (method url : string) : W * option (res Response) :=
  match parse_url url with
  | None => (w, None)
  | Some u => let '(w', r) := http_Do w (mkHTTPRequest method u ∅) in (w', Some r)
  end.

Definition shorten (w : W) (apiURL url : string) : W * ended :=
  match client_call w "POST" (apiURL +:+ "/api.v1.API/Shorten?url=" +:+ url) with
  | (w', None) => (w', Panics)
  | (w', Some (Err _)) => (w', FatalExit "Request failed: %v")
  | (w', Some (Ok resp)) =>
      if bool_decide (resp.(Router.router.rp_StatusCode) ≠ StatusOK) then (w', FatalExit "API returned %d: %s")
      else
        match Decode ["short_code"; "url"] resp.(Router.router.rp_Body) with
        | None => (w', FatalExit "Failed to parse response: %v")
        | Some result => (w', Shortened (get_or "" result "url") (get_or "" result "short_code"))
        end
  end.

Definition resolve (w : W) (apiURL code : string) : W * ended :=
  match client_call w "GET" (apiURL +:+ "/api.v1.API/Resolve?code=" +:+ code) with
  | (w', None) => (w', Panics)
  | (w', Some (Err _)) => (w', FatalExit "Request failed: %v")
  | (w', Some (Ok resp)) =>
      if bool_decide (resp.(Router.router.rp_StatusCode) ≠ StatusOK) then (w', FatalExit "API returned %d: %s")
      else
        match Decode ["url"] resp.(Router.router.rp_Body) with
        | None => (w', FatalExit "Failed to parse response: %v")
        | Some result => (w', Resolved code (get_or "" result "url"))
        end
  end.

(** [args] are the arguments after the program's name, [api] is API_URL. *)
Definition client_main (w : W) (api : string) (args : list string) : W * ended :=
  let apiURL := or_default api "http://localhost:8083" in
  match args with
  | [] => (w, Usage)
  | command :: rest =>
      if bool_decide (command = "shorten") then
        match rest with [] => (w, FatalExit "Missing URL argument") | url :: _ => shorten w apiURL url end
      else if bool_decide (command = "resolve") then
        match rest with [] => (w, FatalExit "Missing code argument") | code :: _ => resolve w apiURL code end
      else (w, FatalExit "Unknown command: %s")
  end.
End urlclient.

End apiplugin.
