(* ===== verification/ExamplePlugins.v ===== *)
(** * Logger, cache and app plugins (examples/logger-plugin, cache-plugin, app-plugin main.go)

    Three plugins without state of their own.  The logger has no dependency, the
    cache depends on the logger, the app provides nothing and depends on the cache.
    Their identity handlers log a part of the token they are given. *)

From stdpp Require Import prelude gmap strings list fin_maps.
From Stdlib Require Import ZArith Ascii.
From S2P Require Import Prelude GoRuntime Plugin Lifecycle Handshake Client Server NetURL JSON PluginApp.
From S2P Require Registry Router.

Module loggerplugin.
Import plugin client neturl json pluginapp.

Section logger.
Context {Impl Handler Stub W : Type} `{GoRange} `{World W}.
Abbreviation Client := (client.Client Impl Handler Stub).

Definition config : string → ClientConfig Impl Handler Stub :=
  example_config "logger-plugin" "Logger Plugin" [mkServiceDeclaration "logger" "1.0.0" "/logger.v1.Logger/"] [].

(** The logger's function: the line it prints, and its answer, the same always. *)
Definition Log (r : Request) : string * Response :=
  let message := url_param r "message" in
  (if bool_decide (message = "") then "Log called with no message" else "[LOG] " +:+ message,
   json_response ("{" +:+ quoted "success" +:+ ": true}")).

Definition registerServices (env : string → string) (c : Client) (w : W) : W * option error :=
  match RegistryClient c with
  | None => (w, None)
  | Some regClient =>
      match register_all c w regClient {["base_url" := base_url env "8081"]} (provided c) with
      | (w1, Some e) => (w1, Some e)
      | (w1, None) => ((report c (sleeps w1 (100 * Millisecond)%Z) lifecycle.HEALTH_STATE_HEALTHY "" []).1, None)
      end
  end.

Inductive func := FLog.

Definition mux : server.mux (plugin_route func) := plugin_mux [("/logger.v1.Logger/Log", FLog)].

Definition main (env : string → string) (w : W) : W * started Impl Handler Stub :=
  start config (registerServices env) env w.

Definition GetPluginInfo (c : Client) : GetPluginInfoResponse := pluginapp.GetPluginInfo c.

Definition SetRuntimeIdentity (c : Client) (req : SetRuntimeIdentityRequest) : option (Client * bool) :=
  SetRuntimeIdentity_logged c req.

Definition after_identity (env : string → string) (c : Client) (w : W) : W * option error :=
  register_later (registerServices env) c w.

Definition GetHealth : lifecycle.HealthState * string := (lifecycle.HEALTH_STATE_HEALTHY, "all systems operational").

Definition Shutdown (req : ShutdownRequest) : bool * Duration := pluginapp.Shutdown req.
End logger.
End loggerplugin.

Module cacheplugin.
Import plugin client neturl json pluginapp.

Section cache.
Context {Impl Handler Stub W : Type} `{GoRange} `{World W}.
Abbreviation Client := (client.Client Impl Handler Stub).

Definition config : string → ClientConfig Impl Handler Stub :=
  example_config "cache-plugin" "Cache Plugin" [mkServiceDeclaration "cache" "1.0.0" "/cache.v1.Cache/"]
    [mkServiceDependency "logger" "1.0.0" true true].

(** The only function answers every request alike. *)
Definition CacheGet (r : Request) : Response :=
  json_response ("{" +:+ quoted "value" +:+ ": " +:+ quoted "cached-data" +:+ "}").

(** No metadata: the router is not told where the plugin listens. *)
Definition registerServices (c : Client) (w : W) : W * option error :=
  match RegistryClient c with
  | None => (w, None)
  | Some regClient =>
      match register_all c w regClient ∅ (provided c) with
      | (w1, Some e) => (w1, Some e)
      | (w1, None) => (check_dependency c (sleeps w1 (200 * Millisecond)%Z) regClient "logger", None)
      end
  end.

Inductive func := FGet.

Definition mux : server.mux (plugin_route func) := plugin_mux [("/cache.v1.Cache/Get", FGet)].

Definition main (env : string → string) (w : W) : W * started Impl Handler Stub :=
  start config registerServices env w.

Definition GetPluginInfo (c : Client) : GetPluginInfoResponse := pluginapp.GetPluginInfo c.

Definition SetRuntimeIdentity (c : Client) (req : SetRuntimeIdentityRequest) : option (Client * bool) :=
  SetRuntimeIdentity_logged c req.

Definition after_identity (c : Client) (w : W) : W * option error := register_later registerServices c w.

Definition GetHealth : lifecycle.HealthState * string := (lifecycle.HEALTH_STATE_HEALTHY, "all dependencies available").

Definition Shutdown (req : ShutdownRequest) : bool * Duration := pluginapp.Shutdown req.
End cache.
End cacheplugin.

Module appplugin.
Import plugin client neturl json pluginapp.

Section app.
Context {Impl Handler Stub W : Type} `{GoRange} `{World W}.
Abbreviation Client := (client.Client Impl Handler Stub).

Definition config : string → ClientConfig Impl Handler Stub :=
  example_config "app-plugin" "App Plugin" [] [mkServiceDependency "cache" "1.0.0" true true].

Definition Process (r : Request) : Response :=
  json_response ("{" +:+ quoted "result" +:+ ": " +:+ quoted "processed" +:+ "}").

(** Nothing is registered: the plugin only looks for its dependency. *)
Definition registerServices (c : Client) (w : W) : W * option error :=
  match RegistryClient c with
  | None => (w, None)
  | Some regClient => (check_dependency c (sleeps w (300 * Millisecond)%Z) regClient "cache", None)
  end.

Inductive func := FProcess.

Definition mux : server.mux (plugin_route func) := plugin_mux [("/app.v1.App/Process", FProcess)].

(** Unlike the others, [main] does not call [registerServices] once connected. *)
Definition main (env : string → string) (w : W) : W * started Impl Handler Stub :=
  start config (λ _ w, (w, None)) env w.

Definition GetPluginInfo (c : Client) : GetPluginInfoResponse := pluginapp.GetPluginInfo c.

Definition SetRuntimeIdentity (c : Client) (req : SetRuntimeIdentityRequest) : option (Client * bool) :=
  SetRuntimeIdentity_logged c req.

Definition after_identity (c : Client) (w : W) : W * option error := register_later registerServices c w.

Definition GetHealth : lifecycle.HealthState * string := (lifecycle.HEALTH_STATE_HEALTHY, "all dependencies available").

Definition Shutdown (req : ShutdownRequest) : bool * Duration := pluginapp.Shutdown req.
End app.
End appplugin.
