(* ===== verification/PluginServers.v ===== *)
(** * The servers of the example plugins (the end of main in examples/*-plugin/main.go)

    Every example plugin listens at a port, and on a signal shuts its server down in a
    goroutine while main returns from [ListenAndServe].  The requests of a process are
    numbered; what becomes of them is read off its trace. *)

From stdpp Require Import prelude strings list.
From Stdlib Require Import ZArith.
From S2P Require Import Prelude GoRuntime Server PluginApp StoragePlugin ApiPlugin ExamplePlugins.

Module pluginserver.
Import pluginapp.

(** ** One process *)

Record Server (F : Type) := mkServer { Addr : string; Handler : server.mux (plugin_route F) }.
Arguments mkServer {F}.
Arguments Addr {F}.
Arguments Handler {F}.

(** Main is in [ListenAndServe], has returned, or was ended by [log.Fatalf]. *)
Inductive main_state := Serving | Returned | Died (e : error).

Record process := mkProcess {
  listening : bool;
  handling : list nat;
  answered : list nat;
  refused : list nat;
  main : main_state;
}.

(** A request arrives, a handler returns, the signal arrives, main returns. *)
Inductive event := Arrives (id : nat) | Finishes (id : nat) | Signalled | MainReturns.

(** [port_error]: what binding the address of the server comes to. *)
Definition start (port_error : option error) : process :=
  match port_error with
  | Some e => mkProcess false [] [] [] (Died (Errorf "Server error: %v" [AErr e]))
  | None => mkProcess true [] [] [] Serving
  end.

(** Once main is over so is the process: handlers go no further.  [Shutdown] closes the
    listener first, whereupon [ListenAndServe] returns at once; that handlers are still
    at work does not keep main. *)
Definition step (p : process) (ev : event) : process :=
  match p.(main) with
  | Serving =>
      match ev with
      | Arrives id =>
          if p.(listening) then mkProcess true (id :: p.(handling)) p.(answered) p.(refused) Serving
          else mkProcess false p.(handling) p.(answered) (id :: p.(refused)) Serving
      | Finishes id =>
          if bool_decide (id ∈ p.(handling))
          then mkProcess p.(listening) (filter (λ i, i ≠ id) p.(handling)) (id :: p.(answered)) p.(refused) Serving
          else p
      | Signalled => mkProcess false p.(handling) p.(answered) p.(refused) Serving
      | MainReturns => if p.(listening) then p else mkProcess false p.(handling) p.(answered) p.(refused) Returned
      end
  | _ => match ev with Arrives id => mkProcess false p.(handling) p.(answered) (id :: p.(refused)) p.(main) | _ => p end
  end.

Definition run (port_error : option error) (evs : list event) : process := fold_left step evs (start port_error).

(** ** The five programs *)

Definition logger_server (env : string → string) : Server loggerplugin.func :=
  mkServer (":" +:+ or_default (env "PORT") "8081") loggerplugin.mux.
Definition cache_server (env : string → string) : Server cacheplugin.func :=
  mkServer (":" +:+ or_default (env "PORT") "8082") cacheplugin.mux.
Definition app_server (env : string → string) : Server appplugin.func :=
  mkServer (":" +:+ or_default (env "PORT") "8083") appplugin.mux.
Definition storage_server (env : string → string) : Server storageplugin.func :=
  mkServer (storageplugin.listen_addr env) storageplugin.mux.
Definition api_server (env : string → string) : Server apiplugin.func :=
  mkServer (apiplugin.listen_addr env) apiplugin.mux.

(** From the server on, the mains are alike: [bound] says of an address whether binding
    it fails. *)
Definition serves {F} (s : Server F) (bound : string → option error) (evs : list event) : process := run (bound s.(Addr)) evs.

Definition logger_main env bound evs : process := serves (logger_server env) bound evs.
Definition cache_main env bound evs : process := serves (cache_server env) bound evs.
Definition app_main env bound evs : process := serves (app_server env) bound evs.
Definition storage_main env bound evs : process := serves (storage_server env) bound evs.
Definition api_main env bound evs : process := serves (api_server env) bound evs.

(** The processes on one machine: a port is free for the first to ask. *)
Fixpoint bind (taken : list string) (addrs : list string) : list (option error) :=
  match addrs with
  | [] => []
  | a :: addrs' => (if bool_decide (a ∈ taken) then Some (ErrForeign 7) else None) :: bind (a :: taken) addrs'
  end.

(** ** What becomes of requests *)

Definition arrivals (evs : list event) : list nat := omap (λ ev, match ev with Arrives id => Some id | _ => None end) evs.

Lemma run_snoc pe evs ev : run pe (evs ++ [ev]) = step (run pe evs) ev.
Proof. unfold run. by rewrite fold_left_app. Qed.

Lemma filter_ne_permutation (id : nat) l : NoDup l → id ∈ l → id :: filter (λ i, i ≠ id) l ≡ₚ l.
Proof.
  intros Hn Hin. apply NoDup_Permutation; [|done|].
  - apply NoDup_cons. split; [|by apply NoDup_filter]. rewrite list_elem_of_filter. naive_solver.
  - intros x. rewrite elem_of_cons, list_elem_of_filter. destruct (decide (x = id)) as [->|]; naive_solver.
Qed.

(** A main that is over serves nothing. *)
Lemma run_closed pe evs : (run pe evs).(main) ≠ Serving → (run pe evs).(listening) = false.
Proof.
  induction evs as [|ev evs IH] using rev_ind; [by destruct pe|]. rewrite run_snoc. unfold step.
  destruct (main (run pe evs)) eqn:Em, ev as [id|id| |]; try done; try (intros _; by apply IH); try case_bool_decide;
    destruct (listening (run pe evs)) eqn:El; cbn; congruence.
Qed.

(** Requests are neither lost from the books nor answered twice. *)
Lemma run_accounts pe evs : NoDup (arrivals evs) →
  let p := run pe evs in p.(handling) ++ p.(answered) ++ p.(refused) ≡ₚ arrivals evs ∧ (p.(listening) = true → Signalled ∉ evs).
Proof.
  induction evs as [|ev evs IH] using rev_ind; intros Hn; cbn zeta.
  { unfold run, start. destruct pe; split; try done. intros _ Hin. by apply elem_of_nil in Hin. }
  rewrite run_snoc. unfold arrivals in *. rewrite omap_app in *. fold (arrivals evs) in *.
  apply NoDup_app in Hn as (Hn & Hd & _). destruct (IH Hn) as [Hp Hs]. set (p := run pe evs) in *.
  assert (Hh : NoDup p.(handling)) by (rewrite <- Hp in Hn; by apply NoDup_app in Hn as (? & _)).
  assert (Hs' : ∀ b : bool, b = listening p → ev ≠ Signalled → b = true → Signalled ∉ evs ++ [ev]).
  { intros b -> Hne Hb. rewrite elem_of_app, list_elem_of_singleton. intros [Hin|E]; [by apply Hs|by symmetry in E]. }
  assert (Hrefuse : ∀ id, ev = Arrives id → handling p ++ answered p ++ id :: refused p ≡ₚ arrivals evs ++ [id]).
  { intros id _. by rewrite <- Permutation_cons_append, <- Hp, !Permutation_middle. }
  unfold step. destruct (main p) eqn:Em, ev as [id|id| |]; cbn [omap list_omap]; rewrite ?app_nil_r;
    try (split; [by apply Hp || by apply Hrefuse|by (intros; discriminate) || by eapply Hs']).
  - destruct (listening p) eqn:El; cbn [handling answered refused listening]; (split; [|by eapply Hs' || done]).
    + rewrite <- Permutation_cons_append, <- Hp. done.
    + by apply Hrefuse.
  - case_bool_decide as Hid; cbn [handling answered refused listening]; (split; [|by eapply Hs']); [|done].
    rewrite <- Hp. rewrite <- (filter_ne_permutation id (handling p) Hh Hid) at 2. cbn. by rewrite !Permutation_middle.
  - destruct (listening p) eqn:El; cbn [handling answered refused listening]; (split; [done|by eapply Hs' || done]).
  - split; [done|]. intros El. assert (E0 : listening p = false) by (apply run_closed; fold p; by rewrite Em). congruence.
  - split; [done|]. intros El. assert (E0 : listening p = false) by (apply run_closed; fold p; by rewrite Em). congruence.
Qed.

(** How main ends: it returns after a signal only, and dies of its port only. *)
Lemma main_ends pe evs :
  ((run pe evs).(main) = Returned → pe = None ∧ Signalled ∈ evs) ∧
  ((∃ e, (run pe evs).(main) = Died e) ↔ pe ≠ None) ∧
  (pe = None → (run pe evs).(listening) = false → Signalled ∈ evs).
Proof.
  destruct pe as [e|].
  - assert (E : (run (Some e) evs).(main) = Died (Errorf "Server error: %v" [AErr e])).
    { induction evs as [|ev evs IH] using rev_ind; [done|]. rewrite run_snoc. unfold step. rewrite IH. by destruct ev. }
    rewrite E. split_and!; [done| |done]. split; [done|by eexists].
  - assert (H : (∀ e, (run None evs).(main) ≠ Died e) ∧ ((run None evs).(listening) = false → Signalled ∈ evs)).
    { induction evs as [|ev evs [IH1 IH2]] using rev_ind; [done|]. rewrite run_snoc, elem_of_app, list_elem_of_singleton. unfold step.
      destruct (main (run None evs)) eqn:Em; [| |by destruct (IH1 e)];
        destruct ev as [id|id| |]; try case_bool_decide; destruct (listening (run None evs)) eqn:El; cbn;
        rewrite ?Em, ?El; (split; [done|]); intros; auto; try done.
      all: assert (E0 : listening (run None evs) = false) by (apply run_closed; by rewrite Em); congruence. }
    destruct H as [H1 H2]. split_and!; [|split; [intros [e E]; by destruct (H1 e)|done]|by intros _].
    intros Em. split; [done|]. apply H2, run_closed. by rewrite Em.
Qed.

(** Any of them, with a port of its own: a request that is neither answered nor refused
    when main has returned was cut off. *)
Lemma mains_account {F} (s : Server F) bound evs : NoDup (arrivals evs) → (serves s bound evs).(main) = Returned →
  let p := serves s bound evs in Signalled ∈ evs ∧ p.(handling) ++ p.(answered) ++ p.(refused) ≡ₚ arrivals evs.
Proof. intros Hn Hm. split; [by apply main_ends in Hm as [_ ?]|by apply run_accounts]. Qed.

(** Shutting down is not graceful: main does not wait for [Shutdown], and a request
    that is being handled when the signal arrives is cut off. *)
Lemma shutdown_cuts_requests :
  run None [Arrives 1; Signalled; MainReturns; Finishes 1] = mkProcess false [1] [] [] Returned.
Proof. reflexivity. Qed.

(** On one machine without a PORT only three of the five come up: the cache asks for the
    port of the storage, and the app for that of the API. *)
Lemma default_ports_collide (env : string → string) : env "PORT" = "" →
  (λ pe, bool_decide (pe = None)) <$> bind [] [(logger_server env).(Addr); (storage_server env).(Addr); (cache_server env).(Addr);
    (api_server env).(Addr); (app_server env).(Addr)] = [true; true; false; true; false].
Proof.
  intros E. cbn [Addr logger_server storage_server cache_server api_server app_server].
  unfold storageplugin.listen_addr, apiplugin.listen_addr. rewrite E. reflexivity.
Qed.
End pluginserver.
