(* ===== verification/Host.v ===== *)
(** * A host with its network (examples/docker-compose/host/main.go)

    The host of the examples: a handshake server, a lifecycle server, a registry and
    a router behind one mux.  [Net] puts the host on a network of other processes,
    [backend]; every request to the host is one step, numbered, before which the
    rest of the world may act on the host ([others]).  Clock, randomness and
    [rand.Intn] are read by the number of the step. *)

From stdpp Require Import prelude gmap strings list fin_maps.
From Stdlib Require Import ZArith Ascii.
From S2P Require Import Prelude GoRuntime Identity Lifecycle Plugin Handshake Discovery Client Server NetURL JSON PluginApp.
From S2P Require Registry Router.

Module host.
Import identity lifecycle handshake neturl pluginapp.
Import Registry.registry Router.router.

Section host.
Context {Impl Handler Stub : Type} `{GoRange}.
Abbreviation Host := (ServiceRouter Impl Handler Stub).

(** ** The program *)

Definition empty_config : ServeConfig Impl Handler Stub :=
  mkServeConfig None None 0 "" "" None "" 0 None false false false 0 0 false false false false.

(** The router holds pointers to the other three. *)
Definition new_host : Host :=
  NewServiceRouter (NewHandshakeServer empty_config) NewServiceRegistry NewLifecycleServer.

Inductive host_route := HHandshake | HLifecycle | HRegistry | HRouter | HHealth.

Definition host_mux : server.mux host_route :=
  [(server.HandshakeServicePath, HHandshake); (server.PluginLifecyclePath, HLifecycle);
   (server.ServiceRegistryPath, HRegistry); ("/services/", HRouter); ("/health", HHealth)].

(** ** RPCs, on the state of the host *)

(** The world of the host at a step. *)
Record Env := mkEnv {
  host_authority : string;
  clock : nat → Time;
  random : nat → Rand;
  coin : nat → Z → Z;
  others : nat → Host → Host;
}.

Definition with_registry (h : Host) r : Host :=
  mkServiceRouter h.(handshakeServer) r h.(lifecycleServer) h.(pluginEndpoints).
Definition with_lifecycle (h : Host) l : Host :=
  mkServiceRouter h.(handshakeServer) h.(registry) l h.(pluginEndpoints).

Definition unreachable : error := ErrForeign 2.
Definition panicked : error := ErrForeign 3.

Definition host_Handshake (E : Env) (n : nat) (req : HandshakeRequest) (h : Host) : Host * res HandshakeResponse :=
  let '(hs, r) := Handshake (E.(random) (2 * n)) (E.(random) (S (2 * n))) (E.(clock) n) None h.(handshakeServer) req in
  (with_handshake h hs, r).

Definition host_RegisterService (E : Env) (n : nat) (req : RegisterServiceRequest) (h : Host) : Host * res string :=
  let '(r, out) := RegisterService (E.(random) (2 * n)) (E.(clock) n) (Some h.(lifecycleServer)) h.(registry) req in
  (with_registry h r, out).

Definition host_DiscoverService (E : Env) (n : nat) (t v : string) (h : Host) : Host * res DiscoverServiceResponse :=
  let '(r, out) := DiscoverService (E.(coin) n) (Some h.(lifecycleServer)) h.(registry) (λ r, r) t v in
  (with_registry h r, default (Err panicked) out).

Definition host_ReportHealth (hdr : Header) (req : client.ReportHealthRequest) (h : Host) : Host * option error :=
  let '(l, e) := ReportHealth h.(lifecycleServer)
    (mkReportHealthRequest hdr req.(client.rq_State) req.(client.rq_Reason) req.(client.rq_UnavailableDependencies)) in
  (with_lifecycle h l, e).

(** ** The network: the host, the number of the step, and the other processes *)

Context {R : Type}.
Record Net := mkNet { net_host : Host; net_tick : nat; net_rest : R }.

Definition turn {A} (E : Env) (f : nat → Host → Host * A) (w : Net) : Net * A :=
  let '(h, a) := f w.(net_tick) (E.(others) w.(net_tick) w.(net_host)) in
  (mkNet h (S w.(net_tick)) w.(net_rest), a).

(** A process other than the host, by the authority it listens at. *)
Context (backend : string → Net → Request string → Net * res (Response string)).

Definition bad_request : Response string := http_Error "400 Bad Request" StatusBadRequest.
Definition not_found : Response string := http_Error "404 page not found" StatusNotFound.

(** A request as its server sees it: the transport refuses a malformed line. *)
Definition received (method : string) (u : URL) (hdr : Header) (body : string) : Request string :=
  mkRequest method (if bool_decide (u.(u_Path) = "") then "/" else u.(u_Path)) u.(u_RawQuery) hdr body.

Definition deliver (w : Net) (method : string) (u : URL) (hdr : Header) (body : string) : Net * res (Response string) :=
  if negb (well_formed_line u) then (w, Ok bad_request)
  else backend u.(u_Host) w (received method u hdr body).

(** The answer of the router as a response. *)
Definition written_response (x : written string) : Response string :=
  match x with
  | WError msg code => http_Error msg code
  | WNotFound => not_found
  | WResponse status hdr body => mkResponse status hdr body
  end.

Definition target_error (url : string) : option error :=
  match parse_url url with None => Some (ErrForeign 4) | Some _ => None end.

(** What the router sends to the provider. *)
Definition send (w : Net) (px : ProxyRequest string) : Net * res (Response string) :=
  match parse_url px.(px_URL) with
  | None => (w, Err unreachable)
  | Some u => deliver w px.(px_Method) u px.(px_Header) px.(px_Body)
  end.

Definition full_url (target query : string) : string :=
  if bool_decide (query ≠ "") then target +:+ "?" +:+ query else target.

Definition proxied (req : Request string) (target : string) : ProxyRequest string :=
  mkProxyRequest req.(rq_Method) (full_url target req.(rq_RawQuery)) (copy_request_headers req.(rq_Header)) req.(rq_Body).

Definition forward (w : Net) (req : Request string) (target : string) : Net * Response string :=
  let '(w', answer) := send w (proxied req target) in
  (w', written_response (proxyRequest (λ _ url, target_error url) (λ _, answer) req target)).

(** Plain requests to the RPC services, which plugins never make, are answered by
    generated code: [rpc_page]. *)
Context (rpc_page : Response string).

Definition host_serve (E : Env) (w : Net) (req : Request string) : Net * Response string :=
  match server.dispatch host_mux req.(rq_Path) with
  | Some HRouter =>
      match turn E (λ n h, route (E.(clock) n) h req) w with
      | (w', Refuse x) => (w', written_response x)
      | (w', Forward _ _ _ target) => forward w' req target
      end
  | Some HHealth => (w, mkResponse StatusOK ∅ "OK")
  | Some _ => (w, rpc_page)
  | None => (w, not_found)
  end.

Definition address (E : Env) : string := "http://" +:+ E.(host_authority).
Definition at_host (E : Env) (endpoint : string) : bool := bool_decide (endpoint = address E).

Definition net_Do (E : Env) (w : Net) (r : HTTPRequest) : Net * res (Response string) :=
  let u := r.(hr_URL) in
  if bool_decide (u.(u_Host) = E.(host_authority)) then
    if negb (well_formed_line u) then (w, Ok bad_request)
    else let '(w', resp) := host_serve E w (received r.(hr_Method) u r.(hr_Header) "") in (w', Ok resp)
  else deliver w r.(hr_Method) u r.(hr_Header) "".

Definition net_world (E : Env) : World Net := {|
  rpc_Handshake w ep req := if at_host E ep then turn E (λ n, host_Handshake E n req) w else (w, Err unreachable);
  rpc_RegisterService w ep req := if at_host E ep then turn E (λ n, host_RegisterService E n req) w else (w, Err unreachable);
  rpc_DiscoverService w ep hdr t v := if at_host E ep then turn E (λ n, host_DiscoverService E n t v) w else (w, Err unreachable);
  rpc_ReportHealth w ep hdr req := if at_host E ep then turn E (λ _, host_ReportHealth hdr req) w else (w, Some unreachable);
  http_Do := net_Do E;
  sleeps w _ := w;
|}.

Lemma at_host_address E : at_host E (address E) = true.
Proof. by apply bool_decide_eq_true_2. Qed.

Lemma discover_at_host (E : Env) (w : Net) (c : client.Client Impl Handler Stub) t :
  discover (H0 := net_world E) c w (address E) t = turn E (λ n, host_DiscoverService E n t "1.0.0") w.
Proof. unfold discover, net_world. cbn [rpc_DiscoverService]. by rewrite at_host_address. Qed.

End host.
Arguments Net : clear implicits.
Arguments Env : clear implicits.

(** ** A service that can be found and called *)

Section steady.
Context {Impl Handler Stub : Type} `{GoRange} (E : Env Impl Handler Stub).
Abbreviation Host := (ServiceRouter Impl Handler Stub).

Definition live (h : Host) (rid tok : string) : Prop :=
  rid ≠ "" ∧ ∃ i, h.(handshakeServer).(tokens) !! rid = Some i ∧ i.(ti_token) = tok ∧
    ∀ n, (E.(clock) n ≤ i.(ti_expiresAt))%Z.

Context (t rid base path : string).

(** The log of registrations [a] offers service [t] by one plugin, [rid], which
    offers nothing else and listens at [base]. *)
Record offered (a : list ServiceProvider) : Prop := {
  off_some : ∃ p, p ∈ a ∧ p.(RuntimeID) = rid ∧ str_le "1.0.0" p.(Version) = true;
  off_only : ∀ p, p ∈ a → p.(ServiceType) = t → p.(RuntimeID) = rid;
  off_plugin : ∀ p, p ∈ a → p.(RuntimeID) = rid →
    p.(ServiceType) = t ∧ p.(EndpointPath) = path ∧ p.(Metadata) !! "base_url" = Some base;
}.

(** A runtime id or a service type that can stand in a URL as it is. *)
Definition segment_char (c : ascii) : bool := is_alnum c || bool_decide (c = "-"%char) || bool_decide (c = "_"%char) || bool_decide (c = "."%char).
Definition url_safe (p : ServiceProvider) : Prop :=
  str_all segment_char p.(ServiceType) = true ∧ str_all segment_char p.(RuntimeID) = true.

#[export] Instance url_safe_dec p : Decision (url_safe p).
Proof. unfold url_safe. apply _. Defined.

(** The host while the service works for the callers in [tokens]. *)
Record steady (callers : list (string * string)) (h : Host) : Prop := {
  st_registry : ∃ a, models h.(registry) a ∧ rr_ok h.(registry) ∧ slice_ok a ∧ offered a ∧ Forall url_safe a;
  st_endpoint : h.(pluginEndpoints) !! rid = None;
  st_healthy : ShouldRouteTraffic h.(lifecycleServer) rid = true;
  st_live : ∀ caller tok, (caller, tok) ∈ callers → live h caller tok;
}.

Context (Hcoin : ∀ n, rnd_ok (E.(coin) n)).

Lemma live_validate h rid' tok' id tok n : live h rid' tok' →
  live (with_handshake h (ValidateToken (E.(clock) n) h.(handshakeServer) id tok).1) rid' tok'.
Proof.
  intros (Hne & i & Hi & Ht & Hn). split; [done|]. exists i. split_and!; try done. unfold ValidateToken.
  destruct (tokens (handshakeServer h) !! id) as [j|] eqn:Ej; [|done].
  unfold Time_After. destruct (Z.ltb_spec (ti_expiresAt j) (clock E n)); [|by destruct (negb _)].
  simpl. rewrite lookup_delete_ne; [done|]. intros ->. rewrite Hi in Ej. injection Ej as ->. specialize (Hn n). lia.
Qed.

Lemma steady_discover callers h n t' v : steady callers h →
  let '(h', out) := host_DiscoverService E n t' v h in
  steady callers h' ∧
  (∀ resp, out = Ok resp → ∃ p, url_safe p ∧ resp.(dr_Endpoint) = endpoint_of p ∧ p.(ServiceType) = t' ∧
     (t' = t → p.(RuntimeID) = rid)) ∧
  (t' = t → v = "1.0.0" → ∃ resp, out = Ok resp).
Proof.
  intros [(a & M & Hrr & Hlen & Ho & Hsafe) He Hh Hl]. unfold host_DiscoverService.
  pose proof (DiscoverService_models (coin E n) (Some (lifecycleServer h)) (registry h) a t' v M Hrr (Hcoin n) Hlen) as Hd.
  destruct (DiscoverService _ _ _ _ _ _) as [r' out]. destruct Hd as (M' & Hrr' & Hc). split_and!.
  - split; [|done|done|done]. exists a. by split_and!.
  - intros resp Hr. destruct Hc as [(p & resp' & -> & Hp & Hin & Ha & _)|[_ [e ->]]]; [|done].
    injection Hr as <-. exists p. split_and!; [by apply (Forall_forall url_safe a)|done|done|].
    intros ->. by apply (off_only a Ho).
  - intros -> ->. destruct Hc as [(p & resp & -> & _)|[Hno _]]; [by eexists|].
    destruct (off_some a Ho) as (p & Hp & Hr & Hv). destruct (off_plugin a Ho p Hp Hr) as (Ht & _ & _).
    exfalso. apply (Hno p Hp). split_and!; [done|by right|]. simpl. by rewrite Hr.
Qed.

Lemma steady_route callers h n (req : Request string) : steady callers h →
  steady callers (route (E.(clock) n) h req).1.
Proof.
  intros S. assert (Hkeep : ∀ id tok, steady callers (with_handshake h (ValidateToken (clock E n) (handshakeServer h) id tok).1)).
  { intros id tok. destruct S as [Hr He Hh Hl]. split; [done|done|done|].
    intros c k Hck. by apply live_validate, Hl. }
  unfold route. destruct (negb _); [done|]. destruct (parse_path _) as [[[t' pid] m]|]; [|done].
  case_bool_decide; [done|]. destruct (negb _); [done|].
  specialize (Hkeep (Header_Get (rq_Header req) "X-Plugin-Runtime-ID") (TrimPrefix (Header_Get (rq_Header req) "Authorization") "Bearer ")).
  destruct (ValidateToken _ _ _ _) as [hs b]. simpl in Hkeep.
  destruct (negb b); [done|]. destruct (GetProviderByRuntimeID _ _); [|done].
  destruct (negb _); [done|]. by destruct (provider_base _ _ _).
Qed.

(** A call of the service by a live caller is forwarded to the plugin. *)
Lemma steady_forward callers h n (req : Request string) caller tok m : steady callers h → (caller, tok) ∈ callers →
  str_all segment_char rid = true → str_all segment_char t = true →
  req.(rq_Path) = EndpointUrl t rid +:+ "/" +:+ m →
  Header_Get req.(rq_Header) "X-Plugin-Runtime-ID" = caller →
  Header_Get req.(rq_Header) "Authorization" = "Bearer " +:+ tok →
  (route (E.(clock) n) h req).2 = Forward caller t rid (base +:+ path +:+ m).
Proof.
  intros [(a & M & _ & _ & Ho & _) He Hh Hl] Hc Hr Ht Hp Hid Hau. destruct (Hl caller tok Hc) as (Hne & i & Hi & Htok & Hn).
  assert (Hfr : ∀ s, str_all segment_char s = true → free_of "/" s = true) by (intros s; by apply free_of_all).
  destruct (parse_path_endpoint t rid m (Hfr t Ht) (Hfr rid Hr)) as [Epp Epre].
  pose proof (GetProviderByRuntimeID_spec (registry h) a rid M) as Hg.
  destruct (GetProviderByRuntimeID (registry h) rid) as [p|e] eqn:Eg.
  - destruct Hg as [Hpa Hpr]. destruct (off_plugin a Ho p Hpa Hpr) as (_ & Hpath & Hbase).
    apply route_forward_iff. exists ("/" +:+ m), p, base. rewrite Hp. split_and!; try done.
    + split_and!; [by rewrite Hid|done| |done]. exists tok, i. by split_and!.
    + unfold provider_base. by rewrite He.
    + by rewrite Hpath, TrimPrefix_app.
  - exfalso. destruct (off_some a Ho) as (p & Hpa & Hpr & _). by apply (Hg p).
Qed.

End steady.

End host.
