(* ===== verification/URLShortener.v ===== *)
(** * The URL shortener: five processes together

    The command line client calls the API plugin, which discovers the storage plugin
    and calls it through the router of the host; the storage plugin logs through the
    same host.  The processes are those of [ApiPlugin], [StoragePlugin] and [Host];
    whatever else runs, the loggers among it, is a parameter.  Together they refine
    a finite map from codes to URLs. *)

From stdpp Require Import prelude gmap strings list fin_maps.
From Stdlib Require Import ZArith Ascii.
From S2P Require Import Prelude GoRuntime Identity Lifecycle Plugin Handshake Client Server NetURL JSON PluginApp.
From S2P Require Import StoragePlugin ApiPlugin ExamplePlugins Host.
From S2P Require Registry Router.

Module shortener.
Import identity client neturl json pluginapp host.
Import Router.router.

(** ** Texts that survive the trip

    No hop encodes the URL it puts into a query string or into a JSON literal. *)
Definition url_char (c : ascii) : bool :=
  within 33%Z 126%Z c &&
  negb (existsb (λ d, bool_decide (d = c)) ["&"; "#"; "%"; "+"; ";"; dquote; backslash]%char).

Definition plain_url (u : string) : Prop := u ≠ "" ∧ str_all url_char u = true.

Section processes.
Context {Impl Handler Stub : Type} `{GoRange} (E : Env Impl Handler Stub) (error_text : error → string)
  (codes : nat → Rand) (rpc_page : Response string).
Abbreviation Client := (client.Client Impl Handler Stub).
Abbreviation storageService := (storageplugin.storageService (Impl := Impl) (Handler := Handler) (Stub := Stub)).

(** The rest of the world: its state, and the processes other than host, storage
    and API, by authority. *)
Context {L : Type} (elsewhere : string → Net Impl Handler Stub L → Request string → Net Impl Handler Stub L * res (Response string)).
Context (storage_authority api_authority : string).

Abbreviation NetL := (Net Impl Handler Stub L).
Abbreviation NetS := (Net Impl Handler Stub (L * storageService)).

#[local] Instance storage_world : World NetL := net_world elsewhere rpc_page E.

(** A panic in a handler closes the connection. *)
Definition answer (r : option (Response string)) : res (Response string) :=
  match r with Some x => Ok x | None => Err panicked end.

Definition storage_process (s : storageService) (w : NetL) (req : Request string) :
    storageService * NetL * res (Response string) :=
  match server.dispatch storageplugin.mux req.(rq_Path) with
  | Some (Func storageplugin.FStore) => let '(s', w', r) := storageplugin.Store s w req in (s', w', answer r)
  | Some (Func storageplugin.FGet) => let '(w', r) := storageplugin.Get s w req in (s, w', answer r)
  | Some _ => (s, w, Ok rpc_page)
  | None => (s, w, Ok not_found)
  end.

(** The world of the storage plugin inside that of the API plugin. *)
Definition inner (w : NetS) : NetL := mkNet w.(net_host) w.(net_tick) w.(net_rest).1.
Definition storage_of (w : NetS) : storageService := w.(net_rest).2.
Definition outer (w : NetL) (s : storageService) : NetS := mkNet w.(net_host) w.(net_tick) (w.(net_rest), s).

Definition with_storage (authority : string) (w : NetS) (req : Request string) : NetS * res (Response string) :=
  if bool_decide (authority = storage_authority) then
    let '(s', w', r) := storage_process (storage_of w) (inner w) req in (outer w' s', r)
  else let '(w', r) := elsewhere authority (inner w) req in (outer w' (storage_of w), r).

#[local] Instance api_world : World NetS := net_world with_storage rpc_page E.

Definition api_process (c : Client) (w : NetS) (req : Request string) : NetS * res (Response string) :=
  match server.dispatch apiplugin.mux req.(rq_Path) with
  | Some (Func apiplugin.FShorten) =>
      let '(w', r) := apiplugin.Shorten error_text c (codes w.(net_tick)) w req in (w', answer r)
  | Some (Func apiplugin.FResolve) => let '(w', r) := apiplugin.Resolve error_text c w req in (w', answer r)
  | Some _ => (w, Ok rpc_page)
  | None => (w, Ok not_found)
  end.

(** The command line client reaches the API plugin directly. *)
Definition with_api (c : Client) (authority : string) (w : NetS) (req : Request string) : NetS * res (Response string) :=
  if bool_decide (authority = api_authority) then api_process c w req else with_storage authority w req.

Definition cli_world (c : Client) : World NetS := net_world (with_api c) rpc_page E.

Definition cli (c : Client) (w : NetS) (args : list string) : NetS * apiplugin.ended :=
  apiplugin.client_main (W := NetS) (H := cli_world c) w ("http://" +:+ api_authority) args.

(** ** Specification: a map from codes to URLs *)

Inductive command := CShorten (url : string) | CResolve (code : string).

Definition args_of (c : command) : list string :=
  match c with CShorten url => ["shorten"; url] | CResolve code => ["resolve"; code] end.

Definition text_of (c : command) : string := match c with CShorten u => u | CResolve c => c end.

(** Shortening picks a code of eight digits and overwrites what it stood for. *)
Inductive spec_step (m : gmap string string) : command → apiplugin.ended → gmap string string → Prop :=
| spec_shorten url code : String.length code = 8 → str_all hex_char code = true →
    spec_step m (CShorten url) (apiplugin.Shortened url code) (<[code := url]> m)
| spec_found code url : m !! code = Some url → spec_step m (CResolve code) (apiplugin.Resolved code url) m
| spec_missing code msg : m !! code = None → spec_step m (CResolve code) (apiplugin.FatalExit msg) m.

Fixpoint run (c : Client) (w : NetS) (cmds : list command) : NetS * list apiplugin.ended :=
  match cmds with
  | [] => (w, [])
  | cmd :: cmds' =>
      let '(w1, e) := cli c w (args_of cmd) in
      let '(w2, es) := run c w1 cmds' in (w2, e :: es)
  end.

Inductive spec_run : gmap string string → list command → list apiplugin.ended → gmap string string → Prop :=
| spec_nil m : spec_run m [] [] m
| spec_cons m c e m1 cs es m2 : spec_step m c e m1 → spec_run m1 cs es m2 → spec_run m (c :: cs) (e :: es) m2.

End processes.

(** ** Texts in URLs and literals *)

Lemma url_char_not c d : url_char c = true → url_char d = false → c ≠ d.
Proof. intros Hc Hd ->. congruence. Qed.

Lemma plain_free d u : url_char d = false → str_all url_char u = true → free_of d u = true.
Proof. apply free_of_all. Qed.

Lemma plain_literal u : str_all url_char u = true → literal u = true.
Proof. intros Hu. unfold literal. by rewrite !(plain_free _ u) by done. Qed.

Lemma plain_no_ctl u : str_all url_char u = true → str_all (λ c, negb (is_ctl c)) u = true.
Proof. apply str_all_impl, all_ascii_impl. by vm_compute. Qed.

Lemma plain_json u : str_all url_char u = true → str_all plain_char u = true.
Proof. apply str_all_impl, all_ascii_impl. by vm_compute. Qed.

Lemma hex_plain s : str_all hex_char s = true → str_all url_char s = true.
Proof. apply str_all_impl, all_ascii_impl. by vm_compute. Qed.

Lemma segment_plain s : str_all segment_char s = true → str_all url_char s = true.
Proof. apply str_all_impl, all_ascii_impl. by vm_compute. Qed.

(** Bytes of an escaped query. *)
Definition escaped_char (c : ascii) : bool := unreserved c || bool_decide (c = "%"%char) || bool_decide (c = "+"%char).

Lemma escape_all s : str_all escaped_char (QueryEscape s) = true.
Proof.
  induction s as [|c s IH]; [done|]. cbn [QueryEscape]. unfold escape_byte.
  assert (Hd : ∀ i, (0 ≤ i < 16)%Z → escaped_char (digit_at upper_hex i) = true).
  { intros i Hi. apply (below_case 16 (λ i, escaped_char (digit_at upper_hex i))); [by vm_compute|done]. }
  pose proof (byte_of_range c).
  destruct (unreserved c) eqn:Eu; [cbn [str_all]; unfold escaped_char at 1; by rewrite Eu, IH|].
  case_bool_decide; cbn [str_all]; [by rewrite IH|].
  by rewrite !Hd, IH by div_lia.
Qed.

(** *** Request URLs of the program *)

Definition auth_char (c : ascii) : bool := segment_char c || bool_decide (c = ":"%char).
Definition path_char (c : ascii) : bool := segment_char c || bool_decide (c = "/"%char).
Definition sent_char (c : ascii) : bool := negb (is_ctl c) && negb (bool_decide (c = "#"%char)).

(** A host name with an optional port. *)
Definition simple_authority (a : string) : Prop := valid_authority a = true ∧ str_all auth_char a = true.

Lemma parse_request a path q : simple_authority a → str_all path_char path = true → HasPrefix path "/" = true →
  str_all sent_char q = true →
  parse_url ("http://" +:+ a +:+ path +:+ "?" +:+ q) = Some (mkURL a path q).
Proof.
  intros [Hv Ha] Hp Hs Hq.
  assert (Hall : str_all sent_char ("http://" +:+ a +:+ path +:+ "?" +:+ q) = true).
  { rewrite !str_all_app, Hq. rewrite (str_all_impl auth_char sent_char a), (str_all_impl path_char sent_char path); try done;
      apply all_ascii_impl; by vm_compute. }
  apply parse_url_http; try done.
  - by apply (free_of_all auth_char).
  - unfold literal. by rewrite !(free_of_all path_char) by done.
  - by apply (free_of_all auth_char).
  - by apply (free_of_all path_char).
  - by apply (free_of_all sent_char).
  - revert Hall. apply str_all_impl, all_ascii_impl. by vm_compute.
Qed.

Lemma plain_sent u : str_all url_char u = true → str_all sent_char u = true.
Proof. apply str_all_impl, all_ascii_impl. by vm_compute. Qed.

Lemma segment_path s : str_all segment_char s = true → str_all path_char s = true.
Proof. apply str_all_impl, all_ascii_impl. by vm_compute. Qed.

Lemma endpoint_path_ok t rid m : str_all segment_char t = true → str_all segment_char rid = true →
  str_all segment_char m = true →
  str_all path_char (Registry.registry.EndpointUrl t rid +:+ "/" +:+ m) = true ∧
  HasPrefix (Registry.registry.EndpointUrl t rid +:+ "/" +:+ m) "/" = true.
Proof.
  intros Ht Hr Hm. unfold Registry.registry.EndpointUrl. split; [|done]. rewrite !str_all_app.
  rewrite (segment_path t), (segment_path rid), (segment_path m) by done. done.
Qed.

(** What the query strings of the program say. *)
Lemma query_one k v : free_of "&" (k +:+ "=" +:+ v) = true → k ≠ "" →
  free_of "=" k = true → free_of ";" (k +:+ "=" +:+ v) = true → literal k = true → literal v = true →
  query_get (k +:+ "=" +:+ v) k = v.
Proof.
  intros Ha Hk He Hs Hlk Hlv. unfold query_get. rewrite Query_one by done. cbn [omap list_omap].
  rewrite parse_pair_literal by done. unfold Values_Get. by rewrite filter_cons_True.
Qed.

Lemma query_url u : str_all url_char u = true → query_get ("url=" +:+ u) "url" = u.
Proof.
  intros Hu. apply (query_one "url" u); try done; try (by apply plain_literal);
    rewrite !free_of_app, (plain_free _ u); done.
Qed.

Lemma query_code u : str_all url_char u = true → query_get ("code=" +:+ u) "code" = u.
Proof.
  intros Hu. apply (query_one "code" u); try done; try (by apply plain_literal);
    rewrite !free_of_app, (plain_free _ u); done.
Qed.

Lemma query_code_url c u : str_all url_char c = true → str_all url_char u = true →
  query_get ("code=" +:+ c +:+ "&url=" +:+ u) "code" = c ∧ query_get ("code=" +:+ c +:+ "&url=" +:+ u) "url" = u.
Proof.
  intros Hc Hu.
  assert (E : Query ("code=" +:+ c +:+ "&url=" +:+ u) = [("code", c); ("url", u)]).
  { change ("code=" +:+ c +:+ "&url=" +:+ u) with (("code=" +:+ c) +:+ "&" +:+ ("url=" +:+ u)).
    rewrite Query_app by (rewrite free_of_app, (plain_free _ c); done).
    rewrite Query_one by (rewrite free_of_app, (plain_free _ u); done). cbn [omap list_omap].
    change ("code=" +:+ c) with ("code" +:+ "=" +:+ c). change ("url=" +:+ u) with ("url" +:+ "=" +:+ u).
    rewrite !parse_pair_literal; try done; try (by apply plain_literal);
      rewrite !free_of_app; first [rewrite (plain_free _ c) by done|rewrite (plain_free _ u) by done]; done. }
  unfold query_get, Values_Get. rewrite E. split; done.
Qed.

(** *** The JSON bodies *)

Definition url_body (u : string) : string := "{" +:+ quoted "url" +:+ ": " +:+ quoted u +:+ "}".
Definition short_body (c u : string) : string :=
  "{" +:+ quoted "short_code" +:+ ": " +:+ quoted c +:+ ", " +:+ quoted "url" +:+ ": " +:+ quoted u +:+ "}".

Lemma quoted_app s t : quoted s +:+ t = String dquote (s +:+ String dquote t).
Proof. unfold quoted. rewrite str_app_cons. f_equal. by rewrite str_app_assoc. Qed.

(** A value or a member's name that is a plain literal. *)
Lemma parse_value_quoted n s t : str_all plain_char s = true →
  parse_value (S n) (quoted s +:+ t) = Some (JStr s, t).
Proof.
  intros Hs. rewrite quoted_app. cbn [parse_value skip_space]. 
  change (is_space dquote) with false. cbn iota. rewrite bool_decide_eq_true_2 by done.
  by rewrite parse_string_plain.
Qed.

Lemma parse_value_space n s : parse_value n (String " " s) = parse_value n s.
Proof. by destruct n. Qed.

Lemma parse_members_last n k v t : str_all plain_char k = true → str_all plain_char v = true →
  parse_members (S (S n)) (quoted k +:+ ": " +:+ quoted v +:+ "}" +:+ t) = Some ([(k, JStr v)], t).
Proof.
  intros Hk Hv. rewrite quoted_app. cbn [parse_members skip_space].
  change (is_space dquote) with false. cbn iota. rewrite bool_decide_eq_true_2 by done.
  rewrite parse_string_plain by done.
  change (": " +:+ quoted v +:+ "}" +:+ t) with (String ":" (String " " (quoted v +:+ String "}" t))).
  cbn [skip_space]. change (is_space ":") with false. cbn iota. rewrite bool_decide_eq_true_2 by done.
  rewrite parse_value_space, parse_value_quoted by done. done.
Qed.

Lemma parse_members_more n k v t l r : str_all plain_char k = true → str_all plain_char v = true →
  parse_members (S n) t = Some (l, r) →
  parse_members (S (S n)) (quoted k +:+ ": " +:+ quoted v +:+ "," +:+ t) = Some ((k, JStr v) :: l, r).
Proof.
  intros Hk Hv Ht. rewrite quoted_app. remember (S n) as n' eqn:En. cbn [parse_members skip_space].
  change (is_space dquote) with false. cbn iota. rewrite bool_decide_eq_true_2 by done.
  rewrite parse_string_plain by done.
  change (": " +:+ quoted v +:+ "," +:+ t) with (String ":" (String " " (quoted v +:+ String "," t))).
  cbn [skip_space]. change (is_space ":") with false. cbn iota. rewrite bool_decide_eq_true_2 by done.
  rewrite parse_value_space, En, parse_value_quoted by done. cbn [skip_space].
  change (is_space ",") with false. cbn iota. rewrite bool_decide_eq_false_2 by done.
  rewrite bool_decide_eq_true_2 by done. subst n'. by rewrite Ht.
Qed.

Lemma parse_members_space n t : parse_members (S n) (String " " t) = parse_members (S n) t.
Proof. done. Qed.

Lemma parse_object n k t l r : parse_members n (quoted k +:+ t) = Some (l, r) →
  parse_value (S n) ("{" +:+ quoted k +:+ t) = Some (JObj l, r).
Proof.
  intros Hm. change ("{" +:+ quoted k +:+ t) with (String "{" (quoted k +:+ t)). cbn [parse_value skip_space].
  change (is_space "{") with false. cbn iota. rewrite !bool_decide_eq_false_2 by done.
  rewrite bool_decide_eq_true_2, Hm by done. rewrite quoted_app. cbn [skip_space].
  change (is_space dquote) with false. cbn iota. by rewrite bool_decide_eq_false_2.
Qed.


Lemma fuel_enough s : 3 ≤ String.length s → ∃ n, fuel s = S (S (S (S n))).
Proof. intros Hl. unfold fuel. exists (2 * String.length s - 3). lia. Qed.

Lemma parse_url_body u : str_all plain_char u = true →
  parse_value (fuel (url_body u)) (url_body u) = Some (JObj [("url", JStr u)], "").
Proof.
  intros Hu. destruct (fuel_enough (url_body u)) as [n ->]; [unfold url_body; rewrite !str_length_app; simpl; lia|].
  apply parse_object. apply (parse_members_last (S n) "url" u ""); done.
Qed.

Lemma parse_short_body c u : str_all plain_char c = true → str_all plain_char u = true →
  parse_value (fuel (short_body c u)) (short_body c u) = Some (JObj [("short_code", JStr c); ("url", JStr u)], "").
Proof.
  intros Hc Hu. destruct (fuel_enough (short_body c u)) as [n ->]; [unfold short_body; rewrite !str_length_app; simpl; lia|].
  apply parse_object. apply (parse_members_more (S n) "short_code" c (String " " (quoted "url" +:+ ": " +:+ quoted u +:+ "}"))); [done..|].
  rewrite parse_members_space. by apply (parse_members_last n "url" u "").
Qed.

Lemma Unmarshal_url_body u : str_all plain_char u = true →
  (λ m, get_or "" m "url") <$> Unmarshal ["url"] (url_body u) = Some u.
Proof. intros Hu. unfold Unmarshal. by rewrite parse_url_body. Qed.

Lemma Decode_url_body u : str_all plain_char u = true →
  (λ m, get_or "" m "url") <$> Decode ["url"] (url_body u) = Some u.
Proof. intros Hu. unfold Decode. by rewrite parse_url_body. Qed.

Lemma Decode_short_body c u : str_all plain_char c = true → str_all plain_char u = true →
  (λ m, (get_or "" m "url", get_or "" m "short_code")) <$> Decode ["short_code"; "url"] (short_body c u) = Some (u, c).
Proof. intros Hc Hu. unfold Decode. by rewrite parse_short_body. Qed.

(** ** The deployment *)

Section correctness.
Context {Impl Handler Stub : Type} `{GoRange} (E : Env Impl Handler Stub) (error_text : error → string)
  (codes : nat → Rand) (rpc_page : Response string).
Context {L : Type} (elsewhere : string → Net Impl Handler Stub L → Request string → Net Impl Handler Stub L * res (Response string)).
Context (storage_authority api_authority : string).
Context (srid : string) (sc ac : client.Client Impl Handler Stub).
Abbreviation NetL := (Net Impl Handler Stub L).
Abbreviation storageService := (storageplugin.storageService (Impl := Impl) (Handler := Handler) (Stub := Stub)).
Abbreviation NetS := (Net Impl Handler Stub (L * storageService)).

Abbreviation host_address := (address E).

(** A client whose requests go to the host. *)
Definition attached (c : client.Client Impl Handler Stub) : Prop :=
  RegistryClient c = Some host_address ∧ (Config c).(HostURL) = host_address.

(** Storage is offered by the plugin [srid] alone, at its address, and is up; the
    token of the API plugin is live. *)
Definition host_ok (h : ServiceRouter Impl Handler Stub) : Prop :=
  steady E "storage" srid ("http://" +:+ storage_authority) "/storage.v1.Storage/"
    [(ac.(runtimeID), ac.(runtimeToken))] h.

(** What the deployment has to provide: addresses, clients that are attached to the
    host, and other processes that leave the services as they are. *)
Record deployed : Prop := {
  dp_coin : ∀ n, Registry.registry.rnd_ok (E.(coin) n);
  dp_codes : ∀ n, rand_ok (codes n);
  dp_host : simple_authority E.(host_authority);
  dp_storage : simple_authority storage_authority;
  dp_api : simple_authority api_authority;
  dp_distinct : api_authority ≠ E.(host_authority);
  dp_srid : str_all segment_char srid = true;
  dp_sc : attached sc;
  dp_ac : attached ac;
  dp_others : ∀ n h, host_ok h → host_ok (E.(others) n h);
  dp_elsewhere : ∀ a w req, host_ok w.(net_host) → host_ok (elsewhere a w req).1.(net_host);
}.

Context (D : deployed).

#[local] Instance storage_world' : World NetL := net_world elsewhere rpc_page E.
Abbreviation with_storage := (with_storage E rpc_page elsewhere storage_authority).
#[local] Instance api_world' : World NetS := net_world with_storage rpc_page E.

Lemma dispatch_services x : server.dispatch host_mux ("/services/" +:+ x) = Some HRouter.
Proof. reflexivity. Qed.

(** *** Steps of the host keep the services *)

Lemma turn_discover {R} (w : Net Impl Handler Stub R) t : host_ok w.(net_host) →
  let '(w', out) := turn E (λ n, host_DiscoverService E n t "1.0.0") w in
  host_ok w'.(net_host) ∧ w'.(net_rest) = w.(net_rest) ∧
  (∀ resp, out = Ok resp → ∃ rid, str_all segment_char t = true ∧ str_all segment_char rid = true ∧
     apiplugin.endpoint_url resp = Registry.registry.EndpointUrl t rid ∧ (t = "storage" → rid = srid)) ∧
  (t = "storage" → ∃ resp, out = Ok resp).
Proof.
  intros Hw. unfold turn.
  pose proof (steady_discover E _ _ _ _ (dp_coin D) _ _ (net_tick w) t "1.0.0" (dp_others D (net_tick w) _ Hw)) as Hd.
  destruct (host_DiscoverService _ _ _ _ _) as [h' out]. destruct Hd as (Hs & Hr & Hf). split_and!; [done|done| |].
  - intros resp Eo. destruct (Hr resp Eo) as (p & [Ht Hrid] & Ee & Etp & Hst). exists p.(Registry.registry.RuntimeID).
    unfold apiplugin.endpoint_url. rewrite Ee. simpl. rewrite Etp in Ht |- *. by split_and!.
  - intros Et. by apply Hf.
Qed.

Lemma turn_route {R} (w : Net Impl Handler Stub R) (req : Request string) : host_ok w.(net_host) →
  let '(w', d) := turn E (λ n h, route (E.(clock) n) h req) w in
  host_ok w'.(net_host) ∧ w'.(net_rest) = w.(net_rest).
Proof.
  intros Hw. unfold turn.
  pose proof (steady_route E _ _ _ _ _ _ (net_tick w) req (dp_others D (net_tick w) _ Hw)) as Hs.
  by destruct (route _ _ _).
Qed.

(** Whatever is asked of the host, when the processes behind it keep the services. *)
Lemma host_serve_ok {R} backend (w : Net Impl Handler Stub R) req :
  (∀ a w req, host_ok w.(net_host) → host_ok (backend a w req).1.(net_host)) → host_ok w.(net_host) →
  host_ok (host_serve backend rpc_page E w req).1.(net_host).
Proof.
  intros Hb Hw. unfold host_serve. destruct (server.dispatch _ _) as [[]|]; try done.
  pose proof (turn_route w req Hw) as Ht. destruct (turn _ _ w) as [w' [x|cl t pid target]]; [apply Ht|].
  destruct Ht as [Ht _]. unfold forward, send, deliver.
  destruct (parse_url _); [|done]. destruct (negb _); [done|].
  specialize (Hb (u_Host u) w' (received (px_Method (proxied req target)) u (px_Header (proxied req target)) (px_Body (proxied req target))) Ht).
  by destruct (backend _ _ _).
Qed.

(** *** The storage plugin *)

(** A request to the host with a URL of the program. *)
Lemma call_host {R} backend (w : Net Impl Handler Stub R) (c : client.Client Impl Handler Stub) method path q :
  str_all path_char path = true → HasPrefix path "/" = true → str_all sent_char q = true → free_of " " q = true →
  call (H0 := net_world backend rpc_page E) c w method (host_address +:+ path +:+ "?" +:+ q) =
    let '(w', resp) := host_serve backend rpc_page E w
      (received method (mkURL E.(host_authority) path q) (identity_headers c) "") in (w', Some (Ok resp)).
Proof.
  intros Hp Hs Hq Hsp. unfold call, address. rewrite str_app_assoc, parse_request by (done || apply (dp_host D)).
  cbn. unfold net_Do. cbn [hr_URL u_Host]. rewrite bool_decide_eq_true_2 by done.
  unfold well_formed_line. cbn [u_RawQuery]. rewrite Hsp. cbn [negb]. by destruct (host_serve _ _ _ _ _).
Qed.

(** The URL of a call as the plugins write it. *)
Lemma request_url t rid m q :
  host_address +:+ Registry.registry.EndpointUrl t rid +:+ "/" +:+ m +:+ "?" +:+ q =
  host_address +:+ (Registry.registry.EndpointUrl t rid +:+ "/" +:+ m) +:+ "?" +:+ q.
Proof. by rewrite !str_app_assoc. Qed.

Lemma log_ok (w : NetL) msg : host_ok w.(net_host) →
  ∃ w', storageplugin.logOperation sc w msg = (w', Some tt) ∧ host_ok w'.(net_host).
Proof.
  intros Hw. unfold storageplugin.logOperation. destruct (dp_sc D) as [-> Hu].
  unfold storage_world'. rewrite discover_at_host. pose proof (turn_discover w "logger" Hw) as Hd.
  destruct (turn _ _ w) as [w1 [resp|e]]; destruct Hd as (Hw1 & _ & Hr & _); [|by exists w1].
  destruct (Hr resp eq_refl) as (rid & Ht & Hrid & Ee & _). unfold apiplugin.endpoint_url in Ee.
  unfold storageplugin.log_url. rewrite Ee, Hu.
  change ("/Log?message=" +:+ ?x) with ("/" +:+ "Log" +:+ "?" +:+ "message=" +:+ x).
  destruct (endpoint_path_ok "logger" rid "Log" Ht Hrid eq_refl) as [Hp1 Hp2].
  assert (Hq : ∀ f, (∀ c, escaped_char c = true → f c = true) → str_all f (QueryEscape msg) = true).
  { intros f Hf. by apply (str_all_impl escaped_char f), escape_all. }
  rewrite (request_url "logger" rid "Log" ("message=" +:+ QueryEscape msg)), call_host; [|done..| |].
  - pose proof (host_serve_ok elsewhere w1 (received "POST" (mkURL (host_authority E)
      (Registry.registry.EndpointUrl "logger" rid +:+ "/" +:+ "Log") ("message=" +:+ QueryEscape msg)) (identity_headers sc) "")
      (dp_elsewhere D) Hw1) as Ho.
    destruct (host_serve _ _ _ _ _) as [w2 r]. by exists w2.
  - rewrite str_all_app, Hq; [done|]. apply all_ascii_impl. by vm_compute.
  - unfold free_of. rewrite str_all_app, Hq; [done|]. apply all_ascii_impl. by vm_compute.
Qed.

Definition storage_request (method m q : string) (hdr : Header) : Request string :=
  received method (mkURL storage_authority ("/storage.v1.Storage/" +:+ m) q) hdr "".

Abbreviation storage_process := (storage_process E rpc_page elsewhere).

Lemma storage_store (s : storageService) (w : NetL) c u hdr : s.(storageplugin.service_client) = sc →
  host_ok w.(net_host) → plain_url c → plain_url u →
  ∃ w', storage_process s w (storage_request "POST" "Store" ("code=" +:+ c +:+ "&url=" +:+ u) hdr) =
    (storageplugin.with_data s (<[c := u]> s.(storageplugin.data)), w',
     Ok (json_response ("{" +:+ quoted "success" +:+ ": true}"))) ∧ host_ok w'.(net_host).
Proof.
  intros Hs Hw [Hc0 Hc] [Hu0 Hu]. destruct (query_code_url c u Hc Hu) as [Qc Qu].
  unfold shortener.storage_process. change (server.dispatch _ _) with (Some (Func storageplugin.FStore)). cbn iota.
  erewrite (storageplugin.Store_ok s w _ c u) by (done || exact Qc || exact Qu). rewrite Hs.
  destruct (log_ok w (storageplugin.stored_message c u) Hw) as (w' & El & Hw'). 
  unfold storage_world' in El. unfold storage_world. rewrite El. by exists w'.
Qed.

Lemma storage_get (s : storageService) (w : NetL) c hdr : s.(storageplugin.service_client) = sc →
  host_ok w.(net_host) → plain_url c →
  ∃ w', storage_process s w (storage_request "GET" "Get" ("code=" +:+ c) hdr) =
    (s, w', Ok (match s.(storageplugin.data) !! c with
                | Some u => json_response (url_body u)
                | None => http_Error "Not found" StatusNotFound
                end)) ∧ host_ok w'.(net_host).
Proof.
  intros Hs Hw [Hc0 Hc]. pose proof (query_code c Hc) as Qc.
  unfold shortener.storage_process. change (server.dispatch _ _) with (Some (Func storageplugin.FGet)). cbn iota.
  destruct (storageplugin.data s !! c) as [u|] eqn:Ed.
  - erewrite (storageplugin.Get_ok s w _ c u) by (done || exact Qc). rewrite Hs.
    destruct (log_ok w (storageplugin.read_message c u) Hw) as (w' & El & Hw').
    unfold storage_world' in El. unfold storage_world. rewrite El. by exists w'.
  - unfold storageplugin.Get. unfold url_param. cbn [storage_request received rq_RawQuery u_RawQuery].
    unfold storage_request, received. cbn [rq_RawQuery u_RawQuery].
    rewrite Qc, bool_decide_eq_false_2, Ed by done. by exists w.
Qed.

(** *** A call of the API plugin to the storage plugin, through the host *)

Definition relayed (r : res (Response string)) : Response string :=
  match r with
  | Ok x => mkResponse x.(rp_StatusCode) (copy_response_headers x.(rp_Header) ∅) x.(rp_Body)
  | Err _ => http_Error "failed to proxy request" StatusBadGateway
  end.

(** The router's request to the storage plugin. *)
Lemma forward_storage (w : NetS) (req : Request string) m : str_all segment_char m = true → str_all sent_char req.(rq_RawQuery) = true →
  free_of " " req.(rq_RawQuery) = true → req.(rq_RawQuery) ≠ "" → req.(rq_Body) = "" →
  forward with_storage w req (("http://" +:+ storage_authority) +:+ "/storage.v1.Storage/" +:+ m) =
    let '(s', wl, r) := storage_process (storage_of w) (inner w)
      (storage_request req.(rq_Method) m req.(rq_RawQuery) (copy_request_headers req.(rq_Header))) in
    (outer wl s', relayed r).
Proof.
  intros Hm Hs Hsp Hq Hbody.
  assert (Hu : parse_url (full_url (("http://" +:+ storage_authority) +:+ "/storage.v1.Storage/" +:+ m) (rq_RawQuery req)) =
    Some (mkURL storage_authority ("/storage.v1.Storage/" +:+ m) (rq_RawQuery req))).
  { unfold full_url. rewrite bool_decide_eq_true_2 by done. rewrite !str_app_assoc.
    change ("http://" +:+ storage_authority +:+ "/storage.v1.Storage/" +:+ m +:+ "?" +:+ rq_RawQuery req) with
      ("http://" +:+ storage_authority +:+ ("/storage.v1.Storage/" +:+ m) +:+ "?" +:+ rq_RawQuery req).
    apply parse_request; [apply (dp_storage D)| |done|done]. by rewrite str_all_app, (segment_path m). }
  unfold forward, send, proxied. cbn [px_URL px_Method px_Header px_Body]. rewrite Hu. unfold deliver, well_formed_line.
  cbn [u_RawQuery u_Host]. rewrite Hsp. cbn [negb]. unfold shortener.with_storage. rewrite bool_decide_eq_true_2 by done.
  rewrite Hbody. change (received _ _ _ _) with
    (storage_request (rq_Method req) m (rq_RawQuery req) (copy_request_headers (rq_Header req))).
  destruct (shortener.storage_process _ _ _ _ _ _) as [[s' wl] r]. f_equal.
  unfold proxyRequest. fold (full_url (("http://" +:+ storage_authority) +:+ "/storage.v1.Storage/" +:+ m) (rq_RawQuery req)).
  unfold target_error. rewrite Hu. by destruct r.
Qed.

Lemma storage_call (w : NetS) method m q : host_ok w.(net_host) → str_all segment_char m = true →
  str_all sent_char q = true → free_of " " q = true → q ≠ "" →
  ∃ (w1 : NetS) hdr, host_ok w1.(net_host) ∧ w1.(net_rest) = w.(net_rest) ∧
    call ac w method (host_address +:+ Registry.registry.EndpointUrl "storage" srid +:+ "/" +:+ m +:+ "?" +:+ q) =
      let '(s', wl, r) := storage_process (storage_of w1) (inner w1) (storage_request method m q hdr) in
      (outer wl s', Some (Ok (relayed r))).
Proof.
  intros Hw Hm Hs Hsp Hq. rewrite request_url.
  destruct (endpoint_path_ok "storage" srid m eq_refl (dp_srid D) Hm) as [Hp1 Hp2].
  unfold api_world'. rewrite call_host by done.
  set (req := received method _ (identity_headers ac) "").
  unfold host_serve. change (server.dispatch _ _) with (Some HRouter). cbn iota.
  pose proof (turn_route w req Hw) as Ht.
  assert (Hd : (turn E (λ n h, route (clock E n) h req) w).2 =
    Forward ac.(runtimeID) "storage" srid (("http://" +:+ storage_authority) +:+ "/storage.v1.Storage/" +:+ m)).
  { unfold turn. pose proof (steady_forward E "storage" srid _ _ _ _ (net_tick w) req ac.(runtimeID) ac.(runtimeToken) m
      (dp_others D (net_tick w) _ Hw) ltac:(by left) (dp_srid D) eq_refl eq_refl (identity_headers_id ac) (identity_headers_auth ac)) as Hf.
    by destruct (route _ _ _). }
  destruct (turn _ _ w) as [w1 d]. simpl in Hd. subst d. destruct Ht as [Hw1 Hrest].
  exists w1, (copy_request_headers (identity_headers ac)). split_and!; [done|done|].
  rewrite forward_storage by done. by destruct (shortener.storage_process _ _ _ _ _ _) as [[s' wl] r].
Qed.

(** *** The API plugin *)

(** The stored URLs, and what has to hold of the processes. *)
Definition stored (w : NetS) : gmap string string := (storage_of w).(storageplugin.data).

Definition net_ok (w : NetS) : Prop :=
  host_ok w.(net_host) ∧ (storage_of w).(storageplugin.service_client) = sc ∧
  ∀ c u, stored w !! c = Some u → plain_url u.

Lemma same_rest (w w1 : NetS) : w1.(net_rest) = w.(net_rest) → host_ok w1.(net_host) →
  (storage_of w).(storageplugin.service_client) = sc → (∀ c u, stored w !! c = Some u → plain_url u) →
  net_ok w1 ∧ stored w1 = stored w.
Proof. unfold net_ok, stored, storage_of. intros -> ???. by split. Qed.

Lemma api_discover (w : NetS) : net_ok w →
  ∃ w1 resp, discover ac w host_address "storage" = (w1, Ok resp) ∧ net_ok w1 ∧ stored w1 = stored w ∧
    apiplugin.endpoint_url resp = Registry.registry.EndpointUrl "storage" srid.
Proof.
  intros (Hw & Hs & Hp). unfold api_world'. rewrite discover_at_host.
  pose proof (turn_discover w "storage" Hw) as Hd. destruct (turn _ _ w) as [w1 out].
  destruct Hd as (Hw1 & Hr & Ho & Hok). destruct (Hok eq_refl) as [resp ->]. exists w1, resp.
  destruct (Ho resp eq_refl) as (rid & _ & _ & Ee & Erid). rewrite <- (Erid eq_refl).
  destruct (same_rest w w1 Hr Hw1 Hs Hp) as [Hn Hst]. by split_and!.
Qed.

(** A call of the API plugin to the storage plugin. *)
Lemma api_call (w : NetS) method m q : net_ok w → str_all segment_char m = true →
  str_all sent_char q = true → free_of " " q = true → q ≠ "" →
  ∃ (w1 : NetS) hdr, net_ok w1 ∧ stored w1 = stored w ∧
    call ac w method (host_address +:+ Registry.registry.EndpointUrl "storage" srid +:+ "/" +:+ m +:+ "?" +:+ q) =
      let '(s', wl, r) := storage_process (storage_of w1) (inner w1) (storage_request method m q hdr) in
      (outer wl s', Some (Ok (relayed r))).
Proof.
  intros (Hw & Hs & Hp) Hm Hq Hsp Hne. destruct (storage_call w method m q Hw Hm Hq Hsp Hne) as (w1 & hdr & Hw1 & Hr & E1).
  destruct (same_rest w w1 Hr Hw1 Hs Hp) as [Hn Hst]. by exists w1, hdr.
Qed.

Lemma storeURL_ok (w : NetS) c u : net_ok w → plain_url c → plain_url u →
  ∃ w', apiplugin.storeURL ac w c u = (w', Some None) ∧ net_ok w' ∧ stored w' = <[c := u]> (stored w).
Proof.
  intros Hw Hc Hu. unfold apiplugin.storeURL. destruct (dp_ac D) as [-> Ha].
  destruct (api_discover w Hw) as (w1 & resp & -> & Hw1 & Hst & Ee). unfold apiplugin.store_url. rewrite Ha, Ee.
  change ("/Store?code=" +:+ c +:+ "&url=" +:+ u) with ("/" +:+ "Store" +:+ "?" +:+ ("code=" +:+ c +:+ "&url=" +:+ u)).
  destruct (api_call w1 "POST" "Store" ("code=" +:+ c +:+ "&url=" +:+ u) Hw1 eq_refl) as (w2 & hdr & Hw2 & Hst2 & ->); [..|done|].
  { by rewrite !str_all_app, (plain_sent c (proj2 Hc)), (plain_sent u (proj2 Hu)). }
  { by rewrite !free_of_app, (plain_free " " c eq_refl (proj2 Hc)), (plain_free " " u eq_refl (proj2 Hu)). }
  destruct Hw2 as (Hh2 & Hs2 & Hp2).
  destruct (storage_store (storage_of w2) (inner w2) c u hdr Hs2 Hh2 Hc Hu) as (w3 & -> & Hh3).
  exists (outer w3 (storageplugin.with_data (storage_of w2) (<[c := u]> (stored w2)))).
  split; [reflexivity|]. split; [split; [done|split; [done|]]|].
  - intros c' u'. unfold stored. simpl. rewrite lookup_insert. case_decide; [by intros [= <-]|apply Hp2].
  - unfold stored at 1. simpl. by rewrite Hst2, Hst.
Qed.

Lemma getURL_ok (w : NetS) c : net_ok w → plain_url c →
  ∃ w', apiplugin.getURL ac w c =
          (w', Some (match stored w !! c with Some u => Ok u | None => Err (Errorf "not found" []) end)) ∧
        net_ok w' ∧ stored w' = stored w.
Proof.
  intros Hw Hc. unfold apiplugin.getURL. destruct (dp_ac D) as [-> Ha].
  destruct (api_discover w Hw) as (w1 & resp & -> & Hw1 & Hst & Ee). unfold apiplugin.get_url. rewrite Ha, Ee.
  change ("/Get?code=" +:+ c) with ("/" +:+ "Get" +:+ "?" +:+ ("code=" +:+ c)).
  destruct (api_call w1 "GET" "Get" ("code=" +:+ c) Hw1 eq_refl) as (w2 & hdr & Hw2 & Hst2 & ->); [..|done|].
  { by rewrite str_all_app, (plain_sent c (proj2 Hc)). }
  { by rewrite free_of_app, (plain_free " " c eq_refl (proj2 Hc)). }
  destruct Hw2 as (Hh2 & Hs2 & Hp2).
  destruct (storage_get (storage_of w2) (inner w2) c hdr Hs2 Hh2 Hc) as (w3 & -> & Hh3).
  exists (outer w3 (storage_of w2)). split; [|split; [by split|]].
  - fold (stored w2). rewrite Hst2, Hst. destruct (stored w !! c) as [u|] eqn:Ed; [|done].
    assert (Hpl : plain_url u) by (apply (Hp2 c); by rewrite Hst2, Hst).
    pose proof (Unmarshal_url_body u (plain_json u (proj2 Hpl))) as Hj.
    cbn [relayed json_response rp_StatusCode rp_Body]. rewrite bool_decide_eq_false_2 by (intros E1; by apply E1).
    cbn [rp_Body]. destruct (Unmarshal _ _) as [m|]; [|done]. simpl in Hj. by injection Hj as ->.
  - change (stored w2 = stored w). by rewrite Hst2.
Qed.

(** *** The command line client *)

Lemma short_code n : let c := apiplugin.generateShortCode (codes n) in
  String.length c = 8 ∧ str_all hex_char c = true ∧ plain_url c.
Proof.
  unfold apiplugin.generateShortCode.
  assert (Hb : ∃ l, (match codes n 4 with Ok b => b | Err _ => [0; 0; 0; 0]%Z end) = l ∧ length l = 4 ∧ Forall is_byte l).
  { pose proof (dp_codes D n 4) as Hr. destruct (codes n 4) as [b|e]; [by destruct (Hr b eq_refl); eexists|].
    eexists. split; [reflexivity|]. split; [done|]. unfold is_byte. repeat constructor; lia. }
  destruct Hb as (l & -> & Hl & Hf). pose proof (hex_all l Hf) as Hh. pose proof (hex_length l) as Hlen.
  rewrite Hl in Hlen. split_and!; [done|done|]. split; [|by apply hex_plain]. by destruct l.
Qed.

Abbreviation api_process := (api_process E error_text codes rpc_page elsewhere storage_authority).
Abbreviation cli := (cli E error_text codes rpc_page elsewhere storage_authority api_authority ac).
Abbreviation run := (run E error_text codes rpc_page elsewhere storage_authority api_authority ac).

(** A call of the command line client reaches the API plugin. *)
Lemma cli_call (w : NetS) method m q : str_all path_char m = true →
  str_all sent_char q = true → free_of " " q = true →
  apiplugin.client_call (H := cli_world E error_text codes rpc_page elsewhere storage_authority api_authority ac) w method
    (("http://" +:+ api_authority) +:+ "/api.v1.API/" +:+ m +:+ "?" +:+ q) =
  let '(w', r) := api_process ac w (received method (mkURL api_authority ("/api.v1.API/" +:+ m) q) ∅ "") in (w', Some r).
Proof.
  intros Hm Hq Hsp. unfold apiplugin.client_call. rewrite str_app_assoc.
  change ("/api.v1.API/" +:+ m +:+ "?" +:+ q) with (("/api.v1.API/" +:+ m) +:+ "?" +:+ q).
  assert (Hp : str_all path_char ("/api.v1.API/" +:+ m) = true) by by rewrite str_all_app, Hm.
  rewrite parse_request by (done || apply (dp_api D)).
  cbn. unfold net_Do. cbn [hr_URL u_Host]. rewrite bool_decide_eq_false_2 by apply (dp_distinct D).
  unfold deliver, well_formed_line. cbn [u_RawQuery]. rewrite Hsp. cbn [negb].
  unfold with_api. cbn [u_Host hr_Method hr_Header]. rewrite bool_decide_eq_true_2 by done.
  by destruct (shortener.api_process _ _ _ _ _ _ _ _ _).
Qed.

Lemma cli_shorten (w : NetS) u : net_ok w → plain_url u →
  ∃ w' c, cli w ["shorten"; u] = (w', apiplugin.Shortened u c) ∧ String.length c = 8 ∧ str_all hex_char c = true ∧
    net_ok w' ∧ stored w' = <[c := u]> (stored w).
Proof.
  intros Hw Hu. destruct (short_code (net_tick w)) as (Hl & Hh & Hc). set (c := apiplugin.generateShortCode _) in *.
  destruct (storeURL_ok w c u Hw Hc Hu) as (w' & Es & Hw' & Hst). exists w', c. split; [|done].
  unfold shortener.cli, apiplugin.client_main, or_default. rewrite (bool_decide_eq_false_2 (_ +:+ _ = "")) by done.
  cbn iota. rewrite (bool_decide_eq_true_2 ("shorten" = "shorten")) by done. unfold apiplugin.shorten.
  change ("/api.v1.API/Shorten?url=" +:+ u) with ("/api.v1.API/" +:+ "Shorten" +:+ "?" +:+ ("url=" +:+ u)).
  rewrite cli_call; [|done|by rewrite str_all_app, (plain_sent u (proj2 Hu))|by rewrite free_of_app, (plain_free " " u eq_refl (proj2 Hu))].
  unfold shortener.api_process. change (server.dispatch _ _) with (Some (Func apiplugin.FShorten)). cbn iota.
  unfold apiplugin.Shorten. unfold url_param, received. cbn [rq_RawQuery u_RawQuery].
  rewrite (query_url u (proj2 Hu)), bool_decide_eq_false_2 by apply Hu. fold c.
  unfold api_world' in Es. unfold api_world. rewrite Es. cbn [answer json_response rp_StatusCode].
  rewrite bool_decide_eq_false_2 by (intros E1; by apply E1). cbn [rp_Body]. change (Decode _ _) with (Decode ["short_code"; "url"] (short_body c u)).
  pose proof (Decode_short_body c u (plain_json c (proj2 Hc)) (plain_json u (proj2 Hu))) as Hj.
  destruct (Decode _ _) as [m|]; [|done]. simpl in Hj. by injection Hj as -> ->.
Qed.

Lemma cli_resolve (w : NetS) c : net_ok w → plain_url c →
  ∃ w' e, cli w ["resolve"; c] = (w', e) ∧ net_ok w' ∧ stored w' = stored w ∧
    match stored w !! c with Some u => e = apiplugin.Resolved c u | None => ∃ msg, e = apiplugin.FatalExit msg end.
Proof.
  intros Hw Hc. destruct (getURL_ok w c Hw Hc) as (w' & Es & Hw' & Hst).
  unfold shortener.cli, apiplugin.client_main, or_default. rewrite (bool_decide_eq_false_2 (_ +:+ _ = "")) by done.
  cbn iota. rewrite (bool_decide_eq_false_2 ("resolve" = "shorten")) by done.
  rewrite (bool_decide_eq_true_2 ("resolve" = "resolve")) by done. unfold apiplugin.resolve.
  change ("/api.v1.API/Resolve?code=" +:+ c) with ("/api.v1.API/" +:+ "Resolve" +:+ "?" +:+ ("code=" +:+ c)).
  rewrite cli_call; [|done|by rewrite str_all_app, (plain_sent c (proj2 Hc))|by rewrite free_of_app, (plain_free " " c eq_refl (proj2 Hc))].
  unfold shortener.api_process. change (server.dispatch _ _) with (Some (Func apiplugin.FResolve)). cbn iota.
  unfold apiplugin.Resolve. unfold url_param, received. cbn [rq_RawQuery u_RawQuery].
  rewrite (query_code c (proj2 Hc)), bool_decide_eq_false_2 by apply Hc.
  unfold api_world' in Es. unfold api_world. rewrite Es. exists w'.
  destruct (stored w !! c) as [u|] eqn:Ed; cbn [answer json_response rp_StatusCode http_Error].
  - exists (apiplugin.Resolved c u). split; [|by split_and!].
    rewrite bool_decide_eq_false_2 by (intros E1; by apply E1). cbn [rp_Body]. change (Decode _ _) with (Decode ["url"] (url_body u)).
    destruct Hw as (_ & _ & Hp). pose proof (Decode_url_body u (plain_json u (proj2 (Hp c u Ed)))) as Hj.
    destruct (Decode _ _) as [m|]; [|done]. simpl in Hj. by injection Hj as ->.
  - eexists. split; [reflexivity|]. split; [done|]. split; [done|]. by eexists.
Qed.

(** C6: The URL shortener refines a map: with storage offered by one healthy plugin
    and the API plugin's token live, every sequence of commands on texts that need
    no encoding has an outcome that the map from codes to URLs allows, whatever else
    acts on the host in between: shortening prints the URL and a code of eight
    hexadecimal digits and stores the pair, resolving prints exactly the stored URL
    and fails exactly for codes that stand for nothing. *)
Theorem shortener_refines_map (w : NetS) cmds
    (Hw : net_ok w) (Hc : Forall (λ c, plain_url (text_of c)) cmds) :
  let '(w', es) := run w cmds in net_ok w' ∧ spec_run (stored w) cmds es (stored w').
Proof.
  revert w Hw. induction Hc as [|cmd cmds Hcmd _ IH]; intros w Hw; [by split; [|constructor]|].
  cbn [shortener.run]. destruct cmd as [u|c]; simpl in Hcmd; cbn [args_of].
  - destruct (cli_shorten w u Hw Hcmd) as (w1 & c & -> & Hl & Hh & Hw1 & Hst). specialize (IH w1 Hw1).
    destruct (run w1 cmds) as [w2 es]. destruct IH as [Hw2 Hr]. split; [done|].
    rewrite Hst in Hr. econstructor; [by apply spec_shorten|done].
  - destruct (cli_resolve w c Hw Hcmd) as (w1 & e & -> & Hw1 & Hst & He). specialize (IH w1 Hw1).
    destruct (run w1 cmds) as [w2 es]. destruct IH as [Hw2 Hr]. split; [done|].
    rewrite Hst in Hr. econstructor; [|done]. destruct (stored w !! c) as [u|] eqn:Ed.
    + rewrite He. by apply spec_found.
    + destruct He as [msg ->]. by apply spec_missing.
Qed.

End correctness.

(** ** The example deployment, started from nothing *)

Definition ex_env (hostname port : string) (var : string) : string :=
  if bool_decide (var = "HOST_URL") then "http://host:8080"
  else if bool_decide (var = "HOSTNAME") then hostname
  else if bool_decide (var = "PORT") then port else "".

Definition ex_E : Env unit unit unit :=
  mkEnv "host:8080" (λ _, 0%Z) (λ n, rand_seq (Z.of_nat n)) (λ _ _, 0%Z) (λ _ h, h).

Definition ex_page : Response string := http_Error "405 Method Not Allowed" StatusMethodNotAllowed.

(** The logger, and nobody else. *)
Definition ex_elsewhere (authority : string) (w : Net unit unit unit unit) (req : Request string) :
    Net unit unit unit unit * res (Response string) :=
  if bool_decide (authority = "logger:8081") then
    match server.dispatch loggerplugin.mux req.(rq_Path) with
    | Some (Func loggerplugin.FLog) => (w, Ok (loggerplugin.Log req).2)
    | Some _ => (w, Ok ex_page)
    | None => (w, Ok not_found)
    end
  else (w, Err unreachable).

#[local] Instance ex_world : World (Net unit unit unit unit) := net_world ex_elsewhere ex_page ex_E.

Abbreviation outcome := (Net unit unit unit unit * started unit unit unit)%type.
Definition ex_logger : outcome := loggerplugin.main (ex_env "logger" "8081") (mkNet new_host 0 tt).
Definition ex_storage : outcome := storageplugin.main (ex_env "storage" "8082") ex_logger.1.
Definition ex_api : outcome := apiplugin.main (ex_env "api" "8083") ex_storage.1.

Definition client_of (s : started unit unit unit) : client.Client unit unit unit :=
  match s with
  | Running c => c
  | Fatal _ => mkClient (storageplugin.config "") false false false "" "" None None
  end.

Definition ex_sc := client_of ex_storage.2.
Definition ex_ac := client_of ex_api.2.
Definition ex_net : Net unit unit unit (unit * storageplugin.storageService) :=
  outer ex_api.1 (storageplugin.new_storage ex_sc).

Definition ex_run (cmds : list command) : list apiplugin.ended :=
  (run ex_E (λ _, "") (λ n, rand_seq (Z.of_nat n)) ex_page ex_elsewhere "storage:8082" "api:8083" ex_ac ex_net cmds).2.

(** The registrations of the three plugins. *)
Definition ex_lc := client_of ex_logger.2.
Definition ex_registration (c : client.Client unit unit unit) (n : nat) (hostname port : string) (r : Registry.registry.ServiceRegistry) :
    Registry.registry.ServiceRegistry :=
  (Registry.registry.RegisterService (rand_seq (Z.of_nat (2 * n))) 0%Z None r
     (register_request c {["base_url" := base_url (ex_env hostname port) port]}
        (default (plugin.mkServiceDeclaration "" "" "") (head (provided c))))).1.

Definition ex_registry : Registry.registry.ServiceRegistry :=
  ex_registration ex_ac 8 "api" "8083" (ex_registration ex_sc 4 "storage" "8082"
    (ex_registration ex_lc 1 "logger" "8081" Registry.registry.NewServiceRegistry)).

Lemma ex_registry_eq : (net_host ex_net).(Router.router.registry) = ex_registry.
Proof. vm_compute. reflexivity. Qed.

Definition ex_log : list Registry.registry.ServiceProvider :=
  omap (λ t, head (get_or [] ex_registry.(Registry.registry.providers) t)) ["logger"; "storage"; "api"].

Lemma ex_models : Registry.registry.models ex_registry ex_log.
Proof.
  assert (El : ex_log = (([] ++ [_]) ++ [_]) ++ [_]) by (vm_compute; reflexivity). rewrite El.
  eapply Registry.registry.models_register;
    [eapply Registry.registry.models_register;
       [eapply Registry.registry.models_register; [apply Registry.registry.models_new|..]|..]|..];
    vm_compute; reflexivity.
Qed.

Lemma ex_rr_ok : Registry.registry.rr_ok ex_registry.
Proof.
  intros t. replace (Registry.registry.roundRobinIndex ex_registry) with (∅ : gmap string Z) by (by vm_compute).
  rewrite get_or_empty. unfold max64. lia.
Qed.

(** Properties of the three registrations are computed. *)
Lemma ex_log_forall (P : Registry.registry.ServiceProvider → Prop) `{∀ p, Decision (P p)} :
  forallb (λ p, bool_decide (P p)) ex_log = true → ∀ p, p ∈ ex_log → P p.
Proof.
  intros Hb p Hp. rewrite forallb_forall in Hb. apply (bool_decide_unpack _).
  specialize (Hb p). rewrite <- list_elem_of_In in Hb. by rewrite (Hb Hp).
Qed.

Lemma ex_offered :
  offered "storage" ex_sc.(runtimeID) "http://storage:8082" "/storage.v1.Storage/" ex_log.
Proof.
  split.
  - exists (default (Registry.registry.mkServiceProvider "" "" "" "" "" ∅ 0%Z) (ex_log !! 1)).
    split; [eapply (list_elem_of_lookup_2 _ 1); by vm_compute|]. split; by vm_compute.
  - apply (ex_log_forall (λ p, p.(Registry.registry.ServiceType) = "storage" →
      p.(Registry.registry.RuntimeID) = ex_sc.(runtimeID))). by vm_compute.
  - apply (ex_log_forall (λ p, p.(Registry.registry.RuntimeID) = ex_sc.(runtimeID) →
      p.(Registry.registry.ServiceType) = "storage" ∧ p.(Registry.registry.EndpointPath) = "/storage.v1.Storage/" ∧
      p.(Registry.registry.Metadata) !! "base_url" = Some "http://storage:8082")). by vm_compute.
Qed.

Lemma ex_live : live ex_E (net_host ex_net) ex_ac.(runtimeID) ex_ac.(runtimeToken).
Proof.
  split; [by vm_compute|].
  exists (handshake.mkTokenInfo ex_ac.(runtimeToken) 0%Z (24 * Hour)%Z). split_and!; [by vm_compute|done|].
  intros n. by vm_compute.
Qed.

Lemma ex_net_ok : net_ok ex_E "storage:8082" ex_sc.(runtimeID) ex_sc ex_ac ex_net.
Proof.
  split; [|split; [reflexivity|]].
  - split.
    + exists ex_log. rewrite ex_registry_eq. split_and!; [apply ex_models|apply ex_rr_ok| |apply ex_offered|].
      * apply Registry.registry.slice_ok_short, (bool_decide_unpack _). by vm_compute.
      * apply Forall_forall, (ex_log_forall url_safe). vm_compute. reflexivity.
    + by vm_compute.
    + by vm_compute.
    + intros c k Hk%list_elem_of_singleton. rewrite (f_equal fst Hk : c = _), (f_equal snd Hk : k = _). apply ex_live.
  - intros c u. change ((∅ : gmap string string) !! c = Some u → plain_url u). by rewrite lookup_empty.
Qed.

Lemma ex_deployed : deployed ex_E (λ n, rand_seq (Z.of_nat n)) ex_elsewhere "storage:8082" "api:8083" ex_sc.(runtimeID) ex_sc ex_ac.
Proof.
  split.
  - intros n. apply Registry.registry.rnd0_ok.
  - intros n. apply rand_seq_ok.
  - split; reflexivity.
  - split; reflexivity.
  - split; reflexivity.
  - discriminate.
  - vm_compute. reflexivity.
  - split; vm_compute; reflexivity.
  - split; vm_compute; reflexivity.
  - intros n h Hh. exact Hh.
  - intros a w req Hw. unfold ex_elsewhere. case_bool_decide; [|exact Hw].
    destruct (server.dispatch _ _) as [[| |[]]|]; exact Hw.
Qed.

Definition ex_session : list command :=
  [CShorten "https://github.com/masegraye/connect-plugin-go?tab=readme"; CResolve "0b0c0d0e"; CResolve "ffffffff"].

Lemma shortener_refines_map_witness :
  let '(w, es) := run ex_E (λ _, "") (λ n, rand_seq (Z.of_nat n)) ex_page ex_elsewhere "storage:8082" "api:8083" ex_ac ex_net ex_session in
  es = [apiplugin.Shortened "https://github.com/masegraye/connect-plugin-go?tab=readme" "0b0c0d0e";
        apiplugin.Resolved "0b0c0d0e" "https://github.com/masegraye/connect-plugin-go?tab=readme";
        apiplugin.FatalExit "API returned %d: %s"] ∧
  spec_run ∅ ex_session es (stored w).
Proof.
  assert (Hc : Forall (λ c, plain_url (text_of c)) ex_session) by (unfold ex_session; repeat constructor; by vm_compute).
  pose proof (shortener_refines_map ex_E (λ _, "") (λ n, rand_seq (Z.of_nat n)) ex_page ex_elsewhere "storage:8082" "api:8083"
    ex_sc.(runtimeID) ex_sc ex_ac ex_deployed ex_net ex_session ex_net_ok Hc) as Hr.
  assert (Es : (run ex_E (λ _, "") (λ n, rand_seq (Z.of_nat n)) ex_page ex_elsewhere "storage:8082" "api:8083" ex_ac ex_net ex_session).2 =
    [apiplugin.Shortened "https://github.com/masegraye/connect-plugin-go?tab=readme" "0b0c0d0e";
     apiplugin.Resolved "0b0c0d0e" "https://github.com/masegraye/connect-plugin-go?tab=readme";
     apiplugin.FatalExit "API returned %d: %s"]) by (vm_compute; reflexivity).
  destruct (run _ _ _ _ _ _ _ _ _ _) as [w es]. split; [exact Es|exact (proj2 Hr)].
Defined.

(** ** Texts that do not survive *)

(** The query parameter is spliced into the next URL as it is: what follows an
    ampersand or a number sign is lost, an escape is decoded once too often. *)
Lemma unescaped_url_truncated :
  ex_run [CShorten "https://a.b/?x=1&y=2"; CResolve "0b0c0d0e"] =
    [apiplugin.Shortened "https://a.b/?x=1" "0b0c0d0e"; apiplugin.Resolved "0b0c0d0e" "https://a.b/?x=1"] ∧
  ex_run [CShorten "https://a.b/a%26b"; CResolve "0b0c0d0e"] =
    [apiplugin.Shortened "https://a.b/a&b" "0b0c0d0e"; apiplugin.Resolved "0b0c0d0e" "https://a.b/a"].
Proof. split; vm_compute; reflexivity. Qed.

(** A URL with an escaped space is refused by the server of the storage plugin. *)
Lemma escaped_space_refused : ex_run [CShorten "https://a.b/a%20b"] = [apiplugin.FatalExit "API returned %d: %s"].
Proof. vm_compute. reflexivity. Qed.

(** With an escaped line feed no request can be made of the URL, and [Shorten] goes
    on with a nil request. *)
Lemma line_feed_panics : ex_run [CShorten "https://a.b/%0A"] = [apiplugin.FatalExit "Request failed: %v"] ∧
  (apiplugin.Shorten (H0 := net_world (with_storage ex_E ex_page ex_elsewhere "storage:8082") ex_page ex_E) (λ _, "") ex_ac
     (rand_seq 1) ex_net (received "POST" (mkURL "api:8083" "/api.v1.API/Shorten" "url=%0A") ∅ "")).2 = None.
Proof. split; vm_compute; reflexivity. Qed.

(** Bodies are built by formatting: a quotation mark in a stored URL ends the literal,
    and the client parses a value that the URL chose. *)
Lemma quotes_inject_members :
  let u := "x" +:+ String dquote ("," +:+ quoted "url" +:+ ":" +:+ String dquote "evil") in
  ex_run [CShorten u] = [apiplugin.Shortened "evil" "0b0c0d0e"].
Proof. vm_compute. reflexivity. Qed.

End shortener.
