(* ===== verification/PluginStartup.v ===== *)
(** * Starting a plugin against a host

    The composition of the client's and the server's halves of the handshake, the
    registration, the discovery of the dependency and the health report, for the
    example plugins on the network of [Host]; and what becomes of them when the
    host is supposed to manage them. *)

From stdpp Require Import prelude gmap strings list fin_maps.
From Stdlib Require Import ZArith Ascii.
From S2P Require Import Prelude GoRuntime Validation Identity Lifecycle Plugin Broker Handshake Discovery Client Server NetURL JSON PluginApp.
From S2P Require Import StoragePlugin ApiPlugin ExamplePlugins Host URLShortener.
From S2P Require Registry Router Platform Depgraph.

Module startup.
Import validation identity lifecycle plugin handshake client pluginapp host.
Import Registry.registry Router.router.

Section connecting.
Context {Impl Handler Stub : Type} `{GoRange} (E : Env Impl Handler Stub).
Context {R : Type} (backend : string → Net Impl Handler Stub R → Request string → Net Impl Handler Stub R * res (Response string))
  (rpc_page : Response string).
Abbreviation Net := (Net Impl Handler Stub R).
Abbreviation Client := (client.Client Impl Handler Stub).
#[local] Instance startup_world : World Net := net_world backend rpc_page E.

Abbreviation address := (host.address E).

(** The client of an example plugin once it is connected. *)
Definition connected_client (cfg : ClientConfig Impl Handler Stub) (rid tok : string) : Client :=
  mkClient (with_endpoint cfg address address) true false true rid tok (Some address) (Some address).

Definition issued (h : ServiceRouter Impl Handler Stub) (rid tok : string) (now : Time) : ServiceRouter Impl Handler Stub :=
  with_handshake h (mkHandshakeServer h.(handshakeServer).(cfg)
    (<[rid := mkTokenInfo tok now (now + DefaultRuntimeTokenTTL)%Z]> h.(handshakeServer).(tokens))).

Lemma Keys_empty : Keys (∅ : PluginSet Impl Handler Stub) = [].
Proof.
  unfold Keys, PluginSet. by rewrite go_range_empty.
Qed.

(** The handshake of a plugin with a host that serves no plugins itself. *)
Lemma Handshake_issues rd1 rd2 now (hs : HandshakeServer Impl Handler Stub) selfID name ps rs rid tok :
  hs.(cfg) = empty_config → selfID ≠ "" → ValidateSelfID selfID = None →
  generateRuntimeID rd1 selfID = Ok rid → generateToken rd2 = Ok tok →
  let cc := with_endpoint (example_config selfID name ps rs address) address address in
  ∃ resp, Handshake rd1 rd2 now None hs (handshake_request cc) =
      (mkHandshakeServer hs.(cfg) (<[rid := mkTokenInfo tok now (now + DefaultRuntimeTokenTTL)%Z]> hs.(tokens)), Ok resp) ∧
    Connect (λ _ _, Ok resp) (mkClient cc false false false "" "" None None) =
      (connected_client (example_config selfID name ps rs address) rid tok, None).
Proof.
  intros Hcfg Hne Hv Hr Ht cc.
  destruct (Handshake_cases rd1 rd2 now None hs (handshake_request cc)) as [[_ Eh]|[Hn _]].
  2:{ exfalso. apply Hn. unfold agrees. rewrite Hcfg. by split_and!. }
  assert (Ei : issue_identity rd1 rd2 now hs selfID =
    (mkHandshakeServer hs.(cfg) (<[rid := mkTokenInfo tok now (now + DefaultRuntimeTokenTTL)%Z]> hs.(tokens)), Ok (rid, tok))).
  { unfold issue_identity. rewrite bool_decide_eq_false_2, Hv, Hr, Ht, Hcfg by done. done. }
  change (hq_SelfId (handshake_request cc)) with selfID in Eh. rewrite Ei in Eh. eexists. split; [exact Eh|].
  unfold Connect. cbn [closed connected cl_cfg]. unfold doHandshake, set_http.
  cbn [hp_CoreProtocolVersion hp_AppProtocolVersion hp_RuntimeId hp_RuntimeToken hp_Plugins cl_cfg].
  change (Discovery cc) with (@None (string → res (list discovery.Endpoint))).
  cbn [cl_cfg hp_CoreProtocolVersion hp_AppProtocolVersion hp_Plugins hp_RuntimeId hp_RuntimeToken connected closed httpClient].
  assert (EK : Keys (client_plugins cc) = []) by apply Keys_empty. rewrite Hcfg, EK.
  rewrite !bool_decide_eq_false_2 by (intros E1; by apply E1). cbn [missing].
  rewrite bool_decide_eq_true_2 by by eapply runtime_id_nonempty. done.
Qed.

(** [main] of an unmanaged example plugin up to its registration: it is connected
    under the identity and with the token the host has issued. *)
Lemma start_connects selfID name ps rs register env (w : Net) rid tok :
  let n := w.(net_tick) in
  let h := E.(others) n w.(net_host) in
  env "HOST_URL" = address →
  h.(handshakeServer).(cfg) = empty_config → selfID ≠ "" → ValidateSelfID selfID = None →
  generateRuntimeID (E.(random) (2 * n)) selfID = Ok rid → generateToken (E.(random) (S (2 * n))) = Ok tok →
  let c := connected_client (example_config selfID name ps rs address) rid tok in
  start (example_config selfID name ps rs) register env w =
    match register c (mkNet (issued h rid tok (E.(clock) n)) (S n) w.(net_rest)) with
    | (w', Some e) => (w', Fatal e)
    | (w', None) => (w', Running c)
    end.
Proof.
  intros n h Henv Hcfg Hne Hv Hr Ht c.
  assert (Hu : unmanaged env = true) by (unfold unmanaged; rewrite Henv; by apply bool_decide_eq_true_2).
  unfold start, host_url. rewrite Hu, Henv, NewClient_example by done. cbn [cl_cfg].
  destruct (Handshake_issues (random E (2 * n)) (random E (S (2 * n))) (clock E n) (handshakeServer h) selfID name ps rs
    rid tok Hcfg Hne Hv Hr Ht) as (resp & Eh & Ec).
  unfold startup_world, net_world. cbn [rpc_Handshake cl_cfg].
  change (at_host E _) with (at_host E address). rewrite at_host_address.
  unfold turn. fold n h. unfold host_Handshake. rewrite Eh. cbv beta iota. rewrite Ec. done.
Qed.

(** *** Registering *)

Lemma metadata_ok url : (len url ≤ 4096)%Z → Contains url NUL = false →
  ValidateMetadata {["base_url" := url]} = None.
Proof.
  intros Hl Hn. apply ValidateMetadata_None. rewrite map_size_singleton. split; [lia|].
  apply map_Forall_singleton. by split_and!.
Qed.

(** The provider that a registration adds. *)
Definition provider_of (c : Client) (md : gmap string string) (svc : ServiceDeclaration) (id : string) (now : Time) : ServiceProvider :=
  mkServiceProvider id c.(runtimeID) svc.(sd_Type) svc.(sd_Version) svc.(sd_Path) md now.

Lemma register_one (w : Net) (c : Client) md svc id a :
  let n := w.(net_tick) in
  let h := E.(others) n w.(net_host) in
  c.(runtimeID) ≠ "" → ValidateServiceType svc.(sd_Type) = None → ValidateVersion svc.(sd_Version) = None →
  ValidateEndpointPath svc.(sd_Path) = None → ValidateMetadata md = None →
  authorized h.(registry) c.(runtimeID) svc.(sd_Type) = true → generateRegistrationID (E.(random) (2 * n)) = Ok id →
  models h.(registry) a → h.(registry).(registrations) !! id = None →
  ∃ r', register_all c w address md [svc] = (mkNet (with_registry h r') (S n) w.(net_rest), None) ∧
    models r' (a ++ [provider_of c md svc id (E.(clock) n)]) ∧
    r'.(roundRobinIndex) = h.(registry).(roundRobinIndex) ∧ r'.(selection) = h.(registry).(selection).
Proof.
  intros n h Hid Ht Hv Hp Hm Ha Hg M Hf. set (req := register_request c md svc).
  assert (Hrid : Header_Get (rs_header req) "X-Plugin-Runtime-ID" = c.(runtimeID)) by apply identity_headers_id.
  assert (Hval : validate_registration req = None).
  { unfold validate_registration. cbn [req register_request rs_ServiceType rs_Version rs_EndpointPath rs_Metadata].
    by rewrite Ht, Hv, Hp. }
  pose proof (RegisterService_cases (random E (2 * n)) (clock E n) (Some (lifecycleServer h)) (registry h) req) as Hc.
  destruct (RegisterService _ _ _ _ req) as [r' out] eqn:Er. cbn [fst snd] in Hc. destruct out as [id'|e].
  - destruct Hc as (_ & _ & _ & Eg & Eq). rewrite Hg in Eg. injection Eg as <-. exists r'. split_and!.
    + cbn [register_all]. unfold startup_world, net_world. cbn [rpc_RegisterService]. rewrite at_host_address.
      unfold turn, host_RegisterService. fold n h req. by rewrite Er.
    + rewrite Eq. apply models_notify. rewrite Hrid. by apply models_append.
    + rewrite Eq. unfold notifyWatchersLocked. by case_match.
    + rewrite Eq. unfold notifyWatchersLocked. by case_match.
  - destruct Hc as [_ Hc]. rewrite Hrid in Hc. destruct (Hc Hval Hid Ha) as [e' Eg]. congruence.
Qed.

(** *** Checking a dependency and reporting *)

Definition report_state (found : bool) (dep : string) : PluginHealthState :=
  if found then mkPluginHealthState HEALTH_STATE_HEALTHY "" []
  else mkPluginHealthState HEALTH_STATE_DEGRADED (dep +:+ " dependency not available") [dep].

Definition reported (l : LifecycleServer) (rid : string) (s : PluginHealthState) : LifecycleServer :=
  mkLifecycleServer (<[rid := s]> l.(states)).

Context (calm : ∀ n h, E.(others) n h = h) (Hcoin : ∀ n, rnd_ok (E.(coin) n)).

Lemma report_ok (w : Net) (c : Client) state reason deps : c.(runtimeID) ≠ "" → c.(lifecycleClient) = Some address →
  report c w state reason deps =
    (mkNet (with_lifecycle w.(net_host) (reported w.(net_host).(lifecycleServer) c.(runtimeID)
       (mkPluginHealthState state reason deps))) (S w.(net_tick)) w.(net_rest), None).
Proof.
  intros Hid Hl. unfold report, client.ReportHealth. rewrite Hl.
  unfold startup_world, net_world. cbn [rpc_ReportHealth]. rewrite at_host_address.
  change (Header_Set _ "Authorization" _) with (identity_headers c).
  unfold turn, host_ReportHealth, lifecycle.ReportHealth. cbn [rh_header].
  rewrite calm, identity_headers_id. by rewrite bool_decide_eq_false_2.
Qed.

Lemma check_dependency_ok (w : Net) (c : Client) dep a :
  c.(runtimeID) ≠ "" → c.(lifecycleClient) = Some address →
  let h := w.(net_host) in
  models h.(registry) a → rr_ok h.(registry) → slice_ok a →
  ∃ r' (found : bool), check_dependency c w address dep =
    mkNet (mkServiceRouter h.(handshakeServer) r'
        (reported h.(lifecycleServer) c.(runtimeID) (report_state found dep)) h.(pluginEndpoints))
      (S (S w.(net_tick))) w.(net_rest) ∧
    models r' a ∧ rr_ok r' ∧
    (found = true ↔ ∃ p, p ∈ a ∧ acceptable (Some h.(lifecycleServer)) dep "1.0.0" p).
Proof.
  intros Hid Hl h M Hrr Hlen. unfold check_dependency, startup_world. rewrite discover_at_host. fold startup_world.
  unfold turn, host_DiscoverService. rewrite calm. fold h.
  pose proof (DiscoverService_models (coin E (net_tick w)) (Some (lifecycleServer h)) (registry h) a dep "1.0.0" M Hrr
    (Hcoin _) Hlen) as Hd.
  destruct (DiscoverService _ _ _ _ dep "1.0.0") as [r' out]. destruct Hd as (M' & Hrr' & Hc). exists r'.
  destruct Hc as [(p & resp & -> & _ & Hp & Hok)|[Hno [e ->]]]; [exists true|exists false]; unfold default, id; cbv beta iota;
    rewrite report_ok by done; split_and!; try done.
  - split; [by eauto|done].
  - split; [done|]. intros (p & Hp & Hok). by destruct (Hno p Hp).
Qed.

(** ** A plugin with one service and one dependency, from nothing to its report *)

Definition started_host (h : ServiceRouter Impl Handler Stub) (rid tok : string) (now : Time) (r : ServiceRegistry)
    (s : PluginHealthState) : ServiceRouter Impl Handler Stub :=
  mkServiceRouter (issued h rid tok now).(handshakeServer) r (reported h.(lifecycleServer) rid s) h.(pluginEndpoints).

(** The host before a plugin with these identifiers starts. *)
Record ready (w : Net) (selfID rid tok id t : string) (a : list ServiceProvider) : Prop := {
  rdy_config : w.(net_host).(handshakeServer).(cfg) = empty_config;
  rdy_id : generateRuntimeID (E.(random) (2 * w.(net_tick))) selfID = Ok rid;
  rdy_token : generateToken (E.(random) (S (2 * w.(net_tick)))) = Ok tok;
  rdy_regid : generateRegistrationID (E.(random) (2 * S w.(net_tick))) = Ok id;
  rdy_models : models w.(net_host).(registry) a;
  rdy_rr : rr_ok w.(net_host).(registry);
  rdy_slice : slice_ok (a ++ [mkServiceProvider "" "" "" "" "" ∅ 0%Z]);
  rdy_fresh : w.(net_host).(registry).(registrations) !! id = None;
  rdy_authorized : authorized w.(net_host).(registry) rid t = true;
}.

Definition dependent_register (md : gmap string string) (dep : string) (c : Client) (w : Net) : Net * option error :=
  match RegistryClient c with
  | None => (w, None)
  | Some regClient =>
      match register_all c w regClient md (provided c) with
      | (w1, Some e) => (w1, Some e)
      | (w1, None) => (check_dependency c (sleeps w1 (200 * Millisecond)%Z) regClient dep, None)
      end
  end.

Lemma start_dependent selfID name svc rs md dep env (w : Net) rid tok id a :
  env "HOST_URL" = address → selfID ≠ "" → ValidateSelfID selfID = None → ready w selfID rid tok id svc.(sd_Type) a →
  ValidateServiceType svc.(sd_Type) = None → ValidateVersion svc.(sd_Version) = None →
  ValidateEndpointPath svc.(sd_Path) = None → ValidateMetadata md = None →
  let h := w.(net_host) in
  let c := connected_client (example_config selfID name [svc] rs address) rid tok in
  let log := a ++ [provider_of c md svc id (E.(clock) (S w.(net_tick)))] in
  ∃ r' (found : bool) w', start (example_config selfID name [svc] rs) (dependent_register md dep) env w = (w', Running c) ∧
    w'.(net_host) = started_host h rid tok (E.(clock) w.(net_tick)) r' (report_state found dep) ∧
    w'.(net_rest) = w.(net_rest) ∧
    models r' log ∧ rr_ok r' ∧
    (found = true ↔ ∃ p, p ∈ log ∧ acceptable (Some h.(lifecycleServer)) dep "1.0.0" p).
Proof.
  intros Henv Hne Hv [Hcfg Hid Htok Hreg M Hrr Hlen Hf Ha] Ht Hver Hp Hm h c log.
  rewrite (start_connects selfID name [svc] rs _ env w rid tok) by (done || by rewrite calm).
  rewrite calm. fold h c. set (w1 := mkNet (issued h rid tok (clock E (net_tick w))) (S (net_tick w)) (net_rest w)).
  assert (Hrid : c.(runtimeID) ≠ "") by by eapply runtime_id_nonempty.
  destruct (register_one w1 c md svc id a) as (r1 & Er & M1 & Hrr1 & _);
    [by cbn; rewrite ?calm..|].
  unfold dependent_register. change (RegistryClient c) with (Some address). cbn iota.
  change (provided c) with [svc]. rewrite Er. cbn [sleeps startup_world net_world]. rewrite calm.
  destruct (check_dependency_ok (mkNet (with_registry (net_host w1) r1) (S (net_tick w1)) (net_rest w1)) c dep log Hrid eq_refl)
    as (r2 & found & Ec & M2 & Hrr2 & Hfound); [exact M1| |by unfold slice_ok, log in *; rewrite length_app in *|].
  { intros t. cbn. rewrite Hrr1. cbn. rewrite calm. apply Hrr. }
  exists r2, found. eexists. split; [exact (f_equal (λ x, (x, Running c)) Ec)|by split_and!].
Qed.

(** *** The three example plugins of this shape *)

Inductive dependent := DStorage | DApi | DCache.

Definition main_of (x : dependent) : (string → string) → Net → Net * started Impl Handler Stub :=
  match x with DStorage => storageplugin.main | DApi => apiplugin.main | DCache => cacheplugin.main end.

Definition config_of (x : dependent) : string → ClientConfig Impl Handler Stub :=
  match x with DStorage => storageplugin.config | DApi => apiplugin.config | DCache => cacheplugin.config end.

(** Self id, service, and the service depended on. *)
Definition self_of (x : dependent) : string :=
  match x with DStorage => "storage-plugin" | DApi => "api-plugin" | DCache => "cache-plugin" end.
Definition service_of (x : dependent) : ServiceDeclaration :=
  match x with
  | DStorage => mkServiceDeclaration "storage" "1.0.0" "/storage.v1.Storage/"
  | DApi => mkServiceDeclaration "api" "1.0.0" "/api.v1.API/"
  | DCache => mkServiceDeclaration "cache" "1.0.0" "/cache.v1.Cache/"
  end.
Definition dependency_of (x : dependent) : string :=
  match x with DStorage => "logger" | DApi => "storage" | DCache => "logger" end.
Definition metadata_of (env : string → string) (x : dependent) : gmap string string :=
  match x with
  | DStorage => {["base_url" := base_url env "8082"]}
  | DApi => {["base_url" := base_url env "8083"]}
  | DCache => ∅
  end.

(** C13: An example plugin that starts against a host comes up: for the storage, the
    API and the cache plugin, started with HOST_URL set, a base URL within the limits
    and nobody else acting on the host meanwhile, [main] ends with a client that holds exactly the identity and token the
    host has issued, the registry holds exactly one registration more, the
    plugin's, under that identity and with its base URL, and the health on record
    is HEALTHY exactly when a routable provider of the dependency is registered,
    and DEGRADED naming the dependency otherwise. *)
Theorem dependent_plugin_starts (x : dependent) env (w : Net) rid tok id a
    (Henv : env "HOST_URL" = address) (Hready : ready w (self_of x) rid tok id (service_of x).(sd_Type) a)
    (Hurl : ValidateMetadata (metadata_of env x) = None) :
  let h := w.(net_host) in
  let c := connected_client (config_of x address) rid tok in
  let log := a ++ [provider_of c (metadata_of env x) (service_of x) id (E.(clock) (S w.(net_tick)))] in
  ∃ r' (found : bool) w', main_of x env w = (w', Running c) ∧
    w'.(net_host) = started_host h rid tok (E.(clock) w.(net_tick)) r' (report_state found (dependency_of x)) ∧
    w'.(net_rest) = w.(net_rest) ∧
    models r' log ∧ rr_ok r' ∧
    (found = true ↔ ∃ p, p ∈ log ∧ acceptable (Some h.(lifecycleServer)) (dependency_of x) "1.0.0" p).
Proof.
  destruct x; eapply start_dependent; done.
Qed.

(** ** The plugins under a platform

    Without HOST_URL the plugin waits for the platform to call its PluginIdentity
    service. *)
Inductive example := XLogger | XDependent (x : dependent) | XApp.

Definition example_main (x : example) : (string → string) → Net → Net * started Impl Handler Stub :=
  match x with XLogger => loggerplugin.main | XDependent x => main_of x | XApp => appplugin.main end.

Definition info_of (x : example) : Client → GetPluginInfoResponse :=
  match x with
  | XLogger => loggerplugin.GetPluginInfo
  | XDependent DStorage => storageplugin.GetPluginInfo
  | XDependent DApi => apiplugin.GetPluginInfo
  | XDependent DCache => cacheplugin.GetPluginInfo
  | XApp => appplugin.GetPluginInfo
  end.

Definition identity_of (x : example) (c : Client) (req : SetRuntimeIdentityRequest) : option (Client * bool) :=
  match x with
  | XLogger => loggerplugin.SetRuntimeIdentity c req
  | XDependent DStorage => Some (storageplugin.SetRuntimeIdentity c req)
  | XDependent DApi => Some (apiplugin.SetRuntimeIdentity c req)
  | XDependent DCache => cacheplugin.SetRuntimeIdentity c req
  | XApp => appplugin.SetRuntimeIdentity c req
  end.

Definition later_of (x : example) (env : string → string) : Client → Net → Net * option error :=
  match x with
  | XLogger => loggerplugin.after_identity env
  | XDependent DStorage => storageplugin.after_identity env
  | XDependent DApi => apiplugin.after_identity env
  | XDependent DCache => cacheplugin.after_identity
  | XApp => appplugin.after_identity
  end.

(** The PluginIdentity service as the platform sees it at [endpoint]; a handler that
    panics is an error of the call. *)
Definition identity_service (x : example) (c : Client) (endpoint : string) : Platform.platform.PluginIdentity :=
  Platform.platform.mkPluginIdentity
    (λ ep, if bool_decide (ep = endpoint) then
       let info := info_of x c in
       Ok (Platform.platform.mkGetPluginInfoResponse info.(gi_SelfId) info.(gi_Metadata) info.(gi_Provides) info.(gi_Requires))
     else Err unreachable)
    (λ ep rid tok host, if bool_decide (ep = endpoint) then
       match identity_of x c (mkSetRuntimeIdentityRequest rid tok host) with
       | Some _ => None
       | None => Some panicked
       end
     else Some unreachable).

(** A client without RPC clients does nothing to the world. *)
Lemma no_clients_later x env c (w : Net) : RegistryClient c = None → later_of x env c w = (w, None).
Proof.
  intros Hc. destruct x as [|[]|]; cbn [later_of];
    unfold loggerplugin.after_identity, storageplugin.after_identity, apiplugin.after_identity,
      cacheplugin.after_identity, appplugin.after_identity, register_later,
      loggerplugin.registerServices, storageplugin.registerServices, apiplugin.registerServices,
      cacheplugin.registerServices, appplugin.registerServices; by rewrite Hc.
Qed.

Lemma no_clients_report (c : Client) (w : Net) st reason deps : c.(lifecycleClient) = None →
  ∃ e, report c w st reason deps = (w, Some e).
Proof. intros Hc. unfold report, client.ReportHealth. rewrite Hc. by eexists. Qed.

(** The client [main] leaves behind when it is not told where the host is. *)
Definition waiting_client (x : example) (env : string → string) : Client :=
  let cfg := match x with
    | XLogger => loggerplugin.config | XDependent x => config_of x | XApp => appplugin.config
    end in
  mkClient (with_endpoint (cfg (host_url env)) (host_url env) (host_url env)) false false false "" "" None None.

Lemma managed_main x env (w : Net) : env "HOST_URL" = "" → example_main x env w = (w, Running (waiting_client x env)).
Proof.
  intros Hu. assert (Eu : unmanaged env = false) by (unfold unmanaged; by rewrite Hu).
  destruct x as [|[]|]; apply start_managed; try done; apply NewClient_example, host_url_nonempty.
Qed.

(** An identity that is assigned to it makes no RPC clients. *)
Lemma assigned_waiting x env req c' b : identity_of x (waiting_client x env) req = Some (c', b) →
  RegistryClient c' = None ∧ c'.(lifecycleClient) = None ∧ c'.(runtimeID) = req.(si_RuntimeId).
Proof.
  assert (Ha : ∀ r, pluginapp.SetRuntimeIdentity (waiting_client x env) req = r →
    RegistryClient r.1 = None ∧ r.1.(lifecycleClient) = None ∧ r.1.(runtimeID) = req.(si_RuntimeId)).
  { intros r <-. by apply assigned_identity_has_no_clients. }
  assert (Hl : SetRuntimeIdentity_logged (waiting_client x env) req = Some (c', b) →
    pluginapp.SetRuntimeIdentity (waiting_client x env) req = (c', b)).
  { unfold SetRuntimeIdentity_logged. destruct (token_preview _); [|done]. intros Hs; exact (f_equal (default (c', b)) Hs). }
  intros Hi. apply (Ha (c', b)). destruct x as [|[]|]; first [by apply Hl | exact (f_equal (default (c', b)) Hi)].
Qed.

(** *** A platform that adds such a plugin *)

(** Nobody reports under [rid] while the platform waits. *)
Definition silent (rid : string) (acts : list Platform.platform.activity) : Prop :=
  ∀ act r l, act ∈ acts → l.(states) !! rid = None → (act (r, l)).2.(states) !! rid = None.

Definition timed_out : error := Errorf "timeout waiting for plugin to become healthy" [].

Lemma silent_wait t0 k acts p rid : k ≤ 60 → silent rid acts →
  (Platform.platform.lifecycleServer p).(states) !! rid = None → 60 < k + length acts →
  (Platform.platform.waitForHealthy (t0 + Platform.platform.health_timeout)%Z p rid (Platform.platform.on_time t0 k acts)).2 =
  Some (Some timed_out).
Proof.
  revert k p. induction acts as [|act acts IH]; intros k p Hk Hs Hp Hl; [simpl in Hl; lia|].
  cbn [Platform.platform.on_time]. rewrite Platform.platform.wait_cons. cbn zeta.
  destruct (Z.ltb_spec (t0 + Platform.platform.health_timeout) (t0 + Platform.platform.health_poll * Z.of_nat (S k)))
    as [|Hle]; [done|].
  assert (Hst : (Platform.platform.lifecycleServer (Platform.platform.act_on act p)).(states) !! rid = None).
  { unfold Platform.platform.act_on. specialize (Hs act (Platform.platform.registry p) (Platform.platform.lifecycleServer p)
      ltac:(by left) Hp). by destruct (act _). }
  unfold GetHealthState. rewrite Hst.
  apply IH; [|intros a r l Ha; apply Hs; by right|done|simpl in Hl; lia].
  unfold Platform.platform.health_timeout, Platform.platform.health_poll, Second, Millisecond in Hle. lia.
Qed.

(** A platform gives up on a plugin that stays silent, and takes it back. *)
Lemma AddPlugin_gives_up rpc rd1 rd2 t0 acts p config info rid tok :
  Platform.platform.platform_ok p → 61 ≤ length acts →
  Platform.platform.admitted rpc rd1 rd2 p config info rid tok →
  (Platform.platform.depGraph p).(Depgraph.depgraph.nodes) !! rid = None →
  (Platform.platform.lifecycleServer p).(states) !! rid = None → silent rid acts →
  let '(p', out) := Platform.platform.AddPlugin rpc rd1 rd2 t0 (Platform.platform.on_time t0 0 acts) p config in
  out = Some (Some (Errorf "plugin %q did not become healthy: %w" [AStr (Platform.platform.self_id config info); AErr timed_out])) ∧
  Platform.platform.depGraph p' = Platform.platform.depGraph p ∧
  Platform.platform.pluginEndpoints p' = Platform.platform.pluginEndpoints p ∧
  Platform.platform.plugins p' = Platform.platform.plugins p.
Proof.
  intros Hok Hlong Ha Hfresh Hnew Hs.
  destruct (Platform.platform.AddPlugin_cases rpc rd1 rd2 t0 (Platform.platform.on_time t0 0 acts) p config)
    as [[Hno _]|(info' & rid' & tok' & (Ei' & _ & Er' & _) & Hadd)]; [by destruct Hno; eauto|].
  destruct Ha as (Ei & _ & Er & _). rewrite Ei in Ei'. injection Ei' as <-. rewrite Er in Er'. injection Er' as <-.
  cbn zeta in Hadd. set (i := Platform.platform.new_instance config info rid tok') in *.
  set (p1 := Platform.platform.with_graph p _) in *.
  pose proof (silent_wait t0 0 acts p1 rid ltac:(lia) Hs Hnew Hlong) as Hw.
  pose proof (Platform.platform.wait_tables (t0 + Platform.platform.health_timeout)%Z p1 rid (Platform.platform.on_time t0 0 acts))
    as (W1 & W2 & W3).
  destruct (Platform.platform.waitForHealthy _ _ _ _) as [p2 out]. simpl in Hw. subst out. rewrite Hadd.
  split_and!; [done| |done|done]. cbn [fst] in W1. cbn. rewrite W1.
  apply (Depgraph.depgraph.Remove_Add_aux _ (Platform.platform.node_of i)); [apply Hok|done].
Qed.

Definition name_of (x : example) : string :=
  match x with XLogger => "logger-plugin" | XDependent x => self_of x | XApp => "app-plugin" end.

Definition requires_of (x : example) : list ServiceDependency :=
  match x with
  | XLogger => []
  | XDependent x => [mkServiceDependency (dependency_of x) "1.0.0" true true]
  | XApp => [mkServiceDependency "cache" "1.0.0" true true]
  end.

Lemma info_waiting x env : let info := info_of x (waiting_client x env) in
  info.(gi_SelfId) = name_of x ∧ info.(gi_Requires) = requires_of x.
Proof. by destruct x as [|[]|]. Qed.

Lemma identity_accepts x c req : (8 ≤ len req.(si_RuntimeToken))%Z → ∃ c', identity_of x c req = Some (c', true).
Proof.
  intros Hl. assert (Hs : ∃ c', SetRuntimeIdentity_logged c req = Some (c', true)).
  { unfold SetRuntimeIdentity_logged, token_preview. destruct (Z.ltb_spec (len (si_RuntimeToken req)) 8); [lia|by eexists]. }
  destruct x as [|[]|]; first [exact Hs|by eexists].
Qed.

(** The platform's view of the waiting plugin. *)
Lemma waiting_admitted x env config rd1 rd2 p rid tok :
  (∀ dep, dep ∈ requires_of x → Depgraph.depgraph.HasService (Platform.platform.depGraph p) dep.(dep_Type) = true) →
  rand_ok rd2 → generateRuntimeID rd1 (name_of x) = Ok rid → generateToken rd2 = Ok tok →
  ∃ info, Platform.platform.self_id config info = name_of x ∧
    Platform.platform.admitted (identity_service x (waiting_client x env) (Platform.platform.cfg_Endpoint config))
      rd1 rd2 p config info rid tok.
Proof.
  intros Hdeps Hrd Hrid Htok. set (c := waiting_client x env). destruct (info_waiting x env) as [Hs Hq]. fold c in Hs, Hq.
  exists (Platform.platform.mkGetPluginInfoResponse (info_of x c).(gi_SelfId) (info_of x c).(gi_Metadata)
    (info_of x c).(gi_Provides) (info_of x c).(gi_Requires)).
  match goal with |- Platform.platform.self_id _ ?i = _ ∧ _ => assert (Eself : Platform.platform.self_id config i = name_of x) end.
  { unfold Platform.platform.self_id. cbn [Platform.platform.SelfId]. rewrite Hs. by destruct x as [|[]|]. }
  destruct (generateToken_Ok _ _ Hrd Htok) as (Hlt & _).
  destruct (identity_accepts x c (mkSetRuntimeIdentityRequest rid tok "")) as [ci Ei].
  { unfold len. cbn [si_RuntimeToken]. rewrite Hlt. lia. }
  split; [done|]. unfold Platform.platform.admitted, identity_service.
  cbn [Platform.platform.GetPluginInfo Platform.platform.SetRuntimeIdentity Platform.platform.gi_Requires].
  rewrite bool_decide_eq_true_2, Ei, Eself, Hq by done. split_and!; try done. intros dep Hd _. by apply Hdeps.
Qed.

(** C26: The managed deployment of the example plugins cannot succeed.  Started
    without HOST_URL, each of the five plugins waits with a client that has never
    connected.  When a platform adds it, the plugin acknowledges its identity, but
    with that identity it neither registers nor can it report its health: its
    goroutine leaves the world as it is, and every report is an error.  So, with the
    plugin's dependencies in the graph and nobody reporting in its name, [AddPlugin]
    ends with the timeout of the health check, and graph, routes and plugin table
    are as before. *)
Theorem managed_plugin_never_joins (x : example) env (w : Net) config rd1 rd2 t0 acts p rid tok
    (Henv : env "HOST_URL" = "") (Hok : Platform.platform.platform_ok p) (Hlong : 61 ≤ length acts)
    (Hdeps : ∀ dep, dep ∈ requires_of x → Depgraph.depgraph.HasService (Platform.platform.depGraph p) dep.(dep_Type) = true)
    (Hrd : rand_ok rd2) (Hrid : generateRuntimeID rd1 (name_of x) = Ok rid) (Htok : generateToken rd2 = Ok tok)
    (Hfresh : (Platform.platform.depGraph p).(Depgraph.depgraph.nodes) !! rid = None)
    (Hnew : (Platform.platform.lifecycleServer p).(states) !! rid = None) (Hsilent : silent rid acts) :
  ∃ c, example_main x env w = (w, Running c) ∧
    (∀ req, (8 ≤ len req.(si_RuntimeToken))%Z → ∃ c', identity_of x c req = Some (c', true) ∧
       c'.(runtimeID) = req.(si_RuntimeId) ∧
       ∀ v, later_of x env c' v = (v, None) ∧ ∀ st reason deps, ∃ e, report c' v st reason deps = (v, Some e)) ∧
    let '(p', out) := Platform.platform.AddPlugin (identity_service x c (Platform.platform.cfg_Endpoint config)) rd1 rd2 t0
                        (Platform.platform.on_time t0 0 acts) p config in
    out = Some (Some (Errorf "plugin %q did not become healthy: %w" [AStr (name_of x); AErr timed_out])) ∧
    Platform.platform.depGraph p' = Platform.platform.depGraph p ∧
    Platform.platform.pluginEndpoints p' = Platform.platform.pluginEndpoints p ∧
    Platform.platform.plugins p' = Platform.platform.plugins p.
Proof.
  exists (waiting_client x env). split; [by apply managed_main|]. split.
  - intros req Hl. destruct (identity_accepts x (waiting_client x env) req Hl) as [c' Ei].
    destruct (assigned_waiting x env req c' true Ei) as (Hr & Hlc & Hid). exists c'. split_and!; [done|done|].
    intros v. split; [by apply no_clients_later|]. intros st reason deps. by apply no_clients_report.
  - destruct (waiting_admitted x env config rd1 rd2 p rid tok Hdeps Hrd Hrid Htok) as (info & Es & Ha).
    rewrite <- Es. by apply (AddPlugin_gives_up _ _ _ _ _ _ _ info rid tok).
Qed.

End connecting.

(** ** Examples *)

Import shortener.

(** The storage plugin after the logger, as in [ex_storage]. *)
Definition ex_logger_log : list ServiceProvider := take 1 ex_log.

Lemma ex_ready : ready ex_E ex_logger.1 "storage-plugin" ex_sc.(client.runtimeID) ex_sc.(client.runtimeToken)
  "reg-08090a0b0c0d0e0f" "storage" ex_logger_log.
Proof.
  assert (Er : (net_host ex_logger.1).(registry) = ex_registration ex_lc 1 "logger" "8081" NewServiceRegistry)
    by (vm_compute; reflexivity).
  split.
  - vm_compute. reflexivity.
  - vm_compute. reflexivity.
  - vm_compute. reflexivity.
  - vm_compute. reflexivity.
  - rewrite Er.
    assert (El : ex_logger_log = [] ++ [default (mkServiceProvider "" "" "" "" "" ∅ 0%Z) (head ex_log)])
      by (vm_compute; reflexivity).
    rewrite El. unfold ex_registration. eapply models_register; [apply models_new|vm_compute; reflexivity..].
  - rewrite Er. intros t. replace (roundRobinIndex _) with (∅ : gmap string Z) by (by vm_compute).
    rewrite get_or_empty. unfold max64. lia.
  - apply slice_ok_short, (bool_decide_unpack _). by vm_compute.
  - vm_compute. reflexivity.
  - vm_compute. reflexivity.
Qed.

Lemma dependent_plugin_starts_witness :
  ready ex_E ex_logger.1 "storage-plugin" ex_sc.(client.runtimeID) ex_sc.(client.runtimeToken)
    "reg-08090a0b0c0d0e0f" "storage" ex_logger_log ∧
  ∃ r' w', main_of ex_E ex_elsewhere ex_page DStorage (ex_env "storage" "8082") ex_logger.1 = (w', Running ex_sc) ∧
    models r' (ex_logger_log ++ drop 1 (take 2 ex_log)) ∧
    (net_host w').(Router.router.lifecycleServer).(states) !! ex_sc.(client.runtimeID) =
      Some (mkPluginHealthState HEALTH_STATE_HEALTHY "" []).
Proof.
  split; [exact ex_ready|].
  assert (Hrnd : ∀ n, rnd_ok (coin ex_E n)) by (intros n; apply rnd0_ok).
  destruct (dependent_plugin_starts ex_E ex_elsewhere ex_page (λ _ _, eq_refl) Hrnd DStorage (ex_env "storage" "8082")
    ex_logger.1 _ _ _ ex_logger_log ltac:(vm_compute; reflexivity) ex_ready ltac:(vm_compute; reflexivity))
    as (r' & found & w' & Em & Eh & _ & M & _ & Hf).
  assert (Ec : connected_client ex_E (config_of DStorage (host.address ex_E)) ex_sc.(client.runtimeID) ex_sc.(client.runtimeToken) =
    ex_sc) by (vm_compute; reflexivity).
  exists r', w'. split; [exact (eq_trans Em (f_equal (λ c, (w', Running c)) Ec))|]. split.
  - revert M. cbn zeta. match goal with |- models _ (_ ++ ?l) → _ =>
      assert (El : drop 1 (take 2 ex_log) = l) by (vm_compute; reflexivity); rewrite El end. exact (λ M, M).
  - rewrite Eh. unfold started_host, reported. cbn [Router.router.lifecycleServer states].
    rewrite lookup_insert_eq. do 2 f_equal.
    assert (found = true) as ->; [|reflexivity]. apply Hf.
    exists (default (mkServiceProvider "" "" "" "" "" ∅ 0%Z) (head ex_log)).
    split; [apply elem_of_app; left; eapply (list_elem_of_lookup_2 _ 0); vm_compute; reflexivity|].
    split; [vm_compute; reflexivity|]. split; [right; vm_compute; reflexivity|]. vm_compute. reflexivity.
Defined.

Lemma managed_plugin_never_joins_witness :
  let acts := replicate 61 (Platform.platform.idle) in
  ∃ c, example_main ex_E ex_elsewhere ex_page (XDependent DStorage) (λ _, "") ex_logger.1 = (ex_logger.1, Running c) ∧
    (Platform.platform.AddPlugin (identity_service (XDependent DStorage) c "http://localhost:8082") (rand_seq 171) (rand_seq 5) 0
      (Platform.platform.on_time 0 0 acts) Platform.platform.ex_platform Platform.platform.ex_config).2 =
    Some (Some (Errorf "plugin %q did not become healthy: %w" [AStr "storage-plugin"; AErr timed_out])).
Proof.
  destruct (managed_plugin_never_joins ex_E ex_elsewhere ex_page (XDependent DStorage) (λ _, "") ex_logger.1
    Platform.platform.ex_config (rand_seq 171) (rand_seq 5) 0 (replicate 61 Platform.platform.idle) Platform.platform.ex_platform
    "storage-plugin-abac" (default "" (match generateToken (rand_seq 5) with Ok t => Some t | Err _ => None end))
    ltac:(reflexivity) Platform.platform.ex_platform_ok) as (c & Em & _ & Ha).
  - rewrite length_replicate. lia.
  - intros dep [->|[]%elem_of_nil]%elem_of_cons. vm_compute. reflexivity.
  - apply rand_seq_ok.
  - vm_compute. reflexivity.
  - vm_compute. reflexivity.
  - vm_compute. reflexivity.
  - vm_compute. reflexivity.
  - intros act r l Hact. apply elem_of_replicate in Hact as [-> _]. done.
  - exists c. split; [exact Em|]. destruct (Platform.platform.AddPlugin _ _ _ _ _ _ _) as [p' out]. apply Ha.
Defined.

(** ** What the other two example plugins miss *)

#[local] Existing Instance ex_world.

Definition ex_cache : outcome := cacheplugin.main (ex_env "cache" "8084") ex_logger.1.
Definition ex_app : outcome := appplugin.main (ex_env "app" "8085") ex_cache.1.

(** The cache plugin registers without a base URL: a call of it reaches no endpoint. *)
Lemma cache_not_routable :
  let c := client_of ex_app.2 in
  let cache := (client_of ex_cache.2).(client.runtimeID) in
  let w := ex_app.1 in
  ShouldRouteTraffic (net_host w).(Router.router.lifecycleServer) cache = true ∧
  (net_Do ex_elsewhere ex_page ex_E w
     (mkHTTPRequest "GET" (neturl.mkURL "host:8080" ("/services/cache/" +:+ cache +:+ "/Get") "") (identity_headers c))).2 =
  Ok (http_Error ("provider endpoint not registered: " +:+ cache) StatusNotFound).
Proof. split; vm_compute; reflexivity. Qed.

(** The app plugin, started against a host, never looks for its dependency and
    never reports. *)
Lemma app_never_reports :
  (∃ c, ex_app.2 = Running c) ∧
  GetHealthState (net_host ex_app.1).(Router.router.lifecycleServer) (client_of ex_app.2).(client.runtimeID) = None.
Proof. split; [eexists|]; vm_compute; reflexivity. Qed.

(** Registering looks at the runtime id alone: the token plays no part. *)
Lemma registration_ignores_token rd now lc r hdr1 hdr2 t v p md :
  Header_Get hdr1 "X-Plugin-Runtime-ID" = Header_Get hdr2 "X-Plugin-Runtime-ID" →
  RegisterService rd now lc r (mkRegisterServiceRequest hdr1 t v p md) =
  RegisterService rd now lc r (mkRegisterServiceRequest hdr2 t v p md).
Proof. intros Hid. unfold RegisterService, validate_registration. cbn [rs_header rs_ServiceType rs_Version rs_EndpointPath rs_Metadata]. by rewrite Hid. Qed.

(** An identity with a token of fewer than eight bytes panics three of the handlers. *)
Lemma short_token_panics (c : client.Client unit unit unit) :
  loggerplugin.SetRuntimeIdentity c (mkSetRuntimeIdentityRequest "logger-plugin-1" "short" "") = None.
Proof. reflexivity. Qed.

End startup.
