(* ===== verification/KVLogging.v ===== *)
(** * Logging key-value plugin (examples/capabilities/logger/logger.go,
      examples/kv/impl-with-logger/store.go, examples/kv/server-with-logger/main.go)

    The key-value store that asks its host for the logger capability and logs every
    change through the grant.  [loggercap] is the capability, [kvlogger] the store on
    an interface to its host, [loghost] a host: the broker behind its own mux. *)

From stdpp Require Import prelude gmap strings list fin_maps.
From Stdlib Require Import ZArith Ascii.
From S2P Require Import Prelude GoRuntime Identity Plugin Broker Handshake Health Server KVStore.

(** ** The logger capability *)

Module loggercap.
Import broker.

Record LogRequest := mkLogRequest { Level : string; Message : string; Fields : gmap string string }.

(** The handler with identity [id]. *)
Definition NewLoggerCapability (id : nat) : CapabilityHandler := mkCapabilityHandler "logger" "1.0.0" id.

(** The line printed for a request. *)
Definition Log `{GoRange} (req : LogRequest) : string :=
  let msg := "[" +:+ req.(Level) +:+ "] " +:+ req.(Message) in
  if bool_decide (req.(Fields) = ∅) then msg
  else fold_left (λ msg kv, msg +:+ kv.1 +:+ "=" +:+ kv.2 +:+ " ") (go_range 0 req.(Fields)) (msg +:+ " ").

Definition LoggerLogProcedure : string := "/capability.logger.v1.Logger/Log".

(** The line printed, or [None] for the generated handler's 404. *)
Definition ServeHTTP `{GoRange} (path : string) (req : LogRequest) : option string :=
  if bool_decide (path = LoggerLogProcedure) then Some (Log req) else None.

Lemma Log_single `{GoRange} level msg k v :
  Log (mkLogRequest level msg {[k := v]}) = "[" +:+ level +:+ "] " +:+ msg +:+ " " +:+ k +:+ "=" +:+ v +:+ " ".
Proof.
  unfold Log. cbn [Fields Level Message]. rewrite bool_decide_eq_false_2 by apply map_non_empty_singleton.
  rewrite go_range_singleton. simpl. by rewrite !str_app_assoc.
Qed.
End loggercap.

(** ** The store *)

Module kvlogger.
Import broker loggercap.

(** What the plugin calls. *)
Class Host (W : Type) := {
  rpc_RequestCapability : W → string → string → W * res CapabilityGrant;
  rpc_Log : W → string → Header → LogRequest → W * option error;
}.

Record bearerTokenTransport := mkBearerTokenTransport { bt_token : string }.

(** What the transport does to the headers. *)
Definition RoundTrip (t : bearerTokenTransport) (hdr : Header) : Header :=
  Header_Set hdr "Authorization" ("Bearer " +:+ t.(bt_token)).

Record LoggerClient := mkLoggerClient { lc_endpoint : string; lc_transport : bearerTokenTransport }.

Record StoreWithLogger := mkStoreWithLogger { Store : kv.Store; logger : LoggerClient }.

Section store.
Context {W : Type} `{Host W}.

Definition NewStoreWithLogger (w : W) (brokerURL : string) : W * res StoreWithLogger :=
  match rpc_RequestCapability w brokerURL "logger" with
  | (w', Err err) => (w', Err (Errorf "failed to request logger capability: %w" [AErr err]))
  | (w', Ok grant) =>
      (w', Ok (mkStoreWithLogger kv.NewStore
                 (mkLoggerClient grant.(g_EndpointUrl) (mkBearerTokenTransport grant.(g_BearerToken)))))
  end.

(** Whether the host could log is not looked at. *)
Definition log (s : StoreWithLogger) (w : W) (msg key : string) : W :=
  (rpc_Log w s.(logger).(lc_endpoint) (RoundTrip s.(logger).(lc_transport) ∅)
     (mkLogRequest "info" msg {["key" := key]})).1.

Definition with_store (s : StoreWithLogger) st : StoreWithLogger := mkStoreWithLogger st s.(logger).

Definition Put (pick : nat → bool) (s : StoreWithLogger) (w : W) (key value : string) : StoreWithLogger * W * option error :=
  let w' := log s w "KV Put operation" key in
  let '(st, err) := kv.Put pick s.(Store) key value in
  (with_store s st, w', err).

Definition Delete (pick : nat → bool) (s : StoreWithLogger) (w : W) (key : string) : StoreWithLogger * W * bool :=
  let w' := log s w "KV Delete operation" key in
  let '(st, found) := kv.Delete pick s.(Store) key in
  (with_store s st, w', found).

(** Promoted from the embedded store. *)
Definition Get (s : StoreWithLogger) (key : string) : string * bool := kv.Get s.(Store) key.

(** The program of server-with-logger up to the call of [Serve]: the capability is
    requested before anything listens. *)
Inductive prepared := PFatal (e : error) | PServe (s : StoreWithLogger).

Definition main (w : W) : W * prepared :=
  match NewStoreWithLogger w "http://localhost:8080/broker" with
  | (w', Err e) => (w', PFatal (Errorf "Failed to create store with logger: %v" [AErr e]))
  | (w', Ok store) => (w', PServe store)
  end.

(** *** A run of the store *)

Inductive result := RPut (e : option error) | RDelete (found : bool).

Definition apply (pick : nat → bool) (s : StoreWithLogger) (w : W) (o : kv.op) : StoreWithLogger * W * result :=
  match o with
  | kv.OpPut k v => let '(s', w', e) := Put pick s w k v in (s', w', RPut e)
  | kv.OpDelete k => let '(s', w', f) := Delete pick s w k in (s', w', RDelete f)
  end.

Fixpoint run (pick : nat → bool) (s : StoreWithLogger) (w : W) (ops : list kv.op) : StoreWithLogger * W * list result :=
  match ops with
  | [] => (s, w, [])
  | o :: ops' =>
      let '(s1, w1, r) := apply pick s w o in
      let '(s2, w2, rs) := run pick s1 w1 ops' in (s2, w2, r :: rs)
  end.

(** The plain store on the same operations. *)
Definition plain_result (pick : nat → bool) (s : kv.Store) (o : kv.op) : result :=
  match o with
  | kv.OpPut k v => RPut (kv.Put pick s k v).2
  | kv.OpDelete k => RDelete (kv.Delete pick s k).2
  end.

Fixpoint plain_results (pick : nat → bool) (s : kv.Store) (ops : list kv.op) : list result :=
  match ops with [] => [] | o :: ops' => plain_result pick s o :: plain_results pick (kv.apply pick s o) ops' end.

Lemma apply_plain pick s w o :
  ∃ msg key, apply pick s w o = (with_store s (kv.apply pick s.(Store) o), log s w msg key, plain_result pick s.(Store) o) ∧
    match o with kv.OpPut k _ => msg = "KV Put operation" ∧ key = k | kv.OpDelete k => msg = "KV Delete operation" ∧ key = k end.
Proof.
  destruct o as [k v|k]; simpl; unfold Put, Delete.
  - exists "KV Put operation", k. by destruct (kv.Put pick (Store s) k v).
  - exists "KV Delete operation", k. by destruct (kv.Delete pick (Store s) k).
Qed.

(** Whatever the host does, the store is the plain one. *)
Lemma run_plain pick s w ops :
  let '(s', _, rs) := run pick s w ops in
  s' = with_store s (kv.run pick s.(Store) ops) ∧ rs = plain_results pick s.(Store) ops.
Proof.
  revert s w. induction ops as [|o ops IH]; intros s w; [by destruct s|]. cbn [run].
  destruct (apply_plain pick s w o) as (msg & key & -> & _). specialize (IH (with_store s (kv.apply pick (Store s) o)) (log s w msg key)).
  destruct (run _ _ _ _) as [[s' w'] rs]. by destruct IH as (-> & ->).
Qed.

End store.
End kvlogger.

(** ** A host with a broker *)

Module loghost.
Import identity broker loggercap kvlogger.

(** The broker, the lines logged, the number of the request. *)
Record state := mkState { st_broker : CapabilityBroker; st_log : list string; st_tick : nat }.

Section host.
Context `{GoRange} (clock : nat → Time) (random : nat → Rand) (others : nat → CapabilityBroker → CapabilityBroker).
Context (logger_id : nat).

Definition unreachable : error := ErrForeign 2.
Definition refused : error := ErrForeign 5.
Definition RequestCapabilityProcedure : string := "/connectplugin.v1.CapabilityBroker/RequestCapability".

(** The broker's handler at its base URL, other callers having had their turn. *)
Definition request_capability (w : state) (url capType : string) : state * res CapabilityGrant :=
  let n := w.(st_tick) in
  let b := others n w.(st_broker) in
  match strip_prefix b.(baseURL) url with
  | None => (mkState b w.(st_log) (S n), Err unreachable)
  | Some prefix =>
      match server.dispatch server.broker_Handler (prefix +:+ RequestCapabilityProcedure) with
      | Some server.BrokerRPC =>
          let '(b', r) := RequestCapability (random (2 * n)) (random (S (2 * n))) (clock n) b capType in
          (mkState b' w.(st_log) (S n), r)
      | _ => (mkState b w.(st_log) (S n), Err refused)
      end
  end.

Definition serve_log (w : state) (endpoint : string) (hdr : Header) (req : LogRequest) : state * option error :=
  let n := w.(st_tick) in
  let b := others n w.(st_broker) in
  match strip_prefix b.(baseURL) (endpoint +:+ LoggerLogProcedure) with
  | None => (mkState b w.(st_log) (S n), Some unreachable)
  | Some path =>
      match server.dispatch server.broker_Handler path with
      | Some server.BrokerCapabilities =>
          match handleCapabilityRequest (clock n) b path hdr with
          | (b', HttpError _ _) => (mkState b' w.(st_log) (S n), Some refused)
          | (b', Serve h p) =>
              match (if bool_decide (h.(handler_id) = logger_id) then ServeHTTP p req else None) with
              | Some line => (mkState b' (w.(st_log) ++ [line]) (S n), None)
              | None => (mkState b' w.(st_log) (S n), Some refused)
              end
          end
      | _ => (mkState b w.(st_log) (S n), Some refused)
      end
  end.

#[export] Instance log_host : Host state := {| rpc_RequestCapability := request_capability; rpc_Log := serve_log |}.

(** *** The lines of a run *)

Definition line (o : kv.op) : string :=
  match o with
  | kv.OpPut k _ => "[info] KV Put operation key=" +:+ k +:+ " "
  | kv.OpDelete k => "[info] KV Delete operation key=" +:+ k +:+ " "
  end.

(** Every operation is logged until the first that comes after the grant's end. *)
Fixpoint logged (expiry : Time) (n : nat) (ops : list kv.op) : list string :=
  match ops with
  | [] => []
  | o :: ops' => if (clock n <=? expiry)%Z then line o :: logged expiry (S n) ops' else []
  end.

(** Others leave the base URL, the capability and the plugin's grant alone. *)
Record discreet (gid : string) : Prop := {
  dc_url : ∀ n b, (others n b).(baseURL) = b.(baseURL);
  dc_logger : ∀ n b, (others n b).(capabilities) !! "logger" = b.(capabilities) !! "logger";
  dc_ttl : ∀ n b, (others n b).(grantTTL) = b.(grantTTL);
  dc_grant : ∀ n b, (others n b).(grants) !! gid = b.(grants) !! gid;
}.

Context (gid tok : string) (base : string) (D : discreet gid) (Hgid : free_of "/" gid = true).

(** The client of the grant, and the grant in the broker, or its remains. *)
Definition client : LoggerClient :=
  mkLoggerClient (base +:+ capability_path "logger" gid) (mkBearerTokenTransport tok).

Definition grant_live (b : CapabilityBroker) (expiry : Time) : Prop :=
  ∃ g, b.(grants) !! gid = Some g ∧ g.(token) = tok ∧ g.(handler) = NewLoggerCapability logger_id ∧ g.(expiresAt) = expiry.

Lemma capability_route : server.dispatch server.broker_Handler (capability_path "logger" gid +:+ LoggerLogProcedure) =
  Some server.BrokerCapabilities.
Proof. reflexivity. Qed.

(** One log call, while the grant lives and after. *)
Lemma serve_log_cases (w : state) req expiry : w.(st_broker).(baseURL) = base →
  let b := others w.(st_tick) w.(st_broker) in
  let out := (serve_log w client.(lc_endpoint) (RoundTrip client.(lc_transport) ∅) req).1 in
  (grant_live w.(st_broker) expiry → (clock w.(st_tick) ≤ expiry)%Z →
     out = mkState b (w.(st_log) ++ [Log req]) (S w.(st_tick)) ∧ grant_live b expiry ∧ b.(baseURL) = base) ∧
  (grant_live w.(st_broker) expiry → (expiry < clock w.(st_tick))%Z →
     out = mkState (with_grants b (delete gid b.(grants))) w.(st_log) (S w.(st_tick)) ∧ b.(baseURL) = base) ∧
  (w.(st_broker).(grants) !! gid = None → out = mkState b w.(st_log) (S w.(st_tick)) ∧ b.(grants) !! gid = None ∧ b.(baseURL) = base).
Proof.
  intros Hb b out.
  assert (Eb : b.(baseURL) = base) by (unfold b; by rewrite (dc_url _ D)).
  assert (Eg : b.(grants) !! gid = w.(st_broker).(grants) !! gid) by apply (dc_grant _ D).
  assert (Eout : out = (match handleCapabilityRequest (clock (st_tick w)) b (capability_path "logger" gid +:+ LoggerLogProcedure)
      (RoundTrip (mkBearerTokenTransport tok) ∅) with
    | (b', HttpError _ _) => mkState b' w.(st_log) (S w.(st_tick))
    | (b', Serve h p) =>
        match (if bool_decide (h.(handler_id) = logger_id) then ServeHTTP p req else None) with
        | Some line => mkState b' (w.(st_log) ++ [line]) (S w.(st_tick))
        | None => mkState b' w.(st_log) (S w.(st_tick))
        end
    end)).
  { unfold out, serve_log. fold b. cbn [lc_endpoint lc_transport client]. rewrite Eb, str_app_assoc.
    rewrite (proj2 (strip_prefix_Some _ _ _) eq_refl). rewrite capability_route.
    destruct (handleCapabilityRequest _ _ _ _) as [b' [msg code|h p]]; [done|]. by repeat case_match. }
  rewrite Eout. unfold handleCapabilityRequest.
  change LoggerLogProcedure with ("/" +:+ "capability.logger.v1.Logger/Log").
  rewrite parse_capability_path by done. unfold RoundTrip. rewrite Header_Get_Set_eq, HasPrefix_app, TrimPrefix_app, Eg.
  cbn [bt_token negb]. split_and!.
  - intros (g & Hg & Ht & Hh & He) Hn. rewrite Hg. unfold Time_After. rewrite He, (proj2 (Z.ltb_ge _ _)) by done.
    rewrite Ht, Z.eqb_refl. cbn [negb]. unfold ConstantTimeCompare. rewrite bool_decide_eq_true_2 by done. cbn [negb].
    rewrite Hh. cbn [handler_id NewLoggerCapability]. rewrite bool_decide_eq_true_2 by done.
    split_and!; [done| |done]. exists g. split_and!; try done. by rewrite Eg.
  - intros (g & Hg & Ht & Hh & He) Hn. rewrite Hg. unfold Time_After. rewrite He, (proj2 (Z.ltb_lt _ _)) by done. done.
  - intros Hg. by rewrite Hg.
Qed.

(** A client with the grant runs operations. *)
Lemma run_logged pick expiry ops s (w : state) :
  s.(logger) = client → w.(st_broker).(baseURL) = base →
  (grant_live w.(st_broker) expiry → (run pick s w ops).1.2.(st_log) = w.(st_log) ++ logged expiry w.(st_tick) ops) ∧
  (w.(st_broker).(grants) !! gid = None → (run pick s w ops).1.2.(st_log) = w.(st_log)).
Proof.
  revert s w. induction ops as [|o ops IH]; intros s w Hs Hb.
  { simpl. by rewrite app_nil_r. }
  destruct (apply_plain pick s w o) as (msg & key & Ea & Em).
  assert (El : Log (mkLogRequest "info" msg {["key" := key]}) = line o).
  { rewrite Log_single. destruct o; destruct Em as [-> ->]; done. }
  assert (Ew : log s w msg key = (serve_log w client.(lc_endpoint) (RoundTrip client.(lc_transport) ∅)
    (mkLogRequest "info" msg {["key" := key]})).1) by (unfold log; by rewrite Hs).
  destruct (serve_log_cases w (mkLogRequest "info" msg {["key" := key]}) expiry Hb) as (C1 & C2 & C3).
  rewrite <- Ew in C1, C2, C3. rewrite El in C1. cbn [run]. rewrite Ea. set (s1 := with_store s _).
  assert (Er : ∀ w1 : state, (let '(s2, w2, rs) := run pick s1 w1 ops in (s2, w2, plain_result pick (Store s) o :: rs)).1.2 =
    (run pick s1 w1 ops).1.2) by (intros w1; by destruct (run _ _ _ _) as [[??]?]).
  rewrite Er. split; intros Hg.
  - cbn [logged]. destruct (Z.leb_spec (clock (st_tick w)) expiry) as [Hle|Hlt].
    + destruct (C1 Hg Hle) as (Eo & Hg' & Hb'). destruct (IH s1 (log s w msg key) Hs ltac:(by rewrite Eo)) as [IH1 _].
      rewrite Eo in IH1 |- *. rewrite (IH1 Hg'). cbn [st_log st_tick]. by rewrite <- app_assoc.
    + destruct (C2 Hg Hlt) as (Eo & Hb'). destruct (IH s1 (log s w msg key) Hs ltac:(by rewrite Eo)) as [_ IH2].
      rewrite Eo in IH2 |- *. rewrite (IH2 ltac:(cbn; by rewrite lookup_delete_eq)). by rewrite app_nil_r.
  - destruct (C3 Hg) as (Eo & Hg' & Hb'). destruct (IH s1 (log s w msg key) Hs ltac:(by rewrite Eo)) as [_ IH2].
    rewrite Eo in IH2 |- *. by rewrite (IH2 Hg').
Qed.

End host.

(** C11: the logging store is the plain store with a log.  On a host whose broker
    has the logger capability, and whose other plugins leave this plugin's grant
    alone, the store comes up with a grant; whatever operations follow, the data,
    the watchers and every result are those of the plain store, and the host has
    logged exactly one line per change, in order, up to the first change made after
    the grant's time-to-live, and none from then on. *)
Theorem logging_store_transparent `{GoRange} clock random others lid (w : state) gid tok pick ops
    (D : discreet others gid) (Hrd : rand_ok (random (2 * w.(st_tick))))
    (Hcap : w.(st_broker).(capabilities) !! "logger" = Some (NewLoggerCapability lid))
    (Hgid : generateGrantID (random (2 * w.(st_tick))) = Ok gid)
    (Htok : generateToken (random (S (2 * w.(st_tick)))) = Ok tok) :
  let host := log_host clock random others lid in
  let expiry := (clock w.(st_tick) + w.(st_broker).(grantTTL))%Z in
  ∃ w1 s, NewStoreWithLogger (H := host) w w.(st_broker).(baseURL) = (w1, Ok s) ∧ s.(Store) = kv.NewStore ∧
    let '(s', w', rs) := run (H := host) pick s w1 ops in
    s'.(Store) = kv.run pick kv.NewStore ops ∧ rs = plain_results pick kv.NewStore ops ∧
    w'.(st_log) = w.(st_log) ++ logged clock expiry (S w.(st_tick)) ops.
Proof.
  intros host expiry. set (n := w.(st_tick)) in *. set (b := others n w.(st_broker)).
  set (base := w.(st_broker).(baseURL)).
  assert (Eb : b.(baseURL) = base) by apply (dc_url _ _ D).
  assert (Ec : b.(capabilities) !! "logger" = Some (NewLoggerCapability lid)) by (unfold b; by rewrite (dc_logger _ _ D)).
  assert (Et : b.(grantTTL) = w.(st_broker).(grantTTL)) by apply (dc_ttl _ _ D).
  set (g := mkGrantInfo gid "logger" tok (NewLoggerCapability lid) (clock n) (Time_Add (clock n) b.(grantTTL))).
  set (w1 := mkState (with_grants b (<[gid := g]> b.(grants))) w.(st_log) (S n)).
  exists w1, (mkStoreWithLogger kv.NewStore (client gid tok base)).
  assert (En : NewStoreWithLogger (H := host) w base = (w1, Ok (mkStoreWithLogger kv.NewStore (client gid tok base)))).
  { unfold NewStoreWithLogger. cbn [rpc_RequestCapability host log_host]. unfold request_capability. fold n b.
    rewrite Eb, (proj2 (strip_prefix_Some base base "")) by by rewrite str_app_nil_r.
    change (server.dispatch _ _) with (Some server.BrokerRPC). cbn iota.
    unfold RequestCapability. rewrite Ec, Hgid, Htok. cbn [g_EndpointUrl g_BearerToken]. by rewrite Eb. }
  split; [exact En|]. split; [done|].
  destruct (generateGrantID_Ok _ _ Hrd Hgid) as (_ & Hfree%token_free & _).
  destruct (run_logged clock random others lid gid tok base D Hfree pick expiry ops
    (mkStoreWithLogger kv.NewStore (client gid tok base)) w1 eq_refl Eb) as [Hlog _].
  pose proof (run_plain (H := host) pick (mkStoreWithLogger kv.NewStore (client gid tok base)) w1 ops) as Hp.
  destruct (run _ _ _ _) as [[s' w'] rs]. destruct Hp as [-> ->]. split_and!; [done|done|]. apply Hlog.
  exists g. split_and!; [by cbn; rewrite lookup_insert_eq|done|done|]. unfold g, expiry, Time_Add. cbn. by rewrite Et.
Qed.

(** ** Examples *)

Definition ex_clock (n : nat) : Time := (Z.of_nat n * (30 * Minute))%Z.
Definition ex_random (n : nat) : Rand := rand_seq (Z.of_nat n).
Definition ex_pick (_ : nat) : bool := false.
Definition ex_state : state := mkState (RegisterCapability (NewCapabilityBroker "http://host:8080") (NewLoggerCapability 7)) [] 0.
Definition ex_ops : list kv.op := [kv.OpPut "a" "1"; kv.OpDelete "b"; kv.OpPut "c" "2"].

Lemma alone_discreet gid : discreet (λ _ b, b) gid.
Proof. by split. Qed.

(** The grant lasts an hour: the third change, after an hour and a half, is made but
    not logged. *)
Lemma logging_store_transparent_witness :
  let host := log_host ex_clock ex_random (λ _ b, b) 7 in
  ∃ w1 s, NewStoreWithLogger (H := host) ex_state "http://host:8080" = (w1, Ok s) ∧
    let '(s', w', rs) := run (H := host) ex_pick s w1 ex_ops in
    s'.(Store) = kv.run ex_pick kv.NewStore ex_ops ∧ rs = [RPut None; RDelete false; RPut None] ∧
    w'.(st_log) = ["[info] KV Put operation key=a "; "[info] KV Delete operation key=b "].
Proof.
  intros host.
  destruct (logging_store_transparent ex_clock ex_random (λ _ b, b) 7 ex_state
    (match generateGrantID (ex_random 0) with Ok g => g | Err _ => "" end)
    (match generateToken (ex_random 1) with Ok t => t | Err _ => "" end) ex_pick ex_ops
    (alone_discreet _) (rand_seq_ok 0) ltac:(vm_compute; reflexivity) ltac:(vm_compute; reflexivity) ltac:(vm_compute; reflexivity))
    as (w1 & s & En & _ & Hr).
  exists w1, s. split; [exact En|]. fold host in Hr. destruct (run _ _ _ _) as [[s' w'] rs]. destruct Hr as (Hs & Hrs & Hl).
  split; [exact Hs|]. split; [exact Hrs|]. rewrite Hl. vm_compute. reflexivity.
Defined.

(** The program asks for the grant under "/broker", where the RPC service is not, and
    before it serves: it cannot start even against a broker at its own address. *)
Lemma server_with_logger_cannot_start :
  let host := log_host ex_clock ex_random (λ _ b, b) 7 in
  let w := mkState (RegisterCapability (NewCapabilityBroker "http://localhost:8080") (NewLoggerCapability 7)) [] 0 in
  (main (H := host) w).2 =
  PFatal (Errorf "Failed to create store with logger: %v"
    [AErr (Errorf "failed to request logger capability: %w" [AErr refused])]).
Proof. vm_compute. reflexivity. Qed.

End loghost.

(** ** The program (examples/kv/server-with-logger/main.go) *)

Module loggingserver.
Import plugin broker handshake health server loggercap kvlogger.

Definition KVServicePath : string := "/kv.v1.KVService/".

Section program.
Context {Handler Stub : Type} `{GoRange} (p : Plugin StoreWithLogger Handler Stub).

Definition capability_broker (logger_id : nat) : CapabilityBroker :=
  RegisterCapability (NewCapabilityBroker "http://localhost:8080") (NewLoggerCapability logger_id).

Definition serve_config (store : StoreWithLogger) : ServeConfig StoreWithLogger Handler Stub :=
  mkServeConfig (Some {["kv" := p]}) (Some {["kv" := store]}) 0 "" "" None ":8080" 0 None
    false true true 0 0 false false false false.

(** The whole program: it ends before [Serve], or with what [Serve] comes to. *)
Inductive ended := Fatal (e : error) | Served (r : HealthServer * bool * outcome (option error)).

Definition main {W} `{!Host W} (w : W) (e : ending) : W * ended :=
  match kvlogger.main w with
  | (w', PFatal err) => (w', Fatal err)
  | (w', PServe store) => (w', Served (Serve (serve_config store) NewHealthServer e))
  end.

(** Were the store made, the program would serve the plugin beside the broker and the
    health checks; it has no grant without a broker that answers, and its own broker
    does not listen yet. *)
Lemma logging_server (W : Type) `{!Host W} (w : W) e h :
  valid_set {["kv" := p]} → (∀ store, p.(pl_ConnectServer) store = Ok (KVServicePath, h)) →
  match (NewStoreWithLogger w "http://localhost:8080/broker").2 with
  | Err err => (main w e).2 = Fatal (Errorf "Failed to create store with logger: %v" [AErr err])
  | Ok store => ∃ hl m, assemble (serve_config store) NewHealthServer = (hl, Returned m) ∧
      dispatch m (KVServicePath +:+ "Put") = Some (MPlugin "kv" h) ∧ dispatch m "/broker/x" = Some MBroker ∧
      Check hl "kv" = Ok SERVING_STATUS_SERVING
  end.
Proof.
  intros Hv Hc. unfold main, kvlogger.main. destruct (NewStoreWithLogger w _) as [w' [store|err]]; [|done]. cbn [snd].
  assert (Hok : serve_ok (serve_config store)).
  { exists {["kv" := p]}, {["kv" := store]}. split_and!; try done. intros n.
    change (is_Some (({["kv" := p]} : gmap string (Plugin StoreWithLogger Handler Stub)) !! n) ↔
            is_Some (({["kv" := store]} : gmap string StoreWithLogger) !! n)).
    by rewrite !lookup_singleton_is_Some. }
  rewrite (assemble_single (serve_config store) NewHealthServer "kv" p store KVServicePath h Hok eq_refl eq_refl (Hc store));
    [|done|by apply (bool_decide_unpack _); vm_compute].
  eexists _, _. split; [reflexivity|]. by split_and!.
Qed.
End program.
End loggingserver.
