(* ===== verification/KVPrograms.v ===== *)
(** * The key-value programs (examples/kv/server, host and host-watch main.go)

    The server program, the client program that exercises it, and the client that
    watches.  The generated plugin of the key-value service is a parameter; the RPCs
    of the client go to [Peer], which a served plugin implements at the end of the
    file by dispatching through the mux that [Serve] assembles. *)

From stdpp Require Import prelude gmap strings list fin_maps.
From Stdlib Require Import ZArith Ascii.
From S2P Require Import Prelude GoRuntime Identity Lifecycle Plugin Handshake Health Client Server NetURL JSON PluginApp KVStore.
From S2P Require Registry Router.

Definition KVServicePath : string := "/kv.v1.KVService/".

(** ** The server *)

Module kvserver.
Import plugin lifecycle handshake client pluginapp.

Section server.
Context {Impl Handler Stub W : Type} `{GoRange} `{World W}.
Abbreviation Client := (client.Client Impl Handler Stub).

(** [KVServicePlugin], and the store as its implementation. *)
Context (p : Plugin Impl Handler Stub) (store : Impl).

Definition serve_config (port : string) : ServeConfig Impl Handler Stub :=
  mkServeConfig (Some {["kv" := p]}) (Some {["kv" := store]}) 0 "" "" None (":" +:+ port) 0 None
    false true false 0 0 false false false false.

Definition config (hostURL : string) : ClientConfig Impl Handler Stub :=
  mkClientConfig "" hostURL None 0 "" "" "kv-server" "1.0.0"
    (mkPluginMetadata "KV Server" "" "1.0.0" [mkServiceDeclaration "kv" "1.0.0" KVServicePath] []) None "".

(** The goroutine that registers: a refusal is logged, and nothing is reported. *)
Definition registerService (env : string → string) (c : Client) (w : W) (port : string) : W :=
  match RegistryClient c with
  | None => w
  | Some regClient =>
      let myBaseURL := "http://" +:+ or_default (env "HOSTNAME") "localhost" +:+ ":" +:+ port in
      match rpc_RegisterService w regClient
              (register_request c {["base_url" := myBaseURL]} (mkServiceDeclaration "kv" "1.0.0" KVServicePath)) with
      | (w', Err _) => w'
      | (w', Ok _) => (report c w' HEALTH_STATE_HEALTHY "" []).1
      end
  end.

(** What [main] comes to: a fatal error, or a call of [Serve], next to which, in the
    unmanaged deployment, the registration runs. *)
Inductive outcome :=
| KFatal (e : error)
| KServe (c : ServeConfig Impl Handler Stub) (registering : option Client).

Definition runUnmanaged (w : W) (port hostURL : string) : W * outcome :=
  match NewClient (config hostURL) with
  | Err e => (w, KFatal (Errorf "Failed to create client: %v" [AErr e]))
  | Ok c =>
      let '(w1, resp) := rpc_Handshake w c.(cl_cfg).(Endpoint) (handshake_request c.(cl_cfg)) in
      let '(c1, err) := Connect (λ _ _, resp) c in
      match err with
      | Some e => (w1, KFatal (Errorf "Failed to connect to host: %v" [AErr e]))
      | None => (w1, KServe (serve_config port) (Some c1))
      end
  end.

Definition runStandalone (w : W) (port : string) : W * outcome := (w, KServe (serve_config port) None).

Definition main (env : string → string) (w : W) : W * outcome :=
  let port := or_default (env "PORT") "8080" in
  if unmanaged env then runUnmanaged w port (env "HOST_URL") else runStandalone w port.

(** The goroutine beside [Serve]. *)
Definition registering (env : string → string) (c : Client) (w : W) : W :=
  registerService env c (sleeps w (200 * Millisecond)%Z) (or_default (env "PORT") "8080").

End server.
Arguments outcome : clear implicits.
End kvserver.

(** ** The client *)

Module kvclient.
Import plugin handshake client pluginapp.

(** A server as its clients see it, by endpoint; [Typed] is the generated client. *)
Class Peer (W Typed : Type) := {
  pr_Handshake : W → string → HandshakeRequest → W * res HandshakeResponse;
  pr_Check : W → string → string → W * res health.ServingStatus;
  pr_Put : W → Typed → string → string → W * option error;
  pr_Get : W → Typed → string → W * res (string * bool);
  pr_Delete : W → Typed → string → W * res bool;
}.

Section client.
Context {Impl Handler Stub W Typed : Type} `{GoRange} `{Peer W Typed}.
Context (p : Plugin Impl Handler Stub) (cast : Stub → option Typed).

Definition endpoint (env : string → string) : string := or_default (env "PLUGIN_ENDPOINT") "http://localhost:8080".

Definition config (env : string → string) : ClientConfig Impl Handler Stub :=
  mkClientConfig (endpoint env) "" (Some {["kv" := p]}) 0 "" "" "" "" (mkPluginMetadata "" "" "" [] []) None "".

(** How a run ends: fatally, in the panic of the type assertion, or with the two
    health statuses, the value read and the answer of the deletion. *)
Inductive ended :=
| Fatal (msg : string)
| Panics
| Completed (overall kv : res health.ServingStatus) (value : string) (deleted : bool).

(** The operations on the dispensed client. *)
Definition exercise (w : W) (kvClient : Typed) (h1 h2 : res health.ServingStatus) : W * ended :=
  match pr_Put w kvClient "hello" "world" with
  | (w1, Some _) => (w1, Fatal "Put failed:")
  | (w1, None) =>
      match pr_Get w1 kvClient "hello" with
      | (w2, Err _) => (w2, Fatal "Get failed:")
      | (w2, Ok (_, false)) => (w2, Fatal "Key not found")
      | (w2, Ok (value, true)) =>
          match pr_Delete w2 kvClient "hello" with
          | (w3, Err _) => (w3, Fatal "Delete failed:")
          | (w3, Ok found) =>
              match pr_Get w3 kvClient "hello" with
              | (w4, Err _) => (w4, Fatal "Get failed:")
              | (w4, Ok (_, true)) => (w4, Fatal "Key should not be found after delete")
              | (w4, Ok (_, false)) => (w4, Completed h1 h2 value found)
              end
          end
      end
  end.

Definition main (env : string → string) (w : W) : W * ended :=
  match NewClient (config env) with
  | Err _ => (w, Fatal "Failed to create client:")
  | Ok c =>
      let '(w1, resp) := pr_Handshake w c.(cl_cfg).(Endpoint) (handshake_request c.(cl_cfg)) in
      let '(c1, err) := Connect (λ _ _, resp) c in
      match err with
      | Some _ => (w1, Fatal "Failed to connect:")
      | None =>
          let '(w2, h1) := pr_Check w1 (endpoint env) "" in
          let '(w3, h2) := pr_Check w2 (endpoint env) "kv" in
          match Dispense (λ _ _, resp) c1 "kv" with
          | (_, Err _) => (w3, Fatal "Failed to dispense:")
          | (_, Ok raw) =>
              match cast raw with
              | None => (w3, Panics)
              | Some kvClient => exercise w3 kvClient h1 h2
              end
          end
      end
  end.
End client.

(** *** The watching client *)

(** The changes it makes while it watches keys that start with "test". *)
Definition watch_prefix : string := "test".
Definition watch_ops : list kv.op :=
  [kv.OpPut "test/a" "value-a"; kv.OpPut "test/b" "value-b"; kv.OpPut "other/c" "value-c"; kv.OpDelete "test/a"].

(** What it counts: not the event that establishes the stream. *)
Definition counted (events : list kv.WatchEvent) : list kv.WatchEvent :=
  filter (λ e, e.(kv.we_Key) ≠ "_watch_started") events.

Definition watch_expected (events : list kv.WatchEvent) : bool := bool_decide (length (counted events) = 3).

End kvclient.

(** ** A served store *)

Module kvserved.
Import identity plugin handshake health client server kvserver kvclient.

Section served.
Context {Impl Handler Stub Typed : Type} `{GoRange}.
Context (p : Plugin Impl Handler Stub) (cast : Stub → option Typed).

(** The server's state, and the URL it is reached at. *)
Record served := mkServed {
  sv_handshake : HandshakeServer Impl Handler Stub;
  sv_health : HealthServer;
  sv_mux : mux (mount Handler);
  sv_store : kv.Store;
}.

(** [typed_url]: where the generated client sends; [rd1], [rd2], [now]: the server's
    randomness and clock; [pick]: the selects of the store. *)
Context (url : string) (typed_url : Typed → string) (rd1 rd2 : Rand) (now : Time) (pick : nat → bool).

Definition lost : error := ErrForeign 2.
Definition not_served : error := ErrForeign 6.

(** Whether a procedure at an endpoint is served by the mount [m]. *)
Definition reaches (w : served) (endpoint procedure : string) (m : mount Handler → bool) : bool :=
  bool_decide (endpoint = url) && match dispatch w.(sv_mux) procedure with Some x => m x | None => false end.

Definition is_kv (m : mount Handler) : bool := match m with MPlugin name _ => bool_decide (name = "kv") | _ => false end.
Definition is_handshake (m : mount Handler) : bool := match m with MHandshake => true | _ => false end.
Definition is_health (m : mount Handler) : bool := match m with MHealthRPC => true | _ => false end.

Definition with_sv_store (w : served) (s : kv.Store) : served :=
  mkServed w.(sv_handshake) w.(sv_health) w.(sv_mux) s.

#[export] Instance served_peer : Peer served Typed := {|
  pr_Handshake w ep req :=
    if reaches w ep (HandshakeServicePath +:+ "Handshake") is_handshake then
      let '(hs, r) := Handshake rd1 rd2 now None w.(sv_handshake) req in
      (mkServed hs w.(sv_health) w.(sv_mux) w.(sv_store), r)
    else (w, Err lost);
  pr_Check w ep service :=
    (w, if reaches w ep (HealthServicePath +:+ "Check") is_health then Check w.(sv_health) service else Err lost);
  pr_Put w t k v :=
    if reaches w (typed_url t) (KVServicePath +:+ "Put") is_kv then
      let '(s, e) := kv.Put pick w.(sv_store) k v in (with_sv_store w s, e)
    else (w, Some not_served);
  pr_Get w t k :=
    (w, if reaches w (typed_url t) (KVServicePath +:+ "Get") is_kv then Ok (kv.Get w.(sv_store) k) else Err not_served);
  pr_Delete w t k :=
    if reaches w (typed_url t) (KVServicePath +:+ "Delete") is_kv then
      let '(s, found) := kv.Delete pick w.(sv_store) k in (with_sv_store w s, Ok found)
    else (w, Err not_served);
|}.

(** The state of a standalone server when it starts to listen. *)
Definition serving (store : Impl) (port : string) (st : kv.Store) : option served :=
  match assemble (serve_config p store port) NewHealthServer with
  | (h, Returned m) => Some (mkServed (NewHandshakeServer (serve_defaults (serve_config p store port))) h m st)
  | _ => None
  end.

(** What the code relies on of the generated plugin. *)
Record generated (store : Impl) (h : Handler) (t : Typed) : Prop := {
  gn_valid : valid_set {["kv" := p]};
  gn_name : p.(pl_Metadata).(Name) = "kv";
  gn_server : p.(pl_ConnectServer) store = Ok (KVServicePath, h);
  gn_client : ∃ stub, p.(pl_ConnectClient) url = Ok stub ∧ cast stub = Some t;
  gn_url : typed_url t = url;
}.

Context (store : Impl) (h : Handler) (t : Typed) (G : generated store h t).

Lemma serve_config_ok port : serve_ok (serve_config p store port).
Proof.
  exists {["kv" := p]}, {["kv" := store]}. split; [done|]. split; [done|]. split; [|split; [apply (gn_valid _ _ _ G)|done]].
  intros n. change (is_Some (({["kv" := p]} : gmap string (Plugin Impl Handler Stub)) !! n) ↔ is_Some (({["kv" := store]} : gmap string Impl) !! n)).
  by rewrite !lookup_singleton_is_Some.
Qed.

(** The mux of the standalone server. *)
Definition standalone_mux : mux (mount Handler) :=
  [(HandshakeServicePath, MHandshake); (HealthServicePath, MHealthRPC); ("/healthz", MHTTPHealth); ("/readyz", MHTTPHealth);
   (KVServicePath, MPlugin "kv" h)].

Lemma standalone_serving port st : ∃ hl,
  serving store port st = Some (mkServed (NewHandshakeServer (serve_defaults (serve_config p store port))) hl standalone_mux st) ∧
  Check hl "" = Ok SERVING_STATUS_SERVING ∧ Check hl "kv" = Ok SERVING_STATUS_SERVING.
Proof.
  set (c := serve_config p store port).
  exists (mark_serving (serve_defaults c) (mark_serving (serve_defaults c) NewHealthServer "") "kv").
  assert (Ea : assemble c NewHealthServer =
    (mark_serving (serve_defaults c) (mark_serving (serve_defaults c) NewHealthServer "") "kv", Returned standalone_mux)).
  { unfold assemble. rewrite (proj2 (ValidateServe_None (serve_defaults c)) (serve_ok_defaults _ (serve_config_ok port))).
    change (handle_all [] (builtin_mounts (serve_defaults c))) with (Some (take 4 standalone_mux)). cbn iota.
    change (default ∅ (Plugins (serve_defaults c))) with ({["kv" := p]} : gmap string (Plugin Impl Handler Stub)).
    rewrite go_range_singleton. cbn [register_plugins].
    change (default ∅ (Impls (serve_defaults c))) with ({["kv" := store]} : gmap string Impl).
    rewrite lookup_singleton_eq, (gn_server _ _ _ G). reflexivity. }
  unfold serving. fold c. rewrite Ea. split; [done|]. split; reflexivity.
Qed.

Context (env : string → string) (Henv : kvclient.endpoint env = url).

(** The client that [NewClient] makes. *)
Definition fresh : client.Client Impl Handler Stub :=
  mkClient (kvclient.config p env) false false false "" "" None None.

Lemma endpoint_nonempty : kvclient.endpoint env ≠ "".
Proof. unfold kvclient.endpoint, pluginapp.or_default. by case_bool_decide. Qed.

Lemma NewClient_fresh : NewClient (kvclient.config p env) = Ok fresh.
Proof.
  pose proof endpoint_nonempty as Hne.
  assert (Hv : Validate ({["kv" := p]} : PluginSet Impl Handler Stub) = None) by by apply Validate_None, (gn_valid _ _ _ G).
  unfold NewClient, ValidateConfig. change (Endpoint (kvclient.config p env)) with (kvclient.endpoint env).
  rewrite (bool_decide_eq_false_2 (kvclient.endpoint env = "")) by done. cbn [andb].
  change (has_discovery (kvclient.config p env)) with false. cbn [andb].
  change (cc_Plugins (kvclient.config p env)) with (Some ({["kv" := p]} : PluginSet Impl Handler Stub)). cbn iota.
  rewrite Hv. destruct (bool_decide (0 < _)); change (Endpoint (kvclient.config p env)) with (kvclient.endpoint env);
    by rewrite (bool_decide_eq_false_2 (kvclient.endpoint env = "")).
Qed.

Lemma fresh_compatible port :
  compatible fresh.(cl_cfg) (serve_defaults (serve_config p store port)) rd1 rd2.
Proof. split_and!; [done|done| |done]. intros n Hn. exact Hn. Qed.

Lemma plugins_named port k q : default ∅ (serve_defaults (serve_config p store port)).(Plugins) !! k = Some q →
  q.(pl_Metadata).(Name) = k.
Proof.
  change (({["kv" := p]} : gmap string (Plugin Impl Handler Stub)) !! k = Some q → q.(pl_Metadata).(Name) = k).
  rewrite lookup_singleton_Some. intros [<- <-]. exact (gn_name _ _ _ G).
Qed.

(** The operations on a served store. *)
Lemma peer_ops (w : served) : w.(sv_mux) = standalone_mux →
  (∀ k v, pr_Put w t k v = let '(s, e) := kv.Put pick w.(sv_store) k v in (with_sv_store w s, e)) ∧
  (∀ k, pr_Get w t k = (w, Ok (kv.Get w.(sv_store) k))) ∧
  (∀ k, pr_Delete w t k = let '(s, found) := kv.Delete pick w.(sv_store) k in (with_sv_store w s, Ok found)).
Proof.
  intros Hm. cbn [pr_Put pr_Get pr_Delete served_peer]. unfold reaches. rewrite Hm, (gn_url _ _ _ G).
  by rewrite bool_decide_eq_true_2.
Qed.

Lemma exercise_served (w : served) h1 h2 : w.(sv_mux) = standalone_mux →
  exercise w t h1 h2 =
  (with_sv_store w (kv.run pick w.(sv_store) [kv.OpPut "hello" "world"; kv.OpDelete "hello"]), Completed h1 h2 "world" true).
Proof.
  intros Hm. unfold exercise, kv.run. cbn [fold_left kv.apply].
  rewrite (proj1 (peer_ops w Hm)). unfold kv.Put. rewrite bool_decide_eq_false_2 by done. cbn [fst].
  set (s1 := kv.mkStore _ _).
  assert (E1 : kv.Get s1 "hello" = ("world", true)).
  { unfold kv.Get, get_or. cbn [kv.data s1]. by rewrite lookup_insert_eq. }
  destruct (peer_ops (with_sv_store w s1) Hm) as (_ & -> & ->). cbn [sv_store with_sv_store]. rewrite E1.
  destruct (kv.Delete pick s1 "hello") as [s2 found] eqn:Ed.
  assert (E2 : found = true ∧ kv.Get s2 "hello" = ("", false)).
  { unfold kv.Delete in Ed. cbn [kv.data s1] in Ed. rewrite lookup_insert_eq in Ed.
    assert (Hs : s2.(kv.data) !! "hello" = None).
    { change (kv.data s2) with (kv.data (s2, found).1). rewrite <- Ed. apply lookup_delete_eq. }
    split; [exact (eq_sym (f_equal snd Ed))|]. unfold kv.Get, get_or. by rewrite Hs. }
  destruct E2 as [-> E2]. destruct (peer_ops (with_sv_store (with_sv_store w s1) s2) Hm) as (_ & -> & _).
  cbn [sv_store with_sv_store]. by rewrite E2.
Qed.

End served.

(** Server and client program of the key-value example, end to end.  Given a
    generated plugin that serves the store at its service path and a client stub for
    it, the standalone server assembles without error; the client program run
    against its address connects, finds the host and the plugin serving, dispenses
    the client and completes: it reads back the value it wrote, its deletion
    answers that the key was there, and the key is gone.  The store has taken
    exactly the two changes. *)
Theorem kv_programs_complete {Impl Handler Stub Typed : Type} `{GoRange} (p : Plugin Impl Handler Stub) (cast : Stub → option Typed)
    url (typed_url : Typed → string) rd1 rd2 now pick store h t port env st
    (G : generated p cast url typed_url store h t) (Henv : kvclient.endpoint env = url) :
  let peer := served_peer (Typed := Typed) url typed_url rd1 rd2 now pick in
  ∃ w, serving p store port st = Some w ∧ w.(sv_store) = st ∧
    ∃ w', kvclient.main (H0 := peer) p cast env w =
        (w', Completed (Ok SERVING_STATUS_SERVING) (Ok SERVING_STATUS_SERVING) "world" true) ∧
      w'.(sv_store) = kv.run pick st [kv.OpPut "hello" "world"; kv.OpDelete "hello"].
Proof.
  intros peer. destruct (standalone_serving p cast url typed_url store h t G port st) as (hl & Es & Hc1 & Hc2).
  eexists. split; [exact Es|]. split; [done|]. unfold kvclient.main.
  rewrite (NewClient_fresh p cast url typed_url store h t G env). cbn [pr_Handshake peer served_peer].
  set (w := mkServed _ hl (standalone_mux h) st). change (Endpoint (cl_cfg (fresh p env))) with (kvclient.endpoint env).
  unfold reaches at 1. rewrite Henv, bool_decide_eq_true_2 by done.
  change (dispatch (sv_mux w) (HandshakeServicePath +:+ "Handshake")) with (Some (MHandshake (Handler := Handler))). cbn [is_handshake andb].
  pose proof (Connect_succeeds rd1 rd2 now None (sv_handshake w) (fresh p env) eq_refl eq_refl (endpoint_nonempty env)
    (plugins_named p cast url typed_url store h t G port) (fresh_compatible p rd1 rd2 store env port)) as Hcon.
  destruct (Handshake _ _ _ _ _ _) as [hs resp]. destruct Hcon as (c1 & -> & Hconn & Hcfg).
  cbn [pr_Check peer served_peer]. unfold reaches.
  rewrite bool_decide_eq_true_2 by done.
  change (dispatch (sv_mux _) (HealthServicePath +:+ "Check")) with (Some (MHealthRPC (Handler := Handler))). cbn [is_health andb].
  unfold Dispense, ensureConnected. rewrite Hconn, Hcfg.
  change (Get (client_plugins (cl_cfg (fresh p env))) "kv") with (({["kv" := p]} : gmap string (Plugin Impl Handler Stub)) !! "kv").
  rewrite lookup_singleton_eq. change (Endpoint (cl_cfg (fresh p env))) with (kvclient.endpoint env). rewrite Henv.
  destruct (gn_client _ _ _ _ _ _ _ G) as (stub & -> & ->).
  unfold w, peer. cbn [sv_health sv_mux sv_store].
  rewrite (exercise_served p cast url typed_url rd1 rd2 now pick store h t G (mkServed hs hl (standalone_mux h) st) _ _ eq_refl).
  cbn [sv_health sv_store with_sv_store].
  rewrite Hc1, Hc2. eexists. split; reflexivity.
Qed.

(** A generated plugin, the server's address, and the client told of it. *)
Definition ex_kv : Plugin unit unit string :=
  mkPlugin (mkPluginMetadata "kv" KVServicePath "1.0.0" [] []) (λ _, Ok (KVServicePath, tt)) (λ url, Ok url).

Lemma ex_generated : generated ex_kv Some "http://localhost:8080" (λ t, t) tt tt "http://localhost:8080".
Proof.
  split; try done; [|by eexists]. apply Validate_None. vm_compute. reflexivity.
Qed.

Lemma kv_programs_complete_witness :
  ∃ w w', serving ex_kv tt "8080" kv.NewStore = Some w ∧
    kvclient.main (H0 := served_peer (Typed := string) "http://localhost:8080" (λ t, t) (rand_seq 1) (rand_seq 2) 0%Z (λ _, false))
      ex_kv Some (λ _, "") w =
    (w', Completed (Ok SERVING_STATUS_SERVING) (Ok SERVING_STATUS_SERVING) "world" true) ∧
    w'.(sv_store).(kv.data) = ∅.
Proof.
  destruct (kv_programs_complete ex_kv Some "http://localhost:8080" (λ t : string, t) (rand_seq 1) (rand_seq 2) 0%Z (λ _, false)
    tt tt "http://localhost:8080" "8080" (λ _, "") kv.NewStore ex_generated eq_refl) as (w & Es & _ & w' & Em & Ew).
  exists w, w'. split; [exact Es|]. split; [exact Em|]. rewrite Ew. vm_compute. reflexivity.
Defined.

(** The watching client is right to expect three events: whatever the store holds and
    whoever else watches, a watch that is established before the changes receives the
    two puts under its prefix and the deletion, after the event that starts it. *)
Lemma watch_expectation pick s addr :
  (∀ w, w ∈ s.(kv.watchers) → w.(kv.w_addr) ≠ addr) →
  ∃ s2 w, kv.Watch_started (kv.Watch_register s addr watch_prefix) addr = Some s2 ∧
    last (kv.run pick s2 watch_ops).(kv.watchers) = Some w ∧ w.(kv.w_addr) = addr ∧ watch_expected w.(kv.w_ch) = true.
Proof.
  intros Hf. set (own := kv.mkWatcher addr watch_prefix [] false).
  assert (Eb : forallb (λ w, negb (kv.at_addr addr w) || bool_decide (length w.(kv.w_ch) < kv.watch_cap))
    (s.(kv.watchers) ++ [own]) = true).
  { apply forallb_forall. intros w [Hw| ->%list_elem_of_singleton]%list_elem_of_In%elem_of_app.
    - unfold kv.at_addr. by rewrite bool_decide_eq_false_2 by by apply Hf.
    - apply orb_true_r. }
  unfold kv.Watch_started, kv.Watch_register. cbn [kv.watchers]. fold own. rewrite Eb.
  eexists _, _. split; [reflexivity|]. unfold kv.run, watch_ops. cbn [fold_left kv.apply].
  unfold kv.Put. rewrite !bool_decide_eq_false_2 by done. cbn [fst kv.data kv.watchers].
  unfold kv.Delete. cbn [kv.data kv.watchers fst].
  rewrite !lookup_insert_ne, lookup_insert_eq, (bool_decide_eq_true_2 (is_Some (Some _))) by (done || by eexists).
  unfold kv.notifyWatchers. rewrite !fmap_app. cbn [fmap list_fmap].
  unfold kv.at_addr, own. cbn [kv.w_addr]. rewrite bool_decide_eq_true_2 by done. rewrite last_snoc.
  split; [reflexivity|]. split; [done|]. vm_compute. reflexivity.
Qed.

End kvserved.
