(* ===== verification/FxModule.v ===== *)
(** * Integration with fx (connectpluginfx/module.go)

    The fx container is third-party code: its lifecycle is a parameter with the one
    operation the module uses, and the hooks are functions on the client they close
    over. *)

From stdpp Require Import prelude gmap strings list.
From Stdlib Require Import ZArith.
From S2P Require Import Prelude GoRuntime Identity Lifecycle Plugin Handshake Client.

Module fxmodule.
Import plugin handshake client.

Section fx.
Context {Impl Handler Stub L : Type} `{GoRange}.
Abbreviation Client := (client.Client Impl Handler Stub).

Record Hook := mkHook { OnStart : Client → Client * option error; OnStop : Client → Client * option error }.

(** [fx.Lifecycle.Append], and the host at the client's endpoint. *)
Context (Append : L → Hook → L) (rpc : string → HandshakeRequest → res HandshakeResponse).

(** The constructor the module provides. *)
Definition PluginModule (cfg : ClientConfig Impl Handler Stub) (lc : L) : L * res Client :=
  match NewClient cfg with
  | Err err => (lc, Err err)
  | Ok c => (Append lc (mkHook (Connect rpc) Close), Ok c)
  end.

(** The constructor of a typed plugin. *)
Definition ProvideTypedPlugin {I} (cast : Stub → option I) (pluginName : string) (c : Client) : Client * res I :=
  DispenseTyped cast rpc c pluginName.

(** A typed plugin is connected when it is constructed, not when the application
    starts: the start hook then finds the client connected and does nothing. *)
Lemma typed_plugin_connects_early {I} (cast : Stub → option I) name c c' i :
  c.(closed) = false → ProvideTypedPlugin cast name c = (c', Ok i) →
  c'.(connected) = true ∧ Connect rpc c' = (c', None).
Proof.
  intros Hopen. unfold ProvideTypedPlugin, DispenseTyped, Dispense, ensureConnected.
  assert (Hkeep : ∀ c1 err, (if connected c then (c, None) else Connect rpc c) = (c1, err) → err = None →
    c1.(connected) = true ∧ c1.(closed) = false).
  { intros c1 err E ->. destruct (connected c) eqn:Ec.
    - injection E as <-. done.
    - apply (Connect_ok _ _ _ Hopen E). }
  destruct (if connected c then _ else _) as [c1 [e|]] eqn:E; [done|].
  destruct (Hkeep c1 None eq_refl eq_refl) as [H1 H2].
  assert (Hc : Connect rpc c1 = (c1, None)) by (unfold Connect; by rewrite H2, H1).
  destruct (Get _ name) as [p|]; [|done]. destruct (pl_ConnectClient p _) as [raw|]; [|done].
  destruct (cast raw); [|done]. intros [= <- _]. done.
Qed.

(** Stopping closes the client whatever happened before. *)
Lemma stop_closes cfg lc lc' c c1 :
  PluginModule cfg lc = (lc', Ok c) → ∃ hook, lc' = Append lc hook ∧ (hook.(OnStop) c1).1.(closed) = true ∧ (hook.(OnStop) c1).2 = None.
Proof.
  unfold PluginModule. destruct (NewClient cfg); [|done]. intros E. exists (mkHook (Connect rpc) Close).
  split; [exact (eq_sym (f_equal fst E))|]. cbn. unfold Close. by destruct (closed c1) eqn:Ec.
Qed.
End fx.
End fxmodule.
