(* ===== verification/HostInvariant.v ===== *)
(** * What always holds on the host

    Every state that plugins and callers can bring the example host to, by any
    sequence of RPCs, watches and routed calls, in any order and from anybody: an
    invariant by induction on the sequence, and what discovery answers there. *)

From stdpp Require Import prelude gmap strings list fin_maps.
From Stdlib Require Import ZArith Ascii.
From S2P Require Import Prelude GoRuntime Validation Identity Lifecycle Plugin Handshake Client Server PluginApp Host.
From S2P Require Registry Router.

Module hostinv.
Import validation identity lifecycle handshake pluginapp host.
Import Registry.registry Router.router.

(** ** Selection, first strategy *)

#[export] Instance acceptable_dec lc t v p : Decision (acceptable lc t v p).
Proof. unfold acceptable. apply _. Defined.

Lemma eligible_filter lc r a t v : models r a → eligible lc r t v = filter (acceptable lc t v) a.
Proof.
  intros M. unfold eligible, filterAvailable, filterCompatibleVersions. rewrite (models_providers _ _ M).
  assert (Hp : ∀ p, acceptable lc t v p ↔ ((p.(ServiceType) = t ∧ (v = "" ∨ str_le v p.(Version) = true)) ∧ routable lc p))
    by (intros p; unfold acceptable; tauto).
  rewrite (list_filter_iff _ _ a Hp). unfold routable. case_bool_decide as Hv; destruct lc; rewrite ?list_filter_list_filter;
    rewrite ?list_filter_filter; apply list_filter_iff; intros p; naive_solver.
Qed.

Section host.
Context {Impl Handler Stub : Type} `{GoRange}.
Abbreviation Host := (ServiceRouter Impl Handler Stub).
Abbreviation Env := (Env Impl Handler Stub).

(** Randomness, and [rand.Intn], behave. *)
Record sound (E : Env) : Prop := {
  snd_random : ∀ n, rand_ok (E.(random) n);
  snd_coin : ∀ n, rnd_ok (E.(coin) n);
}.

(** One request of anybody, served at step [m] of some environment.  Registration ids
    are sixty-four random bits, and taken to be new. *)
Inductive step : Host → Host → Prop :=
| step_handshake E m req h : sound E → step h (host_Handshake E m req h).1
| step_register E m req h : sound E →
    (∀ id, generateRegistrationID (E.(random) (2 * m)) = Ok id → h.(registry).(registrations) !! id = None) →
    step h (host_RegisterService E m req h).1
| step_unregister id h :
    step h (with_registry h (UnregisterService (Some h.(lifecycleServer)) h.(registry) id).1)
| step_discover E m t v h : sound E → step h (host_DiscoverService E m t v h).1
| step_report hdr req h : step h (host_ReportHealth hdr req h).1
| step_watch t addr h : step h (with_registry h (WatchService_open (Some h.(lifecycleServer)) h.(registry) t addr))
| step_event t addr e r h : WatchService_recv h.(registry) t addr = Some (e, r) → step h (with_registry h r)
| step_unwatch t addr h : step h (with_registry h (WatchService_close h.(registry) t addr))
| step_call now (req : Request string) h : step h (route now h req).1.

Inductive reachable : nat → Host → Prop :=
| reachable_start : reachable 0 new_host
| reachable_step n h h' : reachable n h → step h h' → reachable (S n) h'.

(** ** The invariant *)

(** A registration that was let in. *)
Definition registered (p : ServiceProvider) : Prop :=
  p.(RuntimeID) ≠ "" ∧ ValidateServiceType p.(ServiceType) = None ∧ ValidateVersion p.(Version) = None ∧
  ValidateEndpointPath p.(EndpointPath) = None ∧ ValidateMetadata p.(Metadata) = None.

(** At most [n] registrations, all let in; nothing but the defaults is configured. *)
Record registry_inv (n : nat) (r : ServiceRegistry) : Prop := {
  ri_log : ∃ a, models r a ∧ length a ≤ n ∧ Forall registered a;
  ri_selection : r.(selection) = ∅;
  ri_round_robin : r.(roundRobinIndex) = ∅;
  ri_allowed : r.(allowedServices) = ∅;
}.

(** A token of the handshake server. *)
Definition issued_token (rid : string) (i : tokenInfo) : Prop :=
  rid ≠ "" ∧ str_all runtime_char rid = true ∧ String.length i.(ti_token) = 44 ∧
  str_all token_char i.(ti_token) = true ∧ i.(ti_expiresAt) = (i.(ti_issuedAt) + DefaultRuntimeTokenTTL)%Z.

Record host_inv (n : nat) (h : Host) : Prop := {
  hi_registry : registry_inv n h.(registry);
  hi_config : h.(handshakeServer).(cfg) = empty_config;
  hi_tokens : map_Forall issued_token h.(handshakeServer).(tokens);
  hi_states : h.(lifecycleServer).(states) !! "" = None;
  hi_endpoints : h.(pluginEndpoints) = ∅;
}.

Lemma registry_inv_mono n n' r : n ≤ n' → registry_inv n r → registry_inv n' r.
Proof. intros Hn [(a & M & Hl & Ha) ? ? ?]. split; [|done..]. exists a. split_and!; [done|lia|done]. Qed.

(** Watchers are of no concern. *)
Lemma registry_inv_watchers n r ws : registry_inv n r → registry_inv n (with_watchers r ws).
Proof. intros [(a & [M1 M2 M3] & Hl & Ha) ? ? ?]. split; [|done..]. exists a. split_and!; [by split|done|done]. Qed.

Lemma registry_inv_notify n lc r t : registry_inv n r → registry_inv n (notifyWatchersLocked lc r t).
Proof. unfold notifyWatchersLocked. case_match; [apply registry_inv_watchers|done]. Qed.

Lemma registry_inv_register n rd now lc r req :
  (∀ id, generateRegistrationID rd = Ok id → r.(registrations) !! id = None) →
  registry_inv n r → registry_inv (S n) (RegisterService rd now lc r req).1.
Proof.
  intros Hf I. pose proof (RegisterService_cases rd now lc r req) as Hc. cbn zeta in Hc.
  destruct (RegisterService rd now lc r req) as [r' [id|e]]; cbn [fst snd] in *.
  2:{ destruct Hc as [-> _]. apply (registry_inv_mono n); [lia|done]. }
  destruct Hc as (Hv & Hid & _ & Hg & ->). apply registry_inv_notify.
  destruct I as [(a & M & Hl & Ha) ? ? ?]. split; [|done..].
  eexists. split; [by apply models_append; [..|by apply Hf]|]. split; [rewrite length_app; simpl; lia|].
  apply Forall_app. split; [done|]. apply Forall_singleton. exact (conj Hid (proj1 (validate_registration_None req) Hv)).
Qed.

Lemma registry_inv_unregister n lc r id : registry_inv n r → registry_inv n (UnregisterService lc r id).1.
Proof.
  intros I. unfold UnregisterService. destruct (registrations r !! id) as [p|] eqn:Hp; [|done].
  apply registry_inv_notify. destruct I as [(a & M & Hl & Ha) ? ? ?]. split; [|done..].
  eexists. split; [by apply models_drop|]. split; [pose proof (length_filter (λ q, q.(RegistrationID) ≠ id) a); lia|].
  apply Forall_forall. intros q [_ Hq]%list_elem_of_filter. by apply (proj1 (Forall_forall registered a) Ha).
Qed.

(** With the default strategy a selection changes nothing, and takes the oldest. *)
Lemma select_oldest n rnd lc r a t v : registry_inv n r → models r a → slice_ok a → rnd_ok rnd →
  SelectProvider rnd lc r t v =
    match filter (acceptable lc t v) a with
    | p :: _ => (r, Some (Ok (Some p)))
    | [] => SelectProvider rnd lc r t v
    end ∧
  (filter (acceptable lc t v) a = [] → ∃ e, SelectProvider rnd lc r t v = (r, Some (Err e))).
Proof.
  intros [_ Hs Hr _] M Hlen Hrnd.
  assert (Hrr : rr_ok r). { intros u. rewrite Hr, get_or_empty. unfold max64. lia. }
  assert (Hfirst : get_or SelectionFirst r.(selection) t = SelectionFirst) by by rewrite Hs, get_or_empty.
  rewrite <- (eligible_filter _ r a) by done.
  destruct (SelectProvider_cases rnd lc r t v Hrr Hrnd (eligible_slice_ok lc r a t v M Hlen)) as [[E He]|(p & r' & E & Hp & Hn & Hh & _)].
  - by rewrite E.
  - specialize (Hh Hfirst). rewrite Hn in E by (unfold is_round_robin; by rewrite Hfirst).
    destruct (eligible lc r t v) as [|q l]; [done|]. injection Hh as ->. done.
Qed.

Lemma discover_registry n E m t v (h : Host) : registry_inv n h.(registry) → sound E → (Z.of_nat n ≤ max64)%Z →
  (host_DiscoverService E m t v h).1 = h.
Proof.
  intros I Hs Hn. destruct (ri_log _ _ I) as (a & M & Hl & _).
  assert (Hlen : slice_ok a) by (unfold slice_ok; lia).
  destruct (select_oldest n (coin E m) (Some (lifecycleServer h)) (registry h) a t v I M Hlen (snd_coin _ Hs m)) as [E1 E2].
  unfold host_DiscoverService, DiscoverService, DiscoverService_select.
  destruct (filter _ a) as [|p l]; [destruct (E2 eq_refl) as [e ->]|rewrite E1]; by destruct h.
Qed.

(** *** Tokens *)

Lemma tokens_handshake rd1 rd2 now b (hs : HandshakeServer Impl Handler Stub) req : rand_ok rd1 → rand_ok rd2 →
  hs.(cfg) = empty_config → map_Forall issued_token hs.(tokens) →
  let hs' := (Handshake rd1 rd2 now b hs req).1 in hs'.(cfg) = empty_config ∧ map_Forall issued_token hs'.(tokens).
Proof.
  intros H1 H2 Hc Ht. destruct (Handshake_cases rd1 rd2 now b hs req) as [[_ E]|(_ & code & e & _ & E)]; rewrite E; [|done].
  pose proof (issue_identity_cases rd1 rd2 now hs (hq_SelfId req)) as Hi.
  destruct (issue_identity _ _ _ _ _) as [hs' [[rid tok]|e]]; cbn [fst]; [|by destruct Hi as (-> & _)].
  destruct Hi as [(_ & -> & _)|(Hne & Hv & Hr & Hk & ->)]; [done|]. split; [done|]. cbn [tokens].
  apply map_Forall_insert_2; [|done]. destruct (generateToken_Ok _ _ H2 Hk) as (Hl & Ha & _).
  split; [by eapply runtime_id_nonempty|]. split; [by apply (generateRuntimeID_chars rd1 (hq_SelfId req))|].
  split_and!; [done|done|]. cbn [ti_expiresAt ti_issuedAt]. by rewrite Hc.
Qed.

Lemma tokens_validate now (hs : HandshakeServer Impl Handler Stub) rid tok : map_Forall issued_token hs.(tokens) →
  let hs' := (ValidateToken now hs rid tok).1 in hs'.(cfg) = hs.(cfg) ∧ map_Forall issued_token hs'.(tokens).
Proof.
  intros Ht. unfold ValidateToken. destruct (tokens hs !! rid); [|done]. destruct (Time_After _ _).
  - split; [done|]. cbn. by apply map_Forall_delete.
  - by destruct (negb _).
Qed.

(** A routed call touches the tokens only. *)
Lemma route_tokens now (req : Request string) (h : Host) :
  (route now h req).1 = h ∨ ∃ rid tok, (route now h req).1 = with_handshake h (ValidateToken now h.(handshakeServer) rid tok).1.
Proof.
  unfold route. destruct (negb _); [by left|]. destruct (parse_path _) as [[[t pid] m]|]; [|by left].
  case_bool_decide; [by left|]. destruct (negb _); [by left|]. right.
  exists (Header_Get (rq_Header req) "X-Plugin-Runtime-ID"), (TrimPrefix (Header_Get (rq_Header req) "Authorization") "Bearer ").
  destruct (ValidateToken _ _ _ _) as [hs b]. destruct (negb b); [done|].
  destruct (GetProviderByRuntimeID _ _); [|done]. destruct (negb _); [done|]. by destruct (provider_base _ _ _).
Qed.

(** *** Preservation *)

Lemma host_inv_registry n n' (h : Host) r : host_inv n h → registry_inv n' r → host_inv n' (with_registry h r).
Proof. intros [] ?. by split. Qed.

Lemma host_inv_handshake n (h : Host) hs : host_inv n h → hs.(cfg) = empty_config → map_Forall issued_token hs.(tokens) →
  host_inv (S n) (with_handshake h hs).
Proof. intros [I ? ? ? ?] ? ?. split; try done. apply (registry_inv_mono n); [lia|done]. Qed.

Lemma host_inv_mono n n' (h : Host) : n ≤ n' → host_inv n h → host_inv n' h.
Proof. intros Hn [I ? ? ? ?]. split; try done. by apply (registry_inv_mono n). Qed.

Lemma step_inv n (h h' : Host) : (Z.of_nat n ≤ max64)%Z → host_inv n h → step h h' → host_inv (S n) h'.
Proof.
  intros Hn I Hst. destruct Hst as [E m req h Hs|E m req h Hs Hf|id h|E m t v h Hs|hdr req h|t addr h|t addr e r h Hr|t addr h|now req h].
  - unfold host_Handshake.
    pose proof (tokens_handshake (random E (2 * m)) (random E (S (2 * m))) (clock E m) None (handshakeServer h) req
      (snd_random _ Hs _) (snd_random _ Hs _) (hi_config _ _ I) (hi_tokens _ _ I)) as Ht.
    destruct (Handshake _ _ _ _ _ _) as [hs r], Ht. by apply host_inv_handshake.
  - unfold host_RegisterService.
    pose proof (registry_inv_register n (random E (2 * m)) (clock E m) (Some (lifecycleServer h)) _ req Hf (hi_registry _ _ I)) as Hr.
    destruct (RegisterService _ _ _ _ _) as [r out]. by apply (host_inv_registry n).
  - apply (host_inv_registry n); [done|]. apply (registry_inv_mono n); [lia|]. apply registry_inv_unregister, I.
  - rewrite (discover_registry n) by (done || apply I). apply (host_inv_mono n); [lia|done].
  - unfold host_ReportHealth, ReportHealth. case_bool_decide as Hid; apply (host_inv_mono n); try lia; [by destruct h|].
    destruct I. split; try done. cbn in *. by rewrite lookup_insert_ne by (intros ?; by apply Hid).
  - apply (host_inv_registry n); [done|]. apply (registry_inv_mono n); [lia|]. apply registry_inv_watchers, I.
  - apply (host_inv_registry n); [done|]. apply (registry_inv_mono n); [lia|]. unfold WatchService_recv in Hr.
    destruct (take_event _ _) as [[e' ws]|]; [|done]. injection Hr as <- <-. apply registry_inv_watchers, I.
  - apply (host_inv_registry n); [done|]. apply (registry_inv_mono n); [lia|]. unfold WatchService_close.
    case_match; [|apply I]. apply registry_inv_watchers, I.
  - destruct (route_tokens now req h) as [->|(rid & tok & ->)]; [apply (host_inv_mono n); [lia|done]|].
    destruct (tokens_validate now (handshakeServer h) rid tok (hi_tokens _ _ I)) as [E1 E2].
    apply host_inv_handshake; [done|by rewrite E1; apply (hi_config _ _ I)|done].
Qed.

Lemma reachable_host_inv n (h : Host) : (Z.of_nat n ≤ max64)%Z → reachable n h → host_inv n h.
Proof.
  intros Hn Hr. induction Hr as [|n h h' Hr IH Hst].
  - split; try done. split; try done. exists []. split_and!; [apply models_new|done|constructor].
  - eapply step_inv; [|apply IH; lia|done]. lia.
Qed.

(** *** Properties *)

(** C4: the invariant of the host.  However many requests (up to as many as an [int]
    counts) of whatever kind have come, from plugins or anybody else, in whatever
    order: the registry's tables are views of a log of registrations, each of them
    validated and under a runtime id; every token on record belongs to a non-empty
    runtime id fit for a URL, has the full length, and expires a time-to-live after
    its issue; no health is on record for the empty id, and the configuration and
    the endpoint table are as they were made. *)
Theorem host_invariant n (h : Host) (Hr : reachable n h) (Hn : (Z.of_nat n ≤ max64)%Z) : host_inv n h.
Proof. by apply reachable_host_inv. Qed.

(** C5: discovery on the host never panics and never changes it: in every reachable
    state, a request for a service at a minimum version is answered with the oldest
    live registration that offers it, in a sufficient version, by a plugin that has
    not reported UNHEALTHY, and with NotFound exactly when there is none; the answer
    leads to a plugin with a runtime id. *)
Theorem reachable_discovery n (h : Host) E m t v (Hr : reachable n h) (Hn : (Z.of_nat n ≤ max64)%Z) (Hs : sound E) :
  ∃ a, models h.(registry) a ∧ (host_DiscoverService E m t v h).1 = h ∧
    match filter (acceptable (Some h.(lifecycleServer)) t v) a with
    | [] => ∃ e, (host_DiscoverService E m t v h).2 = Err (NewError CodeNotFound e)
    | p :: _ => ∃ resp, (host_DiscoverService E m t v h).2 = Ok resp ∧ resp.(dr_Endpoint) = endpoint_of p ∧
        resp.(dr_SingleProvider) = bool_decide (length (filter (λ q, q.(ServiceType) = t) a) = 1) ∧ p.(RuntimeID) ≠ ""
    end.
Proof.
  destruct (reachable_host_inv n h Hn Hr) as [I _ _ _ _]. destruct (ri_log _ _ I) as (a & M & Hl & Ha).
  exists a. split; [done|]. split; [by apply (discover_registry n)|].
  assert (Hlen : slice_ok a) by (unfold slice_ok; lia).
  destruct (select_oldest n (coin E m) (Some (lifecycleServer h)) (registry h) a t v I M Hlen (snd_coin _ Hs m)) as [E1 E2].
  unfold host_DiscoverService, DiscoverService, DiscoverService_select.
  destruct (filter (acceptable _ t v) a) as [|p l] eqn:Ef; [destruct (E2 eq_refl) as [e ->]; by eexists|].
  rewrite E1. eexists. split; [reflexivity|]. split; [done|].
  split; [cbn; unfold DiscoverService_respond; by rewrite (models_providers _ _ M)|].
  assert (Hp : p ∈ a) by (apply (list_elem_of_filter (acceptable (Some (lifecycleServer h)) t v)); rewrite Ef; by left).
  by apply (proj1 (Forall_forall registered a) Ha p Hp).
Qed.

End host.

(** ** A host with one plugin *)

Definition ex_E : Env unit unit unit :=
  mkEnv "host:8080" (λ _, 0%Z) (λ n, rand_seq (Z.of_nat n)) (λ _ _, 0%Z) (λ _ h, h).

Definition ex_met : ServiceRouter unit unit unit * res HandshakeResponse :=
  host_Handshake ex_E 0 (mkHandshakeRequest 1 1 DefaultMagicCookieKey DefaultMagicCookieValue [] "cache") new_host.

Definition ex_id : string := match ex_met.2 with Ok r => r.(hp_RuntimeId) | Err _ => "" end.

Definition ex_registered : ServiceRouter unit unit unit * res string :=
  host_RegisterService ex_E 1 (mkRegisterServiceRequest {["X-Plugin-Runtime-Id" := [ex_id]]} "cache" "1.2.0" "/cache/" ∅) ex_met.1.

Definition ex_host : ServiceRouter unit unit unit := ex_registered.1.

Lemma ex_sound : sound ex_E.
Proof. split; intros n; [apply rand_seq_ok|apply rnd0_ok]. Qed.

Lemma ex_reachable : reachable 2 ex_host.
Proof.
  eapply reachable_step; [eapply reachable_step; [apply reachable_start|]|].
  - apply (step_handshake ex_E 0), ex_sound.
  - apply (step_register ex_E 1); [apply ex_sound|]. intros id _. apply lookup_empty.
Qed.

Lemma host_invariant_witness : is_ok ex_registered.2 = true ∧ host_inv 2 ex_host.
Proof. split; [by vm_compute|]. apply (host_invariant 2 ex_host ex_reachable). by vm_compute. Defined.

(** The plugin is found from version 1.2.0 down, and nothing above. *)
Lemma reachable_discovery_witness :
  (host_DiscoverService ex_E 2 "cache" "1.2.0" ex_host).1 = ex_host ∧
  is_ok (host_DiscoverService ex_E 2 "cache" "1.2.0" ex_host).2 = true ∧
  is_ok (host_DiscoverService ex_E 2 "cache" "1.3.0" ex_host).2 = false.
Proof.
  destruct (reachable_discovery 2 ex_host ex_E 2 "cache" "1.2.0" ex_reachable) as (a & _ & E & _);
    [by vm_compute|apply ex_sound|].
  split; [exact E|]. split; by vm_compute.
Defined.

End hostinv.
