(* ===== verification/InMemoryPrograms.v ===== *)
(** * Plugins in the same process (examples/direct-dispatch and examples/fx-direct)

    A launcher with the in-memory strategy and the key-value store behind it: the
    calls of the generated client travel through the listener of the launch and the
    mux of its server to the store.  The generated plugin is a parameter. *)

From stdpp Require Import prelude gmap strings list fin_maps pretty.
From Stdlib Require Import ZArith Ascii.
From S2P Require Import Prelude GoRuntime Identity Lifecycle Plugin Server MemTransport Launcher KVStore Strategies KVPrograms.
From S2P Require Registry.

(** ** The process *)

Module inprocess.
Import identity plugin launcher strategies.

(** The registry, the strategy, and the stores by address; a handler is the address of
    the store it serves. *)
Record process := mkProcess {
  p_registry : Registry.registry.ServiceRegistry;
  p_memory : InMemoryStrategy nat;
  p_stores : list kv.Store;
}.

#[export] Instance process_registry : Lens process Registry.registry.ServiceRegistry :=
  {| view := p_registry; set r w := mkProcess r w.(p_memory) w.(p_stores); view_set r w := eq_refl |}.
#[export] Instance process_memory : Lens process (InMemoryStrategy nat) :=
  {| view := p_memory; set m w := mkProcess w.(p_registry) m w.(p_stores); view_set m w := eq_refl |}.
#[export] Instance process_indep1 : Independent process Registry.registry.ServiceRegistry (InMemoryStrategy nat).
Proof. split. reflexivity. Qed.
#[export] Instance process_indep2 : Independent process (InMemoryStrategy nat) Registry.registry.ServiceRegistry.
Proof. split. reflexivity. Qed.

(** The implementation factory of the examples. *)
Definition new_store (w : process) : process * nat :=
  (mkProcess w.(p_registry) w.(p_memory) (w.(p_stores) ++ [kv.NewStore]), length w.(p_stores)).

Definition with_listener (w : process) (hc : nat) (l : memtransport.Listener) : process :=
  set (mkInMemoryStrategy w.(p_memory).(listeners) (<[hc := l]> w.(p_memory).(heap)) w.(p_memory).(servers) w.(p_memory).(next)) w.

Definition with_p_store (w : process) (a : nat) (s : kv.Store) : process :=
  mkProcess w.(p_registry) w.(p_memory) (<[a := s]> w.(p_stores)).

(** *** A request of the in-memory HTTP client *)

(** A connection is dialled, and the accept loop takes it.  The client may also use a
    connection it still has open, to the same effect. *)
Definition exchange (l : memtransport.Listener) : option memtransport.Listener :=
  let conn := length l.(memtransport.dialled) in
  foldM memtransport.step
    [memtransport.EvCheck conn; memtransport.EvSelect conn memtransport.DialSend; memtransport.EvAccept memtransport.AcceptConn] l.

(** What a path leads to behind the client of a listener; [None] when there is no
    connection.  The client dials the same listener for every URL. *)
Definition deliver (w : process) (hc : nat) (path : string) : option (process * option (nat + ())) :=
  match w.(p_memory).(heap) !! hc, w.(p_memory).(servers) !! hc with
  | Some l, Some m =>
      match exchange l with
      | Some l' => Some (with_listener w hc l', server.dispatch m path)
      | None => None
      end
  | _, _ => None
  end.

Definition refused : error := ErrForeign 2.
Definition not_served : error := ErrForeign 6.

(** A procedure of the key-value service, on the store that serves it. *)
Definition on_store {A} (w : process) (hc : nat) (procedure : string) (f : kv.Store → kv.Store * A) : process * res A :=
  match deliver w hc (KVServicePath +:+ procedure) with
  | None => (w, Err refused)
  | Some (w1, Some (inl a)) =>
      match w1.(p_stores) !! a with
      | Some s => let '(s', x) := f s in (with_p_store w1 a s', Ok x)
      | None => (w1, Err not_served)
      end
  | Some (w1, _) => (w1, Err not_served)
  end.

(** The generated client; an error of the store is an error of the call. *)
Section client.
Context (pick : nat → bool).

Definition rpc_Put (w : process) (hc : nat) (k v : string) : process * option error :=
  let '(w', r) := on_store w hc "Put" (λ s, kv.Put pick s k v) in (w', match r with Err e => Some e | Ok e => e end).

Definition rpc_Get (w : process) (hc : nat) (k : string) : process * res (string * bool) :=
  on_store w hc "Get" (λ s, (s, kv.Get s k)).

Definition rpc_Delete (w : process) (hc : nat) (k : string) : process * res bool :=
  on_store w hc "Delete" (λ s, kv.Delete pick s k).

(** A stream: [addr] is the address of its watcher.  The handler registers the watcher
    and then sends the first event, with nobody acting in between; the channel is
    new, and has room. *)
Definition rpc_Watch (w : process) (hc addr : nat) (prefix : string) : process * res () :=
  on_store w hc "Watch" (λ s, let s1 := kv.Watch_register s addr prefix in (default s1 (kv.Watch_started s1 addr), ())).

Definition stream_store (w : process) (hc : nat) : option (nat * kv.Store) :=
  match server.dispatch <$> w.(p_memory).(servers) !! hc with
  | Some d => match d (KVServicePath +:+ "Watch") with Some (inl a) => (λ s, (a, s)) <$> w.(p_stores) !! a | _ => None end
  | None => None
  end.

(** [stream.Receive]; [None]: it waits. *)
Definition Receive (w : process) (hc addr : nat) : option (process * kv.WatchEvent) :=
  match stream_store w hc with
  | Some (a, s) =>
      match List.find (kv.at_addr addr) s.(kv.watchers) with
      | Some wt => match wt.(kv.w_ch) with e :: _ => Some (with_p_store w a (kv.Watch_recv s addr), e) | [] => None end
      | None => None
      end
  | None => None
  end.

(** The stream's context is cancelled, and its handler returns. *)
Definition cancel (w : process) (hc addr : nat) : process :=
  match stream_store w hc with Some (a, s) => with_p_store w a (kv.Watch_close s addr) | None => w end.

(** *** Calls, one after another *)

Inductive request := QPut (k v : string) | QGet (k : string) | QDelete (k : string).
Inductive answer := APut (e : option error) | AGet (r : res (string * bool)) | ADelete (r : res bool).

Definition remote (w : process) (hc : nat) (q : request) : process * answer :=
  match q with
  | QPut k v => let '(w', e) := rpc_Put w hc k v in (w', APut e)
  | QGet k => let '(w', r) := rpc_Get w hc k in (w', AGet r)
  | QDelete k => let '(w', r) := rpc_Delete w hc k in (w', ADelete r)
  end.

(** The same on the store itself. *)
Definition direct (s : kv.Store) (q : request) : kv.Store * answer :=
  match q with
  | QPut k v => let '(s', e) := kv.Put pick s k v in (s', APut e)
  | QGet k => (s, AGet (Ok (kv.Get s k)))
  | QDelete k => let '(s', found) := kv.Delete pick s k in (s', ADelete (Ok found))
  end.

Fixpoint run_calls {S} (f : S → request → S * answer) (s : S) (qs : list request) : S * list answer :=
  match qs with
  | [] => (s, [])
  | q :: qs' => let '(s1, x) := f s q in let '(s2, xs) := run_calls f s1 qs' in (s2, x :: xs)
  end.

Definition failed (x : answer) : bool :=
  match x with APut (Some _) | AGet (Err _) | ADelete (Err _) => true | _ => false end.
End client.

(** *** The configuration of the examples *)

Section configuration.
Context {Client : Type} (p : Plugin nat nat Client) (rds : nat → Rand) `{GoRange}.
Abbreviation PluginLauncher := (PluginLauncher process nat nat Client nat).

Definition kv_spec : PluginSpec process nat nat Client :=
  mkPluginSpec "kv" ["kv"] "in-memory" 0 "" "" (Some p) (Some new_store) ∅.

Definition configured : PluginLauncher :=
  Configure (RegisterStrategy NewPluginLauncher (in_memory rds true)) {["kv" := kv_spec]}.

Definition new_process : process := mkProcess Registry.registry.NewServiceRegistry NewInMemoryStrategy [].
End configuration.

(** ** Lemmas *)

(** A listener on which nothing is under way. *)
Record quiet (l : memtransport.Listener) : Prop := {
  qt_conns : l.(memtransport.conns) = [];
  qt_dialling : l.(memtransport.dialling) = [];
  qt_dialled : l.(memtransport.dialled) = seq 0 (length l.(memtransport.dialled));
}.

Lemma exchange_open l : quiet l → l.(memtransport.closed) = false →
  ∃ l', exchange l = Some l' ∧ quiet l' ∧ l'.(memtransport.closed) = false.
Proof.
  intros [H1 H2 H3] Hc. destruct l as [conns closed dialling dialled accepted]. simpl in *. subst conns dialling closed.
  unfold exchange. cbn [memtransport.dialled foldM memtransport.step]. rewrite bool_decide_eq_false_2.
  2:{ rewrite H3. cbn. rewrite elem_of_seq. rewrite length_seq. lia. }
  cbn. rewrite bool_decide_eq_true_2 by by left. cbn. eexists. split; [reflexivity|]. split; [|done].
  split; cbn; [done|by rewrite bool_decide_eq_true_2|]. rewrite length_app, Nat.add_1_r, seq_S, <- H3. done.
Qed.

Lemma exchange_closed l : quiet l → l.(memtransport.closed) = true → exchange l = None.
Proof.
  intros [H1 H2 H3] Hc. destruct l as [conns closed dialling dialled accepted]. simpl in *. subst conns dialling closed.
  unfold exchange. cbn [memtransport.dialled foldM memtransport.step]. case_bool_decide; [done|]. cbn.
  by rewrite bool_decide_eq_false_2 by apply not_elem_of_nil.
Qed.

(** The client of listener [hc] talks to the store at [a], which is [s]. *)
Record serving (w : process) (hc a : nat) (s : kv.Store) : Prop := {
  sv_listener : ∃ l, w.(p_memory).(heap) !! hc = Some l ∧ quiet l ∧ l.(memtransport.closed) = false;
  sv_server : w.(p_memory).(servers) !! hc = Some (memory_mux KVServicePath a);
  sv_at : w.(p_stores) !! a = Some s;
}.

Lemma dispatch_kv (a : nat) procedure :
  server.dispatch (memory_mux KVServicePath a) (KVServicePath +:+ procedure) = Some (inl a).
Proof.
  unfold server.dispatch, memory_mux. cbn [server.longest].
  assert (E1 : server.pattern_matches KVServicePath (KVServicePath +:+ procedure) = true).
  { unfold server.pattern_matches. change (server.ends_in_slash KVServicePath) with true. cbn iota. apply HasPrefix_app. }
  rewrite E1. reflexivity.
Qed.

(** What a call leaves alone. *)
Definition same_tables (w w' : process) : Prop :=
  w'.(p_registry) = w.(p_registry) ∧ w'.(p_memory).(listeners) = w.(p_memory).(listeners).

Lemma on_store_serving {A} w hc a s procedure (f : kv.Store → kv.Store * A) : serving w hc a s →
  ∃ w', on_store w hc procedure f = (w', Ok (f s).2) ∧ serving w' hc a (f s).1 ∧ same_tables w w'.
Proof.
  intros [(l & Hl & Hq & Hc) Hm Hs]. destruct (exchange_open l Hq Hc) as (l' & E & Hq' & Hc').
  unfold on_store, deliver. rewrite Hl, Hm, E, dispatch_kv. cbn [p_stores with_listener set process_memory]. rewrite Hs.
  destruct (f s) as [s' x]. eexists. split; [reflexivity|]. split; [|done]. split; cbn.
  - exists l'. by rewrite lookup_insert_eq.
  - done.
  - rewrite list_lookup_insert_eq; [done|by eapply lookup_lt_Some].
Qed.

(** The client of a listener that is closed reaches nobody. *)
Definition hung_up (w : process) (hc : nat) : Prop :=
  ∃ l, w.(p_memory).(heap) !! hc = Some l ∧ quiet l ∧ l.(memtransport.closed) = true.

Lemma on_store_hung_up {A} w hc procedure (f : kv.Store → kv.Store * A) : hung_up w hc → on_store w hc procedure f = (w, Err refused).
Proof.
  intros (l & Hl & Hq & Hc). unfold on_store, deliver. rewrite Hl, (exchange_closed l Hq Hc). by destruct (servers _ !! hc).
Qed.

Section calls.
Context (pick : nat → bool).

Lemma remote_serving w hc a s q : serving w hc a s →
  ∃ w', remote pick w hc q = (w', (direct pick s q).2) ∧ serving w' hc a (direct pick s q).1 ∧ same_tables w w'.
Proof.
  intros Hw. destruct q as [k v|k|k]; cbn [remote direct].
  - unfold rpc_Put. destruct (on_store_serving w hc a s "Put" (λ s, kv.Put pick s k v) Hw) as (w' & -> & Hs & Ht).
    exists w'. by destruct (kv.Put pick s k v).
  - unfold rpc_Get. destruct (on_store_serving w hc a s "Get" (λ s, (s, kv.Get s k)) Hw) as (w' & -> & Hs & Ht). by exists w'.
  - unfold rpc_Delete. destruct (on_store_serving w hc a s "Delete" (λ s, kv.Delete pick s k) Hw) as (w' & -> & Hs & Ht).
    exists w'. by destruct (kv.Delete pick s k).
Qed.

Lemma run_serving w hc a s qs : serving w hc a s →
  ∃ w', run_calls (λ w q, remote pick w hc q) w qs = (w', (run_calls (direct pick) s qs).2) ∧
    serving w' hc a (run_calls (direct pick) s qs).1 ∧ same_tables w w'.
Proof.
  revert w s. induction qs as [|q qs IH]; intros w s Hw; [by exists w|].
  cbn [run_calls]. destruct (remote_serving w hc a s q Hw) as (w1 & -> & H1 & T1).
  destruct (direct pick s q) as [s1 x]. destruct (IH w1 s1 H1) as (w2 & -> & H2 & T2).
  exists w2. destruct (run_calls (direct pick) s1 qs) as [s2 xs]. split; [done|]. split; [done|].
  destruct T1 as [T1 U1], T2 as [T2 U2]. split; congruence.
Qed.

Lemma run_hung_up w hc qs : hung_up w hc →
  let r := run_calls (λ w q, remote pick w hc q) w qs in r.1 = w ∧ length r.2 = length qs ∧ Forall (λ x, failed x = true) r.2.
Proof.
  intros Hw. cbn zeta. induction qs as [|q qs IH]; cbn [run_calls]; [by split_and!; [..|constructor]|].
  assert (E : ∃ x, remote pick w hc q = (w, x) ∧ failed x = true).
  { destruct q; cbn [remote]; unfold rpc_Put, rpc_Get, rpc_Delete; rewrite on_store_hung_up by done; by eexists. }
  destruct E as (x & -> & Hx). destruct (run_calls _ w qs) as [w2 xs]. destruct IH as (E1 & E2 & E3). cbn in *.
  split_and!; [done|by rewrite E2|by constructor].
Qed.
End calls.

(** *** Launching and shutting down *)

Section launching.
Context {Client : Type} (p : Plugin nat nat Client) (rds : nat → Rand) `{GoRange}.
Abbreviation PluginLauncher := (PluginLauncher process nat nat Client nat).

(** What the code relies on of the generated plugin: its handler for a store serves
    the path of the service. *)
Context (Hserver : ∀ a, p.(pl_ConnectServer) a = Ok (KVServicePath, a)).

(** The instance that a launch at address [hc] stores. *)
Definition memory_instance (name : string) (spec : PluginSpec process nat nat Client) (hc : nat) : pluginInstance :=
  mkPluginInstance name ("http://in-memory." +:+ spec.(sp_Name)) (Some hc)
    (Some (memory_cleanup (W := process) (Handler := nat) hc spec.(sp_Name))) spec.(sp_Provides).

(** A plugin with the store behind it that is not running yet. *)
Record launchable (l : PluginLauncher) (name t : string) (spec : PluginSpec process nat nat Client) : Prop := {
  la_strategy : l.(launcher.strategies) !! spec.(sp_Strategy) = Some (in_memory rds true);
  la_spec : l.(specs) !! name = Some spec;
  la_provides : t ∈ spec.(sp_Provides);
  la_stopped : l.(instances) !! name = None;
  la_plugin : spec.(sp_Plugin) = Some p;
  la_factory : spec.(sp_ImplFactory) = Some new_store;
}.

Lemma launched l w name t spec : launchable l name t spec →
  let hc := w.(p_memory).(next) in let a := length w.(p_stores) in
  ∃ w', GetServiceClient (λ w, w) l w name t =
    (with_instances l (<[name := memory_instance name spec hc]> l.(instances)), w', Ok ("http://in-memory." +:+ spec.(sp_Name), Some hc)) ∧
    serving w' hc a kv.NewStore ∧
    w'.(p_registry) = registerService rds p spec.(sp_Name) spec.(sp_Provides) w.(p_registry) ∧
    w'.(p_memory).(listeners) = <[spec.(sp_Name) := hc]> w.(p_memory).(listeners).
Proof.
  intros [H1 H2 H3 H4 H5 H6]. cbn zeta. unfold GetServiceClient, obtain.
  rewrite H2, (proj2 (contains_true _ _) H3). cbn [negb]. rewrite H4. unfold launchPluginLocked. rewrite H1.
  cbn [Launch in_memory].
  rewrite (Launch_inmemory_ok rds true spec w (new_store w).1 p new_store (length (p_stores w)) KVServicePath (length (p_stores w))
    H5 H6 eq_refl (Hserver _)) by done.
  cbn [default id lr_Endpoint lr_HTTPClient lr_Cleanup instances with_instances]. rewrite lookup_insert_eq.
  eexists. split; [reflexivity|]. split; [|done]. split; cbn.
  - eexists. rewrite lookup_insert_eq. split; [reflexivity|]. by split.
  - by rewrite lookup_insert_eq.
  - by rewrite lookup_app_r, Nat.sub_diag by lia.
Qed.

(** The cleanup of the launch hangs up. *)
Lemma cleanup_hangs_up w hc a s name : serving w hc a s →
  let w' := memory_cleanup (W := process) (Handler := nat) hc name w in
  hung_up w' hc ∧ w'.(p_memory).(listeners) = delete name w.(p_memory).(listeners) ∧ w'.(p_registry) = w.(p_registry) ∧
  w'.(p_stores) = w.(p_stores).
Proof.
  intros [(l & Hl & [Q1 Q2 Q3] & Hc) _ _]. split; [|done]. exists (memtransport.Close l). cbn. by rewrite lookup_alter_eq, Hl.
Qed.

(** Shutting down a launcher with one instance. *)
Lemma Shutdown_one (l : PluginLauncher) w name i : l.(instances) = {[name := i]} →
  Shutdown l w = (with_instances l ∅, run_cleanup w i).
Proof.
  intros Hi. destruct (Shutdown_spec l w) as (order & Hp & ->). rewrite Hi, map_to_list_singleton in Hp. cbn in Hp.
  apply Permutation_singleton_r in Hp as ->. reflexivity.
Qed.
End launching.

(** C29: a store that is launched in memory is the store.  Whatever plugin of the
    launcher it is launched as: asking for its service gives an endpoint with an
    in-memory client, and any sequence of calls through that client is answered as
    the same calls on a new store; once the launcher is shut down, every call fails,
    and the launcher and the strategy know nothing of it any more. *)
Theorem in_memory_transparent {Client : Type} (p : Plugin nat nat Client) (rds : nat → Rand) `{GoRange} pick
    (l : PluginLauncher process nat nat Client nat) w name t spec qs qs'
    (Hserver : ∀ a, p.(pl_ConnectServer) a = Ok (KVServicePath, a)) (Hl : launchable p rds l name t spec)
    (Halone : l.(instances) = ∅) :
  ∃ l1 w1 hc, GetServiceClient (λ w, w) l w name t = (l1, w1, Ok ("http://in-memory." +:+ spec.(sp_Name), Some hc)) ∧
    ∃ w2, run_calls (λ w q, remote pick w hc q) w1 qs = (w2, (run_calls (direct pick) kv.NewStore qs).2) ∧
    ∃ w3, Shutdown l1 w2 = (l, w3) ∧ w3.(p_memory).(listeners) !! spec.(sp_Name) = None ∧
      Forall (λ x, failed x = true) (run_calls (λ w q, remote pick w hc q) w3 qs').2.
Proof.
  destruct (launched p rds Hserver l w name t spec Hl) as (w1 & E & Hs & _ & _). eexists _, w1, _. split; [exact E|].
  destruct (run_serving pick w1 _ _ _ qs Hs) as (w2 & E2 & Hs2 & _). exists w2. split; [exact E2|].
  destruct (cleanup_hangs_up w2 _ _ _ spec.(sp_Name) Hs2) as [Hh _].
  eexists. split; [rewrite (Shutdown_one _ w2 name (memory_instance name spec (next (p_memory w))))|].
  - unfold with_instances. cbn. rewrite <- Halone. by destruct l.
  - cbn. by rewrite Halone.
  - split; [cbn; by rewrite lookup_delete_eq|]. by apply run_hung_up.
Qed.

Definition ex_kv : Plugin nat nat unit :=
  mkPlugin (mkPluginMetadata "kv" KVServicePath "1.0.0" [] []) (λ a, Ok (KVServicePath, a)) (λ _, Ok tt).

Lemma configured_launchable {Client} (p : Plugin nat nat Client) rds `{GoRange} : launchable p rds (configured p rds) "kv" "kv" (kv_spec p).
Proof.
  split; cbn; try done; [|by left].
  assert (E := Configure_specs (RegisterStrategy NewPluginLauncher (in_memory rds true)) {["kv" := kv_spec p]} "kv").
  rewrite lookup_singleton_eq in E. exact E.
Qed.

Lemma in_memory_transparent_witness :
  ∃ l1 w1 hc, GetServiceClient (λ w, w) (configured ex_kv (λ _, rand_seq 9)) new_process "kv" "kv" =
      (l1, w1, Ok ("http://in-memory.kv", Some hc)) ∧
    ∃ w2, run_calls (λ w q, remote (λ _, false) w hc q) w1 [QPut "a" "1"; QPut "" "2"; QGet "a"; QDelete "a"; QGet "a"] =
      (w2, [APut None; APut (Some (NewError CodeInvalidArgument (Errorf "key cannot be empty" []))); AGet (Ok ("1", true));
            ADelete (Ok true); AGet (Ok ("", false))]).
Proof.
  destruct (in_memory_transparent ex_kv (λ _, rand_seq 9) (λ _, false) (configured ex_kv (λ _, rand_seq 9)) new_process "kv" "kv"
    (kv_spec ex_kv) [QPut "a" "1"; QPut "" "2"; QGet "a"; QDelete "a"; QGet "a"] [] (λ a, eq_refl) (configured_launchable _ _) eq_refl)
    as (l1 & w1 & hc & E1 & w2 & E2 & _).
  exists l1, w1, hc. split; [exact E1|]. exists w2. rewrite E2. vm_compute. reflexivity.
Defined.

End inprocess.

(** ** examples/direct-dispatch/main.go *)

Module directdispatch.
Import identity plugin launcher strategies inprocess.

(** How a run ends: fatally, in the panic of a nil client, waiting for an event, or
    with what it prints. *)
Inductive ended :=
| Fatal (e : error)
| Panics
| Waits
| Completed (got : string * bool) (deleted : bool) (after : string * bool) (event : kv.WatchEvent).

Section program.
Context {Client : Type} (p : Plugin nat nat Client) (rds : nat → Rand) (pick : nat → bool) `{GoRange}.

(** The loop over five items, stopped by the first error. *)
Fixpoint put_items (w : process) (hc : nat) (items : list nat) : process * option error :=
  match items with
  | [] => (w, None)
  | i :: items' =>
      let key := "item:" +:+ pretty i in
      match rpc_Put pick w hc key ("value-" +:+ pretty i) with
      | (w', Some err) => (w', Some (Errorf "Put(%s) failed: %v" [AStr key; AErr err]))
      | (w', None) => put_items w' hc items'
      end
  end.

(** The part on streaming; the address of the watcher is zero.  The background call
    is over when the event it causes is received. *)
Definition streaming (w : process) (hc : nat) (completed : kv.WatchEvent → ended) : process * ended :=
  match rpc_Watch w hc 0 "live:" with
  | (w1, Err err) => (w1, Fatal (Errorf "Watch failed: %v" [AErr err]))
  | (w1, Ok _) =>
      match Receive w1 hc 0 with
      | None => (w1, Waits)
      | Some (w2, _) =>
          let w3 := (rpc_Put pick w2 hc "live:status" "streaming works!").1 in
          match Receive w3 hc 0 with
          | None => (w3, Waits)
          | Some (w4, event) => (cancel w4 hc 0, completed event)
          end
      end
  end.

Definition exercise (w : process) (hc : nat) : process * ended :=
  match rpc_Put pick w hc "greeting" "hello from direct dispatch" with
  | (w1, Some err) => (w1, Fatal (Errorf "Put failed: %v" [AErr err]))
  | (w1, None) =>
      match rpc_Get w1 hc "greeting" with
      | (w2, Err err) => (w2, Fatal (Errorf "Get failed: %v" [AErr err]))
      | (w2, Ok got) =>
          match put_items w2 hc (seq 0 5) with
          | (w3, Some err) => (w3, Fatal err)
          | (w3, None) =>
              match rpc_Delete pick w3 hc "item:2" with
              | (w4, Err err) => (w4, Fatal (Errorf "Delete failed: %v" [AErr err]))
              | (w4, Ok deleted) =>
                  match rpc_Get w4 hc "item:2" with
                  | (w5, Err err) => (w5, Fatal (Errorf "Get failed: %v" [AErr err]))
                  | (w5, Ok after) => streaming w5 hc (Completed got deleted after)
                  end
              end
          end
      end
  end.

(** The program runs alone in its process. *)
Definition main : PluginLauncher process nat nat Client nat * process * ended :=
  let '(l, w, r) := GetServiceClient (λ w, w) (configured p rds) new_process "kv" "kv" in
  match r with
  | Err err => (l, w, Fatal (Errorf "Failed to get service: %v" [AErr err]))
  | Ok (_, None) => (l, w, Panics)
  | Ok (_, Some hc) =>
      match exercise w hc with
      | (w', Completed got deleted after event) =>
          let '(l', w'') := Shutdown l w' in (l', w'', Completed got deleted after event)
      | (w', e) => (l, w', e)
      end
  end.
End program.

(** ** Lemmas *)

Section lemmas.
Context (pick : nat → bool).

Lemma put_serving w hc a s k v : k ≠ "" → serving w hc a s →
  ∃ w', rpc_Put pick w hc k v = (w', None) ∧ serving w' hc a (kv.Put pick s k v).1 ∧ same_tables w w'.
Proof.
  intros Hk Hw. unfold rpc_Put. destruct (on_store_serving w hc a s "Put" (λ s, kv.Put pick s k v) Hw) as (w' & -> & Hs & Ht).
  exists w'. split; [|done]. unfold kv.Put. by rewrite bool_decide_eq_false_2.
Qed.

Lemma same_tables_trans w1 w2 w3 : same_tables w1 w2 → same_tables w2 w3 → same_tables w1 w3.
Proof. intros [T1 U1] [T2 U2]. split; congruence. Qed.

Lemma put_items_serving w hc a s items : serving w hc a s →
  ∃ w', put_items pick w hc items = (w', None) ∧
    serving w' hc a (kv.run pick s ((λ i, kv.OpPut ("item:" +:+ pretty i) ("value-" +:+ pretty i)) <$> items)) ∧ same_tables w w'.
Proof.
  revert w s. induction items as [|i items IH]; intros w s Hw; [by exists w|]. cbn [put_items fmap list_fmap].
  destruct (put_serving w hc a s ("item:" +:+ pretty i) ("value-" +:+ pretty i) ltac:(done) Hw) as (w1 & -> & H1 & T1).
  destruct (IH w1 _ H1) as (w2 & -> & H2 & T2). exists w2. split; [done|]. split; [exact H2|]. by eapply same_tables_trans.
Qed.

(** A stream's reads, as changes of the store. *)
Lemma stream_store_serving w hc a s : serving w hc a s → stream_store w hc = Some (a, s).
Proof. intros [_ Hm Hs]. unfold stream_store. rewrite Hm. cbn [fmap option_fmap option_map]. by rewrite dispatch_kv, Hs. Qed.

Lemma with_store_serving w hc a s s' : serving w hc a s → serving (with_p_store w a s') hc a s' ∧ same_tables w (with_p_store w a s').
Proof.
  intros [Hl Hm Hs]. split; [|done]. split; [done|done|]. cbn. rewrite list_lookup_insert_eq; [done|by eapply lookup_lt_Some].
Qed.

Lemma Receive_serving w hc a s addr wt e es : serving w hc a s →
  List.find (kv.at_addr addr) s.(kv.watchers) = Some wt → wt.(kv.w_ch) = e :: es →
  ∃ w', Receive w hc addr = Some (w', e) ∧ serving w' hc a (kv.Watch_recv s addr) ∧ same_tables w w'.
Proof.
  intros Hw Hf He. unfold Receive. rewrite (stream_store_serving w hc a s Hw), Hf, He. eexists. split; [done|].
  by apply with_store_serving with (s := s).
Qed.

(** On a store without watchers the stream receives its first event, and then the
    change; nothing of it stays. *)
Lemma streaming_serving w hc a s completed : serving w hc a s → s.(kv.watchers) = [] →
  ∃ w', streaming pick w hc completed = (w', completed (kv.mkWatchEvent kv.EVENT_TYPE_PUT "live:status" "streaming works!")) ∧
    serving w' hc a (kv.mkStore (<["live:status" := "streaming works!"]> s.(kv.data)) []) ∧ same_tables w w'.
Proof.
  intros Hw Hn. destruct s as [d ws]. cbn in Hn. subst ws. unfold streaming, rpc_Watch.
  set (open := λ s : kv.Store, _).
  destruct (on_store_serving w hc a (kv.mkStore d []) "Watch" open Hw) as (w1 & -> & H1 & T1). cbn in H1.
  destruct (Receive_serving w1 hc a _ 0 _ _ _ H1 eq_refl eq_refl) as (w2 & -> & H2 & T2). cbn in H2.
  destruct (put_serving w2 hc a _ "live:status" "streaming works!" ltac:(done) H2) as (w3 & -> & H3 & T3). cbn in H3.
  cbn [fst].
  destruct (Receive_serving w3 hc a _ 0 _ _ _ H3 eq_refl eq_refl) as (w4 & -> & H4 & T4). cbn in H4.
  eexists. split; [reflexivity|]. unfold cancel. rewrite (stream_store_serving w4 hc a _ H4).
  destruct (with_store_serving w4 hc a _ (kv.mkStore (<["live:status" := "streaming works!"]> d) []) H4) as [H5 T5].
  split; [exact H5|]. by repeat (eapply same_tables_trans; [eassumption|]).
Qed.
End lemmas.

(** The data the program leaves behind. *)
Definition left_data : gmap string string :=
  {["greeting" := "hello from direct dispatch"; "item:0" := "value-0"; "item:1" := "value-1"; "item:3" := "value-3";
    "item:4" := "value-4"; "live:status" := "streaming works!"]}.

(** What the program has done to the store before it streams. *)
Definition before_streaming (pick : nat → bool) : kv.Store :=
  (kv.Delete pick
     (kv.run pick (kv.Put pick kv.NewStore "greeting" "hello from direct dispatch").1
        ((λ i, kv.OpPut ("item:" +:+ pretty i) ("value-" +:+ pretty i)) <$> seq 0 5)) "item:2").1.

Lemma exercise_serving pick w hc a : serving w hc a kv.NewStore →
  ∃ w', exercise pick w hc =
      (w', Completed ("hello from direct dispatch", true) true ("", false)
             (kv.mkWatchEvent kv.EVENT_TYPE_PUT "live:status" "streaming works!")) ∧
    serving w' hc a (kv.mkStore left_data []) ∧ same_tables w w'.
Proof.
  intros Hw. unfold exercise, rpc_Get, rpc_Delete.
  destruct (put_serving pick w hc a _ "greeting" "hello from direct dispatch" ltac:(done) Hw) as (w1 & -> & H1 & T1).
  destruct (on_store_serving w1 hc a _ "Get" (λ s, (s, kv.Get s "greeting")) H1) as (w2 & -> & H2 & T2). cbn [fst snd] in H2 |- *.
  destruct (put_items_serving pick w2 hc a _ (seq 0 5) H2) as (w3 & -> & H3 & T3).
  destruct (on_store_serving w3 hc a _ "Delete" (λ s, kv.Delete pick s "item:2") H3) as (w4 & -> & H4 & T4).
  fold (before_streaming pick) in H4.
  destruct (on_store_serving w4 hc a _ "Get" (λ s, (s, kv.Get s "item:2")) H4) as (w5 & -> & H5 & T5). cbn [fst snd] in H5 |- *.
  destruct (streaming_serving pick w5 hc a (before_streaming pick)
    (Completed (kv.Get (kv.Put pick kv.NewStore "greeting" "hello from direct dispatch").1 "greeting") true
       (kv.Get (before_streaming pick) "item:2")) H5 ltac:(vm_compute; reflexivity)) as (w6 & E & H6 & T6).
  exists w6. split; [|split].
  - etransitivity; [|etransitivity; [exact E|]]; vm_compute; reflexivity.
  - assert (Hd : <["live:status" := "streaming works!"]> (before_streaming pick).(kv.data) = left_data) by (vm_compute; reflexivity).
    by rewrite Hd in H6.
  - by repeat (eapply same_tables_trans; [eassumption|]).
Qed.

(** The direct-dispatch program completes.  With a generated plugin whose handler
    serves the service's path, and whatever the order of its maps and the randomness:
    it reads back its greeting, deletes the third item, does not find it afterwards,
    and its watch receives the change; the store holds exactly the other data and no
    watcher.  After the shutdown the launcher and the strategy are empty; but the
    registration of the service stays in the registry. *)
Theorem direct_dispatch_completes {Client : Type} (p : Plugin nat nat Client) (rds : nat → Rand) pick `{GoRange}
    (Hserver : ∀ a, p.(pl_ConnectServer) a = Ok (KVServicePath, a)) :
  ∃ w, main p rds pick =
    (configured p rds, w,
     Completed ("hello from direct dispatch", true) true ("", false)
       (kv.mkWatchEvent kv.EVENT_TYPE_PUT "live:status" "streaming works!")) ∧
    w.(p_stores) !! 0 = Some (kv.mkStore left_data []) ∧ w.(p_memory).(listeners) = ∅ ∧
    Registry.registry.models w.(p_registry) (memory_providers rds "kv" p.(pl_Metadata).(Provides) 0 ["kv"]).
Proof.
  unfold main.
  destruct (launched p rds Hserver (configured p rds) new_process "kv" "kv" (kv_spec p) (configured_launchable p rds))
    as (w1 & -> & H1 & R1 & L1).
  destruct (exercise_serving pick w1 _ _ H1) as (w2 & -> & H2 & [T2 U2]).
  rewrite (Shutdown_one _ w2 "kv" (memory_instance "kv" (kv_spec p) 0)) by done.
  destruct (cleanup_hangs_up w2 _ _ _ "kv" H2) as (_ & El & Er & Es).
  eexists. split; [reflexivity|]. split_and!.
  - apply (sv_at _ _ _ _ H2).
  - etransitivity; [exact El|]. rewrite U2, L1. by apply map_eq; intros k; vm_compute.
  - change (Registry.registry.models (p_registry (memory_cleanup (W := process) (Handler := nat) (next (p_memory new_process)) "kv" w2))
      ([] ++ memory_providers rds "kv" (Provides (pl_Metadata p)) 0 ["kv"])).
    rewrite Er, T2, R1. apply register_services_models; [apply Registry.registry.models_new|].
    cbn. destruct (generateRegistrationID (rds 0)); [apply NoDup_singleton|constructor].
Qed.

Lemma direct_dispatch_completes_witness :
  ∃ w, main ex_kv (λ _, rand_seq 9) (λ _, false) =
    (configured ex_kv (λ _, rand_seq 9), w,
     Completed ("hello from direct dispatch", true) true ("", false)
       (kv.mkWatchEvent kv.EVENT_TYPE_PUT "live:status" "streaming works!")) ∧
    length (get_or [] w.(p_registry).(Registry.registry.providers) "kv") = 1.
Proof.
  destruct (direct_dispatch_completes ex_kv (λ _, rand_seq 9) (λ _, false) (λ a, eq_refl)) as (w & E & _ & _ & Hm).
  exists w. split; [exact E|]. rewrite (Registry.registry.models_providers _ _ Hm). vm_compute. reflexivity.
Defined.

End directdispatch.

(** ** examples/fx-direct/main.go

    The constructors and hooks that the program gives to the container, which calls
    them in this order: the infrastructure, the client, the start hook, the stop
    hook. *)

Module fxdirect.
Import identity plugin launcher strategies inprocess.

Section program.
Context {Client : Type} (p : Plugin nat nat Client) (rds : nat → Rand) (pick : nat → bool) `{GoRange}.
Abbreviation PluginLauncher := (PluginLauncher process nat nat Client nat).

Definition infrastructure : PluginLauncher * process := (configured p rds, new_process).

(** The listener of the client; [None] for a nil HTTP client. *)
Definition provide_client (l : PluginLauncher) (w : process) : PluginLauncher * process * res (option nat) :=
  let '(l', w', r) := GetServiceClient (λ w, w) l w "kv" "kv" in
  (l', w', match r with Err err => Err err | Ok (_, hc) => Ok hc end).

(** What the start hook prints: the value read and the answer of the deletion.
    [shutdowner]: how the container takes the request to shut down. *)
Definition OnStart (shutdowner : option error) (w : process) (hc : nat) : process * option error * option (string * bool) :=
  match rpc_Put pick w hc "user:1" "Alice" with
  | (w1, Some err) => (w1, Some err, None)
  | (w1, None) =>
      match rpc_Put pick w1 hc "user:2" "Bob" with
      | (w2, Some err) => (w2, Some err, None)
      | (w2, None) =>
          match rpc_Get w2 hc "user:1" with
          | (w3, Err err) => (w3, Some err, None)
          | (w3, Ok (value, _)) =>
              match rpc_Delete pick w3 hc "user:2" with
              | (w4, Err err) => (w4, Some err, None)
              | (w4, Ok found) => (w4, shutdowner, Some (value, found))
              end
          end
      end
  end.

Definition OnStop (l : PluginLauncher) (w : process) : PluginLauncher * process * option error :=
  let '(l', w') := Shutdown l w in (l', w', None).

(** The program from its constructors to its stop. *)
Lemma fx_direct_completes shutdowner (Hserver : ∀ a, p.(pl_ConnectServer) a = Ok (KVServicePath, a)) :
  let '(l, w) := infrastructure in
  ∃ l1 w1 hc, provide_client l w = (l1, w1, Ok (Some hc)) ∧
  ∃ w2, OnStart shutdowner w1 hc = (w2, shutdowner, Some ("Alice", true)) ∧
  ∃ w3, OnStop l1 w2 = (configured p rds, w3, None) ∧ w3.(p_memory).(listeners) = ∅ ∧
    kv.data <$> w3.(p_stores) !! 0 = Some {["user:1" := "Alice"]}.
Proof.
  unfold infrastructure, provide_client.
  destruct (launched p rds Hserver (configured p rds) new_process "kv" "kv" (kv_spec p) (configured_launchable p rds))
    as (w1 & -> & H1 & _ & L1).
  eexists _, w1, _. split; [reflexivity|]. unfold OnStart, rpc_Get, rpc_Delete.
  destruct (directdispatch.put_serving pick w1 _ _ _ "user:1" "Alice" ltac:(done) H1) as (w2 & -> & H2 & T2).
  destruct (directdispatch.put_serving pick w2 _ _ _ "user:2" "Bob" ltac:(done) H2) as (w3 & -> & H3 & T3).
  destruct (on_store_serving w3 _ _ _ "Get" (λ s, (s, kv.Get s "user:1")) H3) as (w4 & -> & H4 & T4). cbn [fst snd] in H4.
  destruct (on_store_serving w4 _ _ _ "Delete" (λ s, kv.Delete pick s "user:2") H4) as (w5 & -> & H5 & T5).
  exists w5. split; [vm_compute; reflexivity|]. unfold OnStop.
  rewrite (Shutdown_one _ w5 "kv" (memory_instance "kv" (kv_spec p) 0)) by done.
  destruct (cleanup_hangs_up w5 _ _ _ "kv" H5) as (_ & El & _ & _).
  eexists. split; [reflexivity|]. split.
  - etransitivity; [exact El|]. destruct T2 as [_ U2], T3 as [_ U3], T4 as [_ U4], T5 as [_ U5].
    rewrite U5, U4, U3, U2, L1. by apply map_eq; intros k; vm_compute.
  - change (kv.data <$> p_stores w5 !! length (p_stores new_process) = Some {["user:1" := "Alice"]}).
    rewrite (sv_at _ _ _ _ H5). vm_compute. reflexivity.
Qed.
End program.
End fxdirect.
