(* ===== verification/FxManaged.v ===== *)
(** * Launching with mixed strategies (examples/fx-managed)

    The program that launches a logger in its own process and the key-value server as
    a child process, and uses both through generated delegates.  The world is the
    registry, the tables of the two strategies, the stores of the child processes by
    their URLs, and whether the host's server accepts requests. *)

From stdpp Require Import prelude gmap strings list fin_maps pretty.
From Stdlib Require Import ZArith Ascii.
From S2P Require Import Prelude GoRuntime Validation Identity Lifecycle Plugin Broker Server MemTransport Launcher KVStore Strategies KVLogging KVPrograms.
From S2P Require Registry Host.

(** ** The plugin (logger_plugin.go) *)

Module memorylogger.
Import plugin broker.

Definition LoggerPath : string := "/capability.logger.v1.Logger/".

Section logger.
(** [fresh] names a capability that is made on the spot.  An implementation is [None]
    when it is not a logger capability; the client is its URL. *)
Context (fresh : nat).

Definition Metadata : PluginMetadata :=
  mkPluginMetadata "logger" LoggerPath "1.0.0" [mkServiceDeclaration "logger" "1.0.0" LoggerPath] [].

Definition ConnectServer (impl : option CapabilityHandler) : res (string * CapabilityHandler) :=
  let logger := match impl with Some l => l | None => loggercap.NewLoggerCapability fresh end in
  Ok (LoggerPath, logger).

Definition ConnectClient (baseURL : string) : res string := Ok baseURL.

Definition LoggerPlugin : Plugin (option CapabilityHandler) CapabilityHandler string :=
  mkPlugin Metadata ConnectServer ConnectClient.
End logger.
End memorylogger.

(** ** The program (main.go) *)

Module fxmanaged.
Import identity lifecycle plugin broker launcher strategies memorylogger.

Record world := mkWorld {
  m_registry : Registry.registry.ServiceRegistry;
  m_memory : InMemoryStrategy CapabilityHandler;
  m_processes : ProcessStrategy;
  m_children : gmap string kv.Store;
  m_serving : bool;
}.

#[export] Instance world_registry : Lens world Registry.registry.ServiceRegistry :=
  {| view := m_registry; set r w := mkWorld r w.(m_memory) w.(m_processes) w.(m_children) w.(m_serving); view_set r w := eq_refl |}.
#[export] Instance world_memory : Lens world (InMemoryStrategy CapabilityHandler) :=
  {| view := m_memory; set m w := mkWorld w.(m_registry) m w.(m_processes) w.(m_children) w.(m_serving); view_set m w := eq_refl |}.
#[export] Instance world_processes : Lens world ProcessStrategy :=
  {| view := m_processes; set p w := mkWorld w.(m_registry) w.(m_memory) p w.(m_children) w.(m_serving); view_set p w := eq_refl |}.

Definition with_children (w : world) c : world := mkWorld w.(m_registry) w.(m_memory) w.(m_processes) c w.(m_serving).
Definition with_serving (w : world) b : world := mkWorld w.(m_registry) w.(m_memory) w.(m_processes) w.(m_children) b.

(** What the host's server has for a path while it serves. *)
Definition managed_mux : option (server.mux Host.host.host_route) :=
  m ← server.Handle [] server.HandshakeServicePath Host.host.HHandshake;
  m ← server.Handle m server.PluginLifecyclePath Host.host.HLifecycle;
  m ← server.Handle m server.ServiceRegistryPath Host.host.HRegistry;
  server.Handle m "/services/" Host.host.HRouter.

Definition host_serves (w : world) (path : string) : option Host.host.host_route :=
  if w.(m_serving) then m ← managed_mux; server.dispatch m path else None.

Abbreviation PluginLauncher := (PluginLauncher world (option CapabilityHandler) CapabilityHandler string nat).
Abbreviation PluginSpec := (PluginSpec world (option CapabilityHandler) CapabilityHandler string).

Definition refused : error := ErrForeign 2.

Section program.
Context `{GoRange}.

(** The in-memory strategy's randomness; the process strategy's operating system and
    the course of its poll; [math/rand] of the registry. *)
Context (rds : nat → Rand) (start : string → list string → world → world * res nat) (kill interrupt : nat → world → world)
  (get : string → option error) (evs : list poll) (rnd : Z → Z).

(** What else a URL leads to, on the network, for the default HTTP client. *)
Context (web : string → loggercap.LogRequest → option error) (pick : nat → bool).

Definition child_process : LaunchStrategy world (option CapabilityHandler) CapabilityHandler string nat :=
  mkLaunchStrategy "process" (λ spec w,
    let '(w', r) := Launch_process start kill interrupt get evs spec w in (w', default (Err (Errorf "still waiting" [])) r)).

Definition logger_spec : PluginSpec :=
  mkPluginSpec "logger-inmemory" ["logger"] "in-memory" 0 "" "" (Some (LoggerPlugin 1))
    (Some (λ w, (w, Some (loggercap.NewLoggerCapability 0)))) ∅.

Definition kv_server_spec : PluginSpec :=
  mkPluginSpec "kv-server" ["kv"] "process" 9082 "./dist/kv-server" "http://localhost:19080" None None ∅.

Definition configured : PluginLauncher :=
  Configure (RegisterStrategy (RegisterStrategy NewPluginLauncher child_process) (in_memory rds true))
    {["logger-inmemory" := logger_spec; "kv-server" := kv_server_spec]}.

(** [listens]: the port is free; that it is not goes unnoticed. *)
Definition new_world (listens : bool) : world :=
  mkWorld Registry.registry.NewServiceRegistry NewInMemoryStrategy NewProcessStrategy ∅ listens.

(** The constructors of the two delegates.  Each comes to the URL that the default
    HTTP client is given: [GetService] answers no HTTP client.  [lc]: the reports of
    plugins so far; [settle]: what the child does in the half second after its
    start. *)
Definition provide_logger (lc : LifecycleServer) (l : PluginLauncher) (w : world) : PluginLauncher * world * option (res string) :=
  GetService rnd (Some lc) (λ w, w) l w "logger-inmemory" "logger".

Definition provide_kv (lc : LifecycleServer) (settle : world → world) (l : PluginLauncher) (w : world) :
    PluginLauncher * world * option (res string) :=
  GetService rnd (Some lc) settle l w "kv-server" "kv".

(** *** Calls of the delegates, through the default HTTP client *)

Definition Log (w : world) (url level message : string) (fields : gmap string string) : world * option error :=
  (w, web url (loggercap.mkLogRequest level message fields)).

Definition Put (w : world) (url key value : string) : world * option error :=
  match w.(m_children) !! url with
  | None => (w, Some refused)
  | Some s => let '(s', e) := kv.Put pick s key value in (with_children w (<[url := s']> w.(m_children)), e)
  end.

Definition Get (w : world) (url key : string) : res (string * bool) :=
  match w.(m_children) !! url with None => Err refused | Some s => Ok (kv.Get s key) end.

(** What the log calls answer is not looked at. *)
Definition OnStart (shutdowner : option error) (logger kvs : string) (w : world) : world * option error :=
  let w := (Log w logger "INFO" "Application started" ∅).1 in
  match Put w kvs "user:123" "Alice" with
  | (w, Some err) => (w, Some err)
  | (w, None) =>
      let w := (Log w logger "INFO" "Stored user data" {["key" := "user:123"]}).1 in
      match Get w kvs "user:123" with
      | Err err => (w, Some err)
      | Ok (value, _) => ((Log w logger "INFO" "Retrieved user data" {["value" := value]}).1, shutdowner)
      end
  end.

(** A constructor fails or panics, or the start hook returns. *)
Inductive ended := Panics | NotStarted (e : error) | Started (err : option error).

Definition start_app (listens : bool) (reported : LifecycleServer) (settle : world → world) (shutdowner : option error) :
    PluginLauncher * world * ended :=
  match provide_logger NewLifecycleServer configured (new_world listens) with
  | (l, w, None) => (l, w, Panics)
  | (l, w, Some (Err e)) => (l, w, NotStarted e)
  | (l, w, Some (Ok logger)) =>
      match provide_kv reported settle l w with
      | (l, w, None) => (l, w, Panics)
      | (l, w, Some (Err e)) => (l, w, NotStarted e)
      | (l, w, Some (Ok kvs)) => let '(w, err) := OnStart shutdowner logger kvs w in (l, w, Started err)
      end
  end.

(** The stop hooks.  [closing]: what shutting the host's server down answers. *)
Definition OnStop_host (closing : option error) (w : world) : world * option error := (with_serving w false, closing).

Definition OnStop_launcher (l : PluginLauncher) (w : world) : PluginLauncher * world * option error :=
  let '(l', w') := Shutdown l w in (l', w', None).

(** The container stops what it started in reverse: the host was constructed first.
    It does so when the start hook has failed, too, but not when a constructor has. *)
Definition stop_app (closing : option error) (l : PluginLauncher) (w : world) : PluginLauncher * world * list error :=
  let '(l, w, e1) := OnStop_launcher l w in
  let '(w, e2) := OnStop_host closing w in
  (l, w, option_list e1 ++ option_list e2).

(** The run; the errors are those of the stop hooks. *)
Definition run_app (listens : bool) (reported : LifecycleServer) (settle : world → world) (shutdowner closing : option error) :
    PluginLauncher * world * ended * list error :=
  match start_app listens reported settle shutdowner with
  | (l, w, Started err) => let '(l, w, errs) := stop_app closing l w in (l, w, Started err, errs)
  | (l, w, e) => (l, w, e, [])
  end.
End program.

(** ** What running it comes to *)

(** The child: the binary starts with its port and the host's URL and serves a new
    store, and answers on its port; in the half second it is given it registers its
    service, under a runtime id that has not reported UNHEALTHY. *)
Definition child_url : string := "http://localhost:9082".

Definition child_request (hdr : Header) : Registry.registry.RegisterServiceRequest :=
  Registry.registry.mkRegisterServiceRequest hdr "kv" "1.0.0" KVServicePath {["base_url" := child_url]}.

Definition child_settles `{GoRange} (rd : Rand) (now : Time) (reported : LifecycleServer) (hdr : Header) (w : world) : world :=
  match host_serves w (server.ServiceRegistryPath +:+ "RegisterService") with
  | Some Host.host.HRegistry => set (Registry.registry.RegisterService rd now (Some reported) (view w) (child_request hdr)).1 w
  | _ => w
  end.

Record child_ok (start : string → list string → world → world * res nat) (get : string → option error) (evs : list poll)
    (pid : nat) : Prop := {
  ch_start : ∀ w, start "./dist/kv-server" ["PORT=9082"; "HOST_URL=http://localhost:19080"] w =
               (with_children w (<[child_url := kv.NewStore]> w.(m_children)), Ok pid);
  ch_ready : waitForPluginReady get child_url evs = Some None;
}.

(** A service that is launched and on the log, and not selected by turns, is answered
    with the instance. *)
Lemma GetService_on_log `{GoRange} rnd lc settle (l l' : PluginLauncher) w w' name t i a p :
  obtain settle l w name t = (l', w', Ok i) → Registry.registry.models w'.(m_registry) a → Registry.registry.rr_ok w'.(m_registry) →
  ¬ Registry.registry.is_round_robin w'.(m_registry) t →
  Registry.registry.rnd_ok rnd → Registry.registry.slice_ok a → p ∈ a → Registry.registry.acceptable lc t "" p →
  GetService rnd lc settle l w name t = (l', w', Some (Ok i.(endpoint))).
Proof.
  intros E M Hrr Hnr Hrnd Hlen Hp Ha. unfold GetService. rewrite E. change (view w') with (m_registry w').
  unfold Registry.registry.DiscoverService, Registry.registry.DiscoverService_select.
  assert (Hin : p ∈ Registry.registry.eligible lc (m_registry w') t "") by by apply (Registry.registry.elem_of_eligible_models lc _ a).
  destruct (Registry.registry.SelectProvider_cases rnd lc (m_registry w') t "" Hrr Hrnd
    (Registry.registry.eligible_slice_ok lc _ a t "" M Hlen)) as [[E0 _]|(q & r' & -> & _ & Hk & _)].
  - rewrite E0 in Hin. by apply elem_of_nil in Hin.
  - rewrite (Hk Hnr). by destruct w'.
Qed.

Section run.
Context `{GoRange} (rds : nat → Rand) (start : string → list string → world → world * res nat) (kill interrupt : nat → world → world)
  (get : string → option error) (evs : list poll) (rnd : Z → Z) (pid : nat) (Hch : child_ok start get evs pid)
  (Hrnd : Registry.registry.rnd_ok rnd).
Abbreviation launchers := (configured rds start kill interrupt get evs).

(** The registry with the logger on its log, and the world after its launch. *)
Definition logger_provider (id : string) : Registry.registry.ServiceProvider :=
  memory_provider "logger-inmemory" "logger" id LoggerPath.

Definition logger_registry (id : string) : Registry.registry.ServiceRegistry :=
  add_provider Registry.registry.NewServiceRegistry (logger_provider id).

Definition logger_world (listens : bool) (id : string) : world :=
  set (logger_registry id) (listening "logger-inmemory" (memory_mux LoggerPath (loggercap.NewLoggerCapability 0)) (new_world listens)).

Definition logger_instance : pluginInstance :=
  mkPluginInstance "logger-inmemory" "http://in-memory.logger-inmemory" (Some 0)
    (Some (memory_cleanup (W := world) (Handler := CapabilityHandler) 0 "logger-inmemory")) ["logger"].

Lemma logger_models id : Registry.registry.models (logger_registry id) [logger_provider id].
Proof.
  apply (Registry.registry.models_append Registry.registry.NewServiceRegistry [] "logger" id (logger_provider id)
    Registry.registry.models_new eq_refl eq_refl eq_refl).
Qed.

Lemma managed_specs name spec : ({["logger-inmemory" := logger_spec; "kv-server" := kv_server_spec]} : gmap string PluginSpec) !! name = Some spec →
  launchers.(specs) !! name = Some spec.
Proof. intros E. unfold configured. by rewrite Configure_specs, E. Qed.

Lemma logger_obtained listens id : generateRegistrationID (rds 0) = Ok id →
  obtain (λ w, w) launchers (new_world listens) "logger-inmemory" "logger" =
    (with_instances launchers {["logger-inmemory" := logger_instance]}, logger_world listens id, Ok logger_instance).
Proof.
  intros Hid. unfold obtain. rewrite (managed_specs _ logger_spec) by done. cbn [negb].
  change (contains (sp_Provides logger_spec) "logger") with true. cbn [negb].
  change (instances launchers !! "logger-inmemory") with (@None (pluginInstance (W := world) (HTTPClient := nat))). unfold launchPluginLocked.
  change (launcher.strategies launchers !! sp_Strategy logger_spec) with
    (Some (in_memory (W := world) (Impl := option CapabilityHandler) (Handler := CapabilityHandler) (Client := string) rds true)).
  cbn [Launch in_memory].
  rewrite (Launch_inmemory_ok rds true logger_spec (new_world listens) (new_world listens) (LoggerPlugin 1) _ (Some (loggercap.NewLoggerCapability 0))
    LoggerPath (loggercap.NewLoggerCapability 0) eq_refl eq_refl eq_refl eq_refl) by done.
  cbn [from_option Datatypes.id]. unfold registerService. cbn [sp_Provides logger_spec register_services]. rewrite Hid. reflexivity.
Qed.

(** The child. *)
Context (settle : world → world).

Definition kv_launched (w : world) : world :=
  set (mkProcessStrategy (<["kv-server" := pid]> w.(m_processes).(processes)))
    (with_children w (<[child_url := kv.NewStore]> w.(m_children))).

Definition kv_instance : pluginInstance :=
  mkPluginInstance "kv-server" child_url (@None nat) (Some (process_cleanup (W := world) kill interrupt pid "kv-server")) ["kv"].

Lemma kv_obtained m w : m !! "kv-server" = None →
  obtain settle (with_instances launchers m) w "kv-server" "kv" =
    (with_instances launchers (<["kv-server" := kv_instance]> m), settle (kv_launched w), Ok kv_instance).
Proof.
  intros Hm. unfold obtain. cbn [specs with_instances]. rewrite (managed_specs _ kv_server_spec) by done.
  change (contains (sp_Provides kv_server_spec) "kv") with true. cbn [negb instances with_instances]. rewrite Hm. unfold launchPluginLocked.
  change (launcher.strategies (with_instances launchers m) !! sp_Strategy kv_server_spec) with
    (Some (child_process start kill interrupt get evs)).
  cbn [Launch child_process]. unfold Launch_process.
  change (bool_decide (sp_BinaryPath kv_server_spec = "")) with false. cbn iota.
  change (sp_BinaryPath kv_server_spec) with "./dist/kv-server".
  change (process_env kv_server_spec) with ["PORT=9082"; "HOST_URL=http://localhost:19080"].
  rewrite (ch_start _ _ _ _ Hch). change (process_endpoint kv_server_spec) with child_url.
  rewrite (ch_ready _ _ _ _ Hch). cbn [from_option Datatypes.id instances with_instances]. rewrite lookup_insert_eq. reflexivity.
Qed.

Definition kv_provider (id rid : string) (now : Time) : Registry.registry.ServiceProvider :=
  Registry.registry.mkServiceProvider id rid "kv" "1.0.0" KVServicePath {["base_url" := child_url]} now.

(** The child's registration is let in, and nobody watches. *)
Lemma child_registered rd now reported hdr id r : Header_Get hdr "X-Plugin-Runtime-ID" ≠ "" →
  r.(Registry.registry.allowedServices) = ∅ → r.(Registry.registry.watchers) = ∅ → generateRegistrationID rd = Ok id →
  (Registry.registry.RegisterService rd now (Some reported) r (child_request hdr)).1 =
    add_provider r (kv_provider id (Header_Get hdr "X-Plugin-Runtime-ID") now).
Proof.
  intros Hh Hall Hw Hid. unfold Registry.registry.RegisterService.
  change (Registry.registry.rs_header (child_request hdr)) with hdr. rewrite (bool_decide_eq_false_2 (_ = "")) by done.
  assert (Hv : Registry.registry.validate_registration (child_request hdr) = None).
  { apply Registry.registry.validate_registration_None. split_and!; try (vm_compute; reflexivity).
    change (validation.ValidateMetadata {["base_url" := child_url]} = None).
    unfold validation.ValidateMetadata. rewrite map_size_singleton, go_range_singleton. vm_compute. reflexivity. }
  rewrite Hv. unfold Registry.registry.authorized. rewrite Hall, lookup_empty. cbn [negb]. rewrite Hid. cbn [fst].
  unfold Registry.registry.notifyWatchersLocked. cbn [Registry.registry.watchers Registry.registry.with_providers].
  by rewrite Hw, lookup_empty.
Qed.

End run.

(** The start hook against a child that serves its store. *)
Lemma OnStart_served web pick shutdowner logger w s : w.(m_children) !! child_url = Some s →
  OnStart web pick shutdowner logger child_url w =
    (with_children w (<[child_url := (kv.Put pick s "user:123" "Alice").1]> w.(m_children)), shutdowner).
Proof.
  intros Hs. unfold OnStart, Log, Put. cbn [fst]. rewrite Hs. unfold kv.Put.
  rewrite bool_decide_eq_false_2 by done. unfold Get. cbn [m_children with_children fst]. by rewrite lookup_insert_eq.
Qed.

(** Nobody provides the type. *)
Lemma DiscoverService_nobody rnd lc r t v : get_or [] r.(Registry.registry.providers) t = [] →
  ∃ e, Registry.registry.DiscoverService rnd lc r (λ r, r) t v = (r, Some (Err e)).
Proof.
  intros Hn. unfold Registry.registry.DiscoverService, Registry.registry.DiscoverService_select.
  rewrite Registry.registry.SelectProvider_eq. assert (Ee : Registry.registry.eligible lc r t v = []).
  { destruct (Registry.registry.eligible lc r t v) as [|p l] eqn:E; [done|]. exfalso.
    assert (Hp : p ∈ Registry.registry.eligible lc r t v) by (rewrite E; left).
    apply Registry.registry.elem_of_eligible in Hp as [Hp _]. rewrite Hn in Hp. by apply elem_of_nil in Hp. }
  rewrite Ee. by eexists.
Qed.

(** The start of the program with a child that starts, answers on its port and
    registers with the host. *)
Section started.
Context `{GoRange} (rds : nat → Rand) (start : string → list string → world → world * res nat) (kill interrupt : nat → world → world)
  (get : string → option error) (evs : list poll) (rnd : Z → Z) (web : string → loggercap.LogRequest → option error)
  (pick : nat → bool) (pid : nat) (rd : Rand) (now : Time) (reported : LifecycleServer) (hdr : Header) (id0 id1 : string).
Context (Hch : child_ok start get evs pid) (Hrnd : Registry.registry.rnd_ok rnd)
  (Hid0 : generateRegistrationID (rds 0) = Ok id0) (Hid1 : generateRegistrationID rd = Ok id1) (Hne : id0 ≠ id1)
  (Hhdr : Header_Get hdr "X-Plugin-Runtime-ID" ≠ "")
  (Hrep : ShouldRouteTraffic reported (Header_Get hdr "X-Plugin-Runtime-ID") = true).
Abbreviation launchers := (configured rds start kill interrupt get evs).

Definition both_instances : gmap string (pluginInstance (W := world) (HTTPClient := nat)) :=
  {["kv-server" := kv_instance kill interrupt pid; "logger-inmemory" := logger_instance]}.

Lemma logger_provided listens :
  provide_logger rnd NewLifecycleServer launchers (new_world listens) =
    (with_instances launchers {["logger-inmemory" := logger_instance]}, logger_world listens id0, Some (Ok logger_instance.(endpoint))).
Proof.
  unfold provide_logger.
  by rewrite (GetService_on_log rnd _ _ _ _ _ _ _ _ _ [logger_provider id0] (logger_provider id0)
    (logger_obtained rds start kill interrupt get evs listens id0 Hid0) (logger_models id0)); [|done..|left|split_and!; [|left|]].
Qed.

Record up (w : world) : Prop := {
  up_child : kv.data <$> w.(m_children) !! child_url = Some {["user:123" := "Alice"]};
  up_processes : w.(m_processes).(processes) = {["kv-server" := pid]};
  up_memory : w.(m_memory) = m_memory (logger_world true id0);
  up_serving : w.(m_serving) = true;
}.

Lemma managed_started shutdowner :
  ∃ w, start_app rds start kill interrupt get evs rnd web pick true reported (child_settles rd now reported hdr) shutdowner =
      (with_instances launchers both_instances, w, Started shutdowner) ∧ up w.
Proof.
  set (lp := logger_provider id0). set (kp := kv_provider id1 (Header_Get hdr "X-Plugin-Runtime-ID") now).
  unfold start_app. rewrite logger_provided. unfold provide_kv. cbn [endpoint logger_instance].
  set (w1 := logger_world true id0). set (w2 := child_settles rd now reported hdr (kv_launched pid w1)).
  pose proof (kv_obtained rds start kill interrupt get evs pid Hch (child_settles rd now reported hdr)
    {["logger-inmemory" := logger_instance]} w1 eq_refl) as Ho. fold w2 in Ho.
  assert (Er : w2.(m_registry) = add_provider (logger_registry id0) kp).
  { unfold w2, child_settles. change (host_serves (kv_launched pid w1) _) with (Some Host.host.HRegistry). cbn iota.
    by apply child_registered. }
  assert (Ec : w2.(m_children) !! child_url = Some kv.NewStore) by apply lookup_insert_eq.
  assert (Ep : w2.(m_processes).(processes) = {["kv-server" := pid]}) by reflexivity.
  assert (El : w2.(m_memory) = w1.(m_memory)) by reflexivity.
  assert (Es : w2.(m_serving) = true) by reflexivity.
  clearbody w2.
  rewrite (GetService_on_log rnd (Some reported) _ _ _ _ _ _ _ _ ([lp] ++ [kp]) kp Ho).
  - cbn [endpoint kv_instance]. rewrite (OnStart_served web pick shutdowner _ _ kv.NewStore Ec).
    eexists. split; [reflexivity|]. split; try done.
    cbn [m_children with_children]. rewrite lookup_insert_eq. vm_compute. reflexivity.
  - rewrite Er. apply (Registry.registry.models_append (logger_registry id0) [lp] "kv" id1 kp); [apply logger_models|done|done|].
    cbn. by rewrite lookup_insert_ne.
  - rewrite Er. intros t. change (0 ≤ get_or 0%Z (∅ : gmap string Z) t < max64)%Z. rewrite get_or_empty. by unfold max64.
  - by rewrite Er.
  - done.
  - by apply Registry.registry.slice_ok_short, (bool_decide_unpack _).
  - right. left.
  - by split_and!; [|left|].
Qed.
End started.

(** Fx-managed runs, and its logger is never called.  With a child that starts,
    answers on its port and registers, both services are launched and both delegates
    made, the start hook puts and gets its entry and returns what the container says
    to the shutdown, and both instances are running; but whatever the network
    answers, nobody has dialled the listener of the in-memory logger, because its
    delegate was given its URL without its client. *)
Theorem managed_logger_unused `{GoRange} rds start kill interrupt get evs rnd web pick pid rd now reported hdr id0 id1 shutdowner
    (Hch : child_ok start get evs pid) (Hrnd : Registry.registry.rnd_ok rnd)
    (Hid0 : generateRegistrationID (rds 0) = Ok id0) (Hid1 : generateRegistrationID rd = Ok id1) (Hne : id0 ≠ id1)
    (Hhdr : Header_Get hdr "X-Plugin-Runtime-ID" ≠ "")
    (Hrep : ShouldRouteTraffic reported (Header_Get hdr "X-Plugin-Runtime-ID") = true) :
  ∃ l w, start_app rds start kill interrupt get evs rnd web pick true reported (child_settles rd now reported hdr) shutdowner =
      (l, w, Started shutdowner) ∧
    dom l.(instances) = {["logger-inmemory"; "kv-server"]} ∧
    kv.data <$> w.(m_children) !! child_url = Some {["user:123" := "Alice"]} ∧
    w.(m_processes).(processes) !! "kv-server" = Some pid ∧
    ∃ hc, w.(m_memory).(listeners) !! "logger-inmemory" = Some hc ∧ w.(m_memory).(heap) !! hc = Some memtransport.New.
Proof.
  destruct (managed_started rds start kill interrupt get evs rnd web pick pid rd now reported hdr id0 id1 Hch Hrnd Hid0 Hid1 Hne Hhdr
    Hrep shutdowner) as (w & -> & [Uc Up Um _]).
  eexists _, w. split; [reflexivity|]. split_and!; [|done|by rewrite Up|].
  - cbn [instances with_instances]. unfold both_instances. by rewrite dom_insert_L, dom_singleton_L, union_comm_L.
  - rewrite Um. by exists 0.
Qed.

(** *** The end of the run *)

(** What the operating system does to a process leaves the state of the host alone;
    a process that is killed serves nothing. *)
Definition host_kept (w w' : world) : Prop :=
  w'.(m_registry) = w.(m_registry) ∧ w'.(m_memory) = w.(m_memory) ∧ w'.(m_processes) = w.(m_processes) ∧ w'.(m_serving) = w.(m_serving).

Record os_ok (kill interrupt : nat → world → world) (pid : nat) : Prop := {
  os_kill : ∀ w, host_kept w (kill pid w);
  os_interrupt : ∀ w, host_kept w (interrupt pid w);
  os_gone : ∀ w, (kill pid w).(m_children) !! child_url = None;
}.

(** The two cleanups, whichever comes first. *)
Lemma managed_cleanups kill interrupt pid id0 order w :
  os_ok kill interrupt pid → up pid id0 w → order ≡ₚ [kv_instance kill interrupt pid; logger_instance] →
  let w' := fold_left run_cleanup order w in
  w'.(m_children) !! child_url = None ∧ w'.(m_processes).(processes) = ∅ ∧ w'.(m_memory).(listeners) = ∅ ∧
  memtransport.closed <$> w'.(m_memory).(heap) !! 0 = Some true.
Proof.
  intros [Hk Hi Hg] [Uc Up Um _] [->| ->]%Permutation_sym%Permutation_length_2_inv; cbn [fold_left run_cleanup cleanup kv_instance logger_instance];
    unfold process_cleanup, memory_cleanup; cbn.
  - destruct (Hk (interrupt pid w)) as (_ & -> & -> & _), (Hi w) as (_ & -> & -> & _). rewrite Up, Um. split_and!; [apply Hg|..]; done.
  - set (wm := mkWorld _ _ _ _ _). destruct (Hk (interrupt pid wm)) as (_ & -> & -> & _), (Hi wm) as (_ & -> & -> & _).
    unfold wm. cbn. rewrite Up, Um. split_and!; [apply Hg|..]; done.
Qed.

(** The end of the run: whatever the start hook comes to, the stop hooks run, in either
    order of the launcher's map, and leave no instance, no child, no listener and no
    server; their only error is that of shutting the host's server down. *)
Theorem managed_stops `{GoRange} rds start kill interrupt get evs rnd web pick pid rd now reported hdr id0 id1 shutdowner closing
    (Hch : child_ok start get evs pid) (Hos : os_ok kill interrupt pid) (Hrnd : Registry.registry.rnd_ok rnd)
    (Hid0 : generateRegistrationID (rds 0) = Ok id0) (Hid1 : generateRegistrationID rd = Ok id1) (Hne : id0 ≠ id1)
    (Hhdr : Header_Get hdr "X-Plugin-Runtime-ID" ≠ "")
    (Hrep : ShouldRouteTraffic reported (Header_Get hdr "X-Plugin-Runtime-ID") = true) :
  ∃ l w, run_app rds start kill interrupt get evs rnd web pick true reported (child_settles rd now reported hdr) shutdowner closing =
      (l, w, Started shutdowner, option_list closing) ∧
    l.(instances) = ∅ ∧ w.(m_serving) = false ∧ w.(m_children) !! child_url = None ∧ w.(m_processes).(processes) = ∅ ∧
    w.(m_memory).(listeners) = ∅ ∧ memtransport.closed <$> w.(m_memory).(heap) !! 0 = Some true.
Proof.
  destruct (managed_started rds start kill interrupt get evs rnd web pick pid rd now reported hdr id0 id1 Hch Hrnd Hid0 Hid1 Hne Hhdr
    Hrep shutdowner) as (w & Es & U).
  unfold run_app. rewrite Es. unfold stop_app, OnStop_launcher.
  destruct (Shutdown_spec (with_instances (configured rds start kill interrupt get evs) (both_instances kill interrupt pid)) w)
    as (order & Ho & ->).
  assert (Ho' : order ≡ₚ [kv_instance kill interrupt pid; logger_instance]).
  { rewrite Ho. cbn [instances with_instances]. unfold both_instances. rewrite map_to_list_insert by done. by rewrite map_to_list_singleton. }
  pose proof (managed_cleanups kill interrupt pid id0 order w Hos U Ho') as (Hc & Hp & Hl & Hh).
  cbn [OnStop_host]. eexists _, _. split; [reflexivity|]. by split_and!.
Qed.

(** When the host's port is taken the program does not notice: the child starts and
    answers, but has nobody to register with, so that its constructor fails.  The
    container then does not run the stop hooks, and the child is left running. *)
Theorem taken_port_leaves_child `{GoRange} rds start kill interrupt get evs rnd web pick pid rd now reported hdr id0 shutdowner closing
    (Hch : child_ok start get evs pid) (Hrnd : Registry.registry.rnd_ok rnd) (Hid0 : generateRegistrationID (rds 0) = Ok id0) :
  ∃ l w e, run_app rds start kill interrupt get evs rnd web pick false reported (child_settles rd now reported hdr) shutdowner closing =
      (l, w, NotStarted e, []) ∧
    w.(m_processes).(processes) !! "kv-server" = Some pid ∧ w.(m_children) !! child_url = Some kv.NewStore.
Proof.
  unfold run_app, start_app. rewrite (logger_provided rds start kill interrupt get evs rnd id0 Hrnd Hid0). cbn [endpoint logger_instance].
  unfold provide_kv, GetService.
  pose proof (kv_obtained rds start kill interrupt get evs pid Hch (child_settles rd now reported hdr)
    {["logger-inmemory" := logger_instance]} (logger_world false id0) eq_refl) as Ho. rewrite Ho.
  set (w2 := child_settles _ _ _ _ _). assert (E2 : w2 = kv_launched pid (logger_world false id0)) by reflexivity. clearbody w2. subst w2.
  destruct (DiscoverService_nobody rnd (Some reported) (logger_registry id0) "kv" "" eq_refl) as [e He].
  change (view (kv_launched pid (logger_world false id0))) with (logger_registry id0). rewrite He.
  by eexists _, _, _.
Qed.

(** The program on a machine where the child starts. *)
Definition ex_start (path : string) (env : list string) (w : world) : world * res nat :=
  (with_children w (<[child_url := kv.NewStore]> w.(m_children)), Ok 4242).

Lemma ex_child_ok : child_ok ex_start (λ _, None) [Polled (λ _, None)] 4242.
Proof. by split. Qed.

(** An operating system whose processes end when they are killed. *)
Lemma ex_os_ok pid : os_ok (λ _ w, with_children w (delete child_url w.(m_children))) (λ _ w, w) pid.
Proof. split; try done. intros w. apply lookup_delete_eq. Qed.

Lemma managed_logger_unused_witness :
  ∃ l w, start_app (λ _, rand_seq 1) ex_start (λ _ w, w) (λ _ w, w) (λ _, None) [Polled (λ _, None)] Registry.registry.rnd0
      (λ _ _, Some refused) (λ _, false) true NewLifecycleServer
      (child_settles (rand_seq 2) 0%Z NewLifecycleServer {["X-Plugin-Runtime-Id" := ["kv-server-1a2b"]]}) None =
    (l, w, Started None) ∧
    kv.data <$> w.(m_children) !! child_url = Some {["user:123" := "Alice"]} ∧
    ∃ hc, w.(m_memory).(listeners) !! "logger-inmemory" = Some hc ∧ w.(m_memory).(heap) !! hc = Some memtransport.New.
Proof.
  assert (Hg : ∃ id0 id1, generateRegistrationID (rand_seq 1) = Ok id0 ∧ generateRegistrationID (rand_seq 2) = Ok id1 ∧ id0 ≠ id1).
  { eexists _, _. split; [vm_compute; reflexivity|]. split; [vm_compute; reflexivity|]. discriminate. }
  destruct Hg as (id0 & id1 & H0 & H1 & Hne).
  destruct (managed_logger_unused (λ _, rand_seq 1) ex_start (λ _ w, w) (λ _ w, w) (λ _, None) [Polled (λ _, None)] Registry.registry.rnd0
    (λ _ _, Some refused) (λ _, false) 4242 (rand_seq 2) 0%Z NewLifecycleServer {["X-Plugin-Runtime-Id" := ["kv-server-1a2b"]]}
    id0 id1 None ex_child_ok Registry.registry.rnd0_ok H0 H1 Hne) as (l & w & E & _ & Hk & _ & Hl).
  - vm_compute. discriminate.
  - vm_compute. reflexivity.
  - exists l, w. split; [exact E|]. split; [exact Hk|exact Hl].
Defined.

End fxmanaged.
