(* ===== verification/Managed.v ===== *)
(** * A platform and its router together (platform.go, handshake.go, router.go)

    The host of a managed deployment: a handshake server, and a platform that shares
    registry, health reports and endpoint table with its router.  Any interleaving of
    handshakes, platform operations, plugin activity and routed calls is a trace of
    labelled steps; what the router lets through is traced back to its issue. *)

From stdpp Require Import prelude gmap strings list fin_maps.
From Stdlib Require Import ZArith Ascii.
From S2P Require Import Prelude GoRuntime Identity Lifecycle Plugin Broker Handshake.
From S2P Require Registry Router Platform HostInvariant.

Module managed.
Import identity lifecycle plugin handshake.
Import Router.router Platform.platform.

Section deployment.
Context {Impl Handler Client : Type} `{GoRange}.
Abbreviation HandshakeServer := (HandshakeServer Impl Handler Client).

Record Deployment := mkDeployment { d_handshake : HandshakeServer; d_platform : Platform }.

(** The platform's router: its parts are those of the deployment. *)
Definition router_of (d : Deployment) : ServiceRouter Impl Handler Client :=
  mkServiceRouter d.(d_handshake) (registry d.(d_platform)) (lifecycleServer d.(d_platform)) (pluginEndpoints d.(d_platform)).

Definition with_platform (d : Deployment) (p : Platform) : Deployment := mkDeployment d.(d_handshake) p.

(** The credentials of a request, as the router reads them. *)
Definition caller_of (req : Request string) : string := Header_Get req.(rq_Header) "X-Plugin-Runtime-ID".
Definition token_of (req : Request string) : string := TrimPrefix (Header_Get req.(rq_Header) "Authorization") "Bearer ".

(** What a step lets anybody observe. *)
Inductive label :=
| Issued (rid tok : string) (at_ : Time)
| Forwarded (rid tok : string) (at_ : Time)
| Quiet.

Definition handshake_label (now : Time) (r : res HandshakeResponse) : label :=
  match r with
  | Ok resp => if bool_decide (resp.(hp_RuntimeId) = "") then Quiet else Issued resp.(hp_RuntimeId) resp.(hp_RuntimeToken) now
  | Err _ => Quiet
  end.

Definition call_label (now : Time) (req : Request string) (d : decision string) : label :=
  match d with Forward _ _ _ _ => Forwarded (caller_of req) (token_of req) now | Refuse _ => Quiet end.

(** An operation of the platform that panics has its step too, to the state it leaves. *)
Inductive step : Deployment → label → Deployment → Prop :=
| step_handshake rd1 rd2 now b req d hs r : Handshake rd1 rd2 now b d.(d_handshake) req = (hs, r) →
    step d (handshake_label now r) (mkDeployment hs d.(d_platform))
| step_add rpc rd1 rd2 t0 evs config d :
    step d Quiet (with_platform d (AddPlugin rpc rd1 rd2 t0 evs d.(d_platform) config).1)
| step_remove rpc grace rid d p out : RemovePlugin rpc grace d.(d_platform) rid = Some (p, out) →
    step d Quiet (with_platform d p)
| step_replace rpc rd1 rd2 t0 evs drain rid config d p out :
    ReplacePlugin rpc rd1 rd2 t0 evs drain d.(d_platform) rid config = Some (p, out) →
    step d Quiet (with_platform d p)
| step_activity act d : step d Quiet (with_platform d (act_on act d.(d_platform)))
| step_call now req d s dec : route now (router_of d) req = (s, dec) →
    step d (call_label now req dec) (mkDeployment s.(handshakeServer) d.(d_platform)).

(** Traces, the latest step last. *)
Inductive run (d0 : Deployment) : list label → Deployment → Prop :=
| run_nil : run d0 [] d0
| run_snoc ls d l d' : run d0 ls d → step d l d' → run d0 (ls ++ [l]) d'.

(** ** Where tokens come from *)

(** Every token on record was issued in the trace, a time-to-live before it expires. *)
Definition accounted (c : ServeConfig Impl Handler Client) (ls : list label) (hs : HandshakeServer) : Prop :=
  hs.(cfg) = c ∧ ∀ rid i, hs.(tokens) !! rid = Some i →
    Issued rid i.(ti_token) i.(ti_issuedAt) ∈ ls ∧ i.(ti_expiresAt) = (i.(ti_issuedAt) + token_ttl c)%Z.

Lemma accounted_more c ls ls' hs : accounted c ls hs → accounted c (ls ++ ls') hs.
Proof.
  intros [Hc Ht]. split; [done|]. intros rid i Hi. destruct (Ht rid i Hi) as [Hin He]. split; [|done].
  apply elem_of_app. by left.
Qed.

Lemma accounted_handshake c ls rd1 rd2 now b hs req hs' r : accounted c ls hs →
  Handshake rd1 rd2 now b hs req = (hs', r) → accounted c (ls ++ [handshake_label now r]) hs'.
Proof.
  intros Ha. destruct (Handshake_cases rd1 rd2 now b hs req) as [[_ ->]|(_ & code & e & _ & ->)].
  2:{ intros [= <- <-]. by apply accounted_more. }
  pose proof (issue_identity_cases rd1 rd2 now hs (hq_SelfId req)) as Hi.
  destruct (issue_identity _ _ _ _ _) as [h1 [[rid tok]|e]]; intros [= <- <-].
  2:{ destruct Hi as (-> & _). by apply accounted_more. }
  destruct Hi as [(_ & -> & -> & ->)|(_ & _ & Hrid & _ & ->)]; [by apply accounted_more|].
  assert (Hne : rid ≠ "") by by eapply runtime_id_nonempty.
  cbn [handshake_label hp_RuntimeId hp_RuntimeToken]. rewrite bool_decide_eq_false_2 by done.
  destruct Ha as [Hc Ht]. split; [done|]. cbn [tokens]. intros k i [[<- <-]|[Hk Hi]]%lookup_insert_Some.
  - cbn [ti_token ti_issuedAt ti_expiresAt]. rewrite Hc. split; [|done]. apply elem_of_app. right. by left.
  - destruct (Ht k i Hi) as [Hin He]. split; [|done]. apply elem_of_app. by left.
Qed.

(** Routing forgets expired tokens and makes none; it forwards for a token on record. *)
Lemma accounted_route c ls now d (req : Request string) s dec : accounted c ls d.(d_handshake) →
  route now (router_of d) req = (s, dec) → accounted c ls s.(handshakeServer).
Proof.
  intros Ha. assert (Hval : ∀ rid tok, accounted c ls (ValidateToken now d.(d_handshake) rid tok).1).
  { intros rid tok. unfold ValidateToken. destruct (tokens _ !! rid); [|done]. destruct (Time_After _ _); [|by destruct (negb _)].
    destruct Ha as [Hc Ht]. split; [done|]. cbn [fst tokens]. intros k i [_ Hk]%lookup_delete_Some. by apply Ht. }
  intros E. assert (Es : s = (route now (router_of d) req).1) by by rewrite E.
  destruct (HostInvariant.hostinv.route_tokens now req (router_of d)) as [Hr|(rid & tok & Hr)]; rewrite Es, Hr; [done|apply Hval].
Qed.

Lemma route_valid now d (req : Request string) s dec : route now (router_of d) req = (s, dec) → (∀ w, dec ≠ Refuse w) →
  ∃ i, d.(d_handshake).(tokens) !! caller_of req = Some i ∧ i.(ti_token) = token_of req ∧ (now ≤ i.(ti_expiresAt))%Z.
Proof.
  unfold route, caller_of, token_of. cbn [handshakeServer router_of]. intros E Hd.
  destruct (negb _); [injection E as _ <-; by destruct (Hd _ eq_refl)|].
  destruct (parse_path _) as [[[t pid] m]|]; [|injection E as _ <-; by destruct (Hd _ eq_refl)].
  destruct (bool_decide _); [injection E as _ <-; by destruct (Hd _ eq_refl)|].
  destruct (negb _); [injection E as _ <-; by destruct (Hd _ eq_refl)|].
  apply ValidateToken_true. destruct (ValidateToken _ _ _ _) as [hs valid]. destruct valid; [done|].
  injection E as _ <-. by destruct (Hd _ eq_refl).
Qed.

Lemma run_accounted d0 ls d : d0.(d_handshake).(tokens) = ∅ → run d0 ls d → accounted d0.(d_handshake).(cfg) ls d.(d_handshake).
Proof.
  intros H0 Hr. induction Hr as [|ls d l d' _ IH Hs]; [by split; [done|]; intros rid i; rewrite H0, lookup_empty|].
  destruct Hs as [rd1 rd2 now b req d hs r E| | | | |now req d s dec E]; try by apply accounted_more.
  - by eapply accounted_handshake.
  - by eapply accounted_more, accounted_route.
Qed.

(** A forwarded call shows a token on record. *)
Lemma forwarded_valid d rid tok now d' : step d (Forwarded rid tok now) d' →
  ∃ i, d.(d_handshake).(tokens) !! rid = Some i ∧ i.(ti_token) = tok ∧ (now ≤ i.(ti_expiresAt))%Z.
Proof.
  intros Hs. remember (Forwarded rid tok now) as l eqn:El.
  destruct Hs as [rd1 rd2 n b req d hs r E| | | | |n req d s dec E]; try discriminate El.
  - unfold handshake_label in El. destruct r as [resp|]; [|done]. by case_bool_decide.
  - destruct dec; [done|]. cbn in El. injection El as <- <- <-.
    by apply (route_valid n d req s (Forward callerID serviceType providerID targetURL)).
Qed.

(** C20: authenticity of routed calls.  Whatever anybody has done in whatever order
    (handshakes, adding, removing and replacing plugins, also half-way into a panic,
    registrations and reports, calls) on a deployment that started without tokens: a call is forwarded only
    under a runtime id and with a token that a handshake issued together, earlier in
    the trace and at most a time-to-live before.  So an identity that no handshake
    has issued, such as the one [AddPlugin] or [ReplacePlugin] hands to a plugin, is
    refused by the router of the same platform, whatever token is shown. *)
Theorem forwarded_was_issued d0 ls d (Hnew : d0.(d_handshake).(tokens) = ∅) (Hrun : run d0 ls d) :
  (∀ before rid tok now after, ls = before ++ Forwarded rid tok now :: after →
     ∃ t, Issued rid tok t ∈ before ∧ (now ≤ t + token_ttl d0.(d_handshake).(cfg))%Z) ∧
  (∀ now (req : Request string) s dec, (∀ tok t, Issued (caller_of req) tok t ∉ ls) → route now (router_of d) req = (s, dec) →
     ∃ w, dec = Refuse w).
Proof.
  split.
  - induction Hrun as [|ls d l d' Hrun IH Hs]; intros before rid tok now after E; [by destruct before|].
    destruct after as [|a after _] using rev_ind.
    + apply app_inj_tail in E as [-> ->]. destruct (forwarded_valid _ _ _ _ _ Hs) as (i & Hi & <- & Hle).
      destruct (run_accounted d0 before d Hnew Hrun) as [_ Ht]. destruct (Ht rid i Hi) as [Hin He].
      exists i.(ti_issuedAt). by rewrite <- He.
    + rewrite app_comm_cons, app_assoc in E. apply app_inj_tail in E as [-> ->]. by apply (IH before rid tok now after).
  - intros now req s dec Hno E. destruct dec as [w|c t pid url]; [by eexists|]. exfalso.
    destruct (route_valid now d req s (Forward c t pid url) E) as (i & Hi & _ & _); [done|].
    destruct (run_accounted d0 ls d Hnew Hrun) as [_ Ht]. destruct (Ht _ i Hi) as [Hin _]. by apply (Hno _ _ Hin).
Qed.

End deployment.

(** ** A handshake, a registration, and a call of the plugin to itself *)

Definition ex_start : Deployment (Impl := unit) (Handler := unit) (Client := unit) :=
  mkDeployment (NewHandshakeServer (mkServeConfig None None 0 "" "" None "" 0 None false false false 0 0 false false false false))
    (NewPlatform Registry.registry.NewServiceRegistry NewLifecycleServer ∅).

Definition ex_hello : HandshakeRequest := mkHandshakeRequest 1 1 DefaultMagicCookieKey DefaultMagicCookieValue [] "cache".
Definition ex_met := Handshake (rand_seq 1) (rand_seq 2) 100 None ex_start.(d_handshake) ex_hello.
Definition ex_rid : string := match ex_met.2 with Ok r => r.(hp_RuntimeId) | Err _ => "" end.
Definition ex_tok : string := match ex_met.2 with Ok r => r.(hp_RuntimeToken) | Err _ => "" end.

Definition ex_act : activity := λ s,
  ((Registry.registry.RegisterService (rand_seq 3) 101 (Some s.2) s.1
      (Registry.registry.mkRegisterServiceRequest {["X-Plugin-Runtime-Id" := [ex_rid]]} "cache" "1.0.0" "/cache/"
         {["base_url" := "http://cache:8084"]})).1, s.2).

(** The identity as shown by a caller. *)
Definition ex_call (rid tok : string) : Request string :=
  mkRequest "GET" ("/services/cache/" +:+ ex_rid +:+ "/Get") ""
    {["X-Plugin-Runtime-Id" := [rid]; "Authorization" := ["Bearer " +:+ tok]]} "".

Definition ex_ready : Deployment (Impl := unit) (Handler := unit) (Client := unit) :=
  let d := mkDeployment ex_met.1 ex_start.(d_platform) in with_platform d (act_on ex_act d.(d_platform)).

Definition ex_trace : list label := [Issued ex_rid ex_tok 100; Quiet; Forwarded ex_rid ex_tok 200].

Lemma ex_run : run ex_start ex_trace
  (mkDeployment (route 200 (router_of ex_ready) (ex_call ex_rid ex_tok)).1.(handshakeServer) ex_ready.(d_platform)).
Proof.
  apply (run_snoc _ [_; _] ex_ready).
  - apply (run_snoc _ [_] (mkDeployment ex_met.1 ex_start.(d_platform))); [|apply step_activity].
    apply (run_snoc _ [] ex_start); [apply run_nil|].
    change (Issued ex_rid ex_tok 100) with (handshake_label 100 ex_met.2).
    apply (step_handshake (rand_seq 1) (rand_seq 2) 100 None ex_hello ex_start). apply surjective_pairing.
  - assert (El : Forwarded ex_rid ex_tok 200 = call_label 200 (ex_call ex_rid ex_tok) (route 200 (router_of ex_ready) (ex_call ex_rid ex_tok)).2)
      by (vm_compute; reflexivity).
    rewrite El. apply step_call. apply surjective_pairing.
Qed.

(** The call is traced to the handshake; an identity from elsewhere is refused. *)
Lemma forwarded_was_issued_witness :
  (∃ t, Issued ex_rid ex_tok t ∈ [Issued ex_rid ex_tok 100; Quiet] ∧ (200 <= t + 86400000000000)%Z) ∧
  ∃ w, (route 200 (router_of (mkDeployment (route 200 (router_of ex_ready) (ex_call ex_rid ex_tok)).1.(handshakeServer) ex_ready.(d_platform)))
          (ex_call "cache-feed" ex_tok)).2 = Refuse w.
Proof.
  destruct (forwarded_was_issued ex_start ex_trace _ eq_refl ex_run) as [Ha Hr]. split.
  - exact (Ha [Issued ex_rid ex_tok 100; Quiet] ex_rid ex_tok 200%Z [] eq_refl).
  - eapply (Hr 200%Z (ex_call "cache-feed" ex_tok)); [|apply surjective_pairing].
    intros tok t Hin. unfold ex_trace in Hin. rewrite !elem_of_cons, elem_of_nil in Hin.
    by destruct Hin as [[=]|[[=]|[[=]|[]]]].
Defined.

End managed.
