(* ===== verification/KVIntegration.v ===== *)
(** * The fx integration program (examples/kv/integ-fx/main.go)

    Server with broker, client and store in one process, under the fx container: the
    constructors, the two pairs of hooks, and what a run of them comes to.  The
    generated plugin is a parameter; the container runs constructors on demand, start
    hooks in order and stop hooks in reverse, as it documents. *)

From stdpp Require Import prelude gmap strings list fin_maps.
From Stdlib Require Import ZArith Ascii.
From S2P Require Import Prelude GoRuntime Identity Plugin Broker Handshake Health Client Server NetURL PluginApp KVStore KVLogging KVPrograms.

Module integfx.
Import identity plugin handshake health client server broker kvclient kvserved.

(** A handshake that succeeds answers with what the broker lists. *)
Lemma Handshake_capabilities {Impl Handler Stub} `{GoRange} rd1 rd2 now b (h : HandshakeServer Impl Handler Stub) req resp :
  (Handshake rd1 rd2 now b h req).2 = Ok resp → resp.(hp_HostCapabilities) = host_capabilities b.
Proof.
  unfold Handshake. destruct (expected_cookie _) as [k v]. destruct (_ || _); [done|]. case_bool_decide; [done|].
  cbn zeta. case_bool_decide; [done|]. destruct (issue_identity _ _ _ _ _) as [h' [[rid tok]|e]]; [|done]. by intros [= <-].
Qed.

Section program.
Context {Impl Handler Stub Typed : Type} `{GoRange}.
Context (p : Plugin Impl Handler Stub) (cast : Stub → option Typed) (store : Impl).
Abbreviation Client := (client.Client Impl Handler Stub).
Abbreviation served := (served (Impl := Impl) (Handler := Handler) (Stub := Stub)).

(** ** What the container provides *)

Definition provide_broker : CapabilityBroker :=
  RegisterCapability (NewCapabilityBroker "http://localhost:18080") (loggercap.NewLoggerCapability 0).

Definition config : ClientConfig Impl Handler Stub :=
  mkClientConfig "http://localhost:18080" "" (Some {["kv" := p]}) 0 "" "" "" "" (mkPluginMetadata "" "" "" [] []) None "".

Definition provide_client : res Client := NewClient config.

Definition serve_config : ServeConfig Impl Handler Stub :=
  mkServeConfig (Some {["kv" := p]}) (Some {["kv" := store]}) 0 "" "" None "localhost:18080" 0 None
    true true true 0 0 false false false false.

(** ** The network of the process *)

(** Nobody listens, or the server does: [typed_url], [rd1], [rd2], [now], [pick] as
    for [served_peer]. *)
Context (typed_url : Typed → string) (rd1 rd2 : Rand) (now : Time) (pick : nat → bool).

Definition lift {A} (op : served → served * res A) (w : option served) : option served * res A :=
  match w with
  | None => (None, Err lost)
  | Some s => let '(s', r) := op s in (Some s', r)
  end.

Abbreviation peer := (served_peer (Typed := Typed) "http://localhost:18080" typed_url rd1 rd2 now pick).

#[export] Instance integ_peer : Peer (option served) Typed := {|
  pr_Handshake w ep req :=
    lift (λ s, if reaches "http://localhost:18080" s ep (HandshakeServicePath +:+ "Handshake") is_handshake then
                 let '(hs, r) := Handshake rd1 rd2 now (Some provide_broker) s.(sv_handshake) req in
                 (mkServed hs s.(sv_health) s.(sv_mux) s.(sv_store), r)
               else (s, Err lost)) w;
  pr_Check w ep service := lift (λ s, peer.(pr_Check) s ep service) w;
  pr_Put w t k v :=
    match w with
    | None => (None, Some lost)
    | Some s => let '(s', e) := peer.(pr_Put) s t k v in (Some s', e)
    end;
  pr_Get w t k := lift (λ s, peer.(pr_Get) s t k) w;
  pr_Delete w t k := lift (λ s, peer.(pr_Delete) s t k) w;
|}.

(** ** The hooks *)

(** The goroutine of the server's start hook: an error of [Serve] is logged.
    [listens]: the address is free. *)
Definition OnStart_server (listens : bool) (st : kv.Store) : option served :=
  match assemble serve_config NewHealthServer with
  | (h, Returned m) =>
      if listens then Some (mkServed (NewHandshakeServer (serve_defaults serve_config)) h m st) else None
  | _ => None
  end.

(** Closing [stopCh]: the graceful shutdown that [Serve] then makes, for which the
    program does not wait. *)
Definition OnStop_server (w : option served) : option served :=
  (λ s, mkServed s.(sv_handshake) (Shutdown s.(sv_health)) s.(sv_mux) s.(sv_store)) <$> w.

(** The operations, in the end the value read. *)
Definition exercise (shutdowner : option error) (w : option served) (kvClient : Typed) : option served * option error * string :=
  match pr_Put w kvClient "test/key" "test-value" with
  | (w, Some err) => (w, Some err, "")
  | (w, None) =>
      match pr_Get w kvClient "test/key" with
      | (w, Err err) => (w, Some err, "")
      | (w, Ok (value, _)) =>
          match pr_Delete w kvClient "test/key" with
          | (w, Err err) => (w, Some err, value)
          | (w, Ok _) => (w, shutdowner, value)
          end
      end
  end.

(** The client's start hook; [None] is the panic of the type assertion. *)
Definition OnStart_client (shutdowner : option error) (c : Client) (w : option served) :
    Client * option served * option (option error * string) :=
  let '(w, resp) := pr_Handshake w c.(cl_cfg).(Endpoint) (handshake_request c.(cl_cfg)) in
  let '(c, err) := Connect (λ _ _, resp) c in
  match err with
  | Some err => (c, w, Some (Some err, ""))
  | None =>
      match Dispense (λ _ _, resp) c "kv" with
      | (c, Err err) => (c, w, Some (Some err, ""))
      | (c, Ok raw) =>
          match cast raw with
          | None => (c, w, None)
          | Some kvClient => let '(w, err, value) := exercise shutdowner w kvClient in (c, w, Some (err, value))
          end
      end
  end.

Definition OnStop_client (c : Client) : Client * option error := Close c.

(** ** The run *)

(** The container fails to construct, the type assertion panics, a start hook fails,
    or everything runs, with the value read. *)
Inductive ended := NotConstructed (e : error) | Panics | NotStarted (e : error) | Completed (value : string) (stop_err : option error).

(** A start hook that fails is not stopped, those before it are. *)
Definition run (listens : bool) (st : kv.Store) (shutdowner : option error) : option Client * option served * ended :=
  match provide_client with
  | Err e => (None, None, NotConstructed e)
  | Ok c =>
      let w := OnStart_server listens st in
      match OnStart_client shutdowner c w with
      | (c, w, None) => (Some c, w, Panics)
      | (c, w, Some (Some e, _)) => (Some c, OnStop_server w, NotStarted e)
      | (c, w, Some (None, value)) =>
          let '(c, err) := OnStop_client c in
          (Some c, OnStop_server w, Completed value err)
      end
  end.

(** ** What a run comes to *)

Abbreviation url := "http://localhost:18080" (only parsing).

Context (h : Handler) (t : Typed) (G : generated p cast url typed_url store h t).

Definition integ_mux : mux (mount Handler) :=
  [("/broker/", MBroker); ("/capabilities/", MBroker); (HandshakeServicePath, MHandshake); (HealthServicePath, MHealthRPC);
   ("/healthz", MHTTPHealth); ("/readyz", MHTTPHealth); (KVServicePath, MPlugin "kv" h)].

Lemma integ_serve_ok : serve_ok serve_config.
Proof.
  exists {["kv" := p]}, {["kv" := store]}. split; [done|]. split; [done|]. split; [|split; [apply (gn_valid _ _ _ _ _ _ _ G)|done]].
  intros n. change (is_Some (({["kv" := p]} : gmap string (Plugin Impl Handler Stub)) !! n) ↔ is_Some (({["kv" := store]} : gmap string Impl) !! n)).
  by rewrite !lookup_singleton_is_Some.
Qed.

(** The server once it listens. *)
Definition started (hl : HealthServer) (st : kv.Store) : served :=
  mkServed (NewHandshakeServer (serve_defaults serve_config)) hl integ_mux st.

Lemma server_starts st : ∃ hl, OnStart_server true st = Some (started hl st) ∧
  ∀ s, s = "" ∨ s = "kv" → Check (Shutdown hl) s = Ok SERVING_STATUS_NOT_SERVING.
Proof.
  unfold OnStart_server.
  rewrite (assemble_single serve_config NewHealthServer "kv" p store KVServicePath h integ_serve_ok eq_refl eq_refl (gn_server _ _ _ _ _ _ _ G))
    by (apply (bool_decide_unpack _); vm_compute; exact I).
  eexists. split; [reflexivity|]. intros s Hs. unfold Check. rewrite (proj2 (Shutdown_status _ s)).
  by destruct Hs as [->| ->].
Qed.

Lemma client_constructed : provide_client = Ok (fresh p (λ _, url)).
Proof. exact (NewClient_fresh p cast url typed_url store h t G (λ _, url)). Qed.

Lemma integ_connects hl st : ∃ hs resp c, pr_Handshake (Some (started hl st)) url (handshake_request config) =
    (Some (mkServed hs hl integ_mux st), Ok resp) ∧
  resp.(hp_HostCapabilities) = [mkCapability "logger" "1.0.0" "http://localhost:18080/broker"] ∧
  Connect (λ _ _, Ok resp) (fresh p (λ _, url)) = (c, None) ∧ c.(connected) = true ∧ c.(closed) = false ∧ c.(cl_cfg) = config.
Proof.
  assert (Hcomp : compatible config (serve_defaults serve_config) rd1 rd2) by (split_and!; [done|done| |done]; intros n Hn; exact Hn).
  pose proof (Connect_succeeds rd1 rd2 now (Some provide_broker) (NewHandshakeServer (serve_defaults serve_config)) (fresh p (λ _, url))
    eq_refl eq_refl (endpoint_nonempty (λ _, url)) (plugins_named p cast url typed_url store h t G "") Hcomp) as Hcon.
  cbn [pr_Handshake integ_peer lift]. unfold reaches. cbn [sv_mux started]. rewrite bool_decide_eq_true_2 by done.
  change (dispatch integ_mux (HandshakeServicePath +:+ "Handshake")) with (Some (MHandshake (Handler := Handler))). cbn [is_handshake andb].
  cbn [sv_handshake started sv_health sv_store]. change (cl_cfg (fresh p (λ _, url))) with config in Hcon.
  pose proof (Handshake_capabilities rd1 rd2 now (Some provide_broker) (NewHandshakeServer (serve_defaults serve_config)) (handshake_request config)) as Hcap.
  destruct (Handshake _ _ _ _ _ _) as [hs resp]. cbn [snd] in Hcap. destruct Hcon as (c & Hc & Hon & Hcfg).
  destruct resp as [resp|e]; [|discriminate Hc]. exists hs, resp, c. split_and!; try done.
  - rewrite (Hcap resp eq_refl). cbn [host_capabilities]. unfold ListCapabilities.
    change (capabilities provide_broker) with ({["logger" := loggercap.NewLoggerCapability 0]} : gmap string CapabilityHandler).
    by rewrite go_range_singleton.
  - by apply (Connect_ok (λ _ _, Ok resp) (fresh p (λ _, url)) c eq_refl Hc).
Qed.

(** The operations on the server. *)
Lemma integ_exercise (s : served) shutdowner : s.(sv_mux) = integ_mux →
  exercise shutdowner (Some s) t =
  (Some (with_sv_store s (kv.run pick s.(sv_store) [kv.OpPut "test/key" "test-value"; kv.OpDelete "test/key"])), shutdowner, "test-value").
Proof.
  intros Hm. assert (Hk : ∀ (s' : served) proc, s'.(sv_mux) = integ_mux → proc ∈ ["Put"; "Get"; "Delete"] →
    reaches url s' (typed_url t) (KVServicePath +:+ proc) is_kv = true).
  { intros s' proc Hs'. unfold reaches. rewrite Hs', (gn_url _ _ _ _ _ _ _ G), bool_decide_eq_true_2 by done.
    rewrite !elem_of_cons, elem_of_nil. by intros [->|[->|[->|[]]]]. }
  unfold exercise, kv.run. cbn [fold_left kv.apply pr_Put integ_peer served_peer]. rewrite Hk by (done || set_solver).
  unfold kv.Put. rewrite bool_decide_eq_false_2 by done. cbn [fst]. set (s1 := kv.mkStore _ _).
  cbn [pr_Get integ_peer served_peer lift]. rewrite Hk by (done || set_solver). cbn [sv_store with_sv_store].
  assert (E1 : kv.Get s1 "test/key" = ("test-value", true)).
  { unfold kv.Get, get_or. cbn [kv.data s1]. by rewrite lookup_insert_eq. }
  rewrite E1. cbn [pr_Delete integ_peer served_peer lift]. rewrite Hk by (done || set_solver). cbn [sv_store with_sv_store].
  by destruct (kv.Delete pick s1 "test/key") as [s2 found].
Qed.

(** The fx integration program.  Given a generated plugin and a free address, a
    run constructs everything, starts the server, connects the client, puts, gets and
    deletes its key, and stops: the value read is the value put, the store has taken
    exactly the two changes, the client is closed, and the server has been told to
    stop and reports host and plugin as not serving.  The handshake has advertised
    the broker's logger at "/broker", where the server answers, but no path below it
    leads to the broker's RPC.  When the address is taken, the program fails to
    start and has changed nothing. *)
Theorem integ_fx_runs st :
  (∃ c s, run true st None = (Some c, Some s, Completed "test-value" None) ∧
     c.(connected) = true ∧ c.(closed) = true ∧
     s.(sv_store) = kv.run pick st [kv.OpPut "test/key" "test-value"; kv.OpDelete "test/key"] ∧
     (∀ service, service = "" ∨ service = "kv" → Check s.(sv_health) service = Ok SERVING_STATUS_NOT_SERVING) ∧
     (∃ w resp, pr_Handshake (OnStart_server true st) url (handshake_request config) = (w, Ok resp) ∧
        resp.(hp_HostCapabilities) = [mkCapability "logger" "1.0.0" "http://localhost:18080/broker"]) ∧
     ∀ path, dispatch s.(sv_mux) ("/broker/" +:+ path) = Some MBroker ∧ dispatch broker_Handler ("/broker/" +:+ path) = None) ∧
  ∃ c e, run false st None = (Some c, None, NotStarted e) ∧ c.(connected) = false.
Proof.
  split.
  - destruct (server_starts st) as (hl & Es & Hstop). destruct (integ_connects hl st) as (hs & resp & c & Eh & Hcap & Ec & Hon & Hopen & Hcfg).
    unfold run. rewrite client_constructed, Es. unfold OnStart_client.
    change (cl_cfg (fresh p (λ _, url))) with config. change (Endpoint config) with url. rewrite Eh, Ec.
    assert (Hd : ∃ stub, Dispense (λ _ _, Ok resp) c "kv" = (c, Ok stub) ∧ cast stub = Some t).
    { destruct (gn_client _ _ _ _ _ _ _ G) as (stub & Hs & Hcast). exists stub. split; [|done].
      unfold Dispense, ensureConnected. rewrite Hon, Hcfg.
      change (Get (client_plugins config) "kv") with (({["kv" := p]} : gmap string (Plugin Impl Handler Stub)) !! "kv").
      rewrite lookup_singleton_eq. change (Endpoint config) with url. by rewrite Hs. }
    destruct Hd as (stub & -> & ->). rewrite (integ_exercise (mkServed hs hl integ_mux st) None eq_refl). unfold OnStop_client, Close. rewrite Hopen.
    eexists _, _. split; [reflexivity|]. split_and!; [done|done|reflexivity|exact Hstop|by eexists _, resp|]. intros path. split; reflexivity.
  - unfold run. rewrite client_constructed. assert (En : OnStart_server false st = None).
    { unfold OnStart_server. by destruct (assemble _ _) as [? []]. }
    rewrite En. unfold OnStart_client. cbn [pr_Handshake integ_peer lift].
    rewrite (Connect_no_discovery (λ _ _, Err lost) (fresh p (λ _, url)) eq_refl eq_refl (endpoint_nonempty (λ _, url))).
    eexists _, _. split; reflexivity.
Qed.

End program.

#[local] Abbreviation ex_run := (run ex_kv Some tt (λ t : string, t) (rand_seq 1) (rand_seq 2) 0%Z (λ _, false)).

Lemma integ_fx_runs_witness :
  (∃ c s, ex_run true kv.NewStore None = (Some c, Some s, Completed "test-value" None) ∧ s.(sv_store).(kv.data) = ∅) ∧
  ∃ c e, ex_run false kv.NewStore None = (Some c, None, NotStarted e).
Proof.
  assert (G : generated ex_kv Some "http://localhost:18080" (λ t : string, t) tt tt "http://localhost:18080").
  { split; try done; [|by eexists]. apply Validate_None. vm_compute. reflexivity. }
  destruct (integ_fx_runs ex_kv Some tt (λ t : string, t) (rand_seq 1) (rand_seq 2) 0%Z (λ _, false) tt "http://localhost:18080" G kv.NewStore)
    as [(c & s & E & _ & _ & Es & _) (c' & e & E' & _)].
  split; [exists c, s; split; [exact E|]; rewrite Es; vm_compute; reflexivity|exists c', e; exact E'].
Defined.

End integfx.
