(* ===== verification/KVWatch.v ===== *)
(** * The watching client (examples/kv/host-watch/main.go)

    The client that watches a prefix while it changes keys, against a served store on
    which others act while it sleeps. *)

From stdpp Require Import prelude gmap strings list fin_maps.
From Stdlib Require Import ZArith Ascii.
From S2P Require Import Prelude GoRuntime Identity Plugin Handshake Health Client Server KVStore KVPrograms.

Module kvwatch.
Import identity plugin handshake health client server kvclient.

(** What the program does beyond [Peer]: it opens a stream, named by an address, and
    sleeps; [wt_Received]: what the stream has delivered when it is cancelled. *)
Class Watching (W Typed : Type) := {
  wt_Watch : W → Typed → string → W * res nat;
  wt_Sleep : W → W;
  wt_Received : W → nat → list kv.WatchEvent;
}.

Section client.
Context {Impl Handler Stub W Typed : Type} `{GoRange} `{Peer W Typed} `{Watching W Typed}.
Context (p : Plugin Impl Handler Stub) (cast : Stub → option Typed).

Inductive ended := Fatal (msg : string) | Panics | Mismatch (count : nat) | Passed.

(** The four changes, each followed by a sleep. *)
Fixpoint operations (ops : list kv.op) (w : W) (kvClient : Typed) : W * option string :=
  match ops with
  | [] => (w, None)
  | kv.OpPut k v :: ops' =>
      match pr_Put w kvClient k v with
      | (w, Some _) => (w, Some "Put failed:")
      | (w, None) => operations ops' (wt_Sleep w) kvClient
      end
  | kv.OpDelete k :: ops' =>
      match pr_Delete w kvClient k with
      | (w, Err _) => (w, Some "Delete failed:")
      | (w, Ok _) => operations ops' (wt_Sleep w) kvClient
      end
  end.

Definition verdict (received : list kv.WatchEvent) : ended :=
  let finalCount := length (counted received) in
  if bool_decide (finalCount = 3) then Passed else Mismatch finalCount.

(** [finished]: the receiving goroutine ends within a second of the cancellation. *)
Definition watch (finished : bool) (w : W) (kvClient : Typed) : W * ended :=
  match wt_Watch w kvClient watch_prefix with
  | (w, Err _) => (w, Fatal "Watch failed:")
  | (w, Ok stream) =>
      match operations watch_ops (wt_Sleep w) kvClient with
      | (w, Some msg) => (w, Fatal msg)
      | (w, None) =>
          (w, if finished then verdict (wt_Received w stream) else Fatal "Timeout waiting for watch goroutine to finish")
      end
  end.

Definition main (env : string → string) (finished : bool) (w : W) : W * ended :=
  match NewClient (config p env) with
  | Err _ => (w, Fatal "Failed to create client:")
  | Ok c =>
      let '(w, resp) := pr_Handshake w c.(cl_cfg).(Endpoint) (handshake_request c.(cl_cfg)) in
      let '(c, err) := Connect (λ _ _, resp) c in
      match err with
      | Some _ => (w, Fatal "Failed to connect:")
      | None =>
          match Dispense (λ _ _, resp) c "kv" with
          | (_, Err _) => (w, Fatal "Failed to dispense:")
          | (_, Ok raw) =>
              match cast raw with
              | None => (w, Panics)
              | Some kvClient => watch finished w kvClient
              end
          end
      end
  end.
End client.

(** ** Changes of others *)

(** A change that a watcher does not see. *)
Definition elsewhere (w : kv.watcher) (o : kv.op) : bool :=
  negb (kv.matches w (match o with kv.OpPut k _ | kv.OpDelete k => k end)).

Lemma event_key s o e : kv.event_of s o = Some e → e.(kv.we_Key) = match o with kv.OpPut k _ | kv.OpDelete k => k end.
Proof. destruct o; cbn; case_bool_decide; by intros [= <-]. Qed.

Lemma emitted_elsewhere pick w s ops : Forall (λ o, elsewhere w o = true) ops → kv.emitted pick w s ops = [].
Proof.
  intros Ho. revert s. induction Ho as [|o ops Ho _ IH]; intros s; [done|]. cbn. rewrite IH, app_nil_r.
  destruct (kv.event_of s o) as [e|] eqn:E; [|done]. cbn. apply event_key in E. rewrite E.
  unfold elsewhere in Ho. by destruct (kv.matches w _).
Qed.

Lemma run_elsewhere pick w s ops k : Forall (λ o, elsewhere w o = true) ops → kv.matches w k = true →
  (kv.run pick s ops).(kv.data) !! k = s.(kv.data) !! k.
Proof.
  intros Ho Hk. revert s. induction Ho as [|o ops Ho _ IH]; intros s; [done|]. unfold kv.run. cbn [fold_left].
  fold (kv.run pick (kv.apply pick s o) ops). rewrite IH. unfold elsewhere in Ho.
  destruct o as [j v|j]; cbn in Ho |- *; [unfold kv.Put; case_bool_decide; [done|]|]; cbn.
  - rewrite lookup_insert_ne; [done|]. intros ->. by rewrite Hk in Ho.
  - rewrite lookup_delete_ne; [done|]. intros ->. by rewrite Hk in Ho.
Qed.

Lemma emitted_app pick w s ops1 ops2 :
  kv.emitted pick w s (ops1 ++ ops2) = kv.emitted pick w s ops1 ++ kv.emitted pick w (kv.run pick s ops1) ops2.
Proof.
  revert s. induction ops1 as [|o ops1 IH]; intros s; [done|]. cbn. by rewrite IH, app_assoc.
Qed.

Lemma emitted_matches pick w s ops e : e ∈ kv.emitted pick w s ops → kv.matches w e.(kv.we_Key) = true.
Proof.
  revert s. induction ops as [|o ops IH]; intros s; [by intros ?%elem_of_nil|]. cbn. intros [Hin|Hin]%elem_of_app; [|by eapply IH].
  destruct (kv.event_of s o) as [e'|]; [|by apply elem_of_nil in Hin]. cbn in Hin.
  destruct (kv.matches w (kv.we_Key e')) eqn:E; [|by apply elem_of_nil in Hin]. by apply list_elem_of_singleton in Hin as ->.
Qed.

(** What the sequence of the program and of the others emits when the others stay
    away from its prefix. *)
Definition interleaved (os : list kv.op * list kv.op * list kv.op * list kv.op * list kv.op) : list kv.op :=
  let '(o0, o1, o2, o3, o4) := os in
  o0 ++ kv.OpPut "test/a" "value-a" :: o1 ++ kv.OpPut "test/b" "value-b" :: o2 ++ kv.OpPut "other/c" "value-c" :: o3 ++
    kv.OpDelete "test/a" :: o4.

Lemma emitted_undisturbed pick w s o0 o1 o2 o3 o4 : w.(kv.w_prefix) = watch_prefix →
  Forall (λ o, elsewhere w o = true) (o0 ++ o1 ++ o2 ++ o3 ++ o4) →
  length (kv.emitted pick w s (interleaved (o0, o1, o2, o3, o4))) = 3.
Proof.
  rewrite !Forall_app. intros Hp (H0 & H1 & H2 & H3 & H4).
  assert (Hm : ∀ k, kv.matches w k = HasPrefix k watch_prefix) by (intros k; unfold kv.matches; by rewrite Hp).
  unfold interleaved. rewrite emitted_app, (emitted_elsewhere pick w s o0) by done. set (s0 := kv.run pick s o0). cbn [app].
  assert (Hput : ∀ s k v l, k ≠ "" → kv.emitted pick w s (kv.OpPut k v :: l) =
    (if HasPrefix k watch_prefix then [kv.mkWatchEvent kv.EVENT_TYPE_PUT k v] else []) ++ kv.emitted pick w (kv.Put pick s k v).1 l).
  { intros s' k v l Hk. cbn. rewrite bool_decide_eq_false_2 by done. cbn. by rewrite Hm. }
  rewrite Hput, emitted_app, (emitted_elsewhere _ _ _ o1) by done. set (s1 := kv.run pick _ o1).
  rewrite Hput, emitted_app, (emitted_elsewhere _ _ _ o2) by done. set (s2 := kv.run pick _ o2).
  rewrite Hput, emitted_app, (emitted_elsewhere _ _ _ o3) by done. set (s3 := kv.run pick _ o3).
  assert (Hdata : ∀ s k v, k ≠ "" → (kv.Put pick s k v).1.(kv.data) = <[k := v]> s.(kv.data)).
  { intros s' k v Hk. unfold kv.Put. by rewrite bool_decide_eq_false_2. }
  assert (Ha : s3.(kv.data) !! "test/a" = Some "value-a").
  { unfold s3. rewrite (run_elsewhere pick w), Hdata, lookup_insert_ne by (done || apply Hm).
    unfold s2. rewrite (run_elsewhere pick w), Hdata, lookup_insert_ne by (done || apply Hm).
    unfold s1. rewrite (run_elsewhere pick w), Hdata by (done || apply Hm). apply lookup_insert_eq. }
  cbn [kv.emitted kv.event_of]. rewrite Ha, bool_decide_eq_true_2 by done. cbn [kv.relevant kv.we_Key]. rewrite Hm.
  by rewrite emitted_elsewhere.
Qed.

(** What is counted of a stream: everything but the event that establishes it. *)
Lemma counted_stream pick w s ops : w.(kv.w_prefix) = watch_prefix →
  counted (kv.mkWatchEvent kv.EVENT_TYPE_UNSPECIFIED "_watch_started" "" :: kv.emitted pick w s ops) = kv.emitted pick w s ops.
Proof.
  intros Hp. unfold counted. rewrite filter_cons_False by (cbn; by intros Hn; apply Hn).
  assert (Hall : ∀ e, e ∈ kv.emitted pick w s ops → e.(kv.we_Key) ≠ "_watch_started").
  { intros e He Hk. apply emitted_matches in He. rewrite Hk in He. unfold kv.matches in He. rewrite Hp in He. discriminate He. }
  induction (kv.emitted pick w s ops) as [|e es IH]; [done|].
  rewrite filter_cons_True by (apply Hall; by left). f_equal. apply IH. intros e' He. apply Hall. by right.
Qed.

(** ** Against a served store *)

Section served.
Import kvserved.
Context {Impl Handler Stub Typed : Type} `{GoRange}.
Context (p : Plugin Impl Handler Stub) (cast : Stub → option Typed).
Abbreviation served := (served (Impl := Impl) (Handler := Handler) (Stub := Stub)).

(** As for [served_peer]; [addr]: the address of the stream's watcher.  The second
    component of the world is what others do during the coming sleeps. *)
Context (url : string) (typed_url : Typed → string) (rd1 rd2 : Rand) (now : Time) (pick : nat → bool) (addr : nat).
Abbreviation world := (served * list (list kv.op))%type.
Abbreviation peer := (served_peer (Typed := Typed) url typed_url rd1 rd2 now pick).

Definition lift {A} (op : served → served * A) (w : world) : world * A :=
  let '(s, r) := op w.1 in ((s, w.2), r).

#[export] Instance crowded_peer : Peer world Typed := {|
  pr_Handshake w ep req := lift (λ s, peer.(pr_Handshake) s ep req) w;
  pr_Check w ep service := lift (λ s, peer.(pr_Check) s ep service) w;
  pr_Put w t k v := lift (λ s, peer.(pr_Put) s t k v) w;
  pr_Get w t k := lift (λ s, peer.(pr_Get) s t k) w;
  pr_Delete w t k := lift (λ s, peer.(pr_Delete) s t k) w;
|}.

Definition received (s : kv.Store) : list kv.WatchEvent :=
  match find (kv.at_addr addr) s.(kv.watchers) with Some w => w.(kv.w_ch) | None => [] end.

(** The stream is established when its first event is sent; what its watcher was sent
    is delivered during the sleep before the cancellation. *)
#[export] Instance crowded_watching : Watching world Typed := {|
  wt_Watch w t prefix :=
    lift (λ s, if reaches url s (typed_url t) (KVServicePath +:+ "Watch") is_kv then
                 match kv.Watch_started (kv.Watch_register s.(sv_store) addr prefix) addr with
                 | Some st => (with_sv_store s st, Ok addr)
                 | None => (s, Err lost)
                 end
               else (s, Err not_served)) w;
  wt_Sleep w :=
    match w.2 with
    | [] => w
    | ops :: later => (with_sv_store w.1 (kv.run pick w.1.(sv_store) ops), later)
    end;
  wt_Received w _ := received w.1.(sv_store);
|}.

(** The program's changes and those of the others, in the order in which they happen. *)
Fixpoint weave (ops : list kv.op) (sch : list (list kv.op)) : list kv.op :=
  match ops, sch with o :: ops', l :: sch' => o :: l ++ weave ops' sch' | _, _ => [] end.

Context (store : Impl) (h : Handler) (t : Typed) (G : generated p cast url typed_url store h t).

Lemma operations_run ops sch (s : served) : length ops = length sch → s.(sv_mux) = standalone_mux h →
  Forall (λ o, match o with kv.OpPut k _ | kv.OpDelete k => k ≠ "" end) ops →
  operations ops (s, sch) t = ((with_sv_store s (kv.run pick s.(sv_store) (weave ops sch)), []), None).
Proof.
  revert sch s. induction ops as [|o ops IH]; intros [|l sch] s Hl Hm Hk; try done; [by destruct s|].
  apply Forall_cons in Hk as [Hk Hks].
  destruct (peer_ops p cast url typed_url rd1 rd2 now pick store h t G s Hm) as (Eput & _ & Edel).
  assert (Hrun : ∀ st, kv.run pick st (l ++ weave ops sch) = kv.run pick (kv.run pick st l) (weave ops sch)).
  { intros st. unfold kv.run. apply fold_left_app. }
  cbn [weave]. unfold kv.run at 1. cbn [fold_left]. change (fold_left (kv.apply pick) ?x ?y) with (kv.run pick y x). rewrite Hrun.
  destruct o as [k v|k]; cbn [operations pr_Put pr_Delete crowded_peer kv.apply]; unfold lift; cbn [fst snd].
  - rewrite Eput. unfold kv.Put. rewrite bool_decide_eq_false_2 by done. cbn [fst snd wt_Sleep crowded_watching].
    rewrite IH; [reflexivity|by injection Hl|done|done].
  - rewrite Edel. destruct (kv.Delete pick s.(sv_store) k) as [st found]. cbn [fst snd wt_Sleep crowded_watching].
    rewrite IH; [reflexivity|by injection Hl|done|done].
Qed.

(** The store once the stream is established. *)
Definition own : kv.watcher := kv.mkWatcher addr watch_prefix [kv.mkWatchEvent kv.EVENT_TYPE_UNSPECIFIED "_watch_started" ""] false.
Definition watched (st : kv.Store) : kv.Store := kv.mkStore st.(kv.data) (st.(kv.watchers) ++ [own]).

Definition fresh_addr (st : kv.Store) : Prop := ∀ w, w ∈ st.(kv.watchers) → w.(kv.w_addr) ≠ addr.

Lemma watch_established st : fresh_addr st →
  kv.Watch_started (kv.Watch_register st addr watch_prefix) addr = Some (watched st).
Proof.
  intros Hf. unfold kv.Watch_started, kv.Watch_register. cbn [kv.watchers kv.data].
  assert (Hat : ∀ w, w ∈ st.(kv.watchers) → kv.at_addr addr w = false).
  { intros w Hw. unfold kv.at_addr. by apply bool_decide_eq_false_2, Hf. }
  rewrite (proj2 (forallb_forall _ _)).
  - unfold watched. do 2 f_equal. rewrite fmap_app. f_equal.
    + rewrite <- (list_fmap_id (kv.watchers st)) at 2. apply list_fmap_ext. intros i w Hw. by rewrite Hat by by eapply list_elem_of_lookup_2.
    + cbn. unfold kv.at_addr. by rewrite bool_decide_eq_true_2.
  - intros w [Hw| ->%list_elem_of_singleton]%list_elem_of_In%elem_of_app; [by rewrite Hat|apply orb_true_r].
Qed.

Lemma run_addrs st ops : kv.w_addr <$> (kv.run pick st ops).(kv.watchers) = kv.w_addr <$> st.(kv.watchers).
Proof.
  revert st. induction ops as [|o ops IH]; intros st; [done|]. unfold kv.run. cbn [fold_left].
  fold (kv.run pick (kv.apply pick st o) ops). rewrite IH.
  assert (Hn : ∀ ws e, kv.w_addr <$> kv.notifyWatchers pick ws e = kv.w_addr <$> ws).
  { intros ws e. unfold kv.notifyWatchers. rewrite <- list_fmap_compose. apply list_fmap_ext. intros i w _. cbn.
    destruct (kv.matches _ _); [|done]. unfold kv.try_send. case_bool_decide; [|done]. by destruct (_ && _). }
  destruct o as [k v|k]; cbn; unfold kv.Put; case_bool_decide; cbn; by rewrite ?Hn.
Qed.

(** What the stream has delivered after a run: what was emitted for it. *)
Lemma received_run st ops : fresh_addr st →
  length (kv.emitted pick own (watched st) ops) < kv.watch_cap →
  received (kv.run pick (watched st) ops) = own.(kv.w_ch) ++ kv.emitted pick own (watched st) ops.
Proof.
  intros Hf Hcap. unfold received.
  assert (Hi : (watched st).(kv.watchers) !! length st.(kv.watchers) = Some own) by (cbn; by apply list_lookup_middle).
  assert (Hfind : ∀ ws w, kv.w_addr <$> ws = kv.w_addr <$> (watched st).(kv.watchers) → ws !! length st.(kv.watchers) = Some w →
    find (kv.at_addr addr) ws = Some w).
  { clear Hi. cbn. intros ws w. rewrite fmap_app. revert ws Hf. unfold fresh_addr. induction st.(kv.watchers) as [|v vs IH]; intros ws Hf Ha Hw.
    - destruct ws as [|u [|? ?]]; try discriminate Ha. cbn in Ha, Hw. injection Ha as Hu. injection Hw as ->. cbn.
      unfold kv.at_addr. by rewrite bool_decide_eq_true_2.
    - destruct ws as [|u ws]; [discriminate Ha|]. cbn in Ha, Hw. injection Ha as Hu Ha. cbn. unfold kv.at_addr at 1.
      rewrite Hu, bool_decide_eq_false_2 by (apply Hf; by left). apply IH; [intros; apply Hf; by right|done..]. }
  rewrite (Hfind _ (kv.buffered (kv.emitted pick own (watched st) ops) own)).
  - cbn. f_equal. apply take_ge. unfold kv.watch_cap in Hcap. lia.
  - apply run_addrs.
  - by apply kv.run_watchers; [..|cbn; unfold kv.watch_cap; lia].
Qed.

Context (env : string → string) (Henv : kvclient.endpoint env = url).

(** The watching client, in company.  Against a standalone server, while others
    change keys during its sleeps, the program sees exactly the changes under its
    prefix that happen once its stream is established, whoever makes them: it passes
    when there are three, and else names their number (as long as its buffer of
    thirty-two holds them all).  So it passes whenever the others stay away from its
    prefix.  The store has taken all changes, in their order. *)
Theorem host_watch_counts port st o0 o1 o2 o3 o4 (Hfresh : fresh_addr st) :
  let ops := interleaved (o0, o1, o2, o3, o4) in
  let es := kv.emitted pick own (watched st) ops in
  length es < kv.watch_cap →
  (∃ s w, serving p store port st = Some s ∧
     main p cast env true (s, [o0; o1; o2; o3; o4]) = (w, if bool_decide (length es = 3) then Passed else Mismatch (length es)) ∧
     w.1.(sv_store) = kv.run pick (watched st) ops) ∧
  (Forall (λ o, elsewhere own o = true) (o0 ++ o1 ++ o2 ++ o3 ++ o4) → length es = 3).
Proof.
  intros ops es Hcap. split; [|by apply emitted_undisturbed].
  destruct (standalone_serving p cast url typed_url store h t G port st) as (hl & Es & _ & _).
  set (s := mkServed _ hl (standalone_mux h) st) in Es. exists s. unfold main.
  rewrite (NewClient_fresh p cast url typed_url store h t G env). change (Endpoint (cl_cfg (fresh p env))) with (kvclient.endpoint env).
  cbn [pr_Handshake crowded_peer]. unfold lift. cbn [fst snd pr_Handshake served_peer]. unfold reaches at 1.
  rewrite Henv, bool_decide_eq_true_2 by done.
  change (dispatch (sv_mux s) (HandshakeServicePath +:+ "Handshake")) with (Some (MHandshake (Handler := Handler))). cbn [is_handshake andb].
  pose proof (Connect_succeeds rd1 rd2 now None (sv_handshake s) (fresh p env) eq_refl eq_refl (endpoint_nonempty env)
    (plugins_named p cast url typed_url store h t G port) (fresh_compatible p rd1 rd2 store env port)) as Hcon.
  destruct (Handshake _ _ _ _ _ _) as [hs resp]. destruct Hcon as (c1 & -> & Hconn & Hcfg).
  unfold Dispense, ensureConnected. rewrite Hconn, Hcfg.
  change (Get (client_plugins (cl_cfg (fresh p env))) "kv") with (({["kv" := p]} : gmap string (Plugin Impl Handler Stub)) !! "kv").
  rewrite lookup_singleton_eq. change (Endpoint (cl_cfg (fresh p env))) with (kvclient.endpoint env). rewrite Henv.
  destruct (gn_client _ _ _ _ _ _ _ G) as (stub & -> & ->). unfold watch. cbn [wt_Watch crowded_watching]. unfold lift. cbn [fst snd].
  unfold reaches. cbn [sv_mux sv_store s]. rewrite (gn_url _ _ _ _ _ _ _ G), bool_decide_eq_true_2 by done.
  change (dispatch (standalone_mux h) (KVServicePath +:+ "Watch")) with (Some (MPlugin "kv" h)). cbn [is_kv andb].
  rewrite bool_decide_eq_true_2, watch_established by done. cbn [wt_Sleep crowded_watching fst snd with_sv_store sv_store].
  rewrite operations_run by (done || (unfold watch_ops; repeat (constructor; [done|]); constructor)). cbn [sv_store with_sv_store wt_Received crowded_watching fst].
  assert (Erun : kv.run pick (kv.run pick (watched st) o0) (weave watch_ops [o1; o2; o3; o4]) = kv.run pick (watched st) ops).
  { unfold kv.run. rewrite <- fold_left_app. unfold ops, interleaved. cbn [weave watch_ops]. rewrite app_nil_r. cbn [app].
    reflexivity. }
  rewrite Erun. eexists. split; [exact Es|].
  rewrite received_run by done. unfold verdict. cbn [kv.w_ch own app]. rewrite counted_stream by done. fold es. split; reflexivity.
Qed.

End served.

Lemma host_watch_counts_witness :
  let url := "http://localhost:8080" in
  let others := kv.OpPut "config" "x" in
  let intruder := kv.OpPut "test/z" "y" in
  let run ops := main (H0 := crowded_peer url (λ t : string, t) (rand_seq 1) (rand_seq 2) 0%Z (λ _, false))
    (H1 := crowded_watching url (λ t : string, t) (λ _, false) 0) kvserved.ex_kv Some (λ _, "") true ops in
  ∃ s w w', kvserved.serving kvserved.ex_kv tt "8080" kv.NewStore = Some s ∧
    run (s, [[others]; []; [others]; []; []]) = (w, Passed) ∧
    run (s, [[]; [intruder]; []; []; []]) = (w', Mismatch 4).
Proof.
  intros url others intruder run.
  pose proof (host_watch_counts kvserved.ex_kv Some url (λ t : string, t) (rand_seq 1) (rand_seq 2) 0%Z (λ _, false) 0
    tt tt url kvserved.ex_generated (λ _, "") eq_refl "8080" kv.NewStore) as Hc.
  assert (Hf : fresh_addr 0 kv.NewStore) by (intros w Hw; by apply elem_of_nil in Hw).
  destruct (Hc [others] [] [others] [] [] Hf ltac:(vm_compute; lia)) as [(s & w & Es & Em & _) _].
  destruct (Hc [] [intruder] [] [] [] Hf ltac:(vm_compute; lia)) as [(s' & w' & Es' & Em' & _) _].
  rewrite Es in Es'. injection Es' as <-. exists s, w, w'. split; [exact Es|]. split; [exact Em|exact Em'].
Defined.

End kvwatch.
