(* ===== verification/Connect.v ===== *)
(** * The Connect library, as the generated code uses it

    connect-go and protobuf are third-party code: the codec of a message and the two
    ends of a call are classes, with what their documentation says of them as laws.
    A body on the wire is an opaque [B]; an HTTP client is a function on the world. *)

From stdpp Require Import prelude gmap strings list fin_maps countable.
From Stdlib Require Import ZArith Ascii.
From S2P Require Import Prelude GoRuntime.

(** ** Package [strings] *)

(** [strings.TrimRight(s, cutset)] for a cutset of one byte. *)
Fixpoint TrimRight (s : string) (c : ascii) : string :=
  match s with
  | "" => ""
  | String a s' =>
      match TrimRight s' c with
      | "" => if decide (a = c) then "" else String a ""
      | t => String a t
      end
  end.

Lemma TrimRight_last s a c : a ≠ c → TrimRight (s +:+ String a "") c = s +:+ String a "".
Proof.
  intros Ha. induction s as [|b s IH]; [simpl; by rewrite decide_False|]. rewrite !str_app_cons. simpl. rewrite IH.
  by destruct s.
Qed.

Lemma TrimRight_cut s c : TrimRight (s +:+ String c "") c = TrimRight s c.
Proof.
  induction s as [|b s IH]; [simpl; by rewrite decide_True|]. rewrite str_app_cons. simpl. by rewrite IH.
Qed.

Module connectgo.

(** ** Messages *)

Class Message (B A : Type) := {
  marshal : A → B;
  unmarshal : B → option A;
  unmarshal_marshal : ∀ a, unmarshal (marshal a) = Some a;
}.

(** ** HTTP, as the calls use it *)

(** What a client sends (it always posts), and what its server sees of it. *)
Record WireRequest (B : Type) := mkWireRequest { wq_URL : string; wq_Header : Header; wq_Body : B }.
Record ServerRequest (B : Type) := mkServerRequest { sq_Path : string; sq_Header : Header; sq_Body : B }.
#[global] Arguments mkWireRequest {B}.
#[global] Arguments wq_URL {B}.
#[global] Arguments wq_Header {B}.
#[global] Arguments wq_Body {B}.
#[global] Arguments mkServerRequest {B}.
#[global] Arguments sq_Path {B}.
#[global] Arguments sq_Header {B}.
#[global] Arguments sq_Body {B}.

(** [http.NotFound], or a reply. *)
Inductive WireResponse (B : Type) := NotFound | Reply (status : Z) (header : Header) (body : B).
#[global] Arguments NotFound {B}.
#[global] Arguments Reply {B}.

Definition HTTPClient (W B : Type) : Type := W → WireRequest B → W * res (WireResponse B).
Definition HTTPHandler (W B : Type) : Type := W → ServerRequest B → W * WireResponse B.

(** The methods of a service: unary, and streaming up to its first wait. *)
Definition Unary (W Req Resp : Type) : Type := W → Header → Req → W * res Resp.
Definition Streaming (W Req : Type) : Type := W → Header → Req → W * option error.

Definition arriving {B} (path : string) (r : WireRequest B) : ServerRequest B :=
  mkServerRequest path r.(wq_Header) r.(wq_Body).

(** ** The library *)

(** [received_error]: an error as the client gets it, which keeps its code;
    [protocol_header]: a header field that belongs to the protocol, as no field of a
    plugin's identity does.  The four operations are the two ends of a unary call and
    of a server stream.  [unary_law], [stream_law]: a call whose request reaches the
    handler of a method is that method, with the fields of the caller's header;
    [not_found_law]: a 404 is a code of its own, as the protocol says. *)
Class ConnectGo (B : Type) `{ConnectLib} := {
  protocol_header : string → bool;
  received_error : error → error;
  CallUnary {W Req Resp} `{Message B Req} `{Message B Resp} : HTTPClient W B → string → Unary W Req Resp;
  CallServerStream {W Req} `{Message B Req} : HTTPClient W B → string → Streaming W Req;
  NewUnaryHandler {W Req Resp} `{Message B Req} `{Message B Resp} : string → Unary W Req Resp → HTTPHandler W B;
  NewServerStreamHandler {W Req} `{Message B Req} : string → Streaming W Req → HTTPHandler W B;
  CodeOf_received e : CodeOf (received_error e) = CodeOf e;
  runtime_id_free : protocol_header "X-Plugin-Runtime-ID" = false;
  unary_law {W Req Resp} `{Message B Req} `{Message B Resp} (do : HTTPClient W B) url procedure (f : Unary W Req Resp) w hdr req :
    (∀ r, r.(wq_URL) = url → do w r = let '(w', x) := NewUnaryHandler procedure f w (arriving procedure r) in (w', Ok x)) →
    ∃ hdr', (∀ k, protocol_header k = false → Header_Get hdr' k = Header_Get hdr k) ∧
      CallUnary do url w hdr req =
        let '(w', r) := f w hdr' req in (w', match r with Ok x => Ok x | Err e => Err (received_error e) end);
  stream_law {W Req} `{Message B Req} (do : HTTPClient W B) url procedure (f : Streaming W Req) w hdr req :
    (∀ r, r.(wq_URL) = url →
       do w r = let '(w', x) := NewServerStreamHandler procedure f w (arriving procedure r) in (w', Ok x)) →
    ∃ hdr', (∀ k, protocol_header k = false → Header_Get hdr' k = Header_Get hdr k) ∧
      CallServerStream do url w hdr req = let '(w', e) := f w hdr' req in (w', received_error <$> e);
  not_found_law {W Req Resp} `{Message B Req} `{Message B Resp} (do : HTTPClient W B) url w (hdr : Header) (req : Req) :
    (∀ r, r.(wq_URL) = url → do w r = (w, Ok NotFound)) →
    ∃ e, CallUnary (Resp := Resp) do url w hdr req = (w, Err e) ∧ CodeOf e = CodeUnimplemented;
}.

Section calls.
Context {B : Type} `{ConnectGo B}.

Definition kept (hdr hdr' : Header) : Prop := ∀ k, protocol_header k = false → Header_Get hdr' k = Header_Get hdr k.

Definition received {A} (r : res A) : res A := match r with Ok a => Ok a | Err e => Err (received_error e) end.

(** A remote method is the method itself, with its errors as they are received. *)
Definition transparent {W Req Resp} (remote method : Unary W Req Resp) : Prop :=
  ∀ w hdr req, ∃ hdr', kept hdr hdr' ∧ remote w hdr req = let '(w', r) := method w hdr' req in (w', received r).

Definition stream_transparent {W Req} (remote method : Streaming W Req) : Prop :=
  ∀ w hdr req, ∃ hdr', kept hdr hdr' ∧ remote w hdr req = let '(w', e) := method w hdr' req in (w', received_error <$> e).

(** The client's requests for a method name below [base] and the handler's path reach
    the handler. *)
Definition mounted {W} (do : HTTPClient W B) (base : string) (ph : string * HTTPHandler W B) : Prop :=
  ∀ w r p, str_all is_alpha p = true → r.(wq_URL) = base +:+ ph.1 +:+ p →
    do w r = let '(w', x) := ph.2 w (arriving (ph.1 +:+ p) r) in (w', Ok x).

(** A procedure of a mounted handler that leads to one method's handler. *)
Lemma call_mounted {W Req Resp} `{Message B Req} `{Message B Resp} (do : HTTPClient W B) base ph p (f : Unary W Req Resp) :
  mounted do base ph → str_all is_alpha p = true →
  (∀ w r, ph.2 w (arriving (ph.1 +:+ p) r) = NewUnaryHandler (ph.1 +:+ p) f w (arriving (ph.1 +:+ p) r)) →
  transparent (CallUnary do (base +:+ ph.1 +:+ p)) f.
Proof.
  intros Hm Ha Hp w hdr req. apply (unary_law do _ (ph.1 +:+ p)). intros r Hr. rewrite (Hm w r p Ha Hr). by rewrite Hp.
Qed.

Lemma stream_mounted {W Req} `{Message B Req} (do : HTTPClient W B) base ph p (f : Streaming W Req) :
  mounted do base ph → str_all is_alpha p = true →
  (∀ w r, ph.2 w (arriving (ph.1 +:+ p) r) = NewServerStreamHandler (ph.1 +:+ p) f w (arriving (ph.1 +:+ p) r)) →
  stream_transparent (CallServerStream do (base +:+ ph.1 +:+ p)) f.
Proof.
  intros Hm Ha Hp w hdr req. apply (stream_law do _ (ph.1 +:+ p)). intros r Hr. rewrite (Hm w r p Ha Hr). by rewrite Hp.
Qed.
End calls.

(** [connect.Client]: what it is made with. *)
Record Client (W B : Type) := NewClient { cc_http : HTTPClient W B; cc_url : string }.
#[global] Arguments NewClient {W B}.
#[global] Arguments cc_http {W B}.
#[global] Arguments cc_url {W B}.

(** ** A library that keeps the laws *)

(** An error travels as its code, in the place of the status. *)

Definition code_status (c : Code) : Z :=
  match c with
  | CodeCanceled => 1 | CodeUnknown => 2 | CodeInvalidArgument => 3 | CodeDeadlineExceeded => 4 | CodeNotFound => 5
  | CodeAlreadyExists => 6 | CodePermissionDenied => 7 | CodeResourceExhausted => 8 | CodeFailedPrecondition => 9
  | CodeAborted => 10 | CodeOutOfRange => 11 | CodeUnimplemented => 12 | CodeInternal => 13 | CodeUnavailable => 14
  | CodeDataLoss => 15 | CodeUnauthenticated => 16
  | CodeOther n => if (0 <=? n)%Z then 1000 + n else n
  end%Z.

Definition status_code (z : Z) : Code :=
  match z with
  | 1 => CodeCanceled | 2 => CodeUnknown | 3 => CodeInvalidArgument | 4 => CodeDeadlineExceeded | 5 => CodeNotFound
  | 6 => CodeAlreadyExists | 7 => CodePermissionDenied | 8 => CodeResourceExhausted | 9 => CodeFailedPrecondition
  | 10 => CodeAborted | 11 => CodeOutOfRange | 12 => CodeUnimplemented | 13 => CodeInternal | 14 => CodeUnavailable
  | 15 => CodeDataLoss | 16 => CodeUnauthenticated
  | z => if (1000 <=? z)%Z then CodeOther (z - 1000) else CodeOther z
  end%Z.

Lemma status_code_status c : status_code (code_status c) = c ∧ code_status c ≠ 200%Z.
Proof.
  destruct c as [| | | | | | | | | | | | | | | |n]; [by split..|]. simpl. destruct (Z.leb_spec 0 n).
  - split; [|lia]. destruct (1000 + n)%Z as [|q|q] eqn:E; [lia| |lia]. unfold status_code.
    assert (Hq : (1000 <=? Z.pos q)%Z = true) by (apply Z.leb_le; lia). rewrite Hq.
    repeat (destruct q as [q|q|]; try (f_equal; lia); try lia).
  - split; [|lia]. by destruct n as [|q|q].
Qed.

Definition wire_error (e : error) : error := NewError (CodeOf e) (Errorf "received" []).

Definition stream_result (e : option error) : res () := match e with None => Ok () | Some e => Err e end.

Section example.
Context {B : Type} (none : B) {unit_message : Message B unit}.

Definition ex_answer {A} `{Message B A} (r : res A) : WireResponse B :=
  match r with Ok a => Reply 200 ∅ (marshal a) | Err e => Reply (code_status (CodeOf e)) ∅ none end.

Definition ex_result {A} `{Message B A} (r : res (WireResponse B)) : res A :=
  match r with
  | Err e => Err (NewError CodeUnavailable e)
  | Ok NotFound => Err (NewError CodeUnimplemented (Errorf "404" []))
  | Ok (Reply status _ body) =>
      if bool_decide (status = 200%Z)
      then match unmarshal body with Some a => Ok a | None => Err (NewError CodeInternal (Errorf "unmarshal" [])) end
      else Err (NewError (status_code status) (Errorf "received" []))
  end.

Lemma ex_result_answer {A} `{Message B A} (r : res A) :
  ex_result (Ok (ex_answer r)) = match r with Ok a => Ok a | Err e => Err (wire_error e) end.
Proof.
  destruct r as [a|e]; unfold ex_answer, ex_result; [by rewrite bool_decide_eq_true_2, unmarshal_marshal|].
  destruct (status_code_status (CodeOf e)) as [E1 E2]. by rewrite bool_decide_eq_false_2, E1 by done.
Qed.

Definition ex_unary {W Req Resp} `{Message B Req} `{Message B Resp} (f : Unary W Req Resp) : HTTPHandler W B := λ w r,
  match unmarshal r.(sq_Body) with
  | None => (w, Reply (code_status CodeInvalidArgument) ∅ none)
  | Some req => let '(w', x) := f w r.(sq_Header) req in (w', ex_answer x)
  end.

Definition ex_connect : ConnectGo B.
Proof using none unit_message.
  refine {|
    protocol_header k := bool_decide (k = "Content-Type");
    received_error := wire_error;
    CallUnary W Req Resp _ _ do url w hdr req :=
      let '(w', r) := do w (mkWireRequest url hdr (marshal req)) in (w', ex_result r);
    CallServerStream W Req _ do url w hdr req :=
      let '(w', r) := do w (mkWireRequest url hdr (marshal req)) in
      (w', match ex_result (A := unit) r with Ok _ => None | Err e => Some e end);
    NewUnaryHandler W Req Resp _ _ _ := ex_unary;
    NewServerStreamHandler W Req _ _ f :=
      ex_unary (λ w hdr req, let '(w', e) := f w hdr req in (w', stream_result e));
  |}.
  - intros e. apply CodeOf_NewError.
  - done.
  - intros W Req Resp ? ? do url procedure f w hdr req Hdo. exists hdr. split; [done|].
    rewrite Hdo by done. unfold ex_unary, arriving. cbn [sq_Body sq_Header wq_Body wq_Header]. rewrite unmarshal_marshal.
    destruct (f w hdr req) as [w' r]. by rewrite ex_result_answer.
  - intros W Req ? do url procedure f w hdr req Hdo. exists hdr. split; [done|].
    rewrite Hdo by done. unfold ex_unary, arriving. cbn [sq_Body sq_Header wq_Body wq_Header]. rewrite unmarshal_marshal.
    destruct (f w hdr req) as [w' e]. rewrite ex_result_answer. by destruct e.
  - intros W Req Resp ? ? do url w hdr req Hdo. rewrite Hdo by done. eexists. split; [done|]. apply CodeOf_NewError.
Defined.
End example.

End connectgo.
