(* ===== verification/Stubs.v ===== *)
(** * The generated stubs (gen/plugin/v1/connectpluginv1connect, loggerv1connect, kvv1connect)

    One module per service, as protoc-gen-connect-go writes it: the names of the
    procedures, the interface of a handler, the client that calls each procedure below
    a base URL, the HTTP handler that switches on the path, and the handler that
    implements nothing.  Messages are type parameters.  A call of a stub whose handler
    is mounted below its base URL is a call of the method. *)

From stdpp Require Import prelude gmap strings list fin_maps.
From Stdlib Require Import ZArith Ascii.
From S2P Require Import Prelude GoRuntime Connect.
Import connectgo.

(** The error of a method nobody implements. *)
Definition unimplemented (method : string) : error := NewError CodeUnimplemented (Errorf (method +:+ " is not implemented") []).

(** A method of a mounted handler, by the last segment of its path. *)
Ltac by_procedure p H :=
  first [apply (call_mounted _ _ _ p _ H) | apply (stream_mounted _ _ _ p _ H)]; [reflexivity|intros; reflexivity].

Module brokerconnect.
Section stubs.
Context {W B RequestCapabilityRequest RequestCapabilityResponse : Type} `{ConnectGo B}.
Context `{!Message B RequestCapabilityRequest} `{!Message B RequestCapabilityResponse}.

Definition CapabilityBrokerName : string := "connectplugin.v1.CapabilityBroker".
Definition CapabilityBrokerRequestCapabilityProcedure : string := "/connectplugin.v1.CapabilityBroker/RequestCapability".

Record CapabilityBrokerHandler := mkCapabilityBrokerHandler {
  RequestCapability : Unary W RequestCapabilityRequest RequestCapabilityResponse;
}.

Record capabilityBrokerClient := mkCapabilityBrokerClient { requestCapability : Client W B }.

Definition NewCapabilityBrokerClient (httpClient : HTTPClient W B) (baseURL : string) : capabilityBrokerClient :=
  let baseURL := TrimRight baseURL "/" in
  mkCapabilityBrokerClient (NewClient httpClient (baseURL +:+ CapabilityBrokerRequestCapabilityProcedure)).

Definition capabilityBrokerClient_RequestCapability (c : capabilityBrokerClient) : Unary W RequestCapabilityRequest RequestCapabilityResponse := CallUnary c.(requestCapability).(cc_http) c.(requestCapability).(cc_url).

Definition NewCapabilityBrokerHandler (svc : CapabilityBrokerHandler) : string * HTTPHandler W B :=
  ("/connectplugin.v1.CapabilityBroker/", λ w r,
    if bool_decide (r.(sq_Path) = CapabilityBrokerRequestCapabilityProcedure) then NewUnaryHandler CapabilityBrokerRequestCapabilityProcedure svc.(RequestCapability) w r
    else (w, NotFound)).

Definition UnimplementedCapabilityBrokerHandler : CapabilityBrokerHandler :=
  mkCapabilityBrokerHandler (λ w _ _, (w, Err (unimplemented "connectplugin.v1.CapabilityBroker.RequestCapability"))).

Lemma broker_mounted do base svc : mounted do (TrimRight base "/") (NewCapabilityBrokerHandler svc) →
  transparent (capabilityBrokerClient_RequestCapability (NewCapabilityBrokerClient do base)) svc.(RequestCapability).
Proof. intros Hm. by_procedure "RequestCapability" Hm. Qed.
End stubs.
#[global] Arguments CapabilityBrokerHandler : clear implicits.
#[global] Arguments capabilityBrokerClient : clear implicits.
End brokerconnect.

Module handshakeconnect.
Section stubs.
Context {W B HandshakeRequest HandshakeResponse : Type} `{ConnectGo B}.
Context `{!Message B HandshakeRequest} `{!Message B HandshakeResponse}.

Definition HandshakeServiceName : string := "connectplugin.v1.HandshakeService".
Definition HandshakeServiceHandshakeProcedure : string := "/connectplugin.v1.HandshakeService/Handshake".

Record HandshakeServiceHandler := mkHandshakeServiceHandler {
  Handshake : Unary W HandshakeRequest HandshakeResponse;
}.

Record handshakeServiceClient := mkHandshakeServiceClient { handshake : Client W B }.

Definition NewHandshakeServiceClient (httpClient : HTTPClient W B) (baseURL : string) : handshakeServiceClient :=
  let baseURL := TrimRight baseURL "/" in
  mkHandshakeServiceClient (NewClient httpClient (baseURL +:+ HandshakeServiceHandshakeProcedure)).

Definition handshakeServiceClient_Handshake (c : handshakeServiceClient) : Unary W HandshakeRequest HandshakeResponse := CallUnary c.(handshake).(cc_http) c.(handshake).(cc_url).

Definition NewHandshakeServiceHandler (svc : HandshakeServiceHandler) : string * HTTPHandler W B :=
  ("/connectplugin.v1.HandshakeService/", λ w r,
    if bool_decide (r.(sq_Path) = HandshakeServiceHandshakeProcedure) then NewUnaryHandler HandshakeServiceHandshakeProcedure svc.(Handshake) w r
    else (w, NotFound)).

Definition UnimplementedHandshakeServiceHandler : HandshakeServiceHandler :=
  mkHandshakeServiceHandler (λ w _ _, (w, Err (unimplemented "connectplugin.v1.HandshakeService.Handshake"))).

Lemma handshake_mounted do base svc : mounted do (TrimRight base "/") (NewHandshakeServiceHandler svc) →
  transparent (handshakeServiceClient_Handshake (NewHandshakeServiceClient do base)) svc.(Handshake).
Proof. intros Hm. by_procedure "Handshake" Hm. Qed.
End stubs.
#[global] Arguments HandshakeServiceHandler : clear implicits.
#[global] Arguments handshakeServiceClient : clear implicits.
End handshakeconnect.

Module healthconnect.
Section stubs.
Context {W B HealthCheckRequest HealthCheckResponse : Type} `{ConnectGo B}.
Context `{!Message B HealthCheckRequest} `{!Message B HealthCheckResponse}.

Definition HealthServiceName : string := "connectplugin.health.v1.HealthService".
Definition HealthServiceCheckProcedure : string := "/connectplugin.health.v1.HealthService/Check".
Definition HealthServiceWatchProcedure : string := "/connectplugin.health.v1.HealthService/Watch".

Record HealthServiceHandler := mkHealthServiceHandler {
  Check : Unary W HealthCheckRequest HealthCheckResponse;
  Watch : Streaming W HealthCheckRequest;
}.

Record healthServiceClient := mkHealthServiceClient { check : Client W B; watch : Client W B }.

Definition NewHealthServiceClient (httpClient : HTTPClient W B) (baseURL : string) : healthServiceClient :=
  let baseURL := TrimRight baseURL "/" in
  mkHealthServiceClient (NewClient httpClient (baseURL +:+ HealthServiceCheckProcedure))
    (NewClient httpClient (baseURL +:+ HealthServiceWatchProcedure)).

Definition healthServiceClient_Check (c : healthServiceClient) : Unary W HealthCheckRequest HealthCheckResponse := CallUnary c.(check).(cc_http) c.(check).(cc_url).
Definition healthServiceClient_Watch (c : healthServiceClient) : Streaming W HealthCheckRequest := CallServerStream c.(watch).(cc_http) c.(watch).(cc_url).

Definition NewHealthServiceHandler (svc : HealthServiceHandler) : string * HTTPHandler W B :=
  ("/connectplugin.health.v1.HealthService/", λ w r,
    if bool_decide (r.(sq_Path) = HealthServiceCheckProcedure) then NewUnaryHandler HealthServiceCheckProcedure svc.(Check) w r
    else if bool_decide (r.(sq_Path) = HealthServiceWatchProcedure) then NewServerStreamHandler HealthServiceWatchProcedure svc.(Watch) w r
    else (w, NotFound)).

Definition UnimplementedHealthServiceHandler : HealthServiceHandler :=
  mkHealthServiceHandler (λ w _ _, (w, Err (unimplemented "connectplugin.health.v1.HealthService.Check")))
    (λ w _ _, (w, Some (unimplemented "connectplugin.health.v1.HealthService.Watch"))).

Lemma health_mounted do base svc : mounted do (TrimRight base "/") (NewHealthServiceHandler svc) →
  transparent (healthServiceClient_Check (NewHealthServiceClient do base)) svc.(Check) ∧
  stream_transparent (healthServiceClient_Watch (NewHealthServiceClient do base)) svc.(Watch).
Proof. intros Hm. split_and!; [by_procedure "Check" Hm|by_procedure "Watch" Hm]. Qed.
End stubs.
#[global] Arguments HealthServiceHandler : clear implicits.
#[global] Arguments healthServiceClient : clear implicits.
End healthconnect.

Module lifecycleconnect.
Section stubs.
Context {W B ReportHealthRequest ReportHealthResponse : Type} `{ConnectGo B}.
Context `{!Message B ReportHealthRequest} `{!Message B ReportHealthResponse}.

Definition PluginLifecycleName : string := "connectplugin.v1.PluginLifecycle".
Definition PluginLifecycleReportHealthProcedure : string := "/connectplugin.v1.PluginLifecycle/ReportHealth".

Record PluginLifecycleHandler := mkPluginLifecycleHandler {
  ReportHealth : Unary W ReportHealthRequest ReportHealthResponse;
}.

Record pluginLifecycleClient := mkPluginLifecycleClient { reportHealth : Client W B }.

Definition NewPluginLifecycleClient (httpClient : HTTPClient W B) (baseURL : string) : pluginLifecycleClient :=
  let baseURL := TrimRight baseURL "/" in
  mkPluginLifecycleClient (NewClient httpClient (baseURL +:+ PluginLifecycleReportHealthProcedure)).

Definition pluginLifecycleClient_ReportHealth (c : pluginLifecycleClient) : Unary W ReportHealthRequest ReportHealthResponse := CallUnary c.(reportHealth).(cc_http) c.(reportHealth).(cc_url).

Definition NewPluginLifecycleHandler (svc : PluginLifecycleHandler) : string * HTTPHandler W B :=
  ("/connectplugin.v1.PluginLifecycle/", λ w r,
    if bool_decide (r.(sq_Path) = PluginLifecycleReportHealthProcedure) then NewUnaryHandler PluginLifecycleReportHealthProcedure svc.(ReportHealth) w r
    else (w, NotFound)).

Definition UnimplementedPluginLifecycleHandler : PluginLifecycleHandler :=
  mkPluginLifecycleHandler (λ w _ _, (w, Err (unimplemented "connectplugin.v1.PluginLifecycle.ReportHealth"))).

Lemma lifecycle_mounted do base svc : mounted do (TrimRight base "/") (NewPluginLifecycleHandler svc) →
  transparent (pluginLifecycleClient_ReportHealth (NewPluginLifecycleClient do base)) svc.(ReportHealth).
Proof. intros Hm. by_procedure "ReportHealth" Hm. Qed.
End stubs.
#[global] Arguments PluginLifecycleHandler : clear implicits.
#[global] Arguments pluginLifecycleClient : clear implicits.
End lifecycleconnect.

Module controlconnect.
Section stubs.
Context {W B GetHealthRequest GetHealthResponse ShutdownRequest ShutdownResponse : Type} `{ConnectGo B}.
Context `{!Message B GetHealthRequest} `{!Message B GetHealthResponse} `{!Message B ShutdownRequest} `{!Message B ShutdownResponse}.

Definition PluginControlName : string := "connectplugin.v1.PluginControl".
Definition PluginControlGetHealthProcedure : string := "/connectplugin.v1.PluginControl/GetHealth".
Definition PluginControlShutdownProcedure : string := "/connectplugin.v1.PluginControl/Shutdown".

Record PluginControlHandler := mkPluginControlHandler {
  GetHealth : Unary W GetHealthRequest GetHealthResponse;
  Shutdown : Unary W ShutdownRequest ShutdownResponse;
}.

Record pluginControlClient := mkPluginControlClient { getHealth : Client W B; shutdown : Client W B }.

Definition NewPluginControlClient (httpClient : HTTPClient W B) (baseURL : string) : pluginControlClient :=
  let baseURL := TrimRight baseURL "/" in
  mkPluginControlClient (NewClient httpClient (baseURL +:+ PluginControlGetHealthProcedure))
    (NewClient httpClient (baseURL +:+ PluginControlShutdownProcedure)).

Definition pluginControlClient_GetHealth (c : pluginControlClient) : Unary W GetHealthRequest GetHealthResponse := CallUnary c.(getHealth).(cc_http) c.(getHealth).(cc_url).
Definition pluginControlClient_Shutdown (c : pluginControlClient) : Unary W ShutdownRequest ShutdownResponse := CallUnary c.(shutdown).(cc_http) c.(shutdown).(cc_url).

Definition NewPluginControlHandler (svc : PluginControlHandler) : string * HTTPHandler W B :=
  ("/connectplugin.v1.PluginControl/", λ w r,
    if bool_decide (r.(sq_Path) = PluginControlGetHealthProcedure) then NewUnaryHandler PluginControlGetHealthProcedure svc.(GetHealth) w r
    else if bool_decide (r.(sq_Path) = PluginControlShutdownProcedure) then NewUnaryHandler PluginControlShutdownProcedure svc.(Shutdown) w r
    else (w, NotFound)).

Definition UnimplementedPluginControlHandler : PluginControlHandler :=
  mkPluginControlHandler (λ w _ _, (w, Err (unimplemented "connectplugin.v1.PluginControl.GetHealth")))
    (λ w _ _, (w, Err (unimplemented "connectplugin.v1.PluginControl.Shutdown"))).

Lemma control_mounted do base svc : mounted do (TrimRight base "/") (NewPluginControlHandler svc) →
  transparent (pluginControlClient_GetHealth (NewPluginControlClient do base)) svc.(GetHealth) ∧
  transparent (pluginControlClient_Shutdown (NewPluginControlClient do base)) svc.(Shutdown).
Proof. intros Hm. split_and!; [by_procedure "GetHealth" Hm|by_procedure "Shutdown" Hm]. Qed.
End stubs.
#[global] Arguments PluginControlHandler : clear implicits.
#[global] Arguments pluginControlClient : clear implicits.
End controlconnect.

Module identityconnect.
Section stubs.
Context {W B GetPluginInfoRequest GetPluginInfoResponse SetRuntimeIdentityRequest SetRuntimeIdentityResponse : Type} `{ConnectGo B}.
Context `{!Message B GetPluginInfoRequest} `{!Message B GetPluginInfoResponse} `{!Message B SetRuntimeIdentityRequest} `{!Message B SetRuntimeIdentityResponse}.

Definition PluginIdentityName : string := "connectplugin.v1.PluginIdentity".
Definition PluginIdentityGetPluginInfoProcedure : string := "/connectplugin.v1.PluginIdentity/GetPluginInfo".
Definition PluginIdentitySetRuntimeIdentityProcedure : string := "/connectplugin.v1.PluginIdentity/SetRuntimeIdentity".

Record PluginIdentityHandler := mkPluginIdentityHandler {
  GetPluginInfo : Unary W GetPluginInfoRequest GetPluginInfoResponse;
  SetRuntimeIdentity : Unary W SetRuntimeIdentityRequest SetRuntimeIdentityResponse;
}.

Record pluginIdentityClient := mkPluginIdentityClient { getPluginInfo : Client W B; setRuntimeIdentity : Client W B }.

Definition NewPluginIdentityClient (httpClient : HTTPClient W B) (baseURL : string) : pluginIdentityClient :=
  let baseURL := TrimRight baseURL "/" in
  mkPluginIdentityClient (NewClient httpClient (baseURL +:+ PluginIdentityGetPluginInfoProcedure))
    (NewClient httpClient (baseURL +:+ PluginIdentitySetRuntimeIdentityProcedure)).

Definition pluginIdentityClient_GetPluginInfo (c : pluginIdentityClient) : Unary W GetPluginInfoRequest GetPluginInfoResponse := CallUnary c.(getPluginInfo).(cc_http) c.(getPluginInfo).(cc_url).
Definition pluginIdentityClient_SetRuntimeIdentity (c : pluginIdentityClient) : Unary W SetRuntimeIdentityRequest SetRuntimeIdentityResponse := CallUnary c.(setRuntimeIdentity).(cc_http) c.(setRuntimeIdentity).(cc_url).

Definition NewPluginIdentityHandler (svc : PluginIdentityHandler) : string * HTTPHandler W B :=
  ("/connectplugin.v1.PluginIdentity/", λ w r,
    if bool_decide (r.(sq_Path) = PluginIdentityGetPluginInfoProcedure) then NewUnaryHandler PluginIdentityGetPluginInfoProcedure svc.(GetPluginInfo) w r
    else if bool_decide (r.(sq_Path) = PluginIdentitySetRuntimeIdentityProcedure) then NewUnaryHandler PluginIdentitySetRuntimeIdentityProcedure svc.(SetRuntimeIdentity) w r
    else (w, NotFound)).

Definition UnimplementedPluginIdentityHandler : PluginIdentityHandler :=
  mkPluginIdentityHandler (λ w _ _, (w, Err (unimplemented "connectplugin.v1.PluginIdentity.GetPluginInfo")))
    (λ w _ _, (w, Err (unimplemented "connectplugin.v1.PluginIdentity.SetRuntimeIdentity"))).

Lemma identity_mounted do base svc : mounted do (TrimRight base "/") (NewPluginIdentityHandler svc) →
  transparent (pluginIdentityClient_GetPluginInfo (NewPluginIdentityClient do base)) svc.(GetPluginInfo) ∧
  transparent (pluginIdentityClient_SetRuntimeIdentity (NewPluginIdentityClient do base)) svc.(SetRuntimeIdentity).
Proof. intros Hm. split_and!; [by_procedure "GetPluginInfo" Hm|by_procedure "SetRuntimeIdentity" Hm]. Qed.
End stubs.
#[global] Arguments PluginIdentityHandler : clear implicits.
#[global] Arguments pluginIdentityClient : clear implicits.
End identityconnect.

Module registryconnect.
Section stubs.
Context {W B RegisterServiceRequest RegisterServiceResponse UnregisterServiceRequest UnregisterServiceResponse DiscoverServiceRequest DiscoverServiceResponse WatchServiceRequest : Type} `{ConnectGo B}.
Context `{!Message B RegisterServiceRequest} `{!Message B RegisterServiceResponse} `{!Message B UnregisterServiceRequest} `{!Message B UnregisterServiceResponse} `{!Message B DiscoverServiceRequest} `{!Message B DiscoverServiceResponse} `{!Message B WatchServiceRequest}.

Definition ServiceRegistryName : string := "connectplugin.v1.ServiceRegistry".
Definition ServiceRegistryRegisterServiceProcedure : string := "/connectplugin.v1.ServiceRegistry/RegisterService".
Definition ServiceRegistryUnregisterServiceProcedure : string := "/connectplugin.v1.ServiceRegistry/UnregisterService".
Definition ServiceRegistryDiscoverServiceProcedure : string := "/connectplugin.v1.ServiceRegistry/DiscoverService".
Definition ServiceRegistryWatchServiceProcedure : string := "/connectplugin.v1.ServiceRegistry/WatchService".

Record ServiceRegistryHandler := mkServiceRegistryHandler {
  RegisterService : Unary W RegisterServiceRequest RegisterServiceResponse;
  UnregisterService : Unary W UnregisterServiceRequest UnregisterServiceResponse;
  DiscoverService : Unary W DiscoverServiceRequest DiscoverServiceResponse;
  WatchService : Streaming W WatchServiceRequest;
}.

Record serviceRegistryClient := mkServiceRegistryClient { registerService : Client W B; unregisterService : Client W B; discoverService : Client W B; watchService : Client W B }.

Definition NewServiceRegistryClient (httpClient : HTTPClient W B) (baseURL : string) : serviceRegistryClient :=
  let baseURL := TrimRight baseURL "/" in
  mkServiceRegistryClient (NewClient httpClient (baseURL +:+ ServiceRegistryRegisterServiceProcedure))
    (NewClient httpClient (baseURL +:+ ServiceRegistryUnregisterServiceProcedure))
    (NewClient httpClient (baseURL +:+ ServiceRegistryDiscoverServiceProcedure))
    (NewClient httpClient (baseURL +:+ ServiceRegistryWatchServiceProcedure)).

Definition serviceRegistryClient_RegisterService (c : serviceRegistryClient) : Unary W RegisterServiceRequest RegisterServiceResponse := CallUnary c.(registerService).(cc_http) c.(registerService).(cc_url).
Definition serviceRegistryClient_UnregisterService (c : serviceRegistryClient) : Unary W UnregisterServiceRequest UnregisterServiceResponse := CallUnary c.(unregisterService).(cc_http) c.(unregisterService).(cc_url).
Definition serviceRegistryClient_DiscoverService (c : serviceRegistryClient) : Unary W DiscoverServiceRequest DiscoverServiceResponse := CallUnary c.(discoverService).(cc_http) c.(discoverService).(cc_url).
Definition serviceRegistryClient_WatchService (c : serviceRegistryClient) : Streaming W WatchServiceRequest := CallServerStream c.(watchService).(cc_http) c.(watchService).(cc_url).

Definition NewServiceRegistryHandler (svc : ServiceRegistryHandler) : string * HTTPHandler W B :=
  ("/connectplugin.v1.ServiceRegistry/", λ w r,
    if bool_decide (r.(sq_Path) = ServiceRegistryRegisterServiceProcedure) then NewUnaryHandler ServiceRegistryRegisterServiceProcedure svc.(RegisterService) w r
    else if bool_decide (r.(sq_Path) = ServiceRegistryUnregisterServiceProcedure) then NewUnaryHandler ServiceRegistryUnregisterServiceProcedure svc.(UnregisterService) w r
    else if bool_decide (r.(sq_Path) = ServiceRegistryDiscoverServiceProcedure) then NewUnaryHandler ServiceRegistryDiscoverServiceProcedure svc.(DiscoverService) w r
    else if bool_decide (r.(sq_Path) = ServiceRegistryWatchServiceProcedure) then NewServerStreamHandler ServiceRegistryWatchServiceProcedure svc.(WatchService) w r
    else (w, NotFound)).

Definition UnimplementedServiceRegistryHandler : ServiceRegistryHandler :=
  mkServiceRegistryHandler (λ w _ _, (w, Err (unimplemented "connectplugin.v1.ServiceRegistry.RegisterService")))
    (λ w _ _, (w, Err (unimplemented "connectplugin.v1.ServiceRegistry.UnregisterService")))
    (λ w _ _, (w, Err (unimplemented "connectplugin.v1.ServiceRegistry.DiscoverService")))
    (λ w _ _, (w, Some (unimplemented "connectplugin.v1.ServiceRegistry.WatchService"))).

Lemma registry_mounted do base svc : mounted do (TrimRight base "/") (NewServiceRegistryHandler svc) →
  transparent (serviceRegistryClient_RegisterService (NewServiceRegistryClient do base)) svc.(RegisterService) ∧
  transparent (serviceRegistryClient_UnregisterService (NewServiceRegistryClient do base)) svc.(UnregisterService) ∧
  transparent (serviceRegistryClient_DiscoverService (NewServiceRegistryClient do base)) svc.(DiscoverService) ∧
  stream_transparent (serviceRegistryClient_WatchService (NewServiceRegistryClient do base)) svc.(WatchService).
Proof. intros Hm. split_and!; [by_procedure "RegisterService" Hm|by_procedure "UnregisterService" Hm|by_procedure "DiscoverService" Hm|by_procedure "WatchService" Hm]. Qed.
End stubs.
#[global] Arguments ServiceRegistryHandler : clear implicits.
#[global] Arguments serviceRegistryClient : clear implicits.
End registryconnect.

Module loggerconnect.
Section stubs.
Context {W B LogRequest LogResponse : Type} `{ConnectGo B}.
Context `{!Message B LogRequest} `{!Message B LogResponse}.

Definition LoggerName : string := "capability.logger.v1.Logger".
Definition LoggerLogProcedure : string := "/capability.logger.v1.Logger/Log".

Record LoggerHandler := mkLoggerHandler {
  Log : Unary W LogRequest LogResponse;
}.

Record loggerClient := mkLoggerClient { log : Client W B }.

Definition NewLoggerClient (httpClient : HTTPClient W B) (baseURL : string) : loggerClient :=
  let baseURL := TrimRight baseURL "/" in
  mkLoggerClient (NewClient httpClient (baseURL +:+ LoggerLogProcedure)).

Definition loggerClient_Log (c : loggerClient) : Unary W LogRequest LogResponse := CallUnary c.(log).(cc_http) c.(log).(cc_url).

Definition NewLoggerHandler (svc : LoggerHandler) : string * HTTPHandler W B :=
  ("/capability.logger.v1.Logger/", λ w r,
    if bool_decide (r.(sq_Path) = LoggerLogProcedure) then NewUnaryHandler LoggerLogProcedure svc.(Log) w r
    else (w, NotFound)).

Definition UnimplementedLoggerHandler : LoggerHandler :=
  mkLoggerHandler (λ w _ _, (w, Err (unimplemented "capability.logger.v1.Logger.Log"))).

Lemma logger_mounted do base svc : mounted do (TrimRight base "/") (NewLoggerHandler svc) →
  transparent (loggerClient_Log (NewLoggerClient do base)) svc.(Log).
Proof. intros Hm. by_procedure "Log" Hm. Qed.
End stubs.
#[global] Arguments LoggerHandler : clear implicits.
#[global] Arguments loggerClient : clear implicits.
End loggerconnect.

Module kvconnect.
Section stubs.
Context {W B GetRequest GetResponse PutRequest PutResponse DeleteRequest DeleteResponse WatchRequest : Type} `{ConnectGo B}.
Context `{!Message B GetRequest} `{!Message B GetResponse} `{!Message B PutRequest} `{!Message B PutResponse} `{!Message B DeleteRequest} `{!Message B DeleteResponse} `{!Message B WatchRequest}.

Definition KVServiceName : string := "kv.v1.KVService".
Definition KVServiceGetProcedure : string := "/kv.v1.KVService/Get".
Definition KVServicePutProcedure : string := "/kv.v1.KVService/Put".
Definition KVServiceDeleteProcedure : string := "/kv.v1.KVService/Delete".
Definition KVServiceWatchProcedure : string := "/kv.v1.KVService/Watch".

Record KVServiceHandler := mkKVServiceHandler {
  Get : Unary W GetRequest GetResponse;
  Put : Unary W PutRequest PutResponse;
  Delete : Unary W DeleteRequest DeleteResponse;
  Watch : Streaming W WatchRequest;
}.

Record kVServiceClient := mkKVServiceClient { get : Client W B; put : Client W B; delete : Client W B; watch : Client W B }.

Definition NewKVServiceClient (httpClient : HTTPClient W B) (baseURL : string) : kVServiceClient :=
  let baseURL := TrimRight baseURL "/" in
  mkKVServiceClient (NewClient httpClient (baseURL +:+ KVServiceGetProcedure))
    (NewClient httpClient (baseURL +:+ KVServicePutProcedure))
    (NewClient httpClient (baseURL +:+ KVServiceDeleteProcedure))
    (NewClient httpClient (baseURL +:+ KVServiceWatchProcedure)).

Definition kVServiceClient_Get (c : kVServiceClient) : Unary W GetRequest GetResponse := CallUnary c.(get).(cc_http) c.(get).(cc_url).
Definition kVServiceClient_Put (c : kVServiceClient) : Unary W PutRequest PutResponse := CallUnary c.(put).(cc_http) c.(put).(cc_url).
Definition kVServiceClient_Delete (c : kVServiceClient) : Unary W DeleteRequest DeleteResponse := CallUnary c.(delete).(cc_http) c.(delete).(cc_url).
Definition kVServiceClient_Watch (c : kVServiceClient) : Streaming W WatchRequest := CallServerStream c.(watch).(cc_http) c.(watch).(cc_url).

Definition NewKVServiceHandler (svc : KVServiceHandler) : string * HTTPHandler W B :=
  ("/kv.v1.KVService/", λ w r,
    if bool_decide (r.(sq_Path) = KVServiceGetProcedure) then NewUnaryHandler KVServiceGetProcedure svc.(Get) w r
    else if bool_decide (r.(sq_Path) = KVServicePutProcedure) then NewUnaryHandler KVServicePutProcedure svc.(Put) w r
    else if bool_decide (r.(sq_Path) = KVServiceDeleteProcedure) then NewUnaryHandler KVServiceDeleteProcedure svc.(Delete) w r
    else if bool_decide (r.(sq_Path) = KVServiceWatchProcedure) then NewServerStreamHandler KVServiceWatchProcedure svc.(Watch) w r
    else (w, NotFound)).

Definition UnimplementedKVServiceHandler : KVServiceHandler :=
  mkKVServiceHandler (λ w _ _, (w, Err (unimplemented "kv.v1.KVService.Get")))
    (λ w _ _, (w, Err (unimplemented "kv.v1.KVService.Put")))
    (λ w _ _, (w, Err (unimplemented "kv.v1.KVService.Delete")))
    (λ w _ _, (w, Some (unimplemented "kv.v1.KVService.Watch"))).

Lemma kv_mounted do base svc : mounted do (TrimRight base "/") (NewKVServiceHandler svc) →
  transparent (kVServiceClient_Get (NewKVServiceClient do base)) svc.(Get) ∧
  transparent (kVServiceClient_Put (NewKVServiceClient do base)) svc.(Put) ∧
  transparent (kVServiceClient_Delete (NewKVServiceClient do base)) svc.(Delete) ∧
  stream_transparent (kVServiceClient_Watch (NewKVServiceClient do base)) svc.(Watch).
Proof. intros Hm. split_and!; [by_procedure "Get" Hm|by_procedure "Put" Hm|by_procedure "Delete" Hm|by_procedure "Watch" Hm]. Qed.
End stubs.
#[global] Arguments KVServiceHandler : clear implicits.
#[global] Arguments kVServiceClient : clear implicits.
End kvconnect.

