(* ===== verification/Wire.v ===== *)
(** * The deployments on the wire

    The RPCs of the example host and of a served plugin, as they are made: the
    generated client sends to a URL, the server's mux finds the generated handler, and
    the handler finds the method.  Both are shown to be the calls the other files
    make directly ([net_world], [served_peer]). *)

From stdpp Require Import prelude gmap strings list fin_maps countable.
From Stdlib Require Import ZArith Ascii.
From S2P Require Import Prelude GoRuntime Identity Lifecycle Plugin Handshake Health Client Server NetURL PluginApp KVStore Host KVPrograms Connect Stubs.
From S2P Require Registry Router.

(** ** URLs of procedures *)

Module wireurl.
Import neturl.

Lemma every_byte (f : ascii → bool) : forallb f (ascii_of_nat <$> seq 0 256) = true → ∀ c, f c = true.
Proof.
  rewrite forallb_forall. intros Hall c. apply Hall, list_elem_of_In, list_elem_of_fmap.
  exists (nat_of_ascii c). split; [by rewrite ascii_nat_embedding|]. apply elem_of_seq. pose proof (nat_ascii_bounded c). lia.
Qed.

(** A byte that is neither a control nor one of some others. *)
Definition plain (others : list ascii) (c : ascii) : bool := negb (is_ctl c) && forallb (λ d, bool_decide (c ≠ d)) others.

Definition path_byte (c : ascii) : bool := is_alnum c || bool_decide (c = "/"%char) || bool_decide (c = "."%char).

Lemma host_byte_plain c : host_byte c = true → plain ["/"; "?"; "#"]%char c = true.
Proof.
  pose proof (every_byte (λ c, implb (host_byte c) (plain ["/"; "?"; "#"]%char c)) ltac:(vm_compute; reflexivity) c) as H.
  intros E. cbn beta in H. by rewrite E in H.
Qed.

Lemma path_byte_plain c : path_byte c = true → plain ["%"; "+"; "?"; "#"]%char c = true.
Proof.
  pose proof (every_byte (λ c, implb (path_byte c) (plain ["%"; "+"; "?"; "#"]%char c)) ltac:(vm_compute; reflexivity) c) as H.
  intros E. cbn beta in H. by rewrite E in H.
Qed.

Lemma plain_without others c s : c ∈ others → str_all (plain others) s = true → free_of c s = true.
Proof.
  intros Hc. apply str_all_impl. unfold plain. intros a. rewrite andb_true_iff, forallb_forall, bool_decide_eq_true.
  intros [_ H]. by apply list_elem_of_In, H, bool_decide_eq_true in Hc.
Qed.

Lemma plain_ctl others s : str_all (plain others) s = true → str_all (λ c, negb (is_ctl c)) s = true.
Proof. apply str_all_impl. unfold plain. intros a. by rewrite andb_true_iff; intros []. Qed.

(** The URL of a path without a query. *)
Lemma parse_url_path authority path : valid_authority authority = true → HasPrefix path "/" = true →
  str_all path_byte path = true → parse_url ("http://" +:+ authority +:+ path) = Some (mkURL authority path "").
Proof.
  intros Ha Hp Hb.
  assert (Hh : str_all (plain ["/"; "?"; "#"]%char) authority = true).
  { unfold valid_authority in Ha. apply andb_true_iff in Ha as [Ha _]. eapply str_all_impl; [apply host_byte_plain|done]. }
  assert (Hq : str_all (plain ["%"; "+"; "?"; "#"]%char) path = true) by (eapply str_all_impl; [apply path_byte_plain|done]).
  assert (Hf : ∀ c, c ∈ ["?"; "#"]%char → free_of c ("http://" +:+ authority +:+ path) = true).
  { intros c Hc. rewrite !free_of_app, (plain_without ["/"; "?"; "#"]%char c authority), (plain_without ["%"; "+"; "?"; "#"]%char c path) by (done || set_solver).
    rewrite !andb_true_r. apply elem_of_cons in Hc as [->|Hc]; [reflexivity|]. apply list_elem_of_singleton in Hc as ->. reflexivity. }
  unfold parse_url. rewrite Cut_free by (apply Hf; set_solver). cbn [unescape].
  rewrite !str_all_app, (plain_ctl _ _ Hh), (plain_ctl _ _ Hq). cbn [negb andb str_all].
  rewrite strip_prefix_app, Cut_free.
  2:{ specialize (Hf "?"%char ltac:(set_solver)). rewrite free_of_app in Hf. by apply andb_true_iff in Hf as [_ Hf]. }
  apply HasPrefix_true in Hp as [q ->]. unfold split_authority. change ("/" +:+ q) with (String "/" q).
  rewrite cut_app by (apply (plain_without ["/"; "?"; "#"]%char); [set_solver|done]). rewrite Ha. cbn [negb].
  rewrite unescape_literal; [done|]. unfold literal. rewrite !(plain_without ["%"; "+"; "?"; "#"]%char); [done|set_solver|done|set_solver|done].
Qed.

End wireurl.

(** ** Messages that have no record of their own, and a codec *)

Module wiremessages.
Import handshake connectgo.

(** The request message of a registration; its header field is apart. *)
Record RegisterMessage := mkRegisterMessage {
  rm_ServiceType : string;
  rm_Version : string;
  rm_EndpointPath : string;
  rm_Metadata : gmap string string;
}.

(** Bodies that are the messages themselves. *)
Inductive ex_body :=
| BHandshake (m : HandshakeRequest)
| BHandshakeResponse (m : HandshakeResponse)
| BRegister (m : RegisterMessage)
| BString (m : string)
| BPair (m : (string * string))
| BDiscovered (m : Registry.registry.DiscoverServiceResponse)
| BReport (m : client.ReportHealthRequest)
| BStatus (m : Z)
| BGot (m : (string * bool))
| BBool (m : bool)
| BUnit.

Definition ex_handshake : Message ex_body HandshakeRequest.
Proof. by refine {| marshal := BHandshake; unmarshal b := match b with BHandshake m => Some m | _ => None end |}. Defined.
Definition ex_handshake_response : Message ex_body HandshakeResponse.
Proof. by refine {| marshal := BHandshakeResponse; unmarshal b := match b with BHandshakeResponse m => Some m | _ => None end |}. Defined.
Definition ex_register : Message ex_body RegisterMessage.
Proof. by refine {| marshal := BRegister; unmarshal b := match b with BRegister m => Some m | _ => None end |}. Defined.
Definition ex_string : Message ex_body string.
Proof. by refine {| marshal := BString; unmarshal b := match b with BString m => Some m | _ => None end |}. Defined.
Definition ex_pair : Message ex_body (string * string).
Proof. by refine {| marshal := BPair; unmarshal b := match b with BPair m => Some m | _ => None end |}. Defined.
Definition ex_discovered : Message ex_body Registry.registry.DiscoverServiceResponse.
Proof. by refine {| marshal := BDiscovered; unmarshal b := match b with BDiscovered m => Some m | _ => None end |}. Defined.
Definition ex_report : Message ex_body client.ReportHealthRequest.
Proof. by refine {| marshal := BReport; unmarshal b := match b with BReport m => Some m | _ => None end |}. Defined.
Definition ex_status : Message ex_body Z.
Proof. by refine {| marshal := BStatus; unmarshal b := match b with BStatus m => Some m | _ => None end |}. Defined.
Definition ex_got : Message ex_body (string * bool).
Proof. by refine {| marshal := BGot; unmarshal b := match b with BGot m => Some m | _ => None end |}. Defined.
Definition ex_bool : Message ex_body bool.
Proof. by refine {| marshal := BBool; unmarshal b := match b with BBool m => Some m | _ => None end |}. Defined.
Definition ex_unit : Message ex_body unit.
Proof. refine {| marshal _ := BUnit; unmarshal b := match b with BUnit => Some () | _ => None end |}. by intros []. Defined.
Definition ex_go : ConnectGo ex_body := ex_connect BUnit (unit_message := ex_unit).

End wiremessages.

(** ** A client and one server *)

Module wirehttp.
Import neturl connectgo.

Definition failure {A} (r : res A) : option error := match r with Ok _ => None | Err e => Some e end.
Definition done (e : option error) : res unit := match e with None => Ok () | Some e => Err e end.

Section http.
Context {W B : Type} (authority : string) (unreachable : error) (serve : HTTPHandler W B).

(** [http.DefaultClient], where one server listens. *)
Definition DefaultClient : HTTPClient W B := λ w r,
  match parse_url r.(wq_URL) with
  | Some u => if bool_decide (u.(u_Host) = authority)
              then let '(w', x) := serve w (arriving u.(u_Path) r) in (w', Ok x)
              else (w, Err unreachable)
  | None => (w, Err unreachable)
  end.

Lemma HasPrefix_under s t p : HasPrefix s p = true → HasPrefix (s +:+ t) p = true.
Proof. intros [q ->]%HasPrefix_true. by rewrite str_app_assoc, HasPrefix_app. Qed.

(** A handler that the server leads its paths to is mounted. *)
Lemma reaches (Ha : valid_authority authority = true) (ph : string * HTTPHandler W B) :
  HasPrefix ph.1 "/" = true → str_all wireurl.path_byte ph.1 = true →
  (∀ w r p, serve w (arriving (ph.1 +:+ p) r) = ph.2 w (arriving (ph.1 +:+ p) r)) →
  mounted DefaultClient ("http://" +:+ authority) ph.
Proof.
  intros Hq Hb Hs w r p Hp Hu. unfold DefaultClient. rewrite Hu, str_app_assoc.
  rewrite wireurl.parse_url_path; [|assumption|by apply HasPrefix_under|].
  - cbn [u_Host u_Path]. by rewrite bool_decide_eq_true_2, Hs.
  - rewrite str_all_app, Hb. eapply str_all_impl; [|exact Hp]. intros c Hc. unfold wireurl.path_byte, is_alnum. by rewrite Hc.
Qed.

(** A path that the server has nothing for. *)
Lemma not_reached (Ha : valid_authority authority = true) path w r : HasPrefix path "/" = true → str_all wireurl.path_byte path = true →
  (∀ r, serve w (arriving path r) = (w, NotFound)) → r.(wq_URL) = "http://" +:+ authority +:+ path →
  DefaultClient w r = (w, Ok NotFound).
Proof.
  intros Hq Hb Hs Hu. unfold DefaultClient. rewrite Hu, wireurl.parse_url_path by assumption. cbn [u_Host u_Path].
  by rewrite bool_decide_eq_true_2, Hs.
Qed.
End http.
End wirehttp.

(** ** The example host *)

Module wirehost.
Import lifecycle plugin handshake client neturl pluginapp host connectgo wirehttp wiremessages.
Import Registry.registry Router.router.

Section host.
Context {Impl Handler Stub R B : Type} `{GoRange} `{ConnectGo B}.
Context `{!Message B HandshakeRequest} `{!Message B HandshakeResponse} `{!Message B RegisterMessage} `{!Message B string}
  `{!Message B (string * string)} `{!Message B DiscoverServiceResponse} `{!Message B client.ReportHealthRequest} `{!Message B unit}.
Abbreviation Net := (Net Impl Handler Stub R).

(** The host, and the requests that no RPC makes: those to the router and the health
    page. *)
Context (E : Env Impl Handler Stub) (other : HTTPHandler Net B).

(** *** The servers as handlers: what each method does to the host *)

Definition handshake_service : handshakeconnect.HandshakeServiceHandler Net HandshakeRequest HandshakeResponse :=
  handshakeconnect.mkHandshakeServiceHandler (λ w _ req, turn E (λ n, host_Handshake E n req) w).

Definition lifecycle_service : lifecycleconnect.PluginLifecycleHandler Net client.ReportHealthRequest unit :=
  lifecycleconnect.mkPluginLifecycleHandler (λ w hdr req,
    let '(w', e) := turn E (λ _, host_ReportHealth hdr req) w in (w', wirehttp.done e)).

(** A watcher's address is the number of the step that makes it. *)
Definition registry_service :
    registryconnect.ServiceRegistryHandler Net RegisterMessage string string unit (string * string) DiscoverServiceResponse string :=
  registryconnect.mkServiceRegistryHandler
    (λ w hdr m, turn E (λ n, host_RegisterService E n
       (mkRegisterServiceRequest hdr m.(rm_ServiceType) m.(rm_Version) m.(rm_EndpointPath) m.(rm_Metadata))) w)
    (λ w _ id, turn E (λ _ h,
       let '(r, e) := UnregisterService (Some h.(lifecycleServer)) h.(registry) id in (with_registry h r, wirehttp.done e)) w)
    (λ w _ req, turn E (λ n, host_DiscoverService E n req.1 req.2) w)
    (λ w _ t, turn E (λ n h, (with_registry h (WatchService_open (Some h.(lifecycleServer)) h.(registry) t n), None)) w).

(** *** The host's mux, and a client's way to it *)

Definition serve : HTTPHandler Net B := λ w r,
  match server.dispatch host_mux r.(sq_Path) with
  | Some HHandshake => (handshakeconnect.NewHandshakeServiceHandler handshake_service).2 w r
  | Some HLifecycle => (lifecycleconnect.NewPluginLifecycleHandler lifecycle_service).2 w r
  | Some HRegistry => (registryconnect.NewServiceRegistryHandler registry_service).2 w r
  | Some _ => other w r
  | None => (w, NotFound)
  end.

Definition DefaultClient : HTTPClient Net B := wirehttp.DefaultClient E.(host_authority) unreachable serve.

(** *** The RPCs of a plugin, through the generated clients *)

Definition wire_world (elsewhere : World Net) : World Net := {|
  rpc_Handshake w ep req :=
    handshakeconnect.handshakeServiceClient_Handshake
      (handshakeconnect.NewHandshakeServiceClient DefaultClient ep) w ∅ req;
  rpc_RegisterService w ep req :=
    registryconnect.serviceRegistryClient_RegisterService
      (registryconnect.NewServiceRegistryClient DefaultClient ep) w req.(rs_header)
      (mkRegisterMessage req.(rs_ServiceType) req.(rs_Version) req.(rs_EndpointPath) req.(rs_Metadata));
  rpc_DiscoverService w ep hdr t v :=
    registryconnect.serviceRegistryClient_DiscoverService (registryconnect.NewServiceRegistryClient DefaultClient ep) w hdr (t, v);
  rpc_ReportHealth w ep hdr req :=
    let '(w', r) := lifecycleconnect.pluginLifecycleClient_ReportHealth (ReportHealthResponse := unit)
                      (lifecycleconnect.NewPluginLifecycleClient DefaultClient ep) w hdr req in (w', failure r);
  http_Do := elsewhere.(http_Do);
  sleeps := elsewhere.(sleeps);
|}.

(** *** Lemmas *)

Lemma handshake_reached (Ha : valid_authority E.(host_authority) = true) :
  mounted DefaultClient (address E) (handshakeconnect.NewHandshakeServiceHandler handshake_service).
Proof. by apply reaches. Qed.

Lemma lifecycle_reached (Ha : valid_authority E.(host_authority) = true) :
  mounted DefaultClient (address E) (lifecycleconnect.NewPluginLifecycleHandler lifecycle_service).
Proof. by apply reaches. Qed.

Lemma registry_reached (Ha : valid_authority E.(host_authority) = true) :
  mounted DefaultClient (address E) (registryconnect.NewServiceRegistryHandler registry_service).
Proof. by apply reaches. Qed.

(** The header fields that the host looks at arrive. *)
Lemma kept_id (hdr hdr' : Header) : kept hdr hdr' →
  Header_Get hdr' "X-Plugin-Runtime-ID" = Header_Get hdr "X-Plugin-Runtime-ID".
Proof. intros Hk. apply Hk, runtime_id_free. Qed.

Lemma register_by_id rd now lc r hdr1 hdr2 t v p md :
  Header_Get hdr1 "X-Plugin-Runtime-ID" = Header_Get hdr2 "X-Plugin-Runtime-ID" →
  RegisterService rd now lc r (mkRegisterServiceRequest hdr1 t v p md) =
  RegisterService rd now lc r (mkRegisterServiceRequest hdr2 t v p md).
Proof.
  intros Hid. unfold RegisterService, validate_registration.
  cbn [rs_header rs_ServiceType rs_Version rs_EndpointPath rs_Metadata]. by rewrite Hid.
Qed.

Lemma report_by_id (hdr1 hdr2 : Header) req (h : ServiceRouter Impl Handler Stub) :
  Header_Get hdr1 "X-Plugin-Runtime-ID" = Header_Get hdr2 "X-Plugin-Runtime-ID" →
  host_ReportHealth hdr1 req h = host_ReportHealth hdr2 req h.
Proof. intros Hid. unfold host_ReportHealth, lifecycle.ReportHealth. cbn [rh_header]. by rewrite Hid. Qed.

(** C19: the RPCs of the example host on the wire.  A plugin's generated clients, given
    the host's address (with or without slashes at its end), reach the host's methods:
    every handshake, registration, discovery and report that travels as an HTTP
    request through the mux and the generated handlers does to the host what the
    direct call of the model does, and answers the same, errors with the same code.
    A service the host does not mount answers Unimplemented and changes nothing. *)
Theorem host_on_wire backend rpc_page ep (w : Net) (Ha : valid_authority E.(host_authority) = true)
    (Hep : TrimRight ep "/" = address E) :
  let direct := net_world backend rpc_page E in let wire := wire_world direct in
  (∀ req, wire.(rpc_Handshake) w ep req =
     let '(w', r) := direct.(rpc_Handshake) w (address E) req in (w', received r)) ∧
  (∀ req, wire.(rpc_RegisterService) w ep req =
     let '(w', r) := direct.(rpc_RegisterService) w (address E) req in (w', received r)) ∧
  (∀ hdr t v, wire.(rpc_DiscoverService) w ep hdr t v =
     let '(w', r) := direct.(rpc_DiscoverService) w (address E) hdr t v in (w', received r)) ∧
  (∀ hdr req, wire.(rpc_ReportHealth) w ep hdr req =
     let '(w', e) := direct.(rpc_ReportHealth) w (address E) hdr req in (w', received_error <$> e)) ∧
  (∀ hdr service, ∃ e, healthconnect.healthServiceClient_Check (HealthCheckResponse := string)
     (healthconnect.NewHealthServiceClient DefaultClient ep) w hdr service = (w, Err e) ∧ CodeOf e = CodeUnimplemented).
Proof.
  cbn zeta. cbn [rpc_Handshake rpc_RegisterService rpc_DiscoverService rpc_ReportHealth wire_world net_world].
  rewrite at_host_address. split_and!.
  - intros req. pose proof (handshakeconnect.handshake_mounted DefaultClient ep handshake_service) as Ht. rewrite Hep in Ht.
    destruct (Ht (handshake_reached Ha) w ∅ req) as (hdr' & _ & ->). reflexivity.
  - intros [hdr t v p md]. cbn [rs_header rs_ServiceType rs_Version rs_EndpointPath rs_Metadata].
    pose proof (registryconnect.registry_mounted DefaultClient ep registry_service) as Ht. rewrite Hep in Ht.
    destruct (proj1 (Ht (registry_reached Ha)) w hdr (mkRegisterMessage t v p md)) as (hdr' & Hk & ->).
    cbn [registryconnect.RegisterService registry_service rm_ServiceType rm_Version rm_EndpointPath rm_Metadata].
    unfold turn, host_RegisterService. by rewrite (register_by_id _ _ _ _ hdr' hdr t v p md (kept_id _ _ Hk)).
  - intros hdr t v. pose proof (registryconnect.registry_mounted DefaultClient ep registry_service) as Ht. rewrite Hep in Ht.
    destruct (proj1 (proj2 (proj2 (Ht (registry_reached Ha)))) w hdr (t, v)) as (hdr' & _ & ->). reflexivity.
  - intros hdr req. pose proof (lifecycleconnect.lifecycle_mounted DefaultClient ep lifecycle_service) as Ht. rewrite Hep in Ht.
    destruct (Ht (lifecycle_reached Ha) w hdr req) as (hdr' & Hk & ->).
    cbn [lifecycleconnect.ReportHealth lifecycle_service]. unfold turn. rewrite (report_by_id _ hdr _ _ (kept_id _ _ Hk)).
    destruct (host_ReportHealth hdr req _) as [h e]. by destruct e.
  - intros hdr service. unfold healthconnect.healthServiceClient_Check, healthconnect.NewHealthServiceClient. rewrite Hep.
    cbn [healthconnect.check cc_http cc_url]. apply not_found_law. intros r Hr. apply (not_reached _ _ _ Ha "/connectplugin.health.v1.HealthService/Check"); [done..|].
    by rewrite Hr; unfold address; rewrite str_app_assoc.
Qed.

End host.

(** *** A plugin's handshake with a new host, on the wire *)

#[local] Existing Instances ex_handshake ex_handshake_response ex_register ex_string ex_pair ex_discovered ex_report ex_unit ex_go.

Definition ex_env : Env unit unit unit :=
  mkEnv "host:8080" (λ _, 0%Z) (λ n, identity.rand_seq (Z.of_nat n)) (λ _ _, 0%Z) (λ _ h, h).
Definition ex_net : Net unit unit unit unit := mkNet new_host 0 ().
Definition ex_page : Response string := http_Error "405 Method Not Allowed" 405.
Definition ex_request : HandshakeRequest := mkHandshakeRequest 1 1 DefaultMagicCookieKey DefaultMagicCookieValue [] "cache".
Definition ex_backend (authority : string) (w : Net unit unit unit unit) (req : Request string) :
    Net unit unit unit unit * res (Response string) := (w, Err unreachable).

Lemma host_on_wire_witness :
  let direct := net_world ex_backend ex_page ex_env in
  let wire := wire_world ex_env (λ w _, (w, NotFound)) direct in
  wire.(rpc_Handshake) ex_net "http://host:8080/" ex_request = direct.(rpc_Handshake) ex_net "http://host:8080" ex_request ∧
  is_ok (direct.(rpc_Handshake) ex_net "http://host:8080" ex_request).2 = true.
Proof.
  pose proof (host_on_wire ex_env (λ w _, (w, NotFound)) ex_backend ex_page "http://host:8080/" ex_net eq_refl eq_refl) as Hw.
  cbn zeta in Hw |- *. split; [|vm_compute; reflexivity]. etransitivity; [exact (proj1 Hw ex_request)|]. vm_compute. reflexivity.
Defined.

End wirehost.

(** ** A served key-value plugin *)

Module wirepeer.
Import identity plugin handshake health client server neturl kvserver kvclient kvserved connectgo wirehttp wiremessages.

Section served.
Context {Impl Handler Stub Typed B : Type} `{GoRange} `{ConnectGo B}.
Context `{!Message B HandshakeRequest} `{!Message B HandshakeResponse} `{!Message B string} `{!Message B Z}
  `{!Message B (string * string)} `{!Message B (string * bool)} `{!Message B bool} `{!Message B unit}.
Abbreviation served := (served (Impl := Impl) (Handler := Handler) (Stub := Stub)).

(** The server's authority, the generated handler among its mounts, and what the
    direct calls depend on. *)
Context (authority : string) (typed_url : Typed → string) (rd1 rd2 : Rand) (now : Time) (pick : nat → bool) (h : Handler).

Definition url : string := "http://" +:+ authority.

Definition handshake_service : handshakeconnect.HandshakeServiceHandler served HandshakeRequest HandshakeResponse :=
  handshakeconnect.mkHandshakeServiceHandler (λ w _ req,
    let '(hs, r) := Handshake rd1 rd2 now None w.(sv_handshake) req in
    (mkServed hs w.(sv_health) w.(sv_mux) w.(sv_store), r)).

(** The watchers of health and of the store are at address zero. *)
Definition health_service : healthconnect.HealthServiceHandler served string Z :=
  healthconnect.mkHealthServiceHandler (λ w _ service, (w, Check w.(sv_health) service))
    (λ w _ service, (mkServed w.(sv_handshake) (Watch_open w.(sv_health) service 0) w.(sv_mux) w.(sv_store), None)).

Definition kv_service : kvconnect.KVServiceHandler served string (string * bool) (string * string) unit string bool string :=
  kvconnect.mkKVServiceHandler
    (λ w _ k, (w, Ok (kv.Get w.(sv_store) k)))
    (λ w _ m, let '(s, e) := kv.Put pick w.(sv_store) m.1 m.2 in (with_sv_store w s, wirehttp.done e))
    (λ w _ k, let '(s, found) := kv.Delete pick w.(sv_store) k in (with_sv_store w s, Ok found))
    (λ w _ prefix, (with_sv_store w (kv.Watch_register w.(sv_store) 0 prefix), None)).

(** The server, once assembled; the probes are plain pages. *)
Context (other : HTTPHandler served B).

Definition serve : HTTPHandler served B := λ w r,
  match dispatch (standalone_mux h) r.(sq_Path) with
  | Some MHandshake => (handshakeconnect.NewHandshakeServiceHandler handshake_service).2 w r
  | Some MHealthRPC => (healthconnect.NewHealthServiceHandler health_service).2 w r
  | Some (MPlugin _ _) => (kvconnect.NewKVServiceHandler kv_service).2 w r
  | Some _ => other w r
  | None => (w, NotFound)
  end.

Definition DefaultClient : HTTPClient served B := wirehttp.DefaultClient authority lost serve.

Definition wire_peer : Peer served Typed := {|
  pr_Handshake w ep req :=
    handshakeconnect.handshakeServiceClient_Handshake (handshakeconnect.NewHandshakeServiceClient DefaultClient ep) w ∅ req;
  pr_Check w ep service :=
    healthconnect.healthServiceClient_Check (HealthCheckResponse := Z) (healthconnect.NewHealthServiceClient DefaultClient ep) w ∅ service;
  pr_Put w t k v :=
    let '(w', r) := kvconnect.kVServiceClient_Put (PutResponse := unit)
                      (kvconnect.NewKVServiceClient DefaultClient (typed_url t)) w ∅ (k, v) in (w', failure r);
  pr_Get w t k := kvconnect.kVServiceClient_Get (kvconnect.NewKVServiceClient DefaultClient (typed_url t)) w ∅ k;
  pr_Delete w t k := kvconnect.kVServiceClient_Delete (kvconnect.NewKVServiceClient DefaultClient (typed_url t)) w ∅ k;
|}.

Lemma peer_handshake_reached (Ha : valid_authority authority = true) :
  mounted DefaultClient url (handshakeconnect.NewHandshakeServiceHandler handshake_service).
Proof. by apply reaches. Qed.

Lemma health_reached (Ha : valid_authority authority = true) :
  mounted DefaultClient url (healthconnect.NewHealthServiceHandler health_service).
Proof. by apply reaches. Qed.

Lemma kv_reached (Ha : valid_authority authority = true) : mounted DefaultClient url (kvconnect.NewKVServiceHandler kv_service).
Proof. by apply reaches. Qed.

(** The calls of the key-value client on the wire: against a standalone server at
    an address, the generated clients of the handshake, the health and the key-value
    service do through HTTP requests, the server's mux and the generated handlers
    exactly what the direct calls of the model do, whatever the slashes at the end of
    the URLs; errors keep their codes. *)
Lemma peer_on_wire ep t (w : served) (Ha : valid_authority authority = true) (Hep : TrimRight ep "/" = url)
    (Ht : TrimRight (typed_url t) "/" = url) (Hm : w.(sv_mux) = standalone_mux h) :
  let direct := served_peer (Typed := Typed) url (λ _, url) rd1 rd2 now pick in
  (∀ req, wire_peer.(pr_Handshake) w ep req = let '(w', r) := direct.(pr_Handshake) w url req in (w', received r)) ∧
  (∀ service, wire_peer.(pr_Check) w ep service = let '(w', r) := direct.(pr_Check) w url service in (w', received r)) ∧
  (∀ k v, wire_peer.(pr_Put) w t k v = let '(w', e) := direct.(pr_Put) w t k v in (w', received_error <$> e)) ∧
  (∀ k, wire_peer.(pr_Get) w t k = let '(w', r) := direct.(pr_Get) w t k in (w', received r)) ∧
  (∀ k, wire_peer.(pr_Delete) w t k = let '(w', r) := direct.(pr_Delete) w t k in (w', received r)).
Proof.
  cbn zeta. cbn [pr_Handshake pr_Check pr_Put pr_Get pr_Delete wire_peer served_peer].
  unfold kvserved.reaches. rewrite Hm, bool_decide_eq_true_2 by done. cbn [andb].
  pose proof (handshakeconnect.handshake_mounted DefaultClient ep handshake_service) as Q1. rewrite Hep in Q1. specialize (Q1 (peer_handshake_reached Ha)).
  pose proof (healthconnect.health_mounted DefaultClient ep health_service) as Q2. rewrite Hep in Q2. specialize (Q2 (health_reached Ha)).
  pose proof (kvconnect.kv_mounted DefaultClient (typed_url t) kv_service) as Q3. rewrite Ht in Q3. specialize (Q3 (kv_reached Ha)).
  split_and!.
  - intros req. destruct (Q1 w ∅ req) as (hdr' & _ & ->). cbn. by rewrite Hm.
  - intros service. by destruct (proj1 Q2 w ∅ service) as (hdr' & _ & ->).
  - intros k v. destruct (proj1 (proj2 Q3) w ∅ (k, v)) as (hdr' & _ & ->). cbn.
    unfold kv.Put. by case_bool_decide.
  - intros k. by destruct (proj1 Q3 w ∅ k) as (hdr' & _ & ->).
  - intros k. by destruct (proj1 (proj2 (proj2 Q3)) w ∅ k) as (hdr' & _ & ->).
Qed.

Abbreviation direct := (served_peer (Typed := Typed) url (λ _, url) rd1 rd2 now pick).

(** A step of the client programs: the wire call is the direct one, and the mux stays. *)
Lemma exercise_on_wire t (w : served) s1 s2 (Ha : valid_authority authority = true)
    (Ht : TrimRight (typed_url t) "/" = url) (Hm : w.(sv_mux) = standalone_mux h) :
  exercise (H0 := wire_peer) w t s1 s2 = exercise (H0 := direct) w t s1 s2.
Proof.
  assert (Hops : ∀ w : served, w.(sv_mux) = standalone_mux h →
    (∀ k v, let '(w', e) := direct.(pr_Put) w t k v in w'.(sv_mux) = standalone_mux h ∧ wire_peer.(pr_Put) w t k v = (w', received_error <$> e)) ∧
    (∀ k, ∃ x, direct.(pr_Get) w t k = (w, Ok x) ∧ wire_peer.(pr_Get) w t k = (w, Ok x)) ∧
    (∀ k, ∃ w' found, direct.(pr_Delete) w t k = (w', Ok found) ∧ wire_peer.(pr_Delete) w t k = (w', Ok found) ∧
       w'.(sv_mux) = standalone_mux h)).
  { clear w Hm. intros w Hm. destruct (peer_on_wire (typed_url t) t w Ha Ht Ht Hm) as (_ & _ & E1 & E2 & E3).
    split_and!.
    - intros k v. rewrite E1. cbn [pr_Put served_peer]. unfold kvserved.reaches. rewrite Hm, bool_decide_eq_true_2 by reflexivity.
      cbn. unfold kv.Put. by case_bool_decide.
    - intros k. rewrite E2. cbn [pr_Get served_peer]. unfold kvserved.reaches. rewrite Hm, bool_decide_eq_true_2 by reflexivity.
      by eexists.
    - intros k. rewrite E3. cbn [pr_Delete served_peer]. unfold kvserved.reaches. rewrite Hm, bool_decide_eq_true_2 by reflexivity.
      by eexists _, _. }
  unfold exercise. pose proof (proj1 (Hops w Hm) "hello" "world") as Hput.
  destruct (direct.(pr_Put) w t "hello" "world") as [w1 e]. destruct Hput as [Hm1 ->]. destruct e as [e|]; [done|]. cbn [fmap option_fmap option_map].
  destruct (proj1 (proj2 (Hops w1 Hm1)) "hello") as ([value found] & -> & ->). destruct found; [|done].
  destruct (proj2 (proj2 (Hops w1 Hm1)) "hello") as (w2 & found & -> & -> & Hm2).
  by destruct (proj1 (proj2 (Hops w2 Hm2)) "hello") as (x & -> & ->).
Qed.

End served.

(** A client that has connected dispenses its plugin at its endpoint. *)
Lemma fresh_dispenses {Impl Handler Stub : Type} `{GoRange} (p : Plugin Impl Handler Stub) env rpc c stub :
  Connect rpc (fresh p env) = (c, None) → p.(pl_ConnectClient) (kvclient.endpoint env) = Ok stub →
  Dispense rpc c "kv" = (c, Ok stub).
Proof.
  intros Hc Hs. destruct (Connect_ok rpc (fresh p env) c eq_refl Hc) as [Hon _].
  rewrite (Connect_no_discovery rpc (fresh p env) eq_refl eq_refl (endpoint_nonempty env)) in Hc.
  pose proof (doHandshake_cfg rpc (set_http (fresh p env))) as Ec.
  destruct (doHandshake rpc _) as [c2 [e|]]; [done|]. injection Hc as <-. cbn in Ec.
  unfold Dispense, ensureConnected. rewrite Hon. cbn [set_connected cl_cfg]. rewrite Ec.
  change (Get (client_plugins (kvclient.config p env)) "kv") with (({["kv" := p]} : gmap string (Plugin Impl Handler Stub)) !! "kv").
  rewrite lookup_singleton_eq. change (Endpoint (kvclient.config p env)) with (kvclient.endpoint env). by rewrite Hs.
Qed.

(** C21: server and client program of the key-value example, end to end and on the
    wire.  Given a generated plugin, the standalone server assembles; the client
    program, whose calls are HTTP requests of the generated clients to the server's
    mux and handlers, connects, finds host and plugin serving, dispenses its client
    and completes: it reads back what it wrote, deletes it, and finds it gone.  The
    store has taken exactly the two changes. *)
Theorem kv_programs_on_wire {Impl Handler Stub Typed B : Type} `{GoRange} `{ConnectGo B}
    `{!Message B HandshakeRequest} `{!Message B HandshakeResponse} `{!Message B string} `{!Message B Z}
    `{!Message B (string * string)} `{!Message B (string * bool)} `{!Message B bool} `{!Message B unit}
    (p : Plugin Impl Handler Stub) (cast : Stub → option Typed) authority typed_url rd1 rd2 now pick other store h t port env st
    (Ha : valid_authority authority = true) (Htrim : TrimRight (url authority) "/" = url authority)
    (G : generated p cast (url authority) typed_url store h t) (Henv : kvclient.endpoint env = url authority) :
  ∃ w, serving p store port st = Some w ∧ w.(sv_store) = st ∧
    ∃ w', kvclient.main (H0 := wire_peer authority typed_url rd1 rd2 now pick h other) p cast env w =
        (w', Completed (Ok SERVING_STATUS_SERVING) (Ok SERVING_STATUS_SERVING) "world" true) ∧
      w'.(sv_store) = kv.run pick st [kv.OpPut "hello" "world"; kv.OpDelete "hello"].
Proof.
  assert (G' : generated p cast (url authority) (λ _, url authority) store h t) by (by destruct G; split).
  destruct (kv_programs_complete p cast (url authority) (λ _, url authority) rd1 rd2 now pick store h t port env st G' Henv)
    as (w & Es & Est & w' & Em & Ew).
  exists w. split; [done|]. split; [done|]. exists w'. split; [|done].
  destruct (standalone_serving p cast (url authority) (λ _, url authority) store h t G' port st) as (hl & E & Hc1 & Hc2).
  rewrite Es in E. injection E as ->.
  assert (Ht : TrimRight (typed_url t) "/" = url authority) by (rewrite (gn_url _ _ _ _ _ _ _ G); exact Htrim).
  destruct (gn_client _ _ _ _ _ _ _ G) as (stub & Hstub & Hcast).
  revert Em. unfold kvclient.main. rewrite (NewClient_fresh p cast (url authority) (λ _, url authority) store h t G' env).
  change (Endpoint (cl_cfg (fresh p env))) with (kvclient.endpoint env). rewrite Henv.
  pose proof (peer_on_wire authority typed_url rd1 rd2 now pick h other (url authority) t) as Hpeer.
  rewrite (proj1 (Hpeer (mkServed _ hl (standalone_mux h) st) Ha Htrim Ht eq_refl)).
  cbn [pr_Handshake served_peer]. unfold kvserved.reaches. rewrite bool_decide_eq_true_2 by reflexivity.
  change (dispatch (sv_mux (mkServed _ hl (standalone_mux h) st)) (HandshakeServicePath +:+ "Handshake")) with (Some (MHandshake (Handler := Handler))).
  cbn [is_handshake andb sv_handshake sv_health sv_mux sv_store].
  destruct (Handshake _ _ _ _ _ _) as [hs resp]. set (w1 := mkServed hs hl (standalone_mux h) st).
  destruct resp as [resp|e]; cbn [received]; [|discriminate].
  assert (Hd : ∀ c1, Connect (λ _ _, Ok resp) (fresh p env) = (c1, None) → Dispense (λ _ _, Ok resp) c1 "kv" = (c1, Ok stub)).
  { intros c1 Hc. apply (fresh_dispenses _ _ _ _ _ Hc). by rewrite Henv. }
  destruct (Connect _ _) as [c1 [e|]]; [discriminate|]. rewrite (Hd c1 eq_refl), Hcast.
  destruct (Hpeer w1 Ha Htrim Ht eq_refl) as (_ & Hcheck & _).
  assert (Hck : ∀ service, pr_Check (Peer := served_peer (Typed := Typed) (url authority) (λ _, url authority) rd1 rd2 now pick)
    w1 (url authority) service = (w1, Check hl service)).
  { intros service. cbn [pr_Check served_peer]. unfold kvserved.reaches. by rewrite bool_decide_eq_true_2 by reflexivity. }
  repeat first [rewrite Hck|rewrite Hcheck|rewrite Hc1|rewrite Hc2|progress cbn [received]].
  rewrite (exercise_on_wire authority typed_url rd1 rd2 now pick h other t w1); [done|done..].
Qed.

#[local] Existing Instances ex_handshake ex_handshake_response ex_string ex_status ex_pair ex_got ex_bool ex_unit ex_go.

Lemma kv_programs_on_wire_witness :
  ∃ w w', serving ex_kv tt "8080" kv.NewStore = Some w ∧
    kvclient.main (H0 := wire_peer (B := ex_body) "localhost:8080" (λ t : string, t) (rand_seq 1) (rand_seq 2) 0%Z (λ _, false) ()
        (λ w _, (w, NotFound))) ex_kv Some (λ _, "") w =
      (w', Completed (Ok SERVING_STATUS_SERVING) (Ok SERVING_STATUS_SERVING) "world" true) ∧
    w'.(sv_store).(kv.data) = ∅.
Proof.
  destruct (kv_programs_on_wire (B := ex_body) ex_kv Some "localhost:8080" (λ t : string, t) (rand_seq 1) (rand_seq 2) 0%Z (λ _, false)
    (λ w _, (w, NotFound)) tt tt "http://localhost:8080" "8080" (λ _, "") kv.NewStore eq_refl eq_refl ex_generated eq_refl)
    as (w & Es & _ & w' & Em & Ew).
  exists w, w'. split; [exact Es|]. split; [exact Em|]. rewrite Ew. vm_compute. reflexivity.
Defined.

End wirepeer.
