(* ===== verification/WirePlatform.v ===== *)
(** * A platform and a plugin on the wire (pluginidentity.go, lifecycle.go)

    The managed deployment of the example plugins with its RPCs as they are made: the
    platform's identity client and control client call the plugin's mux through the
    generated code. *)

From stdpp Require Import prelude gmap strings list fin_maps.
From Stdlib Require Import ZArith Ascii.
From S2P Require Import Prelude GoRuntime Validation Identity Lifecycle Plugin Handshake Client Server NetURL PluginApp.
From S2P Require Import ControlClient StoragePlugin ApiPlugin ExamplePlugins Host PluginStartup Connect Stubs Wire.
From S2P Require Platform.

(** ** The identity client (pluginidentity.go) *)

Module pluginidentity.
Import pluginapp connectgo.

Section identity.
Context {W B : Type} `{ConnectGo B} `{!Message B unit} `{!Message B GetPluginInfoResponse}
  `{!Message B SetRuntimeIdentityRequest} `{!Message B bool}.

Record PluginIdentityClient := mkPluginIdentityClient { pi_client : identityconnect.pluginIdentityClient W B }.

(** [standard] is a new [http.Client]. *)
Definition NewPluginIdentityClient (standard : HTTPClient W B) (baseURL : string) (httpClient : option (HTTPClient W B)) :
    PluginIdentityClient :=
  let httpClient := default standard httpClient in
  mkPluginIdentityClient (identityconnect.NewPluginIdentityClient httpClient baseURL).

Definition GetPluginInfo (c : PluginIdentityClient) (w : W) : W * res GetPluginInfoResponse :=
  let '(w', resp) := identityconnect.pluginIdentityClient_GetPluginInfo c.(pi_client) w ∅ () in
  match resp with
  | Err err => (w', Err err)
  | Ok msg => (w', Ok msg)
  end.

Definition SetRuntimeIdentity (c : PluginIdentityClient) (w : W) (runtimeID runtimeToken hostURL : string) : W * option error :=
  let req := mkSetRuntimeIdentityRequest runtimeID runtimeToken hostURL in
  let '(w', resp) := identityconnect.pluginIdentityClient_SetRuntimeIdentity (SetRuntimeIdentityResponse := bool) c.(pi_client) w ∅ req in
  match resp with
  | Err err => (w', Some err)
  | Ok _ => (w', None)
  end.
End identity.
#[global] Arguments PluginIdentityClient : clear implicits.
End pluginidentity.

(** ** A plugin's process *)

Module wireplugin.
Import lifecycle plugin client neturl pluginapp host startup connectgo wirehttp.

Section process.
Context {Impl Handler Stub B : Type} `{GoRange} `{ConnectGo B}.
Context `{!Message B unit} `{!Message B GetPluginInfoResponse} `{!Message B SetRuntimeIdentityRequest} `{!Message B bool}
  `{!Message B (HealthState * string)} `{!Message B ShutdownRequest}.
Abbreviation Client := (client.Client Impl Handler Stub).

(** What the RPC handlers leave running: the registration after an identity, and the
    exit after a shutdown request. *)
Inductive goroutine := Registering | Exiting.

Record process := mkProcess { pr_client : Client; pr_running : list goroutine }.

Definition control_of (x : example) : HealthState * string :=
  match x with
  | XLogger => loggerplugin.GetHealth
  | XDependent DStorage => storageplugin.GetHealth
  | XDependent DApi => apiplugin.GetHealth
  | XDependent DCache => cacheplugin.GetHealth
  | XApp => appplugin.GetHealth
  end.

Definition shutdown_of (x : example) : ShutdownRequest → bool * Duration :=
  match x with
  | XLogger => loggerplugin.Shutdown
  | XDependent DStorage => storageplugin.Shutdown
  | XDependent DApi => apiplugin.Shutdown
  | XDependent DCache => cacheplugin.Shutdown
  | XApp => appplugin.Shutdown
  end.

(** The RPC service a path of the plugin's mux leads to, or else one of its functions. *)
Definition service_at {F} (m : server.mux (plugin_route F)) (path : string) : option (plugin_route ()) :=
  (λ r, match r with Control => Control | Identity => Identity | Func _ => Func () end) <$> server.dispatch m path.

Definition route_of (x : example) : string → option (plugin_route ()) :=
  match x with
  | XLogger => service_at loggerplugin.mux
  | XDependent DStorage => service_at storageplugin.mux
  | XDependent DApi => service_at apiplugin.mux
  | XDependent DCache => service_at cacheplugin.mux
  | XApp => service_at appplugin.mux
  end.

Lemma route_services x p :
  route_of x ("/connectplugin.v1.PluginIdentity/" +:+ p) = Some Identity ∧
  route_of x ("/connectplugin.v1.PluginControl/" +:+ p) = Some Control.
Proof. destruct x as [|[]|]; split; reflexivity. Qed.

Definition identity_handler (x : example) :
    identityconnect.PluginIdentityHandler process unit GetPluginInfoResponse SetRuntimeIdentityRequest bool :=
  identityconnect.mkPluginIdentityHandler
    (λ w _ _, (w, Ok (info_of x w.(pr_client))))
    (λ w _ req,
       match identity_of x w.(pr_client) req with
       | Some (c, acknowledged) => (mkProcess c (w.(pr_running) ++ [Registering]), Ok acknowledged)
       | None => (w, Err panicked)
       end).

Definition control_handler (x : example) :
    controlconnect.PluginControlHandler process unit (HealthState * string) ShutdownRequest bool :=
  controlconnect.mkPluginControlHandler
    (λ w _ _, (w, Ok (control_of x)))
    (λ w _ req, (mkProcess w.(pr_client) (w.(pr_running) ++ [Exiting]), Ok (shutdown_of x req).1)).

(** [other]: the plugin's functions. *)
Context (x : example) (authority : string) (other : HTTPHandler process B).

Definition serve : HTTPHandler process B := λ w r,
  match route_of x r.(sq_Path) with
  | Some Identity => (identityconnect.NewPluginIdentityHandler (identity_handler x)).2 w r
  | Some Control => (controlconnect.NewPluginControlHandler (control_handler x)).2 w r
  | Some (Func _) => other w r
  | None => (w, NotFound)
  end.

Definition DefaultClient : HTTPClient process B := wirehttp.DefaultClient authority unreachable serve.

Definition url : string := "http://" +:+ authority.

Lemma identity_reached (Ha : valid_authority authority = true) :
  mounted DefaultClient url (identityconnect.NewPluginIdentityHandler (identity_handler x)).
Proof. apply reaches; [done..|]. intros w r p. unfold serve. cbn [arriving sq_Path identityconnect.NewPluginIdentityHandler fst]. by rewrite (proj1 (route_services x p)). Qed.

Lemma control_reached (Ha : valid_authority authority = true) :
  mounted DefaultClient url (controlconnect.NewPluginControlHandler (control_handler x)).
Proof. apply reaches; [done..|]. intros w r p. unfold serve. cbn [arriving sq_Path controlconnect.NewPluginControlHandler fst]. by rewrite (proj2 (route_services x p)). Qed.

(** *** The platform's calls *)

(** The PluginIdentity service of the plugin in the state [w], as [AddPlugin] calls
    it: with a client of its own for the endpoint it is given. *)
Definition wire_identity (w : process) : Platform.platform.PluginIdentity :=
  let client ep := pluginidentity.NewPluginIdentityClient DefaultClient ep None in
  Platform.platform.mkPluginIdentity
    (λ ep, match (pluginidentity.GetPluginInfo (client ep) w).2 with
           | Ok info => Ok (Platform.platform.mkGetPluginInfoResponse info.(gi_SelfId) info.(gi_Metadata) info.(gi_Provides) info.(gi_Requires))
           | Err e => Err e
           end)
    (λ ep rid tok host, (pluginidentity.SetRuntimeIdentity (client ep) w rid tok host).2).

(** The generated control client behind [PluginControlClient]: the URLs of its
    procedures are made as it is, and its requests are those of the HTTP client. *)
Definition wire_control : plugincontrol.ControlRPC (HTTPClient process B) process :=
  plugincontrol.mkControlRPC
    (λ ep, match parse_url (TrimRight ep "/" +:+ controlconnect.PluginControlShutdownProcedure) with
           | Some _ => None
           | None => Some (NewError CodeUnavailable (Errorf "URL %q" [AStr ep]))
           end)
    (λ do ep w, controlconnect.pluginControlClient_GetHealth (controlconnect.NewPluginControlClient do ep) w ∅ ())
    (λ do ep grace reason w,
       controlconnect.pluginControlClient_Shutdown (controlconnect.NewPluginControlClient do ep) w ∅ (mkShutdownRequest grace reason)).

Context (ep : string) (Ha : valid_authority authority = true) (Hep : TrimRight ep "/" = url).

Lemma info_on_wire (w : process) :
  pluginidentity.GetPluginInfo (pluginidentity.NewPluginIdentityClient DefaultClient ep None) w = (w, Ok (info_of x w.(pr_client))).
Proof.
  pose proof (identityconnect.identity_mounted DefaultClient ep (identity_handler x)) as Ht. rewrite Hep in Ht.
  destruct (proj1 (Ht (identity_reached Ha)) w ∅ ()) as (hdr & _ & E).
  unfold pluginidentity.GetPluginInfo. cbn [pluginidentity.NewPluginIdentityClient pluginidentity.pi_client default].
  by rewrite E.
Qed.

Lemma identity_on_wire (w : process) rid tok host c ack :
  identity_of x w.(pr_client) (mkSetRuntimeIdentityRequest rid tok host) = Some (c, ack) →
  pluginidentity.SetRuntimeIdentity (pluginidentity.NewPluginIdentityClient DefaultClient ep None) w rid tok host =
    (mkProcess c (w.(pr_running) ++ [Registering]), None).
Proof.
  intros Hi. pose proof (identityconnect.identity_mounted DefaultClient ep (identity_handler x)) as Ht. rewrite Hep in Ht.
  destruct (proj2 (Ht (identity_reached Ha)) w ∅ (mkSetRuntimeIdentityRequest rid tok host)) as (hdr & _ & E).
  unfold pluginidentity.SetRuntimeIdentity. cbn [pluginidentity.NewPluginIdentityClient pluginidentity.pi_client default].
  rewrite E. cbn [identityconnect.SetRuntimeIdentity identity_handler]. by rewrite Hi.
Qed.

Lemma control_on_wire (w : process) grace reason :
  let c httpClient := plugincontrol.NewPluginControlClient ep httpClient in
  plugincontrol.GetHealth wire_control (c (Some DefaultClient)) w = (w, plugincontrol.Returned (Ok (control_of x))) ∧
  plugincontrol.Shutdown wire_control (c (Some DefaultClient)) grace reason w =
    (mkProcess w.(pr_client) (w.(pr_running) ++ [Exiting]), plugincontrol.Returned (true, None)) ∧
  plugincontrol.GetHealth wire_control (c None) w = (w, plugincontrol.Panicked) ∧
  plugincontrol.Shutdown wire_control (c None) grace reason w = (w, plugincontrol.Panicked).
Proof.
  assert (Hu : plugincontrol.url_error wire_control ep = None).
  { cbn. rewrite Hep. unfold url. rewrite str_app_assoc, wireurl.parse_url_path; [done|done|reflexivity|by vm_compute]. }
  cbn zeta. rewrite plugincontrol.GetHealth_nil, plugincontrol.Shutdown_nil, Hu.
  unfold plugincontrol.GetHealth, plugincontrol.Shutdown, plugincontrol.through.
  cbn [plugincontrol.NewPluginControlClient plugincontrol.pc_endpoint plugincontrol.pc_http]. rewrite Hu.
  pose proof (controlconnect.control_mounted DefaultClient ep (control_handler x)) as Ht. rewrite Hep in Ht.
  destruct (Ht (control_reached Ha)) as [Hg Hs]. cbn [wire_control plugincontrol.rpc_GetHealth plugincontrol.rpc_Shutdown].
  destruct (Hg w ∅ ()) as (h1 & _ & ->). destruct (Hs w ∅ (mkShutdownRequest grace reason)) as (h2 & _ & ->).
  split; [done|]. split; [by destruct x as [|[]|]|done].
Qed.

(** An accepted identity is the client's. *)
Lemma identity_taken (c : Client) req (c' : Client) ack : identity_of x c req = Some (c', ack) →
  c'.(runtimeID) = req.(si_RuntimeId) ∧ c'.(runtimeToken) = req.(si_RuntimeToken).
Proof.
  assert (Hs : ∀ o, SetRuntimeIdentity_logged c req = o → o = Some (c', ack) → Some (SetRuntimeIdentity c req) = Some (c', ack)).
  { intros o <-. unfold SetRuntimeIdentity_logged. by destruct (token_preview _). }
  intros Hi. assert (E : Some (SetRuntimeIdentity c req) = Some (c', ack)).
  { destruct x as [|[]|]; cbn in Hi; first [exact Hi|exact (Hs _ eq_refl Hi)]. }
  injection E as <- _. done.
Qed.

(** [AddPlugin] looks at the plugin through its information and its answer to the
    identity that is generated. *)
Lemma AddPlugin_agree (i j : Platform.platform.PluginIdentity) rd1 rd2 t0 evs p config :
  i.(Platform.platform.GetPluginInfo) config.(Platform.platform.cfg_Endpoint) =
    j.(Platform.platform.GetPluginInfo) config.(Platform.platform.cfg_Endpoint) →
  (∀ rid tok, identity.generateToken rd2 = Ok tok →
     i.(Platform.platform.SetRuntimeIdentity) config.(Platform.platform.cfg_Endpoint) rid tok "" =
     j.(Platform.platform.SetRuntimeIdentity) config.(Platform.platform.cfg_Endpoint) rid tok "") →
  Platform.platform.AddPlugin i rd1 rd2 t0 evs p config = Platform.platform.AddPlugin j rd1 rd2 t0 evs p config.
Proof.
  intros Hi Hs. unfold Platform.platform.AddPlugin. rewrite Hi. destruct (j.(Platform.platform.GetPluginInfo) _); [|done].
  destruct (Platform.platform.unavailable_dep _ _); [done|]. destruct (identity.generateRuntimeID _ _) as [rid|]; [|done].
  destruct (identity.generateToken rd2) as [tok|] eqn:E; [|done]. by rewrite (Hs rid tok).
Qed.

(** C22: adding a plugin, on the wire.  When the platform's calls go through its
    identity client, the generated client, HTTP, the plugin's mux and the generated
    handler, to any of the five example plugins in any state, [AddPlugin] does what it
    does with the plugin's methods called directly.  The plugin has then taken the
    identity that was generated and started to register.  A control client that is
    made with an HTTP client reads the plugin's own health and changes nothing, and
    its shutdown request is acknowledged, whatever the grace period, by a process
    that exits; one made without, as the platform's are, panics on either call and
    the process sees nothing. *)
Theorem AddPlugin_on_wire (w : process) rd1 rd2 t0 evs p config (Hrd : identity.rand_ok rd2)
    (Hconfig : config.(Platform.platform.cfg_Endpoint) = ep) :
  Platform.platform.AddPlugin (wire_identity w) rd1 rd2 t0 evs p config =
    Platform.platform.AddPlugin (identity_service x w.(pr_client) ep) rd1 rd2 t0 evs p config ∧
  (∀ rid tok, identity.generateToken rd2 = Ok tok → ∃ c : Client, identity_of x w.(pr_client) (mkSetRuntimeIdentityRequest rid tok "") = Some (c, true) ∧
     c.(runtimeID) = rid ∧ c.(runtimeToken) = tok ∧
     pluginidentity.SetRuntimeIdentity (pluginidentity.NewPluginIdentityClient DefaultClient ep None) w rid tok "" =
       (mkProcess c (w.(pr_running) ++ [Registering]), None)) ∧
  ∀ grace reason, let c httpClient := plugincontrol.NewPluginControlClient ep httpClient in
    plugincontrol.GetHealth wire_control (c (Some DefaultClient)) w = (w, plugincontrol.Returned (Ok (control_of x))) ∧
    plugincontrol.Shutdown wire_control (c (Some DefaultClient)) grace reason w =
      (mkProcess w.(pr_client) (w.(pr_running) ++ [Exiting]), plugincontrol.Returned (true, None)) ∧
    plugincontrol.GetHealth wire_control (c None) w = (w, plugincontrol.Panicked) ∧
    plugincontrol.Shutdown wire_control (c None) grace reason w = (w, plugincontrol.Panicked).
Proof.
  assert (Hid : ∀ rid tok, identity.generateToken rd2 = Ok tok →
    ∃ c : Client, identity_of x w.(pr_client) (mkSetRuntimeIdentityRequest rid tok "") = Some (c, true) ∧ c.(runtimeID) = rid ∧ c.(runtimeToken) = tok).
  { intros rid tok Htok. destruct (identity.generateToken_Ok _ _ Hrd Htok) as (Hlt & _).
    destruct (identity_accepts x w.(pr_client) (mkSetRuntimeIdentityRequest rid tok "")) as [c Hc].
    { unfold len. cbn [si_RuntimeToken]. rewrite Hlt. lia. }
    exists c. split; [done|]. exact (identity_taken _ _ _ _ Hc). }
  split_and!.
  - apply AddPlugin_agree; rewrite Hconfig; unfold wire_identity, identity_service;
      cbn [Platform.platform.GetPluginInfo Platform.platform.SetRuntimeIdentity].
    + by rewrite info_on_wire, bool_decide_eq_true_2.
    + intros rid tok Htok. rewrite bool_decide_eq_true_2 by done.
      destruct (Hid rid tok Htok) as (c & Hc & _). by rewrite (identity_on_wire w rid tok "" c true Hc), Hc.
  - intros rid tok Htok. destruct (Hid rid tok Htok) as (c & Hc & Hr & Ht). exists c. split_and!; [done..|]. by apply (identity_on_wire w rid tok "" c true).
  - intros grace reason. apply control_on_wire.
Qed.
End process.

(** *** A platform that adds the storage plugin *)

Inductive ex_body :=
| BUnit | BBool (m : bool) | BInfo (m : GetPluginInfoResponse) | BIdentity (m : SetRuntimeIdentityRequest)
| BHealth (m : HealthState * string) | BShutdown (m : ShutdownRequest).

Definition ex_unit : Message ex_body unit.
Proof. refine {| marshal _ := BUnit; unmarshal b := match b with BUnit => Some () | _ => None end |}. by intros []. Defined.
Definition ex_bool : Message ex_body bool.
Proof. by refine {| marshal := BBool; unmarshal b := match b with BBool m => Some m | _ => None end |}. Defined.
Definition ex_info : Message ex_body GetPluginInfoResponse.
Proof. by refine {| marshal := BInfo; unmarshal b := match b with BInfo m => Some m | _ => None end |}. Defined.
Definition ex_identity : Message ex_body SetRuntimeIdentityRequest.
Proof. by refine {| marshal := BIdentity; unmarshal b := match b with BIdentity m => Some m | _ => None end |}. Defined.
Definition ex_health : Message ex_body (HealthState * string).
Proof. by refine {| marshal := BHealth; unmarshal b := match b with BHealth m => Some m | _ => None end |}. Defined.
Definition ex_shutdown : Message ex_body ShutdownRequest.
Proof. by refine {| marshal := BShutdown; unmarshal b := match b with BShutdown m => Some m | _ => None end |}. Defined.
Definition ex_go : ConnectGo ex_body := ex_connect BUnit (unit_message := ex_unit).

#[local] Existing Instances ex_unit ex_bool ex_info ex_identity ex_health ex_shutdown ex_go.

Definition ex_process : process (Impl := unit) (Handler := unit) (Stub := unit) :=
  mkProcess (waiting_client (XDependent DStorage) (λ _, "")) [].

Lemma AddPlugin_on_wire_witness :
  let x := XDependent DStorage in let page := λ w _, (w, NotFound) in
  let acts := replicate 61 Platform.platform.idle in
  Platform.platform.AddPlugin (wire_identity (B := ex_body) x "localhost:8082" page ex_process)
    (identity.rand_seq 171) (identity.rand_seq 5) 0 (Platform.platform.on_time 0 0 acts)
    Platform.platform.ex_platform Platform.platform.ex_config =
  Platform.platform.AddPlugin (identity_service x ex_process.(pr_client) "http://localhost:8082")
    (identity.rand_seq 171) (identity.rand_seq 5) 0 (Platform.platform.on_time 0 0 acts)
    Platform.platform.ex_platform Platform.platform.ex_config ∧
  let c := plugincontrol.NewPluginControlClient (C := HTTPClient process ex_body) "http://localhost:8082" None in
  plugincontrol.Shutdown (wire_control (B := ex_body)) c 30 "plugin removed" ex_process = (ex_process, plugincontrol.Panicked).
Proof.
  destruct (AddPlugin_on_wire (B := ex_body) (XDependent DStorage) "localhost:8082" (λ w _, (w, NotFound)) "http://localhost:8082"
    eq_refl eq_refl ex_process (identity.rand_seq 171) (identity.rand_seq 5) 0
    (Platform.platform.on_time 0 0 (replicate 61 Platform.platform.idle)) Platform.platform.ex_platform Platform.platform.ex_config
    (identity.rand_seq_ok 5) eq_refl) as (E & _ & Hc).
  split; [exact E|exact (proj2 (proj2 (proj2 (Hc 30%Z "plugin removed"))))].
Defined.

End wireplugin.
