(* ===== verification/LoggerPlugin.v ===== *)
(** * The generated logger plugin (gen/loggerv1plugin, gen/loggerv1delegate)

    What protoc-gen-connect-plugin makes of the logger service: the plugin that wires
    an implementation to the generated handler and dispenses the generated client,
    and the delegate over that client.  [served]: a host that serves the plugin and a
    client that dispenses it, with every call on the wire. *)

From stdpp Require Import prelude gmap strings list fin_maps.
From Stdlib Require Import ZArith Ascii.
From S2P Require Import Prelude GoRuntime Plugin Handshake Health Client Server NetURL KVLogging Connect Stubs Wire.

Module loggerv1plugin.
Import plugin loggercap connectgo.

Section plugin.
Context {W B : Type} `{ConnectGo B} `{!Message B LogRequest} `{!Message B unit}.

(** The values an implementation can be, as far as [ConnectServer] looks: one that
    has the methods of a LoggerHandler, or one of another type. *)
Inductive any := AsLogger (handler : loggerconnect.LoggerHandler W LogRequest unit) | AsOther (type : string).

Definition Metadata : PluginMetadata :=
  mkPluginMetadata "logger" loggerconnect.LoggerName "1.0.0" [mkServiceDeclaration "logger" "1.0.0" loggerconnect.LoggerName] [].

Definition ConnectServer (impl : any) : res (string * HTTPHandler W B) :=
  match impl with
  | AsOther T => Err (Errorf "impl must implement LoggerHandler, got %T" [AStr T])
  | AsLogger handler => Ok (loggerconnect.NewLoggerHandler handler)
  end.

Definition ConnectClient (httpClient : HTTPClient W B) (baseURL : string) : res (loggerconnect.loggerClient W B) :=
  Ok (loggerconnect.NewLoggerClient httpClient baseURL).

(** The plugin, with the HTTP client it is given when it is dispensed. *)
Definition LoggerPlugin (httpClient : HTTPClient W B) : Plugin any (HTTPHandler W B) (loggerconnect.loggerClient W B) :=
  mkPlugin Metadata ConnectServer (ConnectClient httpClient).
End plugin.
#[global] Arguments any : clear implicits.
End loggerv1plugin.

Module loggerv1delegate.
Import loggercap connectgo.

Section delegate.
Context {W B : Type} `{ConnectGo B} `{!Message B LogRequest} `{!Message B unit}.

Record loggerDelegate := mkLoggerDelegate { client : loggerconnect.loggerClient W B }.

Definition New (client : loggerconnect.loggerClient W B) : loggerDelegate := mkLoggerDelegate client.

Definition NewFromURL (DefaultClient : HTTPClient W B) (url : string) : loggerDelegate :=
  let client := loggerconnect.NewLoggerClient DefaultClient url in mkLoggerDelegate client.

Definition Log (d : loggerDelegate) (w : W) (level message : string) (fields : gmap string string) : W * option error :=
  let req := mkLogRequest level message fields in
  match loggerconnect.loggerClient_Log (LogResponse := unit) d.(client) w ∅ req with
  | (w', Err err) => (w', Some err)
  | (w', Ok _) => (w', None)
  end.
End delegate.
#[global] Arguments loggerDelegate : clear implicits.
End loggerv1delegate.

(** ** The plugin served and dispensed *)

Module loggerserved.
Import plugin handshake health client server neturl loggercap connectgo wirehttp loggerv1plugin.

Section served.
Context {W B : Type} `{GoRange} `{ConnectGo B} `{!Message B LogRequest} `{!Message B unit}.
Abbreviation Impl := (any W).
Abbreviation Handler := (HTTPHandler W B).
Abbreviation Stub := (loggerconnect.loggerClient W B).

(** An assembled mux, and what its other mounts do. *)
Definition serve (m : mux (mount Handler)) (other : HTTPHandler W B) : HTTPHandler W B := λ w r,
  match dispatch m r.(sq_Path) with
  | Some (MPlugin _ h) => h w r
  | Some _ => other w r
  | None => (w, NotFound)
  end.

Definition LoggerPath : string := "/capability.logger.v1.Logger/".

Lemma logger_path_free (c : ServeConfig Impl Handler Stub) : LoggerPath ∉ (builtin_mounts c).*1.
Proof.
  unfold builtin_mounts.
  destruct (HasCapabilityBroker c), (HealthService c), (LifecycleService c), (HasServiceRegistry c), (HasServiceRouter c);
    by apply (bool_decide_unpack _); vm_compute.
Qed.

Lemma logger_dispatched (c : ServeConfig Impl Handler Stub) hd p :
  dispatch (builtin_mounts c ++ [(LoggerPath, MPlugin "logger" hd)]) (LoggerPath +:+ p) = Some (MPlugin "logger" hd).
Proof.
  unfold builtin_mounts.
  destruct (HasCapabilityBroker c), (HealthService c), (LifecycleService c), (HasServiceRegistry c), (HasServiceRouter c); reflexivity.
Qed.

Context (authority : string) (other : HTTPHandler W B) (svc : loggerconnect.LoggerHandler W LogRequest unit).

(** The network of the client: one server, whose mux is [m]. *)
Definition network (m : mux (mount Handler)) : HTTPClient W B :=
  wirehttp.DefaultClient authority (Errorf "connection refused" []) (serve m other).

Lemma logger_reached (c : ServeConfig Impl Handler Stub) (Ha : valid_authority authority = true) :
  let ph := loggerconnect.NewLoggerHandler svc in
  mounted (network (builtin_mounts c ++ [(LoggerPath, MPlugin "logger" ph.2)])) ("http://" +:+ authority) ph.
Proof.
  intros ph. apply reaches; [done..|]. intros w r p. unfold serve. cbn [arriving sq_Path].
  change ph.1 with LoggerPath. by rewrite logger_dispatched.
Qed.

(** C23: a generated plugin, end to end.  Whatever a valid configuration enables, a
    server of the logger plugin assembles; a connected client whose plugin set has the
    same plugin dispenses a stub; and that stub, and the delegate over it, are the
    implementation that was served: each Log is one call of its method with the
    fields of the entry, and the error, if any, is received with its code.  The
    delegate made from the URL is the same.  A value that is no LoggerHandler is
    refused when the server is assembled. *)
Theorem logger_plugin_end_to_end (dial : HTTPClient W B) (c : ServeConfig Impl Handler Stub) hs rpc
    (cl : HTTPClient W B → client.Client Impl Handler Stub) ep
    (Ha : valid_authority authority = true) (Hep : TrimRight ep "/" = "http://" +:+ authority) (Hok : serve_ok c)
    (Hplugins : c.(Plugins) = Some {["logger" := LoggerPlugin dial]}) (Himpls : c.(Impls) = Some {["logger" := AsLogger svc]})
    (Hcl : ∀ do, (cl do).(connected) = true ∧ (cl do).(cl_cfg).(Endpoint) = ep ∧
       (cl do).(cl_cfg).(cc_Plugins) = Some {["logger" := LoggerPlugin do]}) :
  ∃ m hs', assemble c hs = (hs', Returned m) ∧ let do := network m in
    ∃ stub, Dispense rpc (cl do) "logger" = (cl do, Ok stub) ∧
      transparent (loggerconnect.loggerClient_Log stub) svc.(loggerconnect.Log) ∧
      (∀ w level message fields, ∃ hdr, loggerv1delegate.Log (loggerv1delegate.New stub) w level message fields =
         let '(w', r) := svc.(loggerconnect.Log) w hdr (mkLogRequest level message fields) in
         (w', match r with Ok _ => None | Err e => Some (received_error e) end)) ∧
      loggerv1delegate.NewFromURL do ep = loggerv1delegate.New stub ∧
      ∀ T, is_ok ((LoggerPlugin dial).(pl_ConnectServer) (AsOther T)) = false.
Proof.
  pose proof (assemble_single c hs "logger" (LoggerPlugin dial) (AsLogger svc) LoggerPath (loggerconnect.NewLoggerHandler svc).2
    Hok Hplugins Himpls eq_refl ltac:(done) (logger_path_free c)) as E.
  eexists _, _. split; [exact E|]. cbn zeta. set (do := network _). destruct (Hcl do) as (Hon & He & Hp).
  exists (loggerconnect.NewLoggerClient do ep).
  pose proof (loggerconnect.logger_mounted (LogResponse := unit) do ep svc) as Ht. rewrite Hep in Ht. specialize (Ht (logger_reached c Ha)).
  split_and!; [|exact Ht| |done|done].
  - unfold Dispense, ensureConnected. rewrite Hon. unfold Get, client_plugins, PluginSet. rewrite Hp. cbn [default from_option id].
    match goal with |- context [?m !! "logger"] => change (m !! "logger") with (Some (LoggerPlugin do)) end. by rewrite He.
  - intros w level message fields. destruct (Ht w ∅ (mkLogRequest level message fields)) as (hdr & _ & Ec). exists hdr.
    unfold loggerv1delegate.Log, loggerv1delegate.New. cbn [loggerv1delegate.client]. rewrite Ec.
    by destruct (svc.(loggerconnect.Log) w hdr _) as [w' [r|e]].
Qed.
End served.

(** ** The example's logger behind it *)

(** [LoggerCapability] as the implementation: the lines it prints. *)
Definition capability `{GoRange} : loggerconnect.LoggerHandler (list string) LogRequest unit :=
  loggerconnect.mkLoggerHandler (λ lines _ req, (lines ++ [loggercap.Log req], Ok ())).

Inductive ex_body := BLog (m : LogRequest) | BUnit.

Definition ex_log : Message ex_body LogRequest.
Proof. by refine {| marshal := BLog; unmarshal b := match b with BLog m => Some m | _ => None end |}. Defined.
Definition ex_unit : Message ex_body unit.
Proof. refine {| marshal _ := BUnit; unmarshal b := match b with BUnit => Some () | _ => None end |}. by intros []. Defined.
Definition ex_go : ConnectGo ex_body := ex_connect BUnit (unit_message := ex_unit).

#[local] Existing Instances ex_log ex_unit ex_go.

Definition ex_plugin : HTTPClient (list string) ex_body → Plugin (any (list string)) (HTTPHandler (list string) ex_body) _ :=
  LoggerPlugin.
Definition ex_serve : ServeConfig (any (list string)) (HTTPHandler (list string) ex_body) (loggerconnect.loggerClient (list string) ex_body) :=
  mkServeConfig (Some {["logger" := ex_plugin (λ w _, (w, Ok NotFound))]}) (Some {["logger" := AsLogger capability]})
    0 "" "" None "" 0 None true true true 0 0 false true true true.

Definition ex_client (do : HTTPClient (list string) ex_body) :
    client.Client (any (list string)) (HTTPHandler (list string) ex_body) (loggerconnect.loggerClient (list string) ex_body) :=
  mkClient (mkClientConfig "http://localhost:8080/" "" (Some {["logger" := ex_plugin do]}) 0 "" "" "" "" (mkPluginMetadata "" "" "" [] [])
    None "") true false true "" "" None None.

Lemma ex_serve_ok : serve_ok ex_serve.
Proof.
  exists {["logger" := ex_plugin (λ w _, (w, Ok NotFound))]}, {["logger" := AsLogger capability]}. split_and!; [done|done| | |done].
  - intros n. destruct (decide (n = "logger")) as [->|Hn]; [split; by eexists|]. unfold PluginSet. by rewrite !lookup_singleton_ne.
  - apply Validate_None. vm_compute. reflexivity.
Qed.

Lemma logger_plugin_end_to_end_witness :
  ∃ m hs', assemble ex_serve NewHealthServer = (hs', Returned m) ∧
    loggerv1delegate.Log (loggerv1delegate.NewFromURL (network "localhost:8080" (λ w _, (w, NotFound)) m) "http://localhost:8080/")
      ["started"] "INFO" "stored" {["key" := "a"]} = (["started"; "[INFO] stored key=a "], None).
Proof.
  destruct (logger_plugin_end_to_end "localhost:8080" (λ w _, (w, NotFound)) capability (λ w _, (w, Ok NotFound)) ex_serve NewHealthServer
    (λ _ _, Err (Errorf "" [])) ex_client "http://localhost:8080/" eq_refl eq_refl ex_serve_ok eq_refl eq_refl
    ltac:(intros do; split_and!; reflexivity)) as (m & hs' & E & stub & _ & _ & Hlog & Hnew & _).
  exists m, hs'. split; [exact E|]. rewrite Hnew. destruct (Hlog ["started"] "INFO" "stored" {["key" := "a"]}) as [hdr ->].
  vm_compute. reflexivity.
Defined.

End loggerserved.
