(* ===== verification/Harness.v ===== *)
(** * The integration-test harnesses (internal/testharness)

    Both harnesses start processes, wait for them, and stop them when they are done.
    What a run does is its log of actions; what the operating system answers (does a
    process start, who listens, how does the client end) is an argument. *)

From stdpp Require Import prelude strings list pretty.
From Stdlib Require Import ZArith.
From S2P Require Import Prelude GoRuntime.

Module testharness.

(** Processes are numbered in the order in which they are started.  [Cancelled]: the
    context of every command started under it is cancelled, whereupon os/exec kills
    those that run. *)
Inductive action :=
| Started (pid : nat) (cmd : string) (args env : list string)
| Ran (cmd : string) (env : list string)
| Cancelled
| Interrupted (pid : nat)
| Slept (d : Duration)
| Killed (pid : nat).

(** What wakes a polling loop: its timeout, or the ticker, with the outcome of the
    dial. *)
Inductive poll := TimedOut (ctx_err : error) | Polled (dial : option error).

Section polling.
Context (timeout : error → error) (checkHTTP : option error).

(** The loop of [waitForPort] and [waitForReady]; [None]: still polling. *)
Fixpoint polling (evs : list poll) : option (option error) :=
  match evs with
  | [] => None
  | TimedOut err :: _ => Some (Some (timeout err))
  | Polled (Some _) :: evs' => polling evs'
  | Polled None :: _ => Some checkHTTP
  end.

Lemma polling_ends err evs : TimedOut err ∈ evs → is_Some (polling evs).
Proof.
  induction evs as [|[e|[d|]] evs IH]; intros Hin; simpl; [by apply elem_of_nil in Hin|by eexists| |by eexists].
  apply IH. by apply elem_of_cons in Hin as [|].
Qed.
End polling.

(** A process is stopped with grace when it is interrupted while it runs and nothing
    kills it before a wait. *)
Fixpoint waits (pid : nat) (log : list action) : bool :=
  match log with
  | [] => false
  | Slept _ :: _ => true
  | Cancelled :: _ => false
  | Killed q :: log' => if decide (q = pid) then false else waits pid log'
  | _ :: log' => waits pid log'
  end.

Fixpoint graceful (pid : nat) (log : list action) : bool :=
  match log with
  | [] => false
  | Interrupted q :: log' => if decide (q = pid) then waits pid log' else graceful pid log'
  | Cancelled :: _ => false
  | Killed q :: log' => if decide (q = pid) then false else graceful pid log'
  | _ :: log' => graceful pid log'
  end.

Section os.
(** [os_environ]: os.Environ; [start pid cmd args env]: the error of starting the
    process that would be number [pid]. *)
Context (os_environ : list string) (start : nat → string → list string → list string → option error).

(** ** Several processes (multiprocess.go) *)

Record ProcessConfig := mkProcessConfig {
  Name : string;
  Cmd : string;
  Args : list string;
  Env : list string;
  Port : Z;
  WaitFor : string;
}.

Record MultiProcessHarness := mkMultiProcessHarness { Processes : list ProcessConfig }.

(** [polls pid]: the course of the wait for that process; [http pid]: the outcome of
    the request to it. *)
Context (polls : nat → list poll) (http : nat → string → option error).

Definition checkHTTP (pid : nat) (addr : string) : option error := http pid ("http://" +:+ addr +:+ "/").

Definition waitForPort (pid : nat) (port : Z) : option (option error) :=
  polling (λ err, Errorf "timeout waiting for port %d: %w" [AInt port; AErr err])
    (checkHTTP pid ("localhost:" +:+ pretty port)) (polls pid).

(** The deferred function. *)
Definition cleanup (started : list nat) : list action :=
  (Interrupted <$> reverse started) ++ [Slept (500 * Millisecond)%Z] ++ (Killed <$> started).

(** The loop of [Run]: the processes started so far and the log. *)
Fixpoint start_all (ps : list ProcessConfig) (started : list nat) (log : list action) :
    option (list nat * list action * option error) :=
  match ps with
  | [] => Some (started, log, None)
  | cfg :: ps' =>
      let pid := length started in
      let env := os_environ ++ cfg.(Env) in
      match start pid cfg.(Cmd) cfg.(Args) env with
      | Some err => Some (started, log, Some (Errorf "failed to start %s: %w" [AStr cfg.(Name); AErr err]))
      | None =>
          let started := started ++ [pid] in
          let log := log ++ [Started pid cfg.(Cmd) cfg.(Args) env] in
          if (0 <? cfg.(Port))%Z then
            match waitForPort pid cfg.(Port) with
            | None => None
            | Some (Some err) => Some (started, log, Some (Errorf "%s did not start: %w" [AStr cfg.(Name); AErr err]))
            | Some None => start_all ps' started log
            end
          else start_all ps' started (log ++ [Slept (200 * Millisecond)%Z])
      end
  end.

(** [None]: a wait does not end. *)
Definition Run (h : MultiProcessHarness) : option (list action * option error) :=
  '(started, log, err) ← start_all h.(Processes) [] [];
  Some (log ++ cleanup started, err).

(** *** What a run does *)

Definition launch (pid : nat) (cfg : ProcessConfig) : list action :=
  Started pid cfg.(Cmd) cfg.(Args) (os_environ ++ cfg.(Env)) ::
  if (0 <? cfg.(Port))%Z then [] else [Slept (200 * Millisecond)%Z].

Fixpoint launches (pid : nat) (ps : list ProcessConfig) : list action :=
  match ps with [] => [] | cfg :: ps' => launch pid cfg ++ launches (S pid) ps' end.

(** A process started and, where a port is configured, answered there. *)
Definition ready (pid : nat) (cfg : ProcessConfig) : Prop :=
  start pid cfg.(Cmd) cfg.(Args) (os_environ ++ cfg.(Env)) = None ∧
  ((0 < cfg.(Port))%Z → waitForPort pid cfg.(Port) = Some None).

(** [runs pid ps log n err]: the processes [ps], the first of which gets number [pid],
    are started as [log] says, up to number [n] exclusive, with the outcome [err]. *)
Inductive runs : nat → list ProcessConfig → list action → nat → option error → Prop :=
| runs_all pid : runs pid [] [] pid None
| runs_ready pid cfg ps log n err : ready pid cfg → runs (S pid) ps log n err →
    runs pid (cfg :: ps) (launch pid cfg ++ log) n err
| runs_not_started pid cfg ps err : start pid cfg.(Cmd) cfg.(Args) (os_environ ++ cfg.(Env)) = Some err →
    runs pid (cfg :: ps) [] pid (Some (Errorf "failed to start %s: %w" [AStr cfg.(Name); AErr err]))
| runs_not_ready pid cfg ps err : start pid cfg.(Cmd) cfg.(Args) (os_environ ++ cfg.(Env)) = None →
    (0 < cfg.(Port))%Z → waitForPort pid cfg.(Port) = Some (Some err) →
    runs pid (cfg :: ps) (launch pid cfg) (S pid) (Some (Errorf "%s did not start: %w" [AStr cfg.(Name); AErr err])).

Lemma launch_port pid cfg : (0 < cfg.(Port))%Z →
  launch pid cfg = [Started pid cfg.(Cmd) cfg.(Args) (os_environ ++ cfg.(Env))].
Proof. intros Hp. unfold launch. by rewrite (proj2 (Z.ltb_lt 0 _) Hp). Qed.

(** The loop does what the relation says. *)
Lemma start_all_runs ps pid log started log' err :
  start_all ps (seq 0 pid) log = Some (started, log', err) ↔
  ∃ l n, runs pid ps l n err ∧ started = seq 0 n ∧ log' = log ++ l.
Proof.
  revert pid log. induction ps as [|cfg ps IH]; intros pid log; cbn [start_all].
  { split; [intros [= <- <- <-]; exists [], pid; rewrite app_nil_r; by repeat constructor|].
    intros (l & n & Hr & -> & ->). inversion Hr; subst. by rewrite app_nil_r. }
  rewrite length_seq. destruct (start pid _ _ _) as [e|] eqn:Es.
  { split; [intros [= <- <- <-]; exists [], pid; rewrite app_nil_r; by repeat constructor|].
    intros (l & n & Hr & -> & ->). inversion Hr as [|? ? ? ? ? ? [? _]| |]; simplify_eq. by rewrite app_nil_r. }
  assert (Hl : log ++ launch pid cfg = (log ++ [Started pid cfg.(Cmd) cfg.(Args) (os_environ ++ cfg.(Env))]) ++
                 if (0 <? cfg.(Port))%Z then [] else [Slept (200 * Millisecond)%Z]) by (by rewrite <- app_assoc).
  assert (Hs : seq 0 pid ++ [pid] = seq 0 (S pid)) by (by rewrite seq_S). rewrite Hs.
  assert (Hnext : ready pid cfg →
    start_all ps (seq 0 (S pid)) (log ++ launch pid cfg) = Some (started, log', err) ↔
    ∃ l n, runs pid (cfg :: ps) l n err ∧ started = seq 0 n ∧ log' = log ++ l).
  { intros Hready. rewrite IH. split.
    - intros (l & n & Hr & -> & ->). exists (launch pid cfg ++ l), n. rewrite app_assoc. split; [by apply runs_ready|done].
    - intros (l & n & Hr & -> & ->). inversion Hr as [|? ? ? l' ? ? ? Hr'| |]; subst.
      + exists l', n. by rewrite app_assoc.
      + congruence.
      + destruct Hready as [_ Hw]. rewrite Hw in * by done. congruence. }
  rewrite Hl in Hnext. clear Hl. destruct (Z.ltb_spec 0 cfg.(Port)) as [Hp|Hp].
  - rewrite app_nil_r in Hnext. destruct (waitForPort pid _) as [[e|]|] eqn:Ew.
    + split.
      * intros [= <- <- <-]. exists (launch pid cfg), (S pid). split; [by apply runs_not_ready|]. by rewrite launch_port.
      * intros (l & n & Hr & -> & ->). inversion Hr as [|? ? ? ? ? ? [_ Hw]| |]; simplify_eq.
        { rewrite Hw in Ew by done. done. } by rewrite launch_port.
    + apply Hnext. by split.
    + split; [done|]. intros (l & n & Hr & _). inversion Hr as [|? ? ? ? ? ? [_ Hw]| |]; simplify_eq.
      by rewrite Hw in Ew.
  - apply Hnext. split; [done|lia].
Qed.

Lemma Run_runs h log err : Run h = Some (log, err) ↔
  ∃ l n, runs 0 h.(Processes) l n err ∧ log = l ++ cleanup (seq 0 n).
Proof.
  unfold Run. destruct (start_all _ _ _) as [[[started l0] err0]|] eqn:E; cbn [mbind option_bind].
  - destruct (proj1 (start_all_runs _ 0 [] started l0 err0) E) as (l & n & Hr & -> & ->). split.
    + intros [= <- <-]. by exists l, n.
    + intros (l' & n' & Hr' & ->). assert (E' : start_all h.(Processes) (seq 0 0) [] = Some (seq 0 n', [] ++ l', err)).
      { apply start_all_runs. by exists l', n'. } cbn [seq app] in E'. rewrite E' in E. by injection E as <- <- <-.
  - split; [done|]. intros (l & n & Hr & _).
    assert (E' : start_all h.(Processes) (seq 0 0) [] = Some (seq 0 n, [] ++ l, err)) by (apply start_all_runs; by exists l, n).
    cbn [seq app] in E'. by rewrite E in E'.
Qed.

(** A run of the loop only starts processes, those below [n]; without an error all. *)
Lemma runs_log pid ps l n err : runs pid ps l n err →
  pid ≤ n ∧ (err = None → n = pid + length ps) ∧ n ≤ pid + length ps ∧
  (∀ a, a ∈ l → match a with Started q _ _ _ => pid ≤ q < n | Slept _ => True | _ => False end).
Proof.
  assert (Hl : ∀ pid cfg a, a ∈ launch pid cfg → match a with Started q _ _ _ => q = pid | Slept _ => True | _ => False end).
  { intros ? cfg a. unfold launch. rewrite elem_of_cons. intros [->|Ha]; [done|].
    destruct (0 <? _)%Z; [by apply elem_of_nil in Ha|by apply list_elem_of_singleton in Ha as ->]. }
  induction 1 as [|pid cfg ps log n err Hready Hr (IH1 & IH2 & IH3 & IH4)| |]; cbn [length].
  - split_and!; [lia..|]. intros a Ha. by apply elem_of_nil in Ha.
  - split_and!; [lia|intros He; specialize (IH2 He); lia|lia|]. intros a [Ha|Ha]%elem_of_app.
    + apply Hl in Ha. destruct a; try done. lia.
    + specialize (IH4 a Ha). destruct a; try done. lia.
  - split_and!; [lia|done|lia|]. intros a Ha. by apply elem_of_nil in Ha.
  - split_and!; [lia|done|lia|]. intros a Ha. apply Hl in Ha. destruct a; try done. lia.
Qed.

Lemma graceful_started pid l l' : (∀ a, a ∈ l → match a with Started _ _ _ _ | Slept _ => True | _ => False end) →
  graceful pid (l ++ l') = graceful pid l'.
Proof.
  induction l as [|a l IH]; [done|]. intros Ha. pose proof (Ha a ltac:(left)) as Ha'. cbn [app graceful].
  destruct a; try done; apply IH; intros b Hb; apply Ha; by right.
Qed.

Lemma waits_interrupted pid qs l : waits pid ((Interrupted <$> qs) ++ l) = waits pid l.
Proof. by induction qs. Qed.

Lemma cleanup_graceful pid started : pid ∈ started → graceful pid (cleanup started) = true.
Proof.
  intros Hin. unfold cleanup. assert (Hin' : pid ∈ reverse started) by (by rewrite elem_of_reverse). revert Hin'.
  generalize (reverse started) as qs. induction qs as [|q qs IH]; [by intros ?%elem_of_nil|].
  intros Hq. cbn [fmap list_fmap app graceful]. case_decide; [by rewrite waits_interrupted|].
  apply IH. by apply elem_of_cons in Hq as [|].
Qed.

(** A run of several processes.  [Run] returns whenever no wait goes on for ever.
    It starts the processes in order, each once the one before is ready, up to the
    first that fails, which its error names; it returns no error exactly when all were
    ready.  Whatever the outcome, before it returns every process that it started,
    and no other, is interrupted in reverse order, has half a second to end, and is
    killed.  The field WaitFor has no effect. *)
Theorem Run_stops_what_it_starts h :
  ((∀ pid, pid < length h.(Processes) → ∃ err, TimedOut err ∈ polls pid) → is_Some (Run h)) ∧
  (∀ log err, Run h = Some (log, err) ↔
     ∃ l n, runs 0 h.(Processes) l n err ∧ log = l ++ cleanup (seq 0 n)) ∧
  (∀ log err, Run h = Some (log, err) → ∃ n, n ≤ length h.(Processes) ∧ (err = None → n = length h.(Processes)) ∧
     (∀ pid, (∃ cmd args env, Started pid cmd args env ∈ log) → pid < n) ∧
     (∀ pid, Killed pid ∈ log ↔ pid < n) ∧
     (∀ pid, pid < n → graceful pid log = true)) ∧
  (∀ waits, Run (mkMultiProcessHarness
     ((λ c, mkProcessConfig c.(Name) c.(Cmd) c.(Args) c.(Env) c.(Port) (waits c)) <$> h.(Processes))) = Run h).
Proof.
  split_and!.
  - intros Hp. unfold Run. enough (Hs : ∀ ps pid log, length h.(Processes) = pid + length ps →
      is_Some (start_all ps (seq 0 pid) log)) by (destruct (Hs h.(Processes) 0 [] eq_refl) as [[[? ?] ?] E]; cbn in E; by rewrite E).
    induction ps as [|cfg ps IH]; intros pid log Hl; cbn [start_all]; [by eexists|]. cbn [length] in Hl. rewrite length_seq.
    destruct (start _ _ _ _); [by eexists|]. assert (Hs : seq 0 pid ++ [pid] = seq 0 (S pid)) by (by rewrite seq_S). rewrite Hs. destruct (0 <? _)%Z; [|apply IH; lia].
    destruct (Hp pid ltac:(lia)) as [e He].
    destruct (polling_ends (λ err, Errorf "timeout waiting for port %d: %w" [AInt cfg.(Port); AErr err])
      (checkHTTP pid ("localhost:" +:+ pretty cfg.(Port))) e _ He) as [r Hr].
    unfold waitForPort. rewrite Hr. destruct r; [by eexists|]. apply IH. lia.
  - intros log err. apply Run_runs.
  - intros log err (l & n & Hr & ->)%Run_runs. destruct (runs_log _ _ _ _ _ Hr) as (_ & Hn & Hle & Hl). exists n.
    split_and!; [lia|done|..].
    + intros pid (cmd & args & env & [Hin|Hin]%elem_of_app); [apply Hl in Hin; lia|]. unfold cleanup in Hin.
      rewrite !elem_of_app, !list_elem_of_fmap, list_elem_of_singleton in Hin. naive_solver.
    + intros pid. rewrite elem_of_app. unfold cleanup. rewrite !elem_of_app, !list_elem_of_fmap, list_elem_of_singleton. split.
      * intros [Hin|[(? & ? & ?)|[?|(q & [= ->] & Hq%elem_of_seq)]]]; [by apply Hl in Hin|done..|lia].
      * intros Hlt. right. right. right. exists pid. split; [done|]. apply elem_of_seq. lia.
    + intros pid Hlt. rewrite graceful_started; [apply cleanup_graceful, elem_of_seq; lia|]. intros a Ha. specialize (Hl a Ha). by destruct a.
  - intros ws. unfold Run. cbn [Processes]. enough (Hs : ∀ ps started log, start_all
      ((λ c, mkProcessConfig c.(Name) c.(Cmd) c.(Args) c.(Env) c.(Port) (ws c)) <$> ps) started log = start_all ps started log) by (by rewrite Hs).
    induction ps as [|cfg ps IH]; intros started log; [done|]. cbn [fmap list_fmap start_all Name Cmd Args Env Port].
    destruct (start _ _ _ _); [done|]. fold (fmap (M := list) (λ c, mkProcessConfig c.(Name) c.(Cmd) c.(Args) c.(Env) c.(Port) (ws c)) ps).
    by destruct (0 <? _)%Z; [destruct (waitForPort _ _) as [[]|]|]; rewrite ?IH.
Qed.

End os.

Definition refused : error := Errorf "connection refused" [].

(** Two processes, the second of which never listens. *)
Definition ex_processes : MultiProcessHarness := mkMultiProcessHarness
  [mkProcessConfig "host" "./host" [] ["PORT=1"] 1 ""; mkProcessConfig "plugin" "./plugin" ["-v"] [] 2 "host"].
Definition ex_polls (pid : nat) : list poll :=
  if decide (pid = 0) then [Polled (Some refused); Polled None] else [Polled (Some refused); TimedOut refused].

Lemma Run_stops_what_it_starts_witness :
  ∃ log err, Run ["HOME=/"] (λ _ _ _ _, None) ex_polls (λ _ _, None) ex_processes = Some (log, Some err) ∧
    graceful 1 log = true ∧
    log = [Started 0 "./host" [] ["HOME=/"; "PORT=1"]; Started 1 "./plugin" ["-v"] ["HOME=/"];
           Interrupted 1; Interrupted 0; Slept 500000000; Killed 0; Killed 1].
Proof.
  destruct (Run_stops_what_it_starts ["HOME=/"] (λ _ _ _ _, None) ex_polls (λ _ _, None) ex_processes) as (_ & _ & Hall & _).
  eexists _, _. split; [vm_compute; reflexivity|]. split; [|reflexivity].
  edestruct Hall as (n & Hle & _ & Hst & _ & Hg); [vm_compute; reflexivity|]. apply Hg, Hst.
  exists "./plugin", ["-v"], ["HOME=/"]. right. left.
Defined.

(** ** One server and one client (harness.go) *)

Record Harness := mkHarness { ServerCmd : string; ClientCmd : string; Addr : string; h_Env : list string }.

Section single.
(** [run cmd env]: the error of the client's run. *)
Context (os_environ : list string) (start : nat → string → list string → list string → option error)
  (run : string → list string → option error) (polls : list poll) (get : string → option error).

Definition checkHTTP_get (addr : string) : option error := get ("http://" +:+ addr +:+ "/").

Definition waitForReady (h : Harness) : option (option error) :=
  let addr := if bool_decide (h.(Addr) = "") then "localhost:8080" else h.(Addr) in
  polling (λ err, Errorf "timeout waiting for server: %w" [AErr err]) (checkHTTP_get addr) polls.

(** The second deferred function, which runs before the first. *)
Definition stop_server : list action := [Cancelled; Interrupted 0; Slept (5 * Second)%Z; Killed 0].

Definition Run_single (h : Harness) : option (list action * option error) :=
  let env := os_environ ++ h.(h_Env) in
  match start 0 h.(ServerCmd) [] env with
  | Some err => Some ([Cancelled], Some (Errorf "failed to start server: %w" [AErr err]))
  | None =>
      let started := [Started 0 h.(ServerCmd) [] env] in
      let leave log err := Some (log ++ stop_server ++ [Cancelled], err) in
      match waitForReady h with
      | None => None
      | Some (Some err) => leave started (Some (Errorf "server did not become ready: %w" [AErr err]))
      | Some None =>
          let log := started ++ [Ran h.(ClientCmd) env] in
          match run h.(ClientCmd) env with
          | Some err => leave log (Some (Errorf "client failed: %w" [AErr err]))
          | None => leave log None
          end
      end
  end.

(** A run of a server and a client: the client runs only against a server that is
    ready, the run succeeds exactly when the client does, and the server is killed.
    It never has the time to shut down gracefully that the code waits for: the
    context of its command is cancelled first. *)
Lemma single_run h log err : Run_single h = Some (log, err) →
  (Ran h.(ClientCmd) (os_environ ++ h.(h_Env)) ∈ log ↔
     start 0 h.(ServerCmd) [] (os_environ ++ h.(h_Env)) = None ∧ waitForReady h = Some None) ∧
  (err = None ↔ start 0 h.(ServerCmd) [] (os_environ ++ h.(h_Env)) = None ∧ waitForReady h = Some None ∧
     run h.(ClientCmd) (os_environ ++ h.(h_Env)) = None) ∧
  (Started 0 h.(ServerCmd) [] (os_environ ++ h.(h_Env)) ∈ log → Killed 0 ∈ log) ∧
  graceful 0 log = false.
Proof.
  unfold Run_single, stop_server. destruct (start _ _ _ _) as [e|]; [intros [= <- <-]|].
  { split_and!; [|naive_solver| |reflexivity]; rewrite list_elem_of_singleton; naive_solver. }
  destruct (waitForReady h) as [[e|]|]; [intros [= <- <-]| |done].
  - split_and!; [|naive_solver| |reflexivity]; rewrite !elem_of_cons, elem_of_nil; naive_solver.
  - destruct (run _ _) as [e|]; intros [= <- <-]; (split_and!; [|naive_solver| |reflexivity]; rewrite !elem_of_cons, elem_of_nil; naive_solver).
Qed.

Lemma single_run_returns h err : TimedOut err ∈ polls → is_Some (Run_single h).
Proof.
  intros Hin. unfold Run_single. destruct (start _ _ _ _); [by eexists|]. unfold waitForReady.
  match goal with |- context [polling ?t ?c polls] => destruct (polling_ends t c err polls Hin) as [r ->] end.
  destruct r; [by eexists|]. destruct (run _ _); by eexists.
Qed.
End single.
End testharness.
